(* ===== verification/_CoqProject ===== *)
-Q . S2P
Prelude.v
Double.v
Api.v
MdpMap.v
Messages.v
MdpParser.v
Security.v
SecdefReader.v
SecurityDefinitions.v
Channel.v
MarketData.v
InstrumentDefinition.v
Recovery.v
MbpRecovery.v
MbofdRecovery.v
IncrementalBase.v
IncrementalBook.v
IncrementalTrades.v
Incremental.v
MdpConfig.v
Manager.v
Lines.v
Promises.v
Waiting.v
PcapImport.v
Formatter.v
MdpFormat.v
IlinkFormat.v
Dump.v
Tools.v
IlinkConfig.v
Crypto.v
OrderTypes.v
ILink.v
OrderEntry.v
OrderEntryRuns.v
OrderEntryActions.v
OrderEntryReports.v
OrderEntryReads.v
OrderEntryTrades.v
Gateway.v
