(* ===== verification/Prelude.v ===== *)
(** * roq-cme: verification of the CME gateway

    The program connects the Chicago Mercantile Exchange to the roq framework.
    Its market data side receives the MDP 3.0 multicast feeds, puts their packets
    in order, decodes them, keeps the books of every instrument in step with the
    sequence numbers of the exchange and publishes updates; its order side keeps
    iLink 3 sessions over which orders are entered.  This library translates
    that code into executable definitions and proves what makes it correct.
    Paths are under [src/src/roq/cme/].

    ** Parts

    The market data side, from the wire inwards:
    - [MdpParser] (protocol/mdp/frame.hpp, frame.cpp, parser.cpp): a packet is a frame and
      messages; [parser_dispatch] is [Parser::dispatch].  [Messages] holds the
      decoded messages, [MdpMap] the maps of their enumerations (map.hpp, map.cpp);
    - [Channel] (market_data/channel.cpp, [Incremental::dispatch]): the sequence of
      the two lines of a channel.  [on_packet] classifies a packet as parse, hold
      or drop, [drain] replays the packets held back;
    - [Security] (tools/security.hpp, security.cpp): a security with its report sequence, its two
      sequencers and the chunks of an order snapshot; [SecurityDefinitions]
      (market_data/security_definitions.hpp): the tables of the securities, read
      from a file by [SecdefReader] (secdef/config_reader.cpp);
    - [MarketData] (market_data/shared.hpp, shared.cpp): what all streams write, with the log of
      the events given to the dispatcher, the status of a stream and its timer;
    - the streams, a function from a packet and a state to a state each:
      [InstrumentDefinition], [Recovery] with [MbpRecovery] and [MbofdRecovery]
      (the files of these names), and the incremental feed in four files:
      [IncrementalBase] (sequencing of books, report sequences, statistics),
      [IncrementalBook] (refresh of books), [IncrementalTrades] (trade summaries
      over fragments) and [Incremental] (routing, [Incremental::dispatch]);
    - [MdpConfig] (protocol/mdp/config_reader.cpp, config.cpp): the configuration file and the tables
      made from it; [Manager] (market_data/manager.cpp): eight streams a channel and
      the routing of a packet to one of them; [Lines]: the two incremental
      streams of a channel, and what depends on the line; [Promises] and [Waiting]: what
      all handlers keep together (requests for snapshots, reference data, groups),
      and what it means over the runs of the manager.

    The order side and the process:
    - [OrderTypes] (the helpers of gateway/order_entry.cpp): identifiers, maps,
      conversions, accessors of reports; [ILink] (protocol/ilink): requests,
      frames, the parser; [Crypto] (tools/crypto.cpp): what is signed;
    - [OrderEntry] (gateway/order_entry.cpp): a session, as computations [M] that can
      throw: an operation of the C++ class is a definition of the same name, with
      [on_...] for the overloads of [operator()]; its theorems are in [OrderEntryRuns],
      [OrderEntryActions], [OrderEntryReports], [OrderEntryReads] and [OrderEntryTrades];
    - [IlinkConfig] (protocol/ilink/config_reader.cpp) and [Gateway] (the other files of gateway):
      accounts, receivers, sessions, and how the controller routes what arrives;
    - [PcapImport] (import/controller.cpp): the market data side driven by a capture;
      [Tools]: the channel tester and the filter;
    - [Formatter], [MdpFormat] and [IlinkFormat] (the headers of protocol/mdp and
      protocol/ilink): the text of every message, each formatter as the list of
      the fields it prints; [Dump] (dump/controller.cpp): the tool that prints a
      capture with them.

    [Prelude] (this file) has the machine integers, errors, the monads [res] and
    [M] and the lemmas on them; [Double] the binary64 numbers and [Api] the
    vocabulary of the framework.

    How the parts meet: a receiver gives a packet to the manager
    ([manager_dispatch]), which gives it to a stream; the streams of all channels
    share one [Shared]; the incremental stream asks for snapshots by writing
    [resubscribe] of a security and the recovery streams answer by clearing it;
    order entry reads the securities that the definitions made.

    ** Effects

    A function that can throw, stop the process or run into undefined behaviour
    returns [res]: the errors are listed at [error].  The state is passed and
    returned; in [M] it survives an exception, because the code leaves behind
    what it wrote.  What leaves the program is appended to a log in the state: the
    events of the dispatcher ([log] of [Shared]) and what a session does
    ([oe_events]: requests, bytes, statuses, responses, trades).  References to
    securities are ids, and what a callback writes is stored back under the id.
    Integers are [Z] with [wrap] at every operation of the code that can wrap;
    doubles are binary64 with the rounding of the machine.  [assert] is off, as
    in a release build; what goes wrong then is an error or a finding.

    ** Code outside the repository

    It is a parameter of the definitions, as a class whose laws are the documented
    behaviour and nothing more: [Sequencer] (the framework's book sequencers, as
    finite resumptions that call back; no law), [UdpBuffer] (the reorder buffer),
    [MdpSbe] and [IlinkSbe] (the generated decoders and encoders: a header is read
    from its own bytes and template ids differ), [Download2] (the download state
    machine; no law), [Mac] (HMAC, and a text writer that writes what fits), [OrderEnv] (clocks and
    connection as functions of the number of uses; no law beyond a cast that
    fits), [HashOrder] and [MapOrder] (the order of hash tables: some permutation),
    [DiscardSymbol], [ImportClock] (the clocks of the import), [SafeCast], [FromChars...], [StripWhitespace], [RegexMatch],
    [RequestTypes], [PriceNull9], [OrderStatusChar].  A theorem that needs more
    of one says so: [reliable] is a connection that takes every request,
    [loads_orders] a download that asks for the orders and waits for the last.
    The witnesses instantiate all of them with concrete functions.  The connection
    manager, the XML parser, sockets and timers call back: a run is a list of
    inputs and the theorems hold for every list.

    ** Theorems

    - Order of packets: [channel_in_sequence], [channel_complete],
      [lines_order_independent].  The packets parsed are in sequence, none is
      lost or doubled, and what the two lines of a channel lead to does not depend on
      how their packets interleave, up to the stream that the events name.
    - Books: [check_report_sequence_spec], [on_book_46_spec],
      [order_book_47_fragments], [order_book_47_last] and, for the recovery,
      [chunked_snapshot], [chunks_mixed], [on_snapshot_full_refresh_effect],
      [feed_chunks_complete], [feed_chunks_safe].
    - Requests for snapshots, over any run: [requests_answered] (none is lost),
      [stale_books_recovered] (a book that became stale gets a snapshot or is
      waited for), [snapshot_answers] (what an answer publishes and changes), and
      the limit of it: [single_chunk_once] (an order snapshot in one chunk is taken
      once and never again).
    - Trades: [trade_summary_complete], [trade_summary_fragments],
      [trade_summary_interrupted] (an event of another channel in between drops the
      trades), [trade_summary_out_of_bounds].
    - Sessions: [session_refines_specification] compares every run with a monitor
      of a few lines; [create_order_sends], [changes_send], [cancel_all_sends] and
      [actions_refused] say what an action does, [responses_routed],
      [reports_ignored] and [mass_action_report] what a report does, [trades_published]
      which trades are published and whose they are; [login_completes] is the login from end to end; [on_read_split],
      [heartbeat_inverted].
    - The whole: [controller_safe] for any run of the gateway, with [manager_safe]
      and [incremental_safe] below it; [sessions_first_segment],
      [create_manager_streams], [actions_routed]; [import_log], [import_timers].
    - Texts and bytes: [parser_dispatch_encode], [secdef_dispatch_render],
      [config_dispatch_render], [read_ilink_config_render],
      [order_request_id_roundtrip], [set_price_quarters], [signature_text_binds].
    - Definitions: [create_definitions_wf], [on_new_definition_first],
      [read_secdef_published]; over any run, [reference_data_first] (nothing is said
      of an instrument before its reference data) and [file_groups_fixed] (the groups
      of the securities of the file).
    - Text: [formatters_read_back] (every value stands under its own name),
      [labels_name_accessors], [dump_lines_read_back] and its exception
      [dump_line_unread].

    ** Bounds and fuel

    Each loop of the code that is not over a list has fuel, and returns [None] when
    it runs out.  [parse_loop], [secdef_loop], [ilink_loop] and [read_loop] get the
    number of bytes, since a turn takes one or more ([parse_loop_terminates],
    [read_loop_terminates]).  [drain] gets one more than the number of packets
    held back, since a turn takes one out.  [catch_up] gets the number of timer
    periods up to the packet ([import_timers]).  [set_price_quarters] is
    checked by evaluation on its whole range.  [controller_safe] needs fewer than
    8192 channels, so that the 16 bit stream ids do not wrap.

    ** Not modelled

    - All logging of the gateway, and the formatters that only it uses: those of
      settings, of [CanonicalMessage] and of [Security].
    - Metrics and profiles: counters that nothing reads.
    - Applications, flags, bridges: start of the process, generated flags, glue.
    - [compute_length] of the message classes: nothing calls it.
    - Of the import, the books it keeps for reference data, their comparison for
      tests and the writer of the log file: calls of library code whose results
      nothing else uses.
    - Of the requests, the members that always have the same value: they are
      constants of the encoder.  [MassQuote] and [QuoteCancel]: nothing makes one. *)

From stdpp Require Export base option list gmap strings pretty.
From Stdlib Require Export ZArith Lia.

Create HintDb cme.
Create Rewrite HintDb cme.

Declare Scope cme_scope.
Delimit Scope cme_scope with cme.
#[global] Open Scope Z_scope.

(** ** Machine integers

    An unsigned integer of width [w] is the [Z] of its value; every operation
    of the code that can wrap is followed by [wrap w]. *)

Definition wrap (w z : Z) : Z := z mod 2 ^ w.

Abbreviation u8 := (wrap 8).
Abbreviation u16 := (wrap 16).
Abbreviation u32 := (wrap 32).
Abbreviation u64 := (wrap 64).

Definition in_width (w z : Z) : Prop := 0 ≤ z < 2 ^ w.

#[global] Instance in_width_dec w z : Decision (in_width w z).
Proof. unfold in_width. apply _. Defined.

Lemma wrap_range w z : 0 ≤ w → in_width w (wrap w z).
Proof. intros. apply Z.mod_pos_bound, Z.pow_pos_nonneg; lia. Qed.

Lemma wrap_small w z : in_width w z → wrap w z = z.
Proof. apply Z.mod_small. Qed.

Lemma wrap_wrap w z : wrap w (wrap w z) = wrap w z.
Proof.
  destruct (decide (0 ≤ w)).
  - apply wrap_small, wrap_range; lia.
  - unfold wrap. rewrite Z.pow_neg_r, !Z.mod_0_r by lia. done.
Qed.

(** Two's complement: the signed integer of width [w] with the low bits of [z]. *)
Definition to_signed (w z : Z) : Z := if wrap w z <? 2 ^ (w - 1) then wrap w z else wrap w z - 2 ^ w.

Lemma to_signed_small w z : 0 < w → 0 ≤ z < 2 ^ (w - 1) → to_signed w z = z.
Proof.
  intros. assert (2 ^ (w - 1) ≤ 2 ^ w) by (apply Z.pow_le_mono_r; lia).
  unfold to_signed. rewrite wrap_small by (unfold in_width; lia).
  by rewrite (proj2 (Z.ltb_lt _ _)) by lia.
Qed.

#[export] Hint Resolve wrap_range : cme.
#[export] Hint Rewrite wrap_wrap : cme.

(** ** Errors

    [throw], [log::fatal], and the undefined behaviour that the modelled code
    can run into, are values of [error]. *)

Inductive error :=
  | RuntimeError            (** [throw RuntimeError] *)
  | OutOfRange              (** [std::out_of_range] of the standard library *)
  | Fatal                   (** [log::fatal]: the process stops *)
  | AccessOutOfBounds       (** unchecked access beyond a buffer *)
  | BadConversion           (** a conversion of [double] to an integer that can not hold it *)
  | NotReady                (** [throw server::oms::NotReady] *)
  | NotSupported            (** [throw server::oms::NotSupported] *)
  | Rejected (reason : string). (** [throw server::oms::Rejected] *)

#[global] Instance error_eq_dec : EqDecision error.
Proof. solve_decision. Defined.

Inductive res (A : Type) :=
  | Ok (a : A)
  | Err (e : error).
Arguments Ok {A} a.
Arguments Err {A} e.

#[global] Instance res_ret : MRet res := λ A a, Ok a.
#[global] Instance res_bind : MBind res := λ A B f m,
  match m with Ok a => f a | Err e => Err e end.
#[global] Instance res_fmap : FMap res := λ A B f m,
  match m with Ok a => Ok (f a) | Err e => Err e end.

Definition is_ok {A} (m : res A) : bool := match m with Ok _ => true | Err _ => false end.

Lemma is_ok_value {A} (m : res A) : is_ok m = true → ∃ a, m = Ok a.
Proof. destruct m; [eauto|done]. Qed.

Lemma res_bind_Ok {A B} (m : res A) (f : A → res B) b :
  (m ≫= f) = Ok b ↔ ∃ a, m = Ok a ∧ f a = Ok b.
Proof. destruct m; simpl; naive_solver. Qed.

(** A monadic left fold: the loops of the code whose body can fail. *)
Fixpoint foldM {A S} (f : S → A → res S) (s : S) (l : list A) : res S :=
  match l with
  | [] => Ok s
  | x :: l => s ← f s x; foldM f s l
  end.

Lemma foldM_app {A S} (f : S → A → res S) s l1 l2 :
  foldM f s (l1 ++ l2) = (s ← foldM f s l1; foldM f s l2).
Proof. revert s. induction l1 as [|x l1 IH]; intros s; [done|]. simpl. destruct (f s x); simpl; auto. Qed.

(** A loop whose body never fails is a fold. *)
Lemma foldM_Ok {A S} (f : S → A → res S) (g : S → A → S) (P : S → Prop) s l :
  P s →
  (∀ s x, P s → x ∈ l → f s x = Ok (g s x) ∧ P (g s x)) →
  foldM f s l = Ok (foldl g s l) ∧ P (foldl g s l).
Proof.
  revert s. induction l as [|x l IH]; intros s Hs Hstep; [done|]. simpl.
  destruct (Hstep s x) as [-> HP]; [done|set_solver|]. simpl.
  apply IH; [done|]. intros. apply Hstep; [done|set_solver].
Qed.

(** An invariant of a fold. *)
Lemma foldl_inv {A S} (P : S → Prop) (f : S → A → S) s l :
  P s → (∀ s x, P s → x ∈ l → P (f s x)) → P (foldl f s l).
Proof.
  revert s. induction l as [|x l IH]; intros s Hs Hstep; [done|].
  apply IH; [apply Hstep; [done|set_solver]|]. intros. apply Hstep; [done|set_solver].
Qed.

(** A relation that the body establishes holds across a loop. *)
Lemma foldl_rel {A S} (R : relation S) `{!PreOrder R} (f : S → A → S) s l :
  (∀ s x, R s (f s x)) → R s (foldl f s l).
Proof. intros Hf. revert s. induction l as [|x l IH]; intros s; [done|]. simpl. by etrans; [apply Hf|]. Qed.

Lemma foldM_rel {A S T} (R : relation T) `{!PreOrder R} (π : S → T) (f : S → A → res S) s l s' :
  (∀ s x s', x ∈ l → f s x = Ok s' → R (π s) (π s')) → foldM f s l = Ok s' → R (π s) (π s').
Proof.
  revert s. induction l as [|x l IH]; intros s Hf; [by intros [= <-]|].
  intros (s1 & Hs1 & Hrest)%res_bind_Ok. trans (π s1); [by eapply Hf; [left|]|].
  apply IH; [|done]. intros s2 y s3 Hy. apply Hf. by right.
Qed.

(** ** State and exceptions

    A computation over a state [S] that can throw: the state that was reached
    when an exception was thrown is kept. *)

Definition M (S A : Type) : Type := S → S * res A.

#[global] Instance M_ret S : MRet (M S) := λ A a s, (s, Ok a).
#[global] Instance M_bind S : MBind (M S) := λ A B f m s,
  match m s with
  | (s, Ok a) => f a s
  | (s, Err e) => (s, Err e)
  end.

Definition throw {S A} (e : error) : M S A := λ s, (s, Err e).
Definition lift {S A} (r : res A) : M S A := λ s, (s, r).
Definition gets {S A} (f : S → A) : M S A := λ s, (s, Ok (f s)).
Definition modify {S} (f : S → S) : M S unit := λ s, (f s, Ok tt).
Definition when {S} (b : bool) (m : M S unit) : M S unit := if b then m else mret tt.

(** The loop over a list. *)
Fixpoint for_each {S A} (l : list A) (f : A → M S unit) : M S unit :=
  match l with
  | [] => mret tt
  | x :: l => f x ≫= λ _, for_each l f
  end.

Lemma M_bind_Ok {S A B} (m : M S A) (f : A → M S B) s s' a : m s = (s', Ok a) → (m ≫= f) s = f a s'.
Proof. intros Hm. unfold mbind, M_bind. by rewrite Hm. Qed.

Lemma M_bind_Err {S A B} (m : M S A) (f : A → M S B) s s' e : m s = (s', Err e) → (m ≫= f) s = (s', Err e).
Proof. intros Hm. unfold mbind, M_bind. by rewrite Hm. Qed.

Lemma M_bind_assoc {S A B C} (m : M S A) (f : A → M S B) (g : B → M S C) s :
  ((m ≫= f) ≫= g) s = (m ≫= λ a, f a ≫= g) s.
Proof. unfold mbind, M_bind. by destruct (m s) as [s' [a|e]]. Qed.

(** Hoare triples: from [P], a computation that returns ends in [Q], and one
    that throws ends in [I]. *)
Definition triple {S A} (I P : S → Prop) (m : M S A) (Q : A → S → Prop) : Prop :=
  ∀ s, P s → match m s with (s', Ok a) => Q a s' | (s', Err _) => I s' end.

(** The triple of an invariant. *)
Definition keeps {S A} (I : S → Prop) (m : M S A) : Prop := triple I I m (λ _, I).

Section triples.
Context {S : Type} (I : S → Prop).
Implicit Types P : S → Prop.

Lemma triple_ret {A} P (a : A) (Q : A → S → Prop) : (∀ s, P s → Q a s) → triple I P (mret a) Q.
Proof. intros HQ s. apply HQ. Qed.

Lemma triple_bind {A B} P (m : M S A) (f : A → M S B) Q R :
  triple I P m Q → (∀ a, triple I (Q a) (f a) R) → triple I P (m ≫= f) R.
Proof.
  intros Hm Hf s Hs. specialize (Hm s Hs). unfold mbind, M_bind.
  destruct (m s) as [s' [a|e]]; [by apply Hf|done].
Qed.

Lemma triple_weaken {A} (P P' : S → Prop) (m : M S A) (Q Q' : A → S → Prop) :
  triple I P' m Q' → (∀ s, P s → P' s) → (∀ a s, Q' a s → Q a s) → triple I P m Q.
Proof.
  intros Hm HP HQ s Hs. specialize (Hm s (HP s Hs)). destruct (m s) as [s' [a|e]]; auto.
Qed.

Lemma triple_exn {A} (I' P : S → Prop) (m : M S A) Q :
  (∀ s, I s → I' s) → triple I P m Q → triple I' P m Q.
Proof. intros HI Hm s Hs. specialize (Hm s Hs). destruct (m s) as [s' [a|e]]; auto. Qed.

Lemma triple_modify P f (Q : unit → S → Prop) : (∀ s, P s → Q tt (f s)) → triple I P (modify f) Q.
Proof. intros HQ s. apply HQ. Qed.

Lemma triple_gets {A} P (f : S → A) Q : (∀ s, P s → Q (f s) s) → triple I P (gets f) Q.
Proof. intros HQ s. apply HQ. Qed.

Lemma triple_lift {A} P (r : res A) (Q : A → S → Prop) :
  (∀ s, P s → I s) → (∀ a s, r = Ok a → P s → Q a s) → triple I P (lift r) Q.
Proof. intros HI HQ s Hs. unfold lift. destruct r; auto. Qed.

Lemma triple_throw {A} P e (Q : A → S → Prop) : (∀ s, P s → I s) → triple I P (throw e) Q.
Proof. intros HI s. apply HI. Qed.

Lemma keeps_ret {A} (a : A) : keeps I (mret a).
Proof. by apply triple_ret. Qed.
Lemma keeps_bind {A B} (m : M S A) (f : A → M S B) : keeps I m → (∀ a, keeps I (f a)) → keeps I (m ≫= f).
Proof. intros Hm Hf. eapply triple_bind; [exact Hm|exact Hf]. Qed.
Lemma keeps_lift {A} (r : res A) : keeps I (lift r).
Proof. by apply triple_lift. Qed.
Lemma keeps_gets {A} (f : S → A) : keeps I (gets f).
Proof. by apply triple_gets. Qed.
Lemma keeps_throw {A} e : keeps I (throw e : M S A).
Proof. by apply triple_throw. Qed.
Lemma keeps_modify f : (∀ s, I s → I (f s)) → keeps I (modify f).
Proof. intros Hf s Hs. by apply Hf. Qed.
Lemma keeps_when b m : keeps I m → keeps I (when b m).
Proof. intros Hm. destruct b; [done|apply keeps_ret]. Qed.
Lemma keeps_for_each {A} (l : list A) f : (∀ x, keeps I (f x)) → keeps I (for_each l f).
Proof. intros Hf. induction l; simpl; [apply keeps_ret|apply keeps_bind; auto]. Qed.

Lemma keeps_outcome {A} (m : M S A) s : keeps I m → I s → I (m s).1.
Proof. intros Hm Hs. specialize (Hm s Hs). by destruct (m s) as [s' [a|e]]. Qed.
End triples.

Create HintDb keeps.
#[export] Hint Resolve keeps_ret keeps_bind keeps_lift keeps_gets keeps_throw keeps_when keeps_for_each : keeps.

(** ** Strings *)

(** The double quote, which a literal can not hold. *)
Definition quote_char : Ascii.ascii := Ascii.ascii_of_nat 34.
Definition quote : string := String quote_char EmptyString.

Definition newline : string := String (Ascii.ascii_of_nat 10) EmptyString.

Fixpoint all_chars (p : Ascii.ascii → bool) (s : string) : bool :=
  match s with EmptyString => true | String c s => p c && all_chars p s end.

Lemma str_app_assoc (a b c : string) : (a +:+ b) +:+ c = a +:+ (b +:+ c).
Proof. induction a as [|x a IH]; [done|]. exact (f_equal (String x) IH). Qed.

Lemma str_length_app (a b : string) : String.length (a +:+ b) = (String.length a + String.length b)%nat.
Proof. induction a as [|x a IH]; [done|]. exact (f_equal S IH). Qed.

Lemma string_app_nil_r v : v +:+ "" = v.
Proof. induction v as [|c v IH]; [done|]. exact (f_equal (String c) IH). Qed.

Lemma str_app_inv_l (a b c : string) : a +:+ b = a +:+ c → b = c.
Proof. induction a as [|x a IH]; [done|]. intros [= ?]. by apply IH. Qed.

Lemma all_chars_impl (p q : Ascii.ascii → bool) a :
  (∀ c, p c → q c) → all_chars p a → all_chars q a.
Proof.
  intros Hpq. induction a as [|c a IH]; simpl; [done|].
  intros [??]%andb_prop_elim. apply andb_prop_intro; auto.
Qed.

Lemma all_chars_app p a b : all_chars p (a +:+ b) = all_chars p a && all_chars p b.
Proof.
  induction a as [|c a IH]; [done|].
  change (p c && all_chars p (a +:+ b) = (p c && all_chars p a) && all_chars p b).
  by rewrite IH, andb_assoc.
Qed.

(** ** Maps

    [try_emplace]: an entry that is there stays. *)
Definition try_emplace {K A} `{Countable K} (k : K) (v : A) (m : gmap K A) : gmap K A :=
  match m !! k with Some _ => m | None => <[k:=v]> m end.

Lemma lookup_try_emplace {K A} `{Countable K} (k j : K) (v : A) m :
  try_emplace k v m !! j = if decide (k = j) then Some (default v (m !! j)) else m !! j.
Proof.
  unfold try_emplace. case_decide as Hkj; [subst j|].
  - destruct (m !! k) eqn:E; simpl; [done|]. by rewrite lookup_insert_eq.
  - destruct (m !! k); [done|]. by rewrite lookup_insert_ne.
Qed.

(** ** Tactics *)

(** [destruct_match]: case analysis on the scrutinee of a match of the goal. *)
Ltac destruct_match :=
  match goal with
  | |- context [match ?x with _ => _ end] => destruct x eqn:?
  end.

(** Boolean guards of the code, turned into arithmetic. *)
Ltac bool_to_prop :=
  repeat match goal with
  | H : andb _ _ = true |- _ => apply andb_true_iff in H as [? ?]
  | H : andb _ _ = false |- _ => apply andb_false_iff in H
  | H : orb _ _ = true |- _ => apply orb_true_iff in H
  | H : orb _ _ = false |- _ => apply orb_false_iff in H as [? ?]
  | H : negb _ = true |- _ => apply negb_true_iff in H
  | H : negb _ = false |- _ => apply negb_false_iff in H
  | H : (_ =? _)%Z = true |- _ => apply Z.eqb_eq in H
  | H : (_ =? _)%Z = false |- _ => apply Z.eqb_neq in H
  | H : (_ <? _)%Z = true |- _ => apply Z.ltb_lt in H
  | H : (_ <? _)%Z = false |- _ => apply Z.ltb_ge in H
  | H : (_ <=? _)%Z = true |- _ => apply Z.leb_le in H
  | H : (_ <=? _)%Z = false |- _ => apply Z.leb_gt in H
  end.

(** [cases]: split every guard of the goal, then close the branches that
    arithmetic or congruence closes. *)
Ltac cases := repeat (destruct_match; simpl in *); bool_to_prop; simplify_eq; try done; try lia.
