(* ===== verification/Double.v ===== *)
(** IEEE-754 binary64 values, as the C++ [double] of the code: the executable
    specification floats of the Standard Library at precision 53. *)

From Stdlib Require Import SpecFloat.
From S2P Require Import Prelude.

Definition double : Type := spec_float.
Definition binary64_prec : Z := 53.
Definition binary64_emax : Z := 1024.

#[global] Instance double_eq_dec : EqDecision double.
Proof. unfold double. solve_decision. Defined.

Definition NaN : double := S754_nan.
Definition zero_d : double := S754_zero false.

(** [std::isnan]. *)
Definition isnan (x : double) : bool := match x with S754_nan => true | _ => false end.

(** [static_cast<double>] of an integer: round to nearest, ties to even. *)
Definition double_of_Z (z : Z) : double := binary_normalize binary64_prec binary64_emax z 0 false.

(** [*] on doubles. *)
Definition dmul (x y : double) : double := SFmul binary64_prec binary64_emax x y.
Definition ddiv (x y : double) : double := SFdiv binary64_prec binary64_emax x y.
Definition dadd (x y : double) : double := SFadd binary64_prec binary64_emax x y.
Definition deqb (x y : double) : bool := SFeqb x y.

(** [std::pow(10.0, e)]: the power of ten nearest to the exact value. *)
Definition pow10 (e : Z) : double :=
  if 0 <=? e then double_of_Z (10 ^ e) else ddiv (double_of_Z 1) (double_of_Z (10 ^ (- e))).

(** [static_cast] of a [double] to an integer of the range [lo .. hi]: towards
    zero; undefined for values that do not fit. *)
Definition cast_double (lo hi : Z) (x : double) : res Z :=
  let check z := if (lo <=? z) && (z <=? hi) then Ok z else Err BadConversion in
  match x with
  | S754_zero _ => check 0
  | S754_finite s m e =>
    let abs := if 0 <=? e then Z.pos m * 2 ^ e else Z.pos m / 2 ^ (- e) in
    check (if s then - abs else abs)
  | _ => Err BadConversion
  end.

Example dmul_rounds : dmul (double_of_Z 412500000000) (pow10 (-9)) = ddiv (double_of_Z 4125) (double_of_Z 10).
Proof. vm_compute. reflexivity. Qed.
