(* ===== verification/Api.v ===== *)
(** The vocabulary of the roq API that the sources use: enumerations, the
    update records the gateway publishes, and the events it hands to the
    dispatcher.

    Each enumeration lists the enumerators that the sources name.  A record
    has the members to which the sources give a value that is not the
    value-initialised one and not [NaN]; the others are constants and are left
    out. *)

From Stdlib Require Import Ascii.
From S2P Require Import Prelude Double.

Module Side.
Inductive t := UNDEFINED | BUY | SELL.
#[global] Instance eq_dec : EqDecision t.
Proof. solve_decision. Defined.
End Side.

(** [utils::invert] of a side. *)
Definition invert (s : Side.t) : Side.t :=
  match s with Side.UNDEFINED => Side.UNDEFINED | Side.BUY => Side.SELL | Side.SELL => Side.BUY end.

Module UpdateAction.
Inductive t := UNDEFINED | NEW | CHANGE | DELETE | TRADE.
#[global] Instance eq_dec : EqDecision t.
Proof. solve_decision. Defined.
End UpdateAction.

Module UpdateType.
Inductive t := UNDEFINED | SNAPSHOT | INCREMENTAL | STALE.
#[global] Instance eq_dec : EqDecision t.
Proof. solve_decision. Defined.
End UpdateType.

Module StatisticsType.
Inductive t := UNDEFINED | OPEN_PRICE | SETTLEMENT_PRICE | CLOSE_PRICE | OPEN_INTEREST
  | HIGHEST_TRADED_PRICE | LOWEST_TRADED_PRICE | TRADE_VOLUME.
#[global] Instance eq_dec : EqDecision t.
Proof. solve_decision. Defined.
End StatisticsType.

Module TradingStatus.
Inductive t := UNDEFINED | START_OF_DAY | PRE_OPEN | OPEN | HALT | CLOSE | POST_CLOSE.
#[global] Instance eq_dec : EqDecision t.
Proof. solve_decision. Defined.
End TradingStatus.

Module ConnectionStatus.
Inductive t := UNDEFINED | DISCONNECTED | LOGIN_SENT | DOWNLOADING | READY.
#[global] Instance eq_dec : EqDecision t.
Proof. solve_decision. Defined.
End ConnectionStatus.

Module Priority.
Inductive t := UNDEFINED | PRIMARY | SECONDARY.
#[global] Instance eq_dec : EqDecision t.
Proof. solve_decision. Defined.
End Priority.

Module SecurityType.
Inductive t := UNDEFINED | FUTURES | OPTION.
#[global] Instance eq_dec : EqDecision t.
Proof. solve_decision. Defined.
End SecurityType.

Module SupportType.
Inductive t := REFERENCE_DATA | MARKET_STATUS | TOP_OF_BOOK | MARKET_BY_PRICE
  | MARKET_BY_ORDER | TRADE_SUMMARY | STATISTICS | CREATE_ORDER | MODIFY_ORDER
  | CANCEL_ORDER | ORDER_ACK | ORDER | TRADE.
#[global] Instance eq_dec : EqDecision t.
Proof. solve_decision. Defined.
End SupportType.

(** Times are nanoseconds. *)
Record TraceInfo := {
  ti_source_receive_time : Z;
  ti_origin_create_time : Z;
  ti_origin_create_time_utc : Z;
}.

Record MBPUpdate := {
  mbp_price : double;
  mbp_quantity : double;
  mbp_implied_quantity : double;
  mbp_number_of_orders : double;
  mbp_update_action : UpdateAction.t;
  mbp_price_level : Z;
}.

Record MBOUpdate := {
  mbo_price : double;
  mbo_quantity : double;
  mbo_priority : Z;
  mbo_order_id : string;
  mbo_side : Side.t;
  mbo_action : UpdateAction.t;
}.

Record Layer := { bid_price : double; ask_price : double }.

(** [Layer{}]: both prices undefined. *)
Definition empty_layer : Layer := {| bid_price := NaN; ask_price := NaN |}.

Record Trade := {
  trade_side : Side.t;
  trade_price : double;
  trade_quantity : double;
  trade_id : string;
  trade_taker_order_id : string;
  trade_maker_order_id : string;
}.

Record Statistics := { stat_type : StatisticsType.t; stat_value : double }.

(** The identification and timing members that all the updates share. *)
Record update_header := {
  uh_stream_id : Z;
  uh_exchange : string;
  uh_symbol : string;
  uh_exchange_time_utc : Z;
  uh_exchange_sequence : Z;
  uh_sending_time_utc : Z;
}.

Record ReferenceData := {
  rd_stream_id : Z;
  rd_exchange : string;
  rd_symbol : string;
  rd_security_type : SecurityType.t;
  rd_external_security_id : Z;
  rd_quote_currency : string;
  rd_settlement_currency : string;
  rd_tick_size : double;
  rd_multiplier : double;
  rd_min_trade_vol : double;
  rd_max_trade_vol : double;
  rd_strike_currency : string;
  rd_discard : bool;
}.

Record StreamStatus := {
  ss_stream_id : Z;
  ss_supports : list SupportType.t;
  ss_priority : Priority.t;
  ss_connection_status : ConnectionStatus.t;
  ss_interface : string;
  ss_path : string;
}.

(** What the market data side hands to [server::md::Dispatcher], in order. *)
Inductive md_event :=
  | EvStreamStatus (s : StreamStatus)
  | EvExternalLatency (stream_id latency : Z)
  | EvReferenceData (r : ReferenceData)
  | EvMarketStatus (h : update_header) (s : TradingStatus.t)
  | EvTopOfBook (h : update_header) (l : Layer) (t : UpdateType.t)
  | EvMarketByPriceUpdate (h : update_header) (bids asks : list MBPUpdate) (t : UpdateType.t)
  | EvMarketByOrderUpdate (h : update_header) (orders : list MBOUpdate) (t : UpdateType.t)
  | EvTradeSummary (h : update_header) (trades : list Trade)
  | EvStatisticsUpdate (h : update_header) (statistics : list Statistics) (t : UpdateType.t)
  (** the dispatcher's callback let a sequencer apply withheld updates *)
  | EvApplied (exchange_sequence : Z).

(** [utils::safe_cast] between the integer types of the wire format and
    [double]; the conversion to [int32_t] can fail. *)
Class SafeCast := {
  safe_cast_to_double : Z → double;
  safe_cast_to_int32 : double → res Z;
}.

(** [fmt::format("{}"sv, n)] of an unsigned integer. *)
Definition fmt_Z (n : Z) : string := pretty n.

#[global] Instance fmt_Z_inj : Inj (=) (=) fmt_Z.
Proof. unfold fmt_Z. apply _. Qed.

Definition is_number_char (c : Ascii.ascii) : bool :=
  bool_decide (c ∈ (["-"; "0"; "1"; "2"; "3"; "4"; "5"; "6"; "7"; "8"; "9"]%char : list Ascii.ascii)).

Lemma pretty_N_go_number x s : all_chars is_number_char s → all_chars is_number_char (pretty_N_go x s).
Proof.
  revert s. induction (N.lt_wf_0 x) as [x _ IH]; intros s Hs.
  destruct (decide (x = 0%N)) as [->|]; [done|]. rewrite pretty_N_go_step by lia.
  apply IH; [apply N.div_lt; lia|]. apply andb_prop_intro. split; [|done].
  unfold pretty_N_char. by repeat case_match.
Qed.

(** An integer is printed with digits and a sign. *)
Lemma fmt_Z_number z : all_chars is_number_char (fmt_Z z).
Proof.
  unfold fmt_Z, pretty, pretty_Z.
  assert (∀ p, all_chars is_number_char (@pretty positive _ p)) as Hp.
  { intros p. unfold pretty, pretty_positive, pretty, pretty_N.
    rewrite decide_False by done. by apply pretty_N_go_number. }
  destruct z as [|p|p]; [done|apply Hp|].
  rewrite all_chars_app. apply andb_prop_intro. split; [done|apply Hp].
Qed.
