(* ===== verification/MdpMap.v ===== *)
(** Mapping of the MDP wire types to the roq types
    (src/roq/cme/protocol/mdp/map.hpp and map.cpp).

    The SBE enumerations are generated code: each is the inductive type of the
    enumerators that the switches of map.cpp list.  A switch returns from every
    listed enumerator, so the [return {}] after it is not reachable from a
    named value; the maps keep the [std::optional] of the code. *)

From S2P Require Import Prelude Double Api.

Module AggressorSide.
Inductive Value := NoAggressor | Buy | Sell | NULL_VALUE.
End AggressorSide.

Module MDEntryTypeBook.
Inductive Value := Bid | Offer | ImpliedBid | ImpliedOffer | BookReset
  | MarketBestOffer | MarketBestBid | NULL_VALUE.
End MDEntryTypeBook.

Module MDEntryTypeDailyStatistics.
Inductive Value := SettlementPrice | ClearedVolume | OpenInterest | FixingPrice | NULL_VALUE.
End MDEntryTypeDailyStatistics.

Module MDEntryTypeStatistics.
Inductive Value := OpenPrice | HighTrade | LowTrade | VWAP | HighestBid | LowestOffer | NULL_VALUE.
End MDEntryTypeStatistics.

Module MDUpdateAction.
Inductive Value := New | Change | Delete | DeleteThru | DeleteFrom | Overlay | NULL_VALUE.
End MDUpdateAction.

Module OrderUpdateAction.
Inductive Value := New | Update | Delete | NULL_VALUE.
End OrderUpdateAction.

Module SecurityTradingStatus.
Inductive Value := TradingHalt | Close | NewPriceIndication | ReadyToTrade
  | NotAvailableForTrading | UnknownorInvalid | PreOpen | PreCross | Cross | PostClose
  | NoChange | PrivateWorkup | PublicWorkup | NULL_VALUE.
End SecurityTradingStatus.

Module SbeSide.
Inductive Value := Buy | Sell | NULL_VALUE.
End SbeSide.

Definition map_AggressorSide (v : AggressorSide.Value) : option Side.t :=
  match v with
  | AggressorSide.NoAggressor => Some Side.UNDEFINED
  | AggressorSide.Buy => Some Side.BUY
  | AggressorSide.Sell => Some Side.SELL
  | AggressorSide.NULL_VALUE => Some Side.UNDEFINED
  end.

Definition map_MDEntryTypeBook (v : MDEntryTypeBook.Value) : option Side.t :=
  match v with
  | MDEntryTypeBook.Bid => Some Side.BUY
  | MDEntryTypeBook.Offer => Some Side.SELL
  | MDEntryTypeBook.ImpliedBid => Some Side.UNDEFINED
  | MDEntryTypeBook.ImpliedOffer => Some Side.UNDEFINED
  | MDEntryTypeBook.BookReset => Some Side.UNDEFINED
  | MDEntryTypeBook.MarketBestOffer => Some Side.UNDEFINED
  | MDEntryTypeBook.MarketBestBid => Some Side.UNDEFINED
  | MDEntryTypeBook.NULL_VALUE => Some Side.UNDEFINED
  end.

Definition map_MDEntryTypeDailyStatistics (v : MDEntryTypeDailyStatistics.Value)
    : option StatisticsType.t :=
  match v with
  | MDEntryTypeDailyStatistics.SettlementPrice => Some StatisticsType.SETTLEMENT_PRICE
  | MDEntryTypeDailyStatistics.ClearedVolume => Some StatisticsType.UNDEFINED
  | MDEntryTypeDailyStatistics.OpenInterest => Some StatisticsType.OPEN_INTEREST
  | MDEntryTypeDailyStatistics.FixingPrice => Some StatisticsType.CLOSE_PRICE
  | MDEntryTypeDailyStatistics.NULL_VALUE => Some StatisticsType.UNDEFINED
  end.

Definition map_MDEntryTypeStatistics (v : MDEntryTypeStatistics.Value) : option StatisticsType.t :=
  match v with
  | MDEntryTypeStatistics.OpenPrice => Some StatisticsType.OPEN_PRICE
  | MDEntryTypeStatistics.HighTrade => Some StatisticsType.HIGHEST_TRADED_PRICE
  | MDEntryTypeStatistics.LowTrade => Some StatisticsType.LOWEST_TRADED_PRICE
  | MDEntryTypeStatistics.VWAP => Some StatisticsType.UNDEFINED
  | MDEntryTypeStatistics.HighestBid => Some StatisticsType.UNDEFINED
  | MDEntryTypeStatistics.LowestOffer => Some StatisticsType.UNDEFINED
  | MDEntryTypeStatistics.NULL_VALUE => Some StatisticsType.UNDEFINED
  end.

Definition map_MDUpdateAction (v : MDUpdateAction.Value) : option UpdateAction.t :=
  match v with
  | MDUpdateAction.New => Some UpdateAction.NEW
  | MDUpdateAction.Change => Some UpdateAction.CHANGE
  | MDUpdateAction.Delete => Some UpdateAction.DELETE
  | MDUpdateAction.DeleteThru => Some UpdateAction.UNDEFINED
  | MDUpdateAction.DeleteFrom => Some UpdateAction.UNDEFINED
  | MDUpdateAction.Overlay => Some UpdateAction.UNDEFINED
  | MDUpdateAction.NULL_VALUE => Some UpdateAction.UNDEFINED
  end.

Definition map_OrderUpdateAction (v : OrderUpdateAction.Value) : option UpdateAction.t :=
  match v with
  | OrderUpdateAction.New => Some UpdateAction.NEW
  | OrderUpdateAction.Update => Some UpdateAction.CHANGE
  | OrderUpdateAction.Delete => Some UpdateAction.DELETE
  | OrderUpdateAction.NULL_VALUE => Some UpdateAction.UNDEFINED
  end.

Definition map_SecurityTradingStatus (v : SecurityTradingStatus.Value) : option TradingStatus.t :=
  match v with
  | SecurityTradingStatus.TradingHalt => Some TradingStatus.HALT
  | SecurityTradingStatus.Close => Some TradingStatus.CLOSE
  | SecurityTradingStatus.NewPriceIndication => Some TradingStatus.UNDEFINED
  | SecurityTradingStatus.ReadyToTrade => Some TradingStatus.OPEN
  | SecurityTradingStatus.NotAvailableForTrading => Some TradingStatus.CLOSE
  | SecurityTradingStatus.UnknownorInvalid => Some TradingStatus.UNDEFINED
  | SecurityTradingStatus.PreOpen => Some TradingStatus.PRE_OPEN
  | SecurityTradingStatus.PreCross => Some TradingStatus.UNDEFINED
  | SecurityTradingStatus.Cross => Some TradingStatus.UNDEFINED
  | SecurityTradingStatus.PostClose => Some TradingStatus.POST_CLOSE
  | SecurityTradingStatus.NoChange => Some TradingStatus.START_OF_DAY
  | SecurityTradingStatus.PrivateWorkup => Some TradingStatus.UNDEFINED
  | SecurityTradingStatus.PublicWorkup => Some TradingStatus.UNDEFINED
  | SecurityTradingStatus.NULL_VALUE => Some TradingStatus.UNDEFINED
  end.

Definition map_Side (v : SbeSide.Value) : option Side.t :=
  match v with
  | SbeSide.Buy => Some Side.BUY
  | SbeSide.Sell => Some Side.SELL
  | SbeSide.NULL_VALUE => Some Side.UNDEFINED
  end.

(** [map(x).get<T>()], and the implicit conversion of [map(x)] to [T]: the
    value the helper returned.  The default is for the unreachable [{}]. *)
Definition get_or {A} (d : A) (o : option A) : A := default d o.

Definition get_side_aggressor v := get_or Side.UNDEFINED (map_AggressorSide v).
Definition get_side_book v := get_or Side.UNDEFINED (map_MDEntryTypeBook v).
Definition get_update_action v := get_or UpdateAction.UNDEFINED (map_MDUpdateAction v).
Definition get_order_update_action v := get_or UpdateAction.UNDEFINED (map_OrderUpdateAction v).
Definition get_trading_status v := get_or TradingStatus.UNDEFINED (map_SecurityTradingStatus v).

(** ** Integers

    A field of the wire format with its null value, as the generated accessors
    [x()] and [xNullValue()]. *)
Record sbe_int := { raw : Z; null_value : Z }.

Definition get_int (f : sbe_int) : Z := if raw f =? null_value f then 0 else raw f.

(** ** Decimals

    [mantissa()] and [exponent()] of Decimal9, PRICE9; with [mantissaNullValue()]
    for Decimal9NULL, DecimalQty and PRICENULL9. *)
Record decimal := { mantissa : Z; exponent : Z }.
Record decimal_null := { dn_mantissa : sbe_int; dn_exponent : Z }.

Definition map_decimal (v : decimal) : option double :=
  Some (dmul (double_of_Z (mantissa v)) (pow10 (exponent v))).

Definition map_decimal_null (v : decimal_null) : option double :=
  if raw (dn_mantissa v) =? null_value (dn_mantissa v) then Some NaN
  else Some (dmul (double_of_Z (raw (dn_mantissa v))) (pow10 (dn_exponent v))).

Definition get_double (v : decimal) : double := get_or NaN (map_decimal v).
Definition get_double_null (v : decimal_null) : double := get_or NaN (map_decimal_null v).

(** ** Strings

    [get_string_view(buffer, length)] over the character array of a fixed
    length field: the characters before the first NUL. *)
Fixpoint get_string_view (buffer : string) : string :=
  match buffer with
  | EmptyString => EmptyString
  | String c rest => if bool_decide (c = Ascii.zero) then EmptyString else String c (get_string_view rest)
  end.

(** ** Facts *)

Lemma get_int_value f : raw f ≠ null_value f → get_int f = raw f.
Proof. intros. unfold get_int. by rewrite (proj2 (Z.eqb_neq _ _)). Qed.

Lemma get_int_null f : raw f = null_value f → get_int f = 0.
Proof. intros H. unfold get_int. by rewrite H, Z.eqb_refl. Qed.

(** The characters of a string, for statements. *)
Fixpoint nul_free (s : string) : Prop :=
  match s with
  | EmptyString => True
  | String c rest => c ≠ Ascii.zero ∧ nul_free rest
  end.

Lemma get_string_view_nul_free s : nul_free (get_string_view s).
Proof. induction s as [|c s IH]; simpl; [done|]. case_bool_decide; simpl; auto. Qed.

Lemma get_string_view_id s : nul_free s → get_string_view s = s.
Proof. induction s as [|c s IH]; simpl; [done|]. intros [? ?]. case_bool_decide; [done|]. f_equal; auto. Qed.

Lemma get_string_view_padded s pad :
  nul_free s → get_string_view (s +:+ String Ascii.zero pad) = s.
Proof.
  induction s as [|c s IH]; simpl; [done|].
  intros [? ?]. case_bool_decide; [done|]. f_equal; auto.
Qed.
