(* ===== verification/Messages.v ===== *)
(** The decoded MDP messages.

    Decoding a message body is the work of the generated SBE classes
    ([cme/sbe/mdp/...]), which are not part of the sources.  A message is the
    record of the accessors that the handlers call on it, with a group
    ([noMDEntries()], [noOrderIDEntries()]) as the list of its entries. *)

From S2P Require Import Prelude Double Api MdpMap.

(** [mDEntryType()] of the snapshot messages. *)
Module MDEntryType.
Inductive Value := Bid | Offer | Trade | OpenPrice | SettlementPrice | TradingSessionHighPrice
  | TradingSessionLowPrice | VWAP | ClearedVolume | OpenInterest | ImpliedBid | ImpliedOffer
  | BookReset | SessionHighBid | SessionLowOffer | FixingPrice | ElectronicVolume
  | ThresholdLimitsandPriceBandVariation | MarketBestOffer | MarketBestBid | NULL_VALUE.
End MDEntryType.

(** A decimal accessor: the overload of [map] is chosen by its type. *)
Inductive any_decimal := Dec9 (d : decimal) | Dec9NULL (d : decimal_null).

Definition get_double_any (d : any_decimal) : double :=
  match d with Dec9 d => get_double d | Dec9NULL d => get_double_null d end.

(** SecurityStatus30 *)
Record security_status := {
  st_securityID : sbe_int;
  st_securityGroup : string;
  st_transactTime : Z;
  st_securityTradingStatus : SecurityTradingStatus.Value;
}.

(** MDInstrumentDefinition{Future54,Option55,Spread56,FixedIncome57,Repo58,FX63}:
    the union of the accessors used; the builders below each template read
    only the ones the template has. *)
Record instrument_definition := {
  id_securityID : Z;
  id_marketSegmentID : Z;
  id_securityExchange : string;
  id_symbol : string;
  id_securityGroup : string;
  id_displayFactor : any_decimal;
  id_currency : string;
  id_settlCurrency : string;
  id_strikeCurrency : string;
  id_minPriceIncrement : any_decimal;
  id_contractMultiplier : sbe_int;
  id_minTradeVol : Z;
  id_maxTradeVol : Z;
  id_mDSecurityTradingStatus : SecurityTradingStatus.Value;
}.

(** Entries of SnapshotFullRefresh52 and SnapshotFullRefreshLongQty69. *)
Record snapshot_entry := {
  sn_mDEntryPx : any_decimal;
  sn_mDEntrySize : sbe_int;
  sn_numberOfOrders : sbe_int;
  sn_mDPriceLevel : sbe_int;
  sn_mDEntryType : MDEntryType.Value;
}.

Record snapshot_full_refresh := {
  sf_securityID : Z;
  sf_lastMsgSeqNumProcessed : Z;
  sf_transactTime : Z;
  sf_noMDEntries : list snapshot_entry;
}.

(** SnapshotFullRefreshOrderBook53 *)
Record order_book_entry := {
  ob_mDEntryPx : any_decimal;
  ob_mDDisplayQty : Z;
  ob_mDOrderPriority : sbe_int;
  ob_orderID : sbe_int;
  ob_mDEntryType : MDEntryTypeBook.Value;
}.

Record snapshot_order_book := {
  so_securityID : Z;
  so_lastMsgSeqNumProcessed : Z;
  so_currentChunk : Z;
  so_noChunks : Z;
  so_noMDEntries : list order_book_entry;
}.

(** MDIncrementalRefreshBook46 *)
Record book_entry := {
  be_securityID : Z;
  be_rptSeq : Z;
  be_mDEntryPx : any_decimal;
  be_mDEntrySize : sbe_int;
  be_numberOfOrders : sbe_int;
  be_mDPriceLevel : sbe_int;
  be_mDUpdateAction : MDUpdateAction.Value;
  be_mDEntryType : MDEntryTypeBook.Value;
}.

Record order_id_entry := {
  oe_orderID : sbe_int;
  oe_mDOrderPriority : sbe_int;
  oe_mDDisplayQty : sbe_int;
  oe_referenceID : sbe_int;
  oe_orderUpdateAction : OrderUpdateAction.Value;
}.

Record incremental_refresh_book := {
  rb_transactTime : Z;
  rb_noMDEntries : list book_entry;
  rb_noOrderIDEntries : list order_id_entry;
}.

(** MDIncrementalRefreshOrderBook47 *)
Record order_book_47_entry := {
  o47_securityID : Z;
  o47_mDEntryPx : any_decimal;
  o47_mDDisplayQty : sbe_int;
  o47_mDOrderPriority : sbe_int;
  o47_orderID : sbe_int;
  o47_mDUpdateAction : MDUpdateAction.Value;
  o47_mDEntryType : MDEntryTypeBook.Value;
}.

Record incremental_refresh_order_book := {
  r47_transactTime : Z;
  r47_matchEventIndicator : Z;  (** raw bit set; [isEmpty()] is [= 0] *)
  r47_noMDEntries : list order_book_47_entry;
}.

(** MDIncrementalRefreshTradeSummary48 and ...LongQty65 *)
Record trade_entry := {
  te_securityID : Z;
  te_rptSeq : Z;
  te_aggressorSide : AggressorSide.Value;
  te_mDEntryPx : any_decimal;
  te_mDEntrySize : Z;
  te_numberOfOrders : Z;
  te_mDTradeEntryID : sbe_int;
}.

Record trade_order_entry := { to_orderID : Z; to_lastQty : Z }.

Record incremental_refresh_trade_summary := {
  rt_transactTime : Z;
  rt_noMDEntries : list trade_entry;
  rt_noOrderIDEntries : list trade_order_entry;
}.

(** The entry types of the statistics messages. *)
Inductive statistics_entry_type :=
  | DailyStatistics (v : MDEntryTypeDailyStatistics.Value)
  | SessionStatistics (v : MDEntryTypeStatistics.Value)
  | NoStatisticsType.  (** the volume messages: no entry type is read *)

(** DailyStatistics49, SessionStatistics51, SessionStatisticsLongQty67, Volume37 *)
Record statistics_entry := {
  se_securityID : Z;
  se_rptSeq : Z;
  se_mDEntryPx : any_decimal;
  se_mDEntrySize : sbe_int;
  se_mDEntryType : statistics_entry_type;
}.

Record incremental_refresh_statistics := {
  rs_transactTime : Z;
  rs_noMDEntries : list statistics_entry;
}.

(** BookLongQty64, VolumeLongQty66, LimitsBanding50: only the report sequence
    of the entries is looked at. *)
Record sequence_entry := { sq_securityID : Z; sq_rptSeq : Z }.

(** A decoded message, by template. *)
Inductive mdp_message :=
  | AdminHeartbeat12
  | ChannelReset4
  | SecurityStatus30 (m : security_status)
  | MDInstrumentDefinitionFuture54 (m : instrument_definition)
  | MDInstrumentDefinitionOption55 (m : instrument_definition)
  | MDInstrumentDefinitionSpread56 (m : instrument_definition)
  | MDInstrumentDefinitionFixedIncome57 (m : instrument_definition)
  | MDInstrumentDefinitionRepo58 (m : instrument_definition)
  | MDInstrumentDefinitionFX63 (m : instrument_definition)
  | SnapshotFullRefresh52 (m : snapshot_full_refresh)
  | SnapshotFullRefreshLongQty69 (m : snapshot_full_refresh)
  | MDIncrementalRefreshBook46 (m : incremental_refresh_book)
  | MDIncrementalRefreshBookLongQty64 (entries : list sequence_entry)
  | SnapshotFullRefreshOrderBook53 (m : snapshot_order_book)
  | MDIncrementalRefreshOrderBook47 (m : incremental_refresh_order_book)
  | MDIncrementalRefreshTradeSummary48 (m : incremental_refresh_trade_summary)
  | MDIncrementalRefreshTradeSummaryLongQty65 (m : incremental_refresh_trade_summary)
  | MDIncrementalRefreshDailyStatistics49 (m : incremental_refresh_statistics)
  | MDIncrementalRefreshSessionStatistics51 (m : incremental_refresh_statistics)
  | MDIncrementalRefreshSessionStatisticsLongQty67 (m : incremental_refresh_statistics)
  | MDIncrementalRefreshVolume37 (m : incremental_refresh_statistics)
  | MDIncrementalRefreshVolumeLongQty66 (entries : list sequence_entry)
  | MDIncrementalRefreshLimitsBanding50 (entries : list sequence_entry)
  | QuoteRequest39.

(** The template classes that the parser names: the handled ones, and the
    ones that it drops without decoding. *)
Inductive template :=
  | T_AdminHeartbeat12 | T_ChannelReset4 | T_SecurityStatus30
  | T_MDInstrumentDefinitionFuture54 | T_MDInstrumentDefinitionOption55
  | T_MDInstrumentDefinitionSpread56 | T_MDInstrumentDefinitionFixedIncome57
  | T_MDInstrumentDefinitionRepo58 | T_MDInstrumentDefinitionFX63
  | T_SnapshotFullRefresh52 | T_SnapshotFullRefreshLongQty69
  | T_MDIncrementalRefreshBook46 | T_MDIncrementalRefreshBookLongQty64
  | T_SnapshotFullRefreshOrderBook53 | T_MDIncrementalRefreshOrderBook47
  | T_MDIncrementalRefreshTradeSummary48 | T_MDIncrementalRefreshTradeSummaryLongQty65
  | T_MDIncrementalRefreshDailyStatistics49 | T_MDIncrementalRefreshSessionStatistics51
  | T_MDIncrementalRefreshSessionStatisticsLongQty67 | T_MDIncrementalRefreshVolume37
  | T_MDIncrementalRefreshVolumeLongQty66 | T_MDIncrementalRefreshLimitsBanding50
  | T_QuoteRequest39
  | T_AdminLogout16 | T_SnapshotRefreshTopOrders59 | T_SecurityStatusWorkup60
  | T_SnapshotFullRefreshTCP61 | T_CollateralMarketValue62 | T_SnapshotFullRefreshTCPLongQty68.

#[global] Instance template_eq_dec : EqDecision template.
Proof. solve_decision. Defined.
