(* ===== verification/MdpParser.v ===== *)
(** Framing and dispatch of MDP packets
    (src/roq/cme/protocol/mdp/frame.hpp, frame.cpp and parser.cpp).

    A packet is a 12 byte frame (sequence number, sending time) followed by
    messages, each with a two byte size, an SBE message header and a body.  The
    SBE header and bodies are decoded by generated classes, which are the
    parameters of [MdpSbe]. *)

From S2P Require Import Prelude Double Api MdpMap Messages.

(** ** Bytes and little-endian integers *)

Abbreviation bytes := (list Z).

Definition is_byte (b : Z) : Prop := in_width 8 b.

(** [std::memcpy] into an unsigned integer and [utils::little_endian_to_host]. *)
Fixpoint le_combine (l : bytes) : Z :=
  match l with [] => 0 | b :: l => b + 2 ^ 8 * le_combine l end.

Fixpoint le_split (n : nat) (z : Z) : bytes :=
  match n with O => [] | S n => z mod 2 ^ 8 :: le_split n (z / 2 ^ 8) end.

(** ** Frame *)

Record Frame := { sequence_number : Z; sending_time : Z }.

Definition frame_size : nat := 12.

Definition parse_helper (buffer : bytes) : bool * Frame :=
  if (length buffer <? frame_size)%nat then (false, {| sequence_number := 0; sending_time := 0 |})
  else
    (true, {| sequence_number := le_combine (take 4 buffer);
              sending_time := to_signed 64 (le_combine (take 8 (drop 4 buffer))) |}).

(** [Frame::parse]: the callback runs only on a complete frame. *)
Definition frame_parse {S} (buffer : bytes) (callback : Frame → S → res S) (s : S) : res (bool * S) :=
  let '(result, frame) := parse_helper buffer in
  if result then (s ← callback frame s; Ok (true, s)) else Ok (false, s).

Definition encode_frame (f : Frame) : bytes :=
  le_split 4 (sequence_number f) ++ le_split 8 (sending_time f).

Definition frame_wf (f : Frame) : Prop :=
  in_width 32 (sequence_number f) ∧ in_width 63 (sending_time f).

(** ** Messages *)

Record sbe_header := { blockLength : Z; templateId : Z; version : Z }.

(** The generated SBE classes, for both of which the sources rely on: distinct
    template ids (they are the labels of one switch) and a header decoder that
    reads [encodedLength()] bytes. *)
Class MdpSbe (M : Type) := {
  SBE_TEMPLATE_ID : template → Z;
  SBE_TEMPLATE_ID_inj : Inj (=) (=) SBE_TEMPLATE_ID;
  encodedLength : nat;
  decode_header : bytes → res sbe_header;
  decode_header_app : ∀ h rest,
    length h = encodedLength → decode_header (h ++ rest) = decode_header h;
  decode_message : template → bytes → Z → Z → res M;
}.
#[global] Existing Instance SBE_TEMPLATE_ID_inj.

(** The labels of the switch, in its order, and the class of each. *)
Definition handled_templates : list template :=
  [T_AdminHeartbeat12; T_ChannelReset4; T_SecurityStatus30;
   T_MDInstrumentDefinitionFuture54; T_MDInstrumentDefinitionOption55;
   T_MDInstrumentDefinitionSpread56; T_MDInstrumentDefinitionFixedIncome57;
   T_MDInstrumentDefinitionRepo58; T_MDInstrumentDefinitionFX63;
   T_SnapshotFullRefresh52; T_SnapshotFullRefreshLongQty69;
   T_MDIncrementalRefreshBook46; T_MDIncrementalRefreshBookLongQty64;
   T_SnapshotFullRefreshOrderBook53; T_MDIncrementalRefreshOrderBook47;
   T_MDIncrementalRefreshTradeSummary48; T_MDIncrementalRefreshTradeSummaryLongQty65;
   T_MDIncrementalRefreshDailyStatistics49; T_MDIncrementalRefreshSessionStatistics51;
   T_MDIncrementalRefreshSessionStatisticsLongQty67; T_MDIncrementalRefreshVolume37;
   T_MDIncrementalRefreshVolumeLongQty66; T_MDIncrementalRefreshLimitsBanding50;
   T_QuoteRequest39].

Definition dropped_templates : list template :=
  [T_AdminLogout16; T_SnapshotRefreshTopOrders59; T_SecurityStatusWorkup60;
   T_SnapshotFullRefreshTCP61; T_CollateralMarketValue62; T_SnapshotFullRefreshTCPLongQty68].

(** [protocol::mdp::Parser::Handler]: what the parser calls back. *)
Record parser_handler (M S : Type) := {
  on_frame : Frame → S → res S;
  on_message : Frame → M → S → res S;
}.
Arguments on_frame {M S} _ _ _.
Arguments on_message {M S} _ _ _ _.

Section parser.
Context {Msg} `{MdpSbe Msg} {S : Type} (handler : parser_handler Msg S).

Definition find_template (id : Z) (l : list template) : option template :=
  List.find (λ t, SBE_TEMPLATE_ID t =? id) l.

(** [MessageSize]: the two byte size, which is taken off the span. *)
Definition message_size (message : bytes) : res (Z * bytes) :=
  if (length message <? 2)%nat then Err RuntimeError
  else Ok (le_combine (take 2 message), drop 2 message).

(** [subspan(0, n)]: beyond the end of the span is undefined. *)
Definition subspan_first (n : Z) (message : bytes) : res (bytes * bytes) :=
  if Z.of_nat (length message) <? n then Err AccessOutOfBounds
  else Ok (take (Z.to_nat n) message, drop (Z.to_nat n) message).

(** The size, header and body of the next message, and the rest of the span. *)
Definition next_message (message : bytes) : res (sbe_header * bytes * bytes) :=
  '(size, message) ← message_size message;
  header ← decode_header message;
  '(_, message) ← subspan_first (Z.of_nat encodedLength) message;
  let length := u64 (size - (2 + Z.of_nat encodedLength)) in
  '(tmp, message) ← subspan_first length message;
  Ok (header, tmp, message).

(** The body of the [while]: whether the loop goes on, the rest of the span
    and the handler's state. *)
Definition parse_step (frame : Frame) (message : bytes) (s : S) : res (bool * bytes * S) :=
  '(header, tmp, message) ← next_message message;
  match find_template (templateId header) handled_templates with
  | Some t =>
    value ← decode_message t tmp (blockLength header) (version header);
    s ← on_message handler frame value s;
    Ok (true, message, s)
  | None =>
    match find_template (templateId header) dropped_templates with
    | Some _ => Ok (true, message, s)
    | None => Ok (false, message, s)
    end
  end.

(** The [while]; [None] when the fuel ran out. *)
Fixpoint parse_loop (fuel : nat) (frame : Frame) (message : bytes) (s : S) : option (res (bool * S)) :=
  match message, fuel with
  | [], _ => Some (Ok (true, s))
  | _, O => None
  | _, Datatypes.S fuel =>
    match parse_step frame message s with
    | Err e => Some (Err e)
    | Ok (false, _, s) => Some (Ok (false, s))
    | Ok (true, message, s) => parse_loop fuel frame message s
    end
  end.

(** [Parser::dispatch]: whether every message was dispatched, and the
    handler's state.  The fuel is the number of bytes: each turn of the loop
    takes two or more. *)
Definition parser_dispatch (buffer : bytes) (s : S) : res (bool * S) :=
  let '(complete, frame) := parse_helper buffer in
  if complete then
    s ← on_frame handler frame s;
    let message := drop frame_size buffer in
    default (Err RuntimeError) (parse_loop (length message) frame message s)
  else Ok (false, s).
End parser.

(** ** Encoded packets, for the statements *)

Record raw_message := { rm_header : bytes; rm_body : bytes }.

Definition encode_message (m : raw_message) : bytes :=
  le_split 2 (2 + Z.of_nat (length (rm_header m)) + Z.of_nat (length (rm_body m)))
    ++ rm_header m ++ rm_body m.

Definition encode_packet (f : Frame) (ms : list raw_message) : bytes :=
  encode_frame f ++ concat (map encode_message ms).

Definition raw_wf `{MdpSbe Msg} (m : raw_message) : Prop :=
  length (rm_header m) = encodedLength
  ∧ in_width 16 (2 + Z.of_nat (length (rm_header m)) + Z.of_nat (length (rm_body m))).

(** The message decodes to [v] as the handled template of its header. *)
Definition decodes_to `{MdpSbe Msg} (m : raw_message) (v : Msg) : Prop :=
  ∃ hd t, decode_header (rm_header m) = Ok hd ∧ t ∈ handled_templates
    ∧ SBE_TEMPLATE_ID t = templateId hd
    ∧ decode_message t (rm_body m) (blockLength hd) (version hd) = Ok v.

(** The message has a template id that no case of the switch lists. *)
Definition unknown_template `{MdpSbe Msg} (m : raw_message) : Prop :=
  ∃ hd, decode_header (rm_header m) = Ok hd
    ∧ (∀ t, SBE_TEMPLATE_ID t ≠ templateId hd).

(** ** Bytes and frames *)

Lemma length_le_split n z : length (le_split n z) = n.
Proof. revert z. induction n; simpl; auto. Qed.

Lemma le_split_bytes n z : Forall is_byte (le_split n z).
Proof.
  revert z. induction n; intros z; simpl; constructor; auto.
  apply (wrap_range 8); lia.
Qed.

Lemma le_combine_split n z : le_combine (le_split n z) = z mod 2 ^ (8 * Z.of_nat n).
Proof.
  revert z. induction n as [|n IH]; intros z; simpl le_split; simpl le_combine.
  - by rewrite Z.mul_0_r, Z.mod_1_r.
  - rewrite IH. replace (8 * Z.of_nat (S n)) with (8 + 8 * Z.of_nat n) by lia.
    rewrite Z.pow_add_r by lia. rewrite Z.rem_mul_r; [lia|lia|].
    apply Z.pow_pos_nonneg; lia.
Qed.

Lemma le_combine_split_small n z :
  in_width (8 * Z.of_nat n) z → le_combine (le_split n z) = z.
Proof. intros. rewrite le_combine_split. by apply Z.mod_small. Qed.

Lemma le_combine_range l : Forall is_byte l → in_width (8 * Z.of_nat (length l)) (le_combine l).
Proof.
  induction 1 as [|b l Hb Hl IH]; simpl; [done|].
  unfold is_byte, in_width in *. replace (8 * Z.of_nat (S (length l))) with (8 + 8 * Z.of_nat (length l)) by lia.
  rewrite Z.pow_add_r by lia. change (2 ^ 8) with 256 in *.
  generalize dependent (2 ^ (8 * Z.of_nat (length l))). intros P IH. lia.
Qed.

Lemma length_encode_frame f : length (encode_frame f) = frame_size.
Proof. done. Qed.

Lemma parse_helper_encode f rest :
  frame_wf f → parse_helper (encode_frame f ++ rest) = (true, f).
Proof.
  intros [Hs Ht]. unfold parse_helper.
  rewrite (proj2 (Nat.ltb_ge _ _)) by (rewrite length_app, length_encode_frame; lia).
  unfold encode_frame. rewrite <- app_assoc.
  rewrite take_app_length', drop_app_length', take_app_length' by (by rewrite length_le_split).
  rewrite !le_combine_split_small by (unfold in_width in *; simpl in *; lia).
  rewrite to_signed_small by (unfold in_width in *; lia). by destruct f.
Qed.

Lemma parse_helper_short buffer :
  (length buffer < frame_size)%nat → (parse_helper buffer).1 = false.
Proof. intros. unfold parse_helper. by rewrite (proj2 (Nat.ltb_lt _ _)). Qed.

#[export] Hint Rewrite length_le_split : cme.

(** ** The parser *)

Section parser_facts.
Context {Msg} `{MdpSbe Msg} {S : Type} (handler : parser_handler Msg S).

Lemma find_template_in t l :
  t ∈ l → find_template (SBE_TEMPLATE_ID t) l = Some t.
Proof.
  unfold find_template. induction l as [|x l IH]; [set_solver|]. simpl.
  destruct (SBE_TEMPLATE_ID x =? SBE_TEMPLATE_ID t) eqn:E.
  - apply Z.eqb_eq, (inj SBE_TEMPLATE_ID) in E. by subst.
  - intros [->|?]%elem_of_cons; [by rewrite Z.eqb_refl in E|auto].
Qed.

Lemma find_template_unknown id l :
  (∀ t, SBE_TEMPLATE_ID t ≠ id) → find_template id l = None.
Proof.
  intros Hid. unfold find_template. induction l as [|x l IH]; [done|]. simpl.
  by rewrite (proj2 (Z.eqb_neq _ _) (Hid x)).
Qed.

Lemma subspan_first_app m rest :
  subspan_first (Z.of_nat (length m)) (m ++ rest) = Ok (m, rest).
Proof.
  unfold subspan_first. rewrite (proj2 (Z.ltb_ge _ _)) by (rewrite length_app; lia).
  by rewrite Nat2Z.id, take_app_length, drop_app_length.
Qed.

Lemma message_size_app n rest :
  in_width 16 n → message_size (le_split 2 n ++ rest) = Ok (n, rest).
Proof.
  intros. unfold message_size.
  rewrite (proj2 (Nat.ltb_ge _ _)) by (rewrite length_app, length_le_split; lia).
  rewrite take_app_length', drop_app_length' by (by rewrite length_le_split).
  by rewrite le_combine_split_small.
Qed.

Lemma next_message_encode m rest hd :
  raw_wf m → decode_header (rm_header m) = Ok hd →
  next_message (encode_message m ++ rest) = Ok (hd, rm_body m, rest).
Proof.
  intros [Hlen Hw] Hhd. unfold next_message, encode_message.
  rewrite <- !app_assoc, message_size_app by done. simpl.
  rewrite decode_header_app, Hhd by done. simpl.
  rewrite <- Hlen, subspan_first_app. simpl.
  rewrite wrap_small.
  - replace (2 + _ + _ - _) with (Z.of_nat (length (rm_body m))) by lia.
    by rewrite subspan_first_app.
  - unfold in_width in *. assert (2 ^ 16 < 2 ^ 64) by (vm_compute; done). lia.
Qed.

Lemma subspan_first_length n m a b :
  subspan_first n m = Ok (a, b) → (length b ≤ length m)%nat.
Proof.
  unfold subspan_first. destruct (_ <? n); [done|]. intros [= <- <-].
  rewrite length_drop. lia.
Qed.

Lemma next_message_length m hd body rest :
  next_message m = Ok (hd, body, rest) → (length rest < length m)%nat.
Proof.
  unfold next_message. intros [[size m1] [Hsize Hm]]%res_bind_Ok.
  apply res_bind_Ok in Hm as [hd' [_ Hm]].
  apply res_bind_Ok in Hm as [[h m2] [Hh Hm]].
  apply res_bind_Ok in Hm as [[b m3] [Hb Hm]]. injection Hm as <- <- <-.
  apply subspan_first_length in Hh, Hb. unfold message_size in Hsize.
  destruct (length m <? 2)%nat eqn:E; [done|]. injection Hsize as <- <-.
  apply Nat.ltb_ge in E. rewrite length_drop in *. lia.
Qed.

Lemma parse_loop_nil fuel f s : parse_loop handler fuel f [] s = Some (Ok (true, s)).
Proof. by destruct fuel. Qed.

Lemma parse_step_length f m s c rest s' :
  parse_step handler f m s = Ok (c, rest, s') → (length rest < length m)%nat.
Proof.
  unfold parse_step. intros [[[hd body] m'] [Hnext Hm]]%res_bind_Ok.
  apply next_message_length in Hnext.
  destruct (find_template (templateId hd) handled_templates).
  - apply res_bind_Ok in Hm as [v [_ Hm]]. apply res_bind_Ok in Hm as [? [_ Hm]].
    by injection Hm as <- <- <-.
  - by destruct (find_template (templateId hd) dropped_templates); injection Hm as <- <- <-.
Qed.

Lemma parse_loop_cons fuel f m s :
  m ≠ [] →
  parse_loop handler (Datatypes.S fuel) f m s =
  match parse_step handler f m s with
  | Err e => Some (Err e)
  | Ok (false, _, s) => Some (Ok (false, s))
  | Ok (true, message, s) => parse_loop handler fuel f message s
  end.
Proof. by destruct m. Qed.

(** With at least the length of the span as fuel the loop does not run out,
    and more fuel changes nothing. *)
Lemma parse_loop_fuel fuel fuel' f m s :
  (length m ≤ fuel)%nat → (length m ≤ fuel')%nat →
  parse_loop handler fuel f m s = parse_loop handler fuel' f m s
  ∧ is_Some (parse_loop handler fuel f m s).
Proof.
  revert fuel' m s. induction fuel as [|fuel IH]; intros fuel' m s Hf Hf';
    (destruct (decide (m = [])) as [->|Hm]; [rewrite !parse_loop_nil; eauto|]).
  { by destruct m; simpl in *; [|lia]. }
  destruct fuel' as [|fuel']; [by destruct m; simpl in *; [|lia]|].
  rewrite !parse_loop_cons by done.
  destruct (parse_step handler f m s) as [[[[] rest] s']|] eqn:Hstep; eauto.
  apply parse_step_length in Hstep. apply IH; lia.
Qed.

(** What the decoders make of some bytes. *)
Definition decodable (m : Msg) : Prop := ∃ t b l v, decode_message t b l v = Ok m.

(** A relation that every call back establishes, for the frame of the packet and
    what is decoded, holds across its dispatch. *)
Lemma parser_dispatch_frame_rel (R : S → S → Prop) `{!PreOrder R} buffer s b s' :
  ((parse_helper buffer).1 = true → ∀ s s', on_frame handler (parse_helper buffer).2 s = Ok s' → R s s') →
  ((parse_helper buffer).1 = true → ∀ m s s', decodable m →
     on_message handler (parse_helper buffer).2 m s = Ok s' → R s s') →
  parser_dispatch handler buffer s = Ok (b, s') → R s s'.
Proof.
  intros Hframe Hmessage. unfold parser_dispatch.
  destruct (parse_helper buffer) as [[] frame]; [|by intros [= _ <-]].
  specialize (Hframe eq_refl). specialize (Hmessage eq_refl). cbn [snd] in *.
  intros (s1 & Hs1%Hframe & Hloop)%res_bind_Ok. trans s1; [done|]. clear Hs1 s.
  revert s1 Hloop. generalize (drop frame_size buffer) at 1 2. intros m.
  generalize (le_n (length m)). generalize (length m) at 2 3. intros fuel. revert m.
  induction fuel as [|fuel IH]; intros m Hlen s1 Hloop;
    (destruct (decide (m = [])) as [->|Hm];
      [rewrite parse_loop_nil in Hloop; by injection Hloop as _ <-|]).
  { by destruct m; simpl in *; [|lia]. }
  rewrite parse_loop_cons in Hloop by done.
  destruct (parse_step handler frame m s1) as [[[c rest] s2]|] eqn:Hstep; [|done].
  assert (R s1 s2) as Hr.
  { unfold parse_step in Hstep. apply res_bind_Ok in Hstep as ([[hd body] m'] & _ & Hstep).
    destruct (find_template (templateId hd) handled_templates) as [t|].
    - apply res_bind_Ok in Hstep as (v & Hv & Hstep). apply res_bind_Ok in Hstep as (s3 & Hs3 & Hstep).
      injection Hstep as _ _ <-. eapply Hmessage; [by repeat eexists|done].
    - by destruct (find_template (templateId hd) dropped_templates); injection Hstep as _ _ <-. }
  apply parse_step_length in Hstep.
  destruct c; [|by injection Hloop as _ <-]. trans s2; [done|]. apply (IH rest); [lia|done].
Qed.

Lemma parser_dispatch_rel (R : S → S → Prop) `{!PreOrder R} buffer s b s' :
  (∀ f s s', on_frame handler f s = Ok s' → R s s') →
  (∀ f m s s', on_message handler f m s = Ok s' → R s s') →
  parser_dispatch handler buffer s = Ok (b, s') → R s s'.
Proof. intros Hframe Hmessage. apply parser_dispatch_frame_rel; eauto. Qed.

(** One turn on an encoded message. *)
Lemma parse_step_decodes f m v rest s :
  raw_wf m → decodes_to m v →
  parse_step handler f (encode_message m ++ rest) s =
  (s ← on_message handler f v s; Ok (true, rest, s)).
Proof.
  intros Hwf (hd & t & Hhd & Ht & Hid & Hv). unfold parse_step.
  rewrite (next_message_encode _ _ hd) by done. cbn [mbind res_bind].
  by rewrite <- Hid, find_template_in, Hv.
Qed.

Lemma parse_step_unknown f m rest s :
  raw_wf m → unknown_template m →
  parse_step handler f (encode_message m ++ rest) s = Ok (false, rest, s).
Proof.
  intros Hwf (hd & Hhd & Hid). unfold parse_step.
  rewrite (next_message_encode _ _ hd) by done. cbn [mbind res_bind].
  by rewrite !find_template_unknown.
Qed.

Lemma encode_message_not_nil m rest : encode_message m ++ rest ≠ [].
Proof. done. Qed.

(** A run over encoded messages handles them one after the other. *)
Lemma parse_loop_encode f ms vs tail s fuel :
  Forall raw_wf ms → Forall2 decodes_to ms vs →
  (length (concat (map encode_message ms) ++ tail) ≤ fuel)%nat →
  parse_loop handler fuel f (concat (map encode_message ms) ++ tail) s =
  match foldM (λ s v, on_message handler f v s) s vs with
  | Ok s => parse_loop handler (length tail) f tail s
  | Err e => Some (Err e)
  end.
Proof.
  intros Hwf Hdec. revert s fuel. induction Hdec as [|m v ms vs Hm Hms IH]; intros s fuel.
  { intros. apply parse_loop_fuel; simpl in *; lia. }
  apply Forall_cons in Hwf as [Hwf1 Hwf]. cbn [map concat]. rewrite <- app_assoc.
  rewrite length_app. intros Hlen.
  assert (2 ≤ length (encode_message m))%nat by (simpl; lia).
  destruct fuel as [|fuel]; [lia|].
  rewrite parse_loop_cons by apply encode_message_not_nil.
  rewrite (parse_step_decodes _ _ v) by done.
  simpl foldM. destruct (on_message handler f v s) as [s'|]; [|done].
  apply IH; [done|lia].
Qed.

Lemma dispatch_encode f ms vs s :
  frame_wf f → Forall raw_wf ms → Forall2 decodes_to ms vs →
  parser_dispatch handler (encode_packet f ms) s =
  (s ← on_frame handler f s;
   s ← foldM (λ s v, on_message handler f v s) s vs;
   Ok (true, s)).
Proof.
  intros Hf Hwf Hdec. unfold parser_dispatch, encode_packet.
  rewrite parse_helper_encode by done.
  destruct (on_frame handler f s) as [s1|]; [cbn [mbind res_bind]|done].
  rewrite (drop_app_length' (encode_frame f)) by done.
  pose proof (parse_loop_encode f ms vs [] s1 (length (concat (map encode_message ms))) Hwf Hdec) as Hloop.
  rewrite app_nil_r in Hloop. rewrite Hloop by lia.
  by destruct (foldM _ s1 vs).
Qed.

(** C27: round trip.  A packet that encodes a frame and a list of messages of
    handled templates is dispatched completely: the handler sees the frame,
    then every message, once each and in order, and the parser reports
    success unless a handler throws. *)
Theorem parser_dispatch_encode f ms vs s :
  frame_wf f → Forall raw_wf ms → Forall2 decodes_to ms vs →
  parser_dispatch handler (encode_packet f ms) s =
  (s ← on_frame handler f s;
   s ← foldM (λ s v, on_message handler f v s) s vs;
   Ok (true, s)).
Proof. apply dispatch_encode. Qed.

(** a template id outside the switch ends the dispatch: the messages
    before it are handled, it and everything after it are not, and the parser
    reports failure. *)
Theorem parser_dispatch_unknown f ms vs m ms' s :
  frame_wf f → Forall raw_wf ms → Forall2 decodes_to ms vs →
  raw_wf m → unknown_template m →
  parser_dispatch handler (encode_packet f (ms ++ m :: ms')) s =
  (s ← on_frame handler f s;
   s ← foldM (λ s v, on_message handler f v s) s vs;
   Ok (false, s)).
Proof.
  intros Hf Hwf Hdec Hm (hd & Hhd & Hid). unfold parser_dispatch, encode_packet.
  rewrite parse_helper_encode by done.
  destruct (on_frame handler f s) as [s1|]; [cbn [mbind res_bind]|done].
  rewrite (drop_app_length' (encode_frame f)) by done.
  rewrite map_app, concat_app. cbn [map concat].
  rewrite (parse_loop_encode f ms vs) by (done || lia).
  destruct (foldM _ s1 vs) as [s2|]; [|done]. simpl length.
  rewrite parse_loop_cons by apply encode_message_not_nil.
  by rewrite parse_step_unknown by (done || by exists hd).
Qed.

(** the parse loop terminates on every packet: the number of bytes left
    is enough fuel, because each turn takes the two size bytes off the span. *)
Theorem parse_loop_terminates f buffer s :
  is_Some (parse_loop handler (length (drop frame_size buffer)) f (drop frame_size buffer) s).
Proof. by apply (parse_loop_fuel _ (length (drop frame_size buffer))). Qed.

(** a packet shorter than a frame is refused without any call back. *)
Theorem parser_dispatch_short buffer s :
  (length buffer < frame_size)%nat → parser_dispatch handler buffer s = Ok (false, s).
Proof.
  intros Hlen. unfold parser_dispatch. apply parse_helper_short in Hlen.
  destruct (parse_helper buffer). simpl in Hlen. by subst.
Qed.
End parser_facts.

(** ** A concrete wire format

    An instance of [MdpSbe] for the witnesses: the real header layout and the
    real template ids, with bodies for the messages without fields. *)

Definition example_template_id (t : template) : Z :=
  match t with
  | T_AdminHeartbeat12 => 12 | T_ChannelReset4 => 4 | T_SecurityStatus30 => 30
  | T_MDInstrumentDefinitionFuture54 => 54 | T_MDInstrumentDefinitionOption55 => 55
  | T_MDInstrumentDefinitionSpread56 => 56 | T_MDInstrumentDefinitionFixedIncome57 => 57
  | T_MDInstrumentDefinitionRepo58 => 58 | T_MDInstrumentDefinitionFX63 => 63
  | T_SnapshotFullRefresh52 => 52 | T_SnapshotFullRefreshLongQty69 => 69
  | T_MDIncrementalRefreshBook46 => 46 | T_MDIncrementalRefreshBookLongQty64 => 64
  | T_SnapshotFullRefreshOrderBook53 => 53 | T_MDIncrementalRefreshOrderBook47 => 47
  | T_MDIncrementalRefreshTradeSummary48 => 48 | T_MDIncrementalRefreshTradeSummaryLongQty65 => 65
  | T_MDIncrementalRefreshDailyStatistics49 => 49
  | T_MDIncrementalRefreshSessionStatistics51 => 51
  | T_MDIncrementalRefreshSessionStatisticsLongQty67 => 67
  | T_MDIncrementalRefreshVolume37 => 37 | T_MDIncrementalRefreshVolumeLongQty66 => 66
  | T_MDIncrementalRefreshLimitsBanding50 => 50 | T_QuoteRequest39 => 39
  | T_AdminLogout16 => 16 | T_SnapshotRefreshTopOrders59 => 59 | T_SecurityStatusWorkup60 => 60
  | T_SnapshotFullRefreshTCP61 => 61 | T_CollateralMarketValue62 => 62
  | T_SnapshotFullRefreshTCPLongQty68 => 68
  end.

#[global] Instance example_template_id_inj : Inj (=) (=) example_template_id.
Proof. intros [] [] H; (reflexivity || discriminate H). Qed.

Definition example_decode_header (b : bytes) : res sbe_header :=
  if (length b <? 8)%nat then Err RuntimeError
  else Ok {| blockLength := le_combine (take 2 b); templateId := le_combine (take 2 (drop 2 b));
             version := le_combine (take 2 (drop 6 b)) |}.

Lemma example_decode_header_app h rest :
  length h = 8%nat → example_decode_header (h ++ rest) = example_decode_header h.
Proof.
  intros Hlen. unfold example_decode_header. rewrite length_app, Hlen. simpl Nat.ltb.
  rewrite !drop_app_le, !take_app_le by (rewrite ?length_drop; lia). done.
Qed.

Definition example_decode_message (t : template) (_ : bytes) (_ _ : Z) : res mdp_message :=
  match t with
  | T_AdminHeartbeat12 => Ok AdminHeartbeat12
  | T_ChannelReset4 => Ok ChannelReset4
  | T_QuoteRequest39 => Ok QuoteRequest39
  | _ => Err RuntimeError
  end.

Definition example_sbe : MdpSbe mdp_message := {|
  SBE_TEMPLATE_ID := example_template_id;
  SBE_TEMPLATE_ID_inj := _;
  encodedLength := 8;
  decode_header := example_decode_header;
  decode_header_app := example_decode_header_app;
  decode_message := example_decode_message;
|}.

(** A handler that records the messages. *)
Definition recorder : parser_handler mdp_message (list mdp_message) := {|
  on_frame _ s := Ok s;
  on_message _ v s := Ok (s ++ [v]);
|}.

Definition example_frame : Frame := {| sequence_number := 7; sending_time := 1000 |}.
Definition example_message (id : Z) (body : bytes) : raw_message :=
  {| rm_header := le_split 2 0 ++ le_split 2 id ++ le_split 2 1 ++ le_split 2 13; rm_body := body |}.

Lemma parser_dispatch_encode_witness :
  @parser_dispatch _ example_sbe _ recorder
    (encode_packet example_frame [example_message 12 []; example_message 4 [1; 2; 3]]) []
  = Ok (true, [AdminHeartbeat12; ChannelReset4]).
Proof.
  rewrite (@parser_dispatch_encode _ example_sbe _ recorder example_frame _
             [AdminHeartbeat12; ChannelReset4] []); [reflexivity|..].
  - split; vm_compute; split; congruence.
  - repeat constructor; vm_compute; congruence.
  - constructor; [|constructor; [|constructor]]; eexists.
    + exists T_AdminHeartbeat12. repeat split. set_solver.
    + exists T_ChannelReset4. repeat split. set_solver.
Defined.

Lemma parser_dispatch_unknown_witness :
  @parser_dispatch _ example_sbe _ recorder
    (encode_packet example_frame ([example_message 12 []] ++ example_message 99 [] :: [example_message 4 []])) []
  = Ok (false, [AdminHeartbeat12]).
Proof.
  rewrite (@parser_dispatch_unknown _ example_sbe _ recorder example_frame _ [AdminHeartbeat12]);
    [reflexivity|..].
  - split; vm_compute; split; congruence.
  - repeat constructor; vm_compute; congruence.
  - constructor; [|constructor]; eexists. exists T_AdminHeartbeat12. repeat split. set_solver.
  - repeat constructor; vm_compute; congruence.
  - eexists. split; [reflexivity|]. intros []; vm_compute; congruence.
Defined.

Lemma parser_dispatch_short_witness :
  @parser_dispatch _ example_sbe _ recorder [1; 2; 3] [] = Ok (false, []).
Proof. apply parser_dispatch_short. vm_compute. lia. Defined.
