(* ===== verification/Security.v ===== *)
(** Securities (src/roq/cme/tools/security.hpp, security.cpp), and the
    interface of the sequencers that a security owns.

    [market::mbp::Sequencer] and [market::mbo::Sequencer] are library code.  A
    call of one is a finite resumption: the sequencer either returns, throws
    [BadState], or calls back into the code and goes on with the state the
    callback left. *)

From S2P Require Import Prelude Double Api.

(** ** Calls that call back *)

Inductive prog (S C : Type) :=
  | Ret (s : S)
  | Bad (s : S)
  | Call (s : S) (c : C) (k : S → prog S C).
Arguments Ret {S C} _.
Arguments Bad {S C} _.
Arguments Call {S C} _ _ _.

(** Runs a call: [on_call] is the code of the callbacks over the caller's state
    [W].  A [false] is a thrown [BadState]. *)
Fixpoint run {S C W} (on_call : C → S → W → bool * S * W) (p : prog S C) (w : W) : bool * S * W :=
  match p with
  | Ret s => (true, s, w)
  | Bad s => (false, s, w)
  | Call s c k =>
    let '(ok, s, w) := on_call c s w in
    if ok then run on_call (k s) w else (false, s, w)
  end.

Lemma run_inv {S C W} (P : W → Prop) (on_call : C → S → W → bool * S * W) p w :
  P w → (∀ c s w, P w → P (on_call c s w).2) → P (run on_call p w).2.
Proof.
  intros Hw Hcall. revert w Hw. induction p as [s|s|s c k IH]; intros w Hw; simpl; auto.
  specialize (Hcall c s w Hw). destruct (on_call c s w) as [[[] s'] w']; auto.
Qed.

(** A map of the caller's state that the callbacks commute with. *)
Lemma run_map {S C W} (f : W → W) (on_call : C → S → W → bool * S * W) p w :
  (∀ c s w, on_call c s (f w) = let '(ok, s', w') := on_call c s w in (ok, s', f w')) →
  run on_call p (f w) = let '(ok, s', w') := run on_call p w in (ok, s', f w').
Proof.
  intros Hf. revert w. induction p as [s|s|s c k IH]; intros w; simpl; [done|done|].
  rewrite Hf. destruct (on_call c s w) as [[[] s'] w']; [apply IH|done].
Qed.

(** The callbacks of a snapshot, and of an update. *)
Inductive snapshot_call (U : Type) :=
  | PublishSnapshot (u : U) (exchange_sequence retries delay : Z)
  | RequestSnapshot (retries : Z).
Inductive update_call (U : Type) :=
  | PublishUpdate (u : U)
  | Snapshot (c : snapshot_call U).
Arguments PublishSnapshot {U} _ _ _ _.
Arguments RequestSnapshot {U} _.
Arguments PublishUpdate {U} _.
Arguments Snapshot {U} _.

(** The sequencer of updates [U]: [on_snapshot] and [on_update] are the two
    overloads of the call operator, [apply] returns whether it completed. *)
Class Sequencer (U : Type) := {
  sequencer : Type;
  sequencer_init : sequencer;
  last_sequence : sequencer → Z;
  sequencer_clear : sequencer → sequencer;
  sequencer_apply : Z → bool → sequencer → bool * sequencer;
  on_snapshot : U → Z → bool → sequencer → prog sequencer (snapshot_call U);
  on_update : U → Z → Z → Z → sequencer → prog sequencer (update_call U);
}.
Arguments sequencer U {_}.

(** The updates: [bids, asks] by price, [orders] by order. *)
Abbreviation mbp_update := (list MBPUpdate * list MBPUpdate)%type.
Abbreviation mbo_update := (list MBOUpdate).

(** ** Security *)

Record Security `{Sequencer mbp_update} `{Sequencer mbo_update} := {
  exchange : string;
  symbol : string;
  display_factor : double;
  discard : bool;
  rpt_seq : Z;
  (* mbp *)
  mbp_sequencer : sequencer mbp_update;
  mbp_resubscribe : Z;
  (* mbo *)
  mbo_no_chunks : Z;
  mbo_last_chunk : Z;
  mbo_orders : list MBOUpdate;
  mbo_sequencer : sequencer mbo_update;
  mbo_resubscribe : Z;
}.

Section security.
Context `{MBP : Sequencer mbp_update} `{MBO : Sequencer mbo_update}.
Implicit Types (s : Security).

Definition set_rpt_seq v s : Security :=
  Build_Security _ _ (exchange s) (symbol s) (display_factor s) (discard s) v
    (mbp_sequencer s) (mbp_resubscribe s)
    (mbo_no_chunks s) (mbo_last_chunk s) (mbo_orders s) (mbo_sequencer s) (mbo_resubscribe s).
Definition set_mbp q r s : Security :=
  Build_Security _ _ (exchange s) (symbol s) (display_factor s) (discard s) (rpt_seq s)
    q r
    (mbo_no_chunks s) (mbo_last_chunk s) (mbo_orders s) (mbo_sequencer s) (mbo_resubscribe s).
Definition set_mbo q r s : Security :=
  Build_Security _ _ (exchange s) (symbol s) (display_factor s) (discard s) (rpt_seq s)
    (mbp_sequencer s) (mbp_resubscribe s)
    (mbo_no_chunks s) (mbo_last_chunk s) (mbo_orders s) q r.
Definition set_chunks n l s : Security :=
  Build_Security _ _ (exchange s) (symbol s) (display_factor s) (discard s) (rpt_seq s)
    (mbp_sequencer s) (mbp_resubscribe s)
    n l (mbo_orders s) (mbo_sequencer s) (mbo_resubscribe s).
Definition set_mbo_orders o s : Security :=
  Build_Security _ _ (exchange s) (symbol s) (display_factor s) (discard s) (rpt_seq s)
    (mbp_sequencer s) (mbp_resubscribe s)
    (mbo_no_chunks s) (mbo_last_chunk s) o (mbo_sequencer s) (mbo_resubscribe s).

(** [Security{.exchange, .symbol, .display_factor, .discard}]. *)
Definition new_security (exchange symbol : string) (display_factor : double) (discard : bool) : Security :=
  Build_Security _ _ exchange symbol display_factor discard 0
    sequencer_init 0 0 0 [] sequencer_init 0.

(** [update_rpt_seq]: whether the report sequence has a gap. *)
Definition update_rpt_seq (v : Z) (s : Security) : bool * Security :=
  if v =? 0 then (false, s)
  else
    let next := u32 (rpt_seq s + 1) in
    (negb (v =? next), set_rpt_seq v s).

(** [update_mbo_snapshot]: the callback gets the orders as [mbo_orders] of
    the security, and whether this is the last chunk. *)
Definition update_mbo_snapshot {W} (current_chunk no_chunks : Z)
    (callback : bool → Security → W → Security * W) (s : Security) (w : W)
    : bool * Security * W :=
  let reset s := set_mbo_orders [] (set_chunks 0 0 s) in
  if negb (mbo_no_chunks s =? 0) then
    if current_chunk =? mbo_last_chunk s then (false, s, w)
    else if current_chunk =? u32 (mbo_last_chunk s + 1) then
      if current_chunk =? no_chunks then
        let '(s, w) := callback true s w in (true, reset s, w)
      else
        let '(s, w) := callback false (set_chunks (mbo_no_chunks s) current_chunk s) w in
        (false, s, w)
    else (false, reset s, w)
  else if current_chunk =? 1 then
    let last := current_chunk =? no_chunks in
    let '(s, w) := callback last (set_chunks no_chunks current_chunk s) w in
    (false, s, w)
  else (false, s, w).
End security.

(** ** Facts *)

Section security_facts.
Context `{MBP : Sequencer mbp_update} `{MBO : Sequencer mbo_update}.
Implicit Types (s : Security).

(** Report sequences, in the order received: whether one had a gap, and the
    security after them. *)
Definition feed_rpt (vs : list Z) (s : Security) : bool * Security :=
  foldl (λ '(gap, s) v, let '(g, s) := update_rpt_seq v s in (gap || g, s)) (false, s) vs.

Lemma feed_rpt_cons v vs s :
  feed_rpt (v :: vs) s =
  let '(g, s) := update_rpt_seq v s in let '(g', s) := feed_rpt vs s in (g || g', s).
Proof.
  unfold feed_rpt. simpl. destruct (update_rpt_seq v s) as [g s']. simpl.
  assert (∀ g s, foldl (λ '(gap, s) v, let '(g, s) := update_rpt_seq v s in (gap || g, s)) (g, s) vs
    = let '(g', s) := foldl (λ '(gap, s) v, let '(g, s) := update_rpt_seq v s in (gap || g, s)) (false, s) vs
      in (g || g', s)) as Hgen; [|by rewrite (Hgen g)].
  clear. induction vs as [|v vs IH]; intros g s; simpl; [by rewrite orb_false_r|].
  destruct (update_rpt_seq v s) as [g' s']. rewrite IH, (IH g').
  destruct (foldl _ _ _). by rewrite orb_assoc.
Qed.

Lemma u32_succ r : u32 (u32 r + 1) = u32 (r + 1).
Proof. unfold wrap. by rewrite Zplus_mod_idemp_l. Qed.

Lemma u32_succ_eqb c l : 1 ≤ c < 2 ^ 32 → 1 ≤ l < 2 ^ 32 → (c =? u32 (l + 1)) = (c =? l + 1).
Proof.
  intros. destruct (decide (l + 1 = 2 ^ 32)) as [->|].
  - rewrite (proj2 (Z.eqb_neq c _)) by (change (u32 (2 ^ 32)) with 0; lia).
    by rewrite (proj2 (Z.eqb_neq c _)) by lia.
  - by rewrite wrap_small by (unfold in_width; lia).
Qed.

(** The entries of one snapshot, by chunk number; a callback that collects
    them in the security and records what is complete. *)
Definition assemble (entries : list MBOUpdate) (last : bool) (s : Security)
    (published : list (list MBOUpdate)) : Security * list (list MBOUpdate) :=
  let s := set_mbo_orders (mbo_orders s ++ entries) s in
  (s, if last then published ++ [mbo_orders s] else published).

Definition feed_chunks (n : Z) (e : Z → list MBOUpdate) (cs : list Z) (s : Security)
    (w : list (list MBOUpdate)) : Security * list (list MBOUpdate) :=
  foldl (λ '(s, w) c, let '(_, s, w) := update_mbo_snapshot c n (assemble (e c)) s w in (s, w)) (s, w) cs.

Lemma feed_chunks_app n e cs1 cs2 s w :
  feed_chunks n e (cs1 ++ cs2) s w =
  let '(s, w) := feed_chunks n e cs1 s w in feed_chunks n e cs2 s w.
Proof. unfold feed_chunks. rewrite foldl_app. by destruct (foldl _ (s, w) cs1). Qed.

Lemma feed_chunks_cons n e c cs s w :
  feed_chunks n e (c :: cs) s w =
  let '(_, s, w) := update_mbo_snapshot c n (assemble (e c)) s w in feed_chunks n e cs s w.
Proof. unfold feed_chunks. simpl. by destruct (update_mbo_snapshot _ _ _ _ _) as [[? ?] ?]. Qed.

(** The entries of the chunks 1 to [k]. *)
Definition chunks_upto (e : Z → list MBOUpdate) (k : Z) : list MBOUpdate :=
  concat (map e (seqZ 1 k)).

Lemma chunks_upto_succ e k : 0 ≤ k → chunks_upto e (k + 1) = chunks_upto e k ++ e (k + 1).
Proof.
  intros. unfold chunks_upto. rewrite seqZ_app by lia.
  replace (seqZ (1 + k) 1) with [k + 1] by (rewrite seqZ_cons, seqZ_nil by lia; f_equal; lia).
  rewrite map_app, concat_app. cbn [map concat]. by rewrite app_nil_r.
Qed.

Lemma chunks_upto_1 e : chunks_upto e 1 = e 1.
Proof. unfold chunks_upto. change (seqZ 1 1) with [1]. simpl. by rewrite app_nil_r. Qed.

(** Between messages: no chunk collected, or exactly the first ones. *)
Definition chunks_inv (n : Z) (e : Z → list MBOUpdate) (s : Security) : Prop :=
  (mbo_no_chunks s = 0 ∧ mbo_orders s = [])
  ∨ (mbo_no_chunks s ≠ 0 ∧ 1 ≤ mbo_last_chunk s ≤ n
     ∧ mbo_orders s = chunks_upto e (mbo_last_chunk s)).

Lemma update_mbo_snapshot_step n e c s w :
  in_width 32 n → 1 ≤ c ≤ n → chunks_inv n e s →
  let '(_, s', w') := update_mbo_snapshot c n (assemble (e c)) s w in
  chunks_inv n e s' ∧ (w' = w ∨ w' = w ++ [chunks_upto e n]).
Proof.
  intros [_ Hn] Hc Hinv. unfold update_mbo_snapshot, assemble.
  destruct (mbo_no_chunks s =? 0) eqn:E0; simpl; bool_to_prop.
  - destruct Hinv as [[_ Ho]|[? _]]; [|done].
    destruct (c =? 1) eqn:E1; simpl; bool_to_prop; [|split; [by left|by left]].
    rewrite Ho, E1. cbn [app]. split.
    + right. simpl. rewrite chunks_upto_1. split_and!; [lia|lia|lia|done].
    + destruct (1 =? n) eqn:En; bool_to_prop; [right|by left].
      subst n. by rewrite chunks_upto_1.
  - destruct Hinv as [[? _]|[_ [Hl Ho]]]; [done|].
    destruct (c =? mbo_last_chunk s) eqn:E1; simpl; bool_to_prop.
    { split; [right|by left]. split_and!; (done || lia). }
    rewrite u32_succ_eqb by lia.
    destruct (c =? mbo_last_chunk s + 1) eqn:E2; simpl; bool_to_prop;
      [|split; [by left|by left]].
    assert (mbo_orders s ++ e c = chunks_upto e c) as Hc'.
    { rewrite Ho, E2, chunks_upto_succ by lia. done. }
    destruct (c =? n) eqn:E3; simpl; bool_to_prop.
    + split; [by left|]. right. subst n. by rewrite Hc'.
    + split; [|by left]. right. simpl. split_and!; (done || lia).
Qed.

Lemma feed_chunks_inv n e cs s w :
  in_width 32 n → Forall (λ c, 1 ≤ c ≤ n) cs → chunks_inv n e s →
  let '(s', w') := feed_chunks n e cs s w in
  chunks_inv n e s' ∧ ∃ k, w' = w ++ replicate k (chunks_upto e n).
Proof.
  intros Hn Hcs. revert s w. induction Hcs as [|c cs Hc _ IH]; intros s w Hinv.
  { split; [done|]. exists 0%nat. by rewrite app_nil_r. }
  rewrite feed_chunks_cons.
  pose proof (update_mbo_snapshot_step n e c s w Hn Hc Hinv) as Hstep.
  destruct (update_mbo_snapshot c n (assemble (e c)) s w) as [[b s1] w1].
  destruct Hstep as [Hinv1 Hw1]. specialize (IH s1 w1 Hinv1).
  destruct (feed_chunks n e cs s1 w1) as [s2 w2]. destruct IH as [Hinv2 [k Hw2]].
  split; [done|]. destruct Hw1 as [-> | ->].
  - by exists k.
  - exists (S k). rewrite Hw2. simpl. by rewrite <- app_assoc.
Qed.

(** The messages of chunks [k + 1, ...], each one or more times. *)
Fixpoint repeated_from (k : Z) (rs : list nat) : list Z :=
  match rs with
  | [] => []
  | r :: rs => (k + 1) :: replicate r (k + 1) ++ repeated_from (k + 1) rs
  end.

Lemma feed_chunks_ignored n e c r s w :
  (∀ w, update_mbo_snapshot c n (assemble (e c)) s w = (false, s, w)) →
  feed_chunks n e (replicate r c) s w = (s, w).
Proof.
  intros Hsame. unfold feed_chunks. induction r as [|r IH]; simpl; [done|].
  by rewrite Hsame.
Qed.

(** The next chunk in a snapshot of which [k] are there, when it is not the
    last and when it is. *)
Lemma update_mbo_snapshot_next n e k s w :
  1 ≤ k → k + 1 < n < 2 ^ 32 →
  mbo_no_chunks s = n → mbo_last_chunk s = k → mbo_orders s = chunks_upto e k →
  update_mbo_snapshot (k + 1) n (assemble (e (k + 1))) s w =
  (false, set_mbo_orders (chunks_upto e (k + 1)) (set_chunks n (k + 1) s), w).
Proof.
  intros ? ? Hnc Hlc Ho. unfold update_mbo_snapshot, assemble.
  rewrite (proj2 (Z.eqb_neq (mbo_no_chunks s) 0)), (proj2 (Z.eqb_neq (k + 1) _)) by lia.
  rewrite Hlc, u32_succ_eqb, Z.eqb_refl, (proj2 (Z.eqb_neq (k + 1) n)) by lia.
  simpl. by rewrite Ho, <- chunks_upto_succ, Hnc by lia.
Qed.

Lemma update_mbo_snapshot_last n e k s w :
  1 ≤ k → k + 1 = n → n < 2 ^ 32 →
  mbo_no_chunks s = n → mbo_last_chunk s = k → mbo_orders s = chunks_upto e k →
  update_mbo_snapshot (k + 1) n (assemble (e (k + 1))) s w =
  (true, set_mbo_orders [] (set_chunks 0 0 s), w ++ [chunks_upto e (k + 1)]).
Proof.
  intros ? ? ? Hnc Hlc Ho. unfold update_mbo_snapshot, assemble.
  rewrite (proj2 (Z.eqb_neq (mbo_no_chunks s) 0)), (proj2 (Z.eqb_neq (k + 1) _)) by lia.
  rewrite Hlc, u32_succ_eqb, Z.eqb_refl, (proj2 (Z.eqb_eq (k + 1) n)) by lia.
  simpl. by rewrite Ho, <- chunks_upto_succ by lia.
Qed.

Lemma feed_chunks_repeated n e k rs s w :
  in_width 32 n → 2 ≤ n → 1 ≤ k → n = k + Z.of_nat (length rs) → rs ≠ [] →
  mbo_no_chunks s = n → mbo_last_chunk s = k → mbo_orders s = chunks_upto e k →
  feed_chunks n e (repeated_from k rs) s w =
  (set_mbo_orders [] (set_chunks 0 0 s), w ++ [chunks_upto e n]).
Proof.
  intros [_ Hn] Hn2. revert k s w.
  induction rs as [|r rs IH]; intros k s w Hk Hlen Hne Hnc Hlc Ho; [done|].
  simpl repeated_from. rewrite feed_chunks_cons. simpl length in Hlen.
  destruct rs as [|r' rs].
  - rewrite (update_mbo_snapshot_last _ _ k) by (simpl in *; (done || lia)).
    rewrite app_nil_r, feed_chunks_ignored; [by replace (k + 1) with n by (simpl in *; lia)|].
    intros w'. unfold update_mbo_snapshot. simpl.
    by rewrite (proj2 (Z.eqb_neq (k + 1) 1)) by lia.
  - simpl length in Hlen. rewrite (update_mbo_snapshot_next _ _ k) by (done || lia).
    rewrite feed_chunks_app, feed_chunks_ignored.
    + rewrite (IH (k + 1)); (done || simpl; lia).
    + intros w'. unfold update_mbo_snapshot. simpl.
      by rewrite (proj2 (Z.eqb_neq n 0)), Z.eqb_refl by lia.
Qed.

(** report sequence numbers.  Over any run, no gap is reported exactly
    when the non zero ones (zero is what a conflated feed sends) count up by
    one, modulo [2^32], from the last one seen. *)
Theorem feed_rpt_gap_free vs s :
  (feed_rpt vs s).1 = false ↔
  ∀ i v, filter (.≠ 0) vs !! i = Some v → v = u32 (rpt_seq s + 1 + Z.of_nat i).
Proof.
  revert s. induction vs as [|v vs IH]; intros s; [done|].
  rewrite feed_rpt_cons. unfold update_rpt_seq.
  destruct (v =? 0) eqn:E0; bool_to_prop.
  { rewrite filter_cons_False by lia. rewrite <- IH. by destruct (feed_rpt vs s) as [[] ?]. }
  rewrite filter_cons_True by lia.
  specialize (IH (set_rpt_seq v s)). destruct (feed_rpt vs (set_rpt_seq v s)) as [g s'].
  simpl in *. rewrite orb_false_iff, negb_false_iff, Z.eqb_eq, IH. split.
  - intros [Hv Hvs] [|i] v'; simpl; intros Hi; [injection Hi as <-; by rewrite Z.add_0_r|].
    rewrite (Hvs i v' Hi), Hv. unfold wrap. rewrite <- Z.add_assoc, Zplus_mod_idemp_l. f_equal. lia.
  - intros Hall. assert (v = u32 (rpt_seq s + 1)) as Hv.
    { rewrite <- (Z.add_0_r (_ + 1)). by apply (Hall 0%nat). }
    split; [done|]. intros i v' Hi. rewrite (Hall (S i) v' Hi), Hv.
    unfold wrap. rewrite <- (Z.add_assoc (_ mod _)), Zplus_mod_idemp_l. f_equal. lia.
Qed.

(** the last non zero report sequence received is the one remembered, and
    a conflated feed (all zero) leaves the security alone. *)
Theorem feed_rpt_state vs s :
  (feed_rpt vs s).2 = set_rpt_seq (default (rpt_seq s) (last (filter (.≠ 0) vs))) s.
Proof.
  revert s. induction vs as [|v vs IH]; intros s; [by destruct s|].
  rewrite feed_rpt_cons. unfold update_rpt_seq. destruct (v =? 0) eqn:E0; bool_to_prop.
  - rewrite filter_cons_False by lia. rewrite <- IH. by destruct (feed_rpt vs s).
  - rewrite filter_cons_True by lia. specialize (IH (set_rpt_seq v s)).
    destruct (feed_rpt vs (set_rpt_seq v s)) as [g s']. simpl in *. rewrite IH, last_cons.
    by destruct (last _).
Qed.

(** a snapshot of [n >= 2] chunks that arrive in order, each one or more
    times (the two lines of a feed carry the same chunks), is published
    exactly once, as the concatenation of the chunks, and leaves the security
    ready for the next one. *)
Theorem feed_chunks_complete n e r rs s w :
  in_width 32 n → 2 ≤ n → n = 1 + Z.of_nat (length rs) →
  mbo_no_chunks s = 0 → mbo_orders s = [] →
  feed_chunks n e (1 :: replicate r 1 ++ repeated_from 1 rs) s w =
  (set_mbo_orders [] (set_chunks 0 0 s), w ++ [concat (map e (seqZ 1 n))]).
Proof.
  intros Hn Hn2 Hlen Hnc Ho. rewrite feed_chunks_cons. unfold update_mbo_snapshot at 1.
  rewrite Hnc, !Z.eqb_refl, (proj2 (Z.eqb_neq 1 n)) by lia. cbn [negb].
  unfold assemble at 1. simpl. rewrite Ho. simpl.
  rewrite feed_chunks_app, feed_chunks_ignored.
  - rewrite (feed_chunks_repeated n e 1); try done; simpl; try lia.
    + by destruct rs; simpl in *; [lia|].
    + by rewrite chunks_upto_1.
  - intros w'. unfold update_mbo_snapshot. simpl.
    by rewrite (proj2 (Z.eqb_neq n 0)) by lia.
Qed.

(** whatever chunks arrive, in whatever order, and however often the
    collection starts over, what is published is a complete snapshot. *)
Theorem feed_chunks_safe n e cs s :
  in_width 32 n → Forall (λ c, 1 ≤ c ≤ n) cs → mbo_no_chunks s = 0 → mbo_orders s = [] →
  Forall (λ orders, orders = concat (map e (seqZ 1 n))) (feed_chunks n e cs s []).2.
Proof.
  intros Hn Hcs Hnc Ho. pose proof (feed_chunks_inv n e cs s [] Hn Hcs (or_introl (conj Hnc Ho))) as Hinv.
  destruct (feed_chunks n e cs s []) as [s' w']. destruct Hinv as [_ [k ->]].
  by apply Forall_replicate.
Qed.

(** a snapshot of a single chunk is published once: the branch of the
    first chunk does not reset the collection, so the same chunk of every
    later cycle is taken for a repeat and ignored. *)
Theorem feed_chunks_single_stuck e k s w :
  mbo_no_chunks s = 0 → mbo_orders s = [] →
  feed_chunks 1 e (replicate (S k) 1) s w =
  (set_mbo_orders (e 1) (set_chunks 1 1 s), w ++ [e 1]).
Proof.
  intros Hnc Ho. simpl replicate. rewrite feed_chunks_cons. unfold update_mbo_snapshot, assemble.
  rewrite Hnc. simpl. rewrite Ho. simpl. by apply feed_chunks_ignored.
Qed.
End security_facts.

(** ** A concrete sequencer

    It publishes what it gets, and remembers the last sequence; an instance for
    the witnesses. *)

Definition simple_sequencer (U : Type) : Sequencer U := {|
  sequencer := Z;
  sequencer_init := 0;
  last_sequence s := s;
  sequencer_clear _ := 0;
  sequencer_apply _ _ s := (true, s);
  on_snapshot u seq force s :=
    if force || (s <=? seq) then Call seq (PublishSnapshot u seq 0 0) Ret
    else Call s (RequestSnapshot 1) Ret;
  on_update u first last previous s :=
    if s =? previous then Call last (PublishUpdate u) Ret else Bad s;
|}.

Section security_witnesses.
#[local] Existing Instance simple_sequencer.

Definition example_security : Security := new_security "XCME" "ESU4" (double_of_Z 1) false.

Definition example_order (id : Z) : MBOUpdate := {|
  mbo_price := double_of_Z 100; mbo_quantity := double_of_Z 1; mbo_priority := id;
  mbo_order_id := fmt_Z id; mbo_side := Side.BUY; mbo_action := UpdateAction.NEW |}.

Definition example_chunk (c : Z) : list MBOUpdate := [example_order (10 * c); example_order (10 * c + 1)].

Lemma feed_chunks_complete_witness :
  (feed_chunks 3 example_chunk [1; 2; 2; 3; 3; 3] example_security []).2
  = [concat (map example_chunk [1; 2; 3])].
Proof.
  change [1; 2; 2; 3; 3; 3] with (1 :: replicate 0 1 ++ repeated_from 1 [1%nat; 2%nat]).
  rewrite (feed_chunks_complete 3 example_chunk 0 [1%nat; 2%nat] example_security []);
    (reflexivity || lia || (vm_compute; split; congruence)).
Defined.

Lemma feed_chunks_safe_witness :
  Forall (λ orders, orders = concat (map example_chunk (seqZ 1 2)))
    (feed_chunks 2 example_chunk [2; 1; 1; 2; 1; 2] example_security []).2.
Proof.
  apply feed_chunks_safe; [vm_compute; split; congruence| |reflexivity|reflexivity].
  repeat constructor; lia.
Defined.

Lemma feed_chunks_single_stuck_witness :
  (feed_chunks 1 example_chunk [1; 1; 1] example_security []).2 = [example_chunk 1].
Proof.
  change [1; 1; 1] with (replicate 3 1).
  rewrite (feed_chunks_single_stuck example_chunk 2 example_security []); reflexivity.
Defined.
End security_witnesses.
