(* ===== verification/SecdefReader.v ===== *)
(** The reader of instrument definition files
    (src/roq/cme/secdef/config_reader.hpp and config_reader.cpp).

    A file is a sequence of lines of [tag=value] fields, each field ended by
    SOH and each line by a newline.  The conversion of text to numbers
    ([utils::charconv::from_chars]) is library code. *)

From Stdlib Require Import Ascii.
From S2P Require Import Prelude Double.

#[local] Arguments String.append : simpl nomatch.

(** ** [std::string_view] *)

(** [s.substr(0, s.find_first_of(p))]: all of [s] when there is none. *)
Fixpoint take_until (p : ascii → bool) (s : string) : string :=
  match s with
  | EmptyString => EmptyString
  | String c s => if p c then EmptyString else String c (take_until p s)
  end.

Fixpoint str_drop (n : nat) (s : string) : option string :=
  match n, s with
  | O, _ => Some s
  | S n, String _ s => str_drop n s
  | S _, EmptyString => None
  end.

(** [s.substr(n)], which throws beyond the end. *)
Definition substr_from (n : nat) (s : string) : res string :=
  match str_drop n s with Some s => Ok s | None => Err OutOfRange end.


(** The separators of ["\001\n"], and ['=']. *)
Definition SOH : ascii := ascii_of_nat 1.
Definition LF : ascii := ascii_of_nat 10.
Definition is_separator (c : ascii) : bool := bool_decide (c = SOH) || bool_decide (c = LF).
Definition is_equals (c : ascii) : bool := bool_decide (c = "="%char).

(** ** Records *)

Record SecDef := {
  sd_security_id : Z;
  sd_market_segment_id : Z;
  sd_exchange : string;
  sd_symbol : string;
  sd_security_type : string;
  sd_currency : string;
  sd_multiplier : Z;
  sd_min_trade_vol : Z;
  sd_max_trade_vol : Z;
  sd_min_price_increment : double;
  sd_display_factor : double;
  sd_asset : string;
}.

(** [SecDef{}] *)
Definition empty_sec_def : SecDef := {|
  sd_security_id := 0; sd_market_segment_id := 0; sd_exchange := ""; sd_symbol := "";
  sd_security_type := ""; sd_currency := ""; sd_multiplier := 0; sd_min_trade_vol := 0;
  sd_max_trade_vol := 0; sd_min_price_increment := NaN; sd_display_factor := NaN; sd_asset := "";
|}.

(** [utils::charconv::from_chars<T>], which throws on what is not a [T]. *)
Class FromChars := {
  from_chars_uint32 : string → res Z;
  from_chars_uint8 : string → res Z;
  from_chars_int32 : string → res Z;
  from_chars_double : string → res double;
}.

Section reader.
Context `{FromChars}.

(** The fields by tag. *)
Definition set_field (result : SecDef) (key value : string) : res SecDef :=
  let '(Build_SecDef id seg exch sym ty ccy mult minv maxv incr df asset) := result in
  tag ← from_chars_uint32 key;
  match tag with
  | 15 => Ok (Build_SecDef id seg exch sym ty value mult minv maxv incr df asset)
  | 48 => v ← from_chars_uint32 value; Ok (Build_SecDef v seg exch sym ty ccy mult minv maxv incr df asset)
  | 55 => Ok (Build_SecDef id seg exch value ty ccy mult minv maxv incr df asset)
  | 167 => Ok (Build_SecDef id seg exch sym value ccy mult minv maxv incr df asset)
  | 207 => Ok (Build_SecDef id seg value sym ty ccy mult minv maxv incr df asset)
  | 231 => v ← from_chars_int32 value; Ok (Build_SecDef id seg exch sym ty ccy v minv maxv incr df asset)
  | 562 => v ← from_chars_uint32 value; Ok (Build_SecDef id seg exch sym ty ccy mult v maxv incr df asset)
  | 969 => v ← from_chars_double value; Ok (Build_SecDef id seg exch sym ty ccy mult minv maxv v df asset)
  | 1140 => v ← from_chars_uint32 value; Ok (Build_SecDef id seg exch sym ty ccy mult minv v incr df asset)
  | 1300 => v ← from_chars_uint8 value; Ok (Build_SecDef id v exch sym ty ccy mult minv maxv incr df asset)
  | 6937 => Ok (Build_SecDef id seg exch sym ty ccy mult minv maxv incr df value)
  | 9787 => v ← from_chars_double value; Ok (Build_SecDef id seg exch sym ty ccy mult minv maxv incr v asset)
  | _ => Ok result
  end.

Context {S : Type} (handler : SecDef → S → res S).

(** The body of the [while]. *)
Definition secdef_step (tmp : string) (sec_def : SecDef) (s : S) : res (string * SecDef * S) :=
  let key_value := take_until is_separator tmp in
  '(sec_def, s) ←
    (if bool_decide (key_value = ""%string) then
       s ← handler sec_def s; Ok (empty_sec_def, s)
     else
       let key := take_until is_equals key_value in
       value ← substr_from (String.length key + 1) key_value;
       sec_def ← set_field sec_def key value; Ok (sec_def, s));
  tmp ← substr_from (String.length key_value + 1) tmp;
  Ok (tmp, sec_def, s).

(** The [while]; [None] when the fuel ran out. *)
Fixpoint secdef_loop (fuel : nat) (tmp : string) (sec_def : SecDef) (s : S) : option (res S) :=
  match tmp, fuel with
  | EmptyString, _ => Some (Ok s)
  | _, O => None
  | _, Datatypes.S fuel =>
    match secdef_step tmp sec_def s with
    | Err e => Some (Err e)
    | Ok (tmp, sec_def, s) => secdef_loop fuel tmp sec_def s
    end
  end.

(** [ConfigReader::dispatch]; each turn takes a character or more. *)
Definition secdef_dispatch (buffer : string) (s : S) : res S :=
  default (Err RuntimeError) (secdef_loop (String.length buffer) buffer empty_sec_def s).
End reader.

(** ** Files, for the statements *)

Definition field_wf (f : string * string) : bool :=
  all_chars (λ c, negb (is_separator c) && negb (is_equals c)) f.1
  && all_chars (λ c, negb (is_separator c)) f.2.

Definition field_text (f : string * string) : string := f.1 +:+ String "="%char f.2.
Definition render_field (f : string * string) : string := field_text f +:+ String SOH EmptyString.
Definition render_line (fs : list (string * string)) : string :=
  foldr String.append (String LF EmptyString) (map render_field fs).
Definition render_file (ls : list (list (string * string))) : string :=
  foldr String.append EmptyString (map render_line ls).

(** What a line means: its fields, set one after the other. *)
Definition line_sec_def `{FromChars} (fs : list (string * string)) : res SecDef :=
  foldM (λ sd f, set_field sd f.1 f.2) empty_sec_def fs.

(** ** Facts *)

Lemma take_until_app p a c b :
  all_chars (λ x, negb (p x)) a → p c = true → take_until p (a +:+ String c b) = a.
Proof.
  induction a as [|x a IH]; simpl; intros Ha Hc; [by rewrite Hc|].
  apply andb_prop_elim in Ha as [Hx Ha]. destruct (p x); [done|]. by rewrite IH.
Qed.

Lemma take_until_all p a : all_chars (λ x, negb (p x)) a → take_until p a = a.
Proof.
  induction a as [|x a IH]; simpl; intros Ha; [done|].
  apply andb_prop_elim in Ha as [Hx Ha]. destruct (p x); [done|]. by rewrite IH.
Qed.

Lemma substr_from_app a c b : substr_from (String.length a + 1) (a +:+ String c b) = Ok b.
Proof. unfold substr_from. induction a as [|x a IH]; simpl; [by destruct b|]. done. Qed.

Lemma substr_from_past a : substr_from (String.length a + 1) a = Err OutOfRange.
Proof. unfold substr_from. by induction a. Qed.

Lemma substr_from_length n a b : substr_from n a = Ok b → String.length a = (n + String.length b)%nat.
Proof.
  unfold substr_from. revert a. induction n as [|n IH]; intros a; simpl; [by intros [= ->]|].
  destruct a as [|c a]; [done|]. intros Hb. simpl. by rewrite (IH a Hb).
Qed.

Lemma field_text_no_separator f : field_wf f → all_chars (λ c, negb (is_separator c)) (field_text f).
Proof.
  intros [Hk Hv]%andb_prop_elim. unfold field_text. rewrite all_chars_app. simpl.
  apply andb_prop_intro. split; [|done]. eapply all_chars_impl; [|done].
  by intros c [? ?]%andb_prop_elim.
Qed.

Lemma field_text_key f : field_wf f → take_until is_equals (field_text f) = f.1.
Proof.
  intros [Hk Hv]%andb_prop_elim. apply take_until_app; [|done].
  eapply all_chars_impl; [|done]. by intros c [? ?]%andb_prop_elim.
Qed.

Lemma field_text_not_empty f : field_text f ≠ ""%string.
Proof. unfold field_text. by destruct f as [[|] ?]. Qed.

Section reader_facts.
Context `{FromChars} {S : Type} (handler : SecDef → S → res S).

Lemma secdef_step_field f rest sd s :
  field_wf f →
  secdef_step handler (render_field f +:+ rest) sd s =
  (sd ← set_field sd f.1 f.2; Ok (rest, sd, s)).
Proof.
  intros Hf. unfold secdef_step, render_field. rewrite str_app_assoc. simpl String.append.
  rewrite take_until_app by (done || by apply field_text_no_separator).
  rewrite bool_decide_false by apply field_text_not_empty.
  rewrite field_text_key by done.
  replace (substr_from (String.length f.1 + 1) (field_text f)) with (@Ok string f.2)
    by (symmetry; apply substr_from_app).
  cbn [mbind res_bind]. destruct (set_field sd f.1 f.2) as [sd'|]; [|done].
  cbn [mbind res_bind]. by rewrite substr_from_app.
Qed.

Lemma secdef_step_newline rest sd s :
  secdef_step handler (String LF rest) sd s =
  (s ← handler sd s; Ok (rest, empty_sec_def, s)).
Proof. unfold secdef_step. simpl. by destruct (handler sd s). Qed.

Lemma secdef_step_length tmp sd s tmp' sd' s' :
  secdef_step handler tmp sd s = Ok (tmp', sd', s') → (String.length tmp' < String.length tmp)%nat.
Proof.
  unfold secdef_step. intros [[sd1 s1] [_ Hr]]%res_bind_Ok.
  apply res_bind_Ok in Hr as [tmp1 [Hsub Hr]]. injection Hr as <- <- <-.
  apply substr_from_length in Hsub. lia.
Qed.

Lemma secdef_loop_nil fuel sd s : secdef_loop handler fuel EmptyString sd s = Some (Ok s).
Proof. by destruct fuel. Qed.

Lemma secdef_loop_cons fuel tmp sd s :
  tmp ≠ EmptyString →
  secdef_loop handler (Datatypes.S fuel) tmp sd s =
  match secdef_step handler tmp sd s with
  | Err e => Some (Err e)
  | Ok (tmp, sd, s) => secdef_loop handler fuel tmp sd s
  end.
Proof. by destruct tmp. Qed.

Lemma secdef_loop_fuel fuel fuel' tmp sd s :
  (String.length tmp ≤ fuel)%nat → (String.length tmp ≤ fuel')%nat →
  secdef_loop handler fuel tmp sd s = secdef_loop handler fuel' tmp sd s
  ∧ is_Some (secdef_loop handler fuel tmp sd s).
Proof.
  revert fuel' tmp sd s. induction fuel as [|fuel IH]; intros fuel' tmp sd s Hf Hf';
    (destruct (decide (tmp = EmptyString)) as [->|Hne]; [rewrite !secdef_loop_nil; eauto|]).
  { by destruct tmp; simpl in *; [|lia]. }
  destruct fuel' as [|fuel']; [by destruct tmp; simpl in *; [|lia]|].
  rewrite !secdef_loop_cons by done.
  destruct (secdef_step handler tmp sd s) as [[[tmp' sd'] s']|] eqn:Hstep; [|eauto].
  apply secdef_step_length in Hstep. apply IH; lia.
Qed.

(** The run over a text that starts with the fields of a line. *)
Lemma secdef_loop_fields fs rest sd s :
  Forall field_wf fs →
  let run tmp sd := secdef_loop handler (String.length tmp) tmp sd s in
  run (foldr String.append rest (map render_field fs)) sd =
  match foldM (λ sd f, set_field sd f.1 f.2) sd fs with
  | Ok sd => run rest sd
  | Err e => Some (Err e)
  end.
Proof.
  intros Hfs run. revert sd. induction Hfs as [|f fs Hf _ IH]; intros sd; [done|].
  unfold run. cbn [map foldr]. rewrite str_length_app.
  assert (String.length (render_field f) ≠ 0)%nat.
  { unfold render_field. rewrite str_length_app. simpl. lia. }
  destruct (String.length (render_field f)) as [|n] eqn:En; [done|]. cbn [Nat.add].
  rewrite secdef_loop_cons by (by destruct (render_field f)).
  rewrite secdef_step_field by done. cbn [foldM].
  destruct (set_field sd f.1 f.2) as [sd'|]; [|done]. cbn [mbind res_bind].
  rewrite <- IH. unfold run. apply secdef_loop_fuel; lia.
Qed.

Lemma secdef_loop_line fs rest s :
  Forall field_wf fs →
  secdef_loop handler (String.length (render_line fs +:+ rest)) (render_line fs +:+ rest) empty_sec_def s =
  match (sd ← line_sec_def fs; handler sd s) with
  | Ok s => secdef_loop handler (String.length rest) rest empty_sec_def s
  | Err e => Some (Err e)
  end.
Proof.
  intros Hfs.
  assert (render_line fs +:+ rest = foldr String.append (String LF rest) (map render_field fs)) as ->.
  { unfold render_line. clear. induction fs as [|f fs IH]; [done|]. cbn [map foldr].
    by rewrite str_app_assoc, IH. }
  rewrite secdef_loop_fields by done. unfold line_sec_def.
  destruct (foldM _ _ fs) as [sd|]; [|done]. cbn [mbind res_bind].
  cbn [String.length]. rewrite secdef_loop_cons, secdef_step_newline by done.
  by destruct (handler sd s).
Qed.

(** The run over complete lines and what follows them. *)
Lemma secdef_dispatch_lines ls rest s :
  Forall (Forall field_wf) ls →
  secdef_dispatch handler (render_file ls +:+ rest) s =
  (s ← foldM (λ s fs, sd ← line_sec_def fs; handler sd s) s ls; secdef_dispatch handler rest s).
Proof.
  intros Hls. unfold secdef_dispatch. revert s. induction Hls as [|fs ls Hfs _ IH]; intros s; [done|].
  unfold render_file. cbn [map foldr foldM]. fold (render_file ls). rewrite str_app_assoc.
  rewrite secdef_loop_line by done.
  destruct (sd ← line_sec_def fs; handler sd s) as [s'|]; [|done]. apply IH.
Qed.


(** a file whose last field has no separator after it ends with
    [std::out_of_range], after the handler saw every complete line. *)
Theorem secdef_dispatch_unterminated ls f s s' sd :
  Forall (Forall field_wf) ls → field_wf f →
  foldM (λ s fs, sd ← line_sec_def fs; handler sd s) s ls = Ok s' →
  set_field empty_sec_def f.1 f.2 = Ok sd →
  secdef_dispatch handler (render_file ls +:+ field_text f) s = Err OutOfRange.
Proof.
  intros Hls Hf Hrun Hset. rewrite secdef_dispatch_lines, Hrun by done. cbn [mbind res_bind].
  unfold secdef_dispatch. pose proof (field_text_not_empty f) as Hne.
  destruct (String.length (field_text f)) as [|n] eqn:En; [by destruct (field_text f)|].
  rewrite secdef_loop_cons by done. unfold secdef_step.
  rewrite take_until_all by by apply field_text_no_separator.
  rewrite bool_decide_false, field_text_key by done.
  replace (substr_from (String.length f.1 + 1) (field_text f)) with (@Ok string f.2)
    by (symmetry; apply substr_from_app).
  cbn [mbind res_bind]. rewrite Hset. cbn [mbind res_bind]. by rewrite substr_from_past.
Qed.

(** the reader terminates on every input: each turn drops a character or
    more, so that the length of the text is enough fuel. *)
Theorem secdef_loop_terminates buffer sd s :
  is_Some (secdef_loop handler (String.length buffer) buffer sd s).
Proof. by apply (secdef_loop_fuel _ (String.length buffer)). Qed.
End reader_facts.

(** A turn of the loop calls the handler with the record and starts a new one,
    or goes on with the record; what it does is independent of the handler. *)
Lemma secdef_step_shape `{FromChars} tmp sd :
  (∃ r, ∀ S (handler : SecDef → S → res S) s,
     secdef_step handler tmp sd s = (s ← handler sd s; tmp ← r; Ok (tmp, empty_sec_def, s)))
  ∨ (∃ r, ∀ S (handler : SecDef → S → res S) s,
     secdef_step handler tmp sd s = ('(tmp, sd) ← r; Ok (tmp, sd, s))).
Proof.
  set (key_value := take_until is_separator tmp).
  set (rest := substr_from (String.length key_value + 1) tmp).
  destruct (decide (key_value = EmptyString)) as [Hkv|Hkv].
  - left. exists rest. intros S handler s. unfold secdef_step. fold key_value.
    rewrite bool_decide_true by done. by destruct (handler sd s).
  - right. set (key := take_until is_equals key_value).
    exists (value ← substr_from (String.length key + 1) key_value;
            sd ← set_field sd key value; tmp ← rest; Ok (tmp, sd)).
    intros S handler s. unfold secdef_step. fold key_value.
    rewrite bool_decide_false by done. fold key rest.
    destruct (substr_from _ key_value) as [value|]; [|done]. simpl.
    destruct (set_field sd key value) as [sd'|]; [|done]. simpl. by destruct rest.
Qed.

(** Whatever the handler is, the reader calls it with the same records, and
    then returns or throws. *)
Lemma secdef_dispatch_items `{FromChars} (buffer : string) :
  ∃ (items : list SecDef) (final : res unit), ∀ (S : Type) (handler : SecDef → S → res S) s,
    secdef_dispatch handler buffer s =
    (s ← foldM (λ s item, handler item s) s items; _ ← final; Ok s).
Proof.
  unfold secdef_dispatch. generalize empty_sec_def (le_n (String.length buffer)).
  generalize (String.length buffer) at 2 3. intros fuel. revert buffer.
  induction fuel as [|fuel IH]; intros buffer sd Hlen;
    (destruct (decide (buffer = EmptyString)) as [->|Hne];
      [by exists [], (Ok tt); intros; rewrite secdef_loop_nil|]).
  { by destruct buffer; simpl in *; [|lia]. }
  pose proof (secdef_step_length (λ _ s, Ok s) buffer sd tt) as Hshort.
  destruct (secdef_step_shape buffer sd) as [[[rest|e] Hstep]|[[[rest sd']|e] Hstep]];
    rewrite Hstep in Hshort.
  - destruct (IH rest empty_sec_def) as (items & final & Hitems).
    { specialize (Hshort _ _ _ eq_refl). lia. }
    exists (sd :: items), final. intros. rewrite secdef_loop_cons, Hstep by done. cbn [foldM].
    destruct (handler sd s); [apply Hitems|done].
  - exists [sd], (Err e). intros. rewrite secdef_loop_cons, Hstep by done. cbn [foldM].
    by destruct (handler sd s).
  - destruct (IH rest sd') as (items & final & Hitems).
    { specialize (Hshort _ _ _ eq_refl). lia. }
    exists items, final. intros. rewrite secdef_loop_cons, Hstep by done. apply Hitems.
  - exists [], (Err e). intros. by rewrite secdef_loop_cons, Hstep.
Qed.

(** ** A concrete conversion, for the witnesses: unsigned decimal digits. *)

Fixpoint digits (acc : Z) (s : string) : res Z :=
  match s with
  | EmptyString => Ok acc
  | String c s =>
    let d := Z.of_nat (nat_of_ascii c) - 48 in
    if (0 <=? d) && (d <=? 9) then digits (10 * acc + d) s else Err RuntimeError
  end.

Definition example_from_chars : FromChars := {|
  from_chars_uint32 := digits 0;
  from_chars_uint8 := digits 0;
  from_chars_int32 := digits 0;
  from_chars_double s := z ← digits 0 s; Ok (double_of_Z z);
|}.

Section reader_witnesses.
#[local] Existing Instance example_from_chars.

Definition example_line : list (string * string) :=
  [("48", "118"); ("55", "ESU4"); ("207", "XCME"); ("6937", "ES"); ("1300", "64"); ("5799", "0")]%string.

Definition collect (sd : SecDef) (s : list (Z * string)) : res (list (Z * string)) :=
  Ok (s ++ [(sd_security_id sd, sd_symbol sd)]).


Lemma secdef_dispatch_unterminated_witness :
  secdef_dispatch collect (render_file [example_line] +:+ field_text ("48", "7")%string) []
  = Err OutOfRange.
Proof.
  eapply secdef_dispatch_unterminated; [by repeat constructor|done|reflexivity|reflexivity].
Defined.
End reader_witnesses.
