(* ===== verification/SecurityDefinitions.v ===== *)
(** The securities that are known
    (src/roq/cme/market_data/security_definitions.hpp and .cpp).

    Three hash tables: the securities by id, the ids by security group, and by
    market segment the ids by symbol.  A reference to a security handed to a
    callback is modelled by the id: what the callback writes is stored back
    with [put_security]. *)

From S2P Require Import Prelude Double Api Security SecdefReader.

(** The iteration order of [utils::unordered_set]. *)
Class HashOrder := {
  hash_order : gset Z → list Z;
  hash_order_perm : ∀ X, hash_order X ≡ₚ elements X;
}.

(** The dispatcher's filter on symbols (the configuration of the server). *)
Class DiscardSymbol := { discard_symbol : string → bool }.

Record SecurityDefinitions `{Sequencer mbp_update} `{Sequencer mbo_update} := {
  securities_ : gmap Z Security;
  security_groups_ : gmap string (gset Z);
  market_segments_ : gmap Z (gmap string Z);
}.

Section definitions.
Context `{MBP : Sequencer mbp_update} `{MBO : Sequencer mbo_update}.
Implicit Types (sd : SecurityDefinitions).

Definition empty_definitions : SecurityDefinitions :=
  {| securities_ := ∅; security_groups_ := ∅; market_segments_ := ∅ |}.

Definition has_security (security_id : Z) sd : bool :=
  bool_decide (is_Some (securities_ sd !! security_id)).

(** [security_groups_[group].insert(id)] and
    [market_segments_[segment].try_emplace(symbol, id)]. *)
Definition add_to_group (group : string) (security_id : Z) (m : gmap string (gset Z)) :=
  <[group := {[security_id]} ∪ default ∅ (m !! group)]> m.
Definition add_to_segment (segment : Z) (symbol : string) (security_id : Z)
    (m : gmap Z (gmap string Z)) :=
  <[segment := try_emplace symbol security_id (default ∅ (m !! segment))]> m.

(** [create_security]: also the security that the callback gets. *)
Definition create_security (security_group : string) (market_segment_id security_id : Z)
    (security : Security) sd : SecurityDefinitions * Security :=
  let sd :=
    if discard security then sd
    else {| securities_ := securities_ sd;
            security_groups_ := add_to_group security_group security_id (security_groups_ sd);
            market_segments_ :=
              add_to_segment market_segment_id (symbol security) security_id (market_segments_ sd) |} in
  let securities := try_emplace security_id security (securities_ sd) in
  ({| securities_ := securities; security_groups_ := security_groups_ sd;
      market_segments_ := market_segments_ sd |},
   default security (securities !! security_id)).

Definition get_security_incl_discard (security_id : Z) sd : option Security :=
  securities_ sd !! security_id.

Definition get_security (security_id : Z) sd : option Security :=
  match securities_ sd !! security_id with
  | None => None
  | Some security => if discard security then None else Some security
  end.

(** What a callback wrote through its reference. *)
Definition put_security (security_id : Z) (security : Security) sd : SecurityDefinitions :=
  {| securities_ := <[security_id := security]> (securities_ sd);
     security_groups_ := security_groups_ sd; market_segments_ := market_segments_ sd |}.

(** The ids that the callback gets, in the order of the iteration. *)
Definition get_security_group `{HashOrder} (security_group : string) sd : option (list Z) :=
  hash_order <$> security_groups_ sd !! security_group.

Definition find_security_id (market_segment_id : Z) (symbol : string) sd : option Z :=
  symbols ← market_segments_ sd !! market_segment_id; symbols !! symbol.

(** The handler of the definitions file: a 32 bit id is stored as [int32_t]. *)
Definition secdef_handler `{DiscardSymbol} (item : SecDef) sd : res SecurityDefinitions :=
  let discard := discard_symbol (sd_symbol item) in
  if discard then Ok sd
  else
    let security := new_security (sd_exchange item) (sd_symbol item) (sd_display_factor item) discard in
    let security_id := to_signed 32 (sd_security_id item) in
    Ok {| securities_ := try_emplace security_id security (securities_ sd);
          security_groups_ := add_to_group (sd_asset item) security_id (security_groups_ sd);
          market_segments_ :=
            add_to_segment (sd_market_segment_id item) (sd_symbol item) security_id
              (market_segments_ sd) |}.

(** The constructor: [None] is an empty file name. *)
Definition create_definitions `{DiscardSymbol, FromChars} (secdef_config_file : option string)
    : res SecurityDefinitions :=
  match secdef_config_file with
  | None => Ok empty_definitions
  | Some content => secdef_dispatch secdef_handler content empty_definitions
  end.
End definitions.

(** ** The invariant *)

Section invariant.
Context `{MBP : Sequencer mbp_update} `{MBO : Sequencer mbo_update}.
Implicit Types (sd : SecurityDefinitions) (s : Security).

Definition in_group sd (group : string) (id : Z) : Prop :=
  ∃ ids, security_groups_ sd !! group = Some ids ∧ id ∈ ids.

(** What is indexed by group or by symbol can be got, and what can be got is
    indexed in a group, its symbol in a segment. *)
Record sd_wf sd : Prop := {
  wf_group : ∀ group id, in_group sd group id → is_Some (get_security id sd);
  wf_symbol : ∀ segment symbol id,
    find_security_id segment symbol sd = Some id → is_Some (get_security id sd);
  wf_indexed : ∀ id s, get_security id sd = Some s →
    (∃ group, in_group sd group id) ∧ ∃ segment, is_Some (find_security_id segment (symbol s) sd);
}.

(** What the market data handlers never change of a security. *)
Definition same_identity s s' : Prop :=
  exchange s = exchange s' ∧ symbol s = symbol s'
  ∧ display_factor s = display_factor s' ∧ discard s = discard s'.

#[global] Instance same_identity_equiv : Equivalence same_identity.
Proof. split; unfold same_identity; repeat intro; intuition congruence. Qed.

Lemma get_security_Some id sd s :
  get_security id sd = Some s ↔ securities_ sd !! id = Some s ∧ discard s = false.
Proof.
  unfold get_security. destruct (securities_ sd !! id) as [s'|]; [|by intuition].
  destruct (discard s') eqn:E; intuition congruence.
Qed.

Lemma in_add_to_group g id g' id' m :
  (∃ ids, add_to_group g id m !! g' = Some ids ∧ id' ∈ ids)
  ↔ (g = g' ∧ id = id') ∨ (∃ ids, m !! g' = Some ids ∧ id' ∈ ids).
Proof.
  unfold add_to_group. destruct (decide (g = g')) as [<-|].
  - rewrite lookup_insert_eq. split.
    + intros (ids & [= <-] & [->%elem_of_singleton|Hin]%elem_of_union); [by left|right].
      destruct (m !! g); [naive_solver|set_solver].
    + intros [[_ <-]|(ids & Hids & Hin)]; eexists; (split; [done|]); [set_solver|].
      rewrite Hids. set_solver.
  - rewrite lookup_insert_ne by done. naive_solver.
Qed.

Lemma lookup_add_to_segment seg sym id seg' sym' m :
  (symbols ← add_to_segment seg sym id m !! seg'; symbols !! sym' : option Z)
  = if decide (seg = seg' ∧ sym = sym')
    then Some (default id (symbols ← m !! seg'; symbols !! sym'))
    else symbols ← m !! seg'; symbols !! sym'.
Proof.
  unfold add_to_segment. destruct (decide (seg = seg')) as [<-|].
  - rewrite lookup_insert_eq. simpl. rewrite lookup_try_emplace.
    destruct (m !! seg); repeat case_decide; simpl; naive_solver.
  - rewrite lookup_insert_ne, decide_False by naive_solver. done.
Qed.

(** The index entries of one non discarded security, added together. *)
Lemma index_wf group segment id s sd :
  sd_wf sd → discard s = false →
  (∀ s', securities_ sd !! id = Some s' → discard s' = false) →
  sd_wf {| securities_ := try_emplace id s (securities_ sd);
           security_groups_ := add_to_group group id (security_groups_ sd);
           market_segments_ := add_to_segment segment (symbol s) id (market_segments_ sd) |}.
Proof.
  intros [Hg Hs Hi] Hd Hold. unfold in_group, find_security_id in *.
  assert (∀ id' s', get_security id' sd = Some s' → is_Some (get_security id'
    {| securities_ := try_emplace id s (securities_ sd);
       security_groups_ := add_to_group group id (security_groups_ sd);
       market_segments_ := add_to_segment segment (symbol s) id (market_segments_ sd) |})) as Hkeep.
  { intros id' s' [Hl Hd']%get_security_Some. exists s'. apply get_security_Some. simpl.
    rewrite lookup_try_emplace, Hl. by case_decide. }
  assert (is_Some (get_security id
    {| securities_ := try_emplace id s (securities_ sd);
       security_groups_ := add_to_group group id (security_groups_ sd);
       market_segments_ := add_to_segment segment (symbol s) id (market_segments_ sd) |})) as Hnew.
  { unfold get_security. simpl. rewrite lookup_try_emplace, decide_True by done.
    destruct (securities_ sd !! id) as [s'|] eqn:E; simpl; [rewrite Hold by done|rewrite Hd]; eauto. }
  split; unfold in_group, find_security_id; simpl.
  - intros group' id' [[_ <-]|Hin]%in_add_to_group; [done|].
    destruct (Hg group' id' Hin) as [s' Hs']. eauto.
  - intros segment' symbol' id'. rewrite lookup_add_to_segment. case_decide; simpl.
    + intros [= <-]. destruct (_ ≫= _) as [id'|] eqn:E; simpl; [|done].
      destruct (Hs _ _ _ E) as [s' Hs']. eauto.
    + intros E. destruct (Hs _ _ _ E) as [s' Hs']. eauto.
  - intros id' s' [Hl Hd']%get_security_Some. simpl in Hl.
    rewrite lookup_try_emplace in Hl. case_decide as Hid; [subst id'|].
    + split; [exists group; apply in_add_to_group; by left|].
      injection Hl as <-. destruct (securities_ sd !! id) as [s0|] eqn:E; simpl in *.
      * destruct (Hi id s0) as [_ [seg' [id' Hid']]]; [by apply get_security_Some|].
        exists seg'. rewrite lookup_add_to_segment. case_decide; [eauto|by eexists].
      * exists segment. rewrite lookup_add_to_segment, decide_True by done. eauto.
    + destruct (Hi id' s') as [[g' Hg'] [seg' [id'' Hid'']]]; [by apply get_security_Some|].
      split; [exists g'; apply in_add_to_group; by right|].
      exists seg'. rewrite lookup_add_to_segment. case_decide; [eauto|by eexists].
Qed.

Lemma empty_definitions_wf : sd_wf empty_definitions.
Proof.
  split.
  - by intros group id (ids & Hids & _).
  - done.
  - done.
Qed.

Lemma create_security_wf group segment id s sd :
  sd_wf sd → has_security id sd = false → sd_wf (create_security group segment id s sd).1.
Proof.
  unfold has_security. intros Hwf Hnew%bool_decide_eq_false. unfold create_security.
  destruct (discard s) eqn:Hd; simpl.
  - assert (securities_ sd !! id = None) as Hnone by by apply eq_None_not_Some.
    assert (∀ id', get_security id' {| securities_ := try_emplace id s (securities_ sd);
      security_groups_ := security_groups_ sd; market_segments_ := market_segments_ sd |}
      = get_security id' sd) as Hget.
    { intros id'. unfold get_security. simpl. rewrite lookup_try_emplace.
      case_decide; [subst|done]. by rewrite Hnone; simpl; rewrite Hd. }
    destruct Hwf as [Hg Hs Hi]. split.
    + intros. rewrite Hget. eauto.
    + intros. rewrite Hget. eauto.
    + intros ? ?. rewrite Hget. apply Hi.
  - apply index_wf; [done..|]. intros s' Hs'. destruct Hnew. eauto.
Qed.

Lemma create_security_keeps group segment id id' s s' sd :
  get_security_incl_discard id' sd = Some s' →
  get_security_incl_discard id' (create_security group segment id s sd).1 = Some s'.
Proof.
  unfold get_security_incl_discard, create_security. intros Hs'.
  destruct (discard s); simpl; rewrite lookup_try_emplace, Hs'; by case_decide.
Qed.

Lemma put_security_wf id s s' sd :
  sd_wf sd → get_security_incl_discard id sd = Some s → same_identity s s' →
  sd_wf (put_security id s' sd).
Proof.
  unfold get_security_incl_discard. intros [Hg Hs Hi] Hid (He & Hsym & Hf & Hd).
  assert (∀ id', (∃ s1, get_security id' sd = Some s1) → is_Some (get_security id' (put_security id s' sd))) as Hkeep.
  { intros id' [s1 [Hl Hd1]%get_security_Some]. destruct (decide (id = id')) as [<-|].
    - exists s'. apply get_security_Some. simpl. rewrite lookup_insert_eq. split; congruence.
    - exists s1. apply get_security_Some. simpl. by rewrite lookup_insert_ne. }
  split; [intros g i Hin; exact (Hkeep i (Hg g i Hin))
         |intros g sym i Hsym'; exact (Hkeep i (Hs g sym i Hsym'))|].
  intros id' s1 [Hl Hd1]%get_security_Some. simpl in Hl.
  destruct (decide (id = id')) as [<-|].
  - rewrite lookup_insert_eq in Hl. injection Hl as <-. rewrite <- Hsym.
    apply Hi, get_security_Some. split; congruence.
  - rewrite lookup_insert_ne in Hl by done. by apply Hi, get_security_Some.
Qed.

(** Tables that differ only in what the feeds change of the securities. *)
Record same_securities sd sd' : Prop := {
  same_entries : ∀ id, option_Forall2 same_identity (securities_ sd !! id) (securities_ sd' !! id);
  same_groups : security_groups_ sd = security_groups_ sd';
  same_segments : market_segments_ sd = market_segments_ sd';
}.

#[global] Instance same_securities_equiv : Equivalence same_securities.
Proof.
  split.
  - intros sd. split; [|done..]. reflexivity.
  - intros sd1 sd2 [He Hg Hs]. split; [|done..]. intros id. by symmetry.
  - intros sd1 sd2 sd3 [He1 Hg1 Hs1] [He2 Hg2 Hs2].
    split; [|congruence..]. intros id. by transitivity (securities_ sd2 !! id).
Qed.

Lemma get_security_same id sd sd' :
  same_securities sd sd' → option_Forall2 same_identity (get_security id sd) (get_security id sd').
Proof.
  intros [He _ _]. unfold get_security. destruct (He id) as [s s' Hs|]; [|constructor].
  assert (discard s = discard s') as <- by by destruct Hs as (_ & _ & _ & ?).
  destruct (discard s); by constructor.
Qed.

Lemma sd_wf_same sd sd' : same_securities sd sd' → sd_wf sd → sd_wf sd'.
Proof.
  intros Hsame [Hg Hs Hi]. destruct (Hsame) as [_ Hgroups Hsegments].
  assert (∀ id, is_Some (get_security id sd) → is_Some (get_security id sd')) as Hget.
  { intros id [s Hs']. destruct (get_security_same id _ _ Hsame); [by eexists|done]. }
  unfold in_group, find_security_id in *. rewrite Hgroups in *. rewrite Hsegments in *. split.
  - intros. eapply Hget, Hg. done.
  - intros. eapply Hget, Hs. done.
  - intros id s' Hs'. pose proof (get_security_same id _ _ Hsame) as Hrel. rewrite Hs' in Hrel.
    inversion Hrel as [s ? (_ & Hsym & _) Heq|]; subst. rewrite <- Hsym. by apply (Hi id).
Qed.

#[global] Instance sd_wf_proper : Proper (same_securities ==> iff) sd_wf.
Proof. intros sd sd' Hsame. split; apply sd_wf_same; [done|by symmetry]. Qed.

Lemma put_security_same id s s' sd :
  get_security id sd = Some s → same_identity s s' → same_securities sd (put_security id s' sd).
Proof.
  intros [Hs _]%get_security_Some Hid. split; [|done..]. intros id'. simpl.
  destruct (decide (id = id')) as [<-|].
  - rewrite lookup_insert_eq, Hs. by constructor.
  - by rewrite lookup_insert_ne.
Qed.
End invariant.
#[export] Hint Resolve empty_definitions_wf : cme.

(** ** The definitions file *)

Section definitions_facts.
Context `{MBP : Sequencer mbp_update} `{MBO : Sequencer mbo_update}.
Context `{DiscardSymbol}.
Implicit Types (sd : SecurityDefinitions).

(** No security is marked, and none has a symbol that is filtered. *)
Definition none_discarded sd : Prop :=
  ∀ id (s : Security), securities_ sd !! id = Some s → discard s = false ∧ discard_symbol (symbol s) = false.

Lemma secdef_handler_step item sd sd' :
  sd_wf sd → none_discarded sd → secdef_handler item sd = Ok sd' →
  sd_wf sd' ∧ none_discarded sd'
  ∧ (∀ id, is_Some (get_security id sd) → is_Some (get_security id sd'))
  ∧ (discard_symbol (sd_symbol item) = false →
     is_Some (get_security (to_signed 32 (sd_security_id item)) sd')).
Proof.
  intros Hwf Hnd. unfold secdef_handler.
  destruct (discard_symbol (sd_symbol item)) eqn:Hd; intros [= <-]; [done|].
  set (id := to_signed 32 (sd_security_id item)).
  set (s := new_security (sd_exchange item) (sd_symbol item) (sd_display_factor item) false).
  set (m := try_emplace id s (securities_ sd)).
  assert (none_discarded {| securities_ := m; security_groups_ := ∅; market_segments_ := ∅ |}) as Hnd'.
  { intros id' s'. simpl. unfold m. rewrite lookup_try_emplace. case_decide; [|apply Hnd].
    intros [= <-]. destruct (securities_ sd !! id') eqn:E; simpl; [by eapply Hnd|done]. }
  assert (∀ id', is_Some (m !! id') → is_Some (get_security id'
    {| securities_ := m; security_groups_ := add_to_group (sd_asset item) id (security_groups_ sd);
       market_segments_ := add_to_segment (sd_market_segment_id item) (sd_symbol item) id
                             (market_segments_ sd) |})) as Hget.
  { intros id' [s' Hs']. exists s'. apply get_security_Some. split; [done|]. by apply (Hnd' id'). }
  split_and!; [|done|intros id' [s' [Hs' _]%get_security_Some]; apply Hget|intros _; apply Hget].
  - apply index_wf; [done|done|]. intros s' Hs'. by apply (Hnd id).
  - unfold m. rewrite lookup_try_emplace, Hs'. by case_decide; eexists.
  - unfold m. rewrite lookup_try_emplace, decide_True by done. by eexists.
Qed.

(** The fold of the handler over the records of a file. *)
Lemma secdef_handler_fold items sd sd' :
  sd_wf sd → none_discarded sd →
  foldM (λ sd item, secdef_handler item sd) sd items = Ok sd' →
  sd_wf sd' ∧ none_discarded sd'
  ∧ (∀ id, is_Some (get_security id sd) → is_Some (get_security id sd'))
  ∧ Forall (λ item, discard_symbol (sd_symbol item) = false →
              is_Some (get_security (to_signed 32 (sd_security_id item)) sd')) items.
Proof.
  revert sd. induction items as [|item items IH]; intros sd Hwf Hnd; simpl.
  - intros [= <-]. auto.
  - intros (sd1 & Hstep & Hfold)%res_bind_Ok.
    destruct (secdef_handler_step item sd sd1) as (Hwf1 & Hnd1 & Hkeep1 & Hitem); [done..|].
    destruct (IH sd1 Hwf1 Hnd1 Hfold) as (Hwf2 & Hnd2 & Hkeep2 & Hitems).
    split_and!; [done|done|by auto|]. constructor; [by auto|done].
Qed.

Context `{FromChars}.

(** A second pass over the file that the definitions were made from sees
    records whose securities, unless filtered, can all be got. *)
(** Each security is that of a record that is not filtered, and a group has the
    ids of the records with this asset. *)
Record of_records (items : list SecDef) sd : Prop := {
  of_records_security id s :
    get_security_incl_discard id sd = Some s →
    ∃ item, item ∈ items ∧ discard_symbol (sd_symbol item) = false
      ∧ exchange s = sd_exchange item ∧ symbol s = sd_symbol item;
  of_records_group group id :
    in_group sd group id ↔ ∃ item, item ∈ items ∧ discard_symbol (sd_symbol item) = false
      ∧ to_signed 32 (sd_security_id item) = id ∧ sd_asset item = group;
  of_records_symbol segment symbol id :
    find_security_id segment symbol sd = Some id → ∃ item, item ∈ items ∧ discard_symbol (sd_symbol item) = false
      ∧ to_signed 32 (sd_security_id item) = id ∧ sd_market_segment_id item = segment ∧ sd_symbol item = symbol;
}.

Lemma secdef_handler_records items seen sd sd' :
  of_records seen sd → foldM (λ sd item, secdef_handler item sd) sd items = Ok sd' → of_records (seen ++ items) sd'.
Proof.
  revert seen sd. induction items as [|item items IH]; intros seen sd Hsd; [intros [= <-]; by rewrite app_nil_r|].
  intros (sd1 & Hstep & Hfold)%res_bind_Ok. replace (seen ++ item :: items) with ((seen ++ [item]) ++ items)
    by by rewrite <- app_assoc. eapply IH, Hfold. clear Hfold IH.
  unfold secdef_handler in Hstep. destruct Hsd as [Hs Hg Hf]. destruct (discard_symbol (sd_symbol item)) eqn:Hd.
  - injection Hstep as <-. split.
    + intros id s (x & Hx & ?)%Hs. exists x. split; [set_solver|done].
    + intros group id. rewrite Hg. split; intros (x & Hx & Hdx & ?); exists x; [set_solver|].
      apply elem_of_app in Hx as [Hx|Hx%list_elem_of_singleton]; [done|subst x; congruence].
    + intros segment symbol id (x & Hx & ?)%Hf. exists x. split; [set_solver|done].
  - injection Hstep as <-. split.
    + intros id s. unfold get_security_incl_discard. simpl. rewrite lookup_try_emplace.
      assert (∀ s, get_security_incl_discard id sd = Some s → ∃ x, x ∈ seen ++ [item] ∧ discard_symbol (sd_symbol x) = false
        ∧ exchange s = sd_exchange x ∧ symbol s = sd_symbol x) as Hs1
        by (intros s0 (x & Hx & ?)%Hs; exists x; split; [set_solver|done]).
      case_decide as Hid; [subst id|by apply Hs1]. intros [= <-].
      destruct (securities_ sd !! _) as [s|] eqn:E; simpl; [by apply Hs1|]. exists item. split; [set_solver|done].
    + intros group id. unfold in_group. simpl. rewrite in_add_to_group.
      change (∃ ids, security_groups_ sd !! group = Some ids ∧ id ∈ ids) with (in_group sd group id). rewrite Hg. split.
      * intros [[Ha Hi]|(x & Hx & Hrest)]; [exists item|exists x; by rewrite elem_of_app; auto].
        split_and!; [set_solver|done..].
      * intros (x & [Hx|Hx%list_elem_of_singleton]%elem_of_app & Hdx & Hi & Ha); [right; by exists x|subst x; by left].
    + intros segment symbol id. unfold find_security_id. simpl. rewrite lookup_add_to_segment.
      change (symbols ← market_segments_ sd !! segment; symbols !! symbol) with (find_security_id segment symbol sd).
      assert (∀ i, find_security_id segment symbol sd = Some i → ∃ x, x ∈ seen ++ [item] ∧ discard_symbol (sd_symbol x) = false
        ∧ to_signed 32 (sd_security_id x) = i ∧ sd_market_segment_id x = segment ∧ sd_symbol x = symbol) as Hf1
        by (intros i (x & Hx & ?)%Hf; exists x; split; [set_solver|done]).
      case_decide as Hk; [|by apply Hf1]. destruct (find_security_id segment symbol sd) as [i|]; simpl; intros [= <-]; [by apply Hf1|].
      destruct Hk. exists item. split_and!; [set_solver|done..].
Qed.

Lemma create_definitions_known content sd :
  create_definitions (Some content) = Ok sd →
  sd_wf sd ∧ none_discarded sd ∧
  ∃ items : list SecDef,
    (∀ S (handler : SecDef → S → res S) (s : S),
       secdef_dispatch handler content s = foldM (λ s item, handler item s) s items)
    ∧ Forall (λ item, discard_symbol (sd_symbol item) = false →
                is_Some (get_security (to_signed 32 (sd_security_id item)) sd)) items
    ∧ of_records items sd.
Proof.
  simpl. destruct (secdef_dispatch_items content) as (items & final & Hitems). rewrite Hitems.
  intros (sd' & Hfold & Hfinal)%res_bind_Ok. destruct final as [[]|]; [|done].
  injection Hfinal as ->.
  destruct (secdef_handler_fold _ _ _ empty_definitions_wf (λ _ _ H, ltac:(done)) Hfold)
    as (Hwf & Hnd & _ & Hall).
  apply (secdef_handler_records items [] empty_definitions) in Hfold;
    [|by split; [|intros group id; split; [intros (? & ? & _)|intros (? & ?%elem_of_nil & _)]|]].
  split_and!; [done|done|]. exists items. split; [|done].
  intros. rewrite Hitems. by destruct (foldM _ s items).
Qed.

Lemma create_definitions_sd_wf file sd : create_definitions file = Ok sd → sd_wf sd.
Proof.
  destruct file as [content|]; [|by intros [= <-]; apply empty_definitions_wf].
  intros Hsd. by destruct (create_definitions_known content sd Hsd) as (? & ? & _).
Qed.

(** C31: whatever the file holds, the tables that are built from it agree: an
    id found by group or by symbol has a security that can be got, every
    security is found by a group and by its symbol; and what the filter of
    symbols refuses is in none of them: no security has such a symbol or is marked as
    discarded, and no such symbol is found in any segment. *)
Theorem create_definitions_wf file sd :
  create_definitions file = Ok sd →
  sd_wf sd
  ∧ (∀ id s, get_security_incl_discard id sd = Some s → discard_symbol (symbol s) = false ∧ get_security id sd = Some s)
  ∧ (∀ segment symbol id, find_security_id segment symbol sd = Some id → discard_symbol symbol = false).
Proof.
  destruct file as [content|].
  - intros Hsd. destruct (create_definitions_known content sd Hsd) as (Hwf & Hnd & items & _ & _ & Hfrom).
    split_and!; [done| |].
    + intros id s Hs. destruct (Hnd id s Hs) as [Hd Hf]. split; [done|]. by apply get_security_Some.
    + intros segment symbol id Hf. by destruct (of_records_symbol _ _ Hfrom _ _ _ Hf) as (x & _ & ? & _ & _ & <-).
  - intros [= <-]. split_and!; [apply empty_definitions_wf|done..].
Qed.

(** [create_security] of an id that is not known: the callback gets the
    new security; unless discarded it is then found by its id, its group and,
    if the symbol was free in the segment, by its symbol; every other id is
    found as before. *)
Theorem create_security_new group segment id s sd :
  has_security id sd = false →
  let '(sd', s') := create_security group segment id s sd in
  s' = s
  ∧ get_security_incl_discard id sd' = Some s
  ∧ get_security id sd' = (if discard s then None else Some s)
  ∧ (discard s = false → in_group sd' group id)
  ∧ (discard s = false → find_security_id segment (symbol s) sd = None →
     find_security_id segment (symbol s) sd' = Some id)
  ∧ (∀ id', id' ≠ id → get_security_incl_discard id' sd' = get_security_incl_discard id' sd).
Proof.
  unfold has_security. intros Hnew%bool_decide_eq_false.
  assert (securities_ sd !! id = None) as Hnone by by apply eq_None_not_Some.
  unfold create_security, get_security_incl_discard, get_security, in_group, find_security_id.
  destruct (discard s) eqn:Hd; simpl;
    rewrite !lookup_try_emplace, !decide_True, Hnone by done; simpl; rewrite Hd;
    split_and!; try done.
  - intros id' Hid. by rewrite lookup_try_emplace, decide_False by done.
  - intros _. apply in_add_to_group. by left.
  - intros _ Hfree. by rewrite lookup_add_to_segment, decide_True, Hfree.
  - intros id' Hid. by rewrite lookup_try_emplace, decide_False by done.
Qed.

(** [try_emplace] keeps the first security of an id: a second definition
    of it changes neither it nor what is found by another id. *)
Theorem create_security_known group segment id s s0 sd :
  get_security_incl_discard id sd = Some s0 →
  let '(sd', s') := create_security group segment id s sd in
  s' = s0 ∧ ∀ id', get_security_incl_discard id' sd' = get_security_incl_discard id' sd.
Proof.
  unfold get_security_incl_discard, create_security. intros Hs0.
  destruct (discard s); simpl; rewrite lookup_try_emplace, decide_True, Hs0 by done;
    (split; [done|]); intros id'; rewrite lookup_try_emplace; case_decide; simplify_eq; by rewrite ?Hs0.
Qed.

(** the callback of [get_security_group] gets each id of the group once,
    whatever the order of the hash table. *)
Theorem get_security_group_ids `{HashOrder} group sd ids :
  get_security_group group sd = Some ids →
  NoDup ids ∧ ∀ id, id ∈ ids ↔ in_group sd group id.
Proof.
  unfold get_security_group, in_group. destruct (security_groups_ sd !! group) as [X|]; [|done].
  simpl. intros [= <-]. split.
  - rewrite hash_order_perm. apply NoDup_elements.
  - intros id. rewrite hash_order_perm, elem_of_elements. naive_solver.
Qed.
End definitions_facts.

(** ** Witnesses *)

Section definitions_witnesses.
#[local] Existing Instance simple_sequencer.
#[local] Existing Instance example_from_chars.

(** Symbols that start with ['0'] are filtered. *)
Definition example_discard : DiscardSymbol :=
  {| discard_symbol s := match s with String c _ => bool_decide (c = Ascii.ascii_of_nat 48) | _ => false end |}.
#[local] Existing Instance example_discard.

#[refine] Definition example_hash_order : HashOrder := {| hash_order X := elements X |}.
Proof. done. Defined.
#[local] Existing Instance example_hash_order.

Definition example_file : string :=
  render_file [example_line; [("48", "7"); ("55", "0ESZ2"); ("6937", "0ES")]%string].

Definition example_definitions : SecurityDefinitions :=
  match create_definitions (Some example_file) with Ok sd => sd | Err _ => empty_definitions end.

Lemma create_definitions_wf_witness :
  sd_wf example_definitions
  ∧ ∀ segment symbol id, find_security_id segment symbol example_definitions = Some id → discard_symbol symbol = false.
Proof.
  destruct (create_definitions_wf (Some example_file) example_definitions) as (Hwf & _ & Hf);
    [vm_compute; reflexivity|]. split; [exact Hwf|exact Hf].
Defined.

Lemma create_security_new_witness :
  get_security_incl_discard 9 (create_security "ES" 64 9 example_security example_definitions).1
  = Some example_security.
Proof.
  pose proof (create_security_new "ES"%string 64 9 example_security example_definitions) as Hnew.
  destruct (create_security _ _ _ _ _) as [sd' s']. apply Hnew. vm_compute. reflexivity.
Defined.

Lemma create_security_known_witness :
  get_security_incl_discard 118 (create_security "ES" 64 118 example_security example_definitions).1
  = Some (new_security "XCME" "ESU4" NaN false).
Proof.
  pose proof (create_security_known "ES"%string 64 118 example_security
    (new_security "XCME" "ESU4" NaN false) example_definitions) as Hknown.
  destruct (create_security _ _ _ _ _) as [sd' s'].
  destruct Hknown as [_ ->]; [vm_compute; reflexivity|]. vm_compute. reflexivity.
Defined.

Lemma get_security_group_ids_witness :
  NoDup [118] ∧ ∀ id, id ∈ [118] ↔ in_group example_definitions "ES" id.
Proof. apply get_security_group_ids. vm_compute. reflexivity. Defined.
End definitions_witnesses.
