(* ===== verification/Channel.v ===== *)
(** Channels: the sequencing of the incremental feed
    (src/roq/cme/market_data/channel.hpp, channel.cpp, and the body of
    [Incremental::dispatch] in incremental.cpp).

    The packets of the two lines of a channel arrive in any order.  The next one
    in sequence is parsed, later ones are held back in a buffer until the gap
    is filled, and earlier ones are dropped.  The buffer ([core::udp::Buffer])
    is library code: the class [UdpBuffer]. *)

From S2P Require Import Prelude Api MdpParser.

(** [buffer_full]: no free slot, [next] refuses.  [buffer_commit]: what [next]
    keeps when its callback returns a size that is not zero.  [buffer_get]:
    takes out the message of a sequence number. *)
Class UdpBuffer := {
  udp_buffer : Type;
  buffer_new : udp_buffer;
  buffer_full : udp_buffer → bool;
  buffer_commit : Z → bytes → udp_buffer → udp_buffer;
  buffer_get : Z → udp_buffer → option (bytes * udp_buffer);
  buffer_clear : udp_buffer → udp_buffer;
  (** the contents, and what the operations do to it *)
  held : udp_buffer → list (Z * bytes);
  held_new : held buffer_new = [];
  held_clear : ∀ b, held (buffer_clear b) = [];
  held_commit : ∀ seq m b x,
    x ∈ held (buffer_commit seq m b) → x = (seq, m) ∨ x ∈ held b;
  held_commit_new : ∀ seq m b, ∃ m', (seq, m') ∈ held (buffer_commit seq m b);
  held_commit_old : ∀ seq m b x, x ∈ held b → x.1 ≠ seq → x ∈ held (buffer_commit seq m b);
  held_get : ∀ seq b m b',
    buffer_get seq b = Some (m, b') →
    (seq, m) ∈ held b ∧ (∀ x, x ∈ held b' → x ∈ held b)
    ∧ (∀ x, x ∈ held b → x.1 ≠ seq → x ∈ held b')
    ∧ (length (held b') < length (held b))%nat;
  held_get_none : ∀ seq b m, buffer_get seq b = None → (seq, m) ∉ held b;
}.

Record Channel `{UdpBuffer} := {
  channel_id : Z;
  incremental_buffer : udp_buffer;
  first_sequence_number : Z;
  last_sequence_number : Z;
}.

Section channel.
Context `{UdpBuffer}.
Implicit Types (ch : Channel).

Definition create_channel (id : Z) : Channel := Build_Channel _ id buffer_new 0 0.

Definition get_channel_name (prefix : string) (priority : Priority.t) ch : string :=
  prefix +:+ fmt_Z (channel_id ch) +:+
    match priority with
    | Priority.UNDEFINED => ""
    | Priority.PRIMARY => "A"
    | Priority.SECONDARY => "B"
    end.

Definition set_buffer b ch : Channel :=
  Build_Channel _ (channel_id ch) b (first_sequence_number ch) (last_sequence_number ch).

Definition update_sequence_number (sequence_number : Z) ch : Channel :=
  Build_Channel _ (channel_id ch) (incremental_buffer ch)
    (if first_sequence_number ch =? 0 then sequence_number else first_sequence_number ch)
    sequence_number.

(** [channel_.sequence = {}]. *)
Definition reset_sequence ch : Channel :=
  Build_Channel _ (channel_id ch) (incremental_buffer ch) 0 0.

(** The callback of [Frame::parse]: [drop], [hold], or neither. *)
Inductive packet_action := Drop | Hold | Parse.

Definition classify (filter_snapshot_from_incremental : Z) (sequence_number : Z) ch : packet_action :=
  if sequence_number <? filter_snapshot_from_incremental then Drop
  else if negb (first_sequence_number ch =? 0) then
    let next_sequence_number := u32 (last_sequence_number ch + 1) in
    if sequence_number <? next_sequence_number then Drop
    else if next_sequence_number <? sequence_number then Hold
    else Parse
  else Parse.

(** The parser and its handler, over the rest of the state, and the part of
    [on_sequence_reset] that is not the channel's. *)
Context {W : Type} (filter : Z) (parse : bytes → W → res W) (on_reset : W → W).

(** The loop over the packets held back; [None] when the fuel ran out. *)
Fixpoint drain (fuel : nat) ch (w : W) : option (res (Channel * W)) :=
  match fuel with
  | O => None
  | S fuel =>
    if negb (first_sequence_number ch =? 0) then
      let sequence_number := u32 (last_sequence_number ch + 1) in
      match buffer_get sequence_number (incremental_buffer ch) with
      | Some (message, b) =>
        let ch := update_sequence_number sequence_number (set_buffer b ch) in
        match parse message w with
        | Err e => Some (Err e)
        | Ok w => drain fuel ch w
        end
      | None => Some (Ok (ch, w))
      end
    else Some (Ok (ch, w))
  end.

(** The callback of [buffer.next]. *)
Definition on_packet (payload : bytes) ch (w : W) : res (Channel * W) :=
  let '(complete, frame) := parse_helper payload in
  if complete then
    match classify filter (sequence_number frame) ch with
    | Drop => Ok (ch, w)
    | Hold => Ok (set_buffer (buffer_commit (sequence_number frame) payload (incremental_buffer ch)) ch, w)
    | Parse =>
      let ch := update_sequence_number (sequence_number frame) ch in
      w ← parse payload w;
      Ok (ch, w)
    end
  else Ok (ch, w).

(** The body of [Incremental::dispatch]. *)
Definition channel_dispatch (payload : bytes) ch (w : W) : res (Channel * W) :=
  if buffer_full (incremental_buffer ch) then
    Ok (reset_sequence (set_buffer (buffer_clear (incremental_buffer ch)) ch), on_reset w)
  else
    '(ch, w) ← on_packet payload ch w;
    default (Err RuntimeError) (drain (S (length (held (incremental_buffer ch)))) ch w).
End channel.

(** ** What is delivered *)

(** A packet given to the parser, or a reset of the sequence. *)
Inductive delivery := Delivered (message : bytes) | Reset.

Definition seq_of (message : bytes) : Z := sequence_number (parse_helper message).2.

(** The deliveries, as the parser and the handlers take them. *)
Definition replay {W} (parse : bytes → W → res W) (on_reset : W → W) (ds : list delivery) (w : W) : res W :=
  foldM (λ w d, match d with Delivered m => parse m w | Reset => Ok (on_reset w) end) w ds.

(** The parser that records deliveries. *)
Definition record_parse (message : bytes) (ds : list delivery) : res (list delivery) := Ok (ds ++ [Delivered message]).
Definition record_reset (ds : list delivery) : list delivery := ds ++ [Reset].

(** Packets are delivered in sequence from [last] to [last']. *)
Fixpoint follows (last : Z) (ms : list bytes) (last' : Z) : Prop :=
  match ms with
  | [] => last' = last
  | m :: ms => seq_of m = u32 (last + 1) ∧ follows (seq_of m) ms last'
  end.

Section channel_facts.
Context `{UdpBuffer}.
Implicit Types (ch : Channel) (m : bytes).

(** A packet is held back under its own sequence number. *)
Definition channel_wf ch : Prop :=
  ∀ seq m, (seq, m) ∈ held (incremental_buffer ch) → (parse_helper m).1 = true ∧ seq_of m = seq.

(** Nothing that is held could be delivered. *)
Definition drained ch : Prop :=
  first_sequence_number ch = 0
  ∨ ∀ m, (u32 (last_sequence_number ch + 1), m) ∉ held (incremental_buffer ch).

(** Nothing is delivered or held that was not held; nothing that was held is
    lost but by being delivered. *)
Definition from_held ch ch' (ms : list bytes) : Prop :=
  (∀ m, m ∈ ms → (seq_of m, m) ∈ held (incremental_buffer ch))
  ∧ (∀ x, x ∈ held (incremental_buffer ch') → x ∈ held (incremental_buffer ch)).
Definition held_seqs ch : list Z := (held (incremental_buffer ch)).*1.
Definition keeps_held ch ch' (ms : list bytes) : Prop :=
  ∀ s, s ∈ held_seqs ch → s ∈ held_seqs ch' ∨ s ∈ map seq_of ms.

Lemma keeps_held_refl ch ms : keeps_held ch ch ms.
Proof. by left. Qed.

Lemma elem_of_held_seqs s ch : s ∈ held_seqs ch ↔ ∃ m, (s, m) ∈ held (incremental_buffer ch).
Proof.
  unfold held_seqs. rewrite list_elem_of_fmap. split.
  - intros ([s' m] & -> & Hin). by exists m.
  - intros [m Hin]. by exists (s, m).
Qed.

Lemma replay_record ds ds0 : replay record_parse record_reset ds ds0 = Ok (ds0 ++ ds).
Proof.
  revert ds0. unfold replay. induction ds as [|d ds IH]; intros ds0; simpl; [by rewrite app_nil_r|].
  destruct d; simpl; rewrite IH; unfold record_reset; by rewrite <- app_assoc.
Qed.

Lemma drain_spec fuel ch :
  (length (held (incremental_buffer ch)) < fuel)%nat → channel_wf ch →
  ∃ ch' ms,
    (∀ W (parse : bytes → W → res W) (on_reset : W → W) w,
       drain parse fuel ch w = Some (w ← replay parse on_reset (map Delivered ms) w; Ok (ch', w)))
    ∧ channel_wf ch' ∧ drained ch'
    ∧ follows (last_sequence_number ch) ms (last_sequence_number ch')
    ∧ (first_sequence_number ch = 0 → ch' = ch ∧ ms = [])
    ∧ first_sequence_number ch' = first_sequence_number ch
    ∧ from_held ch ch' ms ∧ keeps_held ch ch' ms.
Proof.
  revert ch. induction fuel as [|fuel IH]; intros ch Hlen Hwf; [lia|].
  destruct (first_sequence_number ch =? 0) eqn:E0; bool_to_prop.
  { exists ch, []. split_and!; [|done|by left|done|done|done| |apply keeps_held_refl].
    - intros. simpl. by rewrite E0.
    - by split; [intros ? ?%elem_of_nil|]. }
  destruct (buffer_get (u32 (last_sequence_number ch + 1)) (incremental_buffer ch)) as [[m b]|] eqn:Eget.
  - destruct (held_get _ _ _ _ Eget) as (Hin & Hsub & Hkeep & Hshort).
    set (ch1 := update_sequence_number (u32 (last_sequence_number ch + 1)) (set_buffer b ch)).
    destruct (IH ch1) as (ch' & ms & Hrun & Hwf' & Hdr & Hfol & _ & Hfirst & [Hfrom1 Hfrom2] & Hheld).
    { simpl. lia. }
    { intros seq m' Hm'. apply Hwf, Hsub, Hm'. }
    exists ch', (m :: ms). destruct (Hwf _ _ Hin) as [_ Hseq]. split_and!; try done.
    + intros. simpl. rewrite (proj2 (Z.eqb_neq _ _) E0). simpl. rewrite Eget.
      unfold replay. simpl. destruct (parse m w); [apply Hrun|done].
    + simpl. by rewrite Hseq.
    + rewrite Hfirst. simpl. by rewrite (proj2 (Z.eqb_neq _ _) E0).
    + split; [|by intros x Hx; apply Hsub, Hfrom2].
      intros m' [->|Hm']%elem_of_cons; [by rewrite Hseq|]. by apply Hsub, Hfrom1.
    + intros s [m' Hm']%elem_of_held_seqs. simpl. rewrite elem_of_cons, Hseq.
      destruct (decide (s = u32 (last_sequence_number ch + 1))) as [Hs|Hs]; [auto|].
      destruct (Hheld s) as [?|?]; [|auto..].
      apply elem_of_held_seqs. exists m'. by apply (Hkeep (s, m')).
  - exists ch, []. split_and!; try done.
    + intros. simpl. by rewrite (proj2 (Z.eqb_neq _ _) E0), Eget.
    + right. intros m. by apply held_get_none.
    + by split; [intros ? ?%elem_of_nil|].
    + apply keeps_held_refl.
Qed.

(** The callback of [buffer.next]: at most the packet itself is delivered. *)
Lemma on_packet_spec filter p ch :
  channel_wf ch →
  ∃ ch' ms,
    (∀ W (parse : bytes → W → res W) (on_reset : W → W) w,
       on_packet filter parse p ch w = (w ← replay parse on_reset (map Delivered ms) w; Ok (ch', w)))
    ∧ channel_wf ch'
    ∧ (ms = [] ∧ first_sequence_number ch' = first_sequence_number ch
       ∧ last_sequence_number ch' = last_sequence_number ch
       ∨ ms = [p] ∧ last_sequence_number ch' = seq_of p
         ∧ (first_sequence_number ch ≠ 0 → seq_of p = u32 (last_sequence_number ch + 1))
         ∧ first_sequence_number ch' =
             if first_sequence_number ch =? 0 then seq_of p else first_sequence_number ch)
    ∧ (∀ x, x ∈ held (incremental_buffer ch') → x ∈ held (incremental_buffer ch) ∨ x.2 = p)
    ∧ keeps_held ch ch' []
    ∧ ((parse_helper p).1 = true → filter ≤ seq_of p → first_sequence_number ch ≠ 0 →
       u32 (last_sequence_number ch + 1) ≤ seq_of p → ms = [p] ∨ seq_of p ∈ held_seqs ch').
Proof.
  intros Hwf. unfold on_packet. destruct (parse_helper p) as [[] frame] eqn:Ep;
    [|exists ch, []; split_and!; auto using keeps_held_refl; done].
  assert (seq_of p = sequence_number frame) as Hseq by (unfold seq_of; by rewrite Ep).
  destruct (classify filter (sequence_number frame) ch) eqn:Ec.
  - exists ch, []; split_and!; auto using keeps_held_refl.
    intros _ Hf Hfirst Hnext. exfalso. unfold classify in Ec.
    rewrite (proj2 (Z.eqb_neq _ _) Hfirst), (proj2 (Z.ltb_ge (sequence_number frame) filter)) in Ec by lia.
    simpl in Ec. rewrite (proj2 (Z.ltb_ge (sequence_number frame) _)) in Ec by lia.
    by destruct (_ <? _) in Ec.
  - eexists (set_buffer (buffer_commit (sequence_number frame) p (incremental_buffer ch)) ch), [].
    split_and!; [done| |by left|..].
    + intros seq m Hm. simpl in Hm. apply held_commit in Hm as [[= -> ->]|Hm]; [by rewrite Ep|].
      by apply Hwf.
    + intros x [->|?]%held_commit; auto.
    + intros s [m Hm]%elem_of_held_seqs. left. apply elem_of_held_seqs. simpl.
      destruct (decide (s = sequence_number frame)) as [->|Hs]; [apply held_commit_new|].
      exists m. by apply held_commit_old.
    + intros _ _ _ _. right. rewrite Hseq. apply elem_of_held_seqs, held_commit_new.
  - exists (update_sequence_number (sequence_number frame) ch), [p].
    split_and!; [|done|right; split_and!; [done|done| |simpl; by rewrite Hseq]|by left|by left|by left].
    + intros. unfold replay. simpl. by destruct (parse p w).
    + intros Hfirst. rewrite Hseq. unfold classify in Ec.
      rewrite (proj2 (Z.eqb_neq _ _) Hfirst) in Ec. simpl in Ec.
      destruct (_ <? filter); [done|].
      destruct (_ <? _) eqn:E1 in Ec; [done|]. destruct (_ <? _) eqn:E2 in Ec; [done|].
      bool_to_prop. lia.
Qed.

(** One packet, the buffer not being full. *)
Lemma channel_dispatch_spec filter p ch :
  channel_wf ch → buffer_full (incremental_buffer ch) = false →
  ∃ ch' ms,
    (∀ W (parse : bytes → W → res W) (on_reset : W → W) w,
       channel_dispatch filter parse on_reset p ch w =
       (w ← replay parse on_reset (map Delivered ms) w; Ok (ch', w)))
    ∧ channel_wf ch' ∧ drained ch'
    ∧ (first_sequence_number ch ≠ 0 →
       first_sequence_number ch' = first_sequence_number ch
       ∧ follows (last_sequence_number ch) ms (last_sequence_number ch'))
    ∧ (first_sequence_number ch = 0 →
       (ms = [] ∧ first_sequence_number ch' = 0 ∧ last_sequence_number ch' = last_sequence_number ch)
       ∨ ∃ ms', ms = p :: ms' ∧ first_sequence_number ch' = seq_of p
           ∧ follows (seq_of p) ms' (last_sequence_number ch'))
    ∧ (∀ m, m ∈ ms → m = p ∨ (seq_of m, m) ∈ held (incremental_buffer ch))
    ∧ (∀ x, x ∈ held (incremental_buffer ch') → x ∈ held (incremental_buffer ch) ∨ x.2 = p)
    ∧ keeps_held ch ch' ms
    ∧ ((parse_helper p).1 = true → filter ≤ seq_of p → first_sequence_number ch ≠ 0 →
       u32 (last_sequence_number ch + 1) ≤ seq_of p →
       seq_of p ∈ map seq_of ms ∨ seq_of p ∈ held_seqs ch').
Proof.
  intros Hwf Hfull.
  destruct (on_packet_spec filter p ch Hwf) as (ch1 & ms1 & Hrun1 & Hwf1 & Hcases & Hin1 & Hkeep1 & Hp).
  destruct (drain_spec (S (length (held (incremental_buffer ch1)))) ch1 ltac:(lia) Hwf1)
    as (ch' & ms & Hrun & Hwf' & Hdr & Hfol & Hzero & Hfirst & [Hfrom1 Hfrom2] & Hkeep).
  exists ch', (ms1 ++ ms). split_and!; [|done|done|..].
  - intros. unfold channel_dispatch. rewrite Hfull, (Hrun1 W parse on_reset).
    rewrite map_app. unfold replay. rewrite foldM_app.
    destruct (foldM _ w (map Delivered ms1)) as [w1|]; [|done]. cbn [mbind res_bind].
    by rewrite (Hrun W parse on_reset).
  - intros Hne. destruct Hcases as [(-> & Hf & Hl)|(-> & Hl & Hs & Hf)].
    + split; [congruence|]. by rewrite <- Hl.
    + split; [rewrite Hfirst, Hf; by rewrite (proj2 (Z.eqb_neq _ _) Hne)|].
      simpl. split; [by apply Hs|]. by rewrite <- Hl.
  - intros Hz. destruct Hcases as [(-> & Hf & Hl)|(-> & Hl & Hs & Hf)].
    + left. destruct Hzero as [-> ->]; [congruence|]. split_and!; [done|congruence..].
    + right. exists ms. split_and!; [done| |by rewrite <- Hl].
      rewrite Hfirst, Hf, Hz. by rewrite Z.eqb_refl.
  - intros m [Hm|Hm]%elem_of_app.
    + left. destruct Hcases as [(-> & _)|(-> & _)]; set_solver.
    + destruct (Hin1 _ (Hfrom1 m Hm)) as [?|?]; auto.
  - intros x Hx. apply Hin1, Hfrom2, Hx.
  - intros s Hs. rewrite map_app, elem_of_app.
    destruct (Hkeep1 s Hs) as [Hs1|?%elem_of_nil]; [|done]. destruct (Hkeep s Hs1); auto.
  - intros Hc Hf Hne Hle. rewrite map_app, elem_of_app.
    destruct (Hp Hc Hf Hne Hle) as [->|Hs]; [left; left; by left|].
    destruct (Hkeep _ Hs); auto.
Qed.
End channel_facts.

(** ** Runs of packets *)

Section channel_runs.
Context `{UdpBuffer}.
Implicit Types (ch : Channel) (m : bytes).

(** The packets of both lines, in the order they are received. *)
Definition channel_run {W} (filter : Z) (parse : bytes → W → res W) (on_reset : W → W)
    (payloads : list bytes) (s : Channel * W) : res (Channel * W) :=
  foldM (λ '(ch, w) p, channel_dispatch filter parse on_reset p ch w) s payloads.

Definition record_run (filter : Z) (payloads : list bytes) ch : res (Channel * list delivery) :=
  channel_run filter record_parse record_reset payloads (ch, []).

(** Between two resets the sequence numbers count up by one. *)
Fixpoint in_sequence (prev : option Z) (ds : list delivery) : Prop :=
  match ds with
  | [] => True
  | Reset :: ds => in_sequence None ds
  | Delivered m :: ds =>
    match prev with Some a => seq_of m = u32 (a + 1) | None => True end
    ∧ in_sequence (Some (seq_of m)) ds
  end.

Fixpoint final_sequence (prev : option Z) (ds : list delivery) : option Z :=
  match ds with
  | [] => prev
  | Reset :: ds => final_sequence None ds
  | Delivered m :: ds => final_sequence (Some (seq_of m)) ds
  end.

Lemma in_sequence_app prev ds1 ds2 :
  in_sequence prev (ds1 ++ ds2) ↔ in_sequence prev ds1 ∧ in_sequence (final_sequence prev ds1) ds2.
Proof.
  revert prev. induction ds1 as [|[m|] ds1 IH]; intros prev; simpl; [tauto| |apply IH].
  rewrite IH. tauto.
Qed.

Lemma final_sequence_app prev ds1 ds2 :
  final_sequence prev (ds1 ++ ds2) = final_sequence (final_sequence prev ds1) ds2.
Proof. revert prev. induction ds1 as [|[m|] ds1 IH]; intros prev; simpl; auto. Qed.

Lemma follows_in_sequence last ms last' :
  follows last ms last' →
  in_sequence (Some last) (map Delivered ms) ∧ final_sequence (Some last) (map Delivered ms) = Some last'.
Proof.
  revert last. induction ms as [|m ms IH]; intros last; simpl; [by intros ->|].
  intros [Hm Hms]. destruct (IH _ Hms). by split_and!.
Qed.

Lemma follows_seqs last ms last' :
  follows last ms last' → 0 ≤ last → last + Z.of_nat (length ms) < 2 ^ 32 →
  last' = last + Z.of_nat (length ms) ∧ map seq_of ms = seqZ (last + 1) (Z.of_nat (length ms)).
Proof.
  revert last. induction ms as [|m ms IH]; intros last; simpl; [intros ->; split; [lia|done]|].
  intros [Hm Hms] Hlo Hhi. rewrite wrap_small in Hm by (unfold in_width; lia).
  destruct (IH _ Hms) as [-> Hseq]; [lia..|]. split; [lia|].
  rewrite seqZ_cons, Hseq, Hm by lia. do 2 f_equal; lia.
Qed.

(** What holds of the channel between packets, the deliveries being [ds] and
    the packets received [ps]. *)
Record sequence_inv ch (ds : list delivery) (ps : list bytes) : Prop := {
  ri_wf : channel_wf ch;
  ri_sequence : in_sequence None ds;
  ri_final : final_sequence None ds =
    if first_sequence_number ch =? 0 then None else Some (last_sequence_number ch);
  ri_source : ∀ m, Delivered m ∈ ds → m ∈ ps;
  ri_held : ∀ x, x ∈ held (incremental_buffer ch) → x.2 ∈ ps;
}.

Lemma sequence_inv_step filter p ch ds ps :
  seq_of p ≠ 0 → sequence_inv ch ds ps →
  ∃ ch' ds', channel_dispatch filter record_parse record_reset p ch ds = Ok (ch', ds')
             ∧ sequence_inv ch' ds' (ps ++ [p]).
Proof.
  intros Hp [Hwf Hseq Hfin Hsrc Hheld].
  destruct (buffer_full (incremental_buffer ch)) eqn:Efull.
  { unfold channel_dispatch. rewrite Efull. eexists _, _. split; [done|].
    split; unfold record_reset; simpl.
    - intros seq m. simpl. rewrite held_clear. set_solver.
    - by rewrite in_sequence_app.
    - by rewrite final_sequence_app.
    - set_solver.
    - intros x. rewrite held_clear. set_solver. }
  destruct (channel_dispatch_spec filter p ch Hwf Efull)
    as (ch' & ms & Hrun & Hwf' & _ & Hne & Hz & Hms & Hin & _).
  exists ch', (ds ++ map Delivered ms). split.
  { by rewrite (Hrun _ record_parse record_reset), replay_record. }
  assert (in_sequence (final_sequence None ds) (map Delivered ms)
    ∧ final_sequence (final_sequence None ds) (map Delivered ms)
      = if first_sequence_number ch' =? 0 then None else Some (last_sequence_number ch')) as [Hs1 Hs2].
  { rewrite Hfin. destruct (first_sequence_number ch =? 0) eqn:E0; bool_to_prop.
    - destruct (Hz E0) as [(-> & -> & _)|(ms' & -> & -> & Hfol)]; [done|].
      rewrite (proj2 (Z.eqb_neq _ _) Hp). destruct (follows_in_sequence _ _ _ Hfol). by split_and!.
    - destruct (Hne E0) as [-> Hfol]. rewrite (proj2 (Z.eqb_neq _ _) E0).
      by apply follows_in_sequence. }
  split; [done|by rewrite in_sequence_app|by rewrite final_sequence_app|..].
  - intros m [Hm|Hm]%elem_of_app; [by apply elem_of_app; left; apply Hsrc|].
    apply list_elem_of_fmap in Hm as (m' & [= <-] & Hm).
    destruct (Hms m Hm) as [->|Hh]; [set_solver|]. apply elem_of_app. left. by apply (Hheld _ Hh).
  - intros x Hx. destruct (Hin x Hx) as [Hx'| ->]; [|set_solver].
    apply elem_of_app. left. by apply Hheld.
Qed.

(** C1: sequencing.  Whatever the two lines deliver, in whatever order, with
    duplicates, gaps and overflows of the buffer, the packets given to the
    parser are packets that were received, and between two resets their
    sequence numbers count up by one.  (Sequence numbers start at one.) *)
Theorem channel_in_sequence filter payloads id :
  Forall (λ p, seq_of p ≠ 0) payloads →
  ∃ ch ds, record_run filter payloads (create_channel id) = Ok (ch, ds)
    ∧ in_sequence None ds ∧ ∀ m, Delivered m ∈ ds → m ∈ payloads.
Proof.
  intros Hps. unfold record_run, channel_run.
  assert (∀ payloads ch ds ps, Forall (λ p, seq_of p ≠ 0) payloads → sequence_inv ch ds ps →
    ∃ ch' ds', foldM (λ '(ch, w) p, channel_dispatch filter record_parse record_reset p ch w) (ch, ds) payloads
               = Ok (ch', ds') ∧ sequence_inv ch' ds' (ps ++ payloads)) as Hrun.
  { clear. intros payloads. induction payloads as [|p payloads IH]; intros ch ds ps Hps Hinv; simpl.
    - exists ch, ds. by rewrite app_nil_r.
    - apply Forall_cons in Hps as [Hp Hps].
      destruct (sequence_inv_step filter p ch ds ps Hp Hinv) as (ch1 & ds1 & -> & Hinv1). simpl.
      rewrite (cons_middle p), (app_assoc ps). by apply IH. }
  destruct (Hrun payloads (create_channel id) [] [] Hps) as (ch & ds & -> & [_ Hseq _ Hsrc _]).
  { split; simpl; try done;
      [intros seq m; simpl; rewrite held_new|intros m|intros x; simpl; rewrite held_new]; set_solver. }
  by exists ch, ds.
Qed.

(** One packet, the buffer full or not. *)
Lemma channel_dispatch_replay filter p ch :
  channel_wf ch →
  ∃ ch' ds, channel_wf ch'
    ∧ (∀ W (parse : bytes → W → res W) (on_reset : W → W) w,
        channel_dispatch filter parse on_reset p ch w = (w ← replay parse on_reset ds w; Ok (ch', w)))
    ∧ (∀ m, Delivered m ∈ ds → m = p ∨ m ∈ (held (incremental_buffer ch)).*2)
    ∧ ∀ m, m ∈ (held (incremental_buffer ch')).*2 → m = p ∨ m ∈ (held (incremental_buffer ch)).*2.
Proof.
  intros Hwf. destruct (buffer_full (incremental_buffer ch)) eqn:Efull.
  - eexists _, [Reset]. split; [|split; [intros; unfold channel_dispatch; by rewrite Efull|]]; simpl.
    + intros seq m. simpl. rewrite held_clear. set_solver.
    + rewrite held_clear. set_solver.
  - destruct (channel_dispatch_spec filter p ch Hwf Efull)
      as (ch' & ms & Hrun & Hwf' & _ & _ & _ & Hsrc & Hheld & _).
    exists ch', (map Delivered ms). split_and!; [done|done|..].
    + intros m (m' & [= <-] & [->|Hm]%Hsrc)%list_elem_of_fmap; [by left|right].
      by apply (list_elem_of_fmap_2 snd) in Hm.
    + intros m (x & -> & [Hx| ->]%Hheld)%list_elem_of_fmap; [right; by apply list_elem_of_fmap_2|by left].
Qed.

(** What the handlers do has no influence on the sequencing, and the
    loop over the packets held back always ends: for any packets there is one
    list of deliveries such that, for every parser and handler state, the run
    is the parser applied to these deliveries. *)
Lemma channel_run_replay filter payloads ch :
  channel_wf ch →
  ∃ ch' ds, ∀ W (parse : bytes → W → res W) (on_reset : W → W) w,
    channel_run filter parse on_reset payloads (ch, w) = (w ← replay parse on_reset ds w; Ok (ch', w)).
Proof.
  unfold channel_run. revert ch. induction payloads as [|p payloads IH]; intros ch Hwf.
  { by exists ch, []. }
  destruct (channel_dispatch_replay filter p ch Hwf) as (ch1 & ds1 & Hwf1 & Hrun1 & _).
  destruct (IH ch1 Hwf1) as (ch' & ds & Hrun). exists ch', (ds1 ++ ds). intros. simpl.
  rewrite Hrun1. unfold replay in *. rewrite foldM_app.
  destruct (foldM _ w ds1) as [w1|]; [|done]. apply Hrun.
Qed.

(** No packet of the run finds the buffer full. *)
Definition never_full (filter : Z) (payloads : list bytes) ch ds : Prop :=
  ∀ k ch' ds', channel_run filter record_parse record_reset (take k payloads) (ch, ds) = Ok (ch', ds') →
    buffer_full (incremental_buffer ch') = false.

(** The state of a channel that has delivered up to [last], on its way from
    [n] to [n + k]; [ps] are the packets received. *)
Record gap_inv (n k : Z) ch (ms ps : list bytes) : Prop := {
  gi_wf : channel_wf ch;
  gi_drained : drained ch;
  gi_first : first_sequence_number ch ≠ 0;
  gi_last : n ≤ last_sequence_number ch ≤ n + k;
  gi_seqs : map seq_of ms = seqZ (n + 1) (last_sequence_number ch - n);
  gi_bound : ∀ s, s ∈ held_seqs ch → s ≤ n + k;
  gi_held : ∀ p, p ∈ ps → last_sequence_number ch < seq_of p → seq_of p ∈ held_seqs ch;
  gi_kept : ∀ x, x ∈ held (incremental_buffer ch) → x.2 ∈ ps;
  gi_source : ∀ m, m ∈ ms → m ∈ ps;
}.

Lemma follows_last_seq last ms last' : follows last ms last' → ms ≠ [] → last' ∈ map seq_of ms.
Proof.
  revert last. induction ms as [|m ms IH]; intros last; [done|]. simpl. intros [_ Hms] _.
  destruct ms as [|m' ms]; [simpl in *; subst; by left|]. right. by eapply IH.
Qed.

(** Deliveries that stay below [2^32] have no wrap around. *)
Lemma follows_bounded bound last ms last' :
  follows last ms last' → 0 ≤ last ≤ bound → bound < 2 ^ 32 - 1 → (∀ s, s ∈ map seq_of ms → s ≤ bound) →
  last ≤ last' ≤ bound ∧ map seq_of ms = seqZ (last + 1) (last' - last).
Proof.
  intros Hfol Hlast Hb. revert last Hfol Hlast.
  induction ms as [|m ms IH]; intros last; simpl;
    [intros -> ? _; split; [lia|by rewrite Z.sub_diag]|].
  intros [Hm Hms] Hlast Hall. rewrite wrap_small in Hm by (unfold in_width; lia).
  assert (seq_of m ≤ bound) by (apply Hall; by left).
  destruct (IH (seq_of m) Hms) as [? Hseqs]; [lia|intros; apply Hall; by right|].
  split; [lia|]. rewrite seqZ_cons, Hseqs, Hm by lia. do 2 f_equal; lia.
Qed.

Lemma gap_inv_step filter n k p ch ms ps :
  0 ≤ n → 0 ≤ k → n + k < 2 ^ 32 - 1 → filter ≤ n + 1 →
  (parse_helper p).1 = true → seq_of p ≤ n + k →
  buffer_full (incremental_buffer ch) = false →
  gap_inv n k ch ms ps →
  ∃ ch' ms', channel_dispatch filter record_parse record_reset p ch (map Delivered ms)
             = Ok (ch', map Delivered (ms ++ ms')) ∧ gap_inv n k ch' (ms ++ ms') (ps ++ [p]).
Proof.
  intros Hn Hk Hnk Hfilter Hc Hp Hfull [Hwf Hdr Hfirst Hlast Hseqs Hbound Hheld Hkept Hsrc].
  destruct (channel_dispatch_spec filter p ch Hwf Hfull)
    as (ch' & ms' & Hrun & Hwf' & Hdr' & Hne & _ & Hms & Hin & Hkeep & Hhold).
  destruct (Hne Hfirst) as [Hf Hfol].
  assert (∀ s, s ∈ map seq_of ms' → s ≤ n + k) as Hb.
  { intros s (m & -> & Hm)%list_elem_of_fmap. destruct (Hms m Hm) as [->|Hh]; [done|].
    apply Hbound, elem_of_held_seqs. by exists m. }
  destruct (follows_bounded (n + k) _ _ _ Hfol) as [Hlast' Hseqs']; [lia|lia|done|].
  exists ch', ms'. split.
  { by rewrite (Hrun _ record_parse record_reset), replay_record, map_app. }
  split; [done|done|congruence|lia|..].
  - rewrite map_app, Hseqs, Hseqs'.
    replace (last_sequence_number ch + 1) with (n + 1 + (last_sequence_number ch - n)) by lia.
    rewrite <- seqZ_app by lia. f_equal. lia.
  - intros s [m Hm]%elem_of_held_seqs. destruct (Hwf' _ _ Hm) as [_ <-].
    destruct (Hin _ Hm) as [Hm'|Hm']; simpl in Hm'; [|by subst].
    apply Hbound, elem_of_held_seqs. by exists m.
  - intros q Hq Hgt.
    assert (seq_of q ∉ map seq_of ms') as Hnot.
    { rewrite Hseqs', elem_of_seqZ. lia. }
    apply elem_of_app in Hq as [Hq| ->%list_elem_of_singleton].
    + destruct (Hkeep (seq_of q)) as [?|?]; [|done..]. apply Hheld; [done|lia].
    + destruct Hhold as [?|?]; [done|lia|done| |done..].
      rewrite wrap_small by (unfold in_width; lia). lia.
  - intros x Hx. apply elem_of_app. destruct (Hin _ Hx) as [Hx'| ->]; [left; by apply Hkept|right; by left].
  - intros m [Hm|Hm]%elem_of_app; apply elem_of_app; [left; by apply Hsrc|].
    destruct (Hms m Hm) as [->|Hh]; [right; by left|]. left. by apply (Hkept _ Hh).
Qed.

(** The run that fills all gaps. *)
Lemma channel_fills_gaps filter n k payloads ch :
  0 ≤ n → 0 ≤ k → n + k < 2 ^ 32 - 1 → filter ≤ n + 1 →
  held (incremental_buffer ch) = [] → first_sequence_number ch ≠ 0 → last_sequence_number ch = n →
  Forall (λ p, (parse_helper p).1 = true ∧ seq_of p ≤ n + k) payloads →
  (∀ i, n < i ≤ n + k → i ∈ map seq_of payloads) →
  never_full filter payloads ch [] →
  ∃ ch' ms, record_run filter payloads ch = Ok (ch', map Delivered ms)
    ∧ map seq_of ms = seqZ (n + 1) k ∧ (∀ m, m ∈ ms → m ∈ payloads)
    ∧ last_sequence_number ch' = n + k.
Proof.
  intros Hn Hk Hnk Hfilter Hempty Hfirst Hlast Hps Hall Hnf.
  assert (∀ rest ch ms ps,
    Forall (λ p, (parse_helper p).1 = true ∧ seq_of p ≤ n + k) rest →
    never_full filter rest ch (map Delivered ms) → gap_inv n k ch ms ps →
    ∃ ch' ms', channel_run filter record_parse record_reset rest (ch, map Delivered ms)
               = Ok (ch', map Delivered ms') ∧ gap_inv n k ch' ms' (ps ++ rest)) as Hrun.
  { clear - Hn Hk Hnk Hfilter. intros rest.
    induction rest as [|p rest IH]; intros ch ms ps Hps Hnf Hinv.
    - exists ch, ms. by rewrite app_nil_r.
    - apply Forall_cons in Hps as [[Hc Hp] Hps].
      destruct (gap_inv_step filter n k p ch ms ps) as (ch1 & ms1 & Hstep & Hinv1); try done.
      { by apply (Hnf 0%nat ch (map Delivered ms)). }
      unfold channel_run. simpl. rewrite Hstep. simpl.
      rewrite (cons_middle p), (app_assoc ps). apply IH; [done| |done].
      intros j ch2 ds2 Hj. apply (Hnf (S j) ch2 ds2). unfold channel_run in *. simpl.
      by rewrite Hstep. }
  destruct (Hrun payloads ch [] []) as (ch' & ms & Hr & [_ Hdr' Hf' Hl' Hs' _ Hh' _ Hsrc']); [done|done| |].
  { assert (held_seqs ch = []) as Hnil by (unfold held_seqs; by rewrite Hempty).
    split; rewrite ?Hnil; try done; [|right| |rewrite Hlast, Z.sub_diag|..].
    all: try (intros ? ?; rewrite Hempty); try (intros ?; rewrite Hempty); (done || lia || set_solver). }
  exists ch', ms. assert (last_sequence_number ch' = n + k) as Hend.
  { destruct (decide (last_sequence_number ch' = n + k)) as [|Hne]; [done|]. exfalso.
    pose proof (Hall (last_sequence_number ch' + 1) ltac:(lia)) as Hin.
    apply list_elem_of_fmap in Hin as (q & Hq & Hqin).
    assert (seq_of q ∈ held_seqs ch') as [m Hm]%elem_of_held_seqs by (apply Hh'; [done|lia]).
    destruct Hdr' as [|Hdr']; [done|]. apply (Hdr' m).
    rewrite wrap_small by (unfold in_width; lia). by rewrite Hq. }
  split_and!; [done| |exact Hsrc'|done]. rewrite Hs', Hend. f_equal. lia.
Qed.

(** C2: gap filling.  When every packet from [n + 1] to [n + k] arrives, in
    any order, with any number of duplicates and of old packets, and the buffer
    never overflows, all of them are given to the parser, once each, in
    sequence, and each as it was received. *)
Theorem channel_complete filter n k payloads ch :
  0 ≤ n → 0 ≤ k → n + k < 2 ^ 32 - 1 → filter ≤ n + 1 →
  held (incremental_buffer ch) = [] → first_sequence_number ch ≠ 0 → last_sequence_number ch = n →
  Forall (λ p, (parse_helper p).1 = true ∧ seq_of p ≤ n + k) payloads →
  (∀ i, n < i ≤ n + k → i ∈ map seq_of payloads) →
  never_full filter payloads ch [] →
  ∃ ch' ms, record_run filter payloads ch = Ok (ch', map Delivered ms)
    ∧ map seq_of ms = seqZ (n + 1) k ∧ (∀ m, m ∈ ms → m ∈ payloads)
    ∧ last_sequence_number ch' = n + k.
Proof. apply channel_fills_gaps. Qed.
End channel_runs.

(** ** A concrete buffer, for the witnesses: a list of ten slots at most. *)

Definition list_get (seq : Z) (b : list (Z * bytes)) : option (bytes * list (Z * bytes)) :=
  match List.find (λ x, x.1 =? seq) b with
  | Some x => Some (x.2, filter (λ x, x.1 ≠ seq) b)
  | None => None
  end.

Lemma list_get_Some seq b m b' :
  list_get seq b = Some (m, b') →
  (seq, m) ∈ b ∧ (∀ x, x ∈ b' → x ∈ b) ∧ (∀ x, x ∈ b → x.1 ≠ seq → x ∈ b')
  ∧ (length b' < length b)%nat.
Proof.
  unfold list_get. destruct (List.find _ b) as [[s m']|] eqn:E; [|done]. intros [= <- <-].
  apply List.find_some in E as [Hin%list_elem_of_In Hs]. simpl in Hs. bool_to_prop. subst s.
  split_and!; [done|..].
  - intros x. rewrite list_elem_of_filter. tauto.
  - intros x. rewrite list_elem_of_filter. tauto.
  - by apply (length_filter_lt _ _ (seq, m')); [|intros Hne; apply Hne].
Qed.

Lemma list_get_None seq b m : list_get seq b = None → (seq, m) ∉ b.
Proof.
  unfold list_get. destruct (List.find _ b) eqn:E; [done|]. intros _ Hin.
  apply list_elem_of_In in Hin. pose proof (List.find_none _ _ E _ Hin) as Hs. simpl in Hs.
  bool_to_prop. done.
Qed.

Definition list_commit (seq : Z) (m : bytes) (b : list (Z * bytes)) : list (Z * bytes) :=
  (seq, m) :: filter (λ x, x.1 ≠ seq) b.

Lemma list_commit_in seq m b x : x ∈ list_commit seq m b → x = (seq, m) ∨ x ∈ b.
Proof. unfold list_commit. rewrite elem_of_cons, list_elem_of_filter. tauto. Qed.

Lemma list_commit_new seq m b : ∃ m', (seq, m') ∈ list_commit seq m b.
Proof. exists m. by left. Qed.

Lemma list_commit_old seq m b x : x ∈ b → x.1 ≠ seq → x ∈ list_commit seq m b.
Proof. unfold list_commit. rewrite elem_of_cons, list_elem_of_filter. tauto. Qed.

Definition list_buffer : UdpBuffer := {|
  udp_buffer := list (Z * bytes);
  buffer_new := [];
  buffer_full b := (10 <=? length b)%nat;
  buffer_commit := list_commit;
  buffer_get := list_get;
  buffer_clear _ := [];
  held b := b;
  held_new := eq_refl;
  held_clear _ := eq_refl;
  held_commit := list_commit_in;
  held_commit_new := list_commit_new;
  held_commit_old := list_commit_old;
  held_get := list_get_Some;
  held_get_none := list_get_None;
|}.

Section channel_witnesses.
#[local] Existing Instance list_buffer.

Definition example_packet (n : Z) : bytes := encode_frame {| sequence_number := n; sending_time := 5 |}.
Definition example_channel : Channel := update_sequence_number 3 (create_channel 310).
Definition example_packets : list bytes := map example_packet [5; 5; 3; 4].

Lemma channel_in_sequence_witness :
  ∃ ch ds, record_run 0 example_packets (create_channel 310) = Ok (ch, ds)
    ∧ in_sequence None ds ∧ ∀ m, Delivered m ∈ ds → m ∈ example_packets.
Proof. apply channel_in_sequence. repeat constructor; vm_compute; congruence. Defined.

Lemma channel_complete_witness :
  ∃ ch' ms, record_run 0 example_packets example_channel = Ok (ch', map Delivered ms)
    ∧ map seq_of ms = [4; 5] ∧ (∀ m, m ∈ ms → m ∈ example_packets) ∧ last_sequence_number ch' = 5.
Proof.
  apply (channel_complete 0 3 2); [lia|lia|lia|lia|reflexivity|discriminate|reflexivity|..].
  - apply (bool_decide_unpack _). vm_compute. done.
  - intros i Hi. assert (i = 4 ∨ i = 5) as [->| ->] by lia;
      apply (bool_decide_unpack _); vm_compute; done.
  - intros k ch' ds'. do 5 (destruct k as [|k]; [by vm_compute; intros [= <- _]|]).
    by vm_compute; intros [= <- _].
Defined.
End channel_witnesses.
