(* ===== verification/MarketData.v ===== *)
(** What the market data streams share
    (src/roq/cme/market_data/shared.hpp, shared.cpp, options.hpp, and the parts
    that incremental.cpp, instrument_definition.cpp, mbp_market_recovery.cpp and
    mbofd_market_recovery.cpp repeat).

    [Shared] holds the state that all streams of all channels write, and the
    log of what was handed to the dispatcher.  A [stream] is what a
    stream object owns itself. *)

From S2P Require Import Prelude Double Api MdpMap Messages MdpParser Security SecdefReader SecurityDefinitions Channel.

(** ** Parameters *)

Record Options := {
  enable_market_by_order : bool;
  mbp_to_mbo_clear_price_level : bool;
  filter_snapshot_from_incremental : Z;
  local_interface : string;
  multicast_timeout : Z;
}.

(** The code outside the repository, and the options. *)
Class Env := {
  env_mbp :: Sequencer mbp_update;
  env_mbo :: Sequencer mbo_update;
  env_buffer :: UdpBuffer;
  env_hash :: HashOrder;
  env_discard :: DiscardSymbol;
  env_cast :: SafeCast;
  env_sbe :: MdpSbe mdp_message;
  env_chars :: FromChars;
  options : Options;
}.

(** ** State *)

Record trade_item := {
  ts_security_id : Z;
  ts_side : Side.t;
  ts_price : double;
  ts_size : Z;
  ts_number_of_orders : Z;
  ts_trade_id : Z;
}.

Record Shared `{Env} := {
  definitions : SecurityDefinitions;
  (* incremental / refresh book *)
  md_entries_ : list (Z * Side.t * double * UpdateAction.t);
  (* incremental / trade summary *)
  trade_summary_ : list trade_item;
  security_ids_ : list Z;
  orders_ : list (Z * Z);
  transact_time_ : Z;
  total_number_of_orders_ : Z;
  (* what the dispatcher got *)
  log : list md_event;
}.

(** [mbp.empty()]: no bids and no asks. *)
Definition mbp_empty (mbp : mbp_update) : bool :=
  match mbp with ([], []) => true | _ => false end.

Record stream := {
  priority : Priority.t;
  stream_id : Z;
  name : string;
  connection_status_ : ConnectionStatus.t;
  last_update_time_ : Z;
}.

Definition create_stream (priority : Priority.t) (stream_id : Z) (name : string) : stream := {|
  priority := priority; stream_id := stream_id; name := name;
  connection_status_ := ConnectionStatus.UNDEFINED; last_update_time_ := 0 |}.

Section shared.
Context `{Env}.
Implicit Types (sh : Shared) (st : stream).

Definition create_shared (sd : SecurityDefinitions) : Shared :=
  Build_Shared _ sd [] [] [] [] 0 0 [].

Definition set_definitions sd sh : Shared :=
  Build_Shared _ sd (md_entries_ sh) (trade_summary_ sh) (security_ids_ sh) (orders_ sh)
    (transact_time_ sh) (total_number_of_orders_ sh) (log sh).
Definition set_md_entries m sh : Shared :=
  Build_Shared _ (definitions sh) m (trade_summary_ sh) (security_ids_ sh) (orders_ sh)
    (transact_time_ sh) (total_number_of_orders_ sh) (log sh).
Definition set_trades ts ids os t n sh : Shared :=
  Build_Shared _ (definitions sh) (md_entries_ sh) ts ids os t n (log sh).

(** [create_trace_and_dispatch(shared_, trace_info, x, ...)]. *)
Definition emit (e : md_event) sh : Shared :=
  Build_Shared _ (definitions sh) (md_entries_ sh) (trade_summary_ sh) (security_ids_ sh) (orders_ sh)
    (transact_time_ sh) (total_number_of_orders_ sh) (log sh ++ [e]).

(** A callback on the security of an id: [f] may write the security and the
    rest of the shared state. *)
Definition with_security (security_id : Z) (f : Security → Shared → Security * Shared) sh : Shared :=
  match get_security security_id (definitions sh) with
  | Some security =>
    let '(security, sh) := f security sh in
    set_definitions (put_security security_id security (definitions sh)) sh
  | None => sh
  end.

(** The identification of an update of [security]. *)
Definition header (stream_id exchange_time_utc exchange_sequence sending_time_utc : Z)
    (security : Security) : update_header := {|
  uh_stream_id := stream_id; uh_exchange := exchange security; uh_symbol := symbol security;
  uh_exchange_time_utc := exchange_time_utc; uh_exchange_sequence := exchange_sequence;
  uh_sending_time_utc := sending_time_utc |}.

(** ** Streams *)

(** [publish_stream_status]: only when the status changes. *)
Definition publish_stream_status (supports : list SupportType.t) (status : ConnectionStatus.t)
    st sh : stream * Shared :=
  if decide (connection_status_ st = status) then (st, sh)
  else
    ({| priority := priority st; stream_id := stream_id st; name := name st;
        connection_status_ := status; last_update_time_ := last_update_time_ st |},
     emit (EvStreamStatus {| ss_stream_id := stream_id st; ss_supports := supports;
             ss_priority := priority st; ss_connection_status := status;
             ss_interface := local_interface options; ss_path := name st |}) sh).

(** [operator()(Trace<Timer> const &)]. *)
Definition on_timer (now : Z) st : stream :=
  if negb (last_update_time_ st =? 0) && (last_update_time_ st + multicast_timeout options <? now)
  then {| priority := priority st; stream_id := stream_id st; name := name st;
          connection_status_ := connection_status_ st; last_update_time_ := 0 |}
  else st.

(** The handler of AdminHeartbeat12. *)
Definition on_heartbeat st (trace_info : TraceInfo) (frame : Frame) sh : Shared :=
  emit (EvExternalLatency (stream_id st) (ti_origin_create_time_utc trace_info - sending_time frame)) sh.

(** ** Securities from messages and from the definitions file *)

(** The helper [create_security]: the id and what the callback gets, unless
    the security is known. *)
Definition create_security_from (value : instrument_definition) sh : option Security * Shared :=
  let security_id := id_securityID value in
  if has_security security_id (definitions sh) then (None, sh)
  else
    let security_exchange := get_string_view (id_securityExchange value) in
    let symbol := get_string_view (id_symbol value) in
    let security_group := get_string_view (id_securityGroup value) in
    let security := new_security security_exchange symbol
      (get_double_any (id_displayFactor value)) (discard_symbol symbol) in
    let '(sd, security) :=
      create_security security_group (id_marketSegmentID value) security_id security (definitions sh) in
    (Some security, set_definitions sd sh).

(** The handler of [Shared::read_secdef]. *)
Definition read_secdef_handler (item : SecDef) sh : res Shared :=
  if discard_symbol (sd_symbol item) then Ok sh
  else
    match get_security (to_signed 32 (sd_security_id item)) (definitions sh) with
    | Some security =>
      let multiplier :=
        if sd_multiplier item =? 0 then NaN else safe_cast_to_double (sd_multiplier item) in
      Ok (emit (EvReferenceData {|
        rd_stream_id := 0; rd_exchange := sd_exchange item; rd_symbol := sd_symbol item;
        rd_security_type := SecurityType.FUTURES; rd_external_security_id := 0;
        rd_quote_currency := sd_currency item; rd_settlement_currency := "";
        rd_tick_size := dmul (sd_min_price_increment item) (sd_display_factor item);
        rd_multiplier := multiplier;
        rd_min_trade_vol := safe_cast_to_double (sd_min_trade_vol item);
        rd_max_trade_vol := safe_cast_to_double (sd_max_trade_vol item);
        rd_strike_currency := ""; rd_discard := discard security |}) sh)
    | None => Err Fatal
    end.

(** [Shared::read_secdef]; [None] is an empty file name. *)
Definition read_secdef (config_file : option string) sh : res Shared :=
  match config_file with
  | None => Ok sh
  | Some content => secdef_dispatch read_secdef_handler content sh
  end.
End shared.

(** ** Facts *)

Section shared_facts.
Context `{Env}.
Implicit Types (sh : Shared) (st : stream).

(** What every handler does to the definitions: securities may be added, none
    is removed, and none changes its identity. *)
Definition securities_kept sh sh' : Prop :=
  ∀ id s, get_security_incl_discard id (definitions sh) = Some s →
    ∃ s', get_security_incl_discard id (definitions sh') = Some s' ∧ same_identity s s'.

(** One step: the definitions stay well formed, and the log only grows. *)
Record shared_step sh sh' : Prop := {
  step_wf : sd_wf (definitions sh) → sd_wf (definitions sh');
  step_kept : securities_kept sh sh';
  step_log : log sh `prefix_of` log sh';
}.

#[global] Instance shared_step_preorder : PreOrder shared_step.
Proof.
  split.
  - intros sh. split; [done| |done]. intros id s Hs. by exists s.
  - intros sh1 sh2 sh3 [Hwf1 Hk1 Hl1] [Hwf2 Hk2 Hl2]. split; [auto| |by etrans].
    intros id s Hs. destruct (Hk1 id s Hs) as (s2 & Hs2 & ?).
    destruct (Hk2 id s2 Hs2) as (s3 & Hs3 & ?). exists s3. split; [done|by etrans].
Qed.

Lemma emit_step e sh : shared_step sh (emit e sh).
Proof. split; [done|intros id s Hs; by exists s|]. simpl. by apply prefix_app_r. Qed.

(** The scratch state is not part of it. *)
Lemma same_definitions_step sh sh' :
  definitions sh' = definitions sh → log sh' = log sh → shared_step sh sh'.
Proof. intros Hd Hl. split; [by rewrite Hd| |by rewrite Hl]. intros id s. rewrite Hd. by exists s. Qed.

Lemma with_security_step id f sh :
  (∀ s sh, let '(s', sh') := f s sh in same_identity s s' ∧ definitions sh' = definitions sh
     ∧ log sh `prefix_of` log sh') →
  shared_step sh (with_security id f sh).
Proof.
  intros Hf. unfold with_security.
  destruct (get_security id (definitions sh)) as [s|] eqn:Hs; [|done].
  apply get_security_Some in Hs as [Hs _].
  specialize (Hf s sh). destruct (f s sh) as [s' sh']. destruct Hf as (Hid & Hd & Hl).
  split; simpl; [..|done].
  - intros Hwf. rewrite Hd. by apply put_security_wf with s.
  - intros id' s0. unfold get_security_incl_discard. simpl. rewrite Hd.
    destruct (decide (id = id')) as [<-|].
    + rewrite lookup_insert_eq. intros Hs0. exists s'. split; [done|]. congruence.
    + rewrite lookup_insert_ne by done. intros Hs0. by exists s0.
Qed.

Lemma create_security_from_step value sh : shared_step sh (create_security_from value sh).2.
Proof.
  unfold create_security_from. destruct (has_security _ _) eqn:Hh; [done|].
  set (s := new_security _ _ _ _).
  pose proof (create_security_wf (get_string_view (id_securityGroup value))
    (id_marketSegmentID value) (id_securityID value) s (definitions sh)) as Hwf.
  pose proof (λ id s0, create_security_keeps (get_string_view (id_securityGroup value))
    (id_marketSegmentID value) (id_securityID value) id s s0 (definitions sh)) as Hkeep.
  destruct (create_security _ _ _ s _) as [sd s']. split; simpl in *; [auto| |done].
  intros id s0 Hs0. exists s0. split; [by apply Hkeep|done].
Qed.

Lemma publish_stream_status_step supports status st sh :
  shared_step sh (publish_stream_status supports status st sh).2.
Proof. unfold publish_stream_status. case_decide; [done|]. apply emit_step. Qed.
End shared_facts.
#[export] Hint Resolve emit_step create_security_from_step publish_stream_status_step : cme.

(** ** Properties *)

(** The states of a stream: its constructor, its status and its timer are all
    that writes it. *)
Inductive stream_reachable `{Env} : stream → Prop :=
  | reach_create p id n : stream_reachable (create_stream p id n)
  | reach_status supports status st sh :
      stream_reachable st → stream_reachable (publish_stream_status supports status st sh).1
  | reach_timer now st : stream_reachable st → stream_reachable (on_timer now st).

(** What [read_secdef] publishes for a record of the file. *)
Definition secdef_reference_data `{Env} (item : SecDef) : md_event :=
  EvReferenceData {|
    rd_stream_id := 0; rd_exchange := sd_exchange item; rd_symbol := sd_symbol item;
    rd_security_type := SecurityType.FUTURES; rd_external_security_id := 0;
    rd_quote_currency := sd_currency item; rd_settlement_currency := "";
    rd_tick_size := dmul (sd_min_price_increment item) (sd_display_factor item);
    rd_multiplier := if sd_multiplier item =? 0 then NaN else safe_cast_to_double (sd_multiplier item);
    rd_min_trade_vol := safe_cast_to_double (sd_min_trade_vol item);
    rd_max_trade_vol := safe_cast_to_double (sd_max_trade_vol item);
    rd_strike_currency := ""; rd_discard := false |}.

Section shared_properties.
Context `{Env}.
Implicit Types (sh : Shared) (st : stream).

Lemma read_secdef_handler_Ok item sh :
  none_discarded (definitions sh) →
  (discard_symbol (sd_symbol item) = false →
   is_Some (get_security (to_signed 32 (sd_security_id item)) (definitions sh))) →
  read_secdef_handler item sh =
  Ok (if discard_symbol (sd_symbol item) then sh else emit (secdef_reference_data item) sh).
Proof.
  intros Hnd Hitem. unfold read_secdef_handler.
  destruct (discard_symbol (sd_symbol item)); [done|].
  destruct (Hitem eq_refl) as [s Hs]. rewrite Hs.
  apply get_security_Some in Hs as [_ Hdis]. by rewrite Hdis.
Qed.

Lemma read_secdef_fold items sh :
  none_discarded (definitions sh) →
  Forall (λ item, discard_symbol (sd_symbol item) = false →
    is_Some (get_security (to_signed 32 (sd_security_id item)) (definitions sh))) items →
  ∃ sh', foldM (λ sh item, read_secdef_handler item sh) sh items = Ok sh'
    ∧ definitions sh' = definitions sh
    ∧ log sh' = log sh ++ map secdef_reference_data
                            (filter (λ item, discard_symbol (sd_symbol item) = false) items).
Proof.
  intros Hnd. revert sh Hnd. induction items as [|item items IH]; intros sh Hnd Hall; simpl.
  { exists sh. by rewrite app_nil_r. }
  apply Forall_cons in Hall as [Hitem Hall]. rewrite read_secdef_handler_Ok by done.
  destruct (discard_symbol (sd_symbol item)) eqn:Hd; cbn [mbind res_bind].
  - rewrite filter_cons_False by congruence. by apply IH.
  - rewrite filter_cons_True by done. destruct (IH (emit (secdef_reference_data item) sh)) as (sh' & Hfold & Hdef & Hlog); [done..|].
    exists sh'. split; [exact Hfold|]. split; [done|].
    rewrite Hlog. simpl. by rewrite <- app_assoc.
Qed.

(** start of day.  The definitions file is read twice, first to build the
    tables and then to publish reference data.  The second pass never stops
    the process: each record that is not filtered finds its security, and the
    reference data of exactly these records is published, in file order. *)
Theorem read_secdef_published content sd :
  create_definitions (Some content) = Ok sd →
  ∃ (items : list SecDef) sh',
    (∀ S (handler : SecDef → S → res S) s,
       secdef_dispatch handler content s = foldM (λ s item, handler item s) s items)
    ∧ read_secdef (Some content) (create_shared sd) = Ok sh'
    ∧ definitions sh' = sd
    ∧ log sh' = map secdef_reference_data
                  (filter (λ item, discard_symbol (sd_symbol item) = false) items).
Proof.
  intros Hsd. destruct (create_definitions_known content sd Hsd) as (_ & Hnd & items & Hitems & Hall & _).
  destruct (read_secdef_fold items (create_shared sd) Hnd Hall) as (sh' & Hfold & Hdef & Hlog).
  exists items, sh'. split_and!; [done| |done|done]. simpl. by rewrite Hitems.
Qed.

(** the status of a stream is published with its first packet and not
    again: any number of packets gives one event. *)
Theorem stream_status_once supports p id n k sh :
  let '(st', sh') :=
    Nat.iter (S k) (λ '(st, sh), publish_stream_status supports ConnectionStatus.READY st sh)
      (create_stream p id n, sh) in
  connection_status_ st' = ConnectionStatus.READY ∧
  log sh' = log sh ++ [EvStreamStatus {| ss_stream_id := id; ss_supports := supports; ss_priority := p;
    ss_connection_status := ConnectionStatus.READY;
    ss_interface := local_interface options; ss_path := n |}].
Proof.
  induction k as [|k IH]; [done|]. rewrite Nat.iter_succ.
  destruct (Nat.iter (S k) _ _) as [st' sh']. destruct IH as [Hst Hlog].
  unfold publish_stream_status at 1. by rewrite decide_True.
Qed.

(** a stream never times out: nothing ever sets the time of its last
    update, so that the timer leaves every reachable stream alone, whatever
    the time and the configured timeout are. *)
Theorem stream_never_times_out st now : stream_reachable st → on_timer now st = st.
Proof.
  intros Hst. assert (last_update_time_ st = 0) as Hz.
  { induction Hst as [| |now' st _ IH]; [done| |].
    - unfold publish_stream_status. by case_decide.
    - unfold on_timer. by destruct (negb _ && _). }
  unfold on_timer. by rewrite Hz.
Qed.
End shared_properties.

(** ** A concrete environment, for the witnesses *)

Definition example_cast : SafeCast := {|
  safe_cast_to_double := double_of_Z;
  safe_cast_to_int32 := cast_double (- 2 ^ 31) (2 ^ 31 - 1);
|}.

Definition example_options : Options := {|
  enable_market_by_order := true;
  mbp_to_mbo_clear_price_level := false;
  filter_snapshot_from_incremental := 0;
  local_interface := "eth0";
  multicast_timeout := 1000;
|}.

Definition example_env (o : Options) : Env := {|
  env_mbp := simple_sequencer _;
  env_mbo := simple_sequencer _;
  env_buffer := list_buffer;
  env_hash := example_hash_order;
  env_discard := example_discard;
  env_cast := example_cast;
  env_sbe := example_sbe;
  env_chars := example_from_chars;
  options := o;
|}.

Definition the_env : Env := example_env example_options.

Section shared_witnesses.
#[local] Existing Instance the_env.

Definition the_channel : @Channel (@env_buffer the_env) := example_channel.

Lemma read_secdef_published_witness :
  ∃ (items : list SecDef) sh',
    (∀ S (handler : SecDef → S → res S) s,
       secdef_dispatch handler example_file s = foldM (λ s item, handler item s) s items)
    ∧ read_secdef (Some example_file) (create_shared example_definitions) = Ok sh'
    ∧ definitions sh' = example_definitions
    ∧ log sh' = map secdef_reference_data
                  (filter (λ item, discard_symbol (sd_symbol item) = false) items).
Proof. apply read_secdef_published. vm_compute. reflexivity. Defined.

Lemma stream_never_times_out_witness :
  on_timer 123456789 (create_stream Priority.PRIMARY 1 "A") = create_stream Priority.PRIMARY 1 "A".
Proof. apply stream_never_times_out. constructor. Defined.
End shared_witnesses.
