(* ===== verification/InstrumentDefinition.v ===== *)
(** Instrument definitions
    (src/roq/cme/protocol/mdp/md_instrument_definition.cpp and
    src/roq/cme/market_data/instrument_definition.cpp).

    The stream of a channel that repeats the definitions of all instruments.
    The first definition of an instrument creates its security and publishes
    reference data and, unless the symbol is filtered, market status. *)

From S2P Require Import Prelude Double Api MdpMap Messages MdpParser Security SecdefReader SecurityDefinitions Channel MarketData.

(** [SUPPORTS] *)
Definition instrument_definition_supports : list SupportType.t :=
  [SupportType.REFERENCE_DATA; SupportType.MARKET_STATUS].

Section instrument_definition.
Context `{Env}.
Implicit Types (value : instrument_definition) (security : Security).

(** ** The overloads of [create_reference_data] *)

Definition create_reference_data_54 value (stream_id : Z) security : ReferenceData :=
  let contract_multiplier := get_int (id_contractMultiplier value) in
  {| rd_stream_id := stream_id; rd_exchange := exchange security; rd_symbol := symbol security;
     rd_security_type := SecurityType.FUTURES; rd_external_security_id := id_securityID value;
     rd_quote_currency := get_string_view (id_currency value);
     rd_settlement_currency := get_string_view (id_settlCurrency value);
     rd_tick_size := dmul (get_double_any (id_minPriceIncrement value)) (display_factor security);
     rd_multiplier := if contract_multiplier =? 0 then NaN else safe_cast_to_double contract_multiplier;
     rd_min_trade_vol := safe_cast_to_double (id_minTradeVol value);
     rd_max_trade_vol := safe_cast_to_double (id_maxTradeVol value);
     rd_strike_currency := ""; rd_discard := discard security |}.

Definition create_reference_data_55 value (stream_id : Z) security : ReferenceData :=
  {| rd_stream_id := stream_id; rd_exchange := exchange security; rd_symbol := symbol security;
     rd_security_type := SecurityType.OPTION; rd_external_security_id := id_securityID value;
     rd_quote_currency := get_string_view (id_currency value);
     rd_settlement_currency := get_string_view (id_settlCurrency value);
     rd_tick_size := dmul (get_double_any (id_minPriceIncrement value)) (display_factor security);
     rd_multiplier := NaN;
     rd_min_trade_vol := safe_cast_to_double (id_minTradeVol value);
     rd_max_trade_vol := safe_cast_to_double (id_maxTradeVol value);
     rd_strike_currency := get_string_view (id_strikeCurrency value);
     rd_discard := discard security |}.

Definition create_reference_data_56 value (stream_id : Z) security : ReferenceData :=
  {| rd_stream_id := stream_id; rd_exchange := exchange security; rd_symbol := symbol security;
     rd_security_type := SecurityType.FUTURES; rd_external_security_id := id_securityID value;
     rd_quote_currency := get_string_view (id_currency value);
     rd_settlement_currency := "";
     rd_tick_size := get_double_any (id_minPriceIncrement value);
     rd_multiplier := NaN;
     rd_min_trade_vol := safe_cast_to_double (id_minTradeVol value);
     rd_max_trade_vol := safe_cast_to_double (id_maxTradeVol value);
     rd_strike_currency := ""; rd_discard := discard security |}.

Definition create_reference_data_57 value (stream_id : Z) security : ReferenceData :=
  {| rd_stream_id := stream_id; rd_exchange := exchange security; rd_symbol := symbol security;
     rd_security_type := SecurityType.FUTURES; rd_external_security_id := id_securityID value;
     rd_quote_currency := get_string_view (id_currency value);
     rd_settlement_currency := get_string_view (id_settlCurrency value);
     rd_tick_size := get_double_any (id_minPriceIncrement value);
     rd_multiplier := NaN;
     rd_min_trade_vol := safe_cast_to_double (id_minTradeVol value);
     rd_max_trade_vol := safe_cast_to_double (id_maxTradeVol value);
     rd_strike_currency := ""; rd_discard := discard security |}.

(** The overloads of Repo58 and FX63 read what that of FixedIncome57 reads. *)
Definition create_reference_data_58 value (stream_id : Z) security : ReferenceData :=
  create_reference_data_57 value stream_id security.
Definition create_reference_data_63 value (stream_id : Z) security : ReferenceData :=
  create_reference_data_57 value stream_id security.

(** The six overloads of [create_market_status], which only differ in the
    type of the message. *)
Definition create_market_status value (stream_id : Z) security : md_event :=
  EvMarketStatus (header stream_id 0 0 0 security)
    (get_trading_status (id_mDSecurityTradingStatus value)).

(** The callback that all the handlers of definitions use. *)
Definition publish_definition (create_reference_data : instrument_definition → Z → Security → ReferenceData)
    (stream_id : Z) value security (sh : Shared) : Shared :=
  let sh := emit (EvReferenceData (create_reference_data value stream_id security)) sh in
  if discard security then sh
  else emit (create_market_status value stream_id security) sh.

(** The handler of a definition that creates the security. *)
Definition on_new_definition (create_reference_data : instrument_definition → Z → Security → ReferenceData)
    (stream_id : Z) value (sh : Shared) : Shared :=
  let '(security, sh) := create_security_from value sh in
  match security with
  | Some security => publish_definition create_reference_data stream_id value security sh
  | None => sh
  end.

(** ** The handler of the stream *)

Definition instrument_definition_on_message (st : stream) (trace_info : TraceInfo) (frame : Frame)
    (message : mdp_message) (sh : Shared) : res Shared :=
  match message with
  | AdminHeartbeat12 => Ok (on_heartbeat st trace_info frame sh)
  | MDInstrumentDefinitionFuture54 m => Ok (on_new_definition create_reference_data_54 (stream_id st) m sh)
  | MDInstrumentDefinitionOption55 m => Ok (on_new_definition create_reference_data_55 (stream_id st) m sh)
  | MDInstrumentDefinitionSpread56 m => Ok (on_new_definition create_reference_data_56 (stream_id st) m sh)
  | MDInstrumentDefinitionFixedIncome57 m => Ok (on_new_definition create_reference_data_57 (stream_id st) m sh)
  | MDInstrumentDefinitionRepo58 m => Ok (on_new_definition create_reference_data_58 (stream_id st) m sh)
  | MDInstrumentDefinitionFX63 m => Ok (on_new_definition create_reference_data_63 (stream_id st) m sh)
  | _ => Ok sh
  end.

Definition instrument_definition_handler (st : stream) (trace_info : TraceInfo) : parser_handler mdp_message Shared :=
  {| on_frame _ sh := Ok sh; on_message := instrument_definition_on_message st trace_info |}.

(** [InstrumentDefinition::dispatch] *)
Definition instrument_definition_dispatch (payload : bytes) (trace_info : TraceInfo)
    (st : stream) (sh : Shared) : res (stream * Shared) :=
  let '(st, sh) :=
    publish_stream_status instrument_definition_supports ConnectionStatus.READY st sh in
  '(_, sh) ← parser_dispatch (instrument_definition_handler st trace_info) payload sh;
  Ok (st, sh).
End instrument_definition.

Section instrument_definition_facts.
Context `{Env}.
Implicit Types (value : instrument_definition) (sh : Shared).

Lemma publish_definition_step crd sid value s sh : shared_step sh (publish_definition crd sid value s sh).
Proof. unfold publish_definition. destruct (discard s); [|etrans]; apply emit_step. Qed.

Lemma on_new_definition_step crd sid value sh : shared_step sh (on_new_definition crd sid value sh).
Proof.
  unfold on_new_definition. pose proof (create_security_from_step value sh) as Hstep.
  destruct (create_security_from value sh) as [[s|] sh1]; [|done].
  etrans; [exact Hstep|]. apply publish_definition_step.
Qed.

Lemma instrument_definition_on_message_step st ti frame m sh sh' :
  instrument_definition_on_message st ti frame m sh = Ok sh' → shared_step sh sh'.
Proof.
  destruct m; intros [= <-]; first [reflexivity|apply on_new_definition_step|apply emit_step].
Qed.

Lemma instrument_definition_dispatch_step payload ti st sh st' sh' :
  instrument_definition_dispatch payload ti st sh = Ok (st', sh') → shared_step sh sh'.
Proof.
  unfold instrument_definition_dispatch.
  pose proof (publish_stream_status_step instrument_definition_supports ConnectionStatus.READY st sh) as Hpub.
  destruct (publish_stream_status _ _ st sh) as [st1 sh1]. simpl in Hpub.
  intros ([b sh2] & Hp & Heq)%res_bind_Ok. injection Heq as _ <-.
  etrans; [exact Hpub|]. eapply (parser_dispatch_rel _ shared_step); [| |exact Hp].
  - by intros f s s' [= <-].
  - apply instrument_definition_on_message_step.
Qed.

(** The first definition of an instrument. *)
Lemma on_new_definition_new crd sid value sh :
  has_security (id_securityID value) (definitions sh) = false →
  let symbol := get_string_view (id_symbol value) in
  let s := new_security (get_string_view (id_securityExchange value)) symbol
             (get_double_any (id_displayFactor value)) (discard_symbol symbol) in
  on_new_definition crd sid value sh =
  publish_definition crd sid value s
    (set_definitions (create_security (get_string_view (id_securityGroup value))
       (id_marketSegmentID value) (id_securityID value) s (definitions sh)).1 sh).
Proof.
  intros Hnew symbol s. unfold on_new_definition, create_security_from. rewrite Hnew.
  fold symbol. fold s. unfold create_security.
  unfold has_security in Hnew. apply bool_decide_eq_false in Hnew.
  assert (securities_ (definitions sh) !! id_securityID value = None) as Hnone
    by by apply eq_None_not_Some.
  destruct (discard s); simpl; by rewrite lookup_try_emplace, decide_True, Hnone.
Qed.

Lemma on_new_definition_known crd sid value sh :
  has_security (id_securityID value) (definitions sh) = true →
  on_new_definition crd sid value sh = sh.
Proof. intros Hh. unfold on_new_definition, create_security_from. by rewrite Hh. Qed.

Lemma create_security_has group segment id s sd :
  has_security id (create_security group segment id s sd).1 = true.
Proof.
  apply bool_decide_eq_true. unfold create_security. destruct (discard s); simpl;
    rewrite lookup_try_emplace, decide_True by done; by eexists.
Qed.

Lemma publish_definition_definitions crd sid value s sh :
  definitions (publish_definition crd sid value s sh) = definitions sh.
Proof. unfold publish_definition. by destruct (discard s). Qed.

(** the first definition of an instrument publishes its reference data
    and, unless the symbol is filtered, its market status, and from then on
    the security is found by its id with the exchange, symbol and display
    factor of the message; a filtered one is known but can not be got. *)
Theorem on_new_definition_first crd sid value sh :
  has_security (id_securityID value) (definitions sh) = false →
  let symbol := get_string_view (id_symbol value) in
  let s := new_security (get_string_view (id_securityExchange value)) symbol
             (get_double_any (id_displayFactor value)) (discard_symbol symbol) in
  let sh' := on_new_definition crd sid value sh in
  log sh' = log sh ++ EvReferenceData (crd value sid s) ::
    (if discard_symbol symbol then [] else [create_market_status value sid s])
  ∧ get_security_incl_discard (id_securityID value) (definitions sh') = Some s
  ∧ get_security (id_securityID value) (definitions sh') = if discard_symbol symbol then None else Some s.
Proof.
  intros Hnew symbol s sh'. unfold sh'. rewrite on_new_definition_new by done. fold symbol. fold s.
  assert (discard s = discard_symbol symbol) as Hd by done. clearbody s. clear sh'.
  rewrite publish_definition_definitions. cbn [definitions set_definitions].
  unfold has_security in Hnew. apply bool_decide_eq_false in Hnew.
  assert (securities_ (definitions sh) !! id_securityID value = None) as Hnone
    by by apply eq_None_not_Some.
  split.
  - unfold publish_definition. rewrite Hd. destruct (discard_symbol symbol); simpl; [done|].
    by rewrite <- app_assoc.
  - unfold get_security_incl_discard, get_security, create_security. rewrite Hd.
    destruct (discard_symbol symbol) eqn:E; simpl;
      rewrite lookup_try_emplace, decide_True, Hnone by done; simpl; by rewrite Hd.
Qed.

(** definitions are idempotent: the stream repeats them for ever, and on
    two lines, but a definition that was handled before changes nothing,
    whatever builder and stream it arrives with. *)
Theorem on_new_definition_idempotent crd sid crd' sid' value sh :
  on_new_definition crd' sid' value (on_new_definition crd sid value sh)
  = on_new_definition crd sid value sh.
Proof.
  apply on_new_definition_known. destruct (has_security (id_securityID value) (definitions sh)) eqn:Hh.
  - by rewrite on_new_definition_known.
  - rewrite on_new_definition_new by done. rewrite publish_definition_definitions. simpl.
    apply create_security_has.
Qed.

(** no packet on the definition stream, well formed or not, breaks the
    tables of securities, removes a security, changes the identity of one, or
    takes back an event. *)
Theorem instrument_definition_safe payload ti st sh st' sh' :
  sd_wf (definitions sh) →
  instrument_definition_dispatch payload ti st sh = Ok (st', sh') →
  sd_wf (definitions sh') ∧ securities_kept sh sh' ∧ log sh `prefix_of` log sh'.
Proof. intros Hwf Hd. apply instrument_definition_dispatch_step in Hd as []. auto. Qed.
End instrument_definition_facts.

(** ** Witnesses *)

Section instrument_definition_witnesses.
#[local] Existing Instance the_env.

Definition example_null (z : Z) : sbe_int := {| raw := z; null_value := 4294967295 |}.
Definition example_decimal (m : Z) : any_decimal := Dec9 {| mantissa := m; exponent := 0 |}.

Definition example_definition (id : Z) (sym : string) : instrument_definition := {|
  id_securityID := id; id_marketSegmentID := 64; id_securityExchange := "XCME"; id_symbol := sym;
  id_securityGroup := "ES"; id_displayFactor := example_decimal 1; id_currency := "USD";
  id_settlCurrency := "USD"; id_strikeCurrency := ""; id_minPriceIncrement := example_decimal 25;
  id_contractMultiplier := example_null 50; id_minTradeVol := 1; id_maxTradeVol := 3000;
  id_mDSecurityTradingStatus := SecurityTradingStatus.ReadyToTrade |}.

Definition example_shared : Shared :=
  on_new_definition create_reference_data_54 1 (example_definition 8 "ESM5") (create_shared empty_definitions).

Lemma on_new_definition_first_witness :
  length (log (on_new_definition create_reference_data_54 1 (example_definition 9 "ESU5") example_shared)) = 4%nat.
Proof.
  destruct (on_new_definition_first create_reference_data_54 1 (example_definition 9 "ESU5") example_shared)
    as [-> _]; [vm_compute; reflexivity|]. vm_compute. reflexivity.
Defined.

Definition example_trace : TraceInfo := {|
  ti_source_receive_time := 1; ti_origin_create_time := 2; ti_origin_create_time_utc := 2000 |}.

Definition heartbeat_packet (n : Z) : bytes :=
  encode_packet {| sequence_number := n; sending_time := 1000 |} [example_message 12 []].

Lemma instrument_definition_safe_witness :
  ∃ st' sh', instrument_definition_dispatch (heartbeat_packet 7) example_trace
      (create_stream Priority.PRIMARY 1 "A") (create_shared empty_definitions) = Ok (st', sh')
    ∧ sd_wf (definitions sh').
Proof.
  destruct (is_ok_value (instrument_definition_dispatch (heartbeat_packet 7) example_trace
    (create_stream Priority.PRIMARY 1 "A") (create_shared empty_definitions))) as [[st' sh'] Heq];
    [vm_compute; reflexivity|].
  exists st', sh'. split; [exact Heq|].
  exact (proj1 (instrument_definition_safe (heartbeat_packet 7) example_trace
    (create_stream Priority.PRIMARY 1 "A") (create_shared empty_definitions) st' sh'
    empty_definitions_wf Heq)).
Defined.
End instrument_definition_witnesses.
