(* ===== verification/Recovery.v ===== *)
(** Market recovery: what the two recovery streams have in common
    (the calls of the sequencers in
    src/roq/cme/market_data/mbp_market_recovery.cpp and
    mbofd_market_recovery.cpp).

    The incremental stream sets [resubscribe] of a security to the sequence at
    which it lost the book.  A snapshot that is recent enough is given to the
    sequencer, which publishes it, asks for a later one, or throws [BadState]. *)

From S2P Require Import Prelude Double Api MdpMap Messages MdpParser Security SecdefReader SecurityDefinitions Channel MarketData.

Section recovery.
Context `{Env} {U : Type} `{!Sequencer U}.
(** [publish u last_sequence]: the update that is dispatched. *)
Context (publish : U → Z → md_event).

(** [publish_snapshot] and [request_snapshot], over [resubscribe] and the
    shared state. *)
Definition recovery_call (exchange_sequence : Z) (c : snapshot_call U) (q : sequencer U)
    (w : Z * Shared) : bool * sequencer U * (Z * Shared) :=
  let '(resubscribe, sh) := w in
  match c with
  | PublishSnapshot u exchange_sequence _ _ =>
    let sh := emit (publish u (last_sequence q)) sh in
    let '(ok, q) := sequencer_apply exchange_sequence false q in
    let sh := emit (EvApplied exchange_sequence) sh in
    if ok then (true, q, (0, sh)) else (false, q, (resubscribe, sh))
  | RequestSnapshot _ => (true, q, (exchange_sequence, sh))
  end.

(** The snapshot is known to fit when the sequence lost is one the channel
    has seen and the snapshot is not ahead of it. *)
Definition force (ch : Channel) (resubscribe exchange_sequence : Z) : bool :=
  (first_sequence_number ch <=? resubscribe) && (exchange_sequence <=? last_sequence_number ch).

(** The [try] block, and [sequencer.clear()] on [BadState]. *)
Definition recover (ch : Channel) (exchange_sequence : Z) (u : U) (q : sequencer U)
    (resubscribe : Z) (sh : Shared) : sequencer U * Z * Shared :=
  let '(ok, q, (resubscribe', sh)) :=
    run (recovery_call exchange_sequence)
      (on_snapshot u exchange_sequence (force ch resubscribe exchange_sequence) q) (resubscribe, sh) in
  (if ok then q else sequencer_clear q, resubscribe', sh).
End recovery.

Section recovery_facts.
Context `{Env} {U : Type} `{!Sequencer U}.
Context (publish : U → Z → md_event).

(** What a recovery may do: the log grows by published snapshots (each one
    followed by what the sequencer applies), the rest of the shared state is
    as before, and [resubscribe] is cleared only by publishing. *)
Record recovered (exchange_sequence resubscribe : Z) (sh : Shared) (resubscribe' : Z) (sh' : Shared) : Prop := {
  rec_shared : ∃ es, sh' = foldl (λ sh e, emit e sh) sh es
    ∧ Forall (λ e, (∃ u l, e = publish u l) ∨ ∃ n, e = EvApplied n) es
    ∧ (resubscribe' = 0 → resubscribe ≠ 0 → exchange_sequence ≠ 0 → ∃ u l, publish u l ∈ es);
  rec_resubscribe : resubscribe' = resubscribe ∨ resubscribe' = 0 ∨ resubscribe' = exchange_sequence;
}.

Lemma recovery_call_recovered seq r sh c q (w : Z * Shared) :
  recovered seq r sh w.1 w.2 →
  recovered seq r sh (recovery_call publish seq c q w).2.1 (recovery_call publish seq c q w).2.2.
Proof.
  destruct w as [r1 sh1]. simpl. intros [(es & Hes & Hall & Hpub) Hr].
  destruct c as [u n retries delay|retries]; simpl.
  - destruct (sequencer_apply n false q) as [ok q']. set (l := last_sequence q).
    assert (∀ r', r' = r1 ∨ r' = 0 →
      recovered seq r sh r' (emit (EvApplied n) (emit (publish u l) sh1))) as Hok.
    { intros r' Hr'. split; [|naive_solver].
      exists (es ++ [publish u l; EvApplied n]). split_and!.
      - by rewrite foldl_app, <- Hes.
      - apply Forall_app. split; [done|]. repeat constructor; naive_solver.
      - intros _ _ _. exists u, l. set_solver. }
    destruct ok; simpl; apply Hok; auto.
  - split; [|naive_solver]. exists es. naive_solver.
Qed.

Lemma recover_recovered ch seq u q r sh :
  let '(_, r', sh') := recover publish ch seq u q r sh in recovered seq r sh r' sh'.
Proof.
  unfold recover. set (p := on_snapshot u seq _ q).
  pose proof (run_inv (λ w : Z * Shared, recovered seq r sh w.1 w.2) (recovery_call publish seq) p (r, sh)) as Hrun.
  destruct (run (recovery_call publish seq) p (r, sh)) as [[ok q'] [r' sh']]. simpl in Hrun.
  apply Hrun; [|intros; by apply recovery_call_recovered].
  split; [|by left]. exists []. split_and!; [done|done|done].
Qed.

Lemma emit_all_definitions es sh : definitions (foldl (λ sh e, emit e sh) sh es) = definitions sh.
Proof. revert sh. induction es as [|e es IH]; intros sh; simpl; [done|]. by rewrite IH. Qed.

Lemma emit_all_log es sh : log (foldl (λ sh e, emit e sh) sh es) = log sh ++ es.
Proof.
  revert sh. induction es as [|e es IH]; intros sh; simpl; [by rewrite app_nil_r|].
  rewrite IH. simpl. by rewrite <- app_assoc.
Qed.

Lemma recovered_keeps seq r sh r' sh' :
  recovered seq r sh r' sh' → definitions sh' = definitions sh ∧ log sh `prefix_of` log sh'.
Proof.
  intros [(es & -> & _) _]. rewrite emit_all_definitions, emit_all_log. split; [done|].
  by apply prefix_app_r.
Qed.

(** The tables are neither read nor written. *)
Lemma recover_set_definitions ch seq u q r sd sh :
  recover publish ch seq u q r (set_definitions sd sh) =
  let '(q', r', sh') := recover publish ch seq u q r sh in (q', r', set_definitions sd sh').
Proof.
  unfold recover. set (p := on_snapshot u seq _ q).
  set (f := λ w : Z * Shared, (w.1, set_definitions sd w.2)).
  pose proof (run_map f (recovery_call publish seq) p (r, sh)) as Hmap.
  change (r, set_definitions sd sh) with (f (r, sh)). rewrite Hmap.
  - by destruct (run _ p (r, sh)) as [[ok q'] [r' sh']].
  - intros c s [r1 sh1]. simpl. destruct c; simpl; [|done].
    by destruct (sequencer_apply _ _ _) as [[] ?].
Qed.
End recovery_facts.
