(* ===== verification/MbpRecovery.v ===== *)
(** Market by price recovery
    (src/roq/cme/market_data/mbp_market_recovery.cpp). *)

From S2P Require Import Prelude Double Api MdpMap Messages MdpParser Security SecdefReader SecurityDefinitions Channel MarketData InstrumentDefinition Recovery.

(** [SUPPORTS] *)
Definition mbp_recovery_supports : list SupportType.t :=
  [SupportType.MARKET_BY_PRICE; SupportType.STATISTICS].

Section mbp_recovery.
Context `{Env}.
Implicit Types (sh : Shared) (security : Security).

(** [uint32_t price_level]: levels of the wire format start at one. *)
Definition price_level_of (f : sbe_int) : Z :=
  let md_price_level := get_int f in
  if 0 <? md_price_level then u32 (md_price_level - 1) else 0.

Definition snapshot_mbp_update (item : snapshot_entry) security : MBPUpdate := {|
  mbp_price := dmul (get_double_any (sn_mDEntryPx item)) (display_factor security);
  mbp_quantity := safe_cast_to_double (get_int (sn_mDEntrySize item));
  mbp_implied_quantity := NaN;
  mbp_number_of_orders := safe_cast_to_double (get_int (sn_numberOfOrders item));
  mbp_update_action := UpdateAction.UNDEFINED;
  mbp_price_level := price_level_of (sn_mDPriceLevel item) |}.

(** [emplace_back]: the entries that are neither bids nor offers are dropped. *)
Definition snapshot_emplace_back (item : snapshot_entry) security (mbp : mbp_update) : mbp_update :=
  match sn_mDEntryType item with
  | MDEntryType.Bid => (mbp.1 ++ [snapshot_mbp_update item security], mbp.2)
  | MDEntryType.Offer => (mbp.1, mbp.2 ++ [snapshot_mbp_update item security])
  | _ => mbp
  end.

Definition mbp_recovery_dispatch_market_by_price (st : stream) (ch : Channel)
    (exchange_sequence exchange_time_utc sending_time_utc : Z) (mbp : mbp_update)
    security sh : Security * Shared :=
  if mbp_resubscribe security =? 0 then (security, sh)
  else
    let publish (mbp : mbp_update) last :=
      EvMarketByPriceUpdate (header (stream_id st) exchange_time_utc last sending_time_utc security)
        mbp.1 mbp.2 UpdateType.SNAPSHOT in
    let '(q, resubscribe, sh) :=
      recover publish ch exchange_sequence mbp (mbp_sequencer security) (mbp_resubscribe security) sh in
    (set_mbp q resubscribe security, sh).

(** The handlers of SnapshotFullRefresh52 and SnapshotFullRefreshLongQty69. *)
Definition on_snapshot_full_refresh (st : stream) (ch : Channel) (frame : Frame)
    (value : snapshot_full_refresh) sh : Shared :=
  with_security (sf_securityID value) (λ security sh,
    if mbp_resubscribe security =? 0 then (security, sh)
    else if sf_lastMsgSeqNumProcessed value <? mbp_resubscribe security then (security, sh)
    else
      let mbp := foldl (λ mbp item, snapshot_emplace_back item security mbp) ([], []) (sf_noMDEntries value) in
      if negb (mbp_empty mbp) then
        mbp_recovery_dispatch_market_by_price st ch (sf_lastMsgSeqNumProcessed value)
          (sf_transactTime value) (sending_time frame) mbp security sh
      else (security, sh)) sh.

Definition mbp_recovery_on_message (st : stream) (ch : Channel) (trace_info : TraceInfo) (frame : Frame)
    (message : mdp_message) sh : res Shared :=
  match message with
  | AdminHeartbeat12 => Ok (on_heartbeat st trace_info frame sh)
  | SnapshotFullRefresh52 m => Ok (on_snapshot_full_refresh st ch frame m sh)
  | SnapshotFullRefreshLongQty69 m => Ok (on_snapshot_full_refresh st ch frame m sh)
  | _ => Ok sh
  end.

Definition mbp_recovery_handler (st : stream) (ch : Channel) (trace_info : TraceInfo) : parser_handler mdp_message Shared :=
  {| on_frame _ sh := Ok sh; on_message := mbp_recovery_on_message st ch trace_info |}.

(** [MBPMarketRecovery::dispatch] *)
Definition mbp_recovery_dispatch (payload : bytes) (trace_info : TraceInfo) (ch : Channel)
    (st : stream) sh : res (stream * Shared) :=
  let '(st, sh) := publish_stream_status mbp_recovery_supports ConnectionStatus.READY st sh in
  '(_, sh) ← parser_dispatch (mbp_recovery_handler st ch trace_info) payload sh;
  Ok (st, sh).
End mbp_recovery.

Section mbp_recovery_facts.
Context `{Env}.
Implicit Types (sh : Shared) (s : Security) (value : snapshot_full_refresh).

(** The bids and the offers of a snapshot, each in the order of the message. *)
Definition entries_of (side : MDEntryType.Value → bool) s (items : list snapshot_entry) : list MBPUpdate :=
  map (λ item, snapshot_mbp_update item s) (filter (λ item, side (sn_mDEntryType item)) items).

Definition is_bid (t : MDEntryType.Value) : bool := match t with MDEntryType.Bid => true | _ => false end.
Definition is_offer (t : MDEntryType.Value) : bool := match t with MDEntryType.Offer => true | _ => false end.

Lemma snapshot_entries s items mbp :
  foldl (λ mbp item, snapshot_emplace_back item s mbp) mbp items
  = (mbp.1 ++ entries_of is_bid s items, mbp.2 ++ entries_of is_offer s items).
Proof.
  revert mbp. unfold entries_of. induction items as [|item items IH]; intros [bids asks]; simpl.
  { by rewrite !app_nil_r. }
  rewrite IH. unfold snapshot_emplace_back.
  destruct (sn_mDEntryType item) eqn:E;
    rewrite ?filter_cons, ?E; simpl; by rewrite <- ?app_assoc.
Qed.

Lemma mbp_recovery_dispatch_spec st ch seq time sending mbp s sh :
  let '(s', sh') := mbp_recovery_dispatch_market_by_price st ch seq time sending mbp s sh in
  (∃ q r, s' = set_mbp q r s)
  ∧ recovered (λ mbp last, EvMarketByPriceUpdate (header (stream_id st) time last sending s) mbp.1 mbp.2
                 UpdateType.SNAPSHOT)
      seq (mbp_resubscribe s) sh (mbp_resubscribe s') sh'.
Proof.
  unfold mbp_recovery_dispatch_market_by_price. destruct (mbp_resubscribe s =? 0) eqn:E0; bool_to_prop.
  - split; [by exists (mbp_sequencer s), (mbp_resubscribe s); destruct s|].
    split; [|by left]. exists []. split_and!; [done|done|done].
  - pose proof (recover_recovered (λ (mbp : mbp_update) last,
      EvMarketByPriceUpdate (header (stream_id st) time last sending s) mbp.1 mbp.2 UpdateType.SNAPSHOT)
      ch seq mbp (mbp_sequencer s) (mbp_resubscribe s) sh) as Hrec.
    destruct (recover _ ch seq mbp _ _ sh) as [[q r] sh']. split; [by exists q, r|done].
Qed.

Lemma on_snapshot_full_refresh_step st ch frame value sh :
  shared_step sh (on_snapshot_full_refresh st ch frame value sh).
Proof.
  apply with_security_step. intros s sh1.
  destruct (mbp_resubscribe s =? 0); [done|]. destruct (_ <? _); [done|].
  cbv zeta. set (mbp := foldl _ _ _).
  pose proof (mbp_recovery_dispatch_spec st ch (sf_lastMsgSeqNumProcessed value)
    (sf_transactTime value) (sending_time frame) mbp s sh1) as Hspec.
  destruct (mbp_recovery_dispatch_market_by_price _ _ _ _ _ mbp s sh1) as [s' sh'].
  destruct Hspec as [(q & r & ->) [Hdef Hlog]%recovered_keeps].
  by destruct (mbp_empty mbp).
Qed.

Lemma mbp_recovery_on_message_step st ch ti frame m sh sh' :
  mbp_recovery_on_message st ch ti frame m sh = Ok sh' → shared_step sh sh'.
Proof.
  destruct m; intros [= <-]; first [reflexivity|apply on_snapshot_full_refresh_step|apply emit_step].
Qed.

Lemma mbp_recovery_dispatch_step payload ti ch st sh st' sh' :
  mbp_recovery_dispatch payload ti ch st sh = Ok (st', sh') → shared_step sh sh'.
Proof.
  unfold mbp_recovery_dispatch.
  pose proof (publish_stream_status_step mbp_recovery_supports ConnectionStatus.READY st sh) as Hpub.
  destruct (publish_stream_status _ _ st sh) as [st1 sh1]. simpl in Hpub.
  intros ([b sh2] & Hp & Heq)%res_bind_Ok. injection Heq as _ <-.
  etrans; [exact Hpub|]. eapply (parser_dispatch_rel _ shared_step); [| |exact Hp].
  - by intros f s s' [= <-].
  - apply mbp_recovery_on_message_step.
Qed.

(** a snapshot of a security that does not wait for one, or that is older
    than what the security lost, or that has no bid and no offer, has no
    effect at all. *)
Theorem on_snapshot_full_refresh_ignored st ch frame value sh :
  (∀ s, get_security (sf_securityID value) (definitions sh) = Some s →
     mbp_resubscribe s = 0 ∨ sf_lastMsgSeqNumProcessed value < mbp_resubscribe s
     ∨ Forall (λ item, sn_mDEntryType item ≠ MDEntryType.Bid ∧ sn_mDEntryType item ≠ MDEntryType.Offer)
         (sf_noMDEntries value)) →
  on_snapshot_full_refresh st ch frame value sh = sh.
Proof.
  intros Hs. unfold on_snapshot_full_refresh, with_security.
  destruct (get_security (sf_securityID value) (definitions sh)) as [s|] eqn:Hget; [|done].
  assert (set_definitions (put_security (sf_securityID value) s (definitions sh)) sh = sh) as Hsame.
  { apply get_security_Some in Hget as [Hget _]. destruct sh as [sd]. simpl in *.
    unfold set_definitions, put_security. simpl. f_equal. destruct sd. simpl in *. f_equal.
    by apply insert_id. }
  destruct (mbp_resubscribe s =? 0) eqn:E0; [done|]. destruct (_ <? _) eqn:E1; [done|].
  bool_to_prop. cbv zeta. rewrite snapshot_entries.
  destruct (Hs s eq_refl) as [?|[?|Hnone]]; [done|lia|]. clear Hs.
  assert (∀ side : MDEntryType.Value → bool, (∀ t, side t → t = MDEntryType.Bid ∨ t = MDEntryType.Offer) →
    entries_of side s (sf_noMDEntries value) = []) as Hnil.
  { intros side Hside. unfold entries_of.
    induction Hnone as [|item items [Hb Ho] _ IH]; [done|]. rewrite filter_cons_False; [done|].
    intros Ht. by destruct (Hside _ Ht). }
  rewrite !Hnil by (intros []; simpl; auto; done). done.
Qed.

(** what a snapshot can do: it changes only the price sequencer and the
    pending request of its own security, and publishes nothing but snapshots of
    it; and the request is cleared only by publishing one. *)
Theorem on_snapshot_full_refresh_effect st ch frame value sh s :
  get_security (sf_securityID value) (definitions sh) = Some s →
  let sh' := on_snapshot_full_refresh st ch frame value sh in
  ∃ q r es,
    definitions sh' = put_security (sf_securityID value) (set_mbp q r s) (definitions sh)
    ∧ log sh' = log sh ++ es
    ∧ Forall (λ e, (∃ bids asks last, e = EvMarketByPriceUpdate
          (header (stream_id st) (sf_transactTime value) last (sending_time frame) s) bids asks UpdateType.SNAPSHOT)
        ∨ ∃ n, e = EvApplied n) es
    ∧ (r = mbp_resubscribe s ∨ r = 0 ∨ r = sf_lastMsgSeqNumProcessed value)
    ∧ (r = 0 → 0 < mbp_resubscribe s → es ≠ []).
Proof.
  intros Hget sh'. unfold sh', on_snapshot_full_refresh, with_security. rewrite Hget. clear sh'.
  assert (∀ s' sh', s' = s → sh' = sh → ∃ q r es,
    definitions (set_definitions (put_security (sf_securityID value) s' (definitions sh')) sh')
      = put_security (sf_securityID value) (set_mbp q r s) (definitions sh)
    ∧ log (set_definitions (put_security (sf_securityID value) s' (definitions sh')) sh') = log sh ++ es
    ∧ Forall (λ e, (∃ bids asks last, e = EvMarketByPriceUpdate
          (header (stream_id st) (sf_transactTime value) last (sending_time frame) s) bids asks UpdateType.SNAPSHOT)
        ∨ ∃ n, e = EvApplied n) es
    ∧ (r = mbp_resubscribe s ∨ r = 0 ∨ r = sf_lastMsgSeqNumProcessed value)
    ∧ (r = 0 → 0 < mbp_resubscribe s → es ≠ [])) as Hnone.
  { intros s' sh' -> ->. exists (mbp_sequencer s), (mbp_resubscribe s), [].
    split_and!; [by destruct s|by rewrite app_nil_r|done|by left|intros; lia]. }
  destruct (mbp_resubscribe s =? 0) eqn:E0; [by apply Hnone|].
  destruct (_ <? _) eqn:E1; [by apply Hnone|]. bool_to_prop.
  cbv zeta. set (mbp := foldl _ _ _).
  pose proof (mbp_recovery_dispatch_spec st ch (sf_lastMsgSeqNumProcessed value)
    (sf_transactTime value) (sending_time frame) mbp s sh) as Hspec.
  destruct (mbp_recovery_dispatch_market_by_price _ _ _ _ _ mbp s sh) as [s' sh'].
  destruct Hspec as [(q & r & ->) [(es & -> & Hes & Hpub) Hr]].
  destruct (mbp_empty mbp); [by apply Hnone|].
  exists q, r, es. simpl. rewrite emit_all_definitions, emit_all_log. split_and!; [done|done| |done|].
  - eapply Forall_impl; [exact Hes|]. intros e [([b a] & l & ->)|?]; [left; by exists b, a, l|by right].
  - intros Hr0 Hne ->. destruct (Hpub Hr0) as (u & l & Hin); [lia|lia|by apply elem_of_nil in Hin].
Qed.
End mbp_recovery_facts.

(** ** Witnesses *)

Section mbp_recovery_witnesses.
#[local] Existing Instance the_env.

Definition example_entry (t : MDEntryType.Value) (px : Z) : snapshot_entry := {|
  sn_mDEntryPx := example_decimal px; sn_mDEntrySize := example_null 5;
  sn_numberOfOrders := example_null 2; sn_mDPriceLevel := example_null 1; sn_mDEntryType := t |}.

Definition example_snapshot (seq : Z) : snapshot_full_refresh := {|
  sf_securityID := 8; sf_lastMsgSeqNumProcessed := seq; sf_transactTime := 1000;
  sf_noMDEntries := [example_entry MDEntryType.Bid 100; example_entry MDEntryType.Offer 101] |}.

Definition example_stream : stream := create_stream Priority.PRIMARY 3 "A".

(** The security 8 waits for a snapshot from sequence 5 on. *)
Definition example_waiting : Shared :=
  with_security 8 (λ s sh, (set_mbo (mbo_sequencer s) 5 (set_mbp (mbp_sequencer s) 5 s), sh)) example_shared.

Definition waiting_security : Security :=
  set_mbo 0 5 (set_mbp 0 5 (new_security "XCME" "ESM5" (get_double_any (example_decimal 1)) false)).

Lemma on_snapshot_full_refresh_ignored_witness :
  on_snapshot_full_refresh example_stream the_channel example_frame (example_snapshot 4) example_waiting
  = example_waiting.
Proof.
  apply on_snapshot_full_refresh_ignored. intros s Hs. right. left.
  assert (get_security 8 (definitions example_waiting) = Some waiting_security) as Hw
    by (vm_compute; reflexivity).
  change (sf_securityID (example_snapshot 4)) with 8 in Hs. rewrite Hw in Hs. injection Hs as <-.
  vm_compute. reflexivity.
Defined.

Lemma on_snapshot_full_refresh_effect_witness :
  ∃ q r es,
    definitions (on_snapshot_full_refresh example_stream the_channel example_frame (example_snapshot 5) example_waiting)
      = put_security 8 (set_mbp q r waiting_security) (definitions example_waiting)
    ∧ log (on_snapshot_full_refresh example_stream the_channel example_frame (example_snapshot 5) example_waiting)
      = log example_waiting ++ es
    ∧ (r = 5 ∨ r = 0 ∨ r = 5).
Proof.
  destruct (on_snapshot_full_refresh_effect example_stream the_channel example_frame
    (example_snapshot 5) example_waiting waiting_security) as (q & r & es & Hd & Hl & _ & Hr & _);
    [vm_compute; reflexivity|].
  exists q, r, es. split; [exact Hd|]. split; [exact Hl|exact Hr].
Defined.
End mbp_recovery_witnesses.
