(* ===== verification/MbofdRecovery.v ===== *)
(** Market by order recovery
    (src/roq/cme/market_data/mbofd_market_recovery.cpp).

    A snapshot arrives in chunks, which the security collects. *)

From S2P Require Import Prelude Double Api MdpMap Messages MdpParser Security SecdefReader SecurityDefinitions Channel MarketData InstrumentDefinition Recovery MbpRecovery.

(** [SUPPORTS] *)
Definition mbofd_recovery_supports : list SupportType.t := [SupportType.MARKET_BY_ORDER].

Section mbofd_recovery.
Context `{Env}.
Implicit Types (sh : Shared) (security : Security) (value : snapshot_order_book).

(** [emplace_back] *)
Definition snapshot_mbo_update (item : order_book_entry) security : MBOUpdate := {|
  mbo_price := dmul (get_double_any (ob_mDEntryPx item)) (display_factor security);
  mbo_quantity := double_of_Z (ob_mDDisplayQty item);
  mbo_priority := get_int (ob_mDOrderPriority item);
  mbo_order_id := fmt_Z (get_int (ob_orderID item));
  mbo_side := get_side_book (ob_mDEntryType item);
  mbo_action := UpdateAction.NEW |}.

(** The update that [publish_snapshot] dispatches: its times are not set. *)
Definition mbofd_publish (st : stream) security (orders : mbo_update) (last : Z) : md_event :=
  EvMarketByOrderUpdate (header (stream_id st) 0 last 0 security) orders UpdateType.SNAPSHOT.

(** The callback of [update_mbo_snapshot]. *)
Definition on_chunk (st : stream) (ch : Channel) value (last : bool) security sh : Security * Shared :=
  let security :=
    set_mbo_orders
      (mbo_orders security ++ map (λ item, snapshot_mbo_update item security) (so_noMDEntries value))
      security in
  if last then
    let '(q, resubscribe, sh) :=
      recover (mbofd_publish st security) ch (so_lastMsgSeqNumProcessed value) (mbo_orders security)
        (mbo_sequencer security) (mbo_resubscribe security) sh in
    (set_mbo q resubscribe security, sh)
  else (security, sh).

(** The handler of SnapshotFullRefreshOrderBook53. *)
Definition on_snapshot_order_book (st : stream) (ch : Channel) value sh : Shared :=
  with_security (so_securityID value) (λ security sh,
    if mbo_resubscribe security =? 0 then (security, sh)
    else if so_lastMsgSeqNumProcessed value <? mbo_resubscribe security then (security, sh)
    else
      let '(_, security, sh) :=
        update_mbo_snapshot (so_currentChunk value) (so_noChunks value) (on_chunk st ch value) security sh in
      (security, sh)) sh.

Definition mbofd_recovery_on_message (st : stream) (ch : Channel) (trace_info : TraceInfo) (frame : Frame)
    (message : mdp_message) sh : res Shared :=
  match message with
  | AdminHeartbeat12 => Ok (on_heartbeat st trace_info frame sh)
  | SnapshotFullRefreshOrderBook53 m => Ok (on_snapshot_order_book st ch m sh)
  | _ => Ok sh
  end.

Definition mbofd_recovery_handler (st : stream) (ch : Channel) (trace_info : TraceInfo) : parser_handler mdp_message Shared :=
  {| on_frame _ sh := Ok sh; on_message := mbofd_recovery_on_message st ch trace_info |}.

(** [MBOFDMarketRecovery::dispatch] *)
Definition mbofd_recovery_dispatch (payload : bytes) (trace_info : TraceInfo) (ch : Channel)
    (st : stream) sh : res (stream * Shared) :=
  let '(st, sh) := publish_stream_status mbofd_recovery_supports ConnectionStatus.READY st sh in
  '(_, sh) ← parser_dispatch (mbofd_recovery_handler st ch trace_info) payload sh;
  Ok (st, sh).
End mbofd_recovery.

Section mbofd_recovery_facts.
Context `{Env}.
Implicit Types (sh : Shared) (s : Security) (value : snapshot_order_book).

(** The orders of a message. *)
Definition chunk_orders s value : list MBOUpdate :=
  map (λ item, snapshot_mbo_update item s) (so_noMDEntries value).

(** What a chunk may change of its security: the collection, the order
    sequencer and the pending request. *)
Definition mbo_changed s s' : Prop :=
  ∃ n l o q r, s' = set_mbo q r (set_mbo_orders o (set_chunks n l s)).

Lemma mbo_changed_refl s : mbo_changed s s.
Proof.
  exists (mbo_no_chunks s), (mbo_last_chunk s), (mbo_orders s), (mbo_sequencer s), (mbo_resubscribe s).
  by destruct s.
Qed.

Lemma mbo_changed_trans s1 s2 s3 : mbo_changed s1 s2 → mbo_changed s2 s3 → mbo_changed s1 s3.
Proof.
  intros (n1 & l1 & o1 & q1 & r1 & ->) (n & l & o & q & r & ->). by exists n, l, o, q, r.
Qed.

Lemma mbo_changed_identity s s' : mbo_changed s s' → same_identity s s'.
Proof. by intros (n & l & o & q & r & ->). Qed.

Lemma mbo_changed_chunks s n l : mbo_changed s (set_chunks n l s).
Proof. by exists n, l, (mbo_orders s), (mbo_sequencer s), (mbo_resubscribe s). Qed.

Lemma mbo_changed_reset s : mbo_changed s (set_mbo_orders [] (set_chunks 0 0 s)).
Proof. by exists 0, 0, [], (mbo_sequencer s), (mbo_resubscribe s). Qed.

(** Events of the recovery of a security with the identity of [s]. *)
Definition mbofd_event (st : stream) s (e : md_event) : Prop :=
  (∃ orders last, e = mbofd_publish st s orders last) ∨ ∃ n, e = EvApplied n.

Lemma mbofd_event_identity st s s' e : same_identity s s' → mbofd_event st s' e → mbofd_event st s e.
Proof.
  intros (He & Hs & _ & _) [(o & l & ->)|(n & ->)]; [left|right; by exists n].
  exists o, l. unfold mbofd_publish, header. by rewrite He, Hs.
Qed.

(** The shared state after events. *)
Definition mbofd_effect (st : stream) s sh s' sh' : Prop :=
  mbo_changed s s' ∧ ∃ es, sh' = foldl (λ sh e, emit e sh) sh es ∧ Forall (mbofd_event st s) es.

Lemma mbofd_effect_none st s s' sh : mbo_changed s s' → mbofd_effect st s sh s' sh.
Proof. intros Hc. split; [done|]. by exists []. Qed.

Lemma mbofd_effect_after st s s1 sh1 s2 sh2 sh :
  mbo_changed s s1 → mbofd_effect st s1 sh s2 sh2 → mbofd_effect st s sh s2 sh2.
Proof.
  intros Hc [Hc2 (es & -> & Hes)]. split; [by eapply mbo_changed_trans|].
  exists es. split; [done|]. eapply Forall_impl; [exact Hes|].
  intros e. by apply mbofd_event_identity, mbo_changed_identity.
Qed.

Lemma mbofd_effect_before st s sh s1 sh1 s2 :
  mbofd_effect st s sh s1 sh1 → mbo_changed s1 s2 → mbofd_effect st s sh s2 sh1.
Proof. intros [Hc1 Hes] Hc2. split; [by eapply mbo_changed_trans|done]. Qed.

Lemma on_chunk_effect st ch value last s sh :
  let '(s', sh') := on_chunk st ch value last s sh in mbofd_effect st s sh s' sh'.
Proof.
  unfold on_chunk. set (s1 := set_mbo_orders _ s).
  assert (mbo_changed s s1) as Hc1.
  { by exists (mbo_no_chunks s), (mbo_last_chunk s), (mbo_orders s1), (mbo_sequencer s), (mbo_resubscribe s). }
  destruct last; [|by apply mbofd_effect_none].
  pose proof (recover_recovered (mbofd_publish st s1) ch (so_lastMsgSeqNumProcessed value) (mbo_orders s1)
    (mbo_sequencer s1) (mbo_resubscribe s1) sh) as Hrec.
  destruct (recover _ _ _ _ _ _ sh) as [[q r] sh']. destruct Hrec as [(es & -> & Hes & _) _].
  eapply mbofd_effect_after; [exact sh|exact Hc1|]. split.
  - by exists (mbo_no_chunks s1), (mbo_last_chunk s1), (mbo_orders s1), q, r.
  - exists es. split; [done|]. eapply Forall_impl; [exact Hes|].
    intros e [(o & l & ->)|?]; [left; by exists o, l|by right].
Qed.

Lemma update_mbo_snapshot_effect st ch value c n s sh :
  let '(_, s', sh') := update_mbo_snapshot c n (on_chunk st ch value) s sh in mbofd_effect st s sh s' sh'.
Proof.
  unfold update_mbo_snapshot. destruct (negb _).
  - destruct (c =? _); [apply mbofd_effect_none, mbo_changed_refl|].
    destruct (c =? _); [|apply mbofd_effect_none, mbo_changed_reset].
    destruct (c =? n).
    + pose proof (on_chunk_effect st ch value true s sh) as He.
      destruct (on_chunk _ _ _ _ s sh). eapply mbofd_effect_before; [exact He|apply mbo_changed_reset].
    + pose proof (on_chunk_effect st ch value false (set_chunks (mbo_no_chunks s) c s) sh) as He.
      destruct (on_chunk _ _ _ _ _ sh).
      eapply mbofd_effect_after; [exact sh|apply mbo_changed_chunks|exact He].
  - destruct (c =? 1); [|apply mbofd_effect_none, mbo_changed_refl].
    pose proof (on_chunk_effect st ch value (c =? n) (set_chunks n c s) sh) as He.
    destruct (on_chunk _ _ _ _ _ sh).
    eapply mbofd_effect_after; [exact sh|apply mbo_changed_chunks|exact He].
Qed.

Lemma on_snapshot_order_book_step st ch value sh :
  shared_step sh (on_snapshot_order_book st ch value sh).
Proof.
  apply with_security_step. intros s sh1.
  destruct (mbo_resubscribe s =? 0); [done|]. destruct (_ <? _); [done|].
  pose proof (update_mbo_snapshot_effect st ch value (so_currentChunk value) (so_noChunks value) s sh1) as He.
  destruct (update_mbo_snapshot _ _ _ s sh1) as [[b s'] sh']. destruct He as [Hc (es & -> & _)].
  rewrite emit_all_definitions, emit_all_log.
  split_and!; [by apply mbo_changed_identity|done|by apply prefix_app_r].
Qed.

Lemma mbofd_recovery_on_message_step st ch ti frame m sh sh' :
  mbofd_recovery_on_message st ch ti frame m sh = Ok sh' → shared_step sh sh'.
Proof.
  destruct m; intros [= <-]; first [reflexivity|apply on_snapshot_order_book_step|apply emit_step].
Qed.

Lemma mbofd_recovery_dispatch_step payload ti ch st sh st' sh' :
  mbofd_recovery_dispatch payload ti ch st sh = Ok (st', sh') → shared_step sh sh'.
Proof.
  unfold mbofd_recovery_dispatch.
  pose proof (publish_stream_status_step mbofd_recovery_supports ConnectionStatus.READY st sh) as Hpub.
  destruct (publish_stream_status _ _ st sh) as [st1 sh1]. simpl in Hpub.
  intros ([b sh2] & Hp & Heq)%res_bind_Ok. injection Heq as _ <-.
  etrans; [exact Hpub|]. eapply (parser_dispatch_rel _ shared_step); [| |exact Hp].
  - by intros f s s' [= <-].
  - apply mbofd_recovery_on_message_step.
Qed.

(** ** A snapshot in chunks *)

(** The shared state with the security of an id replaced. *)
Definition place (id : Z) s sh : Shared := set_definitions (put_security id s (definitions sh)) sh.

Lemma place_place id s s' sh : place id s' (place id s sh) = place id s' sh.
Proof.
  unfold place, set_definitions, put_security. simpl. f_equal. f_equal. apply insert_insert_eq.
Qed.

Lemma get_security_place id s sh :
  discard s = false → get_security id (definitions (place id s sh)) = Some s.
Proof. intros Hd. apply get_security_Some. simpl. by rewrite lookup_insert_eq. Qed.

Lemma on_snapshot_order_book_get st ch value sh s :
  get_security (so_securityID value) (definitions sh) = Some s →
  mbo_resubscribe s ≠ 0 → mbo_resubscribe s ≤ so_lastMsgSeqNumProcessed value →
  on_snapshot_order_book st ch value sh =
  let '(_, s', sh') :=
    update_mbo_snapshot (so_currentChunk value) (so_noChunks value) (on_chunk st ch value) s sh in
  place (so_securityID value) s' sh'.
Proof.
  intros Hget Hr Hseq. unfold on_snapshot_order_book, with_security. rewrite Hget.
  rewrite (proj2 (Z.eqb_neq _ _) Hr), (proj2 (Z.ltb_ge _ _) Hseq).
  by destruct (update_mbo_snapshot _ _ _ s sh) as [[b s'] sh'].
Qed.

(** The message is chunk [k] of a snapshot. *)
Definition is_chunk (id seq n k : Z) value : Prop :=
  so_securityID value = id ∧ so_lastMsgSeqNumProcessed value = seq
  ∧ so_currentChunk value = k ∧ so_noChunks value = n.

Definition are_chunks (id seq n k : Z) (values : list snapshot_order_book) : Prop :=
  ∀ i value, values !! i = Some value → is_chunk id seq n (k + 1 + Z.of_nat i) value.

Lemma are_chunks_cons id seq n k value values :
  are_chunks id seq n k (value :: values) →
  is_chunk id seq n (k + 1) value ∧ are_chunks id seq n (k + 1) values.
Proof.
  intros Hall. split.
  - specialize (Hall 0%nat value eq_refl). by rewrite Z.add_0_r in Hall.
  - intros i v Hv. specialize (Hall (S i) v Hv).
    by replace (k + 1 + 1 + Z.of_nat i) with (k + 1 + Z.of_nat (S i)) by lia.
Qed.

(** The state with the first [k] of [n] chunks collected. *)
Definition collected (id n k : Z) (orders : list MBOUpdate) s sh : Shared :=
  place id (set_mbo_orders orders (set_chunks n k s)) sh.

(** What the last chunk leaves. *)
Definition snapshot_complete (st : stream) (ch : Channel) (id seq : Z) (orders : list MBOUpdate) s sh : Shared :=
  let '(q, r, sh') := recover (mbofd_publish st s) ch seq orders (mbo_sequencer s) (mbo_resubscribe s) sh in
  place id (set_mbo_orders [] (set_chunks 0 0 (set_mbo q r s))) sh'.

Lemma next_chunk st ch id seq n k orders s sh value :
  discard s = false → mbo_resubscribe s ≠ 0 → mbo_resubscribe s ≤ seq →
  1 ≤ k → k + 1 < n < 2 ^ 32 → is_chunk id seq n (k + 1) value →
  on_snapshot_order_book st ch value (collected id n k orders s sh) =
  collected id n (k + 1) (orders ++ chunk_orders s value) s sh.
Proof.
  intros Hd Hr Hseq Hk Hn (<- & Hs & Hc & Hno).
  rewrite (on_snapshot_order_book_get _ _ _ _ (set_mbo_orders orders (set_chunks n k s)));
    [|by apply get_security_place|done|by rewrite Hs].
  rewrite Hc, Hno. unfold update_mbo_snapshot. cbn [mbo_no_chunks mbo_last_chunk set_mbo_orders set_chunks].
  rewrite (proj2 (Z.eqb_neq n 0)), (proj2 (Z.eqb_neq (k + 1) k)) by lia. cbn [negb].
  rewrite u32_succ_eqb, Z.eqb_refl, (proj2 (Z.eqb_neq (k + 1) n)) by lia.
  apply (place_place (so_securityID value) (set_mbo_orders orders (set_chunks n k s)) _ sh).
Qed.

Lemma last_chunk st ch id seq n k orders s sh value :
  discard s = false → mbo_resubscribe s ≠ 0 → mbo_resubscribe s ≤ seq →
  1 ≤ k → k + 1 = n → n < 2 ^ 32 → is_chunk id seq n (k + 1) value →
  on_snapshot_order_book st ch value (collected id n k orders s sh) =
  snapshot_complete st ch id seq (orders ++ chunk_orders s value) s sh.
Proof.
  intros Hd Hr Hseq Hk Hn Hb (<- & Hs & Hc & Hno).
  rewrite (on_snapshot_order_book_get _ _ _ _ (set_mbo_orders orders (set_chunks n k s)));
    [|by apply get_security_place|done|by rewrite Hs].
  rewrite Hc, Hno. unfold update_mbo_snapshot. cbn [mbo_no_chunks mbo_last_chunk set_mbo_orders set_chunks].
  rewrite (proj2 (Z.eqb_neq n 0)), (proj2 (Z.eqb_neq (k + 1) k)) by lia. cbn [negb].
  rewrite u32_succ_eqb, Z.eqb_refl, (proj2 (Z.eqb_eq (k + 1) n)) by lia.
  unfold on_chunk, collected, place, snapshot_complete. rewrite recover_set_definitions, Hs. simpl.
  pose proof (recover_recovered (mbofd_publish st s) ch seq (orders ++ chunk_orders s value)
    (mbo_sequencer s) (mbo_resubscribe s) sh) as Hrec.
  change (mbofd_publish st _) with (mbofd_publish st s). change (orders ++ map _ _) with (orders ++ chunk_orders s value).
  destruct (recover _ _ _ _ _ _ sh) as [[q r] sh']. apply recovered_keeps in Hrec as [Hdef _].
  rewrite <- Hdef. apply (place_place (so_securityID value) (set_mbo_orders orders (set_chunks n k s)) _ sh').
Qed.

Lemma later_chunks st ch id seq n k orders s sh values :
  discard s = false → mbo_resubscribe s ≠ 0 → mbo_resubscribe s ≤ seq →
  1 ≤ k → n < 2 ^ 32 → n = k + Z.of_nat (length values) → values ≠ [] →
  are_chunks id seq n k values →
  foldl (λ sh value, on_snapshot_order_book st ch value sh) (collected id n k orders s sh) values =
  snapshot_complete st ch id seq (orders ++ concat (map (chunk_orders s) values)) s sh.
Proof.
  intros Hd Hr Hseq Hk Hn. revert k orders Hk.
  induction values as [|value values IH]; intros k orders Hk Hlen Hne Hall; [done|].
  apply are_chunks_cons in Hall as [Hchunk Hall]. cbn [foldl map concat]. simpl length in Hlen.
  destruct values as [|value' values].
  - rewrite (last_chunk _ _ _ seq) by (done || simpl in *; lia). by rewrite app_nil_r.
  - rewrite (next_chunk _ _ _ seq) by (done || simpl in *; lia). rewrite app_assoc.
    apply IH; (done || simpl in *; lia).
Qed.

(** The first chunk. *)
Lemma first_chunk st ch id seq n s sh value :
  get_security id (definitions sh) = Some s → mbo_no_chunks s = 0 → mbo_orders s = [] →
  mbo_resubscribe s ≠ 0 → mbo_resubscribe s ≤ seq → 2 ≤ n → is_chunk id seq n 1 value →
  on_snapshot_order_book st ch value sh = collected id n 1 (chunk_orders s value) s sh.
Proof.
  intros Hget Hnc Ho Hr Hseq Hn (<- & Hs & Hc & Hno).
  rewrite (on_snapshot_order_book_get _ _ _ _ s) by (by rewrite ?Hs).
  rewrite Hc, Hno. unfold update_mbo_snapshot. rewrite Hnc, !Z.eqb_refl. cbn [negb].
  rewrite (proj2 (Z.eqb_neq _ n)) by lia. unfold on_chunk. simpl. by rewrite Ho.
Qed.

(** C21: a snapshot of two chunks or more that arrives in order has the effect
    of one snapshot with the orders of all the chunks: the sequencer is called
    once, with all of them, whatever it then does, and the collection is empty
    again. *)
Theorem chunked_snapshot st ch id seq n s sh values :
  get_security id (definitions sh) = Some s →
  mbo_no_chunks s = 0 → mbo_orders s = [] →
  mbo_resubscribe s ≠ 0 → mbo_resubscribe s ≤ seq →
  2 ≤ n < 2 ^ 32 → n = Z.of_nat (length values) → are_chunks id seq n 0 values →
  foldl (λ sh value, on_snapshot_order_book st ch value sh) sh values =
  snapshot_complete st ch id seq (concat (map (chunk_orders s) values)) s sh.
Proof.
  intros Hget Hnc Ho Hr Hseq Hn Hlen Hall.
  destruct values as [|value values]; [simpl in *; lia|].
  apply are_chunks_cons in Hall as [Hfirst Hall]. cbn [foldl map concat]. simpl length in Hlen.
  assert (discard s = false) as Hd by by apply get_security_Some in Hget as [_ ?].
  rewrite (first_chunk _ _ id seq n s) by (done || lia).
  apply (later_chunks st ch id seq n 1 (chunk_orders s value)); try (done || lia).
  destruct values; [simpl in *; lia|done].
Qed.

(** The first chunk again, of whatever snapshot. *)
Lemma first_chunk_again st ch id seq n n' orders s sh value :
  discard s = false → mbo_resubscribe s ≠ 0 → mbo_resubscribe s ≤ seq → n ≠ 0 → is_chunk id seq n' 1 value →
  on_snapshot_order_book st ch value (collected id n 1 orders s sh) = collected id n 1 orders s sh.
Proof.
  intros Hd Hr Hseq Hn (<- & Hs & Hc & Hno).
  rewrite (on_snapshot_order_book_get _ _ _ _ (set_mbo_orders orders (set_chunks n 1 s)));
    [|by apply get_security_place|done|by rewrite Hs].
  rewrite Hc. unfold update_mbo_snapshot. cbn [mbo_no_chunks mbo_last_chunk set_mbo_orders set_chunks].
  rewrite (proj2 (Z.eqb_neq n 0)), Z.eqb_refl by done. apply place_place.
Qed.

(** C22: Two snapshots.  The collection does not know which snapshot its chunks are of:
    when only the first chunk of one arrives, and then all chunks of the next, the
    first chunk of the next is taken for a repetition, and the sequencer gets, at
    the sequence of the next, the old first chunk with the rest of the new. *)
Theorem chunks_mixed st ch id seq seq' n s sh old first rest :
  get_security id (definitions sh) = Some s →
  mbo_no_chunks s = 0 → mbo_orders s = [] →
  mbo_resubscribe s ≠ 0 → mbo_resubscribe s ≤ seq → mbo_resubscribe s ≤ seq' →
  2 ≤ n < 2 ^ 32 → n = Z.of_nat (length (first :: rest)) →
  is_chunk id seq n 1 old → are_chunks id seq' n 0 (first :: rest) →
  foldl (λ sh value, on_snapshot_order_book st ch value sh) sh (old :: first :: rest) =
  snapshot_complete st ch id seq' (chunk_orders s old ++ concat (map (chunk_orders s) rest)) s sh.
Proof.
  intros Hget Hnc Ho Hr Hseq Hseq' Hn Hlen Hold [Hfirst Hrest]%are_chunks_cons.
  assert (discard s = false) as Hd by by apply get_security_Some in Hget as [_ ?].
  cbn [foldl]. simpl length in Hlen.
  rewrite (first_chunk _ _ id seq n s sh old) by (done || lia).
  change (0 + 1) with 1 in Hfirst. rewrite (first_chunk_again _ _ id seq' n n) by (done || lia).
  apply (later_chunks st ch id seq' n 1 (chunk_orders s old)); try (done || lia).
  destruct rest; [simpl in *; lia|done].
Qed.

(** a chunk of a security that does not wait for a snapshot, or that is
    older than what the security lost, has no effect at all. *)
Theorem on_snapshot_order_book_ignored st ch value sh :
  (∀ s, get_security (so_securityID value) (definitions sh) = Some s →
     mbo_resubscribe s = 0 ∨ so_lastMsgSeqNumProcessed value < mbo_resubscribe s) →
  on_snapshot_order_book st ch value sh = sh.
Proof.
  intros Hs. unfold on_snapshot_order_book, with_security.
  destruct (get_security (so_securityID value) (definitions sh)) as [s|] eqn:Hget; [|done].
  assert (place (so_securityID value) s sh = sh) as Hsame.
  { apply get_security_Some in Hget as [Hget _]. destruct sh as [sd]. simpl in *.
    unfold place, set_definitions, put_security. simpl. f_equal. destruct sd. simpl in *. f_equal.
    by apply insert_id. }
  destruct (mbo_resubscribe s =? 0) eqn:E0; [done|]. destruct (_ <? _) eqn:E1; [done|].
  bool_to_prop. destruct (Hs s eq_refl); [done|lia].
Qed.

(** what a chunk can do, whatever the sequencer does: it changes only the
    collection, the order sequencer and the pending request of its own
    security, and publishes nothing but order snapshots of it. *)
Theorem on_snapshot_order_book_effect st ch value sh s :
  get_security (so_securityID value) (definitions sh) = Some s →
  let sh' := on_snapshot_order_book st ch value sh in
  ∃ s' es,
    definitions sh' = put_security (so_securityID value) s' (definitions sh)
    ∧ mbo_changed s s' ∧ log sh' = log sh ++ es ∧ Forall (mbofd_event st s) es.
Proof.
  intros Hget sh'. unfold sh', on_snapshot_order_book, with_security. rewrite Hget. clear sh'.
  assert (∃ s' es, definitions (set_definitions (put_security (so_securityID value) s (definitions sh)) sh)
      = put_security (so_securityID value) s' (definitions sh)
    ∧ mbo_changed s s' ∧ log (set_definitions (put_security (so_securityID value) s (definitions sh)) sh)
      = log sh ++ es ∧ Forall (mbofd_event st s) es) as Hnone.
  { exists s, []. split_and!; [done|apply mbo_changed_refl|by rewrite app_nil_r|done]. }
  destruct (mbo_resubscribe s =? 0); [done|]. destruct (_ <? _); [done|].
  pose proof (update_mbo_snapshot_effect st ch value (so_currentChunk value) (so_noChunks value) s sh) as He.
  destruct (update_mbo_snapshot _ _ _ s sh) as [[b s'] sh']. destruct He as [Hc (es & -> & Hes)].
  exists s', es. simpl. by rewrite emit_all_definitions, emit_all_log.
Qed.
End mbofd_recovery_facts.

(** ** Witnesses *)

Section mbofd_recovery_witnesses.
#[local] Existing Instance the_env.

Definition example_book_entry (id px : Z) : order_book_entry := {|
  ob_mDEntryPx := example_decimal px; ob_mDDisplayQty := 3; ob_mDOrderPriority := example_null id;
  ob_orderID := example_null id; ob_mDEntryType := MDEntryTypeBook.Bid |}.

Definition example_book_chunk (seq k n : Z) : snapshot_order_book := {|
  so_securityID := 8; so_lastMsgSeqNumProcessed := seq; so_currentChunk := k; so_noChunks := n;
  so_noMDEntries := [example_book_entry (10 * k) 100; example_book_entry (10 * k + 1) 101] |}.

Lemma waiting_security_found : get_security 8 (definitions example_waiting) = Some waiting_security.
Proof. vm_compute. reflexivity. Qed.

Lemma chunked_snapshot_witness :
  foldl (λ sh value, on_snapshot_order_book example_stream the_channel value sh) example_waiting
    [example_book_chunk 6 1 2; example_book_chunk 6 2 2]
  = snapshot_complete example_stream the_channel 8 6
      (concat (map (chunk_orders waiting_security) [example_book_chunk 6 1 2; example_book_chunk 6 2 2]))
      waiting_security example_waiting.
Proof.
  apply (chunked_snapshot example_stream the_channel 8 6 2 waiting_security example_waiting);
    [exact waiting_security_found|reflexivity|reflexivity|discriminate|vm_compute; discriminate
    |split; [lia|vm_compute; reflexivity]|reflexivity|].
  intros [|[|i]] value Hv; [injection Hv as <-; repeat split..|discriminate Hv].
Defined.

(** The second chunk of the snapshot 6 is lost: the book is published as of 9. *)
Lemma chunks_mixed_witness :
  foldl (λ sh value, on_snapshot_order_book example_stream the_channel value sh) example_waiting
    [example_book_chunk 6 1 2; example_book_chunk 9 1 2; example_book_chunk 9 2 2]
  = snapshot_complete example_stream the_channel 8 9
      (chunk_orders waiting_security (example_book_chunk 6 1 2)
       ++ concat (map (chunk_orders waiting_security) [example_book_chunk 9 2 2]))
      waiting_security example_waiting.
Proof.
  apply (chunks_mixed example_stream the_channel 8 6 9 2 waiting_security example_waiting);
    [exact waiting_security_found|reflexivity|reflexivity|discriminate|vm_compute; discriminate
    |vm_compute; discriminate|split; [lia|vm_compute; reflexivity]|reflexivity|repeat split|].
  intros [|[|i]] value Hv; [injection Hv as <-; repeat split..|discriminate Hv].
Defined.

Lemma on_snapshot_order_book_ignored_witness :
  on_snapshot_order_book example_stream the_channel (example_book_chunk 4 1 2) example_waiting = example_waiting.
Proof.
  apply on_snapshot_order_book_ignored. intros s Hs. right.
  change (so_securityID (example_book_chunk 4 1 2)) with 8 in Hs.
  rewrite waiting_security_found in Hs. injection Hs as <-. vm_compute. reflexivity.
Defined.

Lemma on_snapshot_order_book_effect_witness :
  ∃ s' es,
    definitions (on_snapshot_order_book example_stream the_channel (example_book_chunk 6 1 2) example_waiting)
      = put_security 8 s' (definitions example_waiting)
    ∧ mbo_changed waiting_security s'
    ∧ log (on_snapshot_order_book example_stream the_channel (example_book_chunk 6 1 2) example_waiting)
      = log example_waiting ++ es ∧ Forall (mbofd_event example_stream waiting_security) es.
Proof.
  apply (on_snapshot_order_book_effect example_stream the_channel (example_book_chunk 6 1 2)
    example_waiting waiting_security). exact waiting_security_found.
Defined.
End mbofd_recovery_witnesses.
