(* ===== verification/IncrementalBase.v ===== *)
(** The incremental feed: what its handlers share
    (src/roq/cme/market_data/incremental.cpp: the calls of the sequencers, the
    check of report sequences, the iteration over securities, the statistics). *)

From S2P Require Import Prelude Double Api MdpMap Messages MdpParser Security SecdefReader SecurityDefinitions Channel MarketData InstrumentDefinition Recovery.

(** ** Books *)

Section sequence.
Context `{Env} {U : Type} `{!Sequencer U}.
(** [create_update u update_type], dispatched. *)
Context (event : U → UpdateType.t → md_event).

(** [publish_snapshot] and [request_snapshot], over [resubscribe] and the
    shared state. *)
Definition incremental_snapshot_call (exchange_sequence : Z) (c : snapshot_call U) (q : sequencer U)
    (w : Z * Shared) : bool * sequencer U * (Z * Shared) :=
  match c with
  | PublishSnapshot u _ _ _ => (true, q, (0, emit (event u UpdateType.SNAPSHOT) w.2))
  | RequestSnapshot _ => (true, q, (exchange_sequence, w.2))
  end.

(** ... and [publish_update]. *)
Definition incremental_update_call (exchange_sequence : Z) (c : update_call U) (q : sequencer U)
    (w : Z * Shared) : bool * sequencer U * (Z * Shared) :=
  match c with
  | PublishUpdate u => (true, q, (w.1, emit (event u UpdateType.INCREMENTAL) w.2))
  | Snapshot c => incremental_snapshot_call exchange_sequence c q w
  end.

(** The [try] and [catch] blocks of [dispatch_market_by_price] and
    [dispatch_market_by_order]. *)
Definition sequence_update (exchange_sequence : Z) (u : U) (is_snapshot : bool) (q : sequencer U)
    (resubscribe : Z) (sh : Shared) : sequencer U * Z * Shared :=
  let last_exchange_sequence := last_sequence q in
  let '(ok, q, (resubscribe, sh)) :=
    if is_snapshot then
      run (incremental_snapshot_call exchange_sequence)
        (on_snapshot u exchange_sequence true q) (resubscribe, sh)
    else
      run (incremental_update_call exchange_sequence)
        (on_update u exchange_sequence exchange_sequence last_exchange_sequence q) (resubscribe, sh) in
  if ok then (q, resubscribe, sh) else (sequencer_clear q, exchange_sequence, sh).
End sequence.

Section incremental_base.
Context `{Env}.
Implicit Types (sh : Shared) (security : Security).

Definition dispatch_market_by_price (sid exchange_sequence exchange_time_utc sending_time_utc : Z)
    (mbp : mbp_update) (is_snapshot : bool) security sh : Security * Shared :=
  let event (mbp : mbp_update) update_type :=
    EvMarketByPriceUpdate (header sid exchange_time_utc exchange_sequence sending_time_utc security)
      mbp.1 mbp.2 update_type in
  let '(q, resubscribe, sh) :=
    sequence_update event exchange_sequence mbp is_snapshot
      (mbp_sequencer security) (mbp_resubscribe security) sh in
  (set_mbp q resubscribe security, sh).

Definition dispatch_market_by_order (sid exchange_sequence exchange_time_utc sending_time_utc : Z)
    (orders : mbo_update) (is_snapshot : bool) security sh : Security * Shared :=
  let event orders update_type :=
    EvMarketByOrderUpdate (header sid exchange_time_utc exchange_sequence sending_time_utc security)
      orders update_type in
  let '(q, resubscribe, sh) :=
    sequence_update event exchange_sequence orders is_snapshot
      (mbo_sequencer security) (mbo_resubscribe security) sh in
  (set_mbo q resubscribe security, sh).

Definition dispatch_market_by_price_stale (sid exchange_sequence exchange_time_utc sending_time_utc : Z)
    security sh : Shared :=
  emit (EvMarketByPriceUpdate (header sid exchange_time_utc exchange_sequence sending_time_utc security)
          [] [] UpdateType.STALE) sh.

Definition dispatch_market_by_order_stale (sid exchange_sequence exchange_time_utc sending_time_utc : Z)
    security sh : Shared :=
  emit (EvMarketByOrderUpdate (header sid exchange_time_utc exchange_sequence sending_time_utc security)
          [] UpdateType.STALE) sh.

(** A gap in the report sequence of a security makes both books stale and asks
    for both snapshots. *)
Definition check_report_sequence (sid : Z) (frame : Frame) (rpt_seq : Z) security sh : Security * Shared :=
  let '(gap, security) := update_rpt_seq rpt_seq security in
  if negb gap then (security, sh)
  else
    let security :=
      set_mbp (sequencer_clear (mbp_sequencer security)) (sequence_number frame) security in
    let sh := dispatch_market_by_price_stale sid (sequence_number frame) 0 (sending_time frame) security sh in
    let security :=
      set_mbo (sequencer_clear (mbo_sequencer security)) (sequence_number frame) security in
    let sh := dispatch_market_by_order_stale sid (sequence_number frame) 0 (sending_time frame) security sh in
    (security, sh).

(** ** Iteration over securities *)

(** A security pointer that is held across items is the id it points to; what
    is written through it goes to the table. *)
Definition via {A} (security_id : Z) (f : Security → A * Shared → Security * (A * Shared))
    (w : A * Shared) : A * Shared :=
  match get_security security_id (definitions w.2) with
  | Some security =>
    let '(security, (a, sh)) := f security w in
    (a, set_definitions (put_security security_id security (definitions sh)) sh)
  | None => w
  end.

(** [security_ = get_security(...) ? &security : nullptr]. *)
Definition point_to (security_id : Z) sh : option Z :=
  match get_security security_id (definitions sh) with Some _ => Some security_id | None => None end.

(** [SecurityIterator]: [dispatch] gets the id of the item that ends the run
    of a security, and the security of the run. *)
Definition security_iterator_step {T A} (securityID : T → Z)
    (dispatch : Z → Z → A * Shared → A * Shared) (callback : Z → T → A * Shared → A * Shared)
    (it : Z * option Z * (A * Shared)) (item : T) : Z * option Z * (A * Shared) :=
  let '(security_id_, security_, w) := it in
  let security_id := securityID item in
  let '(security_id_, security_, w) :=
    if security_id =? security_id_ then (security_id_, security_, w)
    else
      let w := match security_ with Some security => dispatch security_id security w | None => w end in
      (security_id, point_to security_id w.2, w) in
  (security_id_, security_,
   match security_ with Some _ => callback security_id_ item w | None => w end).

Definition security_iterator {T A} (securityID : T → Z)
    (dispatch : Z → Z → A * Shared → A * Shared) (callback : Z → T → A * Shared → A * Shared)
    (items : list T) (w : A * Shared) : A * Shared :=
  let '(security_id_, security_, w) :=
    foldl (security_iterator_step securityID dispatch callback) (0, None, w) items in
  match security_ with Some security => dispatch security_id_ security w | None => w end.

(** The handlers of BookLongQty64, VolumeLongQty66 and LimitsBanding50. *)
Definition on_report_sequence (sid : Z) (frame : Frame) (entries : list sequence_entry) sh : Shared :=
  (security_iterator sq_securityID (λ _ _ w, w)
     (λ security_id item, via security_id (λ security w,
        let '(security, sh) := check_report_sequence sid frame (sq_rptSeq item) security w.2 in
        (security, (w.1, sh))))
     entries (tt, sh)).2.

(** ** Statistics *)

Definition statistics_price (type : StatisticsType.t) (item : statistics_entry) (factor : double) : Statistics :=
  {| stat_type := type; stat_value := dmul (get_double_any (se_mDEntryPx item)) factor |}.

Definition statistics_size (type : StatisticsType.t) (item : statistics_entry) : Statistics :=
  {| stat_type := type; stat_value := safe_cast_to_double (get_int (se_mDEntrySize item)) |}.

(** [map(item.mDEntryType())], which is overloaded on the message. *)
Definition statistics_type (t : statistics_entry_type) : StatisticsType.t :=
  match t with
  | DailyStatistics v => get_or StatisticsType.UNDEFINED (map_MDEntryTypeDailyStatistics v)
  | SessionStatistics v => get_or StatisticsType.UNDEFINED (map_MDEntryTypeStatistics v)
  | NoStatisticsType => StatisticsType.UNDEFINED
  end.

(** [statistics_emplace_back] and the callback of Volume37. *)
Definition statistics_of (item : statistics_entry) security : Statistics :=
  let type := statistics_type (se_mDEntryType item) in
  if decide (type = StatisticsType.OPEN_INTEREST) then statistics_size type item
  else statistics_price type item (display_factor security).

Definition volume_of (item : statistics_entry) security : Statistics :=
  statistics_size StatisticsType.TRADE_VOLUME item.

(** [dispatch] of [dispatch_statistics]. *)
Definition dispatch_statistics_update (sid : Z) (frame : Frame) (exchange_time_utc security_id : Z)
    (w : list Statistics * Shared) : list Statistics * Shared :=
  via security_id (λ security w,
    match w.1 with
    | [] => (security, w)
    | statistics =>
      (security,
       ([], emit (EvStatisticsUpdate
              (header sid exchange_time_utc (sequence_number frame) (sending_time frame) security)
              statistics UpdateType.INCREMENTAL) w.2))
    end) w.

(** [update] of [dispatch_statistics]: the first report of a security also
    initialises its books. *)
Definition update_statistics (callback : statistics_entry → Security → Statistics) (sid : Z)
    (frame : Frame) (exchange_time_utc security_id : Z) (item : statistics_entry)
    (w : list Statistics * Shared) : list Statistics * Shared :=
  via security_id (λ security w,
    let '(statistics, sh) := w in
    let '(security, sh) := check_report_sequence sid frame (se_rptSeq item) security sh in
    let statistics := statistics ++ [callback item security] in
    if negb (se_rptSeq item =? 1) then (security, (statistics, sh))
    else
      let exchange_sequence := sequence_number frame in
      let '(security, sh) :=
        dispatch_market_by_price sid exchange_sequence exchange_time_utc (sending_time frame)
          ([], []) true security sh in
      let '(security, sh) :=
        dispatch_market_by_order sid exchange_sequence exchange_time_utc (sending_time frame)
          [] true security sh in
      (security, (statistics, sh))) w.

Definition dispatch_statistics (callback : statistics_entry → Security → Statistics) (sid : Z)
    (frame : Frame) (value : incremental_refresh_statistics) sh : Shared :=
  (security_iterator se_securityID
     (λ _ security_id, dispatch_statistics_update sid frame (rs_transactTime value) security_id)
     (update_statistics callback sid frame (rs_transactTime value))
     (rs_noMDEntries value) ([], sh)).2.
End incremental_base.

(** ** Facts: books *)

Section sequence_facts.
Context `{Env} {U : Type} `{!Sequencer U}.
Context (event : U → UpdateType.t → md_event).

(** What an update may do: the log grows by updates and snapshots, and
    [resubscribe] is cleared only by a snapshot. *)
Record sequenced (exchange_sequence resubscribe : Z) (sh : Shared) (resubscribe' : Z) (sh' : Shared) : Prop := {
  seq_shared : ∃ es, sh' = foldl (λ sh e, emit e sh) sh es
    ∧ Forall (λ e, ∃ u t, e = event u t ∧ (t = UpdateType.SNAPSHOT ∨ t = UpdateType.INCREMENTAL)) es
    ∧ (resubscribe' = 0 → resubscribe ≠ 0 → exchange_sequence ≠ 0 → ∃ u, event u UpdateType.SNAPSHOT ∈ es);
  seq_resubscribe : resubscribe' = resubscribe ∨ resubscribe' = 0 ∨ resubscribe' = exchange_sequence;
}.

Lemma sequenced_emit seq r sh r1 sh1 u t r' :
  sequenced seq r sh r1 sh1 → (t = UpdateType.SNAPSHOT ∨ t = UpdateType.INCREMENTAL) →
  (r' = r1 ∨ r' = 0 ∧ t = UpdateType.SNAPSHOT) →
  sequenced seq r sh r' (emit (event u t) sh1).
Proof.
  intros [(es & -> & Hes & Hpub) Hr] Ht Hr'. split; [|destruct Hr' as [->|[-> _]]; auto].
  exists (es ++ [event u t]). split_and!.
  - by rewrite foldl_app.
  - apply Forall_app. split; [done|]. repeat constructor. by exists u, t.
  - intros Hz Hne Hseq. destruct Hr' as [->|[-> ->]].
    + destruct (Hpub Hz Hne Hseq) as [u' Hu']. exists u'. set_solver.
    + exists u. set_solver.
Qed.

Lemma sequenced_request seq r sh r1 sh1 : sequenced seq r sh r1 sh1 → sequenced seq r sh seq sh1.
Proof.
  intros [(es & -> & Hes & Hpub) Hr]. split; [|auto]. exists es. by split_and!.
Qed.

Lemma sequence_update_sequenced seq u is_snapshot q r sh :
  let '(_, r', sh') := sequence_update event seq u is_snapshot q r sh in sequenced seq r sh r' sh'.
Proof.
  assert (sequenced seq r sh r sh) as H0.
  { split; [|by left]. exists []. by split_and!. }
  assert (∀ c q w, sequenced seq r sh w.1 w.2 →
    sequenced seq r sh (incremental_snapshot_call event seq c q w).2.1
                       (incremental_snapshot_call event seq c q w).2.2) as Hsnap.
  { intros [u' n rt d|rt] q' [r1 sh1] Hw; simpl in *; [|by eapply sequenced_request].
    eapply sequenced_emit; eauto. }
  set (P := λ w : Z * Shared, sequenced seq r sh w.1 w.2).
  unfold sequence_update.
  assert (P ((if is_snapshot then run (incremental_snapshot_call event seq) (on_snapshot u seq true q) (r, sh)
    else run (incremental_update_call event seq) (on_update u seq seq (last_sequence q) q) (r, sh)).2)) as Hrun.
  { destruct is_snapshot; apply (run_inv P); try done.
    intros [u'|c] q' [r1 sh1] Hw; [|by apply Hsnap]. eapply sequenced_emit; eauto. }
  destruct (if is_snapshot then _ else _) as [[[] q'] [r' sh']]; [done|].
  by eapply sequenced_request.
Qed.
End sequence_facts.

Section incremental_base_facts.
Context `{Env}.
Implicit Types (sh : Shared) (s : Security).

(** One step of the feeds: no security is added or removed, none changes its
    identity, and the log only grows. *)
Record feed_step sh sh' : Prop := {
  feed_same : same_securities (definitions sh) (definitions sh');
  feed_log : log sh `prefix_of` log sh';
}.

#[global] Instance feed_step_preorder : PreOrder feed_step.
Proof.
  split; [by intros sh|]. intros sh1 sh2 sh3 [H1 L1] [H2 L2]. split; by etrans.
Qed.

(** The scratch of the book and trade handlers, that all others leave alone. *)
Definition scratch sh :=
  (md_entries_ sh, trade_summary_ sh, security_ids_ sh, orders_ sh, transact_time_ sh,
   total_number_of_orders_ sh).

Record books_step sh sh' : Prop := {
  books_same : same_securities (definitions sh) (definitions sh');
  books_log : log sh `prefix_of` log sh';
  books_scratch : scratch sh' = scratch sh;
}.

#[global] Instance books_step_preorder : PreOrder books_step.
Proof.
  split; [by intros sh|]. intros sh1 sh2 sh3 [H1 L1 S1] [H2 L2 S2].
  split; [by etrans|by etrans|congruence].
Qed.

Lemma books_step_feed sh sh' : books_step sh sh' → feed_step sh sh'.
Proof. by intros []. Qed.

Lemma feed_step_shared sh sh' : feed_step sh sh' → shared_step sh sh'.
Proof.
  intros [Hsame Hlog]. split; [by apply sd_wf_same| |done].
  intros id s Hs. unfold get_security_incl_discard in *.
  pose proof (same_entries _ _ Hsame id) as Hrel. rewrite Hs in Hrel.
  inversion Hrel as [? s' Hid|]; subst. by exists s'.
Qed.

Lemma emit_all_scratch es sh : scratch (foldl (λ sh e, emit e sh) sh es) = scratch sh.
Proof. revert sh. induction es as [|e es IH]; intros sh; simpl; [done|]. by rewrite IH. Qed.

(** A security is written back, after events. *)
Lemma put_step id s s' es sh :
  get_security id (definitions sh) = Some s → same_identity s s' →
  let sh' := foldl (λ sh e, emit e sh) sh es in
  books_step sh (set_definitions (put_security id s' (definitions sh')) sh').
Proof.
  intros Hs Hid sh'. unfold sh'. split; simpl.
  - rewrite emit_all_definitions. by eapply put_security_same.
  - rewrite emit_all_log. by apply prefix_app_r.
  - apply emit_all_scratch.
Qed.

(** What a handler does with one security: it keeps its identity, emits
    events, and leaves the tables to its caller. *)
Definition security_step (s : Security) sh (s' : Security) sh' (E : md_event → Prop) : Prop :=
  same_identity s s' ∧ ∃ es, sh' = foldl (λ sh e, emit e sh) sh es ∧ Forall E es.

Lemma security_step_refl s sh E : security_step s sh s sh E.
Proof. split; [done|]. by exists []. Qed.

Lemma security_step_trans s1 sh1 s2 sh2 s3 sh3 E :
  security_step s1 sh1 s2 sh2 E → security_step s2 sh2 s3 sh3 E → security_step s1 sh1 s3 sh3 E.
Proof.
  intros [Hs1 (es1 & -> & He1)] [Hs2 (es2 & -> & He2)]. split; [by etrans|].
  exists (es1 ++ es2). rewrite foldl_app. split; [done|by apply Forall_app].
Qed.

(** The events of books. *)
Definition is_book (e : md_event) : Prop :=
  match e with EvMarketByPriceUpdate _ _ _ _ | EvMarketByOrderUpdate _ _ _ => True | _ => False end.

Lemma dispatch_market_by_price_step sid seq time sending mbp snap s sh :
  let '(s', sh') := dispatch_market_by_price sid seq time sending mbp snap s sh in
  security_step s sh s' sh' is_book.
Proof.
  unfold dispatch_market_by_price. set (event := λ (mbp : mbp_update) t, EvMarketByPriceUpdate _ mbp.1 mbp.2 t).
  pose proof (sequence_update_sequenced event seq mbp snap (mbp_sequencer s) (mbp_resubscribe s) sh) as Hs.
  destruct (sequence_update _ _ _ _ _ _ sh) as [[q r] sh']. destruct Hs as [(es & -> & Hes & _) _].
  split; [done|]. exists es. split; [done|]. eapply Forall_impl; [exact Hes|].
  by intros e (u & t & -> & _).
Qed.

Lemma dispatch_market_by_order_step sid seq time sending orders snap s sh :
  let '(s', sh') := dispatch_market_by_order sid seq time sending orders snap s sh in
  security_step s sh s' sh' is_book.
Proof.
  unfold dispatch_market_by_order. set (event := λ orders t, EvMarketByOrderUpdate _ orders t).
  pose proof (sequence_update_sequenced event seq orders snap (mbo_sequencer s) (mbo_resubscribe s) sh) as Hs.
  destruct (sequence_update _ _ _ _ _ _ sh) as [[q r] sh']. destruct Hs as [(es & -> & Hes & _) _].
  split; [done|]. exists es. split; [done|]. eapply Forall_impl; [exact Hes|].
  by intros e (u & t & -> & _).
Qed.

Lemma check_report_sequence_step sid frame v s sh :
  let '(s', sh') := check_report_sequence sid frame v s sh in security_step s sh s' sh' is_book.
Proof.
  unfold check_report_sequence, update_rpt_seq. destruct (v =? 0); [apply security_step_refl|].
  destruct (negb (v =? _)); simpl; [|split; [done|by exists []]].
  split; [done|]. eexists [_; _]. split; [reflexivity|]. by repeat constructor.
Qed.

Lemma via_step {A} id f (w : A * Shared) :
  (∀ s w, let '(s', w') := f s w in ∃ E, security_step s w.2 s' w'.2 E) →
  books_step w.2 (via id f w).2.
Proof.
  intros Hf. unfold via. destruct (get_security id (definitions w.2)) as [s|] eqn:Hs; [|done].
  specialize (Hf s w). destruct (f s w) as [s' [a sh']].
  destruct Hf as [E [Hid (es & Hsh & _)]]. simpl in Hsh. subst sh'.
  by eapply put_step.
Qed.

Lemma put_security_id id s sd : get_security id sd = Some s → put_security id s sd = sd.
Proof.
  intros [Hs _]%get_security_Some. unfold put_security. rewrite insert_id by done. by destruct sd.
Qed.

Lemma write_back_id id s sh :
  get_security id (definitions sh) = Some s → set_definitions (put_security id s (definitions sh)) sh = sh.
Proof. intros Hs. rewrite put_security_id by done. by destruct sh. Qed.

Lemma point_to_same id sh sh' : feed_step sh sh' → point_to id sh' = point_to id sh.
Proof. intros [Hsame _]. unfold point_to. by destruct (get_security_same id _ _ Hsame). Qed.

Lemma point_to_self id p sh : point_to id sh = Some p → p = id.
Proof. unfold point_to. destruct (get_security _ _); congruence. Qed.

(** ** Facts: the iterator *)

(** The runs of items of one security. *)
Fixpoint runs {T} (securityID : T → Z) (items : list T) : list (Z * list T) :=
  match items with
  | [] => []
  | x :: items =>
    match runs securityID items with
    | (id, xs) :: rs =>
      if id =? securityID x then (id, x :: xs) :: rs else (securityID x, [x]) :: (id, xs) :: rs
    | [] => [(securityID x, [x])]
    end
  end.

Section iterator.
Context {T A : Type} (securityID : T → Z).
Context (dispatch : Z → A * Shared → A * Shared) (callback : Z → T → A * Shared → A * Shared).
Hypothesis callback_step : ∀ id x w, books_step w.2 (callback id x w).2.

(** A run: the items of a known security, then its dispatch. *)
Definition on_item (id : Z) (w : A * Shared) (x : T) : A * Shared :=
  match point_to id w.2 with Some _ => callback id x w | None => w end.
Definition close_run (id : Z) (w : A * Shared) : A * Shared :=
  match point_to id w.2 with Some _ => dispatch id w | None => w end.
Definition on_run (w : A * Shared) (run : Z * list T) : A * Shared :=
  close_run run.1 (foldl (on_item run.1) w run.2).

Lemma on_item_step id w x : books_step w.2 (on_item id w x).2.
Proof. unfold on_item. by destruct (point_to id w.2). Qed.

Definition finish (it : Z * option Z * (A * Shared)) : A * Shared :=
  let '(id, security, w) := it in
  match security with Some p => dispatch p w | None => w end.

Lemma finish_close id w : finish (id, point_to id w.2, w) = close_run id w.
Proof.
  unfold finish, close_run. destruct (point_to id w.2) as [p|] eqn:E; [|done].
  by rewrite (point_to_self _ _ _ E).
Qed.

Lemma iterator_step id w x :
  security_iterator_step securityID (λ _ p, dispatch p) callback (id, point_to id w.2, w) x =
  let w1 := if securityID x =? id then w else close_run id w in
  let w2 := on_item (securityID x) w1 x in (securityID x, point_to (securityID x) w2.2, w2).
Proof.
  unfold security_iterator_step. cbv zeta.
  rewrite (point_to_same _ _ _ (books_step_feed _ _ (on_item_step (securityID x) _ x))).
  destruct (securityID x =? id) eqn:E; bool_to_prop; [by subst id|].
  rewrite <- (finish_close id). simpl. unfold on_item. by destruct (point_to id w.2).
Qed.

Lemma iterator_fold items id w :
  finish (foldl (security_iterator_step securityID (λ _ p, dispatch p) callback)
            (id, point_to id w.2, w) items) =
  match runs securityID items with
  | (id', xs) :: rs =>
    if id' =? id then foldl on_run (close_run id (foldl (on_item id) w xs)) rs
    else foldl on_run (close_run id w) ((id', xs) :: rs)
  | [] => close_run id w
  end.
Proof.
  revert id w. induction items as [|x items IH]; intros id w; [apply finish_close|].
  cbn [foldl]. rewrite iterator_step. cbv zeta. rewrite IH. cbn [runs].
  destruct (runs securityID items) as [|[id' xs] rs].
  - destruct (securityID x =? id) eqn:E; bool_to_prop; [by subst id|done].
  - destruct (id' =? securityID x) eqn:E'; bool_to_prop.
    + subst id'. destruct (securityID x =? id) eqn:E; bool_to_prop; [by subst id|done].
    + destruct (securityID x =? id) eqn:E; bool_to_prop; [by subst id|done].
Qed.

(** The iterator handles one run after the other.  (It starts with the id
    zero, which is the id of no security.) *)
Lemma security_iterator_runs items w :
  point_to 0 w.2 = None →
  security_iterator securityID (λ _ p, dispatch p) callback items w
  = foldl on_run w (runs securityID items).
Proof.
  intros H0. pose proof (iterator_fold items 0 w) as Hit. rewrite H0 in Hit.
  assert (∀ it, finish it = let '(id, security, w) := it in
    match security with Some p => dispatch p w | None => w end) as Hfin by done.
  unfold security_iterator. rewrite <- Hfin, Hit.
  assert (close_run 0 w = w) as Hclose by (unfold close_run; by rewrite H0).
  destruct (runs securityID items) as [|[id xs] rs]; [done|].
  destruct (id =? 0) eqn:E; [|by rewrite Hclose]. bool_to_prop. subst id. reflexivity.
Qed.
End iterator.
End incremental_base_facts.

Section iterator_books.
Context `{Env} {T A : Type} (securityID : T → Z).
Context (dispatch : Z → Z → A * Shared → A * Shared) (callback : Z → T → A * Shared → A * Shared).

(** A relation that the dispatch and the callback establish. *)
Lemma security_iterator_rel (R : relation Shared) `{!PreOrder R} items w :
  (∀ i p w, R w.2 (dispatch i p w).2) → (∀ i x w, R w.2 (callback i x w).2) →
  R w.2 (security_iterator securityID dispatch callback items w).2.
Proof.
  intros Hd Hc. unfold security_iterator.
  assert (R w.2 (foldl (security_iterator_step securityID dispatch callback) (0, None, w) items).2.2) as Hfold.
  { apply (foldl_inv (λ it : Z * option Z * (A * Shared), R w.2 it.2.2)); [done|].
    intros [[sid sec] w1] x Hw _. simpl in Hw. unfold security_iterator_step.
    destruct (securityID x =? sid).
    - destruct sec; [by etrans; [exact Hw|apply Hc]|done].
    - set (w2 := match sec with Some p => dispatch (securityID x) p w1 | None => w1 end).
      assert (R w.2 w2.2) as Hw2 by (destruct sec; [by etrans; [exact Hw|apply Hd]|done]).
      destruct (point_to _ w2.2); [by etrans; [exact Hw2|apply Hc]|done]. }
  destruct (foldl _ _ items) as [[sid sec] w1]. simpl in Hfold.
  destruct sec; [by etrans; [exact Hfold|apply Hd]|done].
Qed.
End iterator_books.

Section statistics_facts.
Context `{Env}.
Implicit Types (sh : Shared) (s : Security).

Definition is_statistics (e : md_event) : bool :=
  match e with EvStatisticsUpdate _ _ _ => true | _ => false end.

(** The statistics that were published. *)
Definition statistics_log sh : list md_event := filter is_statistics (log sh).

Lemma is_book_not_statistics es : Forall is_book es → filter is_statistics es = [].
Proof. induction 1 as [|e es He _ IH]; [done|]. by destruct e; rewrite ?filter_cons. Qed.

Lemma via_effect {A} id f (w : A * Shared) s :
  get_security id (definitions w.2) = Some s →
  via id f w = let '(s', w') := f s w in (w'.1, set_definitions (put_security id s' (definitions w'.2)) w'.2).
Proof. intros Hs. unfold via. rewrite Hs. by destruct (f s w) as [s' [a sh]]. Qed.

Lemma via_none {A} id f (w : A * Shared) : get_security id (definitions w.2) = None → via id f w = w.
Proof. intros Hs. unfold via. by rewrite Hs. Qed.

Lemma on_report_sequence_step sid frame entries sh : books_step sh (on_report_sequence sid frame entries sh).
Proof.
  apply (security_iterator_rel _ _ _ books_step _ (tt, sh)); [done|]. intros i x w. apply via_step.
  intros s w'. pose proof (check_report_sequence_step sid frame (sq_rptSeq x) s w'.2) as Hc.
  destruct (check_report_sequence _ _ _ s w'.2). by eexists.
Qed.

(** The body of [update], given its security. *)
Lemma update_statistics_effect cb sid frame time id x w s :
  get_security id (definitions w.2) = Some s →
  (∀ s', same_identity s s' → cb x s' = cb x s) →
  let w' := update_statistics cb sid frame time id x w in
  w'.1 = w.1 ++ [cb x s] ∧ books_step w.2 w'.2 ∧ statistics_log w'.2 = statistics_log w.2.
Proof.
  intros Hs Hcb. unfold update_statistics. rewrite (via_effect _ _ _ s) by done.
  destruct w as [st sh]. simpl in *.
  pose proof (check_report_sequence_step sid frame (se_rptSeq x) s sh) as H1.
  destruct (check_report_sequence _ _ _ s sh) as [s1 sh1].
  assert (∀ s2 sh2, security_step s sh s2 sh2 is_book →
    books_step sh (set_definitions (put_security id s2 (definitions sh2)) sh2)
    ∧ statistics_log (set_definitions (put_security id s2 (definitions sh2)) sh2) = statistics_log sh) as Hend.
  { intros s2 sh2 [Hid (es & -> & Hes)]. split; [by eapply put_step|].
    - unfold statistics_log. simpl. rewrite emit_all_log, filter_app, (is_book_not_statistics es) by done.
      by rewrite app_nil_r. }
  rewrite (Hcb s1) by by destruct H1. destruct (se_rptSeq x =? 1); cbn [negb]; [|by split; [|apply Hend]].
  pose proof (dispatch_market_by_price_step sid (sequence_number frame) time (sending_time frame) ([], []) true s1 sh1) as H2.
  destruct (dispatch_market_by_price _ _ _ _ _ _ s1 sh1) as [s2 sh2].
  pose proof (dispatch_market_by_order_step sid (sequence_number frame) time (sending_time frame) [] true s2 sh2) as H3.
  destruct (dispatch_market_by_order _ _ _ _ _ _ s2 sh2) as [s3 sh3].
  split; [done|]. apply Hend. eapply security_step_trans; [exact H1|]. by eapply security_step_trans.
Qed.

Lemma update_statistics_step cb sid frame time id x w :
  books_step w.2 (update_statistics cb sid frame time id x w).2.
Proof.
  unfold update_statistics. apply via_step. intros s [st sh].
  pose proof (check_report_sequence_step sid frame (se_rptSeq x) s sh) as H1.
  destruct (check_report_sequence _ _ _ s sh) as [s1 sh1].
  destruct (negb _); [by eexists|].
  pose proof (dispatch_market_by_price_step sid (sequence_number frame) time (sending_time frame) ([], []) true s1 sh1) as H2.
  destruct (dispatch_market_by_price _ _ _ _ _ _ s1 sh1) as [s2 sh2].
  pose proof (dispatch_market_by_order_step sid (sequence_number frame) time (sending_time frame) [] true s2 sh2) as H3.
  destruct (dispatch_market_by_order _ _ _ _ _ _ s2 sh2) as [s3 sh3].
  exists is_book. eapply security_step_trans; [exact H1|]. by eapply security_step_trans.
Qed.

Lemma dispatch_statistics_update_step sid frame time id w :
  books_step w.2 (dispatch_statistics_update sid frame time id w).2.
Proof.
  unfold dispatch_statistics_update. apply via_step. intros s [[|x st] sh]; simpl.
  - exists is_book. apply security_step_refl.
  - exists (λ _, True). split; [done|]. eexists [_]. split; [reflexivity|by repeat constructor].
Qed.

Lemma dispatch_statistics_step cb sid frame value sh :
  books_step sh (dispatch_statistics cb sid frame value sh).
Proof.
  apply (security_iterator_rel _ _ _ books_step _ ([], sh)); intros.
  - apply dispatch_statistics_update_step.
  - apply update_statistics_step.
Qed.

(** The update of a run. *)
Definition statistics_event (cb : statistics_entry → Security → Statistics) (sid : Z) (frame : Frame) (time : Z)
    (sd : SecurityDefinitions) (run : Z * list statistics_entry) : list md_event :=
  match get_security run.1 sd with
  | Some s => [EvStatisticsUpdate (header sid time (sequence_number frame) (sending_time frame) s)
                 (map (λ x, cb x s) run.2) UpdateType.INCREMENTAL]
  | None => []
  end.

Lemma statistics_items cb sid frame time id xs w s :
  (∀ x s s', same_identity s s' → cb x s' = cb x s) →
  get_security id (definitions w.2) = Some s →
  let w' := foldl (on_item (update_statistics cb sid frame time) id) w xs in
  w'.1 = w.1 ++ map (λ x, cb x s) xs ∧ books_step w.2 w'.2 ∧ statistics_log w'.2 = statistics_log w.2
  ∧ ∃ s', get_security id (definitions w'.2) = Some s' ∧ same_identity s s'.
Proof.
  intros Hcb. revert w s. induction xs as [|x xs IH]; intros w s Hs; simpl.
  { split_and!; [by rewrite app_nil_r|done|done|by exists s]. }
  unfold on_item at 2 4 6 8. unfold point_to. rewrite Hs.
  destruct (update_statistics_effect cb sid frame time id x w s Hs (Hcb x s)) as (H1 & H2 & H3).
  set (w1 := update_statistics _ _ _ _ _ _ w) in *.
  pose proof (get_security_same id _ _ (books_same _ _ H2)) as Hrel. rewrite Hs in Hrel.
  inversion Hrel as [s0 s1 Hid Hs0 Hs1|]; subst s0.
  destruct (IH w1 s1) as (G1 & G2 & G3 & s' & Hs' & Hid'); [done|].
  split_and!.
  - rewrite G1, H1, <- app_assoc. simpl. do 2 f_equal. apply map_ext. intros y. by apply Hcb.
  - by etrans.
  - by rewrite G3.
  - exists s'. split; [done|by etrans].
Qed.

Lemma statistics_run cb sid frame time run sh :
  (∀ x s s', same_identity s s' → cb x s' = cb x s) → run.2 ≠ [] →
  let w' := on_run (dispatch_statistics_update sid frame time) (update_statistics cb sid frame time) ([], sh) run in
  w'.1 = [] ∧ books_step sh w'.2
  ∧ statistics_log w'.2 = statistics_log sh ++ statistics_event cb sid frame time (definitions sh) run.
Proof.
  intros Hcb Hne. destruct run as [id xs]. unfold on_run, statistics_event. simpl fst. simpl snd.
  destruct (get_security id (definitions sh)) as [s|] eqn:Hs.
  - destruct (statistics_items cb sid frame time id xs ([], sh) s Hcb Hs) as (G1 & G2 & G3 & s' & Hs' & Hid).
    set (w := foldl _ ([], sh) xs) in *. unfold close_run, point_to. rewrite Hs'.
    unfold dispatch_statistics_update. rewrite (via_effect _ _ _ s') by done.
    rewrite G1. destruct xs as [|x xs]; [done|]. simpl. split_and!; [done| |].
    + etrans; [exact G2|]. by apply (put_step id s' s' [_]).
    + unfold statistics_log in *. simpl. rewrite filter_app, G3. simpl.
      destruct Hid as (He & Hsy & _). unfold header. by rewrite He, Hsy.
  - assert (point_to id sh = None) as Hp by (unfold point_to; by rewrite Hs).
    assert (foldl (on_item (update_statistics cb sid frame time) id) ([], sh) xs = ([], sh)) as ->.
    { clear - Hp. induction xs as [|x xs IH]; [done|]. simpl. unfold on_item at 2. cbn [snd]. by rewrite Hp. }
    unfold close_run. cbn [snd]. rewrite Hp. by rewrite app_nil_r.
Qed.

Lemma runs_not_empty {T} (f : T → Z) items : Forall (λ run : Z * list T, run.2 ≠ []) (runs f items).
Proof.
  induction items as [|x items IH]; simpl; [constructor|].
  destruct IH as [|[id xs] rs Hx Hrs]; [by repeat constructor|].
  destruct (id =? f x); repeat (constructor; [done|]); done.
Qed.

Lemma statistics_event_same cb sid frame time sd sd' run :
  (∀ x s s', same_identity s s' → cb x s' = cb x s) → same_securities sd sd' →
  statistics_event cb sid frame time sd' run = statistics_event cb sid frame time sd run.
Proof.
  intros Hcb Hsame. unfold statistics_event.
  destruct (get_security_same run.1 _ _ Hsame) as [s s' Hid|]; [|done].
  f_equal. destruct (Hid) as (He & Hsy & _). unfold header. rewrite He, Hsy. f_equal.
  apply map_ext. intros x. by apply Hcb.
Qed.

Lemma statistics_runs cb sid frame time rs sh :
  (∀ x s s', same_identity s s' → cb x s' = cb x s) → Forall (λ run, run.2 ≠ []) rs →
  let w' := foldl (on_run (dispatch_statistics_update sid frame time) (update_statistics cb sid frame time)) ([], sh) rs in
  statistics_log w'.2 = statistics_log sh ++ concat (map (statistics_event cb sid frame time (definitions sh)) rs).
Proof.
  intros Hcb Hrs. revert sh. induction Hrs as [|run rs Hne _ IH]; intros sh; [by rewrite app_nil_r|].
  simpl. destruct (statistics_run cb sid frame time run sh Hcb Hne) as (Hst & Hstep & Hlog).
  destruct (on_run _ _ ([], sh) run) as [st sh1]. simpl in *. subst st.
  rewrite IH, Hlog, <- app_assoc. do 2 f_equal. f_equal. apply map_ext. intros run'.
  apply statistics_event_same; [done|]. by destruct Hstep.
Qed.

Lemma statistics_of_identity x s s' : same_identity s s' → statistics_of x s' = statistics_of x s.
Proof. intros (_ & _ & Hf & _). unfold statistics_of. by rewrite Hf. Qed.
End statistics_facts.

(** ** Properties *)

Section incremental_base_properties.
Context `{Env}.
Implicit Types (sh : Shared) (s : Security).

(** report sequences.  A conflated report changes nothing and the next
    report is only remembered; any other report makes both books of the
    security stale, once each, clears both sequencers, and asks for both
    snapshots from the sequence of this packet on. *)
Theorem check_report_sequence_spec sid frame v s sh :
  check_report_sequence sid frame v s sh =
  if decide (v = 0) then (s, sh)
  else if decide (v = u32 (rpt_seq s + 1)) then (set_rpt_seq v s, sh)
  else
    let seq := sequence_number frame in
    let h := header sid 0 seq (sending_time frame) s in
    (set_mbo (sequencer_clear (mbo_sequencer s)) seq
       (set_mbp (sequencer_clear (mbp_sequencer s)) seq (set_rpt_seq v s)),
     emit (EvMarketByOrderUpdate h [] UpdateType.STALE)
       (emit (EvMarketByPriceUpdate h [] [] UpdateType.STALE) sh)).
Proof.
  unfold check_report_sequence, update_rpt_seq.
  destruct (decide (v = 0)) as [->|Hv]; [done|]. rewrite (proj2 (Z.eqb_neq v 0)) by done.
  destruct (decide (v = u32 (rpt_seq s + 1))) as [E|E].
  - by rewrite (proj2 (Z.eqb_eq _ _) E).
  - by rewrite (proj2 (Z.eqb_neq _ _) E).
Qed.

(** book updates, whatever the sequencer does.  An update changes nothing
    of the shared state but the log, to which it adds incremental updates and
    snapshots; the pending request for a snapshot is kept, cleared, or moved
    to the sequence of the update, and it is cleared only by publishing a
    snapshot. *)
Theorem sequence_update_effect {U} `{!Sequencer U} (event : U → UpdateType.t → md_event)
    seq (u : U) is_snapshot q r sh :
  let '(_, r', sh') := sequence_update event seq u is_snapshot q r sh in
  ∃ es, definitions sh' = definitions sh ∧ log sh' = log sh ++ es
    ∧ Forall (λ e, ∃ u t, e = event u t ∧ (t = UpdateType.SNAPSHOT ∨ t = UpdateType.INCREMENTAL)) es
    ∧ (r' = r ∨ r' = 0 ∨ r' = seq)
    ∧ (r' = 0 → r ≠ 0 → seq ≠ 0 → ∃ u, event u UpdateType.SNAPSHOT ∈ es).
Proof.
  pose proof (sequence_update_sequenced event seq u is_snapshot q r sh) as Hs.
  destruct (sequence_update _ _ _ _ _ _ sh) as [[q' r'] sh']. destruct Hs as [(es & -> & Hes & Hpub) Hr].
  exists es. by rewrite emit_all_definitions, emit_all_log.
Qed.

(** statistics.  A message of statistics publishes one update for each
    run of entries of one known security, in the order of the message and with
    the statistics of exactly the entries of the run; entries of unknown and of
    filtered securities are skipped. *)
Theorem dispatch_statistics_runs cb sid frame value sh :
  cb = statistics_of ∨ cb = volume_of → get_security 0 (definitions sh) = None →
  statistics_log (dispatch_statistics cb sid frame value sh) =
  statistics_log sh ++ concat (map (statistics_event cb sid frame (rs_transactTime value) (definitions sh))
                                 (runs se_securityID (rs_noMDEntries value))).
Proof.
  intros Hcb H0.
  assert (∀ x s s', same_identity s s' → cb x s' = cb x s) as Hid.
  { destruct Hcb as [-> | ->]; [apply statistics_of_identity|done]. }
  unfold dispatch_statistics. rewrite security_iterator_runs.
  - apply statistics_runs; [done|]. apply runs_not_empty.
  - intros. apply update_statistics_step.
  - unfold point_to. simpl. by rewrite H0.
Qed.
End incremental_base_properties.

(** ** Witnesses *)

Section incremental_base_witnesses.
#[local] Existing Instance the_env.

Definition example_statistics (id rpt : Z) : statistics_entry := {|
  se_securityID := id; se_rptSeq := rpt; se_mDEntryPx := example_decimal 99;
  se_mDEntrySize := example_null 12;
  se_mDEntryType := DailyStatistics MDEntryTypeDailyStatistics.SettlementPrice |}.

Lemma dispatch_statistics_runs_witness :
  length (statistics_log (dispatch_statistics statistics_of 7 example_frame
    {| rs_transactTime := 1000;
       rs_noMDEntries := [example_statistics 8 1; example_statistics 8 2; example_statistics 9 1] |}
    example_shared)) = 1%nat.
Proof.
  rewrite (dispatch_statistics_runs statistics_of 7 example_frame _ example_shared);
    [vm_compute; reflexivity|left; reflexivity|vm_compute; reflexivity].
Defined.
End incremental_base_witnesses.
