(* ===== verification/IncrementalBook.v ===== *)
(** The incremental feed: books
    (src/roq/cme/market_data/incremental.cpp: the handlers of
    MDIncrementalRefreshBook46 and MDIncrementalRefreshOrderBook47). *)

From S2P Require Import Prelude Double Api MdpMap Messages MdpParser Security SecdefReader SecurityDefinitions Channel MarketData InstrumentDefinition Recovery MbpRecovery IncrementalBase.

(** ** [Incremental::Cache] *)

Record Order47 := {
  q_security_id : Z;
  q_price : double;
  q_quantity : double;
  q_priority : Z;
  q_order_id : Z;
  q_side : Side.t;
  q_action : UpdateAction.t;
}.

Record Cache := {
  orders : list MBOUpdate;
  orders_47 : list Order47;
  security_ids_47 : gset Z;
}.

Definition empty_cache : Cache := {| orders := []; orders_47 := []; security_ids_47 := ∅ |}.

Section book.
Context `{Env}.
Implicit Types (sh : Shared) (security : Security).

(** ** Entries *)

(** [mbp_emplace_back] of the incremental feed: the exchange gives the old
    quantity of a deleted level. *)
Definition book_mbp_update (item : book_entry) security : MBPUpdate :=
  let update_action := get_update_action (be_mDUpdateAction item) in
  let quantity :=
    if decide (update_action = UpdateAction.DELETE) then 0 else get_int (be_mDEntrySize item) in
  {| mbp_price := dmul (get_double_any (be_mDEntryPx item)) (display_factor security);
     mbp_quantity := safe_cast_to_double quantity;
     mbp_implied_quantity := NaN;
     mbp_number_of_orders := safe_cast_to_double (get_int (be_numberOfOrders item));
     mbp_update_action := update_action;
     mbp_price_level := price_level_of (be_mDPriceLevel item) |}.

(** [emplace_back] of a price entry. *)
Definition book_emplace_back (item : book_entry) security (lm : Layer * mbp_update) : Layer * mbp_update :=
  let '(layer, mbp) := lm in
  let price := dmul (get_double_any (be_mDEntryPx item)) (display_factor security) in
  match be_mDEntryType item with
  | MDEntryTypeBook.Bid => (layer, (mbp.1 ++ [book_mbp_update item security], mbp.2))
  | MDEntryTypeBook.Offer => (layer, (mbp.1, mbp.2 ++ [book_mbp_update item security]))
  | MDEntryTypeBook.ImpliedBid => lm
  | MDEntryTypeBook.ImpliedOffer => lm
  | MDEntryTypeBook.BookReset => lm
  | MDEntryTypeBook.MarketBestOffer => ({| bid_price := bid_price layer; ask_price := price |}, mbp)
  | MDEntryTypeBook.MarketBestBid => ({| bid_price := price; ask_price := ask_price layer |}, mbp)
  | MDEntryTypeBook.NULL_VALUE => lm
  end.

(** [emplace_back] of an order entry, with the side and the price of the
    price entry that it refers to. *)
Definition book_mbo_update (item : order_id_entry) security (side : Side.t) (price : double) : MBOUpdate :=
  {| mbo_price := dmul price (display_factor security);
     mbo_quantity := double_of_Z (get_int (oe_mDDisplayQty item));
     mbo_priority := get_int (oe_mDOrderPriority item);
     mbo_order_id := fmt_Z (get_int (oe_orderID item));
     mbo_side := side;
     mbo_action := get_order_update_action (oe_orderUpdateAction item) |}.

(** [emplace_back] of an entry of MDIncrementalRefreshOrderBook47. *)
Definition order_47 (item : order_book_47_entry) security (security_id : Z) (side : Side.t) : Order47 :=
  {| q_security_id := security_id;
     q_price := dmul (get_double_any (o47_mDEntryPx item)) (display_factor security);
     q_quantity := double_of_Z (get_int (o47_mDDisplayQty item));
     q_priority := get_int (o47_mDOrderPriority item);
     q_order_id := get_int (o47_orderID item);
     q_side := side;
     q_action := get_update_action (o47_mDUpdateAction item) |}.

Definition emplace_back_47 (item : order_book_47_entry) security (security_id : Z)
    (orders : list Order47) : list Order47 :=
  match o47_mDEntryType item with
  | MDEntryTypeBook.Bid => orders ++ [order_47 item security security_id Side.BUY]
  | MDEntryTypeBook.Offer => orders ++ [order_47 item security security_id Side.SELL]
  | _ => orders
  end.

(** ** MDIncrementalRefreshBook46 *)

(** The scratch of the price loop: the layer, the price and order updates of
    the run. *)
Definition book_scratch : Type := Layer * mbp_update * mbo_update.
Definition empty_scratch : book_scratch := (empty_layer, ([], []), []).

(** [dispatch] of the price loop, given its security. *)
Definition dispatch_book_to (sid : Z) (frame : Frame) (exchange_time_utc : Z) (is_snapshot : bool)
    security (w : book_scratch * Shared) : Security * (book_scratch * Shared) :=
  let exchange_sequence := sequence_number frame in
  let '((layer, mbp, mbo), sh) := w in
  let '(layer, sh) :=
    if negb (isnan (bid_price layer) && isnan (ask_price layer)) then
      (empty_layer,
       emit (EvTopOfBook (header sid exchange_time_utc exchange_sequence (sending_time frame) security)
               layer UpdateType.SNAPSHOT) sh)
    else (layer, sh) in
  let '(security, mbp, sh) :=
    if negb (mbp_empty mbp) then
      let '(security, sh) :=
        dispatch_market_by_price sid exchange_sequence exchange_time_utc (sending_time frame)
          mbp is_snapshot security sh in
      (security, ([], []), sh)
    else (security, mbp, sh) in
  let '(security, mbo, sh) :=
    match mbo with
    | [] => (security, mbo, sh)
    | _ =>
      let '(security, sh) :=
        dispatch_market_by_order sid exchange_sequence exchange_time_utc (sending_time frame)
          mbo false security sh in
      (security, [], sh)
    end in
  (security, ((layer, mbp, mbo), sh)).

Definition dispatch_book (sid : Z) (frame : Frame) (exchange_time_utc : Z) (is_snapshot : bool)
    (security_id : Z) (w : book_scratch * Shared) : book_scratch * Shared :=
  via security_id (dispatch_book_to sid frame exchange_time_utc is_snapshot) w.

Record book_loop := {
  bl_security_id : Z;
  bl_security : option Z;
  bl_is_snapshot : bool;
  bl_is_snapshot_workaround : bool;
  bl_state : book_scratch * Shared;
}.

(** The entry that order entries refer to. *)
Definition md_entry_of (item : book_entry) : Z * Side.t * double * UpdateAction.t :=
  (be_securityID item, get_side_book (be_mDEntryType item), get_double_any (be_mDEntryPx item),
   get_update_action (be_mDUpdateAction item)).

(** The part of [process] for an entry of a known security: the price and
    top-of-book updates, and the orders to clear at a deleted level. *)
Definition process_known_to (item : book_entry) security (scratch : book_scratch) : book_scratch :=
  let '(layer, mbp, mbo) := scratch in
  let '(layer, mbp) := book_emplace_back item security (layer, mbp) in
  let side := get_side_book (be_mDEntryType item) in
  let action := get_update_action (be_mDUpdateAction item) in
  let mbo :=
    if enable_market_by_order options
       && bool_decide (action = UpdateAction.DELETE) && negb (bool_decide (side = Side.UNDEFINED))
       && mbp_to_mbo_clear_price_level options
    then mbo ++ [{| mbo_price := dmul (get_double_any (be_mDEntryPx item)) (display_factor security);
                    mbo_quantity := double_of_Z 0; mbo_priority := 0; mbo_order_id := "";
                    mbo_side := side; mbo_action := action |}]
    else mbo in
  (layer, mbp, mbo).

Definition process_known (item : book_entry) (security_id : Z)
    (w : book_scratch * Shared) : book_scratch * Shared :=
  via security_id (λ security w, (security, (process_known_to item security w.1, w.2))) w.

(** [process] of the price loop. *)
Definition process_book (sid : Z) (frame : Frame) (exchange_time_utc : Z) (l : book_loop)
    (item : book_entry) : book_loop :=
  let current_security_id := be_securityID item in
  (* the next security *)
  let '(security_id, security, is_snapshot, w) :=
    if current_security_id =? bl_security_id l then
      (bl_security_id l, bl_security l, bl_is_snapshot l, bl_state l)
    else
      let w :=
        match bl_security l with
        | Some security => dispatch_book sid frame exchange_time_utc (bl_is_snapshot l) security (bl_state l)
        | None => bl_state l
        end in
      (current_security_id, point_to current_security_id w.2, false, w) in
  (* the first report of a security is a snapshot *)
  let first := be_rptSeq item =? 1 in
  let is_snapshot := is_snapshot || first in
  let is_snapshot_workaround := bl_is_snapshot_workaround l || first in
  let w :=
    match security with
    | Some security =>
      via security (λ security w,
        let '(security, sh) := check_report_sequence sid frame (be_rptSeq item) security w.2 in
        (security, (w.1, sh))) w
    | None => w
    end in
  let w :=
    if enable_market_by_order options then
      (w.1, set_md_entries (md_entries_ w.2 ++ [md_entry_of item]) w.2)
    else w in
  let w := match security with Some security => process_known item security w | None => w end in
  {| bl_security_id := security_id; bl_security := security; bl_is_snapshot := is_snapshot;
     bl_is_snapshot_workaround := is_snapshot_workaround; bl_state := w |}.

(** The price loop: also whether some report was the first. *)
Definition book_price_loop (sid : Z) (frame : Frame) (value : incremental_refresh_book) sh : bool * Shared :=
  let sh := set_md_entries [] sh in
  let l :=
    foldl (process_book sid frame (rb_transactTime value))
      {| bl_security_id := 0; bl_security := None; bl_is_snapshot := false;
         bl_is_snapshot_workaround := false; bl_state := (empty_scratch, sh) |}
      (rb_noMDEntries value) in
  let w :=
    match bl_security l with
    | Some security => dispatch_book sid frame (rb_transactTime value) (bl_is_snapshot l) security (bl_state l)
    | None => bl_state l
    end in
  (bl_is_snapshot_workaround l, w.2).

(** The price entry that an order entry refers to: the index is 1-based. *)
Definition referenced (item : order_id_entry) sh : option (Z * Side.t * double) :=
  let reference_id := get_int (oe_referenceID item) in
  if reference_id =? 0 then None
  else
    let index := u64 (u64 reference_id - 1) in
    if negb (index <? Z.of_nat (length (md_entries_ sh))) then None
    else
      match md_entries_ sh !! Z.to_nat index with
      | Some (security_id, side, price, _) => Some (security_id, side, price)
      | None => None
      end.

(** [dispatch] of the order loop. *)
Definition dispatch_orders (sid : Z) (frame : Frame) (exchange_time_utc : Z) (is_snapshot : bool)
    (security_id : Z) (w : mbo_update * Shared) : mbo_update * Shared :=
  via security_id (λ security w,
    match w.1 with
    | [] => (security, w)
    | orders =>
      let '(security, sh) :=
        dispatch_market_by_order sid (sequence_number frame) exchange_time_utc (sending_time frame)
          orders is_snapshot security w.2 in
      (security, ([], sh))
    end) w.

(** [process] of the order loop. *)
Definition process_order (sid : Z) (frame : Frame) (exchange_time_utc : Z) (is_snapshot : bool)
    (l : Z * option Z * (mbo_update * Shared)) (item : order_id_entry) : Z * option Z * (mbo_update * Shared) :=
  let '(security_id, security, w) := l in
  match referenced item w.2 with
  | None => l
  | Some (current_security_id, side, price) =>
    let '(security_id, security, w) :=
      if current_security_id =? security_id then (security_id, security, w)
      else
        let w :=
          match security with
          | Some security => dispatch_orders sid frame exchange_time_utc is_snapshot security w
          | None => w
          end in
        (current_security_id, point_to current_security_id w.2, w) in
    let w :=
      match security with
      | Some security =>
        via security (λ security w, (security, (w.1 ++ [book_mbo_update item security side price], w.2))) w
      | None => w
      end in
    (security_id, security, w)
  end.

(** The order loop, over the orders of the cache. *)
Definition book_order_loop (sid : Z) (frame : Frame) (value : incremental_refresh_book)
    (is_snapshot : bool) (w : mbo_update * Shared) : mbo_update * Shared :=
  let '(_, security, w) :=
    foldl (process_order sid frame (rb_transactTime value) is_snapshot) (0, None, w) (rb_noOrderIDEntries value) in
  match security with
  | Some security => dispatch_orders sid frame (rb_transactTime value) is_snapshot security w
  | None => w
  end.

(** The handler. *)
Definition on_book_46 (sid : Z) (frame : Frame) (value : incremental_refresh_book)
    (w : Cache * Shared) : Cache * Shared :=
  let '(cache, sh) := w in
  let '(is_snapshot_workaround, sh) := book_price_loop sid frame value sh in
  if enable_market_by_order options then
    let '(os, sh) := book_order_loop sid frame value is_snapshot_workaround (orders cache, sh) in
    ({| orders := os; orders_47 := orders_47 cache; security_ids_47 := security_ids_47 cache |}, sh)
  else (cache, sh).

(** ** MDIncrementalRefreshOrderBook47 *)

(** [process]: the id, the security, and the cached orders and ids. *)
Definition process_47 sh (l : Z * option Security * (list Order47 * gset Z)) (item : order_book_47_entry)
    : Z * option Security * (list Order47 * gset Z) :=
  let '(security_id, security, (os, ids)) := l in
  let current_security_id := o47_securityID item in
  let '(security_id, security, ids) :=
    if current_security_id =? security_id then (security_id, security, ids)
    else
      let security := get_security current_security_id (definitions sh) in
      (current_security_id, security,
       match security with Some _ => {[current_security_id]} ∪ ids | None => ids end) in
  (security_id, security,
   (match security with Some security => emplace_back_47 item security security_id os | None => os end, ids)).

Definition order_47_update (item : Order47) : MBOUpdate :=
  {| mbo_price := q_price item; mbo_quantity := q_quantity item; mbo_priority := q_priority item;
     mbo_order_id := fmt_Z (q_order_id item); mbo_side := q_side item; mbo_action := q_action item |}.

(** The dispatch of the orders of one security, over the orders of the cache. *)
Definition dispatch_47 (sid : Z) (frame : Frame) (exchange_time_utc : Z) (os : list Order47)
    (w : mbo_update * Shared) (security_id : Z) : mbo_update * Shared :=
  via security_id (λ security w,
    let orders :=
      w.1 ++ map order_47_update (filter (λ item, q_security_id item = security_id) os) in
    let snapshot := rpt_seq security =? 0 in
    let '(security, sh) :=
      dispatch_market_by_order sid (sequence_number frame) exchange_time_utc (sending_time frame)
        orders snapshot security w.2 in
    (security, ([], sh))) w.

(** The handler. *)
Definition on_order_book_47 (sid : Z) (frame : Frame) (value : incremental_refresh_order_book)
    (w : Cache * Shared) : Cache * Shared :=
  if negb (enable_market_by_order options) then w
  else
    let '(cache, sh) := w in
    let last := negb (r47_matchEventIndicator value =? 0) in
    let '(_, _, (os, ids)) :=
      foldl (process_47 sh) (0, None, (orders_47 cache, security_ids_47 cache)) (r47_noMDEntries value) in
    if negb last then ({| orders := orders cache; orders_47 := os; security_ids_47 := ids |}, sh)
    else
      let '(mbo, sh) :=
        foldl (dispatch_47 sid frame (r47_transactTime value) os) (orders cache, sh) (hash_order ids) in
      ({| orders := mbo; orders_47 := []; security_ids_47 := ∅ |}, sh).
End book.

(** ** Facts: the price loop *)

Section price_loop_facts.
Context `{Env}.
Context (sid : Z) (frame : Frame) (time : Z).
Implicit Types (sh : Shared) (s : Security) (w : book_scratch * Shared).

Lemma process_known_step item id w : books_step w.2 (process_known item id w).2.
Proof.
  apply via_step. intros s w'. exists is_book. apply security_step_refl.
Qed.

Lemma isnan_eq x : isnan x = true → x = NaN.
Proof. by destruct x. Qed.

(** The dispatch of a run: a step of the books that empties the scratch. *)
Lemma dispatch_book_spec snap id w :
  books_step w.2 (dispatch_book sid frame time snap id w).2
  ∧ (is_Some (get_security id (definitions w.2)) →
     (dispatch_book sid frame time snap id w).1 = empty_scratch).
Proof.
  unfold dispatch_book. destruct (get_security id (definitions w.2)) as [s|] eqn:Hs;
    [rewrite (via_effect _ _ _ s) by done|rewrite via_none by done; split; [done|by intros [? ?]]].
  unfold dispatch_book_to. destruct w as [[[layer mbp] mbo] sh]. cbn [snd] in *.
  set (sh1 := if negb (isnan (bid_price layer) && isnan (ask_price layer)) then _ else _).
  assert (sh1.1 = empty_layer ∧ ∃ es, sh1.2 = foldl (λ sh e, emit e sh) sh es) as [Hlayer Hes1].
  { unfold sh1. destruct (isnan (bid_price layer) && isnan (ask_price layer)) eqn:E; simpl.
    - bool_to_prop. split; [|by exists []]. destruct layer as [b a]. simpl in *.
      unfold empty_layer. by rewrite (isnan_eq b), (isnan_eq a).
    - split; [done|]. by eexists [_]. }
  destruct sh1 as [layer1 sh1]. simpl in Hlayer. subst layer1. simpl in Hes1.
  assert (∀ s' sh', (∃ es, sh' = foldl (λ sh e, emit e sh) sh es) → same_identity s s' →
    books_step sh (set_definitions (put_security id s' (definitions sh')) sh')) as Hend.
  { intros s' sh' [es ->] Hid. by apply (put_step id s s' es). }
  assert (∀ s1 sh1 s2 sh2, (∃ es, sh1 = foldl (λ sh e, emit e sh) sh es) → same_identity s s1 →
    security_step s1 sh1 s2 sh2 is_book →
    (∃ es, sh2 = foldl (λ sh e, emit e sh) sh es) ∧ same_identity s s2) as Hstep.
  { intros s1 sh1' s2 sh2 [es1 ->] Hid1 [Hid2 (es2 & -> & _)]. split; [|by etrans].
    exists (es1 ++ es2). by rewrite foldl_app. }
  assert (negb (mbp_empty mbp) = false → mbp = ([], [])) as Hempty
    by by destruct mbp as [[|] [|]].
  destruct (negb (mbp_empty mbp)).
  - pose proof (dispatch_market_by_price_step sid (sequence_number frame) time (sending_time frame) mbp snap s sh1) as H1.
    destruct (dispatch_market_by_price _ _ _ _ _ _ s sh1) as [s1 sh2].
    destruct (Hstep _ _ _ _ Hes1 (reflexivity s) H1) as [Hes2 Hid1].
    destruct mbo as [|o mbo]; [split; [by apply Hend|done]|].
    pose proof (dispatch_market_by_order_step sid (sequence_number frame) time (sending_time frame) (o :: mbo) false s1 sh2) as H2.
    destruct (dispatch_market_by_order _ _ _ _ _ _ s1 sh2) as [s2 sh3].
    destruct (Hstep _ _ _ _ Hes2 Hid1 H2) as [Hes3 Hid2]. split; [by apply Hend|done].
  - rewrite Hempty by done. destruct mbo as [|o mbo]; [split; [by apply Hend|done]|].
    pose proof (dispatch_market_by_order_step sid (sequence_number frame) time (sending_time frame) (o :: mbo) false s sh1) as H2.
    destruct (dispatch_market_by_order _ _ _ _ _ _ s sh1) as [s2 sh3].
    destruct (Hstep _ _ _ _ Hes1 (reflexivity s) H2) as [Hes3 Hid2]. split; [by apply Hend|done].
Qed.

(** One entry of a run, of a security that is known or not. *)
Definition book_item (id : Z) w (item : book_entry) : book_scratch * Shared :=
  let known := point_to id w.2 in
  let w :=
    match known with
    | Some _ =>
      via id (λ security w,
        let '(security, sh) := check_report_sequence sid frame (be_rptSeq item) security w.2 in
        (security, (w.1, sh))) w
    | None => w
    end in
  let w :=
    if enable_market_by_order options then
      (w.1, set_md_entries (md_entries_ w.2 ++ [md_entry_of item]) w.2)
    else w in
  match known with Some _ => process_known item id w | None => w end.

Definition close_book (snap : bool) (id : Z) w : book_scratch * Shared :=
  match point_to id w.2 with Some _ => dispatch_book sid frame time snap id w | None => w end.

Definition is_first (item : book_entry) : bool := be_rptSeq item =? 1.

(** A run of entries of one security, and its dispatch. *)
Definition book_run w (run : Z * list book_entry) : book_scratch * Shared :=
  close_book (existsb is_first run.2) run.1 (foldl (book_item run.1) w run.2).

Lemma set_md_entries_step m sh : feed_step sh (set_md_entries m sh).
Proof. by split. Qed.

Lemma via_check_step item id w :
  books_step w.2 (via id (λ security w,
    let '(security, sh) := check_report_sequence sid frame (be_rptSeq item) security w.2 in
    (security, (w.1, sh))) w).2.
Proof.
  apply via_step. intros s w1.
  pose proof (check_report_sequence_step sid frame (be_rptSeq item) s w1.2) as Hc.
  destruct (check_report_sequence _ _ _ s w1.2). by eexists.
Qed.

(** An entry: what it does to the entries that orders refer to, and, of an
    unknown security, nothing else. *)
Lemma book_item_spec id w item :
  feed_step w.2 (book_item id w item).2
  ∧ md_entries_ (book_item id w item).2 =
      md_entries_ w.2 ++ (if enable_market_by_order options then [md_entry_of item] else [])
  ∧ (point_to id w.2 = None → (book_item id w item).1 = w.1).
Proof.
  unfold book_item. cbv zeta.
  set (w1 := match point_to id w.2 with Some _ => _ | None => w end).
  assert (books_step w.2 w1.2) as H1 by (unfold w1; destruct (point_to id w.2); [apply via_check_step|done]).
  set (w2 := if enable_market_by_order options then _ else w1).
  assert (feed_step w1.2 w2.2 ∧ md_entries_ w2.2 =
    md_entries_ w1.2 ++ (if enable_market_by_order options then [md_entry_of item] else []) ∧ w2.1 = w1.1)
    as (H2 & M2 & S2).
  { unfold w2. destruct (enable_market_by_order options); [by split_and!|].
    by rewrite app_nil_r. }
  assert (md_entries_ w1.2 = md_entries_ w.2) as M1 by by destruct H1 as [_ _ [= ? _ _ _ _ _]].
  destruct (point_to id w.2) as [p|] eqn:Hp.
  - pose proof (process_known_step item id w2) as H3. split_and!.
    + etrans; [by apply books_step_feed|]. etrans; [exact H2|]. by apply books_step_feed.
    + destruct H3 as [_ _ [= -> _ _ _ _ _]]. by rewrite M2, M1.
    + done.
  - split_and!; [by etrans; [apply books_step_feed|]|by rewrite M2, M1|].
    intros _. by rewrite S2.
Qed.

Lemma book_items_spec id w items :
  feed_step w.2 (foldl (book_item id) w items).2
  ∧ md_entries_ (foldl (book_item id) w items).2 =
      md_entries_ w.2 ++ (if enable_market_by_order options then map md_entry_of items else [])
  ∧ (point_to id w.2 = None → (foldl (book_item id) w items).1 = w.1).
Proof.
  revert w. induction items as [|item items IH]; intros w; simpl.
  { split_and!; [done|by case_match; rewrite app_nil_r|done]. }
  destruct (book_item_spec id w item) as (H1 & M1 & N1). destruct (IH (book_item id w item)) as (H2 & M2 & N2).
  split_and!.
  - by etrans.
  - rewrite M2, M1, <- app_assoc. by case_match.
  - intros Hp. rewrite N2, N1; [done|done|]. by rewrite (point_to_same _ _ _ H1).
Qed.

Lemma close_book_step snap id w : books_step w.2 (close_book snap id w).2.
Proof. unfold close_book. destruct (point_to id w.2); [apply dispatch_book_spec|done]. Qed.

(** The loop as runs. *)
Definition loop_at (id : Z) (snap wk : bool) w : book_loop :=
  {| bl_security_id := id; bl_security := point_to id w.2; bl_is_snapshot := snap;
     bl_is_snapshot_workaround := wk; bl_state := w |}.

Definition finish_book (l : book_loop) : book_scratch * Shared :=
  match bl_security l with
  | Some security => dispatch_book sid frame time (bl_is_snapshot l) security (bl_state l)
  | None => bl_state l
  end.

Lemma finish_loop_at id snap wk w : finish_book (loop_at id snap wk w) = close_book snap id w.
Proof.
  unfold finish_book, close_book. simpl. destruct (point_to id w.2) as [p|] eqn:E; [|done].
  by rewrite (point_to_self _ _ _ E).
Qed.

Lemma process_book_loop_at id snap wk w item :
  process_book sid frame time (loop_at id snap wk w) item =
  let same := be_securityID item =? id in
  loop_at (be_securityID item) ((if same then snap else false) || is_first item) (wk || is_first item)
    (book_item (be_securityID item) (if same then w else close_book snap id w) item).
Proof.
  unfold process_book. cbv zeta. cbn [bl_security_id bl_security bl_is_snapshot bl_is_snapshot_workaround bl_state loop_at].
  set (current := be_securityID item). unfold loop_at.
  destruct (current =? id) eqn:E; bool_to_prop.
  - rewrite E. rewrite (point_to_same _ _ _ (proj1 (book_item_spec id w item))).
    unfold book_item. cbv zeta. destruct (point_to id w.2) as [p|] eqn:Hp; [|done].
    by rewrite (point_to_self _ _ _ Hp).
  - change (match point_to id w.2 with Some p => _ | None => w end)
      with (finish_book (loop_at id snap wk w)). rewrite finish_loop_at.
    set (w1 := close_book snap id w).
    rewrite (point_to_same _ _ _ (proj1 (book_item_spec current w1 item))).
    unfold book_item. cbv zeta. destruct (point_to current w1.2) as [p|] eqn:Hp; [|done].
    by rewrite (point_to_self _ _ _ Hp).
Qed.

Lemma book_fold items id snap wk w :
  let l := foldl (process_book sid frame time) (loop_at id snap wk w) items in
  bl_is_snapshot_workaround l = wk || existsb is_first items
  ∧ finish_book l =
    match runs be_securityID items with
    | (id', xs) :: rs =>
      if id' =? id then
        foldl book_run (close_book (snap || existsb is_first xs) id (foldl (book_item id) w xs)) rs
      else foldl book_run (close_book snap id w) ((id', xs) :: rs)
    | [] => close_book snap id w
    end.
Proof.
  revert id snap wk w. induction items as [|item items IH]; intros id snap wk w.
  { cbn [foldl runs existsb]. by rewrite finish_loop_at, orb_false_r. }
  cbn [foldl]. rewrite process_book_loop_at. cbv zeta.
  set (w' := book_item _ _ _).
  destruct (IH (be_securityID item) ((if be_securityID item =? id then snap else false) || is_first item)
    (wk || is_first item) w') as [-> ->].
  split; [cbn [existsb]; by rewrite orb_assoc|]. cbn [runs].
  destruct (be_securityID item =? id) eqn:E; bool_to_prop.
  - destruct (runs be_securityID items) as [|[id' xs] rs].
    + rewrite E, Z.eqb_refl. cbn [foldl existsb]. rewrite orb_false_r. unfold w'. by rewrite E.
    + destruct (id' =? be_securityID item) eqn:E'; bool_to_prop.
      * subst id'. rewrite E, Z.eqb_refl. cbn [foldl existsb]. rewrite orb_assoc. unfold w'. by rewrite E.
      * rewrite E, Z.eqb_refl. cbn [foldl existsb]. rewrite orb_false_r. unfold w'. by rewrite E.
  - destruct (runs be_securityID items) as [|[id' xs] rs].
    + rewrite (proj2 (Z.eqb_neq _ _) E). cbn [foldl]. unfold book_run. cbn [foldl existsb fst snd].
      by rewrite orb_false_r.
    + destruct (id' =? be_securityID item) eqn:E'; bool_to_prop.
      * subst id'. by rewrite (proj2 (Z.eqb_neq _ _) E).
      * rewrite (proj2 (Z.eqb_neq _ _) E). cbn [foldl]. do 2 f_equal. unfold book_run.
        cbn [foldl existsb fst snd]. by rewrite orb_false_r.
Qed.

(** A run starts and ends with an empty scratch. *)
Definition price_run sh (run : Z * list book_entry) : Shared := (book_run (empty_scratch, sh) run).2.

Lemma book_run_scratch sh run : (book_run (empty_scratch, sh) run).1 = empty_scratch.
Proof.
  unfold book_run. destruct (book_items_spec run.1 (empty_scratch, sh) run.2) as (Hstep & _ & Hnone).
  unfold close_book. destruct (point_to run.1 (foldl _ _ _).2) as [p|] eqn:Hp.
  - apply dispatch_book_spec. unfold point_to in Hp. destruct (get_security _ _); [by eexists|done].
  - apply Hnone. by rewrite <- (point_to_same _ _ _ Hstep).
Qed.

Lemma book_runs rs sh : foldl book_run (empty_scratch, sh) rs = (empty_scratch, foldl price_run sh rs).
Proof.
  revert sh. induction rs as [|run rs IH]; intros sh; [done|]. cbn [foldl].
  pose proof (book_run_scratch sh run) as Hs. unfold price_run at 2.
  destruct (book_run (empty_scratch, sh) run) as [sc sh1]. simpl in Hs. subst sc. apply IH.
Qed.

Lemma price_run_spec sh run :
  feed_step sh (price_run sh run)
  ∧ md_entries_ (price_run sh run) =
      md_entries_ sh ++ (if enable_market_by_order options then map md_entry_of run.2 else []).
Proof.
  unfold price_run, book_run. destruct (book_items_spec run.1 (empty_scratch, sh) run.2) as (Hstep & Hmd & _).
  pose proof (close_book_step (existsb is_first run.2) run.1 (foldl (book_item run.1) (empty_scratch, sh) run.2)) as Hc.
  split.
  - etrans; [exact Hstep|]. by apply books_step_feed.
  - destruct Hc as [_ _ [= -> _ _ _ _ _]]. done.
Qed.

Lemma price_runs_spec rs sh :
  feed_step sh (foldl price_run sh rs)
  ∧ md_entries_ (foldl price_run sh rs) =
      md_entries_ sh ++ (if enable_market_by_order options then map md_entry_of (concat (map snd rs)) else []).
Proof.
  revert sh. induction rs as [|run rs IH]; intros sh; simpl.
  { split; [done|]. by case_match; rewrite app_nil_r. }
  destruct (price_run_spec sh run) as [H1 M1]. destruct (IH (price_run sh run)) as [H2 M2].
  split; [by etrans|]. rewrite M2, M1, <- app_assoc. case_match; [|done]. by rewrite map_app.
Qed.
End price_loop_facts.

Lemma concat_runs {T} (f : T → Z) items : concat (map snd (runs f items)) = items.
Proof.
  induction items as [|x items IH]; [done|]. simpl.
  destruct (runs f items) as [|[id xs] rs]; simpl in *; [by rewrite <- IH|].
  destruct (id =? f x); simpl; by rewrite IH.
Qed.

Section price_loop_spec.
Context `{Env}.
Implicit Types (sh : Shared).

Lemma book_price_loop_eq sid frame value sh :
  get_security 0 (definitions sh) = None →
  book_price_loop sid frame value sh =
  (existsb is_first (rb_noMDEntries value),
   foldl (price_run sid frame (rb_transactTime value)) (set_md_entries [] sh)
     (runs be_securityID (rb_noMDEntries value))).
Proof.
  intros H0. set (time := rb_transactTime value).
  set (w := (empty_scratch, set_md_entries [] sh)).
  assert (point_to 0 w.2 = None) as Hp by (unfold point_to; simpl; by rewrite H0).
  set (l := foldl (process_book sid frame time) (loop_at 0 false false w) (rb_noMDEntries value)).
  assert (book_price_loop sid frame value sh
    = (bl_is_snapshot_workaround l, (finish_book sid frame time l).2)) as ->.
  { unfold l, loop_at. by rewrite Hp. }
  destruct (book_fold sid frame time (rb_noMDEntries value) 0 false false w) as [Hwk Hfin].
  fold l in Hwk, Hfin.
  rewrite Hwk, Hfin. cbn [orb]. f_equal.
  assert (∀ snap w', point_to 0 w'.2 = None → close_book sid frame time snap 0 w' = w') as Hclose.
  { intros snap w' Hw'. unfold close_book. by rewrite Hw'. }
  transitivity ((foldl (book_run sid frame time) w (runs be_securityID (rb_noMDEntries value))).2);
    [|unfold w; by rewrite book_runs].
  destruct (runs be_securityID (rb_noMDEntries value)) as [|[id xs] rs]; [by rewrite Hclose|].
  destruct (id =? 0) eqn:E; bool_to_prop; [subst id; done|by rewrite Hclose].
Qed.

Lemma book_price_loop_step sid frame value sh :
  get_security 0 (definitions sh) = None →
  feed_step sh (book_price_loop sid frame value sh).2.
Proof.
  intros H0. rewrite book_price_loop_eq by done. simpl.
  etrans; [apply (set_md_entries_step [])|]. apply price_runs_spec.
Qed.
End price_loop_spec.

(** ** Facts: the order loop *)

Section order_loop_facts.
Context `{Env}.
Context (sid : Z) (frame : Frame) (time : Z) (snap : bool).
Implicit Types (sh : Shared) (s : Security) (w : mbo_update * Shared).

(** An order entry, with the security, the side and the price of the price
    entry that it refers to. *)
Definition order_reference : Type := Z * Side.t * double * order_id_entry.
Definition reference_id (r : order_reference) : Z := r.1.1.1.

Definition references sh (items : list order_id_entry) : list order_reference :=
  omap (λ item, r ← referenced item sh; Some (r, item)) items.

Definition reference_update s (r : order_reference) : MBOUpdate :=
  book_mbo_update r.2 s r.1.1.2 r.1.2.

Definition reference_callback (id : Z) (r : order_reference) w : mbo_update * Shared :=
  via id (λ s w, (s, (w.1 ++ [reference_update s r], w.2))) w.

(** The update of the orders of a run. *)
Definition order_run sh (run : Z * list order_reference) : Shared :=
  with_security run.1 (λ s sh,
    dispatch_market_by_order sid (sequence_number frame) time (sending_time frame)
      (map (reference_update s) run.2) snap s sh) sh.

Lemma reference_callback_eq id r w s :
  get_security id (definitions w.2) = Some s →
  reference_callback id r w = (w.1 ++ [reference_update s r], w.2).
Proof. intros Hs. unfold reference_callback. rewrite (via_effect _ _ _ s) by done. simpl. by rewrite write_back_id. Qed.

Lemma reference_callback_step id r w : books_step w.2 (reference_callback id r w).2.
Proof. apply via_step. intros s w'. exists is_book. apply security_step_refl. Qed.

Lemma dispatch_orders_step id w : books_step w.2 (dispatch_orders sid frame time snap id w).2.
Proof.
  apply via_step. intros s [os sh]. simpl.
  destruct os as [|o os]; [exists is_book; apply security_step_refl|].
  pose proof (dispatch_market_by_order_step sid (sequence_number frame) time (sending_time frame) (o :: os) snap s sh) as Hd.
  destruct (dispatch_market_by_order _ _ _ _ _ _ s sh). by eexists.
Qed.

Lemma referenced_scratch item sh sh' : scratch sh' = scratch sh → referenced item sh' = referenced item sh.
Proof. intros [= Hm _ _ _ _ _]. unfold referenced. by rewrite Hm. Qed.

Lemma order_step id w item sh :
  scratch w.2 = scratch sh →
  process_order sid frame time snap (id, point_to id w.2, w) item =
  match referenced item sh with
  | Some r =>
    security_iterator_step reference_id (λ _ p, dispatch_orders sid frame time snap p) reference_callback
      (id, point_to id w.2, w) (r, item)
  | None => (id, point_to id w.2, w)
  end.
Proof.
  intros Hw. unfold process_order. rewrite (referenced_scratch _ _ _ Hw).
  destruct (referenced item sh) as [[[current side] price]|]; [|done].
  unfold security_iterator_step, reference_id. simpl.
  destruct (current =? id) eqn:E; bool_to_prop.
  - destruct (point_to id w.2) as [p|] eqn:Hp; [|done]. by rewrite (point_to_self _ _ _ Hp).
  - set (d := match point_to id w.2 with Some _ => _ | None => w end).
    destruct (point_to current d.2) as [p|] eqn:Hp; [|done]. by rewrite (point_to_self _ _ _ Hp).
Qed.

(** Order entries without a reference are skipped. *)
Lemma process_order_fold sh items id w :
  scratch w.2 = scratch sh →
  foldl (process_order sid frame time snap) (id, point_to id w.2, w) items =
  foldl (security_iterator_step reference_id (λ _ p, dispatch_orders sid frame time snap p) reference_callback)
    (id, point_to id w.2, w) (references sh items).
Proof.
  revert id w. induction items as [|item items IH]; intros id w Hw; [done|].
  cbn [foldl references omap list_omap]. rewrite (order_step _ _ _ sh) by done.
  destruct (referenced item sh) as [r|]; cbn [mbind option_bind foldl]; [|by apply IH].
  rewrite (iterator_step _ _ _ reference_callback_step). cbv zeta. apply IH.
  etrans; [apply books_scratch, on_item_step, reference_callback_step|].
  destruct (_ =? id); [done|]. unfold close_run. destruct (point_to id w.2); [|done].
  etrans; [apply books_scratch, dispatch_orders_step|done].
Qed.

Lemma order_items id xs w s :
  get_security id (definitions w.2) = Some s →
  foldl (on_item reference_callback id) w xs = (w.1 ++ map (reference_update s) xs, w.2).
Proof.
  revert w. induction xs as [|x xs IH]; intros w Hs; cbn [foldl map].
  { rewrite app_nil_r. by destruct w. }
  unfold on_item at 2. unfold point_to. rewrite Hs, (reference_callback_eq _ _ _ s) by done.
  rewrite IH by done. cbn [fst snd]. by rewrite <- app_assoc.
Qed.

Lemma order_run_eq sh run :
  run.2 ≠ [] →
  on_run (dispatch_orders sid frame time snap) reference_callback ([], sh) run = ([], order_run sh run).
Proof.
  intros Hne. destruct run as [id xs]. unfold on_run, order_run, with_security. cbn [fst snd] in *.
  destruct (get_security id (definitions sh)) as [s|] eqn:Hs.
  - rewrite (order_items _ _ _ s) by done. unfold close_run, point_to. cbn [fst snd]. rewrite Hs.
    unfold dispatch_orders. rewrite (via_effect _ _ _ s) by done. cbn [fst snd app].
    destruct xs as [|x xs]; [done|]. cbn [map].
    by destruct (dispatch_market_by_order _ _ _ _ _ _ s sh).
  - assert (point_to id sh = None) as Hp by (unfold point_to; by rewrite Hs).
    assert (foldl (on_item reference_callback id) ([], sh) xs = ([], sh)) as ->.
    { clear - Hp. induction xs as [|x xs IH]; [done|]. simpl. unfold on_item at 2. cbn [snd]. by rewrite Hp. }
    unfold close_run. cbn [snd]. by rewrite Hp.
Qed.

Lemma order_runs_eq rs sh :
  Forall (λ run : Z * list order_reference, run.2 ≠ []) rs →
  foldl (on_run (dispatch_orders sid frame time snap) reference_callback) ([], sh) rs = ([], foldl order_run sh rs).
Proof.
  intros Hrs. revert sh. induction Hrs as [|run rs Hne _ IH]; intros sh; [done|]. cbn [foldl].
  by rewrite order_run_eq.
Qed.

Lemma order_run_step sh run : books_step sh (order_run sh run).
Proof.
  unfold order_run, with_security. destruct (get_security run.1 (definitions sh)) as [s|] eqn:Hs; [|done].
  pose proof (dispatch_market_by_order_step sid (sequence_number frame) time (sending_time frame)
    (map (reference_update s) run.2) snap s sh) as Hd.
  destruct (dispatch_market_by_order _ _ _ _ _ _ s sh) as [s' sh']. destruct Hd as [Hid (es & -> & _)].
  by eapply put_step.
Qed.

Lemma order_runs_step rs sh : books_step sh (foldl order_run sh rs).
Proof.
  revert sh. induction rs as [|run rs IH]; intros sh; [done|]. simpl. etrans; [|apply IH]. apply order_run_step.
Qed.
End order_loop_facts.

Section order_loop_spec.
Context `{Env}.

(** The order loop is the dispatch of the runs of references, and it leaves no
    orders in the cache. *)
Lemma book_order_loop_eq sid frame value snap sh :
  get_security 0 (definitions sh) = None →
  book_order_loop sid frame value snap ([], sh) =
  ([], foldl (order_run sid frame (rb_transactTime value) snap) sh
         (runs reference_id (references sh (rb_noOrderIDEntries value)))).
Proof.
  intros H0. assert (point_to 0 sh = None) as Hp by (unfold point_to; by rewrite H0).
  unfold book_order_loop.
  pose proof (process_order_fold sid frame (rb_transactTime value) snap sh (rb_noOrderIDEntries value) 0 ([], sh)
    eq_refl) as Hfold.
  cbn [snd] in Hfold. rewrite Hp in Hfold. rewrite Hfold.
  pose proof (security_iterator_runs reference_id (dispatch_orders sid frame (rb_transactTime value) snap)
    reference_callback reference_callback_step (references sh (rb_noOrderIDEntries value)) ([], sh) Hp) as Hruns.
  unfold security_iterator in Hruns. rewrite Hruns. apply order_runs_eq, runs_not_empty.
Qed.
End order_loop_spec.

(** ** Facts: one run of price entries *)

Section price_run_facts.
Context `{Env}.
Context (sid : Z) (frame : Frame) (time : Z).
Implicit Types (sh : Shared) (s : Security) (x : book_entry).

(** The report checks of a run, the references it leaves, and the updates that
    it collects for its security. *)
Definition book_checks (xs : list book_entry) s sh : Security * Shared :=
  foldl (λ '(s, sh) x, check_report_sequence sid frame (be_rptSeq x) s sh) (s, sh) xs.

Definition book_references (xs : list book_entry) sh : Shared :=
  if enable_market_by_order options then set_md_entries (md_entries_ sh ++ map md_entry_of xs) sh else sh.

Definition book_updates (xs : list book_entry) s (sc : book_scratch) : book_scratch :=
  foldl (λ sc x, process_known_to x s sc) sc xs.

Definition put_in (id : Z) s sh : Shared := set_definitions (put_security id s (definitions sh)) sh.

Lemma process_known_to_identity x s s' sc : same_identity s s' → process_known_to x s' sc = process_known_to x s sc.
Proof.
  intros (_ & _ & Hf & _). unfold process_known_to, book_emplace_back, book_mbp_update. by rewrite Hf.
Qed.

Lemma book_updates_identity xs s s' sc : same_identity s s' → book_updates xs s' sc = book_updates xs s sc.
Proof.
  intros Hid. unfold book_updates. revert sc. induction xs as [|x xs IH]; intros sc; [done|]. simpl.
  rewrite IH. by rewrite (process_known_to_identity _ _ _ _ Hid).
Qed.

Lemma get_put_in id s sh : discard s = false → get_security id (definitions (put_in id s sh)) = Some s.
Proof. intros Hd. apply get_security_Some. simpl. by rewrite lookup_insert_eq. Qed.

Lemma put_put_in id s s' sh : put_in id s' (put_in id s sh) = put_in id s' sh.
Proof. unfold put_in, put_security. simpl. by rewrite insert_insert_eq. Qed.

Lemma check_put_in id v s s0 sh :
  check_report_sequence sid frame v s (put_in id s0 sh) =
  let '(s', sh') := check_report_sequence sid frame v s sh in (s', put_in id s0 sh').
Proof.
  unfold check_report_sequence, update_rpt_seq. destruct (v =? 0); [done|]. simpl.
  by destruct (negb _).
Qed.

Lemma check_same v s sh s' sh' :
  check_report_sequence sid frame v s sh = (s', sh') →
  same_identity s s' ∧ discard s' = discard s ∧ md_entries_ sh' = md_entries_ sh ∧ definitions sh' = definitions sh.
Proof.
  intros E. pose proof (check_report_sequence_step sid frame v s sh) as Hs. rewrite E in Hs.
  destruct Hs as [Hid (es & -> & _)]. split_and!; [done|by destruct Hid as (_ & _ & _ & ->)| |].
  - pose proof (emit_all_scratch es sh) as [= -> _ _ _ _ _]. done.
  - apply emit_all_definitions.
Qed.

Lemma book_item_known id x s sc sh :
  discard s = false →
  book_item sid frame id (sc, put_in id s sh) x =
  let '(s', sh') := check_report_sequence sid frame (be_rptSeq x) s sh in
  (process_known_to x s sc, put_in id s' (book_references [x] sh')).
Proof.
  intros Hd. unfold book_item. cbv zeta.
  assert (point_to id (put_in id s sh) = Some id) as Hp by (unfold point_to; by rewrite get_put_in).
  cbn [snd]. rewrite Hp. rewrite (via_effect _ _ _ s) by (by apply get_put_in).
  cbn [snd fst]. rewrite check_put_in.
  destruct (check_report_sequence sid frame (be_rptSeq x) s sh) as [s' sh'] eqn:E.
  destruct (check_same _ _ _ _ _ E) as (Hid & Hd' & _). cbn [fst snd].
  fold (put_in id s' (put_in id s sh')). rewrite put_put_in. unfold book_references, process_known.
  set (w := if enable_market_by_order options then _ else _).
  assert (w = (sc, put_in id s' (book_references [x] sh'))) as ->
    by (unfold w, book_references; by destruct (enable_market_by_order options)).
  rewrite (via_effect _ _ _ s') by (apply get_put_in; congruence). cbn [fst snd].
  rewrite (process_known_to_identity _ _ _ _ Hid). f_equal. apply put_put_in.
Qed.

Lemma check_references xs v s sh :
  check_report_sequence sid frame v s (book_references xs sh) =
  let '(s', sh') := check_report_sequence sid frame v s sh in (s', book_references xs sh').
Proof.
  unfold book_references. destruct (enable_market_by_order options); [|by destruct (check_report_sequence _ _ _ _ _)].
  unfold check_report_sequence, update_rpt_seq. destruct (v =? 0); [done|]. by destruct (negb _).
Qed.

Lemma checks_references xs ys s sh :
  book_checks ys s (book_references xs sh) =
  let '(s', sh') := book_checks ys s sh in (s', book_references xs sh').
Proof.
  revert s sh. unfold book_checks. induction ys as [|y ys IH]; intros s sh; [done|]. cbn [foldl].
  rewrite check_references. destruct (check_report_sequence _ _ _ s sh) as [s' sh']. apply IH.
Qed.

Lemma references_references xs ys sh : book_references ys (book_references xs sh) = book_references (xs ++ ys) sh.
Proof.
  unfold book_references. destruct (enable_market_by_order options); [|done]. rewrite map_app.
  unfold set_md_entries. simpl. by rewrite app_assoc.
Qed.

Lemma book_items_known id xs s sc sh :
  discard s = false →
  foldl (book_item sid frame id) (sc, put_in id s sh) xs =
  let '(s', sh') := book_checks xs s sh in
  (book_updates xs s sc, put_in id s' (book_references xs sh')).
Proof.
  revert s sc sh. induction xs as [|x xs IH]; intros s sc sh Hd.
  { cbn. do 2 f_equal. unfold book_references. destruct (enable_market_by_order options); [|done].
    rewrite app_nil_r. by destruct sh. }
  cbn [foldl]. rewrite book_item_known by done. unfold book_checks, book_updates. cbn [foldl].
  destruct (check_report_sequence sid frame (be_rptSeq x) s sh) as [s' sh'] eqn:E.
  destruct (check_same _ _ _ _ _ E) as (Hid & Hd' & _).
  rewrite IH by congruence. rewrite checks_references. fold (book_checks xs s' sh').
  destruct (book_checks xs s' sh') as [s2 sh2].
  rewrite (book_updates_identity _ _ _ _ Hid), references_references. done.
Qed.

Lemma book_checks_same xs s sh s' sh' :
  book_checks xs s sh = (s', sh') → same_identity s s' ∧ discard s' = discard s
    ∧ md_entries_ sh' = md_entries_ sh ∧ definitions sh' = definitions sh.
Proof.
  revert s sh. unfold book_checks. induction xs as [|x xs IH]; intros s sh; cbn [foldl].
  { intros [= <- <-]. done. }
  destruct (check_report_sequence sid frame (be_rptSeq x) s sh) as [s1 sh1] eqn:E1. intros E.
  destruct (IH _ _ E) as (I2 & D2 & M2 & F2), (check_same _ _ _ _ _ E1) as (I1 & D1 & M1 & F1).
  split_and!; [by etrans|congruence..].
Qed.

Lemma book_items_unknown id xs w :
  point_to id w.2 = None → foldl (book_item sid frame id) w xs = (w.1, book_references xs w.2).
Proof.
  revert w. induction xs as [|x xs IH]; intros w Hp; cbn [foldl].
  { unfold book_references. destruct w as [sc sh], (enable_market_by_order options); [|done].
    cbn. rewrite app_nil_r. by destruct sh. }
  assert (book_item sid frame id w x = (w.1, book_references [x] w.2)) as Hx.
  { unfold book_item, book_references. cbv zeta. rewrite Hp. by destruct (enable_market_by_order options), w. }
  rewrite Hx, IH; cbn [fst snd]; [by rewrite references_references|].
  unfold point_to, book_references. by destruct (enable_market_by_order options).
Qed.

(** A run: its reports are checked, its entries kept for the orders, and its
    updates dispatched once. *)
Definition book_run_spec sh (run : Z * list book_entry) : Shared :=
  with_security run.1 (λ s sh,
    let '(s, (_, sh)) :=
      dispatch_book_to sid frame time (existsb is_first run.2) s (book_updates run.2 s empty_scratch, sh) in
    (s, sh))
    (book_references run.2 (with_security run.1 (book_checks run.2) sh)).

Lemma price_run_eq sh run : price_run sid frame time sh run = book_run_spec sh run.
Proof.
  destruct run as [id xs]. unfold price_run, book_run, book_run_spec, with_security. cbn [fst snd].
  destruct (get_security id (definitions sh)) as [s|] eqn:Hs.
  - assert (discard s = false) as Hd by by apply get_security_Some in Hs as [].
    assert (sh = put_in id s sh) as Hsh by (symmetry; by apply write_back_id).
    rewrite Hsh at 1. rewrite book_items_known by done.
    destruct (book_checks xs s sh) as [s1 sh1] eqn:E.
    destruct (book_checks_same _ _ _ _ _ E) as (Hid & Hd1 & _).
    assert (book_references xs (set_definitions (put_security id s1 (definitions sh1)) sh1)
      = put_in id s1 (book_references xs sh1)) as ->.
    { unfold book_references. by destruct (enable_market_by_order options). }
    assert (get_security id (definitions (put_in id s1 (book_references xs sh1))) = Some s1) as Hs1
      by (apply get_put_in; congruence).
    unfold close_book, point_to. cbn [snd]. rewrite Hs1. unfold dispatch_book.
    rewrite (via_effect _ _ _ s1) by done. rewrite (book_updates_identity _ _ _ _ Hid).
    by destruct (dispatch_book_to _ _ _ _ _ _) as [s2 [sc sh2]].
  - assert (point_to id sh = None) as Hp by (unfold point_to; by rewrite Hs).
    rewrite book_items_unknown by done. cbn [fst snd]. unfold close_book.
    assert (get_security id (definitions (book_references xs sh)) = None) as Hs2
      by (unfold book_references; by destruct (enable_market_by_order options)).
    unfold point_to. cbn [snd]. by rewrite Hs2.
Qed.
End price_run_facts.

(** ** Facts: MDIncrementalRefreshOrderBook47 *)

Section order_book_47_facts.
Context `{Env}.
Context (sid : Z) (frame : Frame) (time : Z).
Implicit Types (sh : Shared) (s : Security).

(** What the entries of a message add to the cache. *)
Definition kept_47 (sd : SecurityDefinitions) (items : list order_book_47_entry) : list Order47 :=
  concat (map (λ item, match get_security (o47_securityID item) sd with
                       | Some s => emplace_back_47 item s (o47_securityID item) []
                       | None => []
                       end) items).

Definition known_47 (sd : SecurityDefinitions) (items : list order_book_47_entry) : gset Z :=
  list_to_set (filter (λ id, is_Some (get_security id sd)) (map o47_securityID items)).

Lemma emplace_back_47_app item s id os : emplace_back_47 item s id os = os ++ emplace_back_47 item s id [].
Proof. unfold emplace_back_47. destruct (o47_mDEntryType item); by rewrite ?app_nil_r. Qed.

Lemma process_47_fold sh items id os ids :
  (is_Some (get_security id (definitions sh)) → id ∈ ids) →
  (foldl (process_47 sh) (id, get_security id (definitions sh), (os, ids)) items).2 =
  (os ++ kept_47 (definitions sh) items, ids ∪ known_47 (definitions sh) items).
Proof.
  revert id os ids. induction items as [|item items IH]; intros id os ids Hid.
  { cbn. f_equal; [by rewrite app_nil_r|set_solver]. }
  cbn [foldl]. unfold process_47 at 2. set (current := o47_securityID item).
  set (ids' := match get_security current (definitions sh) with Some _ => {[current]} ∪ ids | None => ids end).
  assert (is_Some (get_security current (definitions sh)) → current ∈ ids') as Hin.
  { intros [s Hs]. unfold ids'. rewrite Hs. set_solver. }
  assert (ids' ∪ known_47 (definitions sh) items = ids ∪ known_47 (definitions sh) (item :: items)) as Hknown.
  { unfold known_47, ids'. cbn [map]. fold current. rewrite filter_cons.
    destruct (get_security current (definitions sh)) as [s|]; case_decide as Hc; try set_solver. }
  assert (∀ os', os' = os ++ (match get_security current (definitions sh) with
                        Some s => emplace_back_47 item s current [] | None => [] end) →
    os' ++ kept_47 (definitions sh) items = os ++ kept_47 (definitions sh) (item :: items)) as Hkept.
  { intros os' ->. unfold kept_47. cbn [map concat]. by rewrite app_assoc. }
  destruct (current =? id) eqn:E; bool_to_prop.
  - assert (ids' = ids) as Hsame.
    { unfold ids'. rewrite E. destruct (get_security id (definitions sh)); [|done].
      assert (id ∈ ids) by by apply Hid. set_solver. }
    rewrite <- E, IH by (rewrite <- Hsame; exact Hin). rewrite <- Hknown, Hsame. f_equal. apply Hkept.
    destruct (get_security current _); [apply emplace_back_47_app|by rewrite app_nil_r].
  - rewrite IH by exact Hin. rewrite Hknown. f_equal. apply Hkept.
    destruct (get_security current _); [apply emplace_back_47_app|by rewrite app_nil_r].
Qed.

Lemma process_47_loop sh items os ids :
  get_security 0 (definitions sh) = None →
  (foldl (process_47 sh) (0, None, (os, ids)) items).2 =
  (os ++ kept_47 (definitions sh) items, ids ∪ known_47 (definitions sh) items).
Proof.
  intros H0. rewrite <- H0. apply process_47_fold. rewrite H0. by intros [].
Qed.

(** The update of one security: exactly its orders. *)
Definition order_47_run (os : list Order47) sh (id : Z) : Shared :=
  with_security id (λ s sh,
    dispatch_market_by_order sid (sequence_number frame) time (sending_time frame)
      (map order_47_update (filter (λ item, q_security_id item = id) os)) (rpt_seq s =? 0) s sh) sh.

Lemma dispatch_47_eq os sh id : dispatch_47 sid frame time os ([], sh) id = ([], order_47_run os sh id).
Proof.
  unfold dispatch_47, order_47_run, with_security.
  destruct (get_security id (definitions sh)) as [s|] eqn:Hs; [|by rewrite via_none].
  rewrite (via_effect _ _ _ s) by done. cbn [fst snd app].
  by destruct (dispatch_market_by_order _ _ _ _ _ _ s sh).
Qed.

Lemma dispatch_47_all os ids sh :
  foldl (dispatch_47 sid frame time os) ([], sh) ids = ([], foldl (order_47_run os) sh ids).
Proof. revert sh. induction ids as [|id ids IH]; intros sh; [done|]. cbn [foldl]. by rewrite dispatch_47_eq. Qed.

Lemma order_47_run_step os sh id : books_step sh (order_47_run os sh id).
Proof.
  unfold order_47_run, with_security. destruct (get_security id (definitions sh)) as [s|] eqn:Hs; [|done].
  set (orders := map order_47_update _).
  pose proof (dispatch_market_by_order_step sid (sequence_number frame) time (sending_time frame)
    orders (rpt_seq s =? 0) s sh) as Hd.
  destruct (dispatch_market_by_order _ _ _ _ _ _ s sh) as [s' sh']. destruct Hd as [Hid (es & -> & _)].
  by eapply put_step.
Qed.

Lemma kept_47_app sd xs ys : kept_47 sd (xs ++ ys) = kept_47 sd xs ++ kept_47 sd ys.
Proof. unfold kept_47. by rewrite map_app, concat_app. Qed.

Lemma known_47_app sd xs ys : known_47 sd (xs ++ ys) = known_47 sd xs ∪ known_47 sd ys.
Proof. unfold known_47. by rewrite map_app, filter_app, list_to_set_app_L. Qed.

(** The handler, from any state of the cache. *)
Lemma on_order_book_47_eq value cache sh :
  enable_market_by_order options = true → get_security 0 (definitions sh) = None →
  on_order_book_47 sid frame value (cache, sh) =
  let os := orders_47 cache ++ kept_47 (definitions sh) (r47_noMDEntries value) in
  let ids := security_ids_47 cache ∪ known_47 (definitions sh) (r47_noMDEntries value) in
  if r47_matchEventIndicator value =? 0 then
    ({| orders := orders cache; orders_47 := os; security_ids_47 := ids |}, sh)
  else
    let '(mbo, sh) :=
      foldl (dispatch_47 sid frame (r47_transactTime value) os) (orders cache, sh) (hash_order ids) in
    ({| orders := mbo; orders_47 := []; security_ids_47 := ∅ |}, sh).
Proof.
  intros Hen H0. unfold on_order_book_47. rewrite Hen. cbn [negb].
  pose proof (process_47_loop sh (r47_noMDEntries value) (orders_47 cache) (security_ids_47 cache) H0) as Hloop.
  destruct (foldl (process_47 sh) _ _) as [[id s] [os ids]]. cbn [snd] in Hloop. injection Hloop as -> ->.
  by destruct (r47_matchEventIndicator value =? 0).
Qed.
End order_book_47_facts.

(** ** Properties *)

Section incremental_book_properties.
Context `{Env}.
Implicit Types (sh : Shared) (s : Security).

(** C13: MDIncrementalRefreshBook46.  The handler does, for each run of price
    entries of one security, in order: all report checks of the run, then one
    dispatch of exactly the updates of the run, as a snapshot if the run has a
    first report ([book_run_spec]); then, if orders are enabled, one dispatch
    for each run of order entries that refer to entries of one security.
    Nothing of a run leaks into the next one, and no order is left in the
    cache (the assert of the handler). *)
Theorem on_book_46_spec sid frame value cache sh :
  get_security 0 (definitions sh) = None → orders cache = [] →
  on_book_46 sid frame value (cache, sh) =
  (let time := rb_transactTime value in
   let sh1 := foldl (book_run_spec sid frame time) (set_md_entries [] sh)
                (runs be_securityID (rb_noMDEntries value)) in
   (cache,
    if enable_market_by_order options then
      foldl (order_run sid frame time (existsb is_first (rb_noMDEntries value))) sh1
        (runs reference_id (references sh1 (rb_noOrderIDEntries value)))
    else sh1)).
Proof.
  intros H0 Hc. unfold on_book_46. rewrite book_price_loop_eq by done. cbv zeta.
  assert (∀ rs sh1, foldl (price_run sid frame (rb_transactTime value)) sh1 rs
    = foldl (book_run_spec sid frame (rb_transactTime value)) sh1 rs) as Hruns.
  { intros rs. induction rs as [|run rs IH]; intros sh1; [done|]. cbn [foldl]. by rewrite price_run_eq. }
  destruct (enable_market_by_order options); [|by rewrite Hruns].
  rewrite Hc, book_order_loop_eq.
  - destruct cache as [os os47 ids]. simpl in Hc. by rewrite Hc, Hruns.
  - pose proof (proj1 (price_runs_spec sid frame (rb_transactTime value)
      (runs be_securityID (rb_noMDEntries value)) (set_md_entries [] sh))) as [Hsame _].
    pose proof (get_security_same 0 _ _ Hsame) as Hrel. simpl in Hrel. rewrite H0 in Hrel. by inversion Hrel.
Qed.

(** references.  After the price entries of a message, the order entry
    with reference [r] refers to the [r]-th price entry of the message, counted
    from one over the entries of all securities, known and unknown; zero, null
    and larger references refer to nothing. *)
Theorem referenced_price_entry sid frame value item sh :
  get_security 0 (definitions sh) = None → enable_market_by_order options = true →
  0 ≤ get_int (oe_referenceID item) < 2 ^ 64 →
  referenced item (book_price_loop sid frame value sh).2 =
  if decide (get_int (oe_referenceID item) = 0) then None
  else
    (λ x, (be_securityID x, get_side_book (be_mDEntryType x), get_double_any (be_mDEntryPx x))) <$>
      (rb_noMDEntries value !! (Z.to_nat (get_int (oe_referenceID item)) - 1)%nat).
Proof.
  intros H0 Hen Hr. rewrite book_price_loop_eq by done. cbn [snd].
  set (sh1 := foldl _ _ _).
  assert (md_entries_ sh1 = map md_entry_of (rb_noMDEntries value)) as Hmd.
  { unfold sh1. rewrite (proj2 (price_runs_spec _ _ _ _ _)), Hen, concat_runs. done. }
  unfold referenced. rewrite Hmd. set (r := get_int (oe_referenceID item)) in *. cbv zeta.
  assert (u64 r = r) as Hu by (unfold u64, wrap; apply Z.mod_small; lia).
  rewrite Hu. case_decide as Hz; [by rewrite Hz|]. rewrite (proj2 (Z.eqb_neq r 0)) by done.
  assert (u64 (r - 1) = r - 1) as -> by (unfold u64, wrap; apply Z.mod_small; lia).
  assert (Z.to_nat r - 1 = Z.to_nat (r - 1))%nat as -> by lia.
  rewrite length_map. destruct (r - 1 <? Z.of_nat (length (rb_noMDEntries value))) eqn:E; bool_to_prop; simpl.
  - rewrite list_lookup_fmap. by destruct (rb_noMDEntries value !! Z.to_nat (r - 1)).
  - symmetry. rewrite fmap_None. apply lookup_ge_None. lia.
Qed.

(** C15: MDIncrementalRefreshOrderBook47, fragments.  A message that is not the
    last of its event has no effect but on the cache: handling it and then the
    next message is handling the next message with the entries of both. *)
Theorem order_book_47_fragments sid frame1 frame2 value1 value2 w :
  get_security 0 (definitions w.2) = None → r47_matchEventIndicator value1 = 0 →
  on_order_book_47 sid frame2 value2 (on_order_book_47 sid frame1 value1 w) =
  on_order_book_47 sid frame2
    {| r47_transactTime := r47_transactTime value2;
       r47_matchEventIndicator := r47_matchEventIndicator value2;
       r47_noMDEntries := r47_noMDEntries value1 ++ r47_noMDEntries value2 |} w.
Proof.
  intros H0 Hm. destruct (enable_market_by_order options) eqn:Hen;
    [|unfold on_order_book_47; by rewrite Hen].
  destruct w as [cache sh]. cbn [snd] in H0. rewrite (on_order_book_47_eq _ frame1) by done.
  rewrite Hm. cbn [Z.eqb]. cbv zeta. rewrite !on_order_book_47_eq by done.
  cbn [orders orders_47 security_ids_47 r47_noMDEntries r47_matchEventIndicator r47_transactTime].
  cbv zeta. by rewrite kept_47_app, known_47_app, app_assoc, (assoc_L (∪)).
Qed.

End incremental_book_properties.

(** ** Witnesses *)

Section incremental_book_witnesses.
#[local] Existing Instance the_env.

Definition example_entry (id rpt px : Z) (type : MDEntryTypeBook.Value) : book_entry := {|
  be_securityID := id; be_rptSeq := rpt; be_mDEntryPx := example_decimal px;
  be_mDEntrySize := example_null 10; be_numberOfOrders := example_null 2; be_mDPriceLevel := example_null 1;
  be_mDUpdateAction := MDUpdateAction.New; be_mDEntryType := type |}.

Definition example_order (order_id reference : Z) : order_id_entry := {|
  oe_orderID := example_null order_id; oe_mDOrderPriority := example_null 5;
  oe_mDDisplayQty := example_null 3; oe_referenceID := example_null reference;
  oe_orderUpdateAction := OrderUpdateAction.New |}.

(** Security 8 is known, security 9 is not. *)
Definition example_book : incremental_refresh_book := {|
  rb_transactTime := 1000;
  rb_noMDEntries := [example_entry 8 1 100 MDEntryTypeBook.Bid; example_entry 9 1 50 MDEntryTypeBook.Bid;
                     example_entry 8 2 101 MDEntryTypeBook.Offer];
  rb_noOrderIDEntries := [example_order 77 1; example_order 78 3; example_order 79 2; example_order 80 4] |}.

Definition example_order_47 (id order_id : Z) : order_book_47_entry := {|
  o47_securityID := id; o47_mDEntryPx := example_decimal 100; o47_mDDisplayQty := example_null 3;
  o47_mDOrderPriority := example_null 5; o47_orderID := example_null order_id;
  o47_mDUpdateAction := MDUpdateAction.New; o47_mDEntryType := MDEntryTypeBook.Bid |}.

Definition example_book_47 (last : Z) (entries : list order_book_47_entry) : incremental_refresh_order_book := {|
  r47_transactTime := 1000; r47_matchEventIndicator := last; r47_noMDEntries := entries |}.

Lemma on_book_46_spec_witness :
  length (log (on_book_46 7 example_frame example_book (empty_cache, example_shared)).2)
  = (length (log example_shared) + 3)%nat.
Proof.
  rewrite (on_book_46_spec 7 example_frame example_book empty_cache example_shared);
    [vm_compute; reflexivity|vm_compute; reflexivity|reflexivity].
Defined.

Lemma referenced_price_entry_witness :
  (referenced (example_order 79 2) (book_price_loop 7 example_frame example_book example_shared).2)
  = Some (9, Side.BUY, get_double_any (example_decimal 50)).
Proof.
  rewrite (referenced_price_entry 7 example_frame example_book (example_order 79 2) example_shared);
    [reflexivity|vm_compute; reflexivity|reflexivity|cbn; lia].
Defined.

Lemma order_book_47_fragments_witness :
  on_order_book_47 7 example_frame (example_book_47 128 [example_order_47 8 2])
    (on_order_book_47 7 example_frame (example_book_47 0 [example_order_47 8 1]) (empty_cache, example_shared))
  = on_order_book_47 7 example_frame
      (example_book_47 128 ([example_order_47 8 1] ++ [example_order_47 8 2])) (empty_cache, example_shared).
Proof.
  apply (order_book_47_fragments 7 example_frame example_frame (example_book_47 0 [example_order_47 8 1])
    (example_book_47 128 [example_order_47 8 2]) (empty_cache, example_shared));
    [vm_compute; reflexivity|reflexivity].
Defined.

End incremental_book_witnesses.
