(* ===== verification/IncrementalTrades.v ===== *)
(** The incremental feed: trades
    (src/roq/cme/market_data/incremental.cpp: [dispatch_trade_summary], the
    handler of MDIncrementalRefreshTradeSummary48 and ...LongQty65). *)

From S2P Require Import Prelude Double Api MdpMap Messages MdpParser Security SecdefReader SecurityDefinitions Channel MarketData InstrumentDefinition Recovery IncrementalBase.

Section trades.
Context `{Env}.
Implicit Types (sh : Shared) (security : Security).

(** ** Collecting the fragments of an event *)

Definition clear_state sh : Shared := set_trades [] [] [] (transact_time_ sh) 0 sh.

Definition set_transact_time (t : Z) sh : Shared :=
  set_trades (trade_summary_ sh) (security_ids_ sh) (orders_ sh) t (total_number_of_orders_ sh) sh.

Definition insert_security_id (security_id : Z) (security_ids : list Z) : list Z :=
  if bool_decide (security_id ∈ security_ids) then security_ids else security_ids ++ [security_id].

(** The tuple that is kept: a 32 bit size, and the number of orders as [size_t]. *)
Definition trade_item_of (item : trade_entry) : trade_item := {|
  ts_security_id := te_securityID item;
  ts_side := get_side_aggressor (te_aggressorSide item);
  ts_price := get_double_any (te_mDEntryPx item);
  ts_size := to_signed 32 (te_mDEntrySize item);
  ts_number_of_orders := u64 (te_numberOfOrders item);
  ts_trade_id := u32 (get_int (te_mDTradeEntryID item)) |}.

(** The callback of [noMDEntries]. *)
Definition collect_trade (sid : Z) (frame : Frame) sh (item : trade_entry) : Shared :=
  let sh :=
    set_trades (trade_summary_ sh ++ [trade_item_of item])
      (insert_security_id (te_securityID item) (security_ids_ sh)) (orders_ sh) (transact_time_ sh)
      (u64 (total_number_of_orders_ sh + te_numberOfOrders item)) sh in
  with_security (te_securityID item) (check_report_sequence sid frame (te_rptSeq item)) sh.

(** The callback of [noOrderIDEntries]. *)
Definition collect_order sh (item : trade_order_entry) : Shared :=
  set_trades (trade_summary_ sh) (security_ids_ sh)
    (orders_ sh ++ [(to_orderID item, to_signed 32 (to_lastQty item))])
    (transact_time_ sh) (total_number_of_orders_ sh) sh.

Definition collect_trades (sid : Z) (frame : Frame) (value : incremental_refresh_trade_summary) sh : Shared :=
  let fragmented := rt_transactTime value =? transact_time_ sh in
  let sh := if negb fragmented then clear_state (set_transact_time (rt_transactTime value) sh) else sh in
  let sh := foldl (collect_trade sid frame) sh (rt_noMDEntries value) in
  foldl collect_order sh (rt_noOrderIDEntries value).

(** ** Publishing an event *)

(** [orders_[offset]], unchecked. *)
Definition order_at (offset : Z) (orders : list (Z * Z)) : res (Z * Z) :=
  match orders !! Z.to_nat offset with
  | Some order => Ok order
  | None => Err AccessOutOfBounds
  end.

(** [for (; offset_2 < number_of_orders; ++offset_2)], over the orders from
    [offset + offset_2] on. *)
Fixpoint for_orders {S} (f : Z * Z → S → S) (n : nat) (orders : list (Z * Z)) (s : S) : res S :=
  match n, orders with
  | O, _ => Ok s
  | Datatypes.S n, order :: orders => for_orders f n orders (f order s)
  | Datatypes.S n, [] => Err AccessOutOfBounds
  end.

Definition trade_mbo_update (item : trade_item) security (side : Side.t) (order : Z * Z) : MBOUpdate :=
  {| mbo_price := dmul (ts_price item) (display_factor security);
     mbo_quantity := double_of_Z order.2;
     mbo_priority := 0;
     mbo_order_id := fmt_Z order.1;
     mbo_side := side;
     mbo_action := UpdateAction.TRADE |}.

(** The body of the loop over [trade_summary_], market by order. *)
Definition trade_mbo (orders : list (Z * Z)) security (item : trade_item) (offset : Z)
    (mbo : mbo_update) : res mbo_update :=
  let aggressor_side := ts_side item in
  '(side, offset_2) ←
    (if negb (bool_decide (aggressor_side = Side.UNDEFINED)) then
       '(_, last_qty) ← order_at offset orders;
       Ok (if last_qty =? ts_size item then invert aggressor_side else aggressor_side, 1)
     else Ok (aggressor_side, 0));
  for_orders (λ order mbo, mbo ++ [trade_mbo_update item security side order])
    (Z.to_nat (ts_number_of_orders item - offset_2)) (drop (Z.to_nat (offset + offset_2)) orders) mbo.

Definition trade_of (item : trade_item) security (order : Z * Z) (taker maker : string) : Trade :=
  {| trade_side := ts_side item;
     trade_price := dmul (ts_price item) (display_factor security);
     trade_quantity := safe_cast_to_double order.2;
     trade_id := fmt_Z (ts_trade_id item);
     trade_taker_order_id := taker;
     trade_maker_order_id := maker |}.

(** ... and trades. *)
Definition trade_trades (orders : list (Z * Z)) security (item : trade_item) (offset : Z)
    (trades : list Trade) : res (list Trade) :=
  let aggressor_side := ts_side item in
  '(taker_order_id, offset_2, trades) ←
    (if negb (bool_decide (aggressor_side = Side.UNDEFINED)) then
       '(order_id, last_qty) ← order_at offset orders;
       let trade := trade_of item security (order_id, last_qty) (fmt_Z order_id) "" in
       if last_qty =? ts_size item then
         Ok (fmt_Z order_id, 1,
             if ts_number_of_orders item =? 1 then trades ++ [trade] else trades)
       else (* join *)
         Ok ("", 1, trades ++ [trade])
     else Ok ("", 0, trades));
  for_orders (λ order trades, trades ++ [trade_of item security order taker_order_id (fmt_Z order.1)])
    (Z.to_nat (ts_number_of_orders item - offset_2)) (drop (Z.to_nat (offset + offset_2)) orders) trades.

(** The loop over [trade_summary_] for one security. *)
Definition for_trades {A} (body : trade_item → Z → list A → res (list A)) (security_id : Z)
    (items : list trade_item) (s : list A) : res (list A) :=
  '(_, s) ←
    foldM (λ '(offset, s) item,
      s ← (if security_id =? ts_security_id item then body item offset s else Ok s);
      Ok (u64 (offset + ts_number_of_orders item), s))
    (0, s) items;
  Ok s.

(** The market by order loop for one security. *)
Definition publish_mbo (sid : Z) (frame : Frame) (exchange_time_utc : Z) (w : mbo_update * Shared)
    (security_id : Z) : res (mbo_update * Shared) :=
  let '(mbo, sh) := w in
  match get_security security_id (definitions sh) with
  | None => Ok w
  | Some security =>
    mbo ← for_trades (trade_mbo (orders_ sh) security) security_id (trade_summary_ sh) mbo;
    match mbo with
    | [] => Ok (mbo, sh)
    | _ =>
      let '(security, sh) :=
        dispatch_market_by_order sid (sequence_number frame) exchange_time_utc (sending_time frame)
          mbo false security sh in
      Ok ([], set_definitions (put_security security_id security (definitions sh)) sh)
    end
  end.

(** The trades loop for one security. *)
Definition publish_trades (sid : Z) (frame : Frame) (exchange_time_utc : Z) (w : list Trade * Shared)
    (security_id : Z) : res (list Trade * Shared) :=
  let '(trades, sh) := w in
  match get_security security_id (definitions sh) with
  | None => Ok w
  | Some security =>
    trades ← for_trades (trade_trades (orders_ sh) security) security_id (trade_summary_ sh) trades;
    match trades with
    | [] => Ok (trades, sh)
    | _ =>
      Ok ([], emit (EvTradeSummary (header sid exchange_time_utc (sequence_number frame)
                                      (sending_time frame) security) trades) sh)
    end
  end.

Definition publish_trade_summary (sid : Z) (frame : Frame) (exchange_time_utc : Z) sh : res Shared :=
  '(_, sh) ← foldM (publish_mbo sid frame exchange_time_utc) ([], sh) (security_ids_ sh);
  '(_, sh) ← foldM (publish_trades sid frame exchange_time_utc) ([], sh) (security_ids_ sh);
  Ok (clear_state (set_transact_time 0 sh)).

(** The handler. *)
Definition dispatch_trade_summary (sid : Z) (frame : Frame) (value : incremental_refresh_trade_summary)
    sh : res Shared :=
  let sh := collect_trades sid frame value sh in
  if Z.of_nat (length (orders_ sh)) <? total_number_of_orders_ sh then
    Ok (set_transact_time (rt_transactTime value) sh)
  else publish_trade_summary sid frame (rt_transactTime value) sh.
End trades.

(** ** Facts: what an event publishes *)

Section publish_facts.
Context `{Env}.
Implicit Types (sh : Shared) (s : Security).

(** The orders of each trade: they are consecutive. *)
Fixpoint assign (items : list trade_item) (orders : list (Z * Z)) : list (trade_item * list (Z * Z)) :=
  match items with
  | [] => []
  | x :: items =>
    let n := Z.to_nat (ts_number_of_orders x) in
    (x, take n orders) :: assign items (drop n orders)
  end.

(** The updates of the orders that traded: with an aggressor, its own order is
    left out, and the others are on the other side if it filled in full. *)
Definition mbo_updates s (t : trade_item * list (Z * Z)) : mbo_update :=
  let '(x, os) := t in
  let traded side order := {|
    mbo_price := dmul (ts_price x) (display_factor s); mbo_quantity := double_of_Z order.2;
    mbo_priority := 0; mbo_order_id := fmt_Z order.1; mbo_side := side;
    mbo_action := UpdateAction.TRADE |} in
  match bool_decide (ts_side x = Side.UNDEFINED), os with
  | false, (_, last_qty) :: makers =>
    map (traded (if last_qty =? ts_size x then invert (ts_side x) else ts_side x)) makers
  | _, _ => map (traded (ts_side x)) os
  end.

(** The trades: one for each maker, with the taker if it filled in full, and
    one for the taker alone if it has no maker or did not fill in full. *)
Definition trades_of s (t : trade_item * list (Z * Z)) : list Trade :=
  let '(x, os) := t in
  let trade taker maker quantity := {|
    trade_side := ts_side x; trade_price := dmul (ts_price x) (display_factor s);
    trade_quantity := safe_cast_to_double quantity; trade_id := fmt_Z (ts_trade_id x);
    trade_taker_order_id := taker; trade_maker_order_id := maker |} in
  match bool_decide (ts_side x = Side.UNDEFINED), os with
  | false, (order_id, last_qty) :: makers =>
    let taker := fmt_Z order_id in
    if last_qty =? ts_size x then
      match makers with
      | [] => [trade taker "" last_qty]
      | _ => map (λ order, trade taker (fmt_Z order.1) order.2) makers
      end
    else trade taker "" last_qty :: map (λ order, trade "" (fmt_Z order.1) order.2) makers
  | _, _ => map (λ order, trade "" (fmt_Z order.1) order.2) os
  end.

(** What the check of the handler leaves open: a trade with an aggressor has
    orders. *)
Definition trade_ok (x : trade_item) : Prop :=
  0 ≤ ts_number_of_orders x ∧ (ts_side x ≠ Side.UNDEFINED → 0 < ts_number_of_orders x).

Definition total_orders (items : list trade_item) : Z :=
  foldr (λ x n, ts_number_of_orders x + n) 0 items.

Lemma for_orders_map {B} (g : Z * Z → B) n orders l :
  (n ≤ length orders)%nat →
  for_orders (λ o l, l ++ [g o]) n orders l = Ok (l ++ map g (take n orders)).
Proof.
  revert n l. induction orders as [|o orders IH]; intros [|n] l Hn; simpl in *; try lia;
    try by rewrite app_nil_r.
  rewrite IH by lia. by rewrite <- app_assoc.
Qed.

Lemma order_at_drop off orders :
  0 ≤ off → order_at off orders = match drop (Z.to_nat off) orders with o :: _ => Ok o | [] => Err AccessOutOfBounds end.
Proof.
  intros Hoff. unfold order_at. rewrite <- (Nat.add_0_r (Z.to_nat off)) at 1. rewrite <- lookup_drop.
  by destruct (drop (Z.to_nat off) orders).
Qed.

(** The orders of a trade with an aggressor. *)
Lemma aggressor_orders (x : trade_item) off (orders : list (Z * Z)) :
  0 < ts_number_of_orders x → 0 ≤ off → off + ts_number_of_orders x ≤ Z.of_nat (length orders) →
  ∃ o rest, order_at off orders = Ok o
    ∧ take (Z.to_nat (ts_number_of_orders x)) (drop (Z.to_nat off) orders)
      = o :: take (Z.to_nat (ts_number_of_orders x - 1)) rest
    ∧ drop (Z.to_nat (off + 1)) orders = rest
    ∧ (Z.to_nat (ts_number_of_orders x - 1) ≤ length rest)%nat.
Proof.
  intros Hn Hoff Hlen. rewrite order_at_drop by done.
  assert (length (drop (Z.to_nat off) orders) = length orders - Z.to_nat off)%nat as Hd by apply length_drop.
  assert (drop (Z.to_nat (off + 1)) orders = drop 1 (drop (Z.to_nat off) orders)) as ->.
  { rewrite drop_drop. f_equal. lia. }
  destruct (drop (Z.to_nat off) orders) as [|o rest]; simpl in Hd; [lia|].
  exists o, rest. split_and!; [done| |done|lia].
  by replace (Z.to_nat (ts_number_of_orders x)) with (S (Z.to_nat (ts_number_of_orders x - 1))) by lia.
Qed.

Lemma trade_mbo_ok s x off orders mbo :
  trade_ok x → 0 ≤ off → off + ts_number_of_orders x ≤ Z.of_nat (length orders) →
  trade_mbo orders s x off mbo =
  Ok (mbo ++ mbo_updates s (x, take (Z.to_nat (ts_number_of_orders x)) (drop (Z.to_nat off) orders))).
Proof.
  intros [Hn Hpos] Hoff Hlen. unfold trade_mbo, mbo_updates.
  destruct (decide (ts_side x = Side.UNDEFINED)) as [E|E].
  - rewrite (bool_decide_eq_true_2 _ E). simpl. rewrite Z.sub_0_r, Z.add_0_r.
    apply for_orders_map. rewrite length_drop. lia.
  - rewrite (bool_decide_eq_false_2 _ E). cbn [negb].
    destruct (aggressor_orders x off orders (Hpos E)) as ([oid q] & rest & Ho & Ht & Hd & Hl); [done..|].
    rewrite Ho, Ht. cbn. rewrite Hd. by apply for_orders_map.
Qed.

Lemma trade_trades_ok s x off orders trades :
  trade_ok x → 0 ≤ off → off + ts_number_of_orders x ≤ Z.of_nat (length orders) →
  trade_trades orders s x off trades =
  Ok (trades ++ trades_of s (x, take (Z.to_nat (ts_number_of_orders x)) (drop (Z.to_nat off) orders))).
Proof.
  intros [Hn Hpos] Hoff Hlen. unfold trade_trades, trades_of.
  destruct (decide (ts_side x = Side.UNDEFINED)) as [E|E].
  - rewrite (bool_decide_eq_true_2 _ E). simpl. rewrite Z.sub_0_r, Z.add_0_r.
    apply for_orders_map. rewrite length_drop. lia.
  - rewrite (bool_decide_eq_false_2 _ E). cbn [negb]. specialize (Hpos E).
    destruct (aggressor_orders x off orders Hpos) as ([oid q] & rest & Ho & Ht & Hd & Hl); [done..|].
    rewrite Ho, Ht. cbn. destruct (q =? ts_size x); cbn; rewrite Hd.
    + rewrite for_orders_map by done. f_equal. destruct (ts_number_of_orders x =? 1) eqn:E1; bool_to_prop.
      * rewrite E1. simpl. by rewrite app_nil_r.
      * f_equal. destruct (take _ rest) as [|o os] eqn:Et; [|done].
        apply (f_equal length) in Et. rewrite length_take in Et. simpl in Et. lia.
    + rewrite for_orders_map by done. by rewrite <- app_assoc.
Qed.

Lemma total_orders_nonneg items : Forall trade_ok items → 0 ≤ total_orders items.
Proof. induction 1 as [|x items [Hx _] _ IH]; simpl; lia. Qed.

(** The loop for one security, for a body that appends what [spec] says. *)
Lemma for_trades_ok {A} (body : trade_item → Z → list A → res (list A))
    (spec : trade_item * list (Z * Z) → list A) id items orders l :
  (∀ x off l, trade_ok x → 0 ≤ off → off + ts_number_of_orders x ≤ Z.of_nat (length orders) →
    body x off l = Ok (l ++ spec (x, take (Z.to_nat (ts_number_of_orders x)) (drop (Z.to_nat off) orders)))) →
  Forall trade_ok items → total_orders items ≤ Z.of_nat (length orders) → Z.of_nat (length orders) < 2 ^ 64 →
  for_trades body id items l =
  Ok (l ++ concat (map spec (filter (λ t, ts_security_id t.1 = id) (assign items orders)))).
Proof.
  intros Hbody Hok Htotal Hwidth. unfold for_trades.
  assert (∀ off l, 0 ≤ off → off + total_orders items ≤ Z.of_nat (length orders) →
    foldM (λ '(offset, s) item,
      s ← (if id =? ts_security_id item then body item offset s else Ok s);
      Ok (u64 (offset + ts_number_of_orders item), s)) (off, l) items
    = Ok (off + total_orders items,
          l ++ concat (map spec (filter (λ t, ts_security_id t.1 = id) (assign items (drop (Z.to_nat off) orders)))))) as Hloop.
  { clear l Htotal. induction Hok as [|x items Hx Hok IH]; intros off l Hoff Hlen.
    { simpl. by rewrite Z.add_0_r, app_nil_r. }
    pose proof (total_orders_nonneg _ Hok) as Hnn. destruct (Hx) as [Hn _]. simpl in Hlen.
    assert (u64 (off + ts_number_of_orders x) = off + ts_number_of_orders x) as Hu
      by (unfold u64, wrap; apply Z.mod_small; lia).
    cbn [foldM assign total_orders foldr]. fold (total_orders items).
    assert (drop (Z.to_nat (ts_number_of_orders x)) (drop (Z.to_nat off) orders)
      = drop (Z.to_nat (off + ts_number_of_orders x)) orders) as Hdrop.
    { rewrite drop_drop. f_equal. lia. }
    rewrite Hdrop, filter_cons. simpl.
    destruct (id =? ts_security_id x) eqn:E; bool_to_prop.
    - rewrite decide_True by done. rewrite Hbody by (done || lia). simpl. rewrite Hu, IH by lia.
      by rewrite Z.add_assoc, <- app_assoc.
    - rewrite decide_False by (intros ?; congruence). simpl. rewrite Hu, IH by lia. by rewrite Z.add_assoc. }
  by rewrite Hloop by lia.
Qed.
End publish_facts.

(** ** Facts: publication *)

Section publication_facts.
Context `{Env}.
Context (sid : Z) (frame : Frame) (time : Z).
Implicit Types (sh : Shared) (s : Security).

(** The collected trades of the event, and their orders. *)
Context (items : list trade_item) (os : list (Z * Z)).

(** The trades of a security, with their orders. *)
Definition trades_for (id : Z) : list (trade_item * list (Z * Z)) :=
  filter (λ t, ts_security_id t.1 = id) (assign items os).

(** The update that the book of a security gets. *)
Definition mbo_run sh (id : Z) : Shared :=
  with_security id (λ s sh,
    match concat (map (mbo_updates s) (trades_for id)) with
    | [] => (s, sh)
    | os => dispatch_market_by_order sid (sequence_number frame) time (sending_time frame) os false s sh
    end) sh.

(** The trade summary of a security. *)
Definition summary_of (sd : SecurityDefinitions) (id : Z) : option md_event :=
  s ← get_security id sd;
  match concat (map (trades_of s) (trades_for id)) with
  | [] => None
  | trades => Some (EvTradeSummary (header sid time (sequence_number frame) (sending_time frame) s) trades)
  end.

Definition trades_run sh (id : Z) : Shared :=
  match summary_of (definitions sh) id with Some e => emit e sh | None => sh end.

(** The event is complete, and its counts are those of the code's check. *)
Record event_ok sh : Prop := {
  event_ok_items : trade_summary_ sh = items;
  event_ok_orders : orders_ sh = os;
  event_trades : Forall trade_ok items;
  event_total : total_orders items ≤ Z.of_nat (length os);
  event_width : Z.of_nat (length os) < 2 ^ 64;
}.

Lemma event_ok_scratch sh sh' : scratch sh' = scratch sh → event_ok sh → event_ok sh'.
Proof. intros [= _ Ht _ Ho _ _] [H1 H2 H3 H4 H5]. split; by rewrite ?Ht, ?Ho. Qed.

Lemma publish_mbo_eq sh id : event_ok sh → publish_mbo sid frame time ([], sh) id = Ok ([], mbo_run sh id).
Proof.
  intros [Hi Ho Hok Htotal Hwidth]. unfold publish_mbo, mbo_run, with_security. rewrite Hi, Ho.
  destruct (get_security id (definitions sh)) as [s|] eqn:Hs; [|done].
  rewrite (for_trades_ok _ (mbo_updates s) id _ os) by (try done; intros; by apply trade_mbo_ok).
  unfold trades_for. simpl. destruct (concat _) as [|o updates]; [by rewrite write_back_id|].
  by destruct (dispatch_market_by_order _ _ _ _ _ _ s sh).
Qed.

Lemma publish_trades_eq sh id : event_ok sh → publish_trades sid frame time ([], sh) id = Ok ([], trades_run sh id).
Proof.
  intros [Hi Ho Hok Htotal Hwidth]. unfold publish_trades, trades_run, summary_of. rewrite Hi, Ho.
  destruct (get_security id (definitions sh)) as [s|] eqn:Hs; [|done].
  rewrite (for_trades_ok _ (trades_of s) id _ os) by (try done; intros; by apply trade_trades_ok).
  unfold trades_for. simpl. by destruct (concat _).
Qed.

Lemma mbo_run_step sh id : books_step sh (mbo_run sh id).
Proof.
  unfold mbo_run, with_security. destruct (get_security id (definitions sh)) as [s|] eqn:Hs; [|done].
  destruct (concat _) as [|o updates]; [by rewrite write_back_id|].
  pose proof (dispatch_market_by_order_step sid (sequence_number frame) time (sending_time frame) (o :: updates) false s sh) as Hd.
  destruct (dispatch_market_by_order _ _ _ _ _ _ s sh) as [s' sh']. destruct Hd as [Hid (es & -> & _)].
  by eapply put_step.
Qed.

Lemma trades_run_step sh id : books_step sh (trades_run sh id).
Proof.
  unfold trades_run. destruct (summary_of _ _); [|done]. split; [done| |done]. simpl. by apply prefix_app_r.
Qed.

(** The trades loop only publishes. *)
Lemma trades_runs ids sh :
  foldl trades_run sh ids = foldl (λ sh e, emit e sh) sh (omap (summary_of (definitions sh)) ids).
Proof.
  revert sh. induction ids as [|id ids IH]; intros sh; [done|]. cbn [foldl omap list_omap].
  rewrite IH. unfold trades_run. by destruct (summary_of (definitions sh) id).
Qed.

Lemma mbo_run_scratch ts ids os' t n sh id :
  mbo_run (set_trades ts ids os' t n sh) id = set_trades ts ids os' t n (mbo_run sh id).
Proof.
  unfold mbo_run, with_security. cbn [definitions set_trades].
  destruct (get_security id (definitions sh)) as [s|]; [|done].
  destruct (concat _) as [|o updates]; [done|]. unfold dispatch_market_by_order, sequence_update. cbv zeta.
  set (ev := λ orders update_type, EvMarketByOrderUpdate _ orders update_type).
  pose proof (λ seq p r, run_map (λ w : Z * Shared, (w.1, set_trades ts ids os' t n w.2))
    (incremental_update_call ev seq) p (r, sh)) as Hmap. cbn [fst snd] in Hmap.
  rewrite Hmap by (by intros [|[|]] q [r1 sh1]). by destruct (run _ _ _) as [[[] q] [r sh1]].
Qed.

Lemma fold_step {A} (f : Shared → A → Shared) l sh :
  (∀ sh x, books_step sh (f sh x)) → books_step sh (foldl f sh l).
Proof. apply (foldl_rel books_step). Qed.

Lemma publish_loop {A} (f : list A * Shared → Z → res (list A * Shared)) g ids sh :
  (∀ sh id, event_ok sh → f ([], sh) id = Ok ([], g sh id)) → (∀ sh id, books_step sh (g sh id)) →
  event_ok sh → foldM f ([], sh) ids = Ok ([], foldl g sh ids).
Proof.
  intros Hf Hg. revert sh. induction ids as [|id ids IH]; intros sh Hsh; [done|].
  cbn [foldM foldl]. rewrite Hf by done. apply IH. eapply event_ok_scratch, Hsh. apply Hg.
Qed.

Lemma publish_trade_summary_eq sh :
  event_ok sh →
  publish_trade_summary sid frame time sh =
  Ok (clear_state (set_transact_time 0
        (foldl trades_run (foldl mbo_run sh (security_ids_ sh)) (security_ids_ sh)))).
Proof.
  intros Hsh. unfold publish_trade_summary.
  rewrite (publish_loop _ mbo_run) by (apply publish_mbo_eq || apply mbo_run_step || done).
  cbn [mbind res_bind].
  pose proof (fold_step mbo_run (security_ids_ sh) sh mbo_run_step) as Hstep.
  set (sh1 := foldl mbo_run sh (security_ids_ sh)) in *.
  assert (security_ids_ sh1 = security_ids_ sh) as -> by (destruct Hstep as [_ _ [= _ _ -> _ _ _]]; done).
  rewrite (publish_loop _ trades_run);
    [done|apply publish_trades_eq|apply trades_run_step|]. eapply event_ok_scratch, Hsh. apply Hstep.
Qed.
End publication_facts.

(** ** Facts: collecting *)

Section collect_facts.
Context `{Env}.
Implicit Types (sh : Shared) (s : Security).

(** The scratch after the entries, which does not depend on the securities. *)
Record collected sh (ts : list trade_item) (ids : list Z) (os : list (Z * Z)) (t n : Z) : Prop := {
  col_trades : trade_summary_ sh = ts;
  col_ids : security_ids_ sh = ids;
  col_orders : orders_ sh = os;
  col_time : transact_time_ sh = t;
  col_total : total_number_of_orders_ sh = n;
}.

Lemma collect_trade_step sid frame sh item :
  feed_step sh (collect_trade sid frame sh item) ∧
  collected (collect_trade sid frame sh item) (trade_summary_ sh ++ [trade_item_of item])
    (insert_security_id (te_securityID item) (security_ids_ sh)) (orders_ sh) (transact_time_ sh)
    (u64 (total_number_of_orders_ sh + te_numberOfOrders item)).
Proof.
  unfold collect_trade. set (sh1 := set_trades _ _ _ _ _ sh).
  assert (books_step sh1 (with_security (te_securityID item)
    (check_report_sequence sid frame (te_rptSeq item)) sh1)) as [H1 H2 H3].
  { unfold with_security. destruct (get_security _ (definitions sh1)) as [s|] eqn:Hs; [|done].
    pose proof (check_report_sequence_step sid frame (te_rptSeq item) s sh1) as Hc.
    destruct (check_report_sequence _ _ _ s sh1) as [s' sh']. destruct Hc as [Hid (es & -> & _)].
    by eapply put_step. }
  split; [by split|]. injection H3 as _ E1 E2 E3 E4 E5. split; assumption.
Qed.

Lemma collect_trades_step sid frame items sh :
  let sh' := foldl (collect_trade sid frame) sh items in
  feed_step sh sh' ∧
  collected sh' (trade_summary_ sh ++ map trade_item_of items)
    (foldl (λ ids item, insert_security_id (te_securityID item) ids) (security_ids_ sh) items)
    (orders_ sh) (transact_time_ sh)
    (foldl (λ n item, u64 (n + te_numberOfOrders item)) (total_number_of_orders_ sh) items).
Proof.
  revert sh. induction items as [|item items IH]; intros sh; simpl.
  { split; [done|]. split; by rewrite ?app_nil_r. }
  destruct (collect_trade_step sid frame sh item) as [Hs [E1 E2 E3 E4 E5]].
  destruct (IH (collect_trade sid frame sh item)) as [Hs' [F1 F2 F3 F4 F5]].
  split; [by etrans|]. rewrite E1, E2, E3, E4, E5 in *. split; try done.
  by rewrite F1, <- app_assoc.
Qed.

Lemma collect_orders_step items sh :
  let sh' := foldl collect_order sh items in
  feed_step sh sh' ∧
  collected sh' (trade_summary_ sh) (security_ids_ sh)
    (orders_ sh ++ map (λ o, (to_orderID o, to_signed 32 (to_lastQty o))) items)
    (transact_time_ sh) (total_number_of_orders_ sh).
Proof.
  revert sh. induction items as [|item items IH]; intros sh; simpl.
  { split; [done|]. split; by rewrite ?app_nil_r. }
  destruct (IH (collect_order sh item)) as [Hs' [F1 F2 F3 F4 F5]].
  split; [etrans; [|exact Hs']; by split|]. split; try done. rewrite F3. simpl. by rewrite <- app_assoc.
Qed.

(** The first-appearance list of ids. *)
Definition ids_of (items : list trade_item) : list Z :=
  foldl (λ ids x, insert_security_id (ts_security_id x) ids) [] items.

(** Each id once, where it appears first. *)
Fixpoint firsts (ids : list Z) : list Z :=
  match ids with
  | [] => []
  | id :: ids => id :: filter (λ x, x ≠ id) (firsts ids)
  end.

Lemma insert_firsts items ids :
  foldl (λ ids x, insert_security_id (ts_security_id x) ids) ids items
  = ids ++ filter (λ id, id ∉ ids) (firsts (map ts_security_id items)).
Proof.
  revert ids. induction items as [|x items IH]; intros ids; simpl; [by rewrite app_nil_r|]. rewrite IH.
  unfold insert_security_id. case_bool_decide as Hin; rewrite filter_cons.
  - rewrite decide_False by (by intros ?). rewrite list_filter_filter. f_equal. apply list_filter_iff. set_solver.
  - rewrite decide_True by done. rewrite <- app_assoc. simpl. do 2 f_equal. rewrite list_filter_filter.
    apply list_filter_iff. set_solver.
Qed.

Lemma ids_of_firsts items : ids_of items = firsts (map ts_security_id items).
Proof.
  unfold ids_of. rewrite insert_firsts. simpl. induction (firsts _) as [|x l IH]; [done|].
  rewrite filter_cons, decide_True by set_solver. by f_equal.
Qed.

(** The invariant of the fragments: the ids and the total are those of the
    trades. *)
Record fragments_ok sh : Prop := {
  frag_ids : security_ids_ sh = ids_of (trade_summary_ sh);
  frag_total : total_number_of_orders_ sh = u64 (total_orders (trade_summary_ sh));
  frag_width : Forall (λ x, 0 ≤ ts_number_of_orders x) (trade_summary_ sh);
}.

Lemma total_orders_app xs ys : total_orders (xs ++ ys) = total_orders xs + total_orders ys.
Proof. induction xs as [|x xs IH]; simpl; [done|]. rewrite IH. lia. Qed.

Lemma u64_add_l a b : u64 (u64 a + b) = u64 (a + b).
Proof. unfold u64, wrap. by rewrite Z.add_mod_idemp_l. Qed.

Lemma u64_add_r a b : u64 (a + u64 b) = u64 (a + b).
Proof. unfold u64, wrap. by rewrite Z.add_mod_idemp_r. Qed.

Lemma foldl_total items n :
  foldl (λ n item, u64 (n + te_numberOfOrders item)) (u64 n) items
  = u64 (n + total_orders (map trade_item_of items)).
Proof.
  revert n. induction items as [|item items IH]; intros n; simpl; [by rewrite Z.add_0_r|].
  rewrite u64_add_l, IH, Z.add_assoc, <- (u64_add_l (n + u64 _)), u64_add_r, u64_add_l. done.
Qed.

Lemma foldl_ids items ids :
  foldl (λ ids item, insert_security_id (te_securityID item) ids) ids items =
  foldl (λ ids x, insert_security_id (ts_security_id x) ids) ids (map trade_item_of items).
Proof. revert ids. induction items as [|x items IH]; intros ids; [done|]. apply IH. Qed.

Lemma collect_trades_ok sid frame value sh :
  fragments_ok sh →
  feed_step sh (collect_trades sid frame value sh) ∧ fragments_ok (collect_trades sid frame value sh).
Proof.
  intros Hsh. unfold collect_trades.
  set (sh0 := if negb _ then _ else sh).
  assert (feed_step sh sh0 ∧ fragments_ok sh0) as [Hs0 [I0 T0 W0]] by (unfold sh0; destruct (negb _); by split).
  destruct (collect_trades_step sid frame (rt_noMDEntries value) sh0) as [Hs1 [E1 E2 E3 E4 E5]].
  set (sh1 := foldl (collect_trade sid frame) sh0 _) in *.
  destruct (collect_orders_step (rt_noOrderIDEntries value) sh1) as [Hs2 [F1 F2 F3 F4 F5]].
  split; [by etrans; [|etrans]|]. split.
  - rewrite F1, F2, E1, E2, I0. unfold ids_of. rewrite foldl_app.
    apply foldl_ids.
  - rewrite F1, F5, E1, E5, T0, foldl_total. by rewrite total_orders_app.
  - rewrite F1, E1. apply Forall_app. split; [done|]. apply Forall_map, Forall_forall. intros x _. simpl.
    unfold u64, wrap. by apply Z.mod_pos_bound.
Qed.

(** The event so far: what was kept of an unfinished event of this time, and
    what the message brings. *)
Definition event_items sh (value : incremental_refresh_trade_summary) : list trade_item :=
  (if rt_transactTime value =? transact_time_ sh then trade_summary_ sh else [])
  ++ map (λ item, {|
       ts_security_id := te_securityID item; ts_side := get_side_aggressor (te_aggressorSide item);
       ts_price := get_double_any (te_mDEntryPx item); ts_size := to_signed 32 (te_mDEntrySize item);
       ts_number_of_orders := u64 (te_numberOfOrders item);
       ts_trade_id := u32 (get_int (te_mDTradeEntryID item)) |}) (rt_noMDEntries value).

Definition event_orders sh (value : incremental_refresh_trade_summary) : list (Z * Z) :=
  (if rt_transactTime value =? transact_time_ sh then orders_ sh else [])
  ++ map (λ o, (to_orderID o, to_signed 32 (to_lastQty o))) (rt_noOrderIDEntries value).

Lemma collect_trades_scratch sid frame value sh :
  trade_summary_ (collect_trades sid frame value sh) = event_items sh value
  ∧ orders_ (collect_trades sid frame value sh) = event_orders sh value.
Proof.
  unfold collect_trades, event_items, event_orders. set (sh0 := if negb _ then _ else sh).
  destruct (collect_trades_step sid frame (rt_noMDEntries value) sh0) as [_ [E1 _ E3 _ _]].
  set (sh1 := foldl (collect_trade sid frame) sh0 _) in *.
  destruct (collect_orders_step (rt_noOrderIDEntries value) sh1) as [_ [F1 _ F3 _ _]].
  rewrite F1, F3, E1, E3. unfold sh0. by destruct (_ =? _).
Qed.
End collect_facts.

(** ** Facts: fragments *)

Section fragment_facts.
Context `{Env}.
Context (sid : Z) (frame : Frame).
Implicit Types (sh : Shared) (s : Security).

(** A loop that does not touch the scratch of the trades. *)
Lemma foldl_scratch {A} (f : Shared → A → Shared) l ts ids os t n sh :
  (∀ sh x, f (set_trades ts ids os t n sh) x = set_trades ts ids os t n (f sh x)) →
  foldl f (set_trades ts ids os t n sh) l = set_trades ts ids os t n (foldl f sh l).
Proof. intros Hf. revert sh. induction l as [|x l IH]; intros sh; [done|]. cbn [foldl]. by rewrite Hf, IH. Qed.

Lemma check_set_trades ts ids os t n v s sh :
  check_report_sequence sid frame v s (set_trades ts ids os t n sh) =
  let '(s', sh') := check_report_sequence sid frame v s sh in (s', set_trades ts ids os t n sh').
Proof. unfold check_report_sequence, update_rpt_seq. destruct (v =? 0); [done|]. by destruct (negb _). Qed.

Lemma set_trades_id sh :
  set_trades (trade_summary_ sh) (security_ids_ sh) (orders_ sh) (transact_time_ sh)
    (total_number_of_orders_ sh) sh = sh.
Proof. by destruct sh. Qed.

Lemma collect_order_trade sh o x :
  collect_trade sid frame (collect_order sh o) x = collect_order (collect_trade sid frame sh x) o.
Proof.
  unfold collect_trade, collect_order, with_security. cbn [definitions set_trades].
  destruct (get_security (te_securityID x) (definitions sh)) as [s|]; [|done].
  rewrite !check_set_trades.
  pose proof (check_report_sequence_step sid frame (te_rptSeq x) s sh) as Hs.
  destruct (check_report_sequence sid frame (te_rptSeq x) s sh) as [s' sh']. done.
Qed.

Lemma collect_orders_trades os xs sh :
  foldl (collect_trade sid frame) (foldl collect_order sh os) xs =
  foldl collect_order (foldl (collect_trade sid frame) sh xs) os.
Proof.
  revert sh. induction os as [|o os IH]; intros sh; [done|]. cbn [foldl]. rewrite IH. f_equal. clear.
  revert sh. induction xs as [|x xs IH]; intros sh; [done|]. cbn [foldl]. by rewrite collect_order_trade, IH.
Qed.

(** What the trades of a message do besides: their reports are counted. *)
Definition report_trades (items : list trade_entry) sh : Shared :=
  foldl (λ sh item, with_security (te_securityID item) (check_report_sequence sid frame (te_rptSeq item)) sh) sh items.

Lemma collect_trade_report x ts ids os t n sh :
  collect_trade sid frame (set_trades ts ids os t n sh) x =
  set_trades (ts ++ [trade_item_of x]) (insert_security_id (te_securityID x) ids) os t (u64 (n + te_numberOfOrders x))
    (with_security (te_securityID x) (check_report_sequence sid frame (te_rptSeq x)) sh).
Proof.
  unfold collect_trade, with_security. cbn [definitions set_trades].
  destruct (get_security (te_securityID x) (definitions sh)) as [s|]; [|done].
  rewrite !check_set_trades. by destruct (check_report_sequence sid frame (te_rptSeq x) s sh).
Qed.

Lemma collect_trades_report xs ts ids os t n sh :
  ∃ ts' ids' n', foldl (collect_trade sid frame) (set_trades ts ids os t n sh) xs
    = set_trades ts' ids' os t n' (report_trades xs sh).
Proof.
  revert ts ids n sh. induction xs as [|x xs IH]; intros ts ids n sh; [by exists ts, ids, n|].
  cbn [foldl]. rewrite collect_trade_report. apply IH.
Qed.

Lemma collect_orders_report xs ts ids os t n sh :
  ∃ os', foldl collect_order (set_trades ts ids os t n sh) xs = set_trades ts ids os' t n sh.
Proof. revert os. induction xs as [|x xs IH]; intros os; [by exists os|]. apply IH. Qed.

(** A message collects into the scratch, and reports. *)
Lemma collect_report v sh :
  ∃ ts ids os n, collect_trades sid frame v sh = set_trades ts ids os (rt_transactTime v) n (report_trades (rt_noMDEntries v) sh).
Proof.
  assert (∃ ts ids os n, collect_trades sid frame v sh = foldl collect_order (foldl (collect_trade sid frame)
    (set_trades ts ids os (rt_transactTime v) n sh) (rt_noMDEntries v)) (rt_noOrderIDEntries v)) as (ts & ids & os & n & ->).
  { unfold collect_trades. destruct (rt_transactTime v =? transact_time_ sh) eqn:E; bool_to_prop.
    - exists (trade_summary_ sh), (security_ids_ sh), (orders_ sh), (total_number_of_orders_ sh). by rewrite E, set_trades_id.
    - by exists [], [], [], 0. }
  destruct (collect_trades_report (rt_noMDEntries v) ts ids os (rt_transactTime v) n sh) as (ts' & ids' & n' & ->).
  destruct (collect_orders_report (rt_noOrderIDEntries v) ts' ids' os (rt_transactTime v) n'
    (report_trades (rt_noMDEntries v) sh)) as (os' & ->). by exists ts', ids', os', n'.
Qed.

Definition append_fragment (v1 v2 : incremental_refresh_trade_summary) : incremental_refresh_trade_summary := {|
  rt_transactTime := rt_transactTime v2;
  rt_noMDEntries := rt_noMDEntries v1 ++ rt_noMDEntries v2;
  rt_noOrderIDEntries := rt_noOrderIDEntries v1 ++ rt_noOrderIDEntries v2 |}.

Lemma collect_time v sh : transact_time_ (collect_trades sid frame v sh) = rt_transactTime v.
Proof.
  unfold collect_trades. set (sh0 := if negb _ then _ else sh).
  assert (transact_time_ sh0 = rt_transactTime v) as H0.
  { unfold sh0. destruct (rt_transactTime v =? transact_time_ sh) eqn:E; bool_to_prop; [by symmetry|done]. }
  destruct (collect_trades_step sid frame (rt_noMDEntries v) sh0) as [_ [_ _ _ E4 _]].
  destruct (collect_orders_step (rt_noOrderIDEntries v) (foldl (collect_trade sid frame) sh0 (rt_noMDEntries v)))
    as [_ [_ _ _ F4 _]]. congruence.
Qed.

Lemma set_transact_time_id t sh : transact_time_ sh = t → set_transact_time t sh = sh.
Proof. intros <-. apply set_trades_id. Qed.

Lemma collect_append v1 v2 sh :
  rt_transactTime v1 = rt_transactTime v2 →
  collect_trades sid frame v2 (collect_trades sid frame v1 sh) =
  collect_trades sid frame (append_fragment v1 v2) sh.
Proof.
  intros Ht. unfold collect_trades at 1. rewrite collect_time, Ht, Z.eqb_refl. cbn [negb].
  unfold collect_trades. cbn [rt_transactTime rt_noMDEntries rt_noOrderIDEntries append_fragment].
  rewrite Ht. by rewrite collect_orders_trades, !foldl_app.
Qed.
(** An entry whose report is not counted. *)
Definition without_report (x : trade_entry) : trade_entry := {|
  te_securityID := te_securityID x; te_rptSeq := 0; te_aggressorSide := te_aggressorSide x;
  te_mDEntryPx := te_mDEntryPx x; te_mDEntrySize := te_mDEntrySize x;
  te_numberOfOrders := te_numberOfOrders x; te_mDTradeEntryID := te_mDTradeEntryID x |}.

Definition without_reports (v : incremental_refresh_trade_summary) : incremental_refresh_trade_summary := {|
  rt_transactTime := rt_transactTime v; rt_noMDEntries := map without_report (rt_noMDEntries v);
  rt_noOrderIDEntries := rt_noOrderIDEntries v |}.

(** The reports can be counted first. *)
Lemma collect_trades_reported sid' frame' xs ts ids os t n sh :
  foldl (collect_trade sid frame) (set_trades ts ids os t n sh) xs
  = foldl (collect_trade sid' frame') (set_trades ts ids os t n (report_trades xs sh)) (map without_report xs).
Proof.
  revert ts ids n sh. induction xs as [|x xs IH]; intros ts ids n sh; [done|]. cbn [foldl map].
  rewrite collect_trade_report, IH. f_equal. unfold collect_trade, with_security. cbn [definitions set_trades].
  change (report_trades xs (with_security _ _ sh)) with (report_trades (x :: xs) sh).
  destruct (get_security _ (definitions (report_trades (x :: xs) sh))) as [s|] eqn:Hs; [|done].
  symmetry. exact (write_back_id _ s (set_trades _ _ _ _ _ (report_trades (x :: xs) sh)) Hs).
Qed.

Lemma report_trades_scratch xs sh : scratch (report_trades xs sh) = scratch sh.
Proof.
  revert sh. induction xs as [|x xs IH]; intros sh; [done|]. cbn [report_trades foldl]. fold (report_trades xs).
  etrans; [apply IH|]. unfold with_security. destruct (get_security _ _) as [s|]; [|done].
  unfold check_report_sequence. by destruct (update_rpt_seq _ s) as [[] s1].
Qed.

Lemma collect_reported sid' frame' v sh :
  collect_trades sid frame v sh
  = collect_trades sid' frame' (without_reports v) (report_trades (rt_noMDEntries v) sh).
Proof.
  unfold collect_trades. cbn [rt_transactTime rt_noMDEntries rt_noOrderIDEntries without_reports].
  assert (scratch (report_trades (rt_noMDEntries v) sh) = scratch sh) as [= _ E2 E3 E4 E5 E6] by apply report_trades_scratch.
  rewrite E5. set (r := report_trades _ sh) in *. f_equal. unfold clear_state, set_transact_time. cbn. destruct (negb _).
  - exact (collect_trades_reported sid' frame' _ [] [] [] (rt_transactTime v) 0 sh).
  - rewrite <- (set_trades_id sh) at 1. rewrite (collect_trades_reported sid' frame'). fold r. rewrite <- (set_trades_id r) at 2. congruence.
Qed.

(** Books that became stale. *)
Definition stale_event (e : md_event) : Prop :=
  match e with
  | EvMarketByPriceUpdate _ [] [] UpdateType.STALE | EvMarketByOrderUpdate _ [] UpdateType.STALE => True
  | _ => False
  end.

Lemma report_trades_log xs sh : ∃ stale, log (report_trades xs sh) = log sh ++ stale ∧ Forall stale_event stale.
Proof.
  revert sh. induction xs as [|x xs IH]; intros sh; [by exists []; rewrite app_nil_r|]. cbn [report_trades foldl].
  set (sh1 := with_security _ _ sh). destruct (IH sh1) as (es & Hes & Hst).
  assert (∃ stale, log sh1 = log sh ++ stale ∧ Forall stale_event stale) as (es1 & He1 & Hst1).
  { unfold sh1, with_security. destruct (get_security _ _) as [s|]; [|by exists []; rewrite app_nil_r].
    unfold check_report_sequence. destruct (update_rpt_seq _ s) as [[] s1]; cbn.
    - eexists. rewrite <- app_assoc. split; [reflexivity|]. by repeat constructor.
    - exists []. by rewrite app_nil_r. }
  exists (es1 ++ es). unfold report_trades in Hes. rewrite Hes, He1, app_assoc. split; [done|]. by apply Forall_app.
Qed.
End fragment_facts.

(** ** Properties *)

Section incremental_trades_properties.
Context `{Env}.
Implicit Types (sh : Shared) (s : Security).

(** C17: a complete event.  Take the trades and orders that were kept of an
    unfinished event of this time, if any, with those of the message.  When every
    order is there, and each trade with an aggressor has an order, the handler does
    not fail: after the reports are checked, the book of each known security of the
    event -- once, in the order in which the event first names them -- gets one
    update with the orders that its trades matched, if any; then, in the same
    order, each known security with trades publishes one trade summary of them;
    and nothing is left of the event. *)
Theorem trade_summary_complete sid frame value sh :
  let time := rt_transactTime value in
  let items := event_items sh value in
  let os := event_orders sh value in
  let ids := firsts (map ts_security_id items) in
  fragments_ok sh → Forall trade_ok items → total_orders items ≤ Z.of_nat (length os) < 2 ^ 64 →
  let books := foldl (mbo_run sid frame time items os) (report_trades sid frame (rt_noMDEntries value) sh) ids in
  let summaries := omap (summary_of sid frame time items os (definitions books)) ids in
  dispatch_trade_summary sid frame value sh
  = Ok (set_trades [] [] [] 0 0 (foldl (λ sh e, emit e sh) books summaries)).
Proof.
  intros time items os ids Hsh Hok [Htotal Hwidth] books summaries.
  destruct (collect_trades_ok sid frame value sh Hsh) as [_ [I T _]].
  destruct (collect_trades_scratch sid frame value sh) as [Hitems Hos]. fold items in Hitems. fold os in Hos.
  unfold dispatch_trade_summary. cbv zeta. fold time.
  assert (Z.of_nat (length (orders_ (collect_trades sid frame value sh)))
    <? total_number_of_orders_ (collect_trades sid frame value sh) = false) as ->.
  { apply Z.ltb_ge. rewrite T, Hos, Hitems. pose proof (total_orders_nonneg _ Hok).
    unfold u64, wrap. rewrite Z.mod_small by lia. lia. }
  rewrite (publish_trade_summary_eq _ _ _ items os) by done.
  rewrite I, Hitems, ids_of_firsts. fold ids. rewrite trades_runs.
  destruct (collect_report sid frame value sh) as (ts & ids' & os' & n & ->).
  rewrite (foldl_scratch (mbo_run sid frame time items os)) by (intros; apply mbo_run_scratch). fold books.
  rewrite (foldl_scratch (λ sh e, emit e sh)) by done. done.
Qed.

(** C18: an event in several messages.  When the orders of an event are not all
    there, the message publishes nothing of its trades -- only stale books, if
    its reports show a gap -- and the next message of the same transaction time,
    of whatever packet and stream, does what one message would do that has the entries
    of both: the reports of the first being counted already, its entries count as
    having none. *)
Theorem trade_summary_fragments sid1 frame1 v1 sid2 frame2 v2 sh :
  rt_transactTime v1 = rt_transactTime v2 →
  Z.of_nat (length (orders_ (collect_trades sid1 frame1 v1 sh)))
    < total_number_of_orders_ (collect_trades sid1 frame1 v1 sh) →
  let reported := report_trades sid1 frame1 (rt_noMDEntries v1) sh in
  ∃ sh1 stale,
    dispatch_trade_summary sid1 frame1 v1 sh = Ok sh1
    ∧ log sh1 = log sh ++ stale ∧ Forall stale_event stale ∧ log reported = log sh1
    ∧ dispatch_trade_summary sid2 frame2 v2 sh1
      = dispatch_trade_summary sid2 frame2 (append_fragment (without_reports v1) v2) reported.
Proof.
  intros Ht Hlen reported. exists (collect_trades sid1 frame1 v1 sh).
  destruct (report_trades_log sid1 frame1 (rt_noMDEntries v1) sh) as (stale & Hlog & Hst). exists stale.
  destruct (collect_report sid1 frame1 v1 sh) as (ts & ids & os & n & Hc). split_and!; [|by rewrite Hc|done|by rewrite Hc|].
  - unfold dispatch_trade_summary. cbv zeta. rewrite (proj2 (Z.ltb_lt _ _) Hlen).
    f_equal. apply set_transact_time_id, collect_time.
  - rewrite (collect_reported sid1 frame1 sid2 frame2). fold reported.
    unfold dispatch_trade_summary. by rewrite collect_append by done.
Qed.

(** a new event.  A message with another transaction time drops whatever
    was left of an unfinished event: what it does depends on nothing that was
    collected before. *)
Theorem trade_summary_restart sid frame value ts ids os t n ts' ids' os' t' n' sh :
  rt_transactTime value ≠ t → rt_transactTime value ≠ t' →
  dispatch_trade_summary sid frame value (set_trades ts ids os t n sh) =
  dispatch_trade_summary sid frame value (set_trades ts' ids' os' t' n' sh).
Proof.
  intros Ht Ht'. unfold dispatch_trade_summary, collect_trades. cbn [transact_time_ set_trades].
  by rewrite (proj2 (Z.eqb_neq _ _) Ht), (proj2 (Z.eqb_neq _ _) Ht').
Qed.

(** C20: an aggressor without orders.  A trade of a known security that has an
    aggressor but no orders, in a message without orders, passes the check of
    the number of orders and is read beyond the end of the orders. *)
Theorem trade_summary_out_of_bounds sid frame item time sh s :
  get_security (te_securityID item) (definitions sh) = Some s →
  get_side_aggressor (te_aggressorSide item) ≠ Side.UNDEFINED →
  te_numberOfOrders item = 0 → time ≠ transact_time_ sh →
  dispatch_trade_summary sid frame
    {| rt_transactTime := time; rt_noMDEntries := [item]; rt_noOrderIDEntries := [] |} sh
  = Err AccessOutOfBounds.
Proof.
  intros Hs Hside Hn Ht.
  set (value := {| rt_transactTime := time |}). set (sh0 := clear_state (set_transact_time time sh)).
  assert (collect_trades sid frame value sh = collect_trade sid frame sh0 item) as E.
  { unfold collect_trades. cbn [rt_transactTime value]. by rewrite (proj2 (Z.eqb_neq _ _) Ht). }
  destruct (collect_trade_step sid frame sh0 item) as [[Hsame _] [E1 E2 E3 _ E5]].
  unfold dispatch_trade_summary. cbv zeta. rewrite E.
  generalize dependent (collect_trade sid frame sh0 item). intros sh1 _ Hsame E1 E2 E3 E5.
  pose proof (get_security_same (te_securityID item) _ _ Hsame) as Hrel. cbn in Hrel. rewrite Hs in Hrel.
  inversion Hrel as [? s' Hid Hs1 Hs'|].
  rewrite E3, E5, Hn. cbn. unfold publish_trade_summary. rewrite E2.
  assert (insert_security_id (te_securityID item) (security_ids_ sh0) = [te_securityID item]) as -> by done.
  assert (publish_mbo sid frame time ([], sh1) (te_securityID item) = Err AccessOutOfBounds) as Hp.
  { unfold publish_mbo. rewrite <- Hs', E1, E3. unfold for_trades, trade_mbo. cbn. rewrite Z.eqb_refl.
    by rewrite (bool_decide_eq_false_2 _ Hside). }
  cbn [foldM]. by rewrite Hp.
Qed.
(** C19: An interrupted event.  All channels collect into one place.  When the
    orders of an event are not all there yet and a trade message with another
    transaction time comes, from whatever channel, the collected trades are lost:
    what the other message does is what it does after the reports of the first
    alone, and no trade of the first is ever published. *)
Theorem trade_summary_interrupted sid frame v1 sid' frame' v2 sh :
  rt_transactTime v1 ≠ rt_transactTime v2 →
  Z.of_nat (length (orders_ (collect_trades sid frame v1 sh))) < total_number_of_orders_ (collect_trades sid frame v1 sh) →
  (sh1 ← dispatch_trade_summary sid frame v1 sh; dispatch_trade_summary sid' frame' v2 sh1)
  = dispatch_trade_summary sid' frame' v2 (set_trades [] [] [] 0 0 (report_trades sid frame (rt_noMDEntries v1) sh)).
Proof.
  intros Ht Hlt.
  assert (dispatch_trade_summary sid frame v1 sh = Ok (set_transact_time (rt_transactTime v1) (collect_trades sid frame v1 sh)))
    as -> by (unfold dispatch_trade_summary; cbv zeta; by rewrite (proj2 (Z.ltb_lt _ _) Hlt)).
  clear Hlt. cbn [mbind res_bind]. destruct (collect_report sid frame v1 sh) as (ts & ids & os & n & ->).
  set (sh' := report_trades sid frame (rt_noMDEntries v1) sh). unfold dispatch_trade_summary.
  assert (∀ sh1, collect_trades sid' frame' v2 (set_transact_time (rt_transactTime v1) sh1)
    = collect_trades sid' frame' v2 (set_trades [] [] [] 0 0 sh1)) as Hsame.
  { intros sh1. unfold collect_trades. cbn [transact_time_ set_trades set_transact_time].
    rewrite (proj2 (Z.eqb_neq (rt_transactTime v2) _)) by done.
    destruct (rt_transactTime v2 =? 0) eqn:E0; bool_to_prop; [by rewrite E0|done]. }
  by rewrite Hsame.
Qed.
End incremental_trades_properties.

(** ** Witnesses *)

Section incremental_trades_witnesses.
#[local] Existing Instance the_env.

Definition example_trade (id n : Z) (side : AggressorSide.Value) : trade_entry := {|
  te_securityID := id; te_rptSeq := 1; te_aggressorSide := side; te_mDEntryPx := example_decimal 100;
  te_mDEntrySize := 3; te_numberOfOrders := n; te_mDTradeEntryID := example_null 12 |}.

Definition example_trades (entries : list trade_entry) (os : list (Z * Z)) : incremental_refresh_trade_summary := {|
  rt_transactTime := 1000; rt_noMDEntries := entries;
  rt_noOrderIDEntries := map (λ o, {| to_orderID := o.1; to_lastQty := o.2 |}) os |}.

Definition example_event : incremental_refresh_trade_summary :=
  example_trades [example_trade 8 3 AggressorSide.Buy] [(70, 3); (71, 1); (72, 2)].

(** The taker 70 filled in full against 71 and 72. *)
Lemma trade_summary_complete_witness :
  ∃ sh' h ts, dispatch_trade_summary 7 example_frame example_event example_shared = Ok sh'
    ∧ last (log sh') = Some (EvTradeSummary h ts)
    ∧ map (λ t, (trade_taker_order_id t, trade_maker_order_id t)) ts = [("70", "71"); ("70", "72")]%string.
Proof.
  rewrite (trade_summary_complete 7 example_frame example_event example_shared).
  - do 3 eexists. split; [reflexivity|]. split; vm_compute; reflexivity.
  - split; [vm_compute; reflexivity|vm_compute; reflexivity|vm_compute; constructor].
  - vm_compute. repeat constructor; discriminate.
  - vm_compute. split; [discriminate|reflexivity].
Defined.

(** The orders of the makers come in another packet, on the other line. *)
Lemma trade_summary_fragments_witness :
  let v1 := example_trades [example_trade 8 3 AggressorSide.Buy] [(70, 3)] in
  let v2 := example_trades [] [(71, 1); (72, 2)] in
  let frame2 := {| sequence_number := sequence_number example_frame + 1; sending_time := 9 |} in
  ∃ sh1, dispatch_trade_summary 7 example_frame v1 example_shared = Ok sh1
    ∧ dispatch_trade_summary 9 frame2 v2 sh1
      = dispatch_trade_summary 9 frame2 (append_fragment (without_reports v1) v2)
          (report_trades 7 example_frame (rt_noMDEntries v1) example_shared).
Proof.
  intros v1 v2 frame2.
  destruct (trade_summary_fragments 7 example_frame v1 9 frame2 v2 example_shared)
    as (sh1 & stale & H1 & _ & _ & _ & H2); [reflexivity|vm_compute; reflexivity|].
  exists sh1. split; [exact H1|exact H2].
Defined.

(** Another event comes between the fragments of the first: its trade is lost. *)
Lemma trade_summary_interrupted_witness :
  let v1 := example_trades [example_trade 8 3 AggressorSide.Buy] [(70, 3)] in
  let v2 := {| rt_transactTime := 2000; rt_noMDEntries := [example_trade 8 1 AggressorSide.Sell];
               rt_noOrderIDEntries := rt_noOrderIDEntries (example_trades [] [(80, 5)]) |} in
  (sh1 ← dispatch_trade_summary 7 example_frame v1 example_shared; dispatch_trade_summary 9 example_frame v2 sh1)
  = dispatch_trade_summary 9 example_frame v2
      (set_trades [] [] [] 0 0 (report_trades 7 example_frame (rt_noMDEntries v1) example_shared)).
Proof.
  intros v1 v2. apply (trade_summary_interrupted 7 example_frame v1 9 example_frame v2 example_shared);
    [discriminate|vm_compute; reflexivity].
Defined.

Lemma trade_summary_restart_witness :
  dispatch_trade_summary 7 example_frame example_event (set_trades [] [8] [(1, 2)] 500 4 example_shared) =
  dispatch_trade_summary 7 example_frame example_event (set_trades [] [] [] 0 0 example_shared).
Proof.
  apply (trade_summary_restart 7 example_frame example_event [] [8] [(1, 2)] 500 4 [] [] [] 0 0 example_shared);
    discriminate.
Defined.

Lemma trade_summary_out_of_bounds_witness :
  is_ok (dispatch_trade_summary 7 example_frame
    {| rt_transactTime := 1000; rt_noMDEntries := [example_trade 8 0 AggressorSide.Buy];
       rt_noOrderIDEntries := [] |} example_shared) = false.
Proof.
  destruct (get_security 8 (definitions example_shared)) as [s|] eqn:Hs;
    [|vm_compute in Hs; discriminate Hs].
  rewrite (trade_summary_out_of_bounds 7 example_frame (example_trade 8 0 AggressorSide.Buy) 1000
    example_shared s); [reflexivity|exact Hs|discriminate|reflexivity|discriminate].
Defined.
End incremental_trades_witnesses.
