(* ===== verification/Incremental.v ===== *)
(** The incremental feed of a channel
    (src/roq/cme/market_data/incremental.cpp: status and definitions, the
    routing of messages, and [Incremental::dispatch]). *)

From S2P Require Import Prelude Double Api MdpMap Messages MdpParser Security SecdefReader SecurityDefinitions Channel MarketData InstrumentDefinition Recovery IncrementalBase IncrementalBook IncrementalTrades.

Definition SUPPORTS_1 : list SupportType.t :=
  [SupportType.REFERENCE_DATA; SupportType.MARKET_STATUS; SupportType.TOP_OF_BOOK;
   SupportType.MARKET_BY_PRICE; SupportType.MARKET_BY_ORDER; SupportType.TRADE_SUMMARY;
   SupportType.STATISTICS].

Definition SUPPORTS_2 : list SupportType.t :=
  [SupportType.REFERENCE_DATA; SupportType.MARKET_STATUS; SupportType.TOP_OF_BOOK;
   SupportType.MARKET_BY_PRICE; SupportType.MARKET_BY_ORDER; SupportType.TRADE_SUMMARY;
   SupportType.STATISTICS; SupportType.MARKET_BY_ORDER].

Definition get_supports (enable_market_by_order : bool) : list SupportType.t :=
  if enable_market_by_order then SUPPORTS_2 else SUPPORTS_1.

Section incremental.
Context `{Env}.
Implicit Types (sh : Shared) (st : stream) (ch : Channel).

(** ** Status and definitions *)

(** [dispatch] of SecurityStatus30. *)
Definition dispatch_status (sid : Z) (frame : Frame) (value : security_status) (security_id : Z) sh : Shared :=
  with_security security_id (λ security sh,
    (security,
     emit (EvMarketStatus (header sid (st_transactTime value) (sequence_number frame) (sending_time frame) security)
             (get_trading_status (st_securityTradingStatus value))) sh)) sh.

Definition on_security_status (sid : Z) (frame : Frame) (value : security_status) sh : Shared :=
  let security_id := get_int (st_securityID value) in
  let security_group := get_string_view (st_securityGroup value) in
  let sh := if negb (security_id =? 0) then dispatch_status sid frame value security_id sh else sh in
  if negb (bool_decide (security_group = "")) then
    match get_security_group security_group (definitions sh) with
    | Some security_ids =>
      foldl (λ sh security_id, dispatch_status sid frame value security_id sh) sh security_ids
    | None => sh
    end
  else sh.

(** The handlers of the definitions 55 to 58 and 63: they create nothing. *)
Definition on_known_definition (create_reference_data : instrument_definition → Z → Security → ReferenceData)
    (sid : Z) (value : instrument_definition) sh : Shared :=
  match get_security_incl_discard (id_securityID value) (definitions sh) with
  | Some security => publish_definition create_reference_data sid value security sh
  | None => sh
  end.

(** ** The routing of messages *)

Definition incremental_on_message (st : stream) (trace_info : TraceInfo) (frame : Frame)
    (message : mdp_message) (w : Cache * Shared) : res (Cache * Shared) :=
  let '(cache, sh) := w in
  let sid := stream_id st in
  match message with
  | AdminHeartbeat12 => Ok (cache, on_heartbeat st trace_info frame sh)
  | ChannelReset4 => Ok w
  | SecurityStatus30 m => Ok (cache, on_security_status sid frame m sh)
  | MDInstrumentDefinitionFuture54 m => Ok (cache, on_new_definition create_reference_data_54 sid m sh)
  | MDInstrumentDefinitionOption55 m => Ok (cache, on_known_definition create_reference_data_55 sid m sh)
  | MDInstrumentDefinitionSpread56 m => Ok (cache, on_known_definition create_reference_data_56 sid m sh)
  | MDInstrumentDefinitionFixedIncome57 m => Ok (cache, on_known_definition create_reference_data_57 sid m sh)
  | MDInstrumentDefinitionRepo58 m => Ok (cache, on_known_definition create_reference_data_58 sid m sh)
  | MDInstrumentDefinitionFX63 m => Ok (cache, on_known_definition create_reference_data_63 sid m sh)
  | SnapshotFullRefresh52 _ => Ok w
  | SnapshotFullRefreshLongQty69 _ => Ok w
  | MDIncrementalRefreshBook46 m => Ok (on_book_46 sid frame m w)
  | MDIncrementalRefreshBookLongQty64 entries => Ok (cache, on_report_sequence sid frame entries sh)
  | SnapshotFullRefreshOrderBook53 _ => Ok w
  | MDIncrementalRefreshOrderBook47 m => Ok (on_order_book_47 sid frame m w)
  | MDIncrementalRefreshTradeSummary48 m => sh ← dispatch_trade_summary sid frame m sh; Ok (cache, sh)
  | MDIncrementalRefreshTradeSummaryLongQty65 m => sh ← dispatch_trade_summary sid frame m sh; Ok (cache, sh)
  | MDIncrementalRefreshDailyStatistics49 m => Ok (cache, dispatch_statistics statistics_of sid frame m sh)
  | MDIncrementalRefreshSessionStatistics51 m => Ok (cache, dispatch_statistics statistics_of sid frame m sh)
  | MDIncrementalRefreshSessionStatisticsLongQty67 m => Ok (cache, dispatch_statistics statistics_of sid frame m sh)
  | MDIncrementalRefreshVolume37 m => Ok (cache, dispatch_statistics volume_of sid frame m sh)
  | MDIncrementalRefreshVolumeLongQty66 entries => Ok (cache, on_report_sequence sid frame entries sh)
  | MDIncrementalRefreshLimitsBanding50 entries => Ok (cache, on_report_sequence sid frame entries sh)
  | QuoteRequest39 => Ok w
  end.

Definition incremental_handler (st : stream) (trace_info : TraceInfo) : parser_handler mdp_message (Cache * Shared) :=
  {| on_frame _ w := Ok w; on_message := incremental_on_message st trace_info |}.

(** [parse] of [Incremental::dispatch]. *)
Definition incremental_parse (st : stream) (trace_info : TraceInfo) (message : bytes)
    (w : Cache * Shared) : res (Cache * Shared) :=
  '(_, w) ← parser_dispatch (incremental_handler st trace_info) message w;
  Ok w.

(** [on_sequence_reset], but for the sequence of the channel. *)
Definition on_sequence_reset (w : Cache * Shared) : Cache * Shared := (empty_cache, w.2).

(** [Incremental::dispatch] *)
Definition incremental_dispatch (payload : bytes) (trace_info : TraceInfo) st ch (w : Cache * Shared) :
    res (stream * Channel * (Cache * Shared)) :=
  let '(cache, sh) := w in
  let '(st, sh) :=
    publish_stream_status (get_supports (enable_market_by_order options)) ConnectionStatus.READY st sh in
  '(ch, w) ← channel_dispatch (filter_snapshot_from_incremental options)
               (incremental_parse st trace_info) on_sequence_reset payload ch (cache, sh);
  Ok (st, ch, w).
End incremental.

(** ** Facts *)

Section incremental_facts.
Context `{Env}.
Implicit Types (sh : Shared) (s : Security) (w : Cache * Shared).

(** What every handler keeps: no order waits in the cache, the collected trades
    and their counts agree, and the tables of securities are well formed. *)
Record incremental_inv w : Prop := {
  ii_orders : orders w.1 = [];
  ii_fragments : fragments_ok w.2;
  ii_securities : sd_wf (definitions w.2);
}.

Record incremental_step w w' : Prop := {
  is_orders : orders w.1 = [] → orders w'.1 = [];
  is_fragments : fragments_ok w.2 → fragments_ok w'.2;
  is_shared : shared_step w.2 w'.2;
}.

#[global] Instance incremental_step_preorder : PreOrder incremental_step.
Proof.
  split; [by intros w; split|]. intros w1 w2 w3 [O1 F1 S1] [O2 F2 S2]. split; [auto|auto|by etrans].
Qed.

(** A handler that leaves the scratch alone. *)
Definition same_fragments sh sh' : Prop :=
  (trade_summary_ sh', security_ids_ sh', total_number_of_orders_ sh') =
  (trade_summary_ sh, security_ids_ sh, total_number_of_orders_ sh).

Lemma same_fragments_ok sh sh' : same_fragments sh sh' → fragments_ok sh → fragments_ok sh'.
Proof. intros [= E1 E2 E3] [I T W]. split; by rewrite ?E1, ?E2, ?E3. Qed.

Lemma scratch_fragments sh sh' : scratch sh' = scratch sh → same_fragments sh sh'.
Proof. by intros [= _ E1 E2 _ _ E3]; unfold same_fragments; rewrite E1, E2, E3. Qed.

Lemma shared_incremental_step cache sh sh' :
  same_fragments sh sh' → shared_step sh sh' → incremental_step (cache, sh) (cache, sh').
Proof. intros Hf Hs. split; [done| |done]. by apply same_fragments_ok. Qed.

Lemma books_incremental_step cache sh sh' : books_step sh sh' → incremental_step (cache, sh) (cache, sh').
Proof.
  intros Hb. apply shared_incremental_step; [apply scratch_fragments, Hb|].
  by apply feed_step_shared, books_step_feed.
Qed.

Lemma dispatch_status_step sid frame value id sh : books_step sh (dispatch_status sid frame value id sh).
Proof.
  unfold dispatch_status, with_security. destruct (get_security id (definitions sh)) as [s|] eqn:Hs; [|done].
  by apply (put_step id s s [_]).
Qed.

Lemma on_security_status_step sid frame value sh : books_step sh (on_security_status sid frame value sh).
Proof.
  unfold on_security_status. set (sh1 := if negb (_ =? 0) then _ else sh).
  assert (books_step sh sh1) as H1 by (unfold sh1; destruct (negb _); [apply dispatch_status_step|done]).
  clearbody sh1. destruct (negb _); [|exact H1]. destruct (get_security_group _ _) as [ids|]; [|exact H1].
  etrans; [exact H1|]. apply (fold_step (λ sh id, dispatch_status sid frame value id sh)).
  intros. apply dispatch_status_step.
Qed.

Lemma publish_definition_scratch crd sid value s sh :
  scratch (publish_definition crd sid value s sh) = scratch sh.
Proof. unfold publish_definition. by destruct (discard s). Qed.

Lemma on_new_definition_scratch crd sid value sh : scratch (on_new_definition crd sid value sh) = scratch sh.
Proof.
  destruct (has_security (id_securityID value) (definitions sh)) eqn:Hh;
    [by rewrite on_new_definition_known|]. rewrite on_new_definition_new by done.
  by rewrite publish_definition_scratch.
Qed.

Lemma on_known_definition_incremental crd sid value cache sh :
  incremental_step (cache, sh) (cache, on_known_definition crd sid value sh).
Proof.
  unfold on_known_definition. destruct (get_security_incl_discard _ _) as [s|]; [|reflexivity].
  apply shared_incremental_step; [apply scratch_fragments, publish_definition_scratch|].
  apply publish_definition_step.
Qed.
End incremental_facts.

(** ** Facts: the handlers, whatever the state *)

Section handler_steps.
Context `{Env}.
Implicit Types (sh : Shared) (s : Security).

(** A step of the price loop, that also writes the entries of the message. *)
Record entries_step sh sh' : Prop := {
  en_feed : feed_step sh sh';
  en_fragments : same_fragments sh sh';
}.

#[global] Instance entries_step_preorder : PreOrder entries_step.
Proof.
  split; [by intros sh; split|]. intros sh1 sh2 sh3 [F1 S1] [F2 S2].
  split; [by etrans|]. unfold same_fragments in *. congruence.
Qed.

Lemma books_entries_step sh sh' : books_step sh sh' → entries_step sh sh'.
Proof. intros Hb. split; [by apply books_step_feed|apply scratch_fragments, Hb]. Qed.

Lemma process_book_step sid frame time l item :
  entries_step (bl_state l).2 (bl_state (process_book sid frame time l item)).2.
Proof.
  unfold process_book. set (next := if _ =? _ then _ else _).
  assert (entries_step (bl_state l).2 next.2.2) as H1.
  { unfold next. destruct (_ =? _); [done|]. simpl. destruct (bl_security l); [|done].
    apply books_entries_step, dispatch_book_spec. }
  destruct next as [[[id security] snap] w]. cbn [snd] in H1. cbn [bl_state].
  set (w1 := match security with Some _ => _ | None => w end).
  assert (entries_step w.2 w1.2) as H2.
  { unfold w1. destruct security; [apply books_entries_step, via_check_step|done]. }
  set (w2 := if enable_market_by_order options then _ else w1).
  assert (entries_step w1.2 w2.2) as H3.
  { unfold w2. destruct (enable_market_by_order options); [|done]. by split. }
  etrans; [exact H1|]. etrans; [exact H2|]. etrans; [exact H3|].
  destruct security; [apply books_entries_step, process_known_step|done].
Qed.

Lemma book_price_loop_entries sid frame value sh : entries_step sh (book_price_loop sid frame value sh).2.
Proof.
  unfold book_price_loop. set (l := foldl _ _ _).
  assert (entries_step sh (bl_state l).2) as Hl.
  { apply (foldl_inv (λ l, entries_step sh (bl_state l).2)); [by split|].
    intros l' item Hl' _. etrans; [exact Hl'|]. apply process_book_step. }
  cbn [snd]. destruct (bl_security l); [|done].
  etrans; [exact Hl|]. apply books_entries_step, dispatch_book_spec.
Qed.

(** Orders wait only for a security that is there. *)
Definition orders_wait (l : Z * option Z * (mbo_update * Shared)) : Prop :=
  match l.1.2 with
  | Some p => is_Some (get_security p (definitions l.2.2))
  | None => l.2.1 = []
  end.

Lemma dispatch_orders_empty sid frame time snap id (w : mbo_update * Shared) :
  is_Some (get_security id (definitions w.2)) → (dispatch_orders sid frame time snap id w).1 = [].
Proof.
  intros [s Hs]. unfold dispatch_orders. rewrite (via_effect _ _ _ s) by done.
  destruct w as [[|o os] sh]; [done|]. cbn [fst snd].
  by destruct (dispatch_market_by_order _ _ _ _ _ _ s sh).
Qed.

Lemma books_keep_security id sh sh' :
  books_step sh sh' → is_Some (get_security id (definitions sh)) → is_Some (get_security id (definitions sh')).
Proof. intros [Hs _ _] [s E]. destruct (get_security_same id _ _ Hs); [by eexists|done]. Qed.

Lemma process_order_step sid frame time snap l item :
  orders_wait l →
  books_step l.2.2 (process_order sid frame time snap l item).2.2
  ∧ orders_wait (process_order sid frame time snap l item).
Proof.
  destruct l as [[id security] w]. intros Hl. unfold process_order.
  destruct (referenced item w.2) as [[[current side] price]|]; [|done].
  set (next := if current =? id then _ else _).
  assert (books_step w.2 next.2.2 ∧ orders_wait next) as [H1 Hn].
  { unfold next. destruct (current =? id); [done|]. unfold orders_wait in *. simpl in *.
    set (w1 := match security with Some _ => _ | None => w end).
    assert (books_step w.2 w1.2 ∧ w1.1 = []) as [Hw1 He1].
    { unfold w1. destruct security; [|done]. split; [apply dispatch_orders_step|by apply dispatch_orders_empty]. }
    split; [done|]. unfold point_to. destruct (get_security current (definitions w1.2)) eqn:E; [by rewrite E|done]. }
  destruct next as [[id' security'] w']. unfold orders_wait in *. cbn [fst snd] in *.
  destruct security' as [p|]; [|done].
  assert (books_step w'.2 (via p (λ s w, (s, (w.1 ++ [book_mbo_update item s side price], w.2))) w').2) as H2.
  { apply via_step. intros. exists is_book. apply security_step_refl. }
  split; [by etrans|by eapply books_keep_security].
Qed.

Lemma book_order_loop_step sid frame value snap sh :
  books_step sh (book_order_loop sid frame value snap ([], sh)).2
  ∧ (book_order_loop sid frame value snap ([], sh)).1 = [].
Proof.
  unfold book_order_loop. set (l := foldl _ _ _).
  assert (books_step sh l.2.2 ∧ orders_wait l) as [Hl Hw].
  { apply (foldl_inv (λ l, books_step sh l.2.2 ∧ orders_wait l)); [done|].
    intros l' item [Hl' Hw'] _.
    destruct (process_order_step sid frame (rb_transactTime value) snap l' item Hw') as [H1 H2].
    split; [by etrans|done]. }
  destruct l as [[id security] w]. unfold orders_wait in Hw. cbn [fst snd] in *. destruct security; [|done].
  split; [|by apply dispatch_orders_empty]. etrans; [exact Hl|]. apply dispatch_orders_step.
Qed.

Lemma entries_incremental_step cache cache' sh sh' :
  entries_step sh sh' → (orders cache = [] → orders cache' = []) →
  incremental_step (cache, sh) (cache', sh').
Proof.
  intros [Hf Hs] Ho. split; [done|by apply same_fragments_ok|by apply feed_step_shared].
Qed.

Lemma on_book_46_step sid frame value cache sh :
  orders cache = [] → incremental_step (cache, sh) (on_book_46 sid frame value (cache, sh)).
Proof.
  intros Hc. unfold on_book_46.
  pose proof (book_price_loop_entries sid frame value sh) as H1.
  destruct (book_price_loop sid frame value sh) as [snap sh1]. cbn [snd] in H1.
  destruct (enable_market_by_order options); [|by apply entries_incremental_step]. rewrite Hc.
  destruct (book_order_loop_step sid frame value snap sh1) as [H2 He].
  destruct (book_order_loop sid frame value snap ([], sh1)) as [os sh2]. cbn [fst snd] in *.
  apply entries_incremental_step; [|done]. etrans; [exact H1|]. by apply books_entries_step.
Qed.

Lemma on_order_book_47_step sid frame value cache sh :
  orders cache = [] → incremental_step (cache, sh) (on_order_book_47 sid frame value (cache, sh)).
Proof.
  intros Hc. unfold on_order_book_47. destruct (negb (enable_market_by_order options)); [done|].
  destruct (foldl (process_47 sh) _ _) as [[id s] [os ids]].
  destruct (negb _); [by apply entries_incremental_step|].
  rewrite Hc, dispatch_47_all. apply entries_incremental_step; [|done].
  apply books_entries_step, fold_step. intros. apply order_47_run_step.
Qed.

(** Publication, complete or not. *)
Lemma publish_mbo_step sid frame time w id w' :
  publish_mbo sid frame time w id = Ok w' → books_step w.2 w'.2.
Proof.
  unfold publish_mbo. destruct w as [mbo sh]. destruct (get_security id (definitions sh)) as [s|] eqn:Hs;
    [|by intros [= <-]].
  intros (mbo' & _ & Heq)%res_bind_Ok. destruct mbo' as [|o os]; [by injection Heq as <-|].
  pose proof (dispatch_market_by_order_step sid (sequence_number frame) time (sending_time frame) (o :: os) false s sh) as Hd.
  destruct (dispatch_market_by_order _ _ _ _ _ _ s sh) as [s' sh']. injection Heq as <-.
  destruct Hd as [Hid (es & -> & _)]. by apply (put_step id s s' es).
Qed.

Lemma publish_trades_step sid frame time w id w' :
  publish_trades sid frame time w id = Ok w' → books_step w.2 w'.2.
Proof.
  unfold publish_trades. destruct w as [ts sh]. destruct (get_security id (definitions sh)) as [s|];
    [|by intros [= <-]].
  intros (ts' & _ & Heq)%res_bind_Ok. destruct ts' as [|t ts']; [by injection Heq as <-|].
  injection Heq as <-. split; [done| |done]. simpl. by apply prefix_app_r.
Qed.

Lemma foldM_books {A} (f : A * Shared → Z → res (A * Shared)) ids w w' :
  (∀ w id w', f w id = Ok w' → books_step w.2 w'.2) → foldM f w ids = Ok w' → books_step w.2 w'.2.
Proof.
  intros Hf. apply (foldM_rel books_step snd). intros ??? _. apply Hf.
Qed.

Lemma dispatch_trade_summary_step sid frame value sh sh' :
  fragments_ok sh → dispatch_trade_summary sid frame value sh = Ok sh' →
  feed_step sh sh' ∧ fragments_ok sh'.
Proof.
  intros Hsh. destruct (collect_trades_ok sid frame value sh Hsh) as [Hf Hok].
  unfold dispatch_trade_summary. cbv zeta. set (sh1 := collect_trades sid frame value sh) in *.
  destruct (_ <? _).
  { intros [= <-]. rewrite set_transact_time_id by apply collect_time. done. }
  intros ([mbo sh2] & H2 & H3)%res_bind_Ok. apply res_bind_Ok in H3 as ([ts sh3] & H3 & [= <-]).
  apply foldM_books in H2; [|apply publish_mbo_step]. apply foldM_books in H3; [|apply publish_trades_step].
  split; [|by split]. etrans; [exact Hf|]. etrans; [by apply books_step_feed|].
  etrans; [by apply books_step_feed|]. by split.
Qed.

(** ** Messages and packets *)

Lemma incremental_on_message_step st ti frame m (w w' : Cache * Shared) :
  incremental_inv w → incremental_on_message st ti frame m w = Ok w' → incremental_step w w'.
Proof.
  destruct w as [cache sh]. intros [Hc Hfr _]. cbn [fst snd] in *. unfold incremental_on_message.
  assert (∀ v, (sh1 ← dispatch_trade_summary (stream_id st) frame v sh; Ok (cache, sh1)) = Ok w' →
    incremental_step (cache, sh) w') as Htrades.
  { intros v (sh1 & Hd & [= <-])%res_bind_Ok.
    destruct (dispatch_trade_summary_step _ _ _ _ _ Hfr Hd) as [Hf Hok].
    split; [done|done|by apply feed_step_shared]. }
  destruct m; try (intros [= <-]); try reflexivity; try by apply Htrades.
  all: try (apply on_known_definition_incremental).
  all: try (by apply on_book_46_step).
  all: try (by apply on_order_book_47_step).
  all: try (apply books_incremental_step; first [apply on_security_status_step
    |apply on_report_sequence_step|apply dispatch_statistics_step]).
  - apply shared_incremental_step; [by split|apply emit_step].
  - apply shared_incremental_step; [apply scratch_fragments, on_new_definition_scratch|].
    apply on_new_definition_step.
Qed.

Lemma incremental_step_inv (w w' : Cache * Shared) : incremental_step w w' → incremental_inv w → incremental_inv w'.
Proof. intros [O F [Hwf _ _]] [Ho Hf Hs]. split; auto. Qed.

(** The steps that start in the invariant. *)
Definition inv_step (w w' : Cache * Shared) : Prop := incremental_inv w → incremental_step w w'.

#[global] Instance inv_step_preorder : PreOrder inv_step.
Proof.
  split; [by intros w _|]. intros w1 w2 w3 H1 H2 Hi. etrans; [by apply H1|].
  apply H2. eapply incremental_step_inv; [by apply H1|done].
Qed.

Lemma incremental_parse_step st ti message (w w' : Cache * Shared) :
  incremental_parse st ti message w = Ok w' → inv_step w w'.
Proof.
  intros ([b w1] & Hp & [= <-])%res_bind_Ok.
  eapply (parser_dispatch_rel _ inv_step); [| |exact Hp].
  - by intros f s s' [= <-].
  - intros f m s s' Hm Hi. exact (incremental_on_message_step st ti f m s s' Hi Hm).
Qed.

Lemma on_sequence_reset_step (w : Cache * Shared) : incremental_step w (on_sequence_reset w).
Proof. by split. Qed.
End handler_steps.

(** ** Properties *)

Section incremental_properties.
Context `{Env}.
Implicit Types (sh : Shared) (s : Security) (ch : Channel).

(** The market status of the securities of [ids], in order. *)
Definition status_events (sid : Z) (frame : Frame) (value : security_status) sh (ids : list Z) : list md_event :=
  omap (λ id, s ← get_security id (definitions sh);
    Some (EvMarketStatus (header sid (st_transactTime value) (sequence_number frame) (sending_time frame) s)
            (get_trading_status (st_securityTradingStatus value)))) ids.

Lemma dispatch_status_emit sid frame value id sh :
  dispatch_status sid frame value id sh =
  foldl (λ sh e, emit e sh) sh (status_events sid frame value sh [id]).
Proof.
  unfold dispatch_status, with_security, status_events. simpl.
  destruct (get_security id (definitions sh)) as [s|] eqn:Hs; [|done]. simpl.
  rewrite put_security_id by done. done.
Qed.

Lemma status_events_app sid frame value sh ids ids' :
  status_events sid frame value sh (ids ++ ids') =
  status_events sid frame value sh ids ++ status_events sid frame value sh ids'.
Proof. unfold status_events. by rewrite omap_app. Qed.

Lemma status_events_emit sid frame value sh es ids :
  status_events sid frame value (foldl (λ sh e, emit e sh) sh es) ids = status_events sid frame value sh ids.
Proof. unfold status_events. by rewrite emit_all_definitions. Qed.

Lemma dispatch_statuses sid frame value ids sh :
  foldl (λ sh id, dispatch_status sid frame value id sh) sh ids =
  foldl (λ sh e, emit e sh) sh (status_events sid frame value sh ids).
Proof.
  revert sh. induction ids as [|id ids IH]; intros sh; [done|]. cbn [foldl].
  rewrite dispatch_status_emit, IH, status_events_emit.
  rewrite (status_events_app _ _ _ _ [id] ids), foldl_app. done.
Qed.

(** SecurityStatus30.  The message publishes one market status for its
    security, if it has one, and then one for each security of its group, if it
    has one; securities that are unknown or filtered get none, and nothing else
    changes. *)
Theorem on_security_status_spec sid frame value sh :
  let id := get_int (st_securityID value) in
  let group := get_string_view (st_securityGroup value) in
  let ids := (if decide (id = 0) then [] else [id]) ++
             (if decide (group = "") then [] else default [] (get_security_group group (definitions sh))) in
  on_security_status sid frame value sh =
  foldl (λ sh e, emit e sh) sh (status_events sid frame value sh ids).
Proof.
  intros id group ids. unfold on_security_status. fold id group. unfold ids. cbv zeta.
  rewrite status_events_app, foldl_app.
  set (sh1 := if negb (id =? 0) then _ else sh).
  assert (sh1 = foldl (λ sh e, emit e sh) sh (status_events sid frame value sh (if decide (id = 0) then [] else [id]))) as <-.
  { unfold sh1. destruct (decide (id = 0)) as [E|E]; [by rewrite E|].
    rewrite (proj2 (Z.eqb_neq _ _) E). simpl. apply dispatch_status_emit. }
  assert (definitions sh1 = definitions sh) as Hd.
  { unfold sh1. destruct (negb _); [|done]. by rewrite dispatch_status_emit, emit_all_definitions. }
  assert (∀ l, status_events sid frame value sh l = status_events sid frame value sh1 l) as Hst.
  { intros l. unfold status_events. by rewrite Hd. }
  rewrite Hst, Hd. clearbody sh1. destruct (decide (group = "")) as [E|E].
  - by rewrite (bool_decide_eq_true_2 _ E).
  - rewrite (bool_decide_eq_false_2 _ E). cbn [negb].
    destruct (get_security_group group _) as [l|]; [|done]. apply dispatch_statuses.
Qed.

Lemma incremental_dispatch_safe payload ti st ch w st' ch' w' :
  channel_wf ch → incremental_inv w →
  incremental_dispatch payload ti st ch w = Ok (st', ch', w') →
  channel_wf ch' ∧ incremental_inv w' ∧ securities_kept w.2 w'.2 ∧ log w.2 `prefix_of` log w'.2.
Proof.
  destruct w as [cache sh]. intros Hch Hinv. unfold incremental_dispatch.
  pose proof (publish_stream_status_step (get_supports (enable_market_by_order options))
    ConnectionStatus.READY st sh) as Hpub.
  assert (same_fragments sh (publish_stream_status (get_supports (enable_market_by_order options))
    ConnectionStatus.READY st sh).2) as Hfr by (unfold publish_stream_status; by case_decide).
  destruct (publish_stream_status _ _ st sh) as [st1 sh1]. cbn [snd] in *.
  intros ([ch1 w1] & Hd & [= _ <- <-])%res_bind_Ok.
  destruct (channel_dispatch_replay (filter_snapshot_from_incremental options) payload ch Hch)
    as (ch2 & ds & Hwf & Hrun & _).
  rewrite Hrun in Hd. apply res_bind_Ok in Hd as (w2 & Hreplay & [= <- <-]).
  assert (inv_step (cache, sh1) w2) as Hstep.
  { clear -Hreplay. revert Hreplay. generalize (cache, sh1). unfold replay.
    induction ds as [|d ds IH]; intros w; [by intros [= <-]|].
    intros (w1 & Hd & Hrest)%res_bind_Ok. trans w1; [|by apply IH].
    destruct d; [by eapply incremental_parse_step|]. injection Hd as <-. intros _. apply on_sequence_reset_step. }
  assert (incremental_step (cache, sh) w2) as Htotal.
  { assert (incremental_step (cache, sh) (cache, sh1)) as H1 by by apply shared_incremental_step.
    etrans; [exact H1|]. apply Hstep. by eapply incremental_step_inv. }
  split; [done|]. split; [by eapply incremental_step_inv|]. by destruct Htotal as [_ _ [_ ? ?]].
Qed.

(** no packet on the incremental feed, well formed or not, breaks the
    tables of securities, removes a security, changes the identity of one, or
    takes back an event; after each packet no order waits in the cache, and what
    is collected of an unfinished trade event is consistent. *)
Theorem incremental_safe payload ti st ch w st' ch' w' :
  channel_wf ch → incremental_inv w →
  incremental_dispatch payload ti st ch w = Ok (st', ch', w') →
  channel_wf ch' ∧ incremental_inv w' ∧ securities_kept w.2 w'.2 ∧ log w.2 `prefix_of` log w'.2.
Proof. apply incremental_dispatch_safe. Qed.
End incremental_properties.

(** ** Witnesses *)

Section incremental_witnesses.
#[local] Existing Instance the_env.

Definition example_state : Cache * Shared := (empty_cache, create_shared empty_definitions).

Lemma example_state_inv : incremental_inv example_state.
Proof. split; [reflexivity| |apply empty_definitions_wf]. split; [reflexivity|reflexivity|constructor]. Qed.

Lemma incremental_safe_witness :
  ∃ st' ch' w', incremental_dispatch (heartbeat_packet 4) example_trace
      (create_stream Priority.PRIMARY 1 "I") the_channel example_state = Ok (st', ch', w')
    ∧ incremental_inv w'.
Proof.
  destruct (is_ok_value (incremental_dispatch (heartbeat_packet 4) example_trace
      (create_stream Priority.PRIMARY 1 "I") the_channel example_state)) as [[[st' ch'] w'] Heq];
    [vm_compute; reflexivity|].
  exists st', ch', w'. split; [exact Heq|].
  refine (proj1 (proj2 (incremental_safe (heartbeat_packet 4) example_trace
    (create_stream Priority.PRIMARY 1 "I") the_channel example_state st' ch' w' _ example_state_inv Heq))).
  intros seq m Hm. apply elem_of_nil in Hm. destruct Hm.
Defined.
End incremental_witnesses.
