(* ===== verification/MdpConfig.v ===== *)
(** The configuration of the multicast channels
    (src/roq/cme/protocol/mdp/config_reader.cpp and config.cpp): the file of the
    exchange as a sequence of XML events, and the tables made from it. *)

From S2P Require Import Prelude Double Api SecdefReader.

Module ConnectionType.
Inductive t :=
  | HISTORICAL_REPLAY | INSTRUMENT_DEFINITION | MBP_MARKET_RECOVERY | MBOFD_MARKET_RECOVERY | INCREMENTAL.
#[global] Instance eq_dec : EqDecision t.
Proof. solve_decision. Defined.
Definition to_Z (x : t) : Z :=
  match x with
  | HISTORICAL_REPLAY => 0 | INSTRUMENT_DEFINITION => 1 | MBP_MARKET_RECOVERY => 2
  | MBOFD_MARKET_RECOVERY => 3 | INCREMENTAL => 4
  end.
#[global] Instance countable : Countable t.
Proof.
  refine (inj_countable to_Z (λ z,
    match z with
    | 0 => Some HISTORICAL_REPLAY | 1 => Some INSTRUMENT_DEFINITION | 2 => Some MBP_MARKET_RECOVERY
    | 3 => Some MBOFD_MARKET_RECOVERY | 4 => Some INCREMENTAL | _ => None
    end) _). by intros [].
Defined.
End ConnectionType.

#[global] Instance priority_countable : Countable Priority.t.
Proof.
  refine (inj_countable (λ p, match p with
      Priority.UNDEFINED => 0 | Priority.PRIMARY => 1 | Priority.SECONDARY => 2 end)
    (λ z, match z with
      0 => Some Priority.UNDEFINED | 1 => Some Priority.PRIMARY | 2 => Some Priority.SECONDARY | _ => None end) _).
  by intros [].
Defined.

(** The iteration order of [utils::unordered_map]. *)
Class MapOrder := {
  map_order : ∀ {K A} `{Countable K}, gmap K A → list (K * A);
  map_order_perm : ∀ {K A} `{Countable K} (m : gmap K A), map_order m ≡ₚ map_to_list m;
}.

(** [absl::StripLeadingAsciiWhitespace] and [absl::StripTrailingAsciiWhitespace]. *)
Class StripWhitespace := {
  strip_leading : string → string;
  strip_trailing : string → string;
}.

(** [from_chars<uint16_t>]. *)
Class FromCharsUint16 := { from_chars_uint16 : string → res Z }.

(** What [core::expat::Parser] calls back with. *)
Inductive xml_event :=
  | StartElement (name : string) (attributes : list (string * string))
  | EndElement (name : string)
  | CharacterData (data : string).

(** ** [ConfigReader] *)

Module ConfigReader.
Record Connection := {
  type : string;
  feed_type : string;
  protocol : string;
  ip : string;
  host_ips : list string;
  port : string;
  feed : string;
}.

Record Channel := {
  label : string;
  products : gset string;
  connections : gmap string Connection;
}.

Inductive ConnectionField := UNDEFINED | TYPE | PROTOCOL | IP | HOST_IP | PORT | FEED.

Definition empty_connection : Connection := Build_Connection "" "" "" "" [] "" "".
Definition empty_channel : Channel := Build_Channel "" ∅ ∅.

(** [MyHandler], and the state [S] of the handler it calls. *)
Record state (S : Type) := {
  channel_id_ : string;
  channel_ : Channel;
  connection_id_ : string;
  connection_field_ : ConnectionField;
  connection_ : Connection;
  handler_ : S;
}.
Arguments Build_state {S}.
Arguments channel_id_ {S}.
Arguments channel_ {S}.
Arguments connection_id_ {S}.
Arguments connection_field_ {S}.
Arguments connection_ {S}.
Arguments handler_ {S}.

Section reader.
Context `{StripWhitespace} `{FromCharsUint16} {S : Type} (handler : Z → Channel → S → res S).
Implicit Types (s : state S) (c : Connection).

Definition trim (value : string) : string := strip_trailing (strip_leading value).

Definition set_feed_type v c : Connection :=
  Build_Connection (type c) v (protocol c) (ip c) (host_ips c) (port c) (feed c).

Definition start_channel (attributes : list (string * string)) s : state S :=
  foldl (λ s '(key, value),
    if bool_decide (key = "id"%string) then
      Build_state (channel_id_ s +:+ value) (channel_ s) (connection_id_ s) (connection_field_ s) (connection_ s) (handler_ s)
    else if bool_decide (key = "label"%string) then
      Build_state (channel_id_ s) (Build_Channel value (products (channel_ s)) (connections (channel_ s)))
        (connection_id_ s) (connection_field_ s) (connection_ s) (handler_ s)
    else s) s attributes.

Definition start_product (attributes : list (string * string)) s : state S :=
  foldl (λ s '(key, value),
    if bool_decide (key = "code"%string) then
      Build_state (channel_id_ s)
        (Build_Channel (label (channel_ s)) ({[value]} ∪ products (channel_ s)) (connections (channel_ s)))
        (connection_id_ s) (connection_field_ s) (connection_ s) (handler_ s)
    else s) s attributes.

Definition start_connection (attributes : list (string * string)) s : state S :=
  foldl (λ s '(key, value),
    if bool_decide (key = "id"%string) then
      Build_state (channel_id_ s) (channel_ s) value (connection_field_ s) (connection_ s) (handler_ s)
    else s) s attributes.

Definition set_field (f : ConnectionField) s : state S :=
  Build_state (channel_id_ s) (channel_ s) (connection_id_ s) f (connection_ s) (handler_ s).
Definition set_connection c s : state S :=
  Build_state (channel_id_ s) (channel_ s) (connection_id_ s) (connection_field_ s) c (handler_ s).

Definition start_element (name : string) (attributes : list (string * string)) s : state S :=
  if bool_decide (name = "channel"%string) then start_channel attributes s
  else if bool_decide (name = "product"%string) then start_product attributes s
  else if bool_decide (name = "connection"%string) then start_connection attributes s
  else if negb (bool_decide (connection_id_ s = "")) then
    if bool_decide (name = "type"%string) then
      foldl (λ s '(key, value),
        if bool_decide (key = "feed-type"%string) then set_connection (set_feed_type value (connection_ s)) s else s)
        (set_field TYPE s) attributes
    else if bool_decide (name = "protocol"%string) then set_field PROTOCOL s
    else if bool_decide (name = "ip"%string) then set_field IP s
    else if bool_decide (name = "host-ip"%string) then set_field HOST_IP s
    else if bool_decide (name = "port"%string) then set_field PORT s
    else if bool_decide (name = "feed"%string) then set_field FEED s
    else s
  else s.

(** [trim] of the field that ends. *)
Definition trim_field (f : ConnectionField) c : Connection :=
  match f with
  | UNDEFINED => c
  | TYPE => Build_Connection (trim (type c)) (feed_type c) (protocol c) (ip c) (host_ips c) (port c) (feed c)
  | PROTOCOL => Build_Connection (type c) (feed_type c) (trim (protocol c)) (ip c) (host_ips c) (port c) (feed c)
  | IP => Build_Connection (type c) (feed_type c) (protocol c) (trim (ip c)) (host_ips c) (port c) (feed c)
  | HOST_IP => c
  | PORT => Build_Connection (type c) (feed_type c) (protocol c) (ip c) (host_ips c) (trim (port c)) (feed c)
  | FEED => Build_Connection (type c) (feed_type c) (protocol c) (ip c) (host_ips c) (port c) (trim (feed c))
  end.

Definition end_element (name : string) s : res (state S) :=
  if bool_decide (name = "connection"%string) then
    Ok (Build_state (channel_id_ s)
          (Build_Channel (label (channel_ s)) (products (channel_ s))
             (try_emplace (connection_id_ s) (connection_ s) (connections (channel_ s))))
          "" (connection_field_ s) empty_connection (handler_ s))
  else if bool_decide (name = "channel"%string) then
    channel_id_2 ← from_chars_uint16 (channel_id_ s);
    h ← handler channel_id_2 (channel_ s) (handler_ s);
    Ok (Build_state "" empty_channel (connection_id_ s) (connection_field_ s) (connection_ s) h)
  else
    Ok (set_field UNDEFINED (set_connection (trim_field (connection_field_ s) (connection_ s)) s)).

Definition append_field (f : ConnectionField) (data : string) c : Connection :=
  match f with
  | UNDEFINED => c
  | TYPE => Build_Connection (type c +:+ data) (feed_type c) (protocol c) (ip c) (host_ips c) (port c) (feed c)
  | PROTOCOL => Build_Connection (type c) (feed_type c) (protocol c +:+ data) (ip c) (host_ips c) (port c) (feed c)
  | IP => Build_Connection (type c) (feed_type c) (protocol c) (ip c +:+ data) (host_ips c) (port c) (feed c)
  | HOST_IP => Build_Connection (type c) (feed_type c) (protocol c) (ip c) (host_ips c ++ [data]) (port c) (feed c)
  | PORT => Build_Connection (type c) (feed_type c) (protocol c) (ip c) (host_ips c) (port c +:+ data) (feed c)
  | FEED => Build_Connection (type c) (feed_type c) (protocol c) (ip c) (host_ips c) (port c) (feed c +:+ data)
  end.

Definition character_data (data : string) s : state S :=
  set_connection (append_field (connection_field_ s) data (connection_ s)) s.

Definition step s (e : xml_event) : res (state S) :=
  match e with
  | StartElement name attributes => Ok (start_element name attributes s)
  | EndElement name => end_element name s
  | CharacterData data => Ok (character_data data s)
  end.

(** [ConfigReader::dispatch], over the events of the file. *)
Definition dispatch (events : list xml_event) (h : S) : res S :=
  s ← foldM step (Build_state "" empty_channel "" UNDEFINED empty_connection h) events;
  Ok (handler_ s).
End reader.
End ConfigReader.

(** ** [Config] *)

Module Config.
Record Connection := {
  multicast_address : string;
  port : Z;
  name : string;
}.

(** channel id, type, priority *)
Abbreviation table A := (gmap Z (gmap ConnectionType.t (gmap Priority.t A))).

Record t := {
  connections_ : table Connection;
  connection_types_ : gmap string (gmap Z (Z * ConnectionType.t * Priority.t));
  names_ : table string;
}.

Definition get_type (value : string) : res ConnectionType.t :=
  if bool_decide (value = "H"%string) then Ok ConnectionType.HISTORICAL_REPLAY
  else if bool_decide (value = "N"%string) then Ok ConnectionType.INSTRUMENT_DEFINITION
  else if bool_decide (value = "S"%string) then Ok ConnectionType.MBP_MARKET_RECOVERY
  else if bool_decide (value = "SMBO"%string) then Ok ConnectionType.MBOFD_MARKET_RECOVERY
  else if bool_decide (value = "I"%string) then Ok ConnectionType.INCREMENTAL
  else Err RuntimeError.

Definition get_priority (value : string) : res Priority.t :=
  if bool_decide (value = "A"%string) then Ok Priority.PRIMARY
  else if bool_decide (value = "B"%string) then Ok Priority.SECONDARY
  else Err RuntimeError.

(** [m[channel_id][type]] *)
Definition row {A} (channel_id : Z) (type : ConnectionType.t) (m : table A) : gmap Priority.t A :=
  default ∅ (m !! channel_id ≫= λ m, m !! type).

Definition set_row {A} (channel_id : Z) (type : ConnectionType.t) (r : gmap Priority.t A) (m : table A) : table A :=
  <[channel_id := <[type := r]> (default ∅ (m !! channel_id))]> m.

Section config.
Context `{MapOrder} `{FromCharsUint16}.

(** One connection; a [RuntimeError] is caught. *)
Definition add_connection (channel_id : Z) (m : table Connection)
    (item : string * ConfigReader.Connection) : res (table Connection) :=
  let '(connection_id, connection) := item in
  match
    (type ← get_type (ConfigReader.feed_type connection);
     priority ← get_priority (ConfigReader.feed connection);
     port ← from_chars_uint16 (ConfigReader.port connection);
     Ok (set_row channel_id type
           (try_emplace priority
              {| multicast_address := ConfigReader.ip connection; port := port; name := connection_id |}
              (row channel_id type m)) m))
  with
  | Ok m => Ok m
  | Err RuntimeError => Ok m
  | Err e => Err e
  end.

(** [Handler] *)
Definition handler (channel_id : Z) (channel : ConfigReader.Channel) (m : table Connection) : res (table Connection) :=
  foldM (add_connection channel_id) m (map_order (ConfigReader.connections channel)).

(** The nested loops over the connections. *)
Definition entries (m : table Connection) : list (Z * ConnectionType.t * Priority.t * Connection) :=
  '(channel_id, tmp_1) ← map_order m;
  '(connection_type, tmp_2) ← map_order tmp_1;
  '(priority, connection) ← map_order tmp_2;
  [(channel_id, connection_type, priority, connection)].

Definition create_connection_types (m : table Connection) : gmap string (gmap Z (Z * ConnectionType.t * Priority.t)) :=
  foldl (λ result '(channel_id, connection_type, priority, connection),
    <[multicast_address connection :=
        <[port connection := (channel_id, connection_type, priority)]>
          (default ∅ (result !! multicast_address connection))]> result) ∅ (entries m).

Definition create_names (m : table Connection) : table string :=
  foldl (λ result '(channel_id, connection_type, priority, connection),
    set_row channel_id connection_type
      (<[priority := name connection]> (row channel_id connection_type result)) result) ∅ (entries m).

(** The constructor, over the events of the file. *)
Definition create `{StripWhitespace} (events : list xml_event) : res t :=
  connections ← ConfigReader.dispatch handler events ∅;
  Ok {| connections_ := connections;
        connection_types_ := create_connection_types connections;
        names_ := create_names connections |}.
End config.

(** The overloads of [find]. *)
Definition find (c : t) (channel_id : Z) (type : ConnectionType.t) (priority : Priority.t) : option Connection :=
  tmp_1 ← connections_ c !! channel_id; tmp_2 ← tmp_1 !! type; tmp_2 !! priority.

Definition find_address (c : t) (address : string) (port : Z) : option (Z * ConnectionType.t * Priority.t) :=
  tmp_1 ← connection_types_ c !! address; tmp_1 !! port.

Definition get_name (c : t) (channel_id : Z) (type : ConnectionType.t) (priority : Priority.t) : res string :=
  match (tmp_1 ← names_ c !! channel_id; tmp_2 ← tmp_1 !! type; tmp_2 !! priority) with
  | Some name => Ok name
  | None => Err RuntimeError
  end.
End Config.

(** ** Facts: reading *)

(** A document: the text of an element may come in pieces, and there is white
    space between elements. *)
Record xml_connection := {
  x_id : string;
  x_type : list string;
  x_feed_type : string;
  x_protocol : list string;
  x_ip : list string;
  x_host_ips : list string;
  x_port : list string;
  x_feed : list string;
}.

Record xml_channel := {
  x_channel_id : string;
  x_label : string;
  x_products : list string;
  x_connections : list xml_connection;
}.

Section render.
Context (indent : string).

Definition render_element (name : string) (attributes : list (string * string)) (text : list string) : list xml_event :=
  CharacterData indent :: StartElement name attributes :: map CharacterData text ++ [EndElement name].

Definition render_connection (x : xml_connection) : list xml_event :=
  CharacterData indent :: StartElement "connection" [("id", x_id x)]%string ::
  render_element "type" [("feed-type", x_feed_type x)]%string (x_type x) ++
  render_element "protocol" [] (x_protocol x) ++
  render_element "ip" [] (x_ip x) ++
  concat (map (λ h, render_element "host-ip" [] [h]) (x_host_ips x)) ++
  render_element "port" [] (x_port x) ++
  render_element "feed" [] (x_feed x) ++
  [CharacterData indent; EndElement "connection"].

Definition render_channel (x : xml_channel) : list xml_event :=
  CharacterData indent ::
  StartElement "channel" [("id", x_channel_id x); ("label", x_label x)]%string ::
  concat (map (λ p, render_element "product" [("code", p)]%string []) (x_products x)) ++
  concat (map render_connection (x_connections x)) ++
  [CharacterData indent; EndElement "channel"].

Definition render_config (xs : list xml_channel) : list xml_event :=
  StartElement "configuration" [] :: concat (map render_channel xs) ++
  [CharacterData indent; EndElement "configuration"].
End render.

Section reader_facts.
Context `{StripWhitespace} `{FromCharsUint16} {S : Type}.
Context (handler : Z → ConfigReader.Channel → S → res S) (indent : string).
Import ConfigReader.
Implicit Types (s : state S) (c : Connection).

Definition text (pieces : list string) : string := foldl String.append "" pieces.

(** What the reader makes of a connection and of a channel. *)
Definition connection_of (x : xml_connection) : Connection := {|
  type := trim (text (x_type x)); feed_type := x_feed_type x; protocol := trim (text (x_protocol x));
  ip := trim (text (x_ip x)); host_ips := x_host_ips x; port := trim (text (x_port x));
  feed := trim (text (x_feed x)) |}.

Definition channel_of (x : xml_channel) : Channel := {|
  label := x_label x;
  products := foldl (λ ps p, {[p]} ∪ ps) ∅ (x_products x);
  connections := foldl (λ m x, try_emplace (x_id x) (connection_of x) m) ∅ (x_connections x) |}.

Definition read_channel (h : S) (x : xml_channel) : res S :=
  channel_id ← from_chars_uint16 (x_channel_id x); handler channel_id (channel_of x) h.

(** Between elements: no field is open. *)
Definition between (id : string) (ch : Channel) (cid : string) c (h : S) : state S :=
  Build_state id ch cid UNDEFINED c h.

Lemma read_indent id ch cid c h events :
  foldM (step handler) (between id ch cid c h) (CharacterData indent :: events)
  = foldM (step handler) (between id ch cid c h) events.
Proof. done. Qed.

Lemma read_text id ch cid f c h pieces events :
  foldM (step handler) (Build_state id ch cid f c h) (map CharacterData pieces ++ events)
  = foldM (step handler) (Build_state id ch cid f (foldl (λ c d, append_field f d c) c pieces) h) events.
Proof. revert c. induction pieces as [|p pieces IH]; intros c; [done|]. apply (IH (append_field f p c)). Qed.

Lemma append_text g (f : ConnectionField) (set : string → Connection → Connection) pieces c :
  (∀ d c, append_field f d c = set (g c +:+ d) c) → (∀ v w c, set v (set w c) = set v c) →
  (∀ v c, g (set v c) = v) → set (g c) c = c →
  foldl (λ c d, append_field f d c) c pieces = set (foldl String.append (g c) pieces) c.
Proof.
  intros Hf Hss Hgs Hid. assert (∀ v, foldl (λ c d, append_field f d c) (set v c) pieces
    = set (foldl String.append v pieces) c) as Hgen.
  { induction pieces as [|p pieces IH]; intros v; [done|]. simpl. rewrite Hf, Hgs, Hss. apply IH. }
  rewrite <- Hid at 1. apply Hgen.
Qed.

(** The comparisons of element names. *)
Ltac decide_names := repeat match goal with
  | |- context [bool_decide (?a = ?b)] =>
    first [rewrite (bool_decide_eq_true_2 (a = b)) by done | rewrite (bool_decide_eq_false_2 (a = b)) by done]
  end.

(** An element with text. *)
Lemma read_element id ch cid f c c' h name attributes pieces events :
  start_element name attributes (between id ch cid c h) = Build_state id ch cid f c' h →
  name ≠ "connection"%string → name ≠ "channel"%string →
  foldM (step handler) (between id ch cid c h) (render_element indent name attributes pieces ++ events) =
  foldM (step handler)
    (between id ch cid (trim_field f (foldl (λ c d, append_field f d c) c' pieces)) h) events.
Proof.
  intros Hs H1 H2. unfold render_element. cbn [app]. rewrite read_indent.
  cbn [foldM step mbind res_bind]. rewrite Hs, <- app_assoc, read_text.
  cbn [foldM step mbind res_bind app]. unfold end_element. by decide_names.
Qed.

Lemma read_type id ch cid c h ft pieces events :
  cid ≠ "" → type c = "" →
  foldM (step handler) (between id ch cid c h)
    (render_element indent "type" [("feed-type", ft)]%string pieces ++ events) =
  foldM (step handler) (between id ch cid
    (Build_Connection (trim (text pieces)) ft (protocol c) (ip c) (host_ips c) (port c) (feed c)) h) events.
Proof.
  intros Hcid Hc. rewrite (read_element _ _ _ TYPE _ (set_feed_type ft c)); [|
    unfold start_element; cbn [connection_id_ between]; decide_names; cbn -[bool_decide]; by decide_names|done..].
  rewrite (append_text type TYPE (λ v c,
    Build_Connection v (feed_type c) (protocol c) (ip c) (host_ips c) (port c) (feed c))) by (by destruct c).
  cbn. by rewrite Hc.
Qed.

Lemma read_protocol id ch cid c h pieces events :
  cid ≠ "" → protocol c = "" →
  foldM (step handler) (between id ch cid c h) (render_element indent "protocol" [] pieces ++ events) =
  foldM (step handler) (between id ch cid
    (Build_Connection (type c) (feed_type c) (trim (text pieces)) (ip c) (host_ips c) (port c) (feed c)) h) events.
Proof.
  intros Hcid Hc. rewrite (read_element _ _ _ PROTOCOL _ c);
    [|unfold start_element; cbn [connection_id_ between]; by decide_names|done..].
  rewrite (append_text protocol PROTOCOL (λ v c,
    Build_Connection (type c) (feed_type c) v (ip c) (host_ips c) (port c) (feed c))) by (by destruct c).
  cbn. by rewrite Hc.
Qed.

Lemma read_ip id ch cid c h pieces events :
  cid ≠ "" → ip c = "" →
  foldM (step handler) (between id ch cid c h) (render_element indent "ip" [] pieces ++ events) =
  foldM (step handler) (between id ch cid
    (Build_Connection (type c) (feed_type c) (protocol c) (trim (text pieces)) (host_ips c) (port c) (feed c)) h) events.
Proof.
  intros Hcid Hc. rewrite (read_element _ _ _ IP _ c);
    [|unfold start_element; cbn [connection_id_ between]; by decide_names|done..].
  rewrite (append_text ip IP (λ v c,
    Build_Connection (type c) (feed_type c) (protocol c) v (host_ips c) (port c) (feed c))) by (by destruct c).
  cbn. by rewrite Hc.
Qed.

Lemma read_host_ips id ch cid c h hosts events :
  cid ≠ "" →
  foldM (step handler) (between id ch cid c h)
    (concat (map (λ h, render_element indent "host-ip" [] [h]) hosts) ++ events) =
  foldM (step handler) (between id ch cid
    (Build_Connection (type c) (feed_type c) (protocol c) (ip c) (host_ips c ++ hosts) (port c) (feed c)) h) events.
Proof.
  intros Hcid. revert c. induction hosts as [|x hosts IH]; intros c.
  { cbn. rewrite app_nil_r. by destruct c. }
  cbn [map concat]. rewrite <- app_assoc. rewrite (read_element _ _ _ HOST_IP _ c);
    [|unfold start_element; cbn [connection_id_ between]; by decide_names|done..].
  rewrite IH. cbn. by rewrite <- app_assoc.
Qed.

Lemma read_port id ch cid c h pieces events :
  cid ≠ "" → port c = "" →
  foldM (step handler) (between id ch cid c h) (render_element indent "port" [] pieces ++ events) =
  foldM (step handler) (between id ch cid
    (Build_Connection (type c) (feed_type c) (protocol c) (ip c) (host_ips c) (trim (text pieces)) (feed c)) h) events.
Proof.
  intros Hcid Hc. rewrite (read_element _ _ _ PORT _ c);
    [|unfold start_element; cbn [connection_id_ between]; by decide_names|done..].
  rewrite (append_text port PORT (λ v c,
    Build_Connection (type c) (feed_type c) (protocol c) (ip c) (host_ips c) v (feed c))) by (by destruct c).
  cbn. by rewrite Hc.
Qed.

Lemma read_feed id ch cid c h pieces events :
  cid ≠ "" → feed c = "" →
  foldM (step handler) (between id ch cid c h) (render_element indent "feed" [] pieces ++ events) =
  foldM (step handler) (between id ch cid
    (Build_Connection (type c) (feed_type c) (protocol c) (ip c) (host_ips c) (port c) (trim (text pieces))) h) events.
Proof.
  intros Hcid Hc. rewrite (read_element _ _ _ FEED _ c);
    [|unfold start_element; cbn [connection_id_ between]; by decide_names|done..].
  rewrite (append_text feed FEED (λ v c,
    Build_Connection (type c) (feed_type c) (protocol c) (ip c) (host_ips c) (port c) v)) by (by destruct c).
  cbn. by rewrite Hc.
Qed.

Lemma read_connection id ch h x events :
  x_id x ≠ "" →
  foldM (step handler) (between id ch "" empty_connection h) (render_connection indent x ++ events) =
  foldM (step handler)
    (between id (Build_Channel (label ch) (products ch) (try_emplace (x_id x) (connection_of x) (connections ch)))
       "" empty_connection h) events.
Proof.
  intros Hx. unfold render_connection. rewrite <- !app_comm_cons, <- !app_assoc. rewrite read_indent.
  cbn [foldM step mbind res_bind]. unfold start_element at 1. decide_names.
  assert (start_connection [("id"%string, x_id x)] (between id ch "" empty_connection h)
    = between id ch (x_id x) empty_connection h) as ->.
  { unfold start_connection. cbn [foldl]. by decide_names. }
  rewrite read_type, read_protocol, read_ip, read_host_ips, read_port, read_feed by done.
  cbn [app]. rewrite read_indent. cbn [foldM step mbind res_bind]. unfold end_element. decide_names. done.
Qed.

Lemma read_connections id ch h xs events :
  Forall (λ x, x_id x ≠ "") xs →
  foldM (step handler) (between id ch "" empty_connection h) (concat (map (render_connection indent) xs) ++ events) =
  foldM (step handler)
    (between id (Build_Channel (label ch) (products ch)
                   (foldl (λ m x, try_emplace (x_id x) (connection_of x) m) (connections ch) xs))
       "" empty_connection h) events.
Proof.
  intros Hxs. revert ch. induction Hxs as [|x xs Hx _ IH]; intros ch; [by destruct ch|].
  cbn [map concat]. rewrite <- app_assoc, read_connection by done. by rewrite IH.
Qed.

Lemma read_products id ch h ps events :
  foldM (step handler) (between id ch "" empty_connection h)
    (concat (map (λ p, render_element indent "product" [("code", p)]%string []) ps) ++ events) =
  foldM (step handler)
    (between id (Build_Channel (label ch) (foldl (λ ps p, {[p]} ∪ ps) (products ch) ps) (connections ch))
       "" empty_connection h) events.
Proof.
  revert ch. induction ps as [|p ps IH]; intros ch; [by destruct ch|].
  cbn [map concat]. unfold render_element at 1. cbn [app map]. rewrite read_indent.
  cbn [foldM step mbind res_bind]. unfold start_element at 1. decide_names.
  assert (start_product [("code"%string, p)] (between id ch "" empty_connection h)
    = between id (Build_Channel (label ch) ({[p]} ∪ products ch) (connections ch)) "" empty_connection h) as ->.
  { unfold start_product. cbn [foldl]. by decide_names. }
  unfold end_element. decide_names. cbn [mbind res_bind]. apply (IH (Build_Channel _ _ _)).
Qed.

Lemma read_one_channel h x events :
  Forall (λ x, x_id x ≠ "") (x_connections x) →
  foldM (step handler) (between "" empty_channel "" empty_connection h) (render_channel indent x ++ events) =
  (h ← read_channel h x; foldM (step handler) (between "" empty_channel "" empty_connection h) events).
Proof.
  intros Hx. unfold render_channel. rewrite <- !app_comm_cons, <- !app_assoc. rewrite read_indent.
  cbn [foldM step mbind res_bind]. unfold start_element at 1. decide_names.
  assert (start_channel [("id", x_channel_id x); ("label", x_label x)]%string (between "" empty_channel "" empty_connection h)
    = between (x_channel_id x) (Build_Channel (x_label x) ∅ ∅) "" empty_connection h) as ->.
  { unfold start_channel. cbn [foldl]. by decide_names. }
  rewrite read_products, read_connections by done. cbn [app]. rewrite read_indent.
  cbn [foldM step mbind res_bind]. unfold end_element. decide_names. unfold read_channel.
  cbn [channel_id_ between label products connections].
  destruct (from_chars_uint16 (x_channel_id x)) as [cid|e]; [|done]. cbn [mbind res_bind].
  cbn [channel_ handler_ between]. fold (channel_of x). by destruct (handler cid (channel_of x) h).
Qed.

(** the configuration file.  A document of channels, products and
    connections is read channel by channel: the handler gets each channel, in
    order, with its label, its products and its connections, however the XML
    parser splits the text of the elements and whatever white space is between
    them. *)
Theorem config_dispatch_render xs h :
  Forall (λ x, Forall (λ x, x_id x ≠ "") (x_connections x)) xs →
  dispatch handler (render_config indent xs) h = foldM read_channel h xs.
Proof.
  intros Hxs. unfold dispatch, render_config. cbn [foldM step mbind res_bind].
  unfold start_element. decide_names. cbn [negb connection_id_]. decide_names. cbn [negb].
  change (Build_state "" empty_channel "" UNDEFINED empty_connection h)
    with (between "" empty_channel "" empty_connection h).
  revert h. induction Hxs as [|x xs Hx _ IH]; intros h.
  - cbn [map concat app]. rewrite read_indent. cbn [foldM step mbind res_bind]. unfold end_element. by decide_names.
  - cbn [map concat foldM]. rewrite <- app_assoc, read_one_channel by done.
    destruct (read_channel h x) as [h'|e]; [|done]. apply IH.
Qed.
End reader_facts.

(** ** Facts: the tables *)

Section config_facts.
Context `{MapOrder}.
Import Config.

Definition lookup3 {A} (m : table A) (channel_id : Z) (type : ConnectionType.t) (priority : Priority.t) : option A :=
  tmp_1 ← m !! channel_id; tmp_2 ← tmp_1 !! type; tmp_2 !! priority.

Lemma elem_of_map_order {K A} `{Countable K} (m : gmap K A) k v : (k, v) ∈ map_order m ↔ m !! k = Some v.
Proof. rewrite (map_order_perm m). apply elem_of_map_to_list. Qed.

Lemma elem_of_entries (m : table Connection) id ty p c :
  (id, ty, p, c) ∈ entries m ↔ lookup3 m id ty p = Some c.
Proof.
  unfold entries, lookup3. split.
  - intros ([id' m1] & Hin & H1)%list_elem_of_bind. apply list_elem_of_bind in Hin as ([ty' m2] & Hin & H2).
    apply list_elem_of_bind in Hin as ([p' c'] & Hin & H3). apply list_elem_of_singleton in Hin. simplify_eq.
    apply elem_of_map_order in H1, H2, H3. by rewrite H1; simpl; rewrite H2.
  - intros (m1 & H1 & (m2 & H2 & H3)%bind_Some)%bind_Some.
    apply list_elem_of_bind. exists (id, m1). split; [|by apply elem_of_map_order].
    apply list_elem_of_bind. exists (ty, m2). split; [|by apply elem_of_map_order].
    apply list_elem_of_bind. exists (p, c). split; [by apply list_elem_of_singleton|by apply elem_of_map_order].
Qed.

(** Writes at keys: the last one at a key is what is read. *)
Lemma foldl_writes {M X K V} `{EqDecision K} (get : M → K → option V) (write : M → X → M)
    (key : X → K) (val : X → V) xs m k :
  (∀ m x k, get (write m x) k = if decide (key x = k) then Some (val x) else get m k) →
  get (foldl write m xs) k =
  match last (filter (λ x, key x = k) xs) with Some x => Some (val x) | None => get m k end.
Proof.
  intros Hw. induction xs as [|x xs IH] using rev_ind; [done|].
  rewrite foldl_app, filter_app. simpl. rewrite Hw, filter_cons, filter_nil.
  case_decide; [by rewrite last_snoc|by rewrite app_nil_r].
Qed.

Lemma last_filter_elem {X} (P : X → Prop) `{∀ x, Decision (P x)} xs x :
  last (filter P xs) = Some x → P x ∧ x ∈ xs.
Proof. intros Hl%last_Some_elem_of. by apply list_elem_of_filter in Hl. Qed.

Lemma last_filter_None {X} (P : X → Prop) `{∀ x, Decision (P x)} xs x :
  last (filter P xs) = None → P x → x ∉ xs.
Proof.
  intros Hl%last_None Hx Hin. assert (x ∈ filter P xs) as Hf by by apply list_elem_of_filter.
  rewrite Hl in Hf. by apply elem_of_nil in Hf.
Qed.

Lemma lookup3_set_row {A} (m : table A) id ty p v id' ty' p' :
  lookup3 (set_row id ty (<[p := v]> (row id ty m)) m) id' ty' p' =
  if decide ((id, ty, p) = (id', ty', p')) then Some v else lookup3 m id' ty' p'.
Proof.
  unfold lookup3, set_row, row.
  destruct (decide (id = id')) as [<-|Hid]; [|rewrite lookup_insert_ne, decide_False by naive_solver; done].
  rewrite lookup_insert_eq. simpl.
  destruct (decide (ty = ty')) as [<-|Hty]; [|rewrite lookup_insert_ne, decide_False by naive_solver;
    by destruct (m !! id)].
  rewrite lookup_insert_eq. simpl.
  destruct (decide (p = p')) as [<-|Hp]; [by rewrite lookup_insert_eq, decide_True|].
  rewrite lookup_insert_ne, decide_False by naive_solver.
  destruct (m !! id) as [m1|]; simpl; [by destruct (m1 !! ty)|done].
Qed.

Definition entry_key (x : Z * ConnectionType.t * Priority.t * Connection) : Z * ConnectionType.t * Priority.t := x.1.

Lemma create_names_lookup m id ty p : lookup3 (create_names m) id ty p = name <$> lookup3 m id ty p.
Proof.
  unfold create_names.
  rewrite (foldl_writes (λ m (k : Z * ConnectionType.t * Priority.t), lookup3 m k.1.1 k.1.2 k.2) _
    entry_key (λ x, name x.2) (entries m) ∅ (id, ty, p)).
  - destruct (last _) as [[[[id' ty'] p'] c]|] eqn:E.
    + apply last_filter_elem in E as [Hk Hin]. unfold entry_key in Hk. simplify_eq/=.
      apply elem_of_entries in Hin. by rewrite Hin.
    + destruct (lookup3 m id ty p) as [c|] eqn:El; [|done].
      apply elem_of_entries in El. by destruct (last_filter_None _ _ (id, ty, p, c) E).
  - intros m' [[[id1 ty1] p1] c1] [[id2 ty2] p2]. unfold entry_key. simpl. apply lookup3_set_row.
Qed.

Definition lookup2 {A} (m : gmap string (gmap Z A)) (k : string * Z) : option A :=
  tmp ← m !! k.1; tmp !! k.2.

Lemma create_types_lookup m a n :
  lookup2 (create_connection_types m) (a, n) =
  match last (filter (λ x, (multicast_address x.2, port x.2) = (a, n)) (entries m)) with
  | Some x => Some x.1
  | None => None
  end.
Proof.
  unfold create_connection_types.
  rewrite (foldl_writes lookup2 _ (λ x, (multicast_address x.2, port x.2)) (λ x, x.1) (entries m) ∅ (a, n)); [done|].
  intros m' [[[id ty] p] c] [a' n']. unfold lookup2. simpl.
  destruct (decide (multicast_address c = a')) as [<-|Ha];
    [|rewrite lookup_insert_ne, decide_False by naive_solver; done].
  rewrite lookup_insert_eq. simpl.
  destruct (decide (port c = n')) as [<-|Hn]; [by rewrite lookup_insert_eq, decide_True|].
  rewrite lookup_insert_ne, decide_False by naive_solver. by destruct (m' !! multicast_address c).
Qed.
End config_facts.

(** ** Properties *)

Section config_properties.
Context `{MapOrder} `{FromCharsUint16} `{StripWhitespace}.
Import Config.

(** names.  The name of a connection is that of the connection which
    [find] finds, and asking for one that is not configured throws. *)
Theorem config_get_name events c id ty p :
  create events = Ok c →
  get_name c id ty p = match find c id ty p with Some connection => Ok (name connection) | None => Err RuntimeError end.
Proof.
  unfold create. intros (m & _ & [= <-])%res_bind_Ok. unfold get_name, find. cbn [names_ connections_].
  fold (lookup3 (create_names m) id ty p). fold (lookup3 m id ty p). rewrite create_names_lookup.
  by destruct (lookup3 m id ty p).
Qed.

(** addresses.  The table by address and port only points to connections
    with that address and port, whatever the iteration order of the maps is;
    and where no two connections share address and port it finds each of them. *)
Theorem config_find_address events c a n k :
  create events = Ok c →
  (find_address c a n = Some k →
   ∃ connection, find c k.1.1 k.1.2 k.2 = Some connection
     ∧ multicast_address connection = a ∧ port connection = n) ∧
  (∀ connection, find c k.1.1 k.1.2 k.2 = Some connection →
     multicast_address connection = a → port connection = n →
     (∀ id ty p connection', find c id ty p = Some connection' →
        multicast_address connection' = a → port connection' = n → (id, ty, p) = k) →
     find_address c a n = Some k).
Proof.
  assert (∀ c, find_address c a n = lookup2 (connection_types_ c) (a, n)) as Ha by done.
  unfold create. intros (m & _ & [= <-])%res_bind_Ok. rewrite Ha. unfold find. cbn [connection_types_ connections_].
  rewrite create_types_lookup. clear Ha. destruct k as [[id ty] p]. cbn [fst snd]. fold (lookup3 m id ty p). split.
  - destruct (last _) as [[[[id' ty'] p'] connection]|] eqn:E; [|done]. intros [= -> -> ->].
    apply last_filter_elem in E as [[= Ha Hn] Hin]. exists connection. by apply elem_of_entries in Hin.
  - intros connection Hfind Ha Hn Huniq. apply elem_of_entries in Hfind.
    destruct (last _) as [[[[id' ty'] p'] connection']|] eqn:E.
    + apply last_filter_elem in E as [[= Ha' Hn'] Hin]. apply elem_of_entries in Hin. simpl. f_equal. by eapply Huniq.
    + destruct (last_filter_None _ _ (id, ty, p, connection) E); [simpl; congruence|done].
Qed.
End config_properties.

(** ** Witnesses *)

Definition listed_map_order : MapOrder := {|
  map_order := λ K A _ _ m, map_to_list m;
  map_order_perm := λ K A _ _ m, reflexivity _;
|}.

Section config_witnesses.
#[local] Existing Instance listed_map_order.
#[local] Instance example_strip : StripWhitespace := {| strip_leading s := s; strip_trailing s := s |}.
#[local] Instance example_uint16 : FromCharsUint16 := {| from_chars_uint16 := digits 0 |}.

(** The text of the port comes in two pieces. *)
Definition example_xml (id type feed : string) : xml_connection := {|
  x_id := id; x_type := ["Incremental"%string]; x_feed_type := type; x_protocol := ["UDP"%string];
  x_ip := ["224.0.31.1"; "2"]%string; x_host_ips := ["205.209.220.72"%string]; x_port := ["14"; "310"]%string;
  x_feed := [feed] |}.

Definition example_xml_channel : xml_channel := {|
  x_channel_id := "310"; x_label := "CME Globex Equity Futures"; x_products := ["ES"%string];
  x_connections := [example_xml "310IA" "I" "A"; example_xml "310IB" "I" "B"; example_xml "310XX" "X" "B"] |}.

Definition example_config_events : list xml_event := render_config "  " [example_xml_channel].

Lemma config_dispatch_render_witness :
  ConfigReader.dispatch Config.handler example_config_events ∅
  = foldM (read_channel Config.handler) ∅ [example_xml_channel].
Proof. apply config_dispatch_render. repeat constructor; discriminate. Defined.

Lemma config_get_name_witness :
  ∃ c, Config.create example_config_events = Ok c
    ∧ Config.get_name c 310 ConnectionType.INCREMENTAL Priority.PRIMARY = Ok "310IA"%string
    ∧ Config.get_name c 310 ConnectionType.INCREMENTAL Priority.UNDEFINED = Err RuntimeError.
Proof.
  destruct (is_ok_value (Config.create example_config_events)) as [c Hc]; [vm_compute; reflexivity|].
  exists c. split; [exact Hc|].
  rewrite !(config_get_name example_config_events c) by exact Hc.
  vm_compute in Hc. injection Hc as <-. split; vm_compute; reflexivity.
Defined.

Lemma config_find_address_witness :
  ∃ c k, Config.create example_config_events = Ok c
    ∧ Config.find_address c "224.0.31.12" 14310 = Some k
    ∧ ∃ connection, Config.find c k.1.1 k.1.2 k.2 = Some connection
        ∧ Config.multicast_address connection = "224.0.31.12" ∧ Config.port connection = 14310.
Proof.
  destruct (is_ok_value (Config.create example_config_events)) as [c Hc]; [vm_compute; reflexivity|].
  destruct (Config.find_address c "224.0.31.12" 14310) as [k|] eqn:Hk;
    [|vm_compute in Hc; injection Hc as <-; vm_compute in Hk; discriminate Hk].
  exists c, k. split; [exact Hc|]. split; [exact Hk|].
  exact (proj1 (config_find_address example_config_events c "224.0.31.12" 14310 k Hc) Hk).
Defined.
End config_witnesses.
