(* ===== verification/Manager.v ===== *)
(** The manager of the channels
    (src/roq/cme/market_data/manager.cpp): eight streams for each channel, the
    routing of packets to them, and what holds for any run of the whole market
    data side. *)

From S2P Require Import Prelude Double Api MdpMap Messages MdpParser Security SecdefReader SecurityDefinitions Channel MarketData InstrumentDefinition Recovery MbpRecovery MbofdRecovery IncrementalBase IncrementalBook IncrementalTrades Incremental MdpConfig.

Section manager.
Context `{Env}.
Implicit Types (sh : Shared) (st : stream).

Record Channel2 := {
  channel : Channel;
  instrument_definition_1 : stream;
  instrument_definition_2 : stream;
  mbp_market_recovery_1 : stream;
  mbp_market_recovery_2 : stream;
  mbofd_market_recovery_1 : stream;
  mbofd_market_recovery_2 : stream;
  incremental_cache : Cache;
  incremental_1 : stream;
  incremental_2 : stream;
}.

Record Manager := {
  shared_ : Shared;
  channels_ : gmap Z Channel2;
  secdef_config_file_ : option string;
}.

(** The constructors of the streams: [name] is what the configuration says. *)
Definition create_named (config : Config.t) (channel_id : Z) (type : ConnectionType.t)
    (priority : Priority.t) (stream_id : Z) : res stream :=
  name ← Config.get_name config channel_id type priority;
  Ok (create_stream priority stream_id name).

(** [++stream_id] on [uint16_t], then the constructor of a stream. *)
Definition next_stream (config : Config.t) (channel_id stream_id : Z) (type : ConnectionType.t)
    (priority : Priority.t) : res (stream * Z) :=
  let stream_id := u16 (stream_id + 1) in
  st ← create_named config channel_id type priority stream_id;
  Ok (st, stream_id).

Definition create_channel2 (config : Config.t) (channel_id stream_id : Z) : res (Channel2 * Z) :=
  '(s1, stream_id) ← next_stream config channel_id stream_id ConnectionType.INSTRUMENT_DEFINITION Priority.PRIMARY;
  '(s2, stream_id) ← next_stream config channel_id stream_id ConnectionType.INSTRUMENT_DEFINITION Priority.SECONDARY;
  '(s3, stream_id) ← next_stream config channel_id stream_id ConnectionType.MBP_MARKET_RECOVERY Priority.PRIMARY;
  '(s4, stream_id) ← next_stream config channel_id stream_id ConnectionType.MBP_MARKET_RECOVERY Priority.SECONDARY;
  '(s5, stream_id) ← next_stream config channel_id stream_id ConnectionType.MBOFD_MARKET_RECOVERY Priority.PRIMARY;
  '(s6, stream_id) ← next_stream config channel_id stream_id ConnectionType.MBOFD_MARKET_RECOVERY Priority.SECONDARY;
  '(s7, stream_id) ← next_stream config channel_id stream_id ConnectionType.INCREMENTAL Priority.PRIMARY;
  '(s8, stream_id) ← next_stream config channel_id stream_id ConnectionType.INCREMENTAL Priority.SECONDARY;
  Ok ({| channel := create_channel channel_id;
         instrument_definition_1 := s1; instrument_definition_2 := s2;
         mbp_market_recovery_1 := s3; mbp_market_recovery_2 := s4;
         mbofd_market_recovery_1 := s5; mbofd_market_recovery_2 := s6;
         incremental_cache := empty_cache; incremental_1 := s7; incremental_2 := s8 |}, stream_id).

(** [try_emplace]: a channel that is listed twice is made once. *)
Definition create_channels (channel_ids : list Z) (config : Config.t) (stream_id : Z) : res (gmap Z Channel2 * Z) :=
  foldM (λ '(channels, stream_id) channel_id,
    match channels !! channel_id with
    | Some _ => Ok (channels, stream_id)
    | None =>
      '(item, stream_id) ← create_channel2 config channel_id stream_id;
      Ok (<[channel_id := item]> channels, stream_id)
    end) (∅, stream_id) channel_ids.

(** The constructor, with the stream id after it. *)
Definition create_manager (sd : SecurityDefinitions) (channel_ids : list Z) (config : Config.t)
    (secdef_config_file : option string) (stream_id : Z) : res (Manager * Z) :=
  '(channels, stream_id) ← create_channels channel_ids config stream_id;
  Ok ({| shared_ := create_shared sd; channels_ := channels; secdef_config_file_ := secdef_config_file |}, stream_id).

Definition manager_get_name (channel_id : Z) (type : ConnectionType.t) (priority : Priority.t) (m : Manager) : res string :=
  match channels_ m !! channel_id with
  | None => Err Fatal
  | Some c =>
    let primary := bool_decide (priority = Priority.PRIMARY) in
    match type with
    | ConnectionType.HISTORICAL_REPLAY => Err Fatal
    | ConnectionType.INSTRUMENT_DEFINITION =>
      Ok (name (if primary then instrument_definition_1 c else instrument_definition_2 c))
    | ConnectionType.MBP_MARKET_RECOVERY =>
      Ok (name (if primary then mbp_market_recovery_1 c else mbp_market_recovery_2 c))
    | ConnectionType.MBOFD_MARKET_RECOVERY =>
      Ok (name (if primary then mbofd_market_recovery_1 c else mbofd_market_recovery_2 c))
    | ConnectionType.INCREMENTAL =>
      Ok (name (if primary then incremental_1 c else incremental_2 c))
    end
  end.

(** [dispatch(event)] of a timer: each stream of each channel. *)
Definition dispatch_timer (now : Z) (m : Manager) : Manager := {|
  shared_ := shared_ m;
  channels_ := (λ c, {|
    channel := channel c;
    instrument_definition_1 := on_timer now (instrument_definition_1 c);
    instrument_definition_2 := on_timer now (instrument_definition_2 c);
    mbp_market_recovery_1 := on_timer now (mbp_market_recovery_1 c);
    mbp_market_recovery_2 := on_timer now (mbp_market_recovery_2 c);
    mbofd_market_recovery_1 := on_timer now (mbofd_market_recovery_1 c);
    mbofd_market_recovery_2 := on_timer now (mbofd_market_recovery_2 c);
    incremental_cache := incremental_cache c;
    incremental_1 := on_timer now (incremental_1 c);
    incremental_2 := on_timer now (incremental_2 c) |}) <$> channels_ m;
  secdef_config_file_ := secdef_config_file_ m |}.

(** Start: the streams do nothing, and then the definitions file is read. *)
Definition manager_start (m : Manager) : res Manager :=
  sh ← read_secdef (secdef_config_file_ m) (shared_ m);
  Ok {| shared_ := sh; channels_ := channels_ m; secdef_config_file_ := secdef_config_file_ m |}.

(** The dispatch of a packet to a stream of a channel. *)
Definition dispatch_to (type : ConnectionType.t) (priority : Priority.t) (payload : bytes)
    (trace_info : TraceInfo) (c : Channel2) sh : res (Channel2 * Shared) :=
  let '(Build_Channel2 ch d1 d2 p1 p2 o1 o2 cache i1 i2) := c in
  let primary := bool_decide (priority = Priority.PRIMARY) in
  match type with
  | ConnectionType.HISTORICAL_REPLAY => Err Fatal
  | ConnectionType.INSTRUMENT_DEFINITION =>
    if primary then
      '(d1, sh) ← instrument_definition_dispatch payload trace_info d1 sh;
      Ok (Build_Channel2 ch d1 d2 p1 p2 o1 o2 cache i1 i2, sh)
    else
      '(d2, sh) ← instrument_definition_dispatch payload trace_info d2 sh;
      Ok (Build_Channel2 ch d1 d2 p1 p2 o1 o2 cache i1 i2, sh)
  | ConnectionType.MBP_MARKET_RECOVERY =>
    if primary then
      '(p1, sh) ← mbp_recovery_dispatch payload trace_info ch p1 sh;
      Ok (Build_Channel2 ch d1 d2 p1 p2 o1 o2 cache i1 i2, sh)
    else
      '(p2, sh) ← mbp_recovery_dispatch payload trace_info ch p2 sh;
      Ok (Build_Channel2 ch d1 d2 p1 p2 o1 o2 cache i1 i2, sh)
  | ConnectionType.MBOFD_MARKET_RECOVERY =>
    if primary then
      '(o1, sh) ← mbofd_recovery_dispatch payload trace_info ch o1 sh;
      Ok (Build_Channel2 ch d1 d2 p1 p2 o1 o2 cache i1 i2, sh)
    else
      '(o2, sh) ← mbofd_recovery_dispatch payload trace_info ch o2 sh;
      Ok (Build_Channel2 ch d1 d2 p1 p2 o1 o2 cache i1 i2, sh)
  | ConnectionType.INCREMENTAL =>
    if primary then
      '(i1, ch, (cache, sh)) ← incremental_dispatch payload trace_info i1 ch (cache, sh);
      Ok (Build_Channel2 ch d1 d2 p1 p2 o1 o2 cache i1 i2, sh)
    else
      '(i2, ch, (cache, sh)) ← incremental_dispatch payload trace_info i2 ch (cache, sh);
      Ok (Build_Channel2 ch d1 d2 p1 p2 o1 o2 cache i1 i2, sh)
  end.

(** [Manager::dispatch] of a packet: an unknown channel is ignored. *)
Definition manager_dispatch (channel_id : Z) (type : ConnectionType.t) (priority : Priority.t)
    (payload : bytes) (trace_info : TraceInfo) (m : Manager) : res Manager :=
  match channels_ m !! channel_id with
  | None => Ok m
  | Some c =>
    '(c, sh) ← dispatch_to type priority payload trace_info c (shared_ m);
    Ok {| shared_ := sh; channels_ := <[channel_id := c]> (channels_ m);
          secdef_config_file_ := secdef_config_file_ m |}
  end.

(** What the manager is driven by. *)
Inductive manager_event :=
  | OnStart
  | OnStop
  | OnTimer (now : Z)
  | OnPacket (channel_id : Z) (type : ConnectionType.t) (priority : Priority.t)
      (payload : bytes) (trace_info : TraceInfo).

Definition manager_step (m : Manager) (e : manager_event) : res Manager :=
  match e with
  | OnStart => manager_start m
  | OnStop => Ok m
  | OnTimer now => Ok (dispatch_timer now m)
  | OnPacket channel_id type priority payload trace_info =>
    manager_dispatch channel_id type priority payload trace_info m
  end.
End manager.

(** ** Facts *)

Section manager_facts.
Context `{Env}.
Implicit Types (sh : Shared) (st : stream).

(** ** What is shared by the channels *)

Lemma with_security_scratch id f sh :
  (∀ s sh, scratch (f s sh).2 = scratch sh) → scratch (with_security id f sh) = scratch sh.
Proof.
  intros Hf. unfold with_security. destruct (get_security id (definitions sh)) as [s|]; [|done].
  specialize (Hf s sh). by destruct (f s sh).
Qed.

Lemma on_snapshot_full_refresh_scratch st ch frame value sh :
  scratch (on_snapshot_full_refresh st ch frame value sh) = scratch sh.
Proof.
  apply with_security_scratch. intros s sh1.
  destruct (mbp_resubscribe s =? 0); [done|]. destruct (_ <? _); [done|]. cbv zeta.
  set (mbp := foldl _ _ _). destruct (negb (mbp_empty mbp)); [|done].
  pose proof (mbp_recovery_dispatch_spec st ch (sf_lastMsgSeqNumProcessed value)
    (sf_transactTime value) (sending_time frame) mbp s sh1) as Hspec.
  destruct (mbp_recovery_dispatch_market_by_price _ _ _ _ _ mbp s sh1) as [s' sh'].
  destruct Hspec as [_ [(es & -> & _) _]]. apply emit_all_scratch.
Qed.

Lemma on_snapshot_order_book_scratch st ch value sh :
  scratch (on_snapshot_order_book st ch value sh) = scratch sh.
Proof.
  apply with_security_scratch. intros s sh1.
  destruct (mbo_resubscribe s =? 0); [done|]. destruct (_ <? _); [done|].
  pose proof (update_mbo_snapshot_effect st ch value (so_currentChunk value) (so_noChunks value) s sh1) as He.
  destruct (update_mbo_snapshot _ _ _ s sh1) as [[b s'] sh']. destruct He as [_ (es & -> & _)].
  apply emit_all_scratch.
Qed.

Definition same_scratch sh sh' : Prop := scratch sh' = scratch sh.

#[local] Instance same_scratch_preorder : PreOrder same_scratch.
Proof. split; [by intros sh|]. unfold same_scratch. intros ???. congruence. Qed.

(** A stream whose messages leave the scratch alone. *)
Lemma stream_dispatch_scratch (handler : parser_handler mdp_message Shared) supports payload st sh st' sh' b :
  (∀ f s s', on_frame handler f s = Ok s' → same_scratch s s') →
  (∀ f m s s', on_message handler f m s = Ok s' → same_scratch s s') →
  parser_dispatch handler payload (publish_stream_status supports ConnectionStatus.READY st sh).2 = Ok (b, sh') →
  (publish_stream_status supports ConnectionStatus.READY st sh).1 = st' → same_scratch sh sh'.
Proof.
  intros Hf Hm Hp _. trans (publish_stream_status supports ConnectionStatus.READY st sh).2.
  - unfold publish_stream_status. by case_decide.
  - by eapply (parser_dispatch_rel _ same_scratch).
Qed.

Lemma instrument_definition_dispatch_scratch payload ti st sh st' sh' :
  instrument_definition_dispatch payload ti st sh = Ok (st', sh') → same_scratch sh sh'.
Proof.
  unfold instrument_definition_dispatch.
  pose proof (stream_dispatch_scratch (instrument_definition_handler (publish_stream_status
    instrument_definition_supports ConnectionStatus.READY st sh).1 ti) instrument_definition_supports payload st sh) as Hd.
  destruct (publish_stream_status _ _ st sh) as [st1 sh1]. cbn [fst snd] in Hd.
  intros ([b sh2] & Hp & [= <- <-])%res_bind_Ok. refine (Hd _ _ _ _ _ Hp eq_refl).
  - by intros f s s' [= <-].
  - intros f m s s'. destruct m; intros [= <-]; try done; by apply on_new_definition_scratch.
Qed.

Lemma mbp_recovery_dispatch_scratch payload ti ch st sh st' sh' :
  mbp_recovery_dispatch payload ti ch st sh = Ok (st', sh') → same_scratch sh sh'.
Proof.
  unfold mbp_recovery_dispatch.
  pose proof (stream_dispatch_scratch (mbp_recovery_handler (publish_stream_status
    mbp_recovery_supports ConnectionStatus.READY st sh).1 ch ti) mbp_recovery_supports payload st sh) as Hd.
  destruct (publish_stream_status _ _ st sh) as [st1 sh1]. cbn [fst snd] in Hd.
  intros ([b sh2] & Hp & [= <- <-])%res_bind_Ok. refine (Hd _ _ _ _ _ Hp eq_refl).
  - by intros f s s' [= <-].
  - intros f m s s'. destruct m; intros [= <-]; try done; by apply on_snapshot_full_refresh_scratch.
Qed.

Lemma mbofd_recovery_dispatch_scratch payload ti ch st sh st' sh' :
  mbofd_recovery_dispatch payload ti ch st sh = Ok (st', sh') → same_scratch sh sh'.
Proof.
  unfold mbofd_recovery_dispatch.
  pose proof (stream_dispatch_scratch (mbofd_recovery_handler (publish_stream_status
    mbofd_recovery_supports ConnectionStatus.READY st sh).1 ch ti) mbofd_recovery_supports payload st sh) as Hd.
  destruct (publish_stream_status _ _ st sh) as [st1 sh1]. cbn [fst snd] in Hd.
  intros ([b sh2] & Hp & [= <- <-])%res_bind_Ok. refine (Hd _ _ _ _ _ Hp eq_refl).
  - by intros f s s' [= <-].
  - intros f m s s'. destruct m; intros [= <-]; try done; by apply on_snapshot_order_book_scratch.
Qed.

(** The definitions file only publishes. *)
Lemma read_secdef_step file sh sh' :
  read_secdef file sh = Ok sh' → shared_step sh sh' ∧ same_scratch sh sh'.
Proof.
  destruct file as [content|]; [|by intros [= <-]]. simpl.
  destruct (secdef_dispatch_items content) as (items & final & ->).
  intros (sh1 & Hfold & (u & _ & [= <-])%res_bind_Ok)%res_bind_Ok. revert sh Hfold.
  induction items as [|item items IH]; intros sh; [by intros [= <-]|].
  intros (sh2 & Hone & Hrest)%res_bind_Ok.
  assert (shared_step sh sh2 ∧ same_scratch sh sh2) as [S1 C1].
  { unfold read_secdef_handler in Hone. destruct (discard_symbol _); [by injection Hone as <-|].
    destruct (get_security _ _); [|done]. injection Hone as <-. split; [apply emit_step|done]. }
  destruct (IH sh2 Hrest) as [S2 C2]. split; [by etrans|by trans sh2].
Qed.
End manager_facts.

(** ** Facts: runs *)

Section manager_runs.
Context `{Env}.
Implicit Types (sh : Shared) (c : Channel2) (m : Manager).

Definition channel2_wf c : Prop := channel_wf (channel c) ∧ orders (incremental_cache c) = [].

(** What every event keeps. *)
Record manager_inv m : Prop := {
  mi_securities : sd_wf (definitions (shared_ m));
  mi_fragments : fragments_ok (shared_ m);
  mi_channels : ∀ id c, channels_ m !! id = Some c → channel2_wf c;
}.

Record manager_kept m m' : Prop := {
  mk_securities : securities_kept (shared_ m) (shared_ m');
  mk_log : log (shared_ m) `prefix_of` log (shared_ m');
  mk_channels : ∀ id, is_Some (channels_ m' !! id) ↔ is_Some (channels_ m !! id);
}.

#[global] Instance manager_kept_preorder : PreOrder manager_kept.
Proof.
  split.
  - intros m. split; [|done|done]. intros id s Hs. by exists s.
  - intros m1 m2 m3 [S1 L1 C1] [S2 L2 C2]. split; [|by etrans|].
    + intros id s Hs. destruct (S1 id s Hs) as (s2 & Hs2 & ?), (S2 id s2 ltac:(done)) as (s3 & Hs3 & ?).
      exists s3. split; [done|by etrans].
    + intros id. by rewrite C2, C1.
Qed.

(** A packet, on any stream. *)
Lemma dispatch_to_step type priority payload ti c sh c' sh' :
  channel2_wf c → fragments_ok sh → sd_wf (definitions sh) →
  dispatch_to type priority payload ti c sh = Ok (c', sh') →
  channel2_wf c' ∧ fragments_ok sh' ∧ sd_wf (definitions sh')
  ∧ securities_kept sh sh' ∧ log sh `prefix_of` log sh'.
Proof.
  destruct c as [ch d1 d2 p1 p2 o1 o2 cache i1 i2]. intros [Hch Hc] Hfr Hwf. cbn [channel incremental_cache] in *.
  assert (∀ sh', shared_step sh sh' ∧ same_scratch sh sh' →
    fragments_ok sh' ∧ sd_wf (definitions sh') ∧ securities_kept sh sh' ∧ log sh `prefix_of` log sh') as Hquiet.
  { intros sh1 [[H1 H2 H3] Hs]. split_and!; [|auto..]. eapply same_fragments_ok, Hfr. by apply scratch_fragments. }
  assert (∀ st st' ch' w', incremental_dispatch payload ti st ch (cache, sh) = Ok (st', ch', w') →
    channel_wf ch' ∧ orders w'.1 = [] ∧ fragments_ok w'.2 ∧ sd_wf (definitions w'.2)
    ∧ securities_kept sh w'.2 ∧ log sh `prefix_of` log w'.2) as Hinc.
  { intros st st' ch' w' Hd. apply incremental_dispatch_safe in Hd as (? & [? ? ?] & ? & ?); [done|done|by split]. }
  unfold dispatch_to. destruct type; [done|..]; destruct (bool_decide _);
    intros ([? ?] & Hd & Heq)%res_bind_Ok.
  1-6: injection Heq as <- <-; (split; [by split|]); apply Hquiet.
  1-2: split; [by eapply instrument_definition_dispatch_step|by eapply instrument_definition_dispatch_scratch].
  1-2: split; [by eapply mbp_recovery_dispatch_step|by eapply mbp_recovery_dispatch_scratch].
  1-2: split; [by eapply mbofd_recovery_dispatch_step|by eapply mbofd_recovery_dispatch_scratch].
  all: destruct p as [st1 ch1], p0 as [cache1 sh1]; injection Heq as <- <-;
    apply Hinc in Hd as (? & ? & ? & ? & ? & ?); by split_and!.
Qed.

Lemma manager_step_kept m e m' :
  manager_inv m → manager_step m e = Ok m' → manager_inv m' ∧ manager_kept m m'.
Proof.
  intros [Hwf Hfr Hch]. destruct e as [| |now|id type priority payload ti]; simpl.
  - unfold manager_start. intros (sh & Hr & [= <-])%res_bind_Ok.
    apply read_secdef_step in Hr as [[H1 H2 H3] Hs]. split; split; try done; [auto|].
    eapply same_fragments_ok, Hfr. by apply scratch_fragments.
  - by intros [= <-].
  - intros [= <-]. split; split; try done.
    + intros id c. simpl. rewrite lookup_fmap. intros (c0 & Hc & ->)%fmap_Some_1. exact (Hch id c0 Hc).
    + intros id s Hs. by exists s.
    + intros id. simpl. rewrite lookup_fmap. by destruct (channels_ m !! id); simpl; split; intros [].
  - unfold manager_dispatch. destruct (channels_ m !! id) as [c|] eqn:Hc; [|by intros [= <-]].
    intros ([c' sh'] & Hd & [= <-])%res_bind_Ok.
    destruct (dispatch_to_step _ _ _ _ _ _ _ _ (Hch id c Hc) Hfr Hwf Hd) as (W & F & S & K & L).
    split; split; simpl; try done.
    + intros id' c0 [[-> ->]|[_ Hc0]]%lookup_insert_Some; [done|by eapply Hch].
    + intros id'. destruct (decide (id = id')) as [<-|].
      * rewrite lookup_insert_eq, Hc. by split; intros _; eexists.
      * by rewrite lookup_insert_ne.
Qed.

(** ** Creation *)

Definition streams_of c : list stream :=
  [instrument_definition_1 c; instrument_definition_2 c; mbp_market_recovery_1 c; mbp_market_recovery_2 c;
   mbofd_market_recovery_1 c; mbofd_market_recovery_2 c; incremental_1 c; incremental_2 c].

Lemma next_stream_Ok config id n type priority st n' :
  next_stream config id n type priority = Ok (st, n') → n + 1 < 2 ^ 16 → 0 ≤ n →
  n' = n + 1 ∧ stream_id st = n' ∧ Config.get_name config id type priority = Ok (name st).
Proof.
  unfold next_stream, create_named.
  intros (st' & (nm & Hn & [= <-])%res_bind_Ok & [= <- <-])%res_bind_Ok Hlt Hpos.
  rewrite wrap_small by (unfold in_width; lia). done.
Qed.

(** The streams of a channel: consecutive ids, and the configured names. *)
Lemma create_channel2_Ok config id n c n' :
  create_channel2 config id n = Ok (c, n') → 0 ≤ n → n + 8 < 2 ^ 16 →
  n' = n + 8 ∧ map stream_id (streams_of c) = seqZ (n + 1) 8 ∧ channel2_wf c
  ∧ ∀ type priority, type ≠ ConnectionType.HISTORICAL_REPLAY → priority ≠ Priority.UNDEFINED →
    ∀ m, channels_ m !! id = Some c → manager_get_name id type priority m = Config.get_name config id type priority.
Proof.
  unfold create_channel2. intros Hc Hpos Hlt.
  repeat match goal with
  | Hc : (_ ≫= _) = Ok _ |- _ =>
    let st := fresh "st" in let H1 := fresh "Hn" in
    apply res_bind_Ok in Hc as ([st ?] & H1 & Hc); apply next_stream_Ok in H1 as (-> & ? & ?); [|lia..]
  end.
  injection Hc as <- <-. split_and!; [lia| |split; [intros s m; simpl; rewrite held_new; by intros ?%elem_of_nil|done]|].
  - unfold streams_of. cbn [map instrument_definition_1 instrument_definition_2 mbp_market_recovery_1
      mbp_market_recovery_2 mbofd_market_recovery_1 mbofd_market_recovery_2 incremental_1 incremental_2].
    change (seqZ (n + 1) 8) with (map (λ i, Z.of_nat i + (n + 1)) (seq 0 8)). cbn [map seq].
    repeat (apply f_equal2; [lia|]). reflexivity.
  - intros type priority Htype Hprio m Hm. unfold manager_get_name. rewrite Hm.
    destruct type; [done|..]; destruct priority; try done; simpl; congruence.
Qed.

(** The ids that are taken: those of different streams differ. *)
Record created config (n0 : Z) (channels : gmap Z Channel2) (n : Z) : Prop := {
  cr_range : n0 ≤ n;
  cr_streams : ∀ id c, channels !! id = Some c →
    ∃ k, n0 ≤ k ∧ k + 8 ≤ n ∧ map stream_id (streams_of c) = seqZ (k + 1) 8;
  cr_disjoint : ∀ id id' c c' s, channels !! id = Some c → channels !! id' = Some c' →
    s ∈ map stream_id (streams_of c) → s ∈ map stream_id (streams_of c') → id = id';
  cr_wf : ∀ id c, channels !! id = Some c → channel2_wf c;
  cr_names : ∀ id c, channels !! id = Some c →
    ∀ type priority, type ≠ ConnectionType.HISTORICAL_REPLAY → priority ≠ Priority.UNDEFINED →
    ∀ m, channels_ m !! id = Some c → manager_get_name id type priority m = Config.get_name config id type priority;
}.

Lemma create_channels_Ok config n0 ids channels n channels' n' :
  foldM (λ '(channels, stream_id) channel_id,
    match channels !! channel_id with
    | Some _ => Ok (channels, stream_id)
    | None =>
      '(item, stream_id) ← create_channel2 config channel_id stream_id;
      Ok (<[channel_id := item]> channels, stream_id)
    end) (channels, n) ids = Ok (channels', n') →
  0 ≤ n0 → n + 8 * Z.of_nat (length ids) < 2 ^ 16 → created config n0 channels n →
  created config n0 channels' n'
  ∧ ∀ id, is_Some (channels' !! id) ↔ is_Some (channels !! id) ∨ id ∈ ids.
Proof.
  revert channels n. induction ids as [|id ids IH]; intros channels n.
  { intros [= <- <-] _ _ Hcr. split; [done|]. intros id. split; [by left|]. by intros [?|?%elem_of_nil]. }
  cbn [foldM length]. intros Hf Hn0 Hlt Hcr. destruct (channels !! id) as [c|] eqn:Hc.
  - simpl in Hf. destruct (IH channels n Hf) as [Hcr' Hdom]; [done|lia|done|]. split; [done|].
    intros id'. rewrite Hdom, elem_of_cons. split; [naive_solver|].
    intros [?|[->|?]]; [by left|left; by exists c|by right].
  - apply res_bind_Ok in Hf as ([channels1 n1] & Hone & Hf).
    apply res_bind_Ok in Hone as ([item n2] & Hitem & [= <- <-]). destruct Hcr as [Hr Hs Hd Hw Hn].
    destruct (create_channel2_Ok config id n item n2 Hitem) as (-> & Hids & Hwf & Hname); [lia|lia|].
    destruct (IH (<[id := item]> channels) (n + 8) Hf) as [Hcr' Hdom]; [done|lia| |].
    + split; [lia|..].
      * intros id' c [[-> ->]|[_ Hc']]%lookup_insert_Some; [exists n; by split_and!; [lia|lia|]|].
        destruct (Hs id' c Hc') as (k & ? & ? & ?). exists k. by split_and!; [|lia|].
      * assert (∀ id' c' s, channels !! id' = Some c' → s ∈ map stream_id (streams_of item) →
          s ∈ map stream_id (streams_of c') → False) as Hfresh.
        { intros id' c' s Hc'. destruct (Hs id' c' Hc') as (k & ? & ? & ->). rewrite Hids, !elem_of_seqZ. lia. }
        intros id1 id2 c1 c2 s [[<- <-]|[_ Hc1]]%lookup_insert_Some [[<- <-]|[_ Hc2]]%lookup_insert_Some H1 H2;
          [done|by destruct (Hfresh id2 c2 s)|by destruct (Hfresh id1 c1 s)|by eapply Hd].
      * intros id' c [[-> ->]|[_ Hc']]%lookup_insert_Some; [done|by eapply Hw].
      * intros id' c [[<- <-]|[_ Hc']]%lookup_insert_Some; [done|by apply Hn].
    + split; [done|]. intros id'. rewrite Hdom, lookup_insert_is_Some, elem_of_cons.
      destruct (decide (id = id')); naive_solver.
Qed.
End manager_runs.

(** ** Properties *)

Section manager_properties.
Context `{Env}.
Implicit Types (sh : Shared) (m : Manager).

(** the market data side.  From its construction on, whatever packets, on
    whatever streams and in whatever order, well formed or not, and whatever
    timers and starts the manager handles: the tables of securities are well
    formed, no security is lost or changes its identity, no event is taken
    back, the packets held back are complete and at their sequence numbers, and
    the caches of the incremental feeds are consistent. *)
Theorem manager_safe sd channel_ids config file n m n' events m' :
  sd_wf sd → 0 ≤ n → n + 8 * Z.of_nat (length channel_ids) < 2 ^ 16 →
  create_manager sd channel_ids config file n = Ok (m, n') →
  foldM manager_step m events = Ok m' →
  manager_inv m' ∧ manager_kept m m'.
Proof.
  intros Hwf Hn Hlt Hc Hrun.
  assert (manager_inv m) as Hm.
  { unfold create_manager in Hc. apply res_bind_Ok in Hc as ([channels n1] & Hch & [= <- <-]).
    apply (create_channels_Ok config n) in Hch as [[_ _ _ Hw _] _]; [by split|done|done|]. split; [lia|..]; done. }
  clear Hc. revert m Hm Hrun. induction events as [|e events IH]; intros m Hm; [by intros [= <-]|].
  intros (m1 & Hstep & Hrest)%res_bind_Ok.
  destruct (manager_step_kept m e m1 Hm Hstep) as [Hm1 Hk1].
  destruct (IH m1 Hm1 Hrest) as [Hm2 Hk2]. split; [done|by etrans].
Qed.

(** the streams.  The manager has exactly the configured channels, once
    each; no two streams of any channels have the same id; and each stream is
    known by the name that the configuration gives it. *)
Theorem create_manager_streams sd channel_ids config file n m n' :
  0 ≤ n → n + 8 * Z.of_nat (length channel_ids) < 2 ^ 16 →
  create_manager sd channel_ids config file n = Ok (m, n') →
  (∀ id, is_Some (channels_ m !! id) ↔ id ∈ channel_ids)
  ∧ (∀ id id' c c' i j s, channels_ m !! id = Some c → channels_ m !! id' = Some c' →
       map stream_id (streams_of c) !! i = Some s → map stream_id (streams_of c') !! j = Some s →
       id = id' ∧ i = j)
  ∧ (∀ id type priority, id ∈ channel_ids →
       type ≠ ConnectionType.HISTORICAL_REPLAY → priority ≠ Priority.UNDEFINED →
       manager_get_name id type priority m = Config.get_name config id type priority).
Proof.
  intros Hn Hlt Hc. unfold create_manager in Hc. apply res_bind_Ok in Hc as ([channels n1] & Hch & [= <- <-]).
  apply (create_channels_Ok config n) in Hch as [[_ Hs Hd _ Hnm] Hdom]; [|done|done|split; [lia|..]; done].
  cbn [channels_]. assert (∀ id, is_Some (channels !! id) ↔ id ∈ channel_ids) as Hin.
  { intros id. rewrite Hdom, lookup_empty. split; [by intros [[? ?]|?]|by right]. }
  split_and!; [exact Hin|..].
  - intros id id' c c' i j s Hc Hc' Hi Hj.
    assert (id = id') as <- by (eapply Hd; [exact Hc|exact Hc'|..]; by eapply list_elem_of_lookup_2).
    split; [done|]. rewrite Hc in Hc'. injection Hc' as <-. destruct (Hs id c Hc) as (k & _ & _ & Heq).
    rewrite Heq in Hi, Hj. apply lookup_seqZ in Hi as [-> _], Hj as [? _]. lia.
  - intros id type priority [c Hc]%Hin Htype Hprio. by eapply Hnm.
Qed.

(** channels.  A packet of an unknown channel has no effect, and a packet
    of one channel does not touch what the other channels hold back, their
    sequences, their streams or their caches. *)
Theorem manager_dispatch_isolated channel_id type priority payload ti m m' :
  manager_dispatch channel_id type priority payload ti m = Ok m' →
  (channels_ m !! channel_id = None → m' = m)
  ∧ ∀ id, id ≠ channel_id → channels_ m' !! id = channels_ m !! id.
Proof.
  unfold manager_dispatch. destruct (channels_ m !! channel_id) as [c|]; [|by intros [= <-]].
  intros ([c' sh'] & _ & [= <-])%res_bind_Ok. split; [done|]. intros id Hid. simpl. by rewrite lookup_insert_ne.
Qed.
End manager_properties.

(** ** Witnesses *)

Section manager_witnesses.
#[local] Existing Instance the_env.

Definition example_names (prefix : string) : gmap ConnectionType.t (gmap Priority.t string) :=
  let lines s : gmap Priority.t string := {[Priority.PRIMARY := s +:+ "A"; Priority.SECONDARY := s +:+ "B"]} in
  {[ConnectionType.INSTRUMENT_DEFINITION := lines (prefix +:+ "N");
    ConnectionType.MBP_MARKET_RECOVERY := lines (prefix +:+ "S");
    ConnectionType.MBOFD_MARKET_RECOVERY := lines (prefix +:+ "SMBO");
    ConnectionType.INCREMENTAL := lines (prefix +:+ "I")]}.

Definition example_config : Config.t := {|
  Config.connections_ := ∅; Config.connection_types_ := ∅;
  Config.names_ := {[310 := example_names "310"; 320 := example_names "320"]} |}.

Definition example_manager : res (Manager * Z) :=
  create_manager empty_definitions [310; 320; 310] example_config None 4.

Definition example_events : list manager_event :=
  [OnStart; OnPacket 310 ConnectionType.INCREMENTAL Priority.PRIMARY (heartbeat_packet 1) example_trace;
   OnPacket 310 ConnectionType.INCREMENTAL Priority.SECONDARY (heartbeat_packet 2) example_trace;
   OnPacket 99 ConnectionType.INCREMENTAL Priority.PRIMARY (heartbeat_packet 9) example_trace; OnTimer 5].

Lemma manager_safe_witness :
  ∃ m n' m', example_manager = Ok (m, n') ∧ foldM manager_step m example_events = Ok m' ∧ manager_inv m'.
Proof.
  destruct (is_ok_value example_manager) as [[m n'] Hm]; [vm_compute; reflexivity|].
  assert (is_ok (foldM manager_step m example_events) = true) as Hok.
  { enough (is_ok ('(m, _) ← example_manager; foldM manager_step m example_events) = true) as H
      by (rewrite Hm in H; exact H). vm_compute. reflexivity. }
  destruct (is_ok_value _ Hok) as [m' Hm']. exists m, n', m'. split; [exact Hm|]. split; [exact Hm'|].
  refine (proj1 (manager_safe empty_definitions [310; 320; 310] example_config None 4 m n' example_events m'
    empty_definitions_wf _ _ Hm Hm')); [lia|reflexivity].
Defined.

Lemma create_manager_streams_witness :
  ∃ m n', example_manager = Ok (m, n')
    ∧ manager_get_name 320 ConnectionType.INCREMENTAL Priority.SECONDARY m = Ok "320IB"%string.
Proof.
  destruct (is_ok_value example_manager) as [[m n'] Hm]; [vm_compute; reflexivity|].
  exists m, n'. split; [exact Hm|].
  destruct (create_manager_streams empty_definitions [310; 320; 310] example_config None 4 m n')
    as (_ & _ & Hname); [lia|reflexivity|exact Hm|].
  rewrite Hname; [vm_compute; reflexivity|apply (bool_decide_unpack _); vm_compute; exact I|discriminate|discriminate].
Defined.

Lemma manager_dispatch_isolated_witness :
  ∃ m n' m', example_manager = Ok (m, n')
    ∧ manager_dispatch 310 ConnectionType.INCREMENTAL Priority.PRIMARY (heartbeat_packet 1) example_trace m = Ok m'
    ∧ channels_ m' !! 320 = channels_ m !! 320.
Proof.
  destruct (is_ok_value example_manager) as [[m n'] Hm]; [vm_compute; reflexivity|].
  assert (is_ok (manager_dispatch 310 ConnectionType.INCREMENTAL Priority.PRIMARY (heartbeat_packet 1) example_trace m)
    = true) as Hok.
  { enough (is_ok ('(m, _) ← example_manager;
      manager_dispatch 310 ConnectionType.INCREMENTAL Priority.PRIMARY (heartbeat_packet 1) example_trace m) = true) as H
      by (rewrite Hm in H; exact H). vm_compute. reflexivity. }
  destruct (is_ok_value _ Hok) as [m' Hm']. exists m, n', m'. split; [exact Hm|]. split; [exact Hm'|].
  exact (proj2 (manager_dispatch_isolated 310 ConnectionType.INCREMENTAL Priority.PRIMARY (heartbeat_packet 1)
    example_trace m m' Hm') 320 ltac:(discriminate)).
Defined.
End manager_witnesses.
