(* ===== verification/Lines.v ===== *)
(** The two lines of a channel
    (src/roq/cme/market_data/incremental.cpp, manager.cpp: the exchange sends each
    packet of the incremental feed twice, on line A and on line B; each line has
    a stream object of its own, and both share the channel, the cache and
    [Shared]).

    What the handlers do depends on the line a packet came from, and on when it
    came, only in the stream id that the events carry, in the status of the
    stream and in the latency of heartbeats: [agree] is equality of states up
    to these, every handler keeps it, and so the outcome of the feed does not
    depend on how the packets of the two lines interleave. *)

From S2P Require Import Prelude Double Api MdpMap Messages MdpParser Security SecdefReader SecurityDefinitions Channel MarketData InstrumentDefinition Recovery IncrementalBase IncrementalBook IncrementalTrades Incremental MdpConfig Manager.

(** ** States up to the line *)

Definition untag_header (h : update_header) : update_header := {|
  uh_stream_id := 0; uh_exchange := uh_exchange h; uh_symbol := uh_symbol h;
  uh_exchange_time_utc := uh_exchange_time_utc h; uh_exchange_sequence := uh_exchange_sequence h;
  uh_sending_time_utc := uh_sending_time_utc h |}.

(** An event without its stream; the status of a stream and the latency of a
    heartbeat are about the stream only. *)
Definition untag (e : md_event) : option md_event :=
  match e with
  | EvStreamStatus _ | EvExternalLatency _ _ => None
  | EvReferenceData r => Some (EvReferenceData {|
      rd_stream_id := 0; rd_exchange := rd_exchange r; rd_symbol := rd_symbol r;
      rd_security_type := rd_security_type r; rd_external_security_id := rd_external_security_id r;
      rd_quote_currency := rd_quote_currency r; rd_settlement_currency := rd_settlement_currency r;
      rd_tick_size := rd_tick_size r; rd_multiplier := rd_multiplier r;
      rd_min_trade_vol := rd_min_trade_vol r; rd_max_trade_vol := rd_max_trade_vol r;
      rd_strike_currency := rd_strike_currency r; rd_discard := rd_discard r |})
  | EvMarketStatus h s => Some (EvMarketStatus (untag_header h) s)
  | EvTopOfBook h l t => Some (EvTopOfBook (untag_header h) l t)
  | EvMarketByPriceUpdate h bids asks t => Some (EvMarketByPriceUpdate (untag_header h) bids asks t)
  | EvMarketByOrderUpdate h os t => Some (EvMarketByOrderUpdate (untag_header h) os t)
  | EvTradeSummary h trades => Some (EvTradeSummary (untag_header h) trades)
  | EvStatisticsUpdate h statistics t => Some (EvStatisticsUpdate (untag_header h) statistics t)
  | EvApplied n => Some (EvApplied n)
  end.

Section agreement.
Context `{Env}.
Implicit Types (sh : Shared) (security : Security).

(** What was published, up to the line. *)
Definition published sh : list md_event := omap untag (log sh).

Record agree sh sh' : Prop := {
  ag_definitions : definitions sh = definitions sh';
  ag_md_entries : md_entries_ sh = md_entries_ sh';
  ag_trade_summary : trade_summary_ sh = trade_summary_ sh';
  ag_security_ids : security_ids_ sh = security_ids_ sh';
  ag_orders : orders_ sh = orders_ sh';
  ag_transact_time : transact_time_ sh = transact_time_ sh';
  ag_total : total_number_of_orders_ sh = total_number_of_orders_ sh';
  ag_published : published sh = published sh';
}.

#[global] Instance agree_equivalence : Equivalence agree.
Proof.
  split.
  - done.
  - intros sh sh' []. by split.
  - intros sh1 sh2 sh3 [] []. split; by etrans.
Qed.

(** With a value besides, which is the same. *)
Definition agree_with {A} (p p' : A * Shared) : Prop := p.1 = p'.1 ∧ agree p.2 p'.2.

#[global] Instance agree_with_equivalence {A} : Equivalence (@agree_with A).
Proof.
  unfold agree_with. split.
  - done.
  - intros p p' []. by split.
  - intros p1 p2 p3 [E1 ?] [E2 ?]. split; [congruence|by etrans].
Qed.

(** Results: the same error, or states that agree. *)
Definition agree_res {A B} (R : A → B → Prop) (r : res A) (r' : res B) : Prop :=
  match r, r' with
  | Ok x, Ok y => R x y
  | Err e, Err e' => e = e'
  | _, _ => False
  end.

Lemma agree_bind {A B} (R : relation A) (Q : relation B) (r r' : res A) (k k' : A → res B) :
  agree_res R r r' → (∀ x y, R x y → agree_res Q (k x) (k' y)) → agree_res Q (r ≫= k) (r' ≫= k').
Proof. destruct r, r'; simpl; intros; subst; try done; auto. Qed.

Lemma agree_emit e e' sh sh' : untag e = untag e' → agree sh sh' → agree (emit e sh) (emit e' sh').
Proof.
  intros He []. split; [done..|]. unfold published in *. cbn [emit log]. rewrite !omap_app. simpl. by rewrite He, ag_published0.
Qed.

Lemma agree_set_definitions sd sh sh' : agree sh sh' → agree (set_definitions sd sh) (set_definitions sd sh').
Proof. intros []. by split. Qed.

Lemma agree_set_md_entries m sh sh' : agree sh sh' → agree (set_md_entries m sh) (set_md_entries m sh').
Proof. intros []. by split. Qed.

Lemma agree_set_trades ts ids os t n sh sh' :
  agree sh sh' → agree (set_trades ts ids os t n sh) (set_trades ts ids os t n sh').
Proof. intros []. by split. Qed.

Lemma agree_with_security id f f' sh sh' :
  agree sh sh' → (∀ s sh sh', agree sh sh' → agree_with (f s sh) (f' s sh')) →
  agree (with_security id f sh) (with_security id f' sh').
Proof.
  intros Hsh Hf. unfold with_security. rewrite (ag_definitions _ _ Hsh).
  destruct (get_security id (definitions sh')) as [s|]; [|done].
  destruct (Hf s sh sh' Hsh) as [Es Hs]. destruct (f s sh), (f' s sh'). simpl in *. subst.
  rewrite (ag_definitions _ _ Hs). by apply agree_set_definitions.
Qed.

Lemma agree_via {A} id (f f' : Security → A * Shared → Security * (A * Shared)) w w' :
  agree_with w w' →
  (∀ s w w', agree_with w w' → (f s w).1 = (f' s w').1 ∧ agree_with (f s w).2 (f' s w').2) →
  agree_with (via id f w) (via id f' w').
Proof.
  intros Hw Hf. unfold via. rewrite (ag_definitions _ _ (proj2 Hw)).
  destruct (get_security id (definitions w'.2)) as [s|]; [|done].
  destruct (Hf s w w' Hw) as [Es [Ea Hs]]. destruct (f s w) as [s1 [a1 sh1]], (f' s w') as [s2 [a2 sh2]].
  simpl in *. subst. split; [done|]. simpl. rewrite (ag_definitions _ _ Hs). by apply agree_set_definitions.
Qed.

(** Loops. *)
Lemma agree_foldl {A T} (R : relation A) (f f' : A → T → A) l w w' :
  R w w' → (∀ w w' x, R w w' → R (f w x) (f' w' x)) → R (foldl f w l) (foldl f' w' l).
Proof. intros Hw Hf. revert w w' Hw. induction l as [|x l IH]; intros w w' Hw; [done|]. apply IH, Hf, Hw. Qed.

Lemma agree_foldM {A T} (R : relation A) (f f' : A → T → res A) l w w' :
  R w w' → (∀ w w' x, R w w' → agree_res R (f w x) (f' w' x)) → agree_res R (foldM f w l) (foldM f' w' l).
Proof.
  intros Hw Hf. revert w w' Hw. induction l as [|x l IH]; intros w w' Hw; [done|]. cbn [foldM].
  eapply agree_bind; [by apply Hf|]. auto.
Qed.

(** The sequencers: programs whose callbacks agree. *)
Lemma run_agree {S C W} (R : relation W) (on_call on_call' : C → S → W → bool * S * W) p w w' :
  R w w' →
  (∀ c s w w', R w w' → (on_call c s w).1 = (on_call' c s w').1 ∧ R (on_call c s w).2 (on_call' c s w').2) →
  (run on_call p w).1 = (run on_call' p w').1 ∧ R (run on_call p w).2 (run on_call' p w').2.
Proof.
  intros Hw Hcall. revert w w' Hw. induction p as [s|s|s c k IH]; intros w w' Hw; simpl; [done|done|].
  destruct (Hcall c s w w' Hw) as [E Hr].
  destruct (on_call c s w) as [[ok s1] w1], (on_call' c s w') as [[ok' s1'] w1']. simpl in *. simplify_eq.
  destruct ok'; [by apply IH|done].
Qed.

Lemma sequence_update_agree {U} `{!Sequencer U} (event event' : U → UpdateType.t → md_event) seq u is_snapshot q r sh sh' :
  (∀ u t, untag (event u t) = untag (event' u t)) → agree sh sh' →
  agree_with (sequence_update event seq u is_snapshot q r sh) (sequence_update event' seq u is_snapshot q r sh').
Proof.
  intros He Hsh. unfold sequence_update.
  assert (∀ c q w w', agree_with w w' →
    (incremental_snapshot_call event seq c q w).1 = (incremental_snapshot_call event' seq c q w').1
    ∧ agree_with (incremental_snapshot_call event seq c q w).2 (incremental_snapshot_call event' seq c q w').2) as Hsnap.
  { intros [|] q1 [r1 sh1] [r2 sh2] [E Hs]; simpl in *; (split; [done|]); split; [done|by apply agree_emit|done..]. }
  set (R := @agree_with Z).
  assert (R (r, sh) (r, sh')) as H0 by done.
  assert (∀ x x' : bool * sequencer U * (Z * Shared), x.1 = x'.1 ∧ R x.2 x'.2 →
    agree_with (let '(ok, q, (r, sh)) := x in if ok then (q, r, sh) else (sequencer_clear q, seq, sh))
      (let '(ok, q, (r, sh)) := x' in if ok then (q, r, sh) else (sequencer_clear q, seq, sh))) as Hend.
  { intros [[ok q1] [r1 sh1]] [[ok' q2] [r2 sh2]] [E [Er Hs]]. simpl in *. simplify_eq. by destruct ok'. }
  apply Hend. destruct is_snapshot; apply run_agree; try done.
  intros [u1|c] q1 [r1 sh1] [r2 sh2] Hw; [|by apply Hsnap].
  destruct Hw as [E Hs]. simpl in *. split; [done|]. split; [done|]. by apply agree_emit.
Qed.
End agreement.

(** ** The handlers of the feed *)

Section handlers.
Context `{Env} (sid sid' : Z) (frame : Frame).
Implicit Types (sh : Shared) (security : Security).

Lemma dispatch_market_by_price_agree seq time sent mbp is_snapshot security sh sh' :
  agree sh sh' →
  agree_with (dispatch_market_by_price sid seq time sent mbp is_snapshot security sh)
    (dispatch_market_by_price sid' seq time sent mbp is_snapshot security sh').
Proof.
  intros Hsh. unfold dispatch_market_by_price. cbv zeta. set (ev := λ mbp t, _). set (ev' := λ mbp t, EvMarketByPriceUpdate (header sid' _ _ _ _) _ _ _).
  destruct (sequence_update_agree ev ev' seq mbp is_snapshot (mbp_sequencer security) (mbp_resubscribe security) sh sh')
    as [E Hs]; [done..|].
  destruct (sequence_update ev _ _ _ _ _ _) as [[q r] sh1], (sequence_update ev' _ _ _ _ _ _) as [[q' r'] sh1'].
  simpl in *. by simplify_eq.
Qed.

Lemma dispatch_market_by_order_agree seq time sent orders is_snapshot security sh sh' :
  agree sh sh' →
  agree_with (dispatch_market_by_order sid seq time sent orders is_snapshot security sh)
    (dispatch_market_by_order sid' seq time sent orders is_snapshot security sh').
Proof.
  intros Hsh. unfold dispatch_market_by_order. cbv zeta. set (ev := λ orders t, _). set (ev' := λ orders t, EvMarketByOrderUpdate (header sid' _ _ _ _) _ _).
  destruct (sequence_update_agree ev ev' seq orders is_snapshot (mbo_sequencer security) (mbo_resubscribe security) sh sh')
    as [E Hs]; [done..|].
  destruct (sequence_update ev _ _ _ _ _ _) as [[q r] sh1], (sequence_update ev' _ _ _ _ _ _) as [[q' r'] sh1'].
  simpl in *. by simplify_eq.
Qed.

Lemma check_report_sequence_agree rpt_seq security sh sh' :
  agree sh sh' →
  agree_with (check_report_sequence sid frame rpt_seq security sh) (check_report_sequence sid' frame rpt_seq security sh').
Proof.
  intros Hsh. unfold check_report_sequence. destruct (update_rpt_seq rpt_seq security) as [[] s]; [|done].
  cbn [negb]. cbv zeta. split; [done|]. unfold dispatch_market_by_order_stale, dispatch_market_by_price_stale.
  apply agree_emit; [done|]. by apply agree_emit.
Qed.

(** Two calls that agree, and what is done with their results. *)
Ltac agree_call lem :=
  let E := fresh "E" in let Hs := fresh "Hs" in
  pose proof lem as [E Hs];
  match type of E with
  | fst ?x = fst ?y =>
    let r := fresh "r" in let sh1 := fresh "sh" in let sh2 := fresh "sh" in
    destruct x as [? sh1], y as [r sh2]; cbn [fst snd] in E, Hs; subst
  end.

Lemma via_check_agree {A} id rpt_seq (w w' : A * Shared) :
  agree_with w w' →
  agree_with (via id (λ security w, let '(security, sh) := check_report_sequence sid frame rpt_seq security w.2 in (security, (w.1, sh))) w)
    (via id (λ security w, let '(security, sh) := check_report_sequence sid' frame rpt_seq security w.2 in (security, (w.1, sh))) w').
Proof.
  intros Hw. apply agree_via; [done|]. intros s w1 w2 [Ea Hs].
  agree_call (check_report_sequence_agree rpt_seq s _ _ Hs). by split.
Qed.

Lemma point_to_agree id sh sh' : agree sh sh' → point_to id sh = point_to id sh'.
Proof. intros Hsh. unfold point_to. by rewrite (ag_definitions _ _ Hsh). Qed.

Lemma security_iterator_agree {T A} (securityID : T → Z) dispatch dispatch' callback callback' items (w w' : A * Shared) :
  agree_with w w' →
  (∀ id s w w', agree_with w w' → agree_with (dispatch id s w) (dispatch' id s w')) →
  (∀ id x w w', agree_with w w' → agree_with (callback id x w) (callback' id x w')) →
  agree_with (security_iterator securityID dispatch callback items w) (security_iterator securityID dispatch' callback' items w').
Proof.
  intros Hw Hd Hc. unfold security_iterator.
  assert (∀ it it' : Z * option Z * (A * Shared), it.1 = it'.1 ∧ agree_with it.2 it'.2 →
    agree_with (let '(id, s, w) := it in match s with Some s => dispatch id s w | None => w end)
      (let '(id, s, w) := it' in match s with Some s => dispatch' id s w | None => w end)) as Hend.
  { intros [[id [s|]] w1] [[id' s'] w2] [E H1]; simpl in *; simplify_eq; [by apply Hd|done]. }
  apply Hend. apply (agree_foldl (λ it it' : Z * option Z * (A * Shared), it.1 = it'.1 ∧ agree_with it.2 it'.2)); [done|].
  intros [[id s] w1] [[id' s'] w2] x [E H1]. simpl in E, H1. simplify_eq. unfold security_iterator_step.
  destruct (_ =? _).
  - split; [done|]. destruct s'; [by apply Hc|done].
  - assert (agree_with (match s' with Some s => dispatch (securityID x) s w1 | None => w1 end)
      (match s' with Some s => dispatch' (securityID x) s w2 | None => w2 end)) as H2 by (destruct s'; auto).
    rewrite (point_to_agree _ _ _ (proj2 H2)). split; [done|]. cbn [snd].
    destruct (point_to _ _); [by apply Hc|done].
Qed.

Lemma on_report_sequence_agree entries sh sh' :
  agree sh sh' → agree (on_report_sequence sid frame entries sh) (on_report_sequence sid' frame entries sh').
Proof.
  intros Hsh. unfold on_report_sequence. apply security_iterator_agree; [done|done|].
  intros id x w w' Hw. by apply via_check_agree.
Qed.

Lemma dispatch_statistics_agree callback value sh sh' :
  agree sh sh' → agree (dispatch_statistics callback sid frame value sh) (dispatch_statistics callback sid' frame value sh').
Proof.
  intros Hsh. unfold dispatch_statistics. apply security_iterator_agree; [done|..]; intros id x w w' Hw;
    apply agree_via; try done; intros s [a sh1] [a' sh1'] [Ea Hs]; cbn [fst snd] in *; subst.
  - destruct a'; [done|]. split; [done|]. split; [done|]. by apply agree_emit.
  - agree_call (check_report_sequence_agree (se_rptSeq x) s _ _ Hs). destruct (negb _); [by split|].
    agree_call (dispatch_market_by_price_agree (sequence_number frame) (rs_transactTime value) (sending_time frame) ([], []) true r _ _ Hs0).
    agree_call (dispatch_market_by_order_agree (sequence_number frame) (rs_transactTime value) (sending_time frame) [] true r0 _ _ Hs1).
    by split.
Qed.

(** *** Books *)

Lemma dispatch_book_to_agree time is_snapshot security (w w' : book_scratch * Shared) :
  agree_with w w' →
  let r := dispatch_book_to sid frame time is_snapshot security w in
  let r' := dispatch_book_to sid' frame time is_snapshot security w' in
  r.1 = r'.1 ∧ agree_with r.2 r'.2.
Proof.
  destruct w as [[[layer mbp] mbo] sh], w' as [[[layer' mbp'] mbo'] sh']. intros [[= <- <- <-] Hsh].
  cbv zeta. unfold dispatch_book_to. cbn [snd] in Hsh.
  set (top := if negb _ then (empty_layer, emit _ sh) else _).
  set (top' := if negb _ then (empty_layer, emit _ sh') else _).
  assert (agree_with top top') as [E1 Hs1].
  { unfold top, top'. destruct (negb _); (split; [done|]); [by apply agree_emit|done]. }
  clearbody top top'. destruct top as [l1 sh1], top' as [l2 sh2]. cbn [fst snd] in E1, Hs1. subst l2.
  set (price := if negb (mbp_empty mbp) then _ else (security, mbp, sh1)).
  set (price' := if negb (mbp_empty mbp) then _ else (security, mbp, sh2)).
  assert (agree_with price price') as [E2 Hs2].
  { unfold price, price'. destruct (negb _); [|done].
    agree_call (dispatch_market_by_price_agree (sequence_number frame) time (sending_time frame) mbp is_snapshot security _ _ Hs1).
    by split. }
  clearbody price price'. destruct price as [[s1 m1] sh3], price' as [[s2 m2] sh4]. cbn [fst snd] in E2, Hs2.
  simplify_eq. destruct mbo as [|o mbo]; [done|].
  agree_call (dispatch_market_by_order_agree (sequence_number frame) time (sending_time frame) (o :: mbo) false s2 _ _ Hs2).
  by split.
Qed.

Lemma dispatch_book_agree time is_snapshot id w w' :
  agree_with w w' → agree_with (dispatch_book sid frame time is_snapshot id w) (dispatch_book sid' frame time is_snapshot id w').
Proof. intros Hw. apply agree_via; [done|]. intros. by apply dispatch_book_to_agree. Qed.

(** The loop over the prices: everything but the state is the same. *)
Record agree_loop (l l' : book_loop) : Prop := {
  al_security_id : bl_security_id l = bl_security_id l';
  al_security : bl_security l = bl_security l';
  al_is_snapshot : bl_is_snapshot l = bl_is_snapshot l';
  al_workaround : bl_is_snapshot_workaround l = bl_is_snapshot_workaround l';
  al_state : agree_with (bl_state l) (bl_state l');
}.

Lemma process_book_agree time l l' item :
  agree_loop l l' → agree_loop (process_book sid frame time l item) (process_book sid' frame time l' item).
Proof.
  destruct l as [id s is_snapshot workaround w], l' as [id' s' is_snapshot' workaround' w'].
  intros [E1 E2 E3 E4 Hw]. simpl in E1, E2, E3, E4, Hw. subst. unfold process_book. simpl.
  set (next := if _ =? _ then _ else _). set (next' := if _ =? _ then (id', s', is_snapshot', w') else _).
  assert (next.1 = next'.1 ∧ agree_with next.2 next'.2) as [E H1].
  { unfold next, next'. destruct (_ =? _); [done|].
    assert (agree_with
      (match s' with Some security => dispatch_book sid frame time is_snapshot' security w | None => w end)
      (match s' with Some security => dispatch_book sid' frame time is_snapshot' security w' | None => w' end)) as H1
      by (destruct s'; [by apply dispatch_book_agree|done]).
    by rewrite (point_to_agree _ _ _ (proj2 H1)). }
  clearbody next next'. destruct next as [[[id1 s1] b1] w1], next' as [[[id2 s2] b2] w2].
  cbn [fst snd] in E, H1. simplify_eq. split; try done. cbn [bl_state].
  set (v := match s2 with Some _ => via _ _ w1 | None => w1 end).
  set (v' := match s2 with Some _ => via _ _ w2 | None => w2 end).
  assert (agree_with v v') as H2 by (unfold v, v'; destruct s2; [by apply via_check_agree|done]).
  clearbody v v'.
  set (u := if enable_market_by_order options then _ else v). set (u' := if enable_market_by_order options then _ else v').
  assert (agree_with u u') as H3.
  { unfold u, u'. destruct (enable_market_by_order options); [|done]. destruct H2 as [? H2]. split; [done|].
    cbn [snd]. rewrite (ag_md_entries _ _ H2). by apply agree_set_md_entries. }
  destruct s2; [|done]. apply agree_via; [done|]. intros s0 w3 w4 [Ea Hs]. cbn [fst snd]. by rewrite Ea.
Qed.

Lemma book_price_loop_agree value sh sh' :
  agree sh sh' → agree_with (book_price_loop sid frame value sh) (book_price_loop sid' frame value sh').
Proof.
  intros Hsh. unfold book_price_loop. cbv zeta. set (l := foldl _ _ _). set (l' := foldl (process_book sid' _ _) _ _).
  assert (agree_loop l l') as [_ E2 E3 E4 Hw].
  { apply (agree_foldl agree_loop); [|by intros; apply process_book_agree].
    split; try done. split; [done|]. by apply agree_set_md_entries. }
  rewrite E2, E3, E4. split; [done|]. cbn [snd]. destruct (bl_security l'); [|apply Hw].
  by apply dispatch_book_agree.
Qed.

Lemma dispatch_orders_agree time is_snapshot id w w' :
  agree_with w w' → agree_with (dispatch_orders sid frame time is_snapshot id w) (dispatch_orders sid' frame time is_snapshot id w').
Proof.
  intros Hw. apply agree_via; [done|]. intros s [os sh] [os' sh'] [Ea Hs]. cbn [fst snd] in *. subst.
  destruct os' as [|o os]; [done|].
  agree_call (dispatch_market_by_order_agree (sequence_number frame) time (sending_time frame) (o :: os) is_snapshot s _ _ Hs).
  by split.
Qed.

Definition agree_run {A} (l l' : Z * option Z * (A * Shared)) : Prop := l.1 = l'.1 ∧ agree_with l.2 l'.2.

Lemma process_order_agree time is_snapshot l l' item :
  agree_run l l' →
  agree_run (process_order sid frame time is_snapshot l item) (process_order sid' frame time is_snapshot l' item).
Proof.
  destruct l as [[id s] w], l' as [[id' s'] w']. intros [E Hw]. simpl in E, Hw. simplify_eq.
  unfold process_order, referenced. rewrite (ag_md_entries _ _ (proj2 Hw)).
  destruct (if get_int _ =? 0 then _ else _) as [[[id side] price]|]; [|done].
  set (next := if _ =? _ then _ else _). set (next' := if _ =? _ then (id', s', w') else _).
  assert (agree_run next next') as [E H1].
  { unfold next, next'. destruct (_ =? _); [done|].
    assert (agree_with
      (match s' with Some security => dispatch_orders sid frame time is_snapshot security w | None => w end)
      (match s' with Some security => dispatch_orders sid' frame time is_snapshot security w' | None => w' end)) as H1
      by (destruct s'; [by apply dispatch_orders_agree|done]).
    by rewrite (point_to_agree _ _ _ (proj2 H1)). }
  clearbody next next'. destruct next as [[id1 s1] w1], next' as [[id2 s2] w2]. cbn [fst snd] in E, H1. simplify_eq.
  split; [done|]. cbn [snd]. destruct s2; [|done]. apply agree_via; [done|].
  intros s0 w3 w4 [Ea Hs]. split; [done|]. split; [|done]. cbn [fst snd]. by rewrite Ea.
Qed.

Lemma on_book_46_agree value w w' : agree_with w w' → agree_with (on_book_46 sid frame value w) (on_book_46 sid' frame value w').
Proof.
  destruct w as [cache sh], w' as [cache' sh']. intros [E Hsh]. cbn [fst snd] in E, Hsh. subst. unfold on_book_46.
  agree_call (book_price_loop_agree value _ _ Hsh). destruct (enable_market_by_order options); [|done].
  unfold book_order_loop. set (l := foldl _ _ _). set (l' := foldl (process_order sid' _ _ _) _ _).
  assert (agree_run l l') as [E Hl].
  { apply (agree_foldl agree_run); [done|]. intros. by apply process_order_agree. }
  clearbody l l'. destruct l as [[id s] w1], l' as [[id' s'] w2]. cbn [fst snd] in E, Hl. simplify_eq.
  set (r1 := match s' with Some _ => _ | None => w1 end). set (r2 := match s' with Some _ => _ | None => w2 end).
  assert (agree_with r1 r2) as [E1 H1] by (unfold r1, r2; destruct s'; [by apply dispatch_orders_agree|done]).
  clearbody r1 r2. destruct r1, r2. cbn [fst snd] in E1, H1. by subst.
Qed.

Lemma on_order_book_47_agree value w w' :
  agree_with w w' → agree_with (on_order_book_47 sid frame value w) (on_order_book_47 sid' frame value w').
Proof.
  intros Hw. unfold on_order_book_47. destruct (negb _); [done|].
  destruct w as [cache sh], w' as [cache' sh']. destruct Hw as [E Hsh]. cbn [fst snd] in E, Hsh. subst.
  assert (process_47 sh = process_47 sh') as -> by (unfold process_47; by rewrite (ag_definitions _ _ Hsh)).
  destruct (foldl (process_47 sh') _ _) as [[id s] [os ids]]. destruct (negb _); [done|].
  set (r := foldl _ _ _). set (r' := foldl (dispatch_47 sid' _ _ _) _ _).
  assert (agree_with r r') as [E Hr].
  { apply (agree_foldl agree_with); [done|]. intros w w' x Hw. apply agree_via; [done|].
    intros s0 [a sh1] [a' sh2] [Ea Hs]. cbn [fst snd] in *. subst.
    agree_call (dispatch_market_by_order_agree (sequence_number frame) (r47_transactTime value) (sending_time frame)
      (a' ++ map order_47_update (filter (λ item, q_security_id item = x) os)) (rpt_seq s0 =? 0) s0 _ _ Hs). by split. }
  clearbody r r'. destruct r, r'. cbn [fst snd] in E, Hr. by subst.
Qed.

(** *** Trades *)

Lemma collect_trades_agree value sh sh' :
  agree sh sh' → agree (collect_trades sid frame value sh) (collect_trades sid' frame value sh').
Proof.
  intros Hsh. unfold collect_trades. apply (agree_foldl agree).
  - apply (agree_foldl agree).
    + rewrite (ag_transact_time _ _ Hsh). destruct (negb _); [|done].
      unfold clear_state, set_transact_time. cbn. rewrite (ag_trade_summary _ _ Hsh), (ag_security_ids _ _ Hsh),
        (ag_orders _ _ Hsh), (ag_total _ _ Hsh). by do 2 apply agree_set_trades.
    + intros sh1 sh2 x Hs. unfold collect_trade. apply agree_with_security.
      * rewrite (ag_trade_summary _ _ Hs), (ag_security_ids _ _ Hs), (ag_orders _ _ Hs), (ag_total _ _ Hs),
          (ag_transact_time _ _ Hs). by apply agree_set_trades.
      * intros. by apply check_report_sequence_agree.
  - intros sh1 sh2 x Hs. unfold collect_order. rewrite (ag_trade_summary _ _ Hs), (ag_security_ids _ _ Hs),
      (ag_orders _ _ Hs), (ag_total _ _ Hs), (ag_transact_time _ _ Hs). by apply agree_set_trades.
Qed.

Lemma publish_mbo_agree time w w' id :
  agree_with w w' → agree_res agree_with (publish_mbo sid frame time w id) (publish_mbo sid' frame time w' id).
Proof.
  destruct w as [mbo sh], w' as [mbo' sh']. intros [E Hsh]. cbn [fst snd] in E, Hsh. subst. unfold publish_mbo.
  rewrite (ag_definitions _ _ Hsh), (ag_orders _ _ Hsh), (ag_trade_summary _ _ Hsh).
  destruct (get_security id _) as [s|]; [|done]. apply (agree_bind eq); [by destruct (for_trades _ _ _ _)|].
  intros os ? <-. destruct os as [|o os]; [done|].
  agree_call (dispatch_market_by_order_agree (sequence_number frame) time (sending_time frame) (o :: os) false s _ _ Hsh).
  split; [done|]. cbn [snd]. rewrite (ag_definitions _ _ Hs). by apply agree_set_definitions.
Qed.

Lemma publish_trades_agree time w w' id :
  agree_with w w' → agree_res agree_with (publish_trades sid frame time w id) (publish_trades sid' frame time w' id).
Proof.
  destruct w as [ts sh], w' as [ts' sh']. intros [E Hsh]. cbn [fst snd] in E, Hsh. subst. unfold publish_trades.
  rewrite (ag_definitions _ _ Hsh), (ag_orders _ _ Hsh), (ag_trade_summary _ _ Hsh).
  destruct (get_security id _) as [s|]; [|done]. apply (agree_bind eq); [by destruct (for_trades _ _ _ _)|].
  intros os ? <-. destruct os as [|o os]; [done|]. split; [done|]. by apply agree_emit.
Qed.

Lemma dispatch_trade_summary_agree value sh sh' :
  agree sh sh' → agree_res agree (dispatch_trade_summary sid frame value sh) (dispatch_trade_summary sid' frame value sh').
Proof.
  intros Hsh%(collect_trades_agree value). unfold dispatch_trade_summary. cbv zeta.
  revert Hsh. generalize (collect_trades sid frame value sh) (collect_trades sid' frame value sh'). clear sh sh'. intros sh sh' Hsh.
  assert (∀ t sh sh', agree sh sh' → agree (set_transact_time t sh) (set_transact_time t sh')) as Htime.
  { intros t sh1 sh2 Hs. unfold set_transact_time. rewrite (ag_trade_summary _ _ Hs), (ag_security_ids _ _ Hs),
      (ag_orders _ _ Hs), (ag_total _ _ Hs). by apply agree_set_trades. }
  rewrite (ag_orders _ _ Hsh), (ag_total _ _ Hsh). destruct (_ <? _); [by apply Htime|].
  unfold publish_trade_summary. eapply (agree_bind agree_with).
  - rewrite (ag_security_ids _ _ Hsh). apply agree_foldM; [done|]. intros. by apply publish_mbo_agree.
  - intros [a sh1] [a' sh2] [_ H1]. cbn [snd] in H1. eapply (agree_bind agree_with).
    + rewrite (ag_security_ids _ _ H1). apply agree_foldM; [done|]. intros. by apply publish_trades_agree.
    + intros [b sh3] [b' sh4] [_ H2]. cbn [snd] in H2. simpl. unfold clear_state. cbn [transact_time_ set_transact_time set_trades].
      apply agree_set_trades. by apply Htime.
Qed.

(** *** Status and definitions *)

Lemma on_security_status_agree value sh sh' :
  agree sh sh' → agree (on_security_status sid frame value sh) (on_security_status sid' frame value sh').
Proof.
  assert (∀ sh sh' id, agree sh sh' → agree (dispatch_status sid frame value id sh) (dispatch_status sid' frame value id sh')) as Hd.
  { intros sh1 sh2 id Hs. apply agree_with_security; [done|]. intros s sh3 sh4 H1. split; [done|]. cbn [snd]. by apply agree_emit. }
  intros Hsh. unfold on_security_status.
  set (sh1 := if negb _ then _ else sh). set (sh2 := if negb _ then _ else sh').
  assert (agree sh1 sh2) as H1 by (unfold sh1, sh2; destruct (negb (get_int _ =? 0)); auto).
  clearbody sh1 sh2. rewrite (ag_definitions _ _ H1). destruct (negb _); [|done]. destruct (get_security_group _ _); [|done].
  apply (agree_foldl agree); [done|]. auto.
Qed.

Lemma publish_definition_agree crd value security sh sh' :
  (∀ value n s, untag (EvReferenceData (crd value n s)) = untag (EvReferenceData (crd value 0 s))) →
  agree sh sh' → agree (publish_definition crd sid value security sh) (publish_definition crd sid' value security sh').
Proof.
  intros Hc Hsh. unfold publish_definition. cbv zeta. destruct (discard security).
  - apply agree_emit; [|done]. by rewrite Hc, (Hc _ sid').
  - apply agree_emit; [done|]. apply agree_emit; [|done]. by rewrite Hc, (Hc _ sid').
Qed.

Lemma on_new_definition_agree crd value sh sh' :
  (∀ value n s, untag (EvReferenceData (crd value n s)) = untag (EvReferenceData (crd value 0 s))) →
  agree sh sh' → agree (on_new_definition crd sid value sh) (on_new_definition crd sid' value sh').
Proof.
  intros Hc Hsh. unfold on_new_definition, create_security_from. rewrite (ag_definitions _ _ Hsh).
  destruct (has_security _ _); [done|]. destruct (create_security _ _ _ _ _) as [sd s]. cbn.
  apply publish_definition_agree; [done|]. by apply agree_set_definitions.
Qed.

Lemma on_known_definition_agree crd value sh sh' :
  (∀ value n s, untag (EvReferenceData (crd value n s)) = untag (EvReferenceData (crd value 0 s))) →
  agree sh sh' → agree (on_known_definition crd sid value sh) (on_known_definition crd sid' value sh').
Proof.
  intros Hc Hsh. unfold on_known_definition. rewrite (ag_definitions _ _ Hsh).
  destruct (get_security_incl_discard _ _); [|done]. by apply publish_definition_agree.
Qed.

(** *** Messages and packets *)

Lemma incremental_on_message_agree st st' ti ti' message w w' :
  stream_id st = sid → stream_id st' = sid' → agree_with w w' →
  agree_res agree_with (incremental_on_message st ti frame message w) (incremental_on_message st' ti' frame message w').
Proof.
  destruct w as [cache sh], w' as [cache' sh']. intros Es Es' Hw.
  pose proof Hw as [E Hsh]. cbn [fst snd] in E, Hsh. subst cache'.
  destruct message; cbn [incremental_on_message agree_res]; rewrite ?Es, ?Es'; try exact Hw.
  all: try (split; [done|]; cbn [snd]).
  all: try (eapply agree_bind; [by apply dispatch_trade_summary_agree|]; by intros).
  - unfold on_heartbeat. by apply agree_emit.
  - by apply on_security_status_agree.
  - by apply on_new_definition_agree.
  - by apply on_known_definition_agree.
  - by apply on_known_definition_agree.
  - by apply on_known_definition_agree.
  - by apply on_known_definition_agree.
  - by apply on_known_definition_agree.
  - by apply on_book_46_agree.
  - by apply on_report_sequence_agree.
  - by apply on_order_book_47_agree.
  - by apply dispatch_statistics_agree.
  - by apply dispatch_statistics_agree.
  - by apply dispatch_statistics_agree.
  - by apply dispatch_statistics_agree.
  - by apply on_report_sequence_agree.
  - by apply on_report_sequence_agree.
Qed.
End handlers.

(** ** Packets *)

Section packets.
Context `{Env}.
Implicit Types (sh : Shared) (st : stream) (ch : Channel.Channel) (w : Cache * Shared).

Lemma incremental_parse_agree st st' ti ti' message w w' :
  agree_with w w' → agree_res agree_with (incremental_parse st ti message w) (incremental_parse st' ti' message w').
Proof.
  intros Hw. unfold incremental_parse. apply (agree_bind (λ r r' : bool * (Cache * Shared), r.1 = r'.1 ∧ agree_with r.2 r'.2));
    [|by intros [b w1] [b' w2] [_ H1]].
  unfold parser_dispatch. destruct (parse_helper message) as [[] frame]; [|by split]. cbn [incremental_handler on_frame mbind res_bind].
  generalize (length (drop frame_size message)). generalize (drop frame_size message). intros rest fuel.
  revert rest w w' Hw. induction fuel as [|fuel IH]; intros [|b rest] w w' Hw; try by split. cbn [parse_loop].
  unfold parse_step. destruct (next_message (b :: rest)) as [[[header body] tail]|e]; [|exact eq_refl]. cbn [mbind res_bind].
  destruct (find_template _ handled_templates) as [t|].
  - destruct (decode_message t body _ _) as [value|e]; [|exact eq_refl]. cbn [mbind res_bind incremental_handler on_message].
    pose proof (incremental_on_message_agree (stream_id st) (stream_id st') frame st st' ti ti' value w w' eq_refl eq_refl Hw) as Hm.
    destruct (incremental_on_message st ti frame value w), (incremental_on_message st' ti' frame value w'); try done.
    by apply IH.
  - destruct (find_template _ dropped_templates); [by apply IH|done].
Qed.

(** The channel is driven by the sequence numbers alone. *)
Lemma channel_dispatch_agree {W} (R : relation W) filter (parse parse' : bytes → W → res W) on_reset payload ch (w w' : W) :
  R w w' → (∀ m (w w' : W), R w w' → agree_res R (parse m w) (parse' m w')) →
  (∀ (w w' : W), R w w' → R (on_reset w) (on_reset w')) →
  agree_res (λ r r' : Channel.Channel * W, r.1 = r'.1 ∧ R r.2 r'.2)
    (channel_dispatch filter parse on_reset payload ch w) (channel_dispatch filter parse' on_reset payload ch w').
Proof.
  intros Hw Hp Hr. unfold channel_dispatch. destruct (buffer_full _); [by split; [|apply Hr]|].
  eapply (agree_bind (λ r r' : Channel.Channel * W, r.1 = r'.1 ∧ R r.2 r'.2)).
  - unfold on_packet. destruct (parse_helper payload) as [[] frame]; [|done].
    destruct (classify filter _ ch); [done|done|]. eapply agree_bind; [by apply Hp|]. by intros.
  - intros [ch1 w1] [ch1' w2] [E H1]. cbn [fst snd] in E, H1. subst ch1'.
    generalize (S (length (held (incremental_buffer ch1)))). intros fuel. revert ch1 w1 w2 H1.
    induction fuel as [|fuel IH]; intros ch1 w1 w2 H1; [done|]. cbn [drain].
    destruct (negb _); [|done]. destruct (buffer_get _ _) as [[m b]|]; [|done]. cbv zeta.
    pose proof (Hp m w1 w2 H1) as Hm. destruct (parse m w1), (parse' m w2); try done. by apply IH.
Qed.

(** A packet as it arrives: its line, the times of its receipt, its bytes. *)
Record arrival := { ar_line : Priority.t; ar_trace : TraceInfo; ar_payload : bytes }.

(** Packets of the incremental feed, given to the streams of their lines. *)
Definition lines_run (c : Channel2) sh (arrivals : list arrival) : res (Channel2 * Shared) :=
  foldM (λ '(c, sh) a,
    dispatch_to ConnectionType.INCREMENTAL (ar_line a) (ar_payload a) (ar_trace a) c sh) (c, sh) arrivals.

(** What the incremental streams of a channel share. *)
Definition feed_state (p : Channel2 * Shared) : Channel.Channel * (Cache * Shared) :=
  (channel p.1, (incremental_cache p.1, p.2)).

Definition agree_feed (x x' : Channel.Channel * (Cache * Shared)) : Prop := x.1 = x'.1 ∧ agree_with x.2 x'.2.

Lemma incremental_dispatch_agree st st' ti ti' payload ch w w' :
  agree_with w w' →
  agree_res agree_feed
    ('(_, ch, w) ← incremental_dispatch payload ti st ch w; Ok (ch, w))
    (channel_dispatch (filter_snapshot_from_incremental options) (incremental_parse st' ti') on_sequence_reset payload ch w').
Proof.
  destruct w as [cache sh]. intros Hw. unfold incremental_dispatch.
  set (p := publish_stream_status _ _ st sh).
  assert (agree p.2 sh) as H1.
  { unfold p, publish_stream_status. case_decide; [done|]. split; try done.
    unfold published. cbn. rewrite omap_app. simpl. by rewrite app_nil_r. }
  clearbody p. destruct p as [st1 sh1]. cbn [snd] in H1.
  assert (agree_res agree_feed
    (channel_dispatch (filter_snapshot_from_incremental options) (incremental_parse st1 ti) on_sequence_reset payload ch (cache, sh1))
    (channel_dispatch (filter_snapshot_from_incremental options) (incremental_parse st' ti') on_sequence_reset payload ch w')) as Hd.
  { apply channel_dispatch_agree; [|by intros; apply incremental_parse_agree|by intros ?? []].
    etrans; [|exact Hw]. by split. }
  by destruct (channel_dispatch _ (incremental_parse st1 ti) _ _ _ _) as [[ch1 w1]|].
Qed.

Lemma dispatch_to_agree st ti a c sh ch w :
  agree_feed (feed_state (c, sh)) (ch, w) →
  agree_res (λ r, agree_feed (feed_state r))
    (dispatch_to ConnectionType.INCREMENTAL (ar_line a) (ar_payload a) (ar_trace a) c sh)
    (channel_dispatch (filter_snapshot_from_incremental options) (incremental_parse st ti) on_sequence_reset (ar_payload a) ch w).
Proof.
  destruct c as [ch0 d1 d2 p1 p2 o1 o2 cache i1 i2]. intros [E Hw]. cbn in E, Hw. subst ch0. unfold dispatch_to.
  destruct (bool_decide (ar_line a = Priority.PRIMARY));
    [pose proof (incremental_dispatch_agree i1 st (ar_trace a) ti (ar_payload a) ch _ _ Hw) as Hd
    |pose proof (incremental_dispatch_agree i2 st (ar_trace a) ti (ar_payload a) ch _ _ Hw) as Hd].
  all: destruct (incremental_dispatch _ _ _ _ _) as [[[st1 ch1] [cache1 sh1]]|e]; exact Hd.
Qed.

(** ... and so for runs: they agree with a run of one stream. *)
Lemma lines_run_agree st ti arrivals c sh :
  agree_res (λ r, agree_feed (feed_state r)) (lines_run c sh arrivals)
    (channel_run (filter_snapshot_from_incremental options) (incremental_parse st ti) on_sequence_reset
       (map ar_payload arrivals) (feed_state (c, sh))).
Proof.
  assert (∀ r x, agree_feed (feed_state r) x → agree_res (λ r, agree_feed (feed_state r))
    (lines_run r.1 r.2 arrivals) (channel_run (filter_snapshot_from_incremental options) (incremental_parse st ti)
      on_sequence_reset (map ar_payload arrivals) x)) as Hrun; [|by apply (Hrun (c, sh))].
  unfold lines_run, channel_run. induction arrivals as [|a arrivals IH]; intros [c1 sh1] [ch w] Hx; [exact Hx|].
  cbn [fst snd map foldM]. pose proof (dispatch_to_agree st ti a c1 sh1 ch w Hx) as Hd.
  destruct (dispatch_to _ _ _ _ _ _) as [[c2 sh2]|], (channel_dispatch _ _ _ _ _ _) as [[ch2 w2]|]; try done.
  by apply (IH (c2, sh2)).
Qed.

(** One stream: the packets, in sequence. *)
Lemma channel_run_complete n k payloads st ti ch :
  0 ≤ n → 0 ≤ k → n + k < 2 ^ 32 - 1 → filter_snapshot_from_incremental options ≤ n + 1 →
  held (incremental_buffer ch) = [] → first_sequence_number ch ≠ 0 → last_sequence_number ch = n →
  Forall (λ p, (parse_helper p).1 = true ∧ seq_of p ≤ n + k) payloads →
  (∀ i, n < i ≤ n + k → i ∈ map seq_of payloads) →
  never_full (filter_snapshot_from_incremental options) payloads ch [] →
  ∃ ch' ms, map seq_of ms = seqZ (n + 1) k ∧ (∀ m, m ∈ ms → m ∈ payloads) ∧ last_sequence_number ch' = n + k ∧
    ∀ w, channel_run (filter_snapshot_from_incremental options) (incremental_parse st ti) on_sequence_reset payloads (ch, w) =
      (w ← foldM (λ w m, incremental_parse st ti m w) w ms; Ok (ch', w)).
Proof.
  intros Hn Hk Hnk Hf Hheld Hfirst Hlast Hps Hall Hnf.
  destruct (channel_fills_gaps _ n k payloads ch Hn Hk Hnk Hf Hheld Hfirst Hlast Hps Hall Hnf)
    as (ch1 & ms & Hrec & Hseq & Hsrc & Hend).
  assert (channel_wf ch) as Hwf by (intros s m; rewrite Hheld; by intros ?%elem_of_nil).
  destruct (channel_run_replay (filter_snapshot_from_incremental options) payloads ch Hwf) as (ch2 & ds & Hrun).
  pose proof (Hrun _ record_parse record_reset []) as Hds. fold (record_run (filter_snapshot_from_incremental options) payloads ch) in Hds.
  rewrite Hrec, replay_record in Hds. injection Hds as <- <-.
  exists ch1, ms. split_and!; [done..|]. intros w. rewrite Hrun. f_equal.
  unfold replay. clear. revert w. induction ms as [|m ms IH]; intros w; [done|]. simpl.
  destruct (incremental_parse st ti m w); [|done]. apply IH.
Qed.

(** Packets are named by their sequence number. *)
Lemma same_packets (ms1 ms2 payloads : list bytes) :
  (∀ p q, p ∈ payloads → q ∈ payloads → seq_of p = seq_of q → p = q) →
  (∀ m, m ∈ ms1 → m ∈ payloads) → (∀ m, m ∈ ms2 → m ∈ payloads) → map seq_of ms1 = map seq_of ms2 → ms1 = ms2.
Proof.
  intros Hinj. revert ms2. induction ms1 as [|m ms1 IH]; intros [|m2 ms2] H1 H2 Hseq; simplify_eq/=; [done|]. f_equal.
  - apply Hinj; [apply H1; by left|apply H2; by left|done].
  - apply IH; [intros; apply H1; by right|intros; apply H2; by right|done].
Qed.
End packets.

(** ** Properties *)

Section lines_properties.
Context `{Env}.
Implicit Types (sh : Shared).

(** C3: The two lines.  Take a channel in sequence at [n] with nothing held back,
    and two histories of what arrives next, each on either line and at any
    time: both have every packet from [n + 1] to [n + k], no packet beyond, and
    never fill the buffer; a sequence number names one packet.  Then both end in
    the same error, or both in sequence at [n + k] with the same cache, books,
    definitions and collected trades, having published the same events in the
    same order -- up to the stream that each event names, and to the statuses and
    latencies of the streams themselves. *)
Theorem lines_order_independent n k arrivals1 arrivals2 c sh :
  0 ≤ n → 0 ≤ k → n + k < 2 ^ 32 - 1 → filter_snapshot_from_incremental options ≤ n + 1 →
  held (incremental_buffer (channel c)) = [] → first_sequence_number (channel c) ≠ 0 →
  last_sequence_number (channel c) = n →
  (∀ p q, p ∈ map ar_payload (arrivals1 ++ arrivals2) → q ∈ map ar_payload (arrivals1 ++ arrivals2) →
     seq_of p = seq_of q → p = q) →
  Forall (λ arrivals,
    Forall (λ p, (parse_helper p).1 = true ∧ seq_of p ≤ n + k) (map ar_payload arrivals) ∧
    (∀ i, n < i ≤ n + k → i ∈ map seq_of (map ar_payload arrivals)) ∧
    never_full (filter_snapshot_from_incremental options) (map ar_payload arrivals) (channel c) [])
    [arrivals1; arrivals2] →
  match lines_run c sh arrivals1, lines_run c sh arrivals2 with
  | Ok (c1, sh1), Ok (c2, sh2) =>
    last_sequence_number (channel c1) = n + k ∧ last_sequence_number (channel c2) = n + k
    ∧ incremental_cache c1 = incremental_cache c2 ∧ agree sh1 sh2
  | Err e1, Err e2 => e1 = e2
  | _, _ => False
  end.
Proof.
  intros Hn Hk Hnk Hf Hheld Hfirst Hlast Hinj [(Hp1 & Ha1 & Hn1) [(Hp2 & Ha2 & Hn2) _]%Forall_cons]%Forall_cons.
  set (st := incremental_1 c). set (ti := Build_TraceInfo 0 0 0).
  destruct (channel_run_complete n k (map ar_payload arrivals1) st ti (channel c)) as (ch1 & ms1 & Hs1 & Hin1 & Hl1 & Hrun1); [done..|].
  destruct (channel_run_complete n k (map ar_payload arrivals2) st ti (channel c)) as (ch2 & ms2 & Hs2 & Hin2 & Hl2 & Hrun2); [done..|].
  assert (ms1 = ms2) as ->.
  { apply (same_packets ms1 ms2 _ Hinj); [..|congruence]; intros m Hm; rewrite map_app, elem_of_app; auto. }
  pose proof (lines_run_agree st ti arrivals1 c sh) as R1. pose proof (lines_run_agree st ti arrivals2 c sh) as R2.
  unfold feed_state at 2 in R1. unfold feed_state at 2 in R2. cbn [fst snd] in R1, R2. rewrite Hrun1 in R1. rewrite Hrun2 in R2.
  destruct (foldM _ _ ms2) as [w|e]; cbn [mbind res_bind] in R1, R2;
    destruct (lines_run c sh arrivals1) as [[c1 sh1]|], (lines_run c sh arrivals2) as [[c2 sh2]|]; try done;
    [|by simpl in *; congruence].
  destruct R1 as [E1 [C1 A1]], R2 as [E2 [C2 A2]]. cbn [feed_state fst snd] in *. subst.
  split_and!; [done|done|congruence|by etrans].
Qed.
End lines_properties.

(** ** Witnesses *)

Section lines_witnesses.
#[local] Existing Instance the_env.

Definition example_feed_channel : Channel2 :=
  let st p n := create_stream p n "I" in
  {| channel := the_channel;
     instrument_definition_1 := st Priority.PRIMARY 1; instrument_definition_2 := st Priority.SECONDARY 2;
     mbp_market_recovery_1 := st Priority.PRIMARY 3; mbp_market_recovery_2 := st Priority.SECONDARY 4;
     mbofd_market_recovery_1 := st Priority.PRIMARY 5; mbofd_market_recovery_2 := st Priority.SECONDARY 6;
     incremental_cache := empty_cache;
     incremental_1 := st Priority.PRIMARY 7; incremental_2 := st Priority.SECONDARY 8 |}.

Definition on_line (line : Priority.t) (time seq : Z) : arrival :=
  {| ar_line := line; ar_trace := Build_TraceInfo time time time; ar_payload := heartbeat_packet seq |}.

(** Line A has both packets; or A starts with the second, and B brings the
    first twice. *)
Definition arrivals_in_order : list arrival := [on_line Priority.PRIMARY 1 4; on_line Priority.PRIMARY 2 5].
Definition arrivals_mixed : list arrival :=
  [on_line Priority.PRIMARY 1 5; on_line Priority.SECONDARY 2 4; on_line Priority.SECONDARY 9 4].

Lemma lines_order_independent_witness :
  let sh := create_shared empty_definitions in
  match lines_run example_feed_channel sh arrivals_in_order, lines_run example_feed_channel sh arrivals_mixed with
  | Ok (c1, sh1), Ok (c2, sh2) => last_sequence_number (channel c1) = 5 ∧ agree sh1 sh2
  | _, _ => False
  end.
Proof.
  intros sh.
  pose proof (lines_order_independent 3 2 arrivals_in_order arrivals_mixed example_feed_channel sh) as Hlines.
  destruct (is_ok_value (lines_run example_feed_channel sh arrivals_in_order)) as [[c1 sh1] H1]; [vm_compute; reflexivity|].
  destruct (is_ok_value (lines_run example_feed_channel sh arrivals_mixed)) as [[c2 sh2] H2]; [vm_compute; reflexivity|].
  rewrite H1, H2 in *. cut (last_sequence_number (channel c1) = 5 ∧ last_sequence_number (channel c2) = 5
    ∧ incremental_cache c1 = incremental_cache c2 ∧ agree sh1 sh2); [by intros (? & _ & _ & ?)|].
  apply Hlines; [lia|lia|lia|discriminate|reflexivity|discriminate|reflexivity|..].
  - intros p q Hp Hq. assert (∀ p, p ∈ map ar_payload (arrivals_in_order ++ arrivals_mixed) →
      p = heartbeat_packet 4 ∨ p = heartbeat_packet 5) as Hcase by (clear; intros p; simpl; set_solver).
    destruct (Hcase p Hp) as [-> | ->], (Hcase q Hq) as [-> | ->]; vm_compute; congruence.
  - assert (∀ payloads : list bytes,
      bool_decide (Forall (λ p, (parse_helper p).1 = true ∧ seq_of p ≤ 3 + 2) payloads) = true →
      bool_decide (4 ∈ map seq_of payloads) = true → bool_decide (5 ∈ map seq_of payloads) = true →
      Forall (λ p, (parse_helper p).1 = true ∧ seq_of p ≤ 3 + 2) payloads ∧
      (∀ i, 3 < i ≤ 3 + 2 → i ∈ map seq_of payloads)) as Hone.
    { intros payloads E1%bool_decide_eq_true E2%bool_decide_eq_true E3%bool_decide_eq_true.
      split; [done|]. intros i Hi. assert (i = 4 ∨ i = 5) as [->| ->] by lia; done. }
    repeat apply Forall_cons_2; try apply Forall_nil_2; 
      (edestruct Hone as [Hp Ha]; [| | |split; [exact Hp|split; [exact Ha|]]]; [vm_compute; reflexivity..|]);
      intros j ch' ds'; do 4 (destruct j as [|j]; [by vm_compute; intros [= <- _]|]);
      by vm_compute; intros [= <- _].
Defined.
End lines_witnesses.
