(* ===== verification/Promises.v ===== *)
(** What every handler of the market data side keeps.

    Three promises run through six handlers in four files.  The incremental feed
    asks for a snapshot of a security by writing its [resubscribe], on a gap or
    when a sequencer gives up, and the feeds answer by clearing it: a request
    stays, or a snapshot of the security was published.  A book that is announced
    as stale is requested.  And what is published about an instrument comes after
    its reference data.  [pays] is what a step does with one security, [waits] what
    a handler does with all of them; the handlers are gone through once, for all
    the promises, up to the runs of the manager. *)

From S2P Require Import Prelude Double Api MdpMap Messages MdpParser Security SecdefReader SecurityDefinitions Channel MarketData InstrumentDefinition Recovery MbpRecovery MbofdRecovery IncrementalBase IncrementalBook IncrementalTrades Incremental MdpConfig Manager.

(** The two books of a security. *)
Inductive book_kind := ByPrice | ByOrder.

#[global] Instance book_kind_eq_dec : EqDecision book_kind.
Proof. solve_decision. Defined.

Section waiting.
Context `{Env}.
Implicit Types (sh : Shared) (s : Security) (es : list md_event).

(** ** What is owed *)

(** What names a book in the events. *)
Abbreviation book_key := (book_kind * string * string)%type.

Definition resubscribe (kind : book_kind) s : Z :=
  match kind with ByPrice => mbp_resubscribe s | ByOrder => mbo_resubscribe s end.
Definition key (kind : book_kind) s : book_key := (kind, exchange s, symbol s).

(** The book that an event says something of, and what it says. *)
Definition book_update (e : md_event) : option (book_key * UpdateType.t) :=
  match e with
  | EvMarketByPriceUpdate h _ _ t => Some ((ByPrice, uh_exchange h, uh_symbol h), t)
  | EvMarketByOrderUpdate h _ t => Some ((ByOrder, uh_exchange h, uh_symbol h), t)
  | _ => None
  end.
Definition snapshot_of (k : book_key) (e : md_event) : Prop := book_update e = Some (k, UpdateType.SNAPSHOT).
Definition stale_of (k : book_key) (e : md_event) : Prop := book_update e = Some (k, UpdateType.STALE).

#[global] Instance stale_of_dec k e : Decision (stale_of k e).
Proof. unfold stale_of. apply _. Defined.

(** The assumption on the exchange under which a collection that was left by a
    snapshot of one chunk stays: see [single_chunk_once].  Nothing else depends on it. *)
Context (C : Prop).

Definition one_chunk : Prop := ∀ v, decodable (SnapshotFullRefreshOrderBook53 v) → so_currentChunk v = 1.

(** A snapshot in one chunk has left the members of the collection as the first
    of several would. *)
Definition taken s : Prop := mbo_no_chunks s ≠ 0 ∧ mbo_last_chunk s = 1.

(** From [s] to [s'] while [es] is published: each request is still there, or
    was answered. *)
Record owed s s' es : Prop := {
  owed_identity : same_identity s s';
  owed_request kind : 0 < resubscribe kind s → 0 < resubscribe kind s' ∨ Exists (snapshot_of (key kind s)) es;
  owed_taken : C → taken s → taken s';
}.

(** Each book that becomes stale in [es] is one of [P], or a snapshot follows. *)
Fixpoint covered (P : book_key → Prop) es : Prop :=
  match es with
  | [] => True
  | e :: es => (∀ k, stale_of k e → Exists (snapshot_of k) es ∨ P k) ∧ covered P es
  end.

Lemma key_identity kind s s' : same_identity s s' → key kind s' = key kind s.
Proof. intros (He & Hs & _). unfold key. by rewrite He, Hs. Qed.

Lemma owed_refl s es : owed s s es.
Proof. split; [done|by left|done]. Qed.

Lemma owed_trans s1 s2 s3 es1 es2 : owed s1 s2 es1 → owed s2 s3 es2 → owed s1 s3 (es1 ++ es2).
Proof.
  intros [Hid1 H1 HC1] [Hid2 H2 HC2]. split; [by etrans| |auto]. intros kind Hr. rewrite Exists_app.
  destruct (H1 kind Hr) as [Hr2|?]; [|auto]. destruct (H2 kind Hr2) as [?|Hs]; [auto|].
  rewrite (key_identity kind s1 s2) in Hs by done. auto.
Qed.

Lemma covered_app (P Q : book_key → Prop) es1 es2 :
  (∀ k, P k → Exists (snapshot_of k) es2 ∨ Q k) → covered P es1 → covered Q es2 → covered Q (es1 ++ es2).
Proof.
  intros HPQ H1 H2. induction es1 as [|e es1 IH]; [done|]. destruct H1 as [He H1]. split; [|by apply IH].
  intros k [?|Hk]%He; rewrite Exists_app; [auto|]. destruct (HPQ k Hk); auto.
Qed.

Lemma covered_fresh (P : book_key → Prop) es : Forall (λ e, ∀ k, ¬ stale_of k e) es → covered P es.
Proof. induction 1 as [|e es He _ IH]; [done|]. split; [|done]. by intros k ?%He. Qed.

Lemma covered_stale P l1 e l2 k : covered P (l1 ++ e :: l2) → stale_of k e → Exists (snapshot_of k) l2 ∨ P k.
Proof. induction l1 as [|e1 l1 IH]; simpl; [intros [He _]; apply He|intros [_ Hc]; by apply IH]. Qed.

Lemma covered_mono (P Q : book_key → Prop) es : (∀ k, P k → Q k) → covered P es → covered Q es.
Proof. intros HPQ Hes. rewrite <- (app_nil_r es). apply (covered_app P); [auto|done|done]. Qed.

(** A book of [s] that waits. *)
Definition waits_for s (k : book_key) : Prop := ∃ kind, k = key kind s ∧ 0 < resubscribe kind s.

(** The exchange and the symbol that an event is about, and the reference data
    that introduces them. *)
Definition subject (e : md_event) : option (string * string) :=
  match e with
  | EvMarketStatus h _ | EvTopOfBook h _ _ | EvMarketByPriceUpdate h _ _ _ | EvMarketByOrderUpdate h _ _
  | EvTradeSummary h _ | EvStatisticsUpdate h _ _ => Some (uh_exchange h, uh_symbol h)
  | _ => None
  end.
Definition introduces (k : string * string) (e : md_event) : Prop :=
  match e with EvReferenceData r => (rd_exchange r, rd_symbol r) = k | _ => False end.

#[global] Instance introduces_dec k e : Decision (introduces k e).
Proof. destruct e; simpl; apply _. Defined.

Definition instrument s : string * string := (exchange s, symbol s).

(** An event of a security that leaves its book alone. *)
Definition about s (e : md_event) : Prop := ∀ k, subject e = Some k → k = instrument s.
Definition fresh (e : md_event) : Prop := ∀ k, ¬ stale_of k e.
Definition told s (e : md_event) : Prop := fresh e ∧ about s e.

Lemma instrument_identity s s' : same_identity s s' → instrument s' = instrument s.
Proof. intros (He & Hs & _). unfold instrument. by rewrite He, Hs. Qed.

(** What a handler does with one security. *)
Record paid s s' es : Prop := {
  paid_owed : owed s s' es;
  paid_covered : covered (waits_for s') es;
  paid_about : Forall (about s) es;
}.
Definition pays s sh s' sh' : Prop := ∃ es, sh' = foldl (λ sh e, emit e sh) sh es ∧ paid s s' es.

Lemma paid_told s es : Forall (told s) es → paid s s es.
Proof.
  intros Hes. split; [apply owed_refl|apply covered_fresh|]; (eapply Forall_impl; [exact Hes|]); by intros e [].
Qed.

Lemma pays_refl s sh : pays s sh s sh.
Proof. exists []. split; [done|]. by apply paid_told. Qed.

Lemma pays_trans s1 sh1 s2 sh2 s3 sh3 : pays s1 sh1 s2 sh2 → pays s2 sh2 s3 sh3 → pays s1 sh1 s3 sh3.
Proof.
  intros (es1 & -> & [H1 C1 A1]) (es2 & -> & [H2 C2 A2]). exists (es1 ++ es2). rewrite foldl_app.
  split; [done|]. split; [by eapply owed_trans| |].
  - eapply covered_app; [|exact C1|exact C2].
    intros k (kind & -> & Hr). destruct H2 as [Hid H2 _]. destruct (H2 kind Hr) as [?|?]; [right|by left].
    exists kind. by rewrite (key_identity kind s2 s3).
  - apply Forall_app. split; [done|]. eapply Forall_impl; [exact A2|]. intros e He k ->%He.
    apply instrument_identity, H1.
Qed.

Lemma pays_emit s sh e : told s e → pays s sh s (emit e sh).
Proof. intros He. exists [e]. split; [done|]. apply paid_told. by constructor. Qed.

(** ** Reference data *)

(** Each event about an instrument comes after the reference data of it, with
    [seen] before the first. *)
Fixpoint announced (seen es : list md_event) : Prop :=
  match es with
  | [] => True
  | e :: es => (∀ k, subject e = Some k → Exists (introduces k) seen) ∧ announced (seen ++ [e]) es
  end.

Record introduced sh : Prop := {
  introduced_securities id s :
    get_security id (definitions sh) = Some s → Exists (introduces (instrument s)) (log sh);
  introduced_events : announced [] (log sh);
}.

Lemma announced_app seen es1 es2 : announced seen (es1 ++ es2) ↔ announced seen es1 ∧ announced (seen ++ es1) es2.
Proof.
  revert seen. induction es1 as [|e es1 IH]; intros seen; simpl; [rewrite app_nil_r; intuition|].
  rewrite IH, <- app_assoc. simpl. intuition.
Qed.

Lemma announced_split seen l1 e l2 k :
  announced seen (l1 ++ e :: l2) → subject e = Some k → Exists (introduces k) (seen ++ l1).
Proof. intros [_ [He _]]%announced_app. apply He. Qed.

Lemma announced_about s seen es :
  Exists (introduces (instrument s)) seen → Forall (about s) es → announced seen es.
Proof.
  intros Hs Hes. revert seen Hs. induction Hes as [|e es He _ IH]; intros seen Hs; [done|].
  split; [by intros k ->%He|]. apply IH, Exists_app. by left.
Qed.

Lemma introduced_after sh sh' es :
  log sh' = log sh ++ es →
  (∀ id s, get_security id (definitions sh') = Some s →
     Exists (introduces (instrument s)) es
     ∨ ∃ id s0, get_security id (definitions sh) = Some s0 ∧ instrument s0 = instrument s) →
  announced (log sh) es → introduced sh → introduced sh'.
Proof.
  intros Hl Hd He [Hs Ha]. split; rewrite Hl.
  - intros id s Hid. apply Exists_app. destruct (Hd id s Hid) as [?|(id0 & s0 & Hs0%Hs & <-)]; auto.
  - by apply announced_app.
Qed.

(** ** All securities *)

(** Some security that is known waits for the book. *)
Definition requested (k : book_key) (sd : SecurityDefinitions) : Prop :=
  ∃ id s, get_security_incl_discard id sd = Some s ∧ waits_for s k.

(** The groups of the securities that are known stay as they are. *)
Definition same_groups sd sd' : Prop :=
  ∀ group id, is_Some (get_security_incl_discard id sd) → in_group sd' group id ↔ in_group sd group id.

(** What a handler does with all of them. *)
Record waited sh sh' es : Prop := {
  waited_log : log sh' = log sh ++ es;
  waited_owed id s :
    get_security_incl_discard id (definitions sh) = Some s →
    ∃ s', get_security_incl_discard id (definitions sh') = Some s' ∧ owed s s' es;
  waited_covered : covered (λ k, requested k (definitions sh')) es;
  waited_introduced : introduced sh → introduced sh';
  waited_groups : same_groups (definitions sh) (definitions sh');
}.
Definition waits sh sh' : Prop := ∃ es, waited sh sh' es.

(** A request stays, or is answered. *)
Lemma requested_later k sd sd' es :
  (∀ id s, get_security_incl_discard id sd = Some s →
     ∃ s', get_security_incl_discard id sd' = Some s' ∧ owed s s' es) →
  requested k sd → Exists (snapshot_of k) es ∨ requested k sd'.
Proof.
  intros Hall (id & s & Hs & kind & -> & Hr). destruct (Hall id s Hs) as (s' & Hs' & [Hid Ho _]).
  destruct (Ho kind Hr) as [?|?]; [right|by left]. exists id, s'. split; [done|].
  exists kind. by rewrite (key_identity kind s s').
Qed.

#[global] Instance waits_preorder : PreOrder waits.
Proof.
  split.
  - intros sh. exists []. split; [by rewrite app_nil_r| |done..].
    intros id s Hs. exists s. auto using owed_refl.
  - intros sh1 sh2 sh3 (es1 & [L1 H1 C1 I1 G1]) (es2 & [L2 H2 C2 I2 G2]). exists (es1 ++ es2).
    split; [by rewrite L2, L1, app_assoc| | |auto|].
    + intros id s Hs. destruct (H1 id s Hs) as (s2 & Hs2 & ?), (H2 id s2 Hs2) as (s3 & Hs3 & ?).
      exists s3. split; [done|by eapply owed_trans].
    + eapply covered_app; [|exact C1|exact C2]. intros k. by apply requested_later.
    + intros group id [s Hs]. destruct (H1 id s Hs) as (s2 & Hs2 & _). etrans; [apply G2; by exists s2|].
      apply G1. by exists s.
Qed.

(** Securities may be added that the events introduce. *)
Lemma waits_added sh sh' es :
  log sh' = log sh ++ es → Forall fresh es → (introduced sh → announced (log sh) es) →
  (∀ id s, get_security_incl_discard id (definitions sh) = Some s →
     get_security_incl_discard id (definitions sh') = Some s) →
  (∀ id s, get_security id (definitions sh') = Some s →
     Exists (introduces (instrument s)) es ∨ get_security id (definitions sh) = Some s) →
  same_groups (definitions sh) (definitions sh') →
  waits sh sh'.
Proof.
  intros Hl Hf Ha Hd Hi Hg. exists es. split; [done| |by apply covered_fresh| |done].
  - intros id s Hs. exists s. auto using owed_refl.
  - intros Hin. eapply (introduced_after sh _ es); [done| |by apply Ha|done]. intros id s Hs%Hi. destruct Hs as [?|Hs]; [by left|right]. by exists id, s.
Qed.

Lemma waits_same sh sh' : definitions sh' = definitions sh → log sh' = log sh → waits sh sh'.
Proof.
  intros Hd Hl. apply (waits_added _ _ []); [by rewrite app_nil_r|done..| | |]; intros id s; rewrite Hd; auto.
Qed.

Lemma waits_emit e sh : fresh e → subject e = None → waits sh (emit e sh).
Proof.
  intros He Hn. apply (waits_added _ _ [e]); [done|by constructor| |done|by right|done].
  intros _. split; [|done]. intros k. by rewrite Hn.
Qed.

Lemma waits_told id s e sh : get_security id (definitions sh) = Some s → told s e → waits sh (emit e sh).
Proof.
  intros Hs [Hf He]. apply (waits_added _ _ [e]); [done|by constructor| |done|by right|done].
  intros Hin. apply (announced_about s); [by eapply introduced_securities|by constructor].
Qed.

(** A security is written back. *)
Lemma waits_put id s s' sh sh' :
  get_security id (definitions sh) = Some s → pays s sh s' sh' →
  waits sh (set_definitions (put_security id s' (definitions sh')) sh').
Proof.
  intros Hget (es & -> & [Ho Hc Ha]). destruct (proj1 (get_security_Some _ _ _) Hget) as [Hs _].
  exists es. split; simpl; rewrite ?emit_all_definitions, ?emit_all_log; [done|..].
  - intros id' s0 Hs0. unfold get_security_incl_discard in *. simpl. destruct (decide (id = id')) as [<-|].
    + rewrite lookup_insert_eq. exists s'. split; [done|]. congruence.
    + rewrite lookup_insert_ne by done. exists s0. auto using owed_refl.
  - eapply covered_mono; [|exact Hc]. intros k Hk. exists id, s'. split; [|done].
    unfold get_security_incl_discard. simpl. by rewrite lookup_insert_eq.
  - intros Hin. eapply (introduced_after sh _ es); simpl; rewrite ?emit_all_definitions, ?emit_all_log; [done| | |done].
    + intros id' s0 [Hs0 Hd0]%get_security_Some. right. simpl in Hs0. destruct (decide (id = id')) as [<-|].
      * rewrite lookup_insert_eq in Hs0. injection Hs0 as <-. exists id, s. split; [done|].
        symmetry. apply instrument_identity, Ho.
      * rewrite lookup_insert_ne in Hs0 by done. exists id', s0. by rewrite get_security_Some.
    + apply (announced_about s); [by eapply introduced_securities|done].
  - done.
Qed.

Lemma waits_with_security id f sh :
  (∀ s, pays s sh (f s sh).1 (f s sh).2) → waits sh (with_security id f sh).
Proof.
  intros Hf. unfold with_security. destruct (get_security id (definitions sh)) as [s|] eqn:Hs; [|done].
  specialize (Hf s). destruct (f s sh) as [s' sh']. by apply (waits_put id s s').
Qed.

Lemma waits_via {A} id f (w : A * Shared) :
  (∀ s, pays s w.2 (f s w).1 (f s w).2.2) → waits w.2 (via id f w).2.
Proof.
  intros Hf. unfold via. destruct (get_security id (definitions w.2)) as [s|] eqn:Hs; [|done].
  specialize (Hf s). destruct (f s w) as [s' [a sh']]. by apply (waits_put id s s').
Qed.

End waiting.

(** The events of a status, a definition, a trade, statistics. *)
Ltac emits := first
  [apply waits_emit; [by intros ? [=]|done]
  |first [apply pays_emit|eapply waits_told; [eassumption|]]; split; [by intros ? [=]|by intros ? [= <-]]].

(** ** The feeds and their sequencers *)

Section book_pays.
Context `{Env} (C : Prop).
Implicit Types (sh : Shared) (s : Security) (es : list md_event).

(** A step that writes one book: the request stays, moves to the sequence, or is
    cleared by a snapshot. *)
Lemma pays_book kind s s' seq es sh :
  same_identity s s' → (∀ other, other ≠ kind → resubscribe other s' = resubscribe other s) →
  (0 < resubscribe kind s → 0 < seq) →
  resubscribe kind s' = resubscribe kind s ∨ resubscribe kind s' = 0 ∨ resubscribe kind s' = seq →
  (resubscribe kind s' = 0 → resubscribe kind s ≠ 0 → seq ≠ 0 → ∃ e, e ∈ es ∧ snapshot_of (key kind s) e) →
  Forall (told s) es → (C → taken s → taken s') → pays C s sh s' (foldl (λ sh e, emit e sh) sh es).
Proof.
  intros Hid Hother Hseq Hr Hpub Htold Htaken. exists es. split; [done|].
  apply Forall_and in Htold as [Hf Ha].
  split; [|by apply covered_fresh|done]. split; [done| |done]. intros kind' Hpos.
  destruct (decide (kind' = kind)) as [->|Hne]; [|left; by rewrite Hother].
  specialize (Hseq Hpos). destruct (decide (resubscribe kind s' = 0)) as [E|E]; [right|left; lia].
  apply Exists_exists. apply Hpub; [done|lia|lia].
Qed.

Lemma dispatch_market_by_price_pays sid seq time sending mbp snap s sh :
  0 < seq →
  let '(s', sh') := dispatch_market_by_price sid seq time sending mbp snap s sh in pays C s sh s' sh'.
Proof.
  intros Hseq. unfold dispatch_market_by_price.
  set (event := λ (mbp : mbp_update) t, EvMarketByPriceUpdate _ mbp.1 mbp.2 t).
  pose proof (sequence_update_sequenced event seq mbp snap (mbp_sequencer s) (mbp_resubscribe s) sh) as Hs.
  destruct (sequence_update _ _ _ _ _ _ sh) as [[q r] sh']. destruct Hs as [(es & -> & Hes & Hpub) Hr].
  apply (pays_book ByPrice s _ seq); [done|by intros []|done|exact Hr| | |done].
  - intros Hz Hne Hnz. destruct (Hpub Hz Hne Hnz) as [u Hu]. by exists (event u UpdateType.SNAPSHOT).
  - eapply Forall_impl; [exact Hes|]. intros e (u & t & -> & [-> | ->]); split; [by intros ? [=]|by intros ? [= <-]..].
Qed.

Lemma dispatch_market_by_order_pays sid seq time sending orders snap s sh :
  0 < seq →
  let '(s', sh') := dispatch_market_by_order sid seq time sending orders snap s sh in pays C s sh s' sh'.
Proof.
  intros Hseq. unfold dispatch_market_by_order. set (event := λ orders t, EvMarketByOrderUpdate _ orders t).
  pose proof (sequence_update_sequenced event seq orders snap (mbo_sequencer s) (mbo_resubscribe s) sh) as Hs.
  destruct (sequence_update _ _ _ _ _ _ sh) as [[q r] sh']. destruct Hs as [(es & -> & Hes & Hpub) Hr].
  apply (pays_book ByOrder s _ seq); [done|by intros []|done|exact Hr| | |done].
  - intros Hz Hne Hnz. destruct (Hpub Hz Hne Hnz) as [u Hu]. by exists (event u UpdateType.SNAPSHOT).
  - eapply Forall_impl; [exact Hes|]. intros e (u & t & -> & [-> | ->]); split; [by intros ? [=]|by intros ? [= <-]..].
Qed.

Lemma pays_changed s s' sh :
  same_identity s s' → (∀ kind, resubscribe kind s' = resubscribe kind s) → (C → taken s → taken s') →
  pays C s sh s' sh.
Proof.
  intros Hid Hr Ht. exists []. split; [done|]. split; [|done..]. split; [done| |done]. intros kind Hpos. left. by rewrite Hr.
Qed.

(** A gap makes both books stale, and asks for both. *)
Lemma check_report_sequence_pays sid frame v s sh :
  0 < sequence_number frame →
  let '(s', sh') := check_report_sequence sid frame v s sh in pays C s sh s' sh'.
Proof.
  intros Hseq. unfold check_report_sequence, update_rpt_seq. destruct (v =? 0); [apply pays_refl|].
  destruct (negb (v =? _)); simpl; [|apply pays_changed; by try intros []].
  eexists [_; _]. split; [reflexivity|]. split; [split; [done|intros []; by left|done]| |].
  - split; [|split; [|done]]; intros k [= <-]; right; [by exists ByPrice|by exists ByOrder].
  - repeat constructor; by intros k [= <-].
Qed.

Lemma mbp_recovery_pays st ch seq time sending mbp s sh :
  (0 < mbp_resubscribe s → 0 < seq) →
  let '(s', sh') := mbp_recovery_dispatch_market_by_price st ch seq time sending mbp s sh in pays C s sh s' sh'.
Proof.
  intros Hseq. pose proof (mbp_recovery_dispatch_spec st ch seq time sending mbp s sh) as Hspec.
  destruct (mbp_recovery_dispatch_market_by_price _ _ _ _ _ _ s sh) as [s' sh'].
  destruct Hspec as [(q & r & ->) [(es & -> & Hes & Hpub) Hr]].
  apply (pays_book ByPrice s _ seq); [done|by intros []|done|exact Hr| | |done].
  - intros Hz Hne Hnz. destruct (Hpub Hz Hne Hnz) as (u & l & Hu). by eexists.
  - eapply Forall_impl; [exact Hes|]. intros e [(u & l & ->)|[n ->]]; (split; [by intros ? [=]|by intros ? [= <-]]).
Qed.

Lemma on_chunk_pays st ch value last s sh :
  (0 < mbo_resubscribe s → 0 < so_lastMsgSeqNumProcessed value) →
  let '(s', sh') := on_chunk st ch value last s sh in pays C s sh s' sh'.
Proof.
  intros Hseq. unfold on_chunk. set (s1 := set_mbo_orders _ s).
  destruct last; [|apply pays_changed; by try intros []].
  pose proof (recover_recovered (mbofd_publish st s1) ch (so_lastMsgSeqNumProcessed value) (mbo_orders s1)
    (mbo_sequencer s1) (mbo_resubscribe s1) sh) as Hrec.
  destruct (recover _ _ _ _ _ _ sh) as [[q r] sh']. destruct Hrec as [(es & -> & Hes & Hpub) Hr].
  apply (pays_book ByOrder s _ (so_lastMsgSeqNumProcessed value)); [done|by intros []|done|exact Hr| | |done].
  - intros Hz Hne Hnz. destruct (Hpub Hz Hne Hnz) as (u & l & Hu). by eexists.
  - eapply Forall_impl; [exact Hes|]. intros e [(u & l & ->)|[n ->]]; (split; [by intros ? [=]|by intros ? [= <-]]).
Qed.

End book_pays.

(** ** The streams but the incremental feed *)

Section feeds.
Context `{Env} (C : Prop) (one : C → one_chunk).
Implicit Types (sh : Shared) (s : Security) (es : list md_event).

(** The chunks of a snapshot, but for what the collection looks like then. *)
Lemma update_mbo_snapshot_paid st ch value c n s sh :
  (0 < mbo_resubscribe s → 0 < so_lastMsgSeqNumProcessed value) →
  let '(_, s', sh') := update_mbo_snapshot c n (on_chunk st ch value) s sh in pays False s sh s' sh'.
Proof.
  intros Hseq. unfold update_mbo_snapshot. destruct (negb _).
  - destruct (c =? _); [apply pays_refl|]. destruct (c =? _); [|by apply pays_changed; try intros []]. destruct (c =? n).
    + pose proof (on_chunk_pays False st ch value true s sh Hseq) as He.
      destruct (on_chunk _ _ _ _ s sh). eapply pays_trans; [exact He|by apply pays_changed; try intros []].
    + pose proof (on_chunk_pays False st ch value false (set_chunks (mbo_no_chunks s) c s) sh Hseq) as He.
      destruct (on_chunk _ _ _ _ _ sh). eapply pays_trans; [|exact He]. by apply pays_changed; try intros [].
  - destruct (c =? 1); [|apply pays_refl].
    pose proof (on_chunk_pays False st ch value (c =? n) (set_chunks n c s) sh Hseq) as He.
    destruct (on_chunk _ _ _ _ _ sh). eapply pays_trans; [|exact He]. by apply pays_changed; try intros [].
Qed.

(** A chunk with the number one is nothing to a security with a chunk. *)
Lemma update_mbo_snapshot_taken {W} n (f : bool → Security → W → Security * W) s w :
  taken s → update_mbo_snapshot 1 n f s w = (false, s, w).
Proof.
  intros [Hn Hl]. unfold update_mbo_snapshot. by rewrite (proj2 (Z.eqb_neq _ _) Hn), Hl.
Qed.

Lemma pays_taken s sh s' sh' : pays False s sh s' sh' → (C → taken s → taken s') → pays C s sh s' sh'.
Proof. intros (es & -> & [[Hid Hr _] Hc Ha]) Ht. exists es. split; [done|]. by split. Qed.

(** The recovery streams only look at a snapshot that is recent enough, so that
    its sequence is not zero. *)
Lemma on_snapshot_full_refresh_waits st ch frame value sh :
  waits C sh (on_snapshot_full_refresh st ch frame value sh).
Proof.
  apply waits_with_security. intros s. destruct (mbp_resubscribe s =? 0); [apply pays_refl|].
  destruct (_ <? _) eqn:Hlt; [apply pays_refl|]. bool_to_prop. cbv zeta. set (mbp := foldl _ _ _).
  pose proof (mbp_recovery_pays C st ch (sf_lastMsgSeqNumProcessed value) (sf_transactTime value)
    (sending_time frame) mbp s sh ltac:(lia)) as Hp.
  destruct (mbp_empty mbp); [apply pays_refl|].
  by destruct (mbp_recovery_dispatch_market_by_price _ _ _ _ _ mbp s sh).
Qed.

Lemma on_snapshot_order_book_waits st ch value sh :
  (C → so_currentChunk value = 1) → waits C sh (on_snapshot_order_book st ch value sh).
Proof.
  intros Hone. apply waits_with_security. intros s. destruct (mbo_resubscribe s =? 0); [apply pays_refl|].
  destruct (_ <? _) eqn:Hlt; [apply pays_refl|]. bool_to_prop.
  pose proof (update_mbo_snapshot_paid st ch value (so_currentChunk value) (so_noChunks value) s sh ltac:(lia)) as Hp.
  assert (C → taken s → taken (update_mbo_snapshot (so_currentChunk value) (so_noChunks value) (on_chunk st ch value) s sh).1.2)
    as Ht by (intros HC Hs; by rewrite (Hone HC), update_mbo_snapshot_taken).
  destruct (update_mbo_snapshot _ _ _ s sh) as [[b s'] sh']. by apply pays_taken.
Qed.

Lemma publish_stream_status_waits supports status st sh :
  waits C sh (publish_stream_status supports status st sh).2.
Proof. unfold publish_stream_status. case_decide; [done|emits]. Qed.

(** The reference data of a definition names its security. *)
Definition names (crd : instrument_definition → Z → Security → ReferenceData) : Prop :=
  ∀ value sid s, introduces (instrument s) (EvReferenceData (crd value sid s)).

Lemma publish_definition_waits crd sid value s sh sd :
  names crd →
  (∀ id s', get_security_incl_discard id (definitions sh) = Some s' → get_security_incl_discard id sd = Some s') →
  (∀ id s', get_security id sd = Some s' → s' = s ∨ get_security id (definitions sh) = Some s') →
  same_groups (definitions sh) sd →
  waits C sh (publish_definition crd sid value s (set_definitions sd sh)).
Proof.
  intros Hcrd Hkept Hnew Hgroups. specialize (Hcrd value sid s).
  apply (waits_added _ _ _ (EvReferenceData (crd value sid s) ::
    if discard s then [] else [create_market_status value sid s])).
  - unfold publish_definition. destruct (discard s); simpl; [done|by rewrite <- app_assoc].
  - constructor; [by intros ? [=]|]. destruct (discard s); repeat constructor; by intros ? [=].
  - intros _. split; [done|]. destruct (discard s); [done|]. split; [|done]. intros k [= <-].
    apply Exists_app. right. by constructor.
  - by rewrite publish_definition_definitions.
  - rewrite publish_definition_definitions. intros id s' Hs'. destruct (Hnew id s' Hs') as [->|?]; [left; by constructor|by right].
  - by rewrite publish_definition_definitions.
Qed.

Lemma on_new_definition_waits crd sid value sh : names crd → waits C sh (on_new_definition crd sid value sh).
Proof.
  intros Hcrd. destruct (has_security (id_securityID value) (definitions sh)) eqn:Hh;
    [by rewrite on_new_definition_known|]. rewrite on_new_definition_new by done. set (s := new_security _ _ _ _).
  apply publish_definition_waits; [done|..].
  - intros id s' Hs'. by apply create_security_keeps.
  - intros id s' [Hs' Hd]%get_security_Some. unfold create_security in Hs'.
    destruct (discard s); simpl in Hs'; rewrite lookup_try_emplace in Hs'; (case_decide as Hid;
      [subst id; injection Hs' as <-|right; by apply get_security_Some]).
    all: unfold has_security in Hh; apply bool_decide_eq_false, eq_None_not_Some in Hh; rewrite Hh; by left.
  - intros group id Hid. unfold create_security. destruct (discard s); [done|]. unfold in_group at 1. simpl.
    rewrite in_add_to_group. split; [intros [[_ <-]|?]; [|done]|by right].
    unfold has_security in Hh. by apply bool_decide_eq_false in Hh.
Qed.

Lemma on_known_definition_waits crd sid value sh : names crd → waits C sh (on_known_definition crd sid value sh).
Proof.
  intros Hcrd. unfold on_known_definition. destruct (get_security_incl_discard _ _) as [s|]; [|done].
  replace sh with (set_definitions (definitions sh) sh) at 2 by by destruct sh.
  apply publish_definition_waits; [done..|by right|done].
Qed.

(** A stream that only writes the shared state. *)
Lemma stream_dispatch_waits (handler : parser_handler mdp_message Shared) supports payload st sh sh' b :
  (∀ f w w', on_frame handler f w = Ok w' → w' = w) →
  (∀ f m w w', decodable m → on_message handler f m w = Ok w' → waits C w w') →
  parser_dispatch handler payload (publish_stream_status supports ConnectionStatus.READY st sh).2 = Ok (b, sh') →
  waits C sh sh'.
Proof.
  intros Hf Hm Hp. etrans; [apply (publish_stream_status_waits supports ConnectionStatus.READY st)|].
  eapply (parser_dispatch_frame_rel _ (waits C)); [|intros _; exact (Hm _)|exact Hp]. by intros _ w w' ->%Hf.
Qed.

Ltac stream_waits :=
  let Hd := fresh "Hd" in let Hp := fresh "Hp" in let b := fresh "b" in let sh2 := fresh "sh" in
  match goal with |- context [publish_stream_status ?x ?y ?st ?sh] =>
    pose proof (λ h p w b, stream_dispatch_waits h x p st sh w b) as Hd;
    destruct (publish_stream_status x y st sh) end; cbn [snd] in *;
  intros ([b sh2] & Hp & [= <- <-])%res_bind_Ok; refine (Hd _ _ _ _ _ _ Hp); [by intros f w w' [= <-]|];
  let m := fresh "m" in intros f m w w'; destruct m; intros Hdec [= <-];
  first [reflexivity|apply on_snapshot_full_refresh_waits
        |apply on_snapshot_order_book_waits; intros HC; exact (one HC _ Hdec)
        |by apply on_new_definition_waits|emits].

Lemma instrument_definition_dispatch_waits payload ti st sh st' sh' :
  instrument_definition_dispatch payload ti st sh = Ok (st', sh') → waits C sh sh'.
Proof. unfold instrument_definition_dispatch. stream_waits. Qed.

Lemma mbp_recovery_dispatch_waits payload ti ch st sh st' sh' :
  mbp_recovery_dispatch payload ti ch st sh = Ok (st', sh') → waits C sh sh'.
Proof. unfold mbp_recovery_dispatch. stream_waits. Qed.

Lemma mbofd_recovery_dispatch_waits payload ti ch st sh st' sh' :
  mbofd_recovery_dispatch payload ti ch st sh = Ok (st', sh') → waits C sh sh'.
Proof. unfold mbofd_recovery_dispatch. stream_waits. Qed.

Lemma read_secdef_waits file sh sh' : read_secdef file sh = Ok sh' → waits C sh sh'.
Proof.
  destruct file as [content|]; [|by intros [= <-]]. simpl.
  destruct (secdef_dispatch_items content) as (items & final & ->).
  intros (sh1 & Hfold & (u & _ & [= <-])%res_bind_Ok)%res_bind_Ok.
  eapply (foldM_rel (waits C) id); [|exact Hfold]. intros sh2 item sh3 _. unfold read_secdef_handler, id.
  destruct (discard_symbol _); [by intros [= <-]|]. destruct (get_security _ _); [|done].
  intros [= <-]. emits.
Qed.
End feeds.

(** ** The handlers of the incremental feed *)

Section incremental_waits.
Context `{Env} (C : Prop) (sid : Z) (frame : Frame) (frame_positive : 0 < sequence_number frame).
Implicit Types (sh : Shared) (s : Security).

Lemma via_check_waits {A} v id (w : A * Shared) :
  waits C w.2 (via id (λ s w, let '(s, sh) := check_report_sequence sid frame v s w.2 in (s, (w.1, sh))) w).2.
Proof.
  apply waits_via. intros s. pose proof (check_report_sequence_pays C sid frame v s w.2 frame_positive) as Hc.
  by destruct (check_report_sequence _ _ _ s w.2).
Qed.

Lemma on_report_sequence_waits entries sh : waits C sh (on_report_sequence sid frame entries sh).
Proof. apply (security_iterator_rel _ _ _ (waits C) _ (tt, sh)); [done|]. intros. apply via_check_waits. Qed.

Lemma dispatch_statistics_waits cb value sh : waits C sh (dispatch_statistics cb sid frame value sh).
Proof.
  apply (security_iterator_rel _ _ _ (waits C) _ ([], sh)).
  - intros i id w. apply waits_via. intros s. destruct w as [[|x st] sh']; simpl; [apply pays_refl|emits].
  - intros id x w. apply waits_via. intros s. destruct w as [st sh'].
    pose proof (check_report_sequence_pays C sid frame (se_rptSeq x) s sh' frame_positive) as H1. cbn [snd] in *.
    destruct (check_report_sequence _ _ _ s sh') as [s1 sh1]. destruct (negb _); [done|].
    pose proof (dispatch_market_by_price_pays C sid _ (rs_transactTime value) (sending_time frame) ([], []) true
      s1 sh1 frame_positive) as H2.
    destruct (dispatch_market_by_price _ _ _ _ _ _ s1 sh1) as [s2 sh2].
    pose proof (dispatch_market_by_order_pays C sid _ (rs_transactTime value) (sending_time frame) [] true
      s2 sh2 frame_positive) as H3.
    destruct (dispatch_market_by_order _ _ _ _ _ _ s2 sh2) as [s3 sh3].
    eapply pays_trans; [exact H1|]. by eapply pays_trans.
Qed.

Lemma on_security_status_waits value sh : waits C sh (on_security_status sid frame value sh).
Proof.
  assert (∀ id sh, waits C sh (dispatch_status sid frame value id sh)) as Hd.
  { intros id sh'. apply waits_with_security. intros s. emits. }
  unfold on_security_status. set (sh1 := if negb (_ =? 0) then _ else sh).
  assert (waits C sh sh1) as H1 by (unfold sh1; by destruct (negb _)). clearbody sh1.
  destruct (negb _); [|done]. destruct (get_security_group _ _) as [ids|]; [|done].
  etrans; [exact H1|]. by apply (foldl_rel (waits C)).
Qed.

(** *** Books *)

Lemma dispatch_book_waits time snap id w : waits C w.2 (dispatch_book sid frame time snap id w).2.
Proof.
  apply waits_via. intros s. unfold dispatch_book_to. destruct w as [[[layer mbp] mbo] sh]. cbn [snd].
  set (top := if negb (isnan (bid_price layer) && isnan (ask_price layer)) then _ else _).
  assert (pays C s sh s top.2) as H1 by (unfold top; destruct (negb _); [emits|apply pays_refl]).
  destruct top as [layer' sh1]. cbn [snd] in H1.
  set (prices := if negb (mbp_empty mbp) then _ else _).
  assert (pays C s sh prices.1.1 prices.2) as H2.
  { unfold prices. destruct (negb (mbp_empty mbp)); [|done].
    pose proof (dispatch_market_by_price_pays C sid _ time (sending_time frame) mbp snap s sh1 frame_positive) as Hp.
    destruct (dispatch_market_by_price _ _ _ _ _ _ s sh1). by eapply pays_trans. }
  destruct prices as [[s2 mbp'] sh2]. cbn [fst snd] in H2. destruct mbo as [|o os]; [done|].
  pose proof (dispatch_market_by_order_pays C sid _ time (sending_time frame) (o :: os) false s2 sh2 frame_positive) as Ho.
  destruct (dispatch_market_by_order _ _ _ _ _ _ s2 sh2). by eapply pays_trans.
Qed.

Lemma process_book_waits time l item :
  waits C (bl_state l).2 (bl_state (process_book sid frame time l item)).2.
Proof.
  unfold process_book. set (next := if _ =? _ then _ else _).
  assert (waits C (bl_state l).2 next.2.2) as H1.
  { unfold next. destruct (_ =? _); [done|]. simpl. destruct (bl_security l); [apply dispatch_book_waits|done]. }
  destruct next as [[[id security] snap] w]. cbn [snd] in H1. cbn [bl_state]. etrans; [exact H1|].
  set (w1 := match security with Some _ => _ | None => w end).
  assert (waits C w.2 w1.2) as H2 by (unfold w1; destruct security; [apply via_check_waits|done]).
  set (w2 := if enable_market_by_order options then _ else w1). etrans; [exact H2|].
  assert (waits C w1.2 w2.2) as H3 by (unfold w2; destruct (enable_market_by_order options); [by apply waits_same|done]).
  etrans; [exact H3|]. destruct security; [|done]. apply waits_via. intros s. apply pays_refl.
Qed.

Lemma dispatch_orders_waits time snap id w : waits C w.2 (dispatch_orders sid frame time snap id w).2.
Proof.
  apply waits_via. intros s. destruct w as [[|o os] sh]; [apply pays_refl|]. cbn [fst snd].
  pose proof (dispatch_market_by_order_pays C sid _ time (sending_time frame) (o :: os) snap s sh frame_positive) as Ho.
  by destruct (dispatch_market_by_order _ _ _ _ _ _ s sh).
Qed.

Lemma process_order_waits time snap l item : waits C l.2.2 (process_order sid frame time snap l item).2.2.
Proof.
  destruct l as [[id security] w]. unfold process_order. cbn [snd].
  destruct (referenced item w.2) as [[[current side] price]|]; [|done].
  set (next := if current =? id then _ else _).
  assert (waits C w.2 next.2.2) as H1.
  { unfold next. destruct (current =? id); [done|]. simpl. destruct security; [apply dispatch_orders_waits|done]. }
  destruct next as [[id' security'] w']. cbn [fst snd] in *. etrans; [exact H1|].
  destruct security'; [|done]. apply waits_via. intros s. apply pays_refl.
Qed.

Lemma on_book_46_waits value w : waits C w.2 (on_book_46 sid frame value w).2.
Proof.
  destruct w as [cache sh]. unfold on_book_46, book_price_loop. cbv zeta. cbn [snd].
  set (start := {| bl_security_id := 0 |}). set (l := foldl _ start _).
  assert (waits C sh (bl_state l).2) as Hl.
  { etrans; [by apply (waits_same C sh (set_md_entries [] sh))|].
    apply (foldl_inv (λ l, waits C (bl_state start).2 (bl_state l).2)); [done|].
    intros l' item Hl' _. etrans; [exact Hl'|]. apply process_book_waits. }
  clearbody l.
  set (w1 := match bl_security l with Some _ => _ | None => _ end).
  assert (waits C sh w1.2) as H1.
  { etrans; [exact Hl|]. unfold w1. destruct (bl_security l); [apply dispatch_book_waits|done]. }
  destruct (enable_market_by_order options); [|done]. unfold book_order_loop.
  set (o := foldl _ _ (rb_noOrderIDEntries value)).
  assert (waits C w1.2 o.2.2) as Ho.
  { apply (foldl_inv (λ o : Z * option Z * (mbo_update * Shared), waits C w1.2 o.2.2)); [done|].
    intros o' item Ho' _. etrans; [exact Ho'|]. apply process_order_waits. }
  clearbody w1 o. destruct o as [[id security] w2]. cbn [snd] in *.
  assert (waits C sh w2.2) as H2 by by etrans.
  destruct security as [p|]; [|by destruct w2].
  pose proof (dispatch_orders_waits (rb_transactTime value) (bl_is_snapshot_workaround l) p w2) as Hd.
  destruct (dispatch_orders _ _ _ _ p w2). by etrans.
Qed.

Lemma on_order_book_47_waits value w : waits C w.2 (on_order_book_47 sid frame value w).2.
Proof.
  unfold on_order_book_47. destruct (negb (enable_market_by_order options)); [done|]. destruct w as [cache sh].
  destruct (foldl (process_47 sh) _ _) as [[id s] [os ids]]. destruct (negb _); [done|].
  assert (waits C sh (foldl (dispatch_47 sid frame (r47_transactTime value) os) (orders cache, sh) (hash_order ids)).2) as Hd.
  { apply (foldl_inv (λ w : mbo_update * Shared, waits C sh w.2)); [done|]. intros w id' Hw _.
    etrans; [exact Hw|]. apply waits_via. intros s'. cbv zeta.
    pose proof (dispatch_market_by_order_pays C sid _ (r47_transactTime value) (sending_time frame)
      (w.1 ++ map order_47_update (filter (λ item, q_security_id item = id') os)) (rpt_seq s' =? 0) s' w.2
      frame_positive) as Ho.
    by destruct (dispatch_market_by_order _ _ _ _ _ _ s' w.2). }
  by destruct (foldl _ _ (hash_order ids)).
Qed.

(** *** Trades *)

Lemma collect_trades_waits value sh : waits C sh (collect_trades sid frame value sh).
Proof.
  unfold collect_trades. cbv zeta. set (sh0 := if negb _ then _ else sh).
  assert (waits C sh sh0) as H0 by (unfold sh0; destruct (negb _); [by apply waits_same|done]).
  etrans; [exact H0|]. etrans; [|apply (foldl_rel (waits C)); intros; by apply waits_same].
  apply (foldl_rel (waits C)). intros sh1 item. unfold collect_trade.
  etrans; [|apply waits_with_security]; [by apply waits_same|]. intros s.
  pose proof (check_report_sequence_pays C sid frame (te_rptSeq item) s) as Hc.
  set (sh2 := set_trades _ _ _ _ _ sh1). specialize (Hc sh2 frame_positive).
  by destruct (check_report_sequence _ _ _ s sh2).
Qed.

Lemma publish_mbo_waits time w id w' : publish_mbo sid frame time w id = Ok w' → waits C w.2 w'.2.
Proof.
  unfold publish_mbo. destruct w as [mbo sh].
  destruct (get_security id (definitions sh)) as [s|] eqn:Hs; [|by intros [= <-]].
  intros (mbo' & _ & Heq)%res_bind_Ok. destruct mbo' as [|o os]; [by injection Heq as <-|].
  pose proof (dispatch_market_by_order_pays C sid _ time (sending_time frame) (o :: os) false s sh frame_positive) as Hd.
  destruct (dispatch_market_by_order _ _ _ _ _ _ s sh) as [s' sh']. injection Heq as <-.
  by apply (waits_put C id s s').
Qed.

Lemma publish_trades_waits time w id w' : publish_trades sid frame time w id = Ok w' → waits C w.2 w'.2.
Proof.
  unfold publish_trades. destruct w as [ts sh]. destruct (get_security id (definitions sh)) eqn:Hs; [|by intros [= <-]].
  intros (ts' & _ & Heq)%res_bind_Ok. destruct ts'; [by injection Heq as <-|]. injection Heq as <-. emits.
Qed.

Lemma dispatch_trade_summary_waits value sh sh' :
  dispatch_trade_summary sid frame value sh = Ok sh' → waits C sh sh'.
Proof.
  pose proof (collect_trades_waits value sh) as Hc. unfold dispatch_trade_summary. cbv zeta.
  set (sh1 := collect_trades sid frame value sh) in *.
  destruct (_ <? _); [intros [= <-]; etrans; [exact Hc|by apply waits_same]|].
  intros ([mbo sh2] & H2 & H3)%res_bind_Ok. apply res_bind_Ok in H3 as ([ts sh3] & H3 & [= <-]).
  etrans; [exact Hc|].
  etrans; [exact (foldM_rel (waits C) snd _ _ _ _ (λ w id w' _, publish_mbo_waits _ w id w') H2)|].
  etrans; [exact (foldM_rel (waits C) snd _ _ _ _ (λ w id w' _, publish_trades_waits _ w id w') H3)|].
  by apply waits_same.
Qed.
End incremental_waits.

(** ** Packets and runs *)

Section waiting_runs.
Context `{Env} (C : Prop) (one : C → one_chunk).
Implicit Types (sh : Shared) (s : Security) (ch : Channel) (m : Manager).

(** Sequence numbers start at one. *)
Definition numbered (p : bytes) : Prop := (parse_helper p).1 = true → 0 < seq_of p.

Lemma incremental_on_message_waits st ti frame v (w w' : Cache * Shared) :
  0 < sequence_number frame → incremental_on_message st ti frame v w = Ok w' → waits C w.2 w'.2.
Proof.
  intros Hf. destruct w as [cache sh]. unfold incremental_on_message.
  assert (∀ v, (sh1 ← dispatch_trade_summary (stream_id st) frame v sh; Ok (cache, sh1)) = Ok w' → waits C sh w'.2) as Htrades.
  { intros v' (sh1 & Hd & [= <-])%res_bind_Ok. by eapply dispatch_trade_summary_waits. }
  destruct v; try (intros [= <-]); try reflexivity; try (by apply Htrades);
    try by apply on_known_definition_waits.
  all: first [by apply (on_book_46_waits _ _ _ Hf _ (cache, sh))|by apply (on_order_book_47_waits _ _ _ Hf _ (cache, sh))
    |emits|by apply on_new_definition_waits|apply on_security_status_waits
    |by apply on_report_sequence_waits|by apply dispatch_statistics_waits].
Qed.

Lemma incremental_parse_waits st ti p (w w' : Cache * Shared) :
  numbered p → incremental_parse st ti p w = Ok w' → waits C w.2 w'.2.
Proof.
  intros Hp ([b w1] & Hd & [= <-])%res_bind_Ok.
  assert (PreOrder (λ w w' : Cache * Shared, waits C w.2 w'.2)) as Hpre.
  { split; [by intros ?|]. intros w1' w2 w3 ??. by etrans. }
  eapply (parser_dispatch_frame_rel _ (λ w w' : Cache * Shared, waits C w.2 w'.2)); [| |exact Hd].
  - by intros _ w2 w3 [= <-].
  - intros Hc v w2 w3 _. apply incremental_on_message_waits. exact (Hp Hc).
Qed.

(** The channel holds back what it was given. *)
Definition numbered_channel ch : Prop :=
  channel_wf ch ∧ ∀ p, p ∈ (held (incremental_buffer ch)).*2 → numbered p.

Lemma incremental_dispatch_waits payload ti st ch (w w' : Cache * Shared) st' ch' :
  numbered payload → numbered_channel ch →
  incremental_dispatch payload ti st ch w = Ok (st', ch', w') → numbered_channel ch' ∧ waits C w.2 w'.2.
Proof.
  intros Hp [Hwf Hheld]. destruct w as [cache sh]. unfold incremental_dispatch.
  pose proof (publish_stream_status_waits C (get_supports (enable_market_by_order options)) ConnectionStatus.READY st sh) as Hpub.
  destruct (publish_stream_status _ _ st sh) as [st1 sh1]. cbn [snd] in *.
  intros ([ch1 w1] & Hd & [= _ <- <-])%res_bind_Ok.
  destruct (channel_dispatch_replay (filter_snapshot_from_incremental options) payload ch Hwf)
    as (ch2 & ds & Hwf2 & Hrun & Hsrc & Hkept).
  rewrite Hrun in Hd. apply res_bind_Ok in Hd as (w2 & Hreplay & [= <- <-]).
  split; [split; [done|]; intros p [->|?]%Hkept; auto|].
  etrans; [exact Hpub|]. unfold replay in Hreplay.
  eapply (foldM_rel (waits C) snd _ (cache, sh1)); [|exact Hreplay].
  intros w3 [p|] w4 Hin; [|by intros [= <-]]. apply incremental_parse_waits.
  destruct (Hsrc p Hin) as [->|?]; auto.
Qed.

Definition numbered_channels m : Prop := ∀ id c, channels_ m !! id = Some c → numbered_channel (channel c).

Definition numbered_event (e : manager_event) : Prop :=
  match e with OnPacket _ ConnectionType.INCREMENTAL _ payload _ => numbered payload | _ => True end.

Lemma dispatch_to_waits type priority payload ti c sh c' sh' :
  (type = ConnectionType.INCREMENTAL → numbered payload) → numbered_channel (channel c) →
  dispatch_to type priority payload ti c sh = Ok (c', sh') → numbered_channel (channel c') ∧ waits C sh sh'.
Proof.
  destruct c as [ch d1 d2 p1 p2 o1 o2 cache i1 i2]. intros Hp Hc. unfold dispatch_to.
  destruct type; [done|..]; destruct (bool_decide _); intros ([? ?] & Hd & Heq)%res_bind_Ok.
  1-6: injection Heq as <- <-; (split; [exact Hc|]).
  1-2: by eapply instrument_definition_dispatch_waits.
  1-2: by eapply mbp_recovery_dispatch_waits.
  1-2: by eapply mbofd_recovery_dispatch_waits.
  all: destruct p as [st1 ch1], p0 as [cache1 sh1]; injection Heq as <- <-;
    eapply incremental_dispatch_waits in Hd; [exact Hd|by apply Hp|exact Hc].
Qed.

Lemma manager_step_waits m e m' :
  numbered_channels m → numbered_event e → manager_step m e = Ok m' →
  numbered_channels m' ∧ waits C (shared_ m) (shared_ m').
Proof.
  intros Hch He. destruct e as [| |now|id type priority payload ti]; simpl.
  - unfold manager_start. intros (sh & Hr%(read_secdef_waits C) & [= <-])%res_bind_Ok. by split.
  - by intros [= <-].
  - intros [= <-]. split; [|done]. intros id c. simpl. rewrite lookup_fmap.
    intros (c0 & Hc & ->)%fmap_Some_1. exact (Hch id c0 Hc).
  - unfold manager_dispatch. destruct (channels_ m !! id) as [c|] eqn:Hc; [|by intros [= <-]].
    intros ([c' sh'] & Hd & [= <-])%res_bind_Ok.
    assert (type = ConnectionType.INCREMENTAL → numbered payload) as Hp by (by intros ->).
    destruct (dispatch_to_waits _ _ _ _ _ _ _ _ Hp (Hch id c Hc) Hd) as [Hc' Hw].
    split; [|exact Hw]. intros id' c0. cbn [channels_]. intros [[-> ->]|[_ Hc0]]%lookup_insert_Some; [done|by eapply Hch].
Qed.

Lemma manager_run_waits m events m' :
  numbered_channels m → Forall numbered_event events → foldM manager_step m events = Ok m' →
  numbered_channels m' ∧ waits C (shared_ m) (shared_ m').
Proof.
  intros Hm He. revert m Hm. induction He as [|e events He _ IH]; intros m Hm; [by intros [= <-]|].
  intros (m1 & Hstep & Hrest)%res_bind_Ok.
  destruct (manager_step_waits m e m1 Hm He Hstep) as [Hm1 H1], (IH m1 Hm1 Hrest). split; [done|by etrans].
Qed.

Lemma create_manager_numbered sd channel_ids config file n m n' :
  create_manager sd channel_ids config file n = Ok (m, n') → numbered_channels m.
Proof.
  intros ([channels n1] & Hch & [= <- <-])%res_bind_Ok.
  assert (∀ id c, channels !! id = Some c → ∃ i, channel c = create_channel i) as Hnew.
  { clear -Hch. unfold create_channels in Hch. revert Hch.
    assert (∀ id c, (∅ : gmap Z Channel2) !! id = Some c → ∃ i, channel c = create_channel i) as H0 by done.
    revert H0. generalize (∅ : gmap Z Channel2) n.
    induction channel_ids as [|id ids IH]; intros cs k Hcs; [by intros [= <- <-]|].
    cbn [foldM]. intros ([cs1 k1] & Hone & Hrest)%res_bind_Ok. eapply IH; [|exact Hrest].
    destruct (cs !! id); [by injection Hone as <- <-|].
    apply res_bind_Ok in Hone as ([item k2] & Hitem & [= <- <-]).
    intros id' c [[<- <-]|[_ ?]]%lookup_insert_Some; [|by eapply Hcs].
    unfold create_channel2 in Hitem. exists id.
    repeat (apply res_bind_Ok in Hitem as ([? ?] & _ & Hitem)). by injection Hitem as <- _. }
  intros id c Hc. destruct (Hnew id c Hc) as [i ->]. split; [intros seq p|intros p];
    simpl; rewrite held_new; by intros ?%elem_of_nil.
Qed.

End waiting_runs.
