(* ===== verification/Waiting.v ===== *)
(** The promises of the market data side, over its runs: no request for a snapshot
    is lost, no stale book is forgotten, nothing is said of an instrument before
    its reference data, and what an answer of the recovery streams is. *)

From S2P Require Import Prelude Double Api MdpMap Messages MdpParser Security SecdefReader SecurityDefinitions Channel MarketData InstrumentDefinition Recovery MbpRecovery MbofdRecovery IncrementalBase IncrementalBook IncrementalTrades Incremental MdpConfig Manager Promises.

(** ** Properties *)

Section waiting_properties.
Context `{Env}.
Implicit Types (sh : Shared) (s : Security) (ch : Channel) (m : Manager).

Lemma no_assumption : False → one_chunk.
Proof. done. Qed.

(** A run from the construction. *)
Lemma run_waits sd channel_ids config file n m0 n' events m :
  create_manager sd channel_ids config file n = Ok (m0, n') → Forall numbered_event events →
  foldM manager_step m0 events = Ok m →
  numbered_channels m ∧ shared_ m0 = create_shared sd ∧ waits False (create_shared sd) (shared_ m).
Proof.
  intros Hc He Hrun.
  destruct (manager_run_waits False no_assumption m0 events m) as [Hm Hw]; [by eapply create_manager_numbered|done|done|].
  apply res_bind_Ok in Hc as ([cs n1] & _ & [= <- _]). done.
Qed.

(** C8: No request is lost.  Take any two points of any run of the market data side,
    with whatever packets on whatever streams: a security that waits for a
    snapshot of its prices, or of its orders, at the first point still waits for
    it at the second, or between the two a snapshot of exactly this security
    was published.  (Sequence numbers of the incremental feed start at one.) *)
Theorem requests_answered sd channel_ids config file n m0 n' before during m m' :
  create_manager sd channel_ids config file n = Ok (m0, n') →
  Forall numbered_event (before ++ during) →
  foldM manager_step m0 before = Ok m → foldM manager_step m during = Ok m' →
  ∃ es, log (shared_ m') = log (shared_ m) ++ es ∧
    ∀ id s, get_security_incl_discard id (definitions (shared_ m)) = Some s →
    ∃ s', get_security_incl_discard id (definitions (shared_ m')) = Some s' ∧ same_identity s s'
      ∧ ∀ kind, 0 < resubscribe kind s → 0 < resubscribe kind s' ∨ Exists (snapshot_of (key kind s)) es.
Proof.
  intros Hc [Hb Hd]%Forall_app Hrun1 Hrun2.
  destruct (run_waits _ _ _ _ _ _ _ _ _ Hc Hb Hrun1) as [Hm _].
  destruct (manager_run_waits False no_assumption m during m' Hm Hd Hrun2) as [_ (es & [Hl Hes _ _ _])].
  exists es. split; [done|]. intros id s Hs. destruct (Hes id s Hs) as (s' & Hs' & [Hid Hr _]). by exists s'.
Qed.

(** C9: No stale book is forgotten.  In the events of any run of the market data side
    from its construction, whatever arrives, an event that makes a book of a
    security stale is followed by a snapshot of that book, or at the end of the
    run a security that is known still waits for it, so that the recovery streams
    will look for it. *)
Theorem stale_books_recovered sd channel_ids config file n m0 n' events m k l1 e l2 :
  create_manager sd channel_ids config file n = Ok (m0, n') →
  Forall numbered_event events → foldM manager_step m0 events = Ok m →
  log (shared_ m) = l1 ++ e :: l2 → stale_of k e →
  Exists (snapshot_of k) l2 ∨ requested k (definitions (shared_ m)).
Proof.
  intros Hc He Hrun Hlog Hstale. destruct (run_waits _ _ _ _ _ _ _ _ _ Hc He Hrun) as (_ & _ & es & [Hl _ Hcov _ _]).
  simpl in Hl. rewrite Hl in Hlog. subst es.
  by eapply covered_stale in Hcov.
Qed.

(** ** Reference data *)

(** The start publishes reference data for every security of the file. *)
Lemma read_secdef_introduced file sd sh :
  create_definitions file = Ok sd → read_secdef file (create_shared sd) = Ok sh → introduced sh.
Proof.
  destruct file as [content|]; [|by intros [= <-] [= <-]]. intros Hsd Hread.
  destruct (create_definitions_known content sd Hsd) as (_ & Hnd & items & Hitems & Hall & Hfrom).
  destruct (read_secdef_fold items (create_shared sd) Hnd Hall) as (sh' & Hfold & Hdef & Hlog).
  cbn [read_secdef] in Hread. rewrite Hitems, Hfold in Hread. injection Hread as <-. cbn [log create_shared app] in Hlog.
  split; rewrite Hlog, ?Hdef.
  - intros id s [Hs _]%get_security_Some. destruct (of_records_security _ _ Hfrom id s Hs) as (item & Hin & Hd & He & Hy).
    apply Exists_exists. exists (secdef_reference_data item). split.
    + apply (list_elem_of_fmap_2 secdef_reference_data). by apply list_elem_of_filter.
    + simpl. unfold instrument. by rewrite He, Hy.
  - clear Hlog. generalize (@nil md_event). induction (filter _ items) as [|item l IH]; intros seen; [done|]. split; [done|apply IH].
Qed.

(** C10: Reference data comes first.  In any run of the market data side that begins
    with its start, whatever arrives on whatever stream, an event about an
    instrument -- its status, its books, its trades, its statistics -- comes
    after an event with the reference data of this exchange and symbol. *)
Theorem reference_data_first file sd channel_ids config n m0 n' events m l1 e l2 k :
  create_definitions file = Ok sd →
  create_manager sd channel_ids config file n = Ok (m0, n') →
  Forall numbered_event events → foldM manager_step m0 (OnStart :: events) = Ok m →
  log (shared_ m) = l1 ++ e :: l2 → subject e = Some k → Exists (introduces k) l1.
Proof.
  intros Hsd Hc He (m1 & Hstart & Hrun)%res_bind_Ok Hlog Hk.
  assert (numbered_channels m0) as Hm0 by by eapply create_manager_numbered.
  destruct (manager_step_waits False no_assumption m0 OnStart m1 Hm0 I Hstart) as [Hm1 _].
  destruct (manager_run_waits False no_assumption m1 events m Hm1 He Hrun) as [_ (es & [_ _ _ Hin _])].
  apply res_bind_Ok in Hc as ([cs n1] & _ & [= <- _]).
  apply res_bind_Ok in Hstart as (sh & Hread & [= <-]).
  apply read_secdef_introduced in Hread as Hsh; [|done]. destruct (Hin Hsh) as [_ Ha].
  rewrite Hlog in Ha. by eapply announced_split in Ha.
Qed.

(** C32: Groups of a file.  The definitions file puts a security into the group of its
    asset, once for all: in any run the security is in exactly the groups that the
    file has as its asset, whatever security groups the definitions of the exchange
    say, so that the status of a group with another name never reaches it. *)
Theorem file_groups_fixed content sd :
  create_definitions (Some content) = Ok sd →
  ∃ items : list SecDef,
    (∀ A (handler : SecDef → A → res A) a,
       secdef_dispatch handler content a = foldM (λ a item, handler item a) a items)
    ∧ ∀ channel_ids config file n m0 n' events m group id ids,
        create_manager sd channel_ids config file n = Ok (m0, n') →
        Forall numbered_event events → foldM manager_step m0 events = Ok m →
        is_Some (get_security_incl_discard id sd) →
        get_security_group group (definitions (shared_ m)) = Some ids →
        id ∈ ids ↔ ∃ item, item ∈ items ∧ discard_symbol (sd_symbol item) = false
                     ∧ to_signed 32 (sd_security_id item) = id ∧ sd_asset item = group.
Proof.
  intros Hsd. destruct (create_definitions_known content sd Hsd) as (_ & _ & items & Hitems & _ & [_ Hgroup]).
  exists items. split; [done|]. intros channel_ids config file n m0 n' events m group id ids Hc He Hrun Hid Hids.
  destruct (run_waits _ _ _ _ _ _ _ _ _ Hc He Hrun) as (_ & _ & es & [_ _ _ _ Hg]). rewrite <- Hgroup, <- (Hg group id Hid).
  unfold get_security_group in Hids. apply fmap_Some_1 in Hids as (X & HX & ->).
  rewrite hash_order_perm, elem_of_elements. unfold in_group. rewrite HX. split; [by exists X|by intros (? & [= ->] & ?)].
Qed.

(** ** The answer *)

(** A sequencer that takes a snapshot: it publishes it and then applies it. *)
Definition accepting {U} (S : Sequencer U) : Prop :=
  (∀ u seq force q, ∃ q' retries delay, on_snapshot u seq force q = Call q' (PublishSnapshot u seq retries delay) Ret)
  ∧ ∀ seq b q, (sequencer_apply seq b q).1 = true.

Lemma recover_accepting {U} `{S : Sequencer U} publish ch seq u (q : sequencer U) r sh :
  accepting S → ∃ q' l, recover publish ch seq u q r sh = (q', 0, emit (EvApplied seq) (emit (publish u l) sh)).
Proof.
  intros [Hsnap Happly]. unfold recover. destruct (Hsnap u seq (force ch r seq) q) as (q' & rt & d & ->). simpl.
  specialize (Happly seq false q'). destruct (sequencer_apply seq false q') as [b q2]. simpl in *. subst b. simpl.
  by exists q2, (last_sequence q').
Qed.

(** What the prices of a security become, and the events of it. *)
Definition answered (st : stream) (frame : Frame) (value : snapshot_full_refresh) s (l : Z) : list md_event :=
  [EvMarketByPriceUpdate (header (stream_id st) (sf_transactTime value) l (sending_time frame) s)
     (entries_of is_bid s (sf_noMDEntries value)) (entries_of is_offer s (sf_noMDEntries value)) UpdateType.SNAPSHOT;
   EvApplied (sf_lastMsgSeqNumProcessed value)].

Definition has_book (value : snapshot_full_refresh) : Prop :=
  Exists (λ item, is_bid (sn_mDEntryType item) || is_offer (sn_mDEntryType item)) (sf_noMDEntries value).

Lemma has_book_entries s value :
  has_book value →
  mbp_empty (entries_of is_bid s (sf_noMDEntries value), entries_of is_offer s (sf_noMDEntries value)) = false.
Proof.
  intros (item & Hin & Ht)%Exists_exists. unfold entries_of.
  assert (∀ side : MDEntryType.Value → bool, side (sn_mDEntryType item) = true →
    map (λ item, snapshot_mbp_update item s) (filter (λ item, side (sn_mDEntryType item)) (sf_noMDEntries value)) ≠ []) as Hne.
  { intros side Hs Hnil%map_eq_nil. assert (item ∈ filter (λ item, side (sn_mDEntryType item)) (sf_noMDEntries value)) as Hf
      by (apply list_elem_of_filter; by rewrite Hs). rewrite Hnil in Hf. by apply elem_of_nil in Hf. }
  apply Is_true_true, orb_true_iff in Ht as [Ht|Ht]; apply Hne in Ht; unfold mbp_empty; by repeat case_match.
Qed.

Lemma on_snapshot_full_refresh_answers st ch frame value sh s :
  accepting env_mbp → get_security (sf_securityID value) (definitions sh) = Some s →
  0 < mbp_resubscribe s ≤ sf_lastMsgSeqNumProcessed value → has_book value →
  ∃ q l, on_snapshot_full_refresh st ch frame value sh =
    place (sf_securityID value) (set_mbp q 0 s) (foldl (λ sh e, emit e sh) sh (answered st frame value s l)).
Proof.
  intros Hacc Hs Hr Hb. unfold on_snapshot_full_refresh, with_security. rewrite Hs.
  rewrite (proj2 (Z.eqb_neq _ _)), (proj2 (Z.ltb_ge _ _)) by lia. cbv zeta. rewrite snapshot_entries.
  cbn [fst snd app]. rewrite has_book_entries by done. cbn [negb].
  unfold mbp_recovery_dispatch_market_by_price. rewrite (proj2 (Z.eqb_neq _ _)) by lia.
  destruct (recover_accepting (λ mbp last, EvMarketByPriceUpdate (header (stream_id st) (sf_transactTime value) last
    (sending_time frame) s) mbp.1 mbp.2 UpdateType.SNAPSHOT) ch (sf_lastMsgSeqNumProcessed value)
    (entries_of is_bid s (sf_noMDEntries value), entries_of is_offer s (sf_noMDEntries value))
    (mbp_sequencer s) (mbp_resubscribe s) sh Hacc) as (q & l & ->).
  by exists q, l.
Qed.


(** ** Snapshots in one chunk *)

(** The chunk that is the only one leaves the security as if others followed. *)
Lemma single_chunk_taken st ch value sh s :
  get_security (so_securityID value) (definitions sh) = Some s →
  mbo_no_chunks s = 0 → 0 < mbo_resubscribe s ≤ so_lastMsgSeqNumProcessed value →
  so_currentChunk value = 1 → so_noChunks value = 1 →
  ∃ s', get_security_incl_discard (so_securityID value) (definitions (on_snapshot_order_book st ch value sh)) = Some s'
    ∧ taken s'.
Proof.
  intros Hs Hn Hr Hc Hno. rewrite (on_snapshot_order_book_get _ _ _ _ s) by (done || lia).
  rewrite Hc, Hno. unfold update_mbo_snapshot. rewrite Hn. cbn [negb Z.eqb]. cbn -[recover].
  destruct (recover _ _ _ _ _ _ sh) as [[q r] sh']. eexists.
  split; [unfold get_security_incl_discard; simpl; by rewrite lookup_insert_eq|by split].
Qed.

(** From then on the recovery stream leaves it alone. *)
Definition left_alone (id : Z) sh sh' : Prop :=
  ∀ s, get_security_incl_discard id (definitions sh) = Some s → taken s →
    get_security_incl_discard id (definitions sh') = Some s.

#[local] Instance left_alone_preorder id : PreOrder (left_alone id).
Proof. split; [by intros sh s|]. intros sh1 sh2 sh3 H1 H2 s Hs Ht. auto. Qed.

Lemma on_snapshot_order_book_alone id st ch value sh :
  so_currentChunk value = 1 → left_alone id sh (on_snapshot_order_book st ch value sh).
Proof.
  intros Hc s Hs Ht. unfold on_snapshot_order_book, with_security.
  destruct (get_security (so_securityID value) (definitions sh)) as [s1|] eqn:Hs1; [|done].
  destruct (decide (so_securityID value = id)) as [<-|Hne].
  - apply get_security_Some in Hs1 as [Hs1 _]. unfold get_security_incl_discard in Hs. rewrite Hs in Hs1.
    injection Hs1 as <-. rewrite Hc, update_mbo_snapshot_taken by done.
    destruct (mbo_resubscribe s =? 0), (so_lastMsgSeqNumProcessed value <? mbo_resubscribe s);
      unfold get_security_incl_discard; simpl; by rewrite lookup_insert_eq.
  - set (w := if mbo_resubscribe s1 =? 0 then _ else _). assert (definitions w.2 = definitions sh) as Hw.
    { unfold w. destruct (_ =? 0); [done|]. destruct (_ <? _); [done|].
      pose proof (update_mbo_snapshot_effect st ch value (so_currentChunk value) (so_noChunks value) s1 sh) as He.
      destruct (update_mbo_snapshot _ _ _ s1 sh) as [[b s'] sh']. destruct He as [_ (es & -> & _)]. apply emit_all_definitions. }
    destruct w as [s' sh']. simpl in Hw. unfold get_security_incl_discard in *. simpl. rewrite Hw.
    by rewrite lookup_insert_ne.
Qed.

Lemma mbofd_recovery_dispatch_alone id payload ti ch st sh st' sh' :
  one_chunk → mbofd_recovery_dispatch payload ti ch st sh = Ok (st', sh') → left_alone id sh sh'.
Proof.
  intros Hone. unfold mbofd_recovery_dispatch.
  assert (left_alone id sh (publish_stream_status mbofd_recovery_supports ConnectionStatus.READY st sh).2) as Hp
    by (unfold publish_stream_status; case_decide; by intros s).
  destruct (publish_stream_status _ _ st sh) as [st1 sh1]. intros ([b sh2] & Hd & [= _ <-])%res_bind_Ok.
  etrans; [exact Hp|]. refine (parser_dispatch_frame_rel _ (left_alone id) _ _ _ _ _ _ Hd); [by intros _ w w' [= <-]|].
  intros _ m w w' Hdec. destruct m; intros [= <-]; try by intros s.
  apply on_snapshot_order_book_alone, Hone, Hdec.
Qed.

Lemma manager_dispatch_alone id channel_id priority payload ti m m' :
  one_chunk → manager_dispatch channel_id ConnectionType.MBOFD_MARKET_RECOVERY priority payload ti m = Ok m' →
  left_alone id (shared_ m) (shared_ m').
Proof.
  intros Hone. unfold manager_dispatch. destruct (channels_ m !! channel_id) as [c|]; [|by intros [= <-]].
  intros ([c' sh'] & Hd & [= <-])%res_bind_Ok. destruct c. unfold dispatch_to in Hd.
  destruct (bool_decide _); apply res_bind_Ok in Hd as ([st2 sh2] & Hd & [= _ <-]);
    by eapply mbofd_recovery_dispatch_alone in Hd.
Qed.

(** A packet of the order recovery with one message. *)
Lemma manager_dispatch_order_book channel_id priority frame raw value ti m c :
  channels_ m !! channel_id = Some c →
  frame_wf frame → raw_wf raw → decodes_to raw (SnapshotFullRefreshOrderBook53 value) →
  ∃ m' st ch sh, manager_dispatch channel_id ConnectionType.MBOFD_MARKET_RECOVERY priority (encode_packet frame [raw]) ti m = Ok m'
    ∧ definitions sh = definitions (shared_ m) ∧ shared_ m' = on_snapshot_order_book st ch value sh.
Proof.
  intros Hc Hf Hraw Hdec.
  assert (∀ ch st, ∃ st' sh, mbofd_recovery_dispatch (encode_packet frame [raw]) ti ch st (shared_ m)
    = Ok (st', on_snapshot_order_book st' ch value sh) ∧ definitions sh = definitions (shared_ m)) as Hone.
  { intros ch st. unfold mbofd_recovery_dispatch.
    assert (definitions (publish_stream_status mbofd_recovery_supports ConnectionStatus.READY st (shared_ m)).2
      = definitions (shared_ m)) as Hd by (unfold publish_stream_status; by case_decide).
    destruct (publish_stream_status _ _ st (shared_ m)) as [st1 sh1]. exists st1, sh1. split; [|done].
    rewrite (dispatch_encode _ _ _ [SnapshotFullRefreshOrderBook53 value]); [done|done|by constructor|by constructor]. }
  unfold manager_dispatch. rewrite Hc. destruct c as [ch d1 d2 p1 p2 o1 o2 cache i1 i2]. unfold dispatch_to.
  destruct (bool_decide _); [destruct (Hone ch o1) as (st' & sh & -> & ?)|destruct (Hone ch o2) as (st' & sh & -> & ?)];
    eexists _, st', ch, sh; by split.
Qed.

(** C12: One snapshot, and no other.  If the exchange sends each order snapshot in one
    chunk, then after the first one that a security takes, whatever arrives in
    between and for how long, no packet of the order recovery changes anything of
    this security again: a request for its orders is not answered by it. *)
Theorem single_chunk_once sd channel_ids config file n m0 n' before m
    channel_id priority frame raw value ti s m1 during m2 :
  one_chunk →
  create_manager sd channel_ids config file n = Ok (m0, n') → Forall numbered_event (before ++ during) →
  foldM manager_step m0 before = Ok m →
  is_Some (channels_ m !! channel_id) →
  frame_wf frame → raw_wf raw → decodes_to raw (SnapshotFullRefreshOrderBook53 value) → so_noChunks value = 1 →
  get_security (so_securityID value) (definitions (shared_ m)) = Some s →
  mbo_no_chunks s = 0 → 0 < mbo_resubscribe s ≤ so_lastMsgSeqNumProcessed value →
  manager_step m (OnPacket channel_id ConnectionType.MBOFD_MARKET_RECOVERY priority (encode_packet frame [raw]) ti) = Ok m1 →
  foldM manager_step m1 during = Ok m2 →
  ∀ channel_id' priority' payload ti' m3,
    manager_dispatch channel_id' ConnectionType.MBOFD_MARKET_RECOVERY priority' payload ti' m2 = Ok m3 →
    get_security_incl_discard (so_securityID value) (definitions (shared_ m3))
    = get_security_incl_discard (so_securityID value) (definitions (shared_ m2)).
Proof.
  intros Hone Hc [Hb Hd]%Forall_app Hrun [c Hch] Hf Hraw Hdec Hno Hs Hn Hr Hstep Hrun2 id' pr' payload ti' m3 H3.
  destruct (manager_run_waits one_chunk (λ H, H) m0 before m) as [Hm _]; [by eapply create_manager_numbered|done|done|].
  destruct (manager_step_waits one_chunk (λ H, H) m (OnPacket channel_id ConnectionType.MBOFD_MARKET_RECOVERY priority
    (encode_packet frame [raw]) ti) m1 Hm I Hstep) as [Hm1 _].
  destruct (manager_run_waits one_chunk (λ H, H) m1 during m2 Hm1 Hd Hrun2) as [_ (es & [_ Hkept _ _ _])].
  assert (so_currentChunk value = 1) as Hone1.
  { apply Hone. destruct Hdec as (hd & t & _ & _ & _ & Hv). by repeat eexists. }
  destruct (manager_dispatch_order_book channel_id priority frame raw value ti m c) as (m1' & st & ch & sh & Hm1' & Hsh & Heq);
    [done..|]. cbn [manager_step] in Hstep. rewrite Hm1' in Hstep. injection Hstep as ->.
  destruct (single_chunk_taken st ch value sh s) as (s1 & Hs1 & Ht1); [by rewrite Hsh|done..|].
  rewrite <- Heq in Hs1. destruct (Hkept _ _ Hs1) as (s2 & Hs2 & [_ _ Ht]). rewrite Hs2.
  by eapply manager_dispatch_alone; [..|apply Ht].
Qed.
End waiting_properties.

(** ** Witnesses *)

(** Messages 54, 50 and 52 are a definition of the security 8, a report of it
    with a gap, and a snapshot. *)
Definition waiting_decode (t : template) (_ : bytes) (_ _ : Z) : res mdp_message :=
  match t with
  | T_MDInstrumentDefinitionFuture54 => Ok (MDInstrumentDefinitionFuture54 (example_definition 8 "ESM5"))
  | T_MDIncrementalRefreshLimitsBanding50 =>
    Ok (MDIncrementalRefreshLimitsBanding50 [{| sq_securityID := 8; sq_rptSeq := 3 |}])
  | T_SnapshotFullRefresh52 => Ok (SnapshotFullRefresh52 (example_snapshot 9))
  | _ => Err RuntimeError
  end.

(** It takes every snapshot, and the updates that follow one another. *)
Definition taking_sequencer (U : Type) : Sequencer U := {|
  sequencer := Z; sequencer_init := 0; last_sequence s := s; sequencer_clear _ := 0;
  sequencer_apply _ _ s := (true, s);
  on_snapshot u seq _ s := Call seq (PublishSnapshot u seq 0 0) Ret;
  on_update u first last previous s := if s =? previous then Call last (PublishUpdate u) Ret else Bad s |}.

Definition waiting_env : Env := {|
  env_mbp := taking_sequencer _; env_mbo := taking_sequencer _; env_buffer := list_buffer;
  env_hash := example_hash_order; env_discard := example_discard; env_cast := example_cast;
  env_sbe := {|
    SBE_TEMPLATE_ID := example_template_id; SBE_TEMPLATE_ID_inj := _; encodedLength := 8;
    decode_header := example_decode_header; decode_header_app := example_decode_header_app;
    decode_message := waiting_decode |};
  env_chars := example_from_chars; options := example_options |}.

Section waiting_examples.
Context `{Env}.

Definition waiting_event (type : ConnectionType.t) (n id : Z) : manager_event :=
  OnPacket 310 type Priority.PRIMARY
    (encode_packet {| sequence_number := n; sending_time := 5 |} [example_message id []]) example_trace.

Definition waiting_before : list manager_event :=
  [waiting_event ConnectionType.INSTRUMENT_DEFINITION 1 54; waiting_event ConnectionType.INCREMENTAL 7 50].
Definition waiting_during : list manager_event := [waiting_event ConnectionType.MBP_MARKET_RECOVERY 1 52].

Definition waiting_request (m : Manager) : option (Z * Z) :=
  (λ s, (mbp_resubscribe s, mbo_resubscribe s)) <$> get_security 8 (definitions (shared_ m)).

(** What a computation shows of the manager after some events. *)
Lemma waiting_run sd file events (test : Manager → bool) :
  match ('(m0, _) ← create_manager sd [310] example_config file 0; foldM manager_step m0 events) with
  | Ok m => test m | Err _ => false end = true →
  ∃ m0 n m, create_manager sd [310] example_config file 0 = Ok (m0, n)
    ∧ foldM manager_step m0 events = Ok m ∧ test m = true.
Proof.
  destruct (create_manager _ _ _ _ _) as [[m0 n]|]; [|done]. cbn [mbind res_bind].
  destruct (foldM manager_step m0 events) as [m|] eqn:Hm; [|done]. by exists m0, n, m.
Qed.

End waiting_examples.

Section waiting_witnesses.
#[local] Existing Instance waiting_env.

(** The report of packet 7 asks for both snapshots, and the price recovery
    answers. *)
Lemma requests_answered_witness :
  ∃ m0 n m m' es, create_manager empty_definitions [310] example_config None 0 = Ok (m0, n)
    ∧ foldM manager_step m0 waiting_before = Ok m ∧ foldM manager_step m waiting_during = Ok m'
    ∧ waiting_request m = Some (7, 7) ∧ waiting_request m' = Some (0, 7)
    ∧ log (shared_ m') = log (shared_ m) ++ es
    ∧ ∃ s, get_security_incl_discard 8 (definitions (shared_ m)) = Some s ∧ Exists (snapshot_of (key ByPrice s)) es.
Proof.
  destruct (waiting_run empty_definitions None waiting_before (λ m, bool_decide (waiting_request m = Some (7, 7)) &&
    match foldM manager_step m waiting_during with
    | Ok m' => bool_decide (waiting_request m' = Some (0, 7)) | Err _ => false end))
    as (m0 & n & m & H0 & H1 & [Hw%bool_decide_eq_true Hok]%andb_true_iff); [vm_compute; reflexivity|].
  destruct (foldM manager_step m waiting_during) as [m'|] eqn:H2; [|discriminate Hok].
  apply bool_decide_eq_true in Hok.
  destruct (requests_answered empty_definitions [310] example_config None 0 m0 n waiting_before waiting_during m m' H0)
    as (es & Hl & Hes); [|exact H1|exact H2|].
  { repeat constructor; intros _; vm_compute; reflexivity. }
  exists m0, n, m, m', es. do 3 (split; [done|]). do 2 (split; [done|]). split; [exact Hl|].
  unfold waiting_request in Hw, Hok. destruct (get_security 8 (definitions (shared_ m))) as [s|] eqn:Hs; [|discriminate Hw].
  apply get_security_Some in Hs as [Hs _]. destruct (Hes 8 s Hs) as (s' & Hs' & _ & Hp).
  exists s. split; [exact Hs|]. assert (mbp_resubscribe s = 7) as Hr by by injection Hw. destruct (Hp ByPrice ltac:(unfold resubscribe; by rewrite Hr)) as [Hp'|Hp']; [|exact Hp'].
  destruct (get_security 8 (definitions (shared_ m'))) as [s2|] eqn:Hs2; [|discriminate Hok].
  apply get_security_Some in Hs2 as [Hs2 _]. unfold get_security_incl_discard in Hs'. rewrite Hs2 in Hs'.
  injection Hs' as ->. assert (mbp_resubscribe s' = 0) as Hz by by injection Hok. unfold resubscribe in Hp'; by rewrite Hz in Hp'.
Defined.

(** After packet 7 the prices of the security are stale. *)
Lemma stale_books_recovered_witness :
  ∃ m0 n m k l1 e l2, create_manager empty_definitions [310] example_config None 0 = Ok (m0, n)
    ∧ foldM manager_step m0 waiting_before = Ok m ∧ log (shared_ m) = l1 ++ e :: l2 ∧ stale_of k e
    ∧ (Exists (snapshot_of k) l2 ∨ requested k (definitions (shared_ m))).
Proof.
  set (k := (ByPrice, "XCME", "ESM5") : book_kind * string * string).
  destruct (waiting_run empty_definitions None waiting_before (λ m, bool_decide (Exists (stale_of k) (log (shared_ m)))))
    as (m0 & n & m & H0 & H1 & (e & (l1 & l2 & Hl)%list_elem_of_split & He)%bool_decide_eq_true%Exists_exists);
    [vm_compute; reflexivity|].
  exists m0, n, m, k, l1, e, l2. do 4 (split; [done|]).
  apply (stale_books_recovered empty_definitions [310] example_config None 0 m0 n waiting_before m k l1 e l2 H0); [|done..].
  repeat constructor; intros _; vm_compute; reflexivity.
Defined.

Definition waiting_definitions : SecurityDefinitions :=
  match create_definitions (Some example_file) with Ok sd => sd | Err _ => empty_definitions end.

(** The definition and the report after a start with a file. *)
Lemma reference_data_first_witness :
  ∃ m0 n m l1 e l2, create_definitions (Some example_file) = Ok waiting_definitions
    ∧ create_manager waiting_definitions [310] example_config (Some example_file) 0 = Ok (m0, n)
    ∧ foldM manager_step m0 (OnStart :: waiting_before) = Ok m ∧ log (shared_ m) = l1 ++ e :: l2
    ∧ subject e = Some ("XCME", "ESM5") ∧ Exists (introduces ("XCME", "ESM5")) l1.
Proof.
  assert (create_definitions (Some example_file) = Ok waiting_definitions) as Hsd by (vm_compute; reflexivity).
  destruct (waiting_run waiting_definitions (Some example_file) (OnStart :: waiting_before)
    (λ m, bool_decide (Exists (λ e, subject e = Some ("XCME", "ESM5")) (log (shared_ m)))))
    as (m0 & n & m & H0 & H1 & (e & (l1 & l2 & Hl)%list_elem_of_split & He)%bool_decide_eq_true%Exists_exists);
    [vm_compute; reflexivity|].
  exists m0, n, m, l1, e, l2. do 5 (split; [done|]).
  apply (reference_data_first (Some example_file) waiting_definitions [310] example_config 0 m0 n waiting_before m l1 e l2
    ("XCME", "ESM5") Hsd H0); [|done..].
  repeat constructor; intros _; vm_compute; reflexivity.
Defined.

(** The group of the first security of the file. *)
Lemma file_groups_fixed_witness :
  ∃ (items : list SecDef) m ids,
    get_security_group "ES" (definitions (shared_ m)) = Some ids ∧ 118 ∈ ids
    ∧ (118 ∈ ids ↔ ∃ item, item ∈ items ∧ discard_symbol (sd_symbol item) = false
         ∧ to_signed 32 (sd_security_id item) = 118 ∧ sd_asset item = "ES").
Proof.
  assert (create_definitions (Some example_file) = Ok waiting_definitions) as Hsd by (vm_compute; reflexivity).
  destruct (file_groups_fixed example_file waiting_definitions Hsd) as (items & _ & Hgroups).
  destruct (waiting_run waiting_definitions (Some example_file) (OnStart :: waiting_before)
    (λ m, match get_security_group "ES" (definitions (shared_ m)) with
          | Some ids => bool_decide (118 ∈ ids) | None => false end))
    as (m0 & n & m & H0 & H1 & Hin); [vm_compute; reflexivity|].
  destruct (get_security_group "ES" (definitions (shared_ m))) as [ids|] eqn:Hids; [|discriminate Hin].
  apply bool_decide_eq_true in Hin.
  exists items, m, ids. split; [exact Hids|]. split; [exact Hin|].
  eapply (Hgroups [310] example_config (Some example_file) 0 m0 n (OnStart :: waiting_before) m "ES" 118 ids H0);
    [|exact H1|apply (bool_decide_unpack _); vm_compute; exact I|exact Hids].
  repeat constructor; intros _; vm_compute; reflexivity.
Defined.

Lemma waiting_accepting : accepting env_mbp.
Proof. split; [|done]. intros u seq force q. by exists seq, 0, 0. Qed.

End waiting_witnesses.

(** Each snapshot of orders in one chunk: message 53 is the snapshot of packet 9. *)
Definition chunk_decode (t : template) (body : bytes) (length version : Z) : res mdp_message :=
  match t with
  | T_SnapshotFullRefreshOrderBook53 => Ok (SnapshotFullRefreshOrderBook53 (example_book_chunk 9 1 1))
  | _ => waiting_decode t body length version
  end.

Definition chunk_env : Env := {|
  env_mbp := taking_sequencer _; env_mbo := taking_sequencer _; env_buffer := list_buffer;
  env_hash := example_hash_order; env_discard := example_discard; env_cast := example_cast;
  env_sbe := {|
    SBE_TEMPLATE_ID := example_template_id; SBE_TEMPLATE_ID_inj := _; encodedLength := 8;
    decode_header := example_decode_header; decode_header_app := example_decode_header_app;
    decode_message := chunk_decode |};
  env_chars := example_from_chars; options := example_options |}.

Section chunk_witnesses.
#[local] Existing Instance chunk_env.

Lemma chunk_env_one_chunk : one_chunk.
Proof. intros v (t & b & l & n & Hv). destruct t; try discriminate Hv. by injection Hv as <-. Qed.

Definition chunk_event : manager_event := waiting_event ConnectionType.MBOFD_MARKET_RECOVERY 1 53.

(** The request of packet 7 is answered; that of packet 8 stays. *)
Definition chunk_during : list manager_event := [waiting_event ConnectionType.INCREMENTAL 8 50].

Lemma single_chunk_once_witness :
  ∃ m m1 m2, foldM manager_step m1 chunk_during = Ok m2
    ∧ waiting_request m = Some (7, 7) ∧ waiting_request m1 = Some (7, 0) ∧ waiting_request m2 = Some (8, 8)
    ∧ ∀ m3, manager_step m2 chunk_event = Ok m3 →
        get_security_incl_discard 8 (definitions (shared_ m3)) = get_security_incl_discard 8 (definitions (shared_ m2)).
Proof.
  destruct (waiting_run empty_definitions None waiting_before (λ m,
    bool_decide (waiting_request m = Some (7, 7)) && bool_decide (is_Some (channels_ m !! 310))
    && bool_decide ((mbo_no_chunks <$> get_security 8 (definitions (shared_ m))) = Some 0)
    && match manager_step m chunk_event with
       | Ok m1 => bool_decide (waiting_request m1 = Some (7, 0)) &&
         match foldM manager_step m1 chunk_during with
         | Ok m2 => bool_decide (waiting_request m2 = Some (8, 8)) | Err _ => false end
       | Err _ => false end)) as (m0 & n & m & H0 & H1 & Hok); [vm_compute; reflexivity|].
  apply andb_true_iff in Hok as [[[Hw%bool_decide_eq_true Hc%bool_decide_eq_true]%andb_true_iff
    Hn%bool_decide_eq_true]%andb_true_iff Hok].
  destruct (manager_step m chunk_event) as [m1|] eqn:Hm1; [|discriminate Hok].
  apply andb_true_iff in Hok as [Hw1%bool_decide_eq_true Hok].
  destruct (foldM manager_step m1 chunk_during) as [m2|] eqn:Hm2; [|discriminate Hok].
  apply bool_decide_eq_true in Hok. exists m, m1, m2. do 4 (split; [done|]). intros m3 Hm3.
  unfold waiting_request in Hw. destruct (get_security 8 (definitions (shared_ m))) as [s|] eqn:Hs; [|discriminate Hw].
  injection Hw as _ Hw. injection Hn as Hn.
  eapply (single_chunk_once empty_definitions [310] example_config None 0 m0 n waiting_before m 310 Priority.PRIMARY
    {| sequence_number := 1; sending_time := 5 |} (example_message 53 []) (example_book_chunk 9 1 1) example_trace s m1
    chunk_during m2 chunk_env_one_chunk H0); [|exact H1|exact Hc| | | |reflexivity|exact Hs|exact Hn| |exact Hm1|exact Hm2|exact Hm3].
  - repeat constructor; intros _; vm_compute; reflexivity.
  - split; vm_compute; split; congruence.
  - repeat constructor; vm_compute; congruence.
  - eexists. exists T_SnapshotFullRefreshOrderBook53. repeat split. set_solver.
  - exact (eq_ind_r (λ r, 0 < r <= 9) (ltac:(lia) : 0 < 7 <= 9) Hw).
Defined.
End chunk_witnesses.
