(* ===== verification/PcapImport.v ===== *)
(** The import of captured packets
    (src/roq/cme/import/controller.cpp).

    The packets of a capture file drive the market data manager with the times of
    the capture: start, the timers that are due, then the packet, routed by its
    address; what the manager publishes is written to the event log.  The reader
    of capture files, the encoder, the books and the writer of the event log are
    library code: a run is a list of packets, and the event log is the list of
    what is written. *)

From S2P Require Import Prelude Double Api MdpMap Messages MdpParser Security SecdefReader SecurityDefinitions Channel MarketData InstrumentDefinition Recovery MbpRecovery MbofdRecovery IncrementalBase IncrementalBook IncrementalTrades Incremental MdpConfig Manager.

(** ** Symbols *)

(** [utils::regex::Pattern::match]. *)
Class RegexMatch := { regex_match : string → string → bool }.

Section symbols.
Context `{RegexMatch} (symbols_regex : list string).

(** The loop over the patterns. *)
Definition no_match (symbol : string) : bool :=
  negb (bool_decide (symbols_regex = [])) && negb (existsb (λ regex, regex_match regex symbol) symbols_regex).

(** [discard_symbol], and the table of what was decided. *)
Definition discard_symbol_memo (symbol : string) (memo : gmap string bool) : bool * gmap string bool :=
  match memo !! symbol with
  | Some discard => (discard, memo)
  | None => let discard := no_match symbol in (discard, try_emplace symbol discard memo)
  end.

Fixpoint discard_symbols (symbols : list string) (memo : gmap string bool) : list bool * gmap string bool :=
  match symbols with
  | [] => ([], memo)
  | symbol :: symbols =>
    let '(b, memo) := discard_symbol_memo symbol memo in
    let '(bs, memo) := discard_symbols symbols memo in (b :: bs, memo)
  end.
End symbols.

(** ** Event log *)

(** The members of [MessageInfo] that are set, but for the source, which does not
    change. *)
Record MessageInfo := {
  mi_source_seqno : Z;
  mi_receive_time_utc : Z;
  mi_receive_time : Z;
  mi_source_receive_time : Z;
  mi_origin_create_time : Z;
  mi_origin_create_time_utc : Z;
}.

(** The members of the header that are set, what describes the message, and the
    message. *)
Record event_record := {
  er_source_seqno : Z;
  er_origin_create_time_utc : Z;
  er_receive_time_utc : Z;
  er_info : MessageInfo;
  er_message : md_event;
}.

(** Nanoseconds. *)
Definition TIMER_FREQUENCY : Z := 100 * 10 ^ 6.

(** [clock::get_system], a function of the number of uses, and
    [clock::get_realtime]. *)
Class ImportClock := {
  get_system : nat → Z;
  get_realtime : Z;
}.

Record pcap_packet := {
  pk_timestamp : Z;
  pk_destination_address : string;
  pk_destination_port : Z;
  pk_payload : bytes;
}.

(** The bridge of [get_first_timestamp] returns [true], which stops the reader, at
    a time that is not zero. *)
Fixpoint first_timestamp_from (result : Z) (packets : list pcap_packet) : Z :=
  match packets with
  | [] => result
  | p :: packets => if pk_timestamp p =? 0 then first_timestamp_from (pk_timestamp p) packets else pk_timestamp p
  end.

Definition get_first_timestamp (packets : list pcap_packet) : Z := first_timestamp_from 0 packets.

(** The options of [create_market_data]. *)
Definition import_options (mbp_to_mbo_clear_price_level : bool) : Options := {|
  enable_market_by_order := true;
  MarketData.mbp_to_mbo_clear_price_level := mbp_to_mbo_clear_price_level;
  filter_snapshot_from_incremental := 0;
  local_interface := "pcap";
  multicast_timeout := 10 * 10 ^ 9 |}.

Section import.
Context `{Env} `{ImportClock} (cache_all_reference_data : bool) (config : Config.t).

Record ImportController := {
  im_market_data : Manager;
  im_initialized : bool;
  im_last_timer_update : Z;
  im_source_seqno : Z;
  im_producer : option Z;               (** the time for which the file was made *)
  im_records : list event_record;
}.

Definition im_set_market_data v c := Build_ImportController v (im_initialized c) (im_last_timer_update c)
  (im_source_seqno c) (im_producer c) (im_records c).
Definition im_set_initialized c := Build_ImportController (im_market_data c) true (im_last_timer_update c)
  (im_source_seqno c) (im_producer c) (im_records c).
Definition im_set_last_timer_update v c := Build_ImportController (im_market_data c) (im_initialized c) v
  (im_source_seqno c) (im_producer c) (im_records c).

(** [create_message_info], which counts. *)
Definition create_message_info (trace_info : TraceInfo) (source_seqno : Z) : MessageInfo := {|
  mi_source_seqno := u64 (source_seqno + 1);
  mi_receive_time_utc := ti_origin_create_time_utc trace_info;
  mi_receive_time := ti_origin_create_time trace_info;
  mi_source_receive_time := ti_source_receive_time trace_info;
  mi_origin_create_time := ti_origin_create_time trace_info;
  mi_origin_create_time_utc := ti_origin_create_time_utc trace_info |}.

(** [append]: the first message makes the file. *)
Definition append (trace_info : TraceInfo) (e : md_event) (c : ImportController) : ImportController :=
  let message_info := create_message_info trace_info (im_source_seqno c) in
  Build_ImportController (im_market_data c) (im_initialized c) (im_last_timer_update c)
    (mi_source_seqno message_info)
    (Some (default (mi_origin_create_time_utc message_info) (im_producer c)))
    (im_records c ++
     [{| er_source_seqno := mi_source_seqno message_info;
         er_origin_create_time_utc := u64 (mi_origin_create_time message_info);
         er_receive_time_utc := u64 (mi_receive_time_utc message_info);
         er_info := message_info; er_message := e |}]).

(** The callbacks of the dispatcher that write: reference data that is marked as
    discarded is written on request only.  [EvApplied] is none of them. *)
Definition is_written (e : md_event) : bool :=
  match e with
  | EvReferenceData r => cache_all_reference_data || negb (rd_discard r)
  | EvApplied _ => false
  | _ => true
  end.

Definition on_md_event (trace_info : TraceInfo) (c : ImportController) (e : md_event) : ImportController :=
  if is_written e then append trace_info e c else c.

(** A call of the manager: its dispatcher is the controller, which gets what is
    published, each with its trace. *)
Definition call_manager (trace_info : nat → TraceInfo) (f : Manager → res Manager) (c : ImportController)
    : res ImportController :=
  m ← f (im_market_data c);
  let published := drop (length (log (shared_ (im_market_data c)))) (log (shared_ m)) in
  Ok (foldl (λ c '(trace_info, e), on_md_event trace_info c e) (im_set_market_data m c)
        (imap (λ i e, (trace_info i, e)) published)).

Definition trace_of (timestamp : Z) : TraceInfo := {|
  ti_source_receive_time := timestamp; ti_origin_create_time := timestamp;
  ti_origin_create_time_utc := timestamp |}.

(** What the definitions file publishes has the times of the clock, and the first
    time of the capture (src/roq/cme/market_data/shared.cpp, [Handler]). *)
Definition start_trace (first_timestamp : Z) (i : nat) : TraceInfo := {|
  ti_source_receive_time := get_system i; ti_origin_create_time := get_system i;
  ti_origin_create_time_utc := if negb (first_timestamp =? 0) then first_timestamp else get_realtime |}.

(** One turn of the [while]: the timer event has no time of its own. *)
Definition timer_turn (timestamp : Z) (c : ImportController) : res ImportController :=
  if negb (im_last_timer_update c =? 0) then
    let c := im_set_last_timer_update (im_last_timer_update c + TIMER_FREQUENCY) c in
    call_manager (λ _, trace_of (im_last_timer_update c)) (λ m, Ok (dispatch_timer 0 m)) c
  else Ok (im_set_last_timer_update timestamp c).

(** The [while]; [None] when the fuel ran out. *)
Fixpoint catch_up (fuel : nat) (timestamp : Z) (c : ImportController) : res (option ImportController) :=
  if im_last_timer_update c <? timestamp then
    match fuel with
    | O => Ok None
    | S fuel => c ← timer_turn timestamp c; catch_up fuel timestamp c
    end
  else Ok (Some c).

(** One turn to start, and then one for each period that has passed. *)
Definition catch_up_fuel (timestamp : Z) (c : ImportController) : nat :=
  if im_last_timer_update c =? 0 then 1
  else Z.to_nat ((timestamp - im_last_timer_update c) / TIMER_FREQUENCY + 1).

(** [include] *)
Definition include (type : ConnectionType.t) (priority : Priority.t) : bool :=
  bool_decide (type = ConnectionType.INCREMENTAL) || bool_decide (priority = Priority.PRIMARY).

Definition dispatch_packet (p : pcap_packet) (c : ImportController) : res ImportController :=
  match Config.find_address config (pk_destination_address p) (pk_destination_port p) with
  | Some (channel_id, connection_type, priority) =>
    if include connection_type priority then
      call_manager (λ _, trace_of (pk_timestamp p))
        (manager_dispatch channel_id connection_type priority (pk_payload p) (trace_of (pk_timestamp p))) c
    else Ok c
  | None => Ok c
  end.

(** [operator()] of the reader of the capture file. *)
Definition on_pcap_packet (first_timestamp : Z) (c : ImportController) (p : pcap_packet) : res ImportController :=
  c ← (if im_initialized c then Ok c
       else call_manager (start_trace first_timestamp) manager_start (im_set_initialized c));
  r ← catch_up (catch_up_fuel (pk_timestamp p) c) (pk_timestamp p) c;
  match r with
  | Some c => dispatch_packet p c
  | None => Err RuntimeError
  end.

Definition create_import (m : Manager) : ImportController := {|
  im_market_data := m; im_initialized := false; im_last_timer_update := 0; im_source_seqno := 0;
  im_producer := None; im_records := [] |}.

(** The constructor, which reads the file up to its first time, and [dispatch]: the
    packets of the file. *)
Definition import_run (m : Manager) (packets : list pcap_packet) : res ImportController :=
  foldM (on_pcap_packet (get_first_timestamp packets)) (create_import m) packets.
End import.

(** ** Facts *)

Section import_facts.
Context `{Env} `{ImportClock} (cache_all_reference_data : bool) (config : Config.t).
Implicit Types (c : ImportController).

Lemma dispatch_timer_log now m : log (shared_ (dispatch_timer now m)) = log (shared_ m).
Proof. done. Qed.

(** A timer publishes nothing. *)
Lemma call_timer ti c :
  call_manager cache_all_reference_data ti (λ m, Ok (dispatch_timer 0 m)) c
  = Ok (im_set_market_data (dispatch_timer 0 (im_market_data c)) c).
Proof. unfold call_manager. cbn [mbind res_bind]. by rewrite dispatch_timer_log, drop_all. Qed.

(** The controller after [k] more timers. *)
Definition after_timers (k : nat) (c : ImportController) : ImportController :=
  im_set_last_timer_update (im_last_timer_update c + Z.of_nat k * TIMER_FREQUENCY)
    (im_set_market_data (Nat.iter k (dispatch_timer 0) (im_market_data c)) c).

Lemma timer_turn_started timestamp c :
  im_last_timer_update c ≠ 0 → timer_turn cache_all_reference_data timestamp c = Ok (after_timers 1 c).
Proof.
  intros Hl. unfold timer_turn. rewrite (proj2 (Z.eqb_neq _ _) Hl). cbn [negb].
  rewrite call_timer. unfold after_timers. cbn. do 2 f_equal.
Qed.

Lemma after_timers_S k c : after_timers k (after_timers 1 c) = after_timers (S k) c.
Proof.
  unfold after_timers, im_set_last_timer_update, im_set_market_data. cbn [im_market_data im_initialized
    im_last_timer_update im_source_seqno im_producer im_records]. f_equal; [|lia].
  change (Nat.iter 1 _ (im_market_data c)) with (dispatch_timer 0 (im_market_data c)).
  by rewrite Nat.iter_succ_r.
Qed.

(** The turns that are due, with enough fuel. *)
Lemma catch_up_due k fuel timestamp c :
  0 < im_last_timer_update c → (k ≤ fuel)%nat →
  timestamp ≤ im_last_timer_update c + Z.of_nat k * TIMER_FREQUENCY →
  (k = 0%nat ∨ im_last_timer_update c + (Z.of_nat k - 1) * TIMER_FREQUENCY < timestamp) →
  catch_up cache_all_reference_data fuel timestamp c = Ok (Some (after_timers k c)).
Proof.
  revert fuel c. induction k as [|k IH]; intros fuel c Hpos Hf Hle Hlt.
  - assert (after_timers 0 c = c) as ->.
    { unfold after_timers, im_set_last_timer_update, im_set_market_data. cbn. rewrite Z.add_0_r. by destruct c. }
    destruct fuel; simpl; by rewrite (proj2 (Z.ltb_ge _ _)) by lia.
  - destruct fuel as [|fuel]; [lia|]. destruct Hlt as [?|Hlt]; [done|]. cbn [catch_up].
    rewrite (proj2 (Z.ltb_lt _ _)) by (unfold TIMER_FREQUENCY in *; nia).
    rewrite timer_turn_started by lia. cbn [mbind res_bind].
    assert (im_last_timer_update (after_timers 1 c) = im_last_timer_update c + TIMER_FREQUENCY) as Hlast
      by (unfold after_timers; cbn [im_last_timer_update im_set_last_timer_update]; lia).
    rewrite (IH fuel (after_timers 1 c)), after_timers_S; [done|..]; rewrite ?Hlast; unfold TIMER_FREQUENCY in *; [lia..|].
    destruct k as [|k]; [by left|right; lia].
Qed.

(** The number of timers that are due at a time. *)
Definition timers_due (timestamp : Z) (c : ImportController) : nat :=
  if im_last_timer_update c <? timestamp
  then Z.to_nat ((timestamp - im_last_timer_update c + TIMER_FREQUENCY - 1) / TIMER_FREQUENCY) else 0.

Lemma timers_due_spec timestamp c :
  let k := Z.of_nat (timers_due timestamp c) in
  timestamp ≤ im_last_timer_update c + k * TIMER_FREQUENCY
  ∧ (k = 0 ∨ im_last_timer_update c + (k - 1) * TIMER_FREQUENCY < timestamp)
  ∧ (k ≤ (timestamp - im_last_timer_update c) / TIMER_FREQUENCY + 1 ∨ timestamp ≤ im_last_timer_update c).
Proof.
  unfold timers_due. destruct (_ <? _) eqn:E; bool_to_prop; [|simpl; lia].
  set (d := timestamp - im_last_timer_update c) in *. assert (0 < d) by lia.
  assert (0 < TIMER_FREQUENCY) by done.
  pose proof (Z.div_mod (d + TIMER_FREQUENCY - 1) TIMER_FREQUENCY ltac:(lia)).
  pose proof (Z.mod_pos_bound (d + TIMER_FREQUENCY - 1) TIMER_FREQUENCY ltac:(lia)).
  pose proof (Z.div_mod d TIMER_FREQUENCY ltac:(lia)). pose proof (Z.mod_pos_bound d TIMER_FREQUENCY ltac:(lia)).
  assert (0 ≤ (d + TIMER_FREQUENCY - 1) / TIMER_FREQUENCY) by (apply Z.div_pos; lia).
  rewrite Z2Nat.id by done. unfold TIMER_FREQUENCY in *. split; [lia|]. split; [right; lia|left; lia].
Qed.

Lemma catch_up_enough timestamp c :
  0 ≤ im_last_timer_update c →
  catch_up cache_all_reference_data (catch_up_fuel timestamp c) timestamp c =
  Ok (Some (if (im_last_timer_update c =? 0) && (0 <? timestamp) then im_set_last_timer_update timestamp c
            else if im_last_timer_update c =? 0 then c else after_timers (timers_due timestamp c) c)).
Proof.
  intros Hpos. unfold catch_up_fuel. destruct (im_last_timer_update c =? 0) eqn:E.
  - bool_to_prop. cbn [catch_up]. rewrite E. destruct (0 <? timestamp) eqn:Et; [|done]. cbn [andb].
    unfold timer_turn. rewrite E. cbn. by rewrite Z.ltb_irrefl.
  - bool_to_prop. cbn [andb]. destruct (timers_due_spec timestamp c) as (H1 & H2 & H3).
    apply catch_up_due; [lia| |lia|lia].
    destruct H3 as [H3|H3]; [lia|]. unfold timers_due. rewrite (proj2 (Z.ltb_ge _ _)) by lia. lia.
Qed.
End import_facts.

(** ** Facts: runs *)

Section import_runs.
Context `{Env} `{ImportClock} (cache_all_reference_data : bool) (config : Config.t).
Implicit Types (c : ImportController).
Abbreviation written := (is_written cache_all_reference_data).

(** The numbers of [n] records. *)
Definition numbers (n : nat) : list Z := map (λ i, u64 (Z.of_nat i + 1)) (seq 0 n).

(** What was published since [m0] is what was written, in order, but for what is
    left out; the records are numbered. *)
Record import_inv (m0 : Manager) c : Prop := {
  ii_manager : manager_inv (im_market_data c);
  ii_timer : 0 ≤ im_last_timer_update c;
  ii_written : ∃ es, log (shared_ (im_market_data c)) = log (shared_ m0) ++ es
    ∧ map er_message (im_records c) = List.filter written es;
  ii_numbers : map er_source_seqno (im_records c) = numbers (length (im_records c));
  ii_seqno : im_source_seqno c = u64 (Z.of_nat (length (im_records c)));
}.

Lemma numbers_S n : numbers (S n) = numbers n ++ [u64 (Z.of_nat n + 1)].
Proof. unfold numbers. by rewrite seq_S, map_app. Qed.

Lemma append_numbered ti e c :
  map er_source_seqno (im_records c) = numbers (length (im_records c)) →
  im_source_seqno c = u64 (Z.of_nat (length (im_records c))) →
  let c' := append ti e c in
  map er_source_seqno (im_records c') = numbers (length (im_records c'))
  ∧ im_source_seqno c' = u64 (Z.of_nat (length (im_records c'))).
Proof.
  intros Hn Hs. unfold append, create_message_info. cbn [im_records im_source_seqno mi_source_seqno]. rewrite map_app, length_app, Hn, Hs.
  cbn [map length er_source_seqno].
  assert (u64 (u64 (Z.of_nat (length (im_records c))) + 1) = u64 (Z.of_nat (length (im_records c)) + 1)) as ->
    by (unfold wrap; by rewrite Zplus_mod_idemp_l).
  rewrite Nat.add_1_r, numbers_S. split; [done|]. f_equal. lia.
Qed.

(** What is published is handed to the dispatcher one by one. *)
Lemma on_md_events ti es c :
  let c' := foldl (λ c '(ti, e), on_md_event cache_all_reference_data ti c e) c (imap (λ i e, (ti i, e)) es) in
  im_market_data c' = im_market_data c ∧ im_last_timer_update c' = im_last_timer_update c
  ∧ im_initialized c' = im_initialized c
  ∧ map er_message (im_records c') = map er_message (im_records c) ++ List.filter written es
  ∧ (map er_source_seqno (im_records c) = numbers (length (im_records c)) →
     im_source_seqno c = u64 (Z.of_nat (length (im_records c))) →
     map er_source_seqno (im_records c') = numbers (length (im_records c'))
     ∧ im_source_seqno c' = u64 (Z.of_nat (length (im_records c')))).
Proof.
  revert ti c. induction es as [|e es IH]; intros ti c; [split_and!; try done; by rewrite app_nil_r|].
  rewrite imap_cons. change (imap (_ ∘ S) es) with (imap (λ i e, (ti (S i), e)) es). cbn [foldl List.filter].
  assert (on_md_event cache_all_reference_data (ti 0%nat) c e = if written e then append (ti 0%nat) e c else c) as -> by done.
  destruct (written e); [|apply (IH (λ i, ti (S i)))].
  destruct (IH (λ i, ti (S i)) (append (ti 0%nat) e c)) as (-> & -> & -> & -> & IHn). split_and!; try done.
  - cbn. by rewrite map_app, <- app_assoc.
  - intros Hn Hs. apply IHn; by apply append_numbered.
Qed.

(** The times of a record are those of its trace. *)
Definition record_times (ti : TraceInfo) (r : event_record) : Prop :=
  er_origin_create_time_utc r = u64 (ti_origin_create_time ti)
  ∧ er_receive_time_utc r = u64 (ti_origin_create_time_utc ti)
  ∧ er_info r = create_message_info ti (mi_source_seqno (er_info r) - 1).

Lemma on_md_events_times ti es c :
  let c' := foldl (λ c '(ti, e), on_md_event cache_all_reference_data ti c e) c (imap (λ i e, (ti i, e)) es) in
  ∃ rs, im_records c' = im_records c ++ rs ∧ Forall (λ r, ∃ i, record_times (ti i) r) rs.
Proof.
  revert ti c. induction es as [|e es IH]; intros ti c; [exists []; by rewrite app_nil_r|].
  rewrite imap_cons. change (imap (_ ∘ S) es) with (imap (λ i e, (ti (S i), e)) es). cbn [foldl].
  assert (on_md_event cache_all_reference_data (ti 0%nat) c e = if written e then append (ti 0%nat) e c else c) as -> by done.
  assert (∀ rs, Forall (λ r, ∃ i, record_times (ti (S i)) r) rs → Forall (λ r, ∃ i, record_times (ti i) r) rs) as Hmore.
  { intros rs Hall. eapply Forall_impl; [exact Hall|]. intros r [i Hr]. by exists (S i). }
  destruct (written e).
  - destruct (IH (λ i, ti (S i)) (append (ti 0%nat) e c)) as (rs & -> & Hall%Hmore).
    eexists. cbn [append im_records]. rewrite <- app_assoc. split; [done|]. constructor; [|done].
    exists 0%nat. split_and!; [done..|]. unfold create_message_info. cbn. f_equal.
    unfold wrap. rewrite Z.sub_add. by rewrite Zmod_mod.
  - destruct (IH (λ i, ti (S i)) c) as (rs & -> & Hall%Hmore). by exists rs.
Qed.

Lemma call_manager_inv m0 ti f c c' :
  (∀ m m', manager_inv m → f m = Ok m' → manager_inv m' ∧ manager_kept m m') →
  import_inv m0 c → call_manager cache_all_reference_data ti f c = Ok c' →
  import_inv m0 c' ∧ im_last_timer_update c' = im_last_timer_update c.
Proof.
  intros Hf [Hm Ht (es & Hlog & Hw) Hn Hs]. unfold call_manager. intros (m & Hfm & [= <-])%res_bind_Ok.
  destruct (Hf _ _ Hm Hfm) as [Hm' [_ [es' Hlog'] _]]. rewrite Hlog', drop_app_length.
  destruct (on_md_events ti es' (im_set_market_data m c)) as (H1 & H2 & _ & H4 & H5).
  destruct (H5 Hn Hs) as [Hn' Hs']. split; [|done]. split; [by rewrite H1|by rewrite H2| |done|done].
  exists (es ++ es'). rewrite H1, H4. cbn [im_market_data im_set_market_data im_records].
  by rewrite Hlog', Hlog, Hw, List.filter_app, app_assoc.
Qed.

Lemma after_timers_inv m0 k c : import_inv m0 c → import_inv m0 (after_timers k c).
Proof.
  intros [Hm Ht (es & Hlog & Hw) Hn Hs].
  assert (manager_inv (Nat.iter k (dispatch_timer 0) (im_market_data c))
    ∧ log (shared_ (Nat.iter k (dispatch_timer 0) (im_market_data c))) = log (shared_ (im_market_data c))) as [Hmk Hlk].
  { clear -Hm. induction k as [|k [IH1 IH2]]; [done|]. simpl. split; [|exact IH2].
    by apply (manager_step_kept _ (OnTimer 0) _ IH1). }
  split; [done|unfold after_timers, TIMER_FREQUENCY; cbn; lia| |done|done].
  exists es. cbn. by rewrite Hlk.
Qed.

Lemma on_pcap_packet_inv m0 first_timestamp c p c' :
  import_inv m0 c → on_pcap_packet cache_all_reference_data config first_timestamp c p = Ok c' → import_inv m0 c'.
Proof.
  intros Hc (c1 & Hstart & Hrest)%res_bind_Ok.
  assert (import_inv m0 c1) as Hc1.
  { destruct (im_initialized c); [by injection Hstart as <-|].
    eapply (call_manager_inv m0 _ manager_start (im_set_initialized c)); [|by destruct Hc|exact Hstart].
    intros m m' Hm. by apply (manager_step_kept m OnStart). }
  rewrite catch_up_enough in Hrest by apply Hc1. cbn [mbind res_bind] in Hrest.
  set (c2 := if _ && _ : bool then _ else _ : ImportController) in Hrest.
  assert (import_inv m0 c2) as Hc2.
  { unfold c2. destruct (_ && _) eqn:E; [|destruct (_ =? 0); [done|by apply after_timers_inv]].
    bool_to_prop. destruct Hc1. split; try done. cbn. lia. }
  unfold dispatch_packet in Hrest. destruct (Config.find_address _ _ _) as [[[id ty] pr]|]; [|by injection Hrest as <-].
  destruct (include ty pr); [|by injection Hrest as <-].
  eapply call_manager_inv; [|exact Hc2|exact Hrest]. intros m m' Hm.
  by apply (manager_step_kept m (OnPacket _ _ _ _ _)).
Qed.

Lemma import_run_inv m0 first_timestamp packets c c' :
  import_inv m0 c → foldM (on_pcap_packet cache_all_reference_data config first_timestamp) c packets = Ok c' → import_inv m0 c'.
Proof.
  revert c. induction packets as [|p packets IH]; intros c Hc; [by intros [= <-]|].
  intros (c1 & H1 & H2)%res_bind_Ok. eapply IH, H2. by eapply on_pcap_packet_inv.
Qed.
End import_runs.

(** ** Properties *)

Section import_properties.
Context `{Env} `{ImportClock} (cache_all_reference_data : bool) (config : Config.t).

(** C35: The event log.  From the construction on, whatever packets the capture holds:
    what is written is exactly what the market data side publishes, in its order
    and each once, but for the reference data of filtered symbols when it is not
    asked for; the records are numbered from one without a gap; and the market
    data side keeps its invariant. *)
Theorem import_log sd channel_ids mdp_config file n m n' packets c :
  sd_wf sd → 0 ≤ n → n + 8 * Z.of_nat (length channel_ids) < 2 ^ 16 →
  create_manager sd channel_ids mdp_config file n = Ok (m, n') →
  import_run cache_all_reference_data config m packets = Ok c →
  map er_message (im_records c) =
    List.filter (is_written cache_all_reference_data) (log (shared_ (im_market_data c)))
  ∧ map er_source_seqno (im_records c) = numbers (length (im_records c))
  ∧ manager_inv (im_market_data c).
Proof.
  intros Hwf Hn Hlt Hc Hrun.
  assert (import_inv cache_all_reference_data m (create_import m) ∧ log (shared_ m) = []) as [Hinv Hlog].
  { unfold create_manager in Hc. apply res_bind_Ok in Hc as ([channels n1] & Hch & [= <- <-]).
    apply (create_channels_Ok mdp_config n) in Hch as [[_ _ _ Hw _] _]; [|done|done|split; [lia|..]; done].
    split; [|done]. split; try done. by exists []. }
  destruct (import_run_inv _ _ _ _ _ _ _ Hinv Hrun) as [Hm _ (es & He & Hes) Hnum _].
  rewrite Hlog in He. by rewrite He.
Qed.

(** C36: Timers.  After the first packet, the timers that are due before a packet are
    run, each a period after the one before: as many as it takes to reach the
    time of the packet and no more, so that the last one is less than a period
    ahead of it; the loop ends, with the number of periods as fuel; nothing is
    published meanwhile.  The first packet only sets the time. *)
Theorem import_timers timestamp c :
  0 ≤ im_last_timer_update c → 0 < timestamp →
  ∃ c', catch_up cache_all_reference_data (catch_up_fuel timestamp c) timestamp c = Ok (Some c')
    ∧ im_records c' = im_records c
    ∧ (im_last_timer_update c = 0 → c' = im_set_last_timer_update timestamp c)
    ∧ (0 < im_last_timer_update c →
        ∃ k, c' = after_timers k c ∧ timestamp ≤ im_last_timer_update c'
          ∧ (im_last_timer_update c < timestamp → im_last_timer_update c' < timestamp + TIMER_FREQUENCY)
          ∧ (timestamp ≤ im_last_timer_update c → c' = c)).
Proof.
  intros Hpos Ht. rewrite catch_up_enough by done. rewrite (proj2 (Z.ltb_lt _ _) Ht), andb_true_r.
  destruct (timers_due_spec timestamp c) as (H1 & H2 & _).
  destruct (im_last_timer_update c =? 0) eqn:E; bool_to_prop; (eexists; split; [reflexivity|]; split; [done|]).
  - split; [done|lia].
  - split; [lia|]. intros _. exists (timers_due timestamp c).
    assert (im_last_timer_update (after_timers (timers_due timestamp c) c)
      = im_last_timer_update c + Z.of_nat (timers_due timestamp c) * TIMER_FREQUENCY) as -> by done.
    split_and!; [done|done|unfold TIMER_FREQUENCY in *; lia|].
    intros Hle. unfold timers_due. rewrite (proj2 (Z.ltb_ge _ _)) by done.
    unfold after_timers, im_set_last_timer_update, im_set_market_data. cbn. rewrite Z.add_0_r. by destruct c.
Qed.

(** The times of what is written.  What a packet publishes has the time of the
    packet throughout; what the definitions file publishes at the start has the
    first time of the capture as its time of receipt, but the clock of the system
    as its UTC time of origin. *)
Theorem import_record_times first_timestamp p c :
  (∀ c', dispatch_packet cache_all_reference_data config p c = Ok c' →
     ∃ rs, im_records c' = im_records c ++ rs ∧ Forall (record_times (trace_of (pk_timestamp p))) rs)
  ∧ ∀ c', call_manager cache_all_reference_data (start_trace first_timestamp) manager_start c = Ok c' →
     ∃ rs, im_records c' = im_records c ++ rs
       ∧ Forall (λ r, er_receive_time_utc r = u64 (if first_timestamp =? 0 then get_realtime else first_timestamp)
                   ∧ ∃ i, er_origin_create_time_utc r = u64 (get_system i)) rs.
Proof.
  assert (∀ ti f c c', call_manager cache_all_reference_data ti f c = Ok c' →
    ∃ rs, im_records c' = im_records c ++ rs ∧ Forall (λ r, ∃ i, record_times (ti i) r) rs) as Hcall.
  { intros ti f c1 c' (m & _ & [= <-])%res_bind_Ok.
    apply (on_md_events_times cache_all_reference_data ti _ (im_set_market_data m c1)). }
  split; intros c'.
  - unfold dispatch_packet. destruct (Config.find_address _ _ _) as [[[id ty] pr]|];
      [destruct (include ty pr)|]; [|intros [= <-]; exists []; by rewrite app_nil_r..].
    intros (rs & Hrs & Hall)%Hcall. exists rs. split; [done|]. eapply Forall_impl; [exact Hall|]. by intros r [_ Hr].
  - intros (rs & Hrs & Hall)%Hcall. exists rs. split; [done|]. eapply Forall_impl; [exact Hall|].
    intros r [i (Ho & Hr & _)]. split; [|by exists i]. rewrite Hr. simpl. by destruct (first_timestamp =? 0).
Qed.

(** Routing.  A packet of the capture is given to the stream that its destination
    is configured for -- a recovery or definition feed only when it is the first
    line -- and any other packet has no effect but the timers. *)
Theorem import_routes p c :
  match Config.find_address config (pk_destination_address p) (pk_destination_port p) with
  | Some (channel_id, type, priority) =>
    if bool_decide (type = ConnectionType.INCREMENTAL ∨ priority = Priority.PRIMARY) then
      match manager_dispatch channel_id type priority (pk_payload p) (trace_of (pk_timestamp p)) (im_market_data c) with
      | Ok m => ∃ c', dispatch_packet cache_all_reference_data config p c = Ok c' ∧ im_market_data c' = m
          ∧ im_last_timer_update c' = im_last_timer_update c
      | Err e => dispatch_packet cache_all_reference_data config p c = Err e
      end
    else dispatch_packet cache_all_reference_data config p c = Ok c
  | None => dispatch_packet cache_all_reference_data config p c = Ok c
  end.
Proof.
  unfold dispatch_packet. destruct (Config.find_address _ _ _) as [[[id ty] pr]|]; [|done].
  assert (include ty pr = bool_decide (ty = ConnectionType.INCREMENTAL ∨ pr = Priority.PRIMARY)) as ->.
  { unfold include. destruct ty, pr; reflexivity. }
  case_bool_decide; [|done]. unfold call_manager.
  destruct (manager_dispatch _ _ _ _ _ _) as [m|e]; [|done]. cbn [mbind res_bind]. eexists. split; [done|].
  destruct (on_md_events cache_all_reference_data (λ _, trace_of (pk_timestamp p))
    (drop (length (log (shared_ (im_market_data c)))) (log (shared_ m))) (im_set_market_data m c)) as (-> & -> & _).
  done.
Qed.
End import_properties.

Section symbol_properties.
Context `{RegexMatch} (symbols_regex : list string).

(** Symbols.  The table of the decisions never changes an answer: whatever symbols
    are asked for and however often, each is discarded exactly when there are
    patterns and none matches it. *)
Theorem discard_symbols_exact symbols :
  (discard_symbols symbols_regex symbols ∅).1 = map (no_match symbols_regex) symbols.
Proof.
  assert (∀ memo, (∀ k b, memo !! k = Some b → b = no_match symbols_regex k) →
    (discard_symbols symbols_regex symbols memo).1 = map (no_match symbols_regex) symbols) as Hgen; [|by apply Hgen].
  induction symbols as [|x xs IH]; intros memo Hm; [done|]. cbn [discard_symbols map].
  unfold discard_symbol_memo. destruct (memo !! x) as [b|] eqn:E.
  - rewrite (Hm x b E). specialize (IH memo Hm). destruct (discard_symbols _ xs memo) as [bs memo']. simpl in *. by f_equal.
  - specialize (IH (try_emplace x (no_match symbols_regex x) memo)).
    destruct (discard_symbols _ xs _) as [bs memo']. simpl in *. f_equal. apply IH.
    intros k b. rewrite lookup_try_emplace. case_decide as Hk; [subst k; rewrite E; by intros [= <-]|apply Hm].
Qed.
End symbol_properties.

(** ** Witnesses *)

Section import_witnesses.
#[local] Existing Instance the_env.
#[local] Instance example_clock : ImportClock := {| get_system i := 500 + Z.of_nat i; get_realtime := 9 |}.

Definition example_import_config : Config.t := {|
  Config.connections_ := ∅;
  Config.connection_types_ := {["224.0.31.1"%string :=
    {[14310 := (310, ConnectionType.INCREMENTAL, Priority.PRIMARY)]}]};
  Config.names_ := {[310 := example_names "310"]} |}.

Definition example_packet (timestamp port : Z) (n : Z) : pcap_packet := {|
  pk_timestamp := timestamp; pk_destination_address := "224.0.31.1"; pk_destination_port := port;
  pk_payload := heartbeat_packet n |}.

Definition example_packets : list pcap_packet :=
  [example_packet 1000000000 14310 1; example_packet 1250000000 14310 2; example_packet 1250000001 9 3].

Definition example_import_manager : res (Manager * Z) :=
  create_manager empty_definitions [310] example_import_config None 0.

Lemma import_log_witness :
  ∃ m n c, example_import_manager = Ok (m, n) ∧ import_run true example_import_config m example_packets = Ok c
    ∧ im_last_timer_update c = 1300000000
    ∧ map er_message (im_records c) = List.filter (is_written true) (log (shared_ (im_market_data c)))
    ∧ map er_source_seqno (im_records c) = [1; 2; 3].
Proof.
  destruct (is_ok_value example_import_manager) as [[m n] Hm]; [vm_compute; reflexivity|].
  assert (match import_run true example_import_config m example_packets with
    | Ok c => (im_last_timer_update c =? 1300000000) && (length (im_records c) =? 3)%nat | Err _ => false end = true) as Hok.
  { enough (match ('(m, _) ← example_import_manager; import_run true example_import_config m example_packets) with
      | Ok c => (im_last_timer_update c =? 1300000000) && (length (im_records c) =? 3)%nat | Err _ => false end = true)
      as Hx by (rewrite Hm in Hx; exact Hx). vm_compute. reflexivity. }
  destruct (import_run true example_import_config m example_packets) as [c|] eqn:Hc; [|discriminate Hok].
  apply andb_true_iff in Hok as [Ht%Z.eqb_eq Hl%Nat.eqb_eq].
  exists m, n, c. split; [exact Hm|]. split; [exact Hc|]. split; [exact Ht|].
  destruct (import_log true example_import_config empty_definitions [310] example_import_config None 0 m n
    example_packets c empty_definitions_wf) as (Hw & Hn & _); [lia|reflexivity|exact Hm|exact Hc|].
  split; [exact Hw|]. rewrite Hn, Hl. reflexivity.
Defined.

Lemma import_timers_witness :
  ∃ m n c', example_import_manager = Ok (m, n)
    ∧ catch_up true (catch_up_fuel 1250000000 (im_set_last_timer_update 1000000000 (create_import m))) 1250000000
        (im_set_last_timer_update 1000000000 (create_import m)) = Ok (Some c')
    ∧ 1250000000 ≤ im_last_timer_update c' < 1250000000 + TIMER_FREQUENCY.
Proof.
  destruct (is_ok_value example_import_manager) as [[m n] Hm]; [vm_compute; reflexivity|].
  destruct (import_timers true 1250000000 (im_set_last_timer_update 1000000000 (create_import m)))
    as (c' & Hc' & _ & _ & Hk); [discriminate|reflexivity|].
  destruct (Hk eq_refl) as (k & _ & Hle & Hlt & _).
  exists m, n, c'. split; [exact Hm|]. split; [exact Hc'|]. split; [exact Hle|exact (Hlt eq_refl)].
Defined.
End import_witnesses.
