(* ===== verification/Formatter.v ===== *)
(** The text of the protocol messages
    (the formatters of src/roq/cme/protocol/mdp/utils.hpp and
    src/roq/cme/protocol/ilink/utils.hpp, and the shape that all the others share).

    A formatter prints an opening brace, fields ([label=value], with the value
    plain, in quotes or in brackets), separators, and a closing brace.  Here is the
    datatype of the formatters, what they print, and a reader of that text; the
    formatters themselves are in MdpFormat and IlinkFormat.

    A value is a C++ object.  What [fmt] prints for a member of a type that has no
    formatter in the sources is the parameter [Library]. *)

From Stdlib Require Import Ascii.
From S2P Require Import Prelude Double Api MdpMap Messages.

(** ** Characters *)

Abbreviation c_open := ("{"%char).
Abbreviation c_close := ("}"%char).
Abbreviation c_comma := (","%char).
Abbreviation c_equal := ("="%char).
Abbreviation c_blank := (" "%char).

(** ** Values *)

(** [fmt::format("{}"sv, x)] of a [double]. *)
Class FmtDouble := fmt_double : double → string.

(** What an accessor returns, by the formatter that prints it. *)
Inductive printable :=
  | Library (text : string)      (** integers, enumerators, times, C strings: [fmt], [magic_enum] *)
  | Decimal (d : any_decimal)    (** Decimal9, Decimal9NULL, DecimalQty, PRICE9, PRICENULL9, Decimal32NULL, Decimal64NULL *)
  | Choice (rawValue : Z)        (** InstAttribValue, MatchEventIndicator, SettlPriceType, ExecInst *)
  | MaturityMonthYear (year month day week : string).

(** The scalar accessors of an object, by name: what is printed, the values
    that come with a null value, the decimals that are converted first, the
    character arrays that are printed with their length, and what the hex printer
    of the library makes of a buffer. *)
Record fmt_fields := {
  printed : string → printable;
  field_int : string → sbe_int;
  field_decimal : string → any_decimal;
  field_chars : string → string;
  field_hex : string → string;
}.

(** With the groups. *)
Record fmt_object := {
  fmt_body : fmt_fields;
  fmt_group : string → list fmt_fields;
}.

(** ** Formatters *)

(** An argument of [fmt::format_to]. *)
Inductive argument :=
  | Get (x : string)          (** [value.x()], [value.x] *)
  | GetInt (x : string)       (** [get_int(value.x(), value.xNullValue())] *)
  | GetDouble (x : string)    (** [roq::map(value.x()).template get<double>()] *)
  | GetString (x : string)    (** [get_string_view(value.x(), value.xLength())] *)
  | GetHex (x : string)       (** [utils::debug::hex::Message{value.x}] *)
  | Literal (text : string).  (** no argument: the text is in the format string *)

(** How the format string has the value of a field. *)
Inductive style := Plain | Quoted | Listed.

(** A field, or a piece of text that is none, and what follows it. *)
Inductive item (A : Type) :=
  | Field (label : string) (s : style) (a : A)
  | Note (text : string).
Arguments Field {A} & _ _ _.
Arguments Note {A} _.

Record formatter (A : Type) := {
  class_name : string;
  items : list (item A);
  separator : nat → string;     (** between field [n] and the next one *)
  trailer : string;
}.
Arguments Build_formatter {A} & _ _ _ _.
Arguments class_name {A} _.
Arguments items {A} _.
Arguments separator {A} _ _.
Arguments trailer {A} _.

(** The shape of nearly all of them: [R"({{)" R"(a={}, )" ... R"(z={})" R"(}})"]. *)
Definition braces {A} (class_name : string) (items : list (item A)) : formatter A :=
  {| class_name := class_name; items := items; separator _ := ", "; trailer := "}" |}.

(** A formatter of a message: an argument is a scalar, or a group with the
    formatter of its entries ([Group{value.x()}], [fmt::join(value.x, ", "sv)]). *)
Inductive message_argument :=
  | Scalar (a : argument)
  | Group (x : string) (entry : formatter argument).

Coercion Scalar : argument >-> message_argument.
Arguments braces {A} & _ _.

Abbreviation entry_formatter := (formatter argument).
Abbreviation message_formatter := (formatter message_argument).

(** ** What is printed *)

Section print.
Context `{FmtDouble}.

Definition print_maturity_month_year (year month day week : string) : string :=
  "{year=" +:+ year +:+ ", month=" +:+ month +:+ ", day=" +:+ day +:+ ", week=" +:+ week +:+ "})".

Definition print_printable (p : printable) : string :=
  match p with
  | Library text => text
  | Decimal d => fmt_double (get_double_any d)
  | Choice rawValue => fmt_Z rawValue
  | MaturityMonthYear year month day week => print_maturity_month_year year month day week
  end.

Definition print_argument (v : fmt_fields) (a : argument) : string :=
  match a with
  | Get x => print_printable (printed v x)
  | GetInt x => fmt_Z (get_int (field_int v x))
  | GetDouble x => fmt_double (get_double_any (field_decimal v x))
  | GetString x => get_string_view (field_chars v x)
  | GetHex x => field_hex v x
  | Literal text => text
  end.

(** [fmt::join(range, ", "sv)]. *)
Fixpoint join (l : list string) : string :=
  match l with
  | [] => ""
  | [x] => x
  | x :: l => x +:+ ", " +:+ join l
  end.

Definition styled (s : style) (text : string) : string :=
  match s with
  | Plain => text
  | Quoted => quote +:+ text +:+ quote
  | Listed => "[" +:+ text +:+ "]"
  end.

(** A formatter over what prints its arguments. *)
Section formatter.
Context {A : Type} (print : A → string).

Definition print_item (i : item A) : string :=
  match i with
  | Field label s a => label +:+ "=" +:+ styled s (print a)
  | Note text => text
  end.

Fixpoint print_items (separator : nat → string) (n : nat) (l : list (item A)) : string :=
  match l with
  | [] => ""
  | [i] => print_item i
  | i :: l => print_item i +:+ separator n +:+ print_items separator (S n) l
  end.

Definition print_formatter (f : formatter A) : string :=
  "{" +:+ print_items (separator f) 0 (items f) +:+ trailer f.
End formatter.

Definition print_entry (f : entry_formatter) (v : fmt_fields) : string :=
  print_formatter (print_argument v) f.

Definition print_message_argument (v : fmt_object) (a : message_argument) : string :=
  match a with
  | Scalar a => print_argument (fmt_body v) a
  | Group x entry => join (map (print_entry entry) (fmt_group v x))
  end.

Definition print_message (f : message_formatter) (v : fmt_object) : string :=
  print_formatter (print_message_argument v) f.
End print.

(** ** Reading the text

    A reader of log lines: it knows neither the classes nor their labels.  A
    label ends at the equal sign, a value at a comma or a closing brace that is
    neither in quotes nor in inner braces or brackets. *)

Inductive read_mode :=
  | InLabel (label : string)
  | InValue (label value : string) (depth : nat) (quoted : bool).

Definition opening (c : Ascii.ascii) : bool := bool_decide (c = "{"%char) || bool_decide (c = "["%char).
Definition closing (c : Ascii.ascii) : bool := bool_decide (c = "}"%char) || bool_decide (c = "]"%char).

Definition snoc (s : string) (c : Ascii.ascii) : string := s +:+ String c EmptyString.

(** What a character does inside a value: [None] ends it. *)
Definition value_step (depth : nat) (quoted : bool) (c : Ascii.ascii) : option (nat * bool) :=
  if bool_decide (c = quote_char) then Some (depth, negb quoted)
  else if quoted then Some (depth, true)
  else if opening c then Some (S depth, false)
  else match depth with
       | O => if closing c || bool_decide (c = c_comma) then None else Some (O, false)
       | S depth' => Some (if closing c then (depth', false) else (depth, false))
       end.

Fixpoint read_items (m : read_mode) (s : string) : option (list (string * string)) :=
  match s with
  | EmptyString => None
  | String c s =>
    match m with
    | InLabel label =>
      if bool_decide (c = c_close) then (if bool_decide (s = EmptyString) then Some [] else None)
      else if bool_decide (c = c_comma) then read_items (InLabel EmptyString) s
      else if bool_decide (c = c_blank) then read_items (InLabel label) s
      else if bool_decide (c = c_equal) then read_items (InValue label EmptyString 0 false) s
      else read_items (InLabel (snoc label c)) s
    | InValue label value depth quoted =>
      match value_step depth quoted c with
      | Some (depth, quoted) => read_items (InValue label (snoc value c) depth quoted) s
      | None =>
        if bool_decide (c = c_comma) then
          fs ← read_items (InLabel EmptyString) s; Some ((label, value) :: fs)
        else if bool_decide (s = EmptyString) then Some [(label, value)] else None
      end
    end
  end.

Definition read_fields (s : string) : option (list (string * string)) :=
  match s with
  | String c s => if bool_decide (c = c_open) then read_items (InLabel EmptyString) s else None
  | EmptyString => None
  end.

(** A text that the reader takes as one value: quotes, braces and brackets
    match, and outside of them there is no comma. *)
Fixpoint scan (depth : nat) (quoted : bool) (s : string) : option (nat * bool) :=
  match s with
  | EmptyString => Some (depth, quoted)
  | String c s => '(depth, quoted) ← value_step depth quoted c; scan depth quoted s
  end.

Definition balanced (s : string) : bool := bool_decide (scan 0 false s = Some (0%nat, false)).

Definition quote_free (s : string) : bool := all_chars (λ c, negb (bool_decide (c = quote_char))) s.

Definition text_ok (s : style) (text : string) : bool :=
  match s with Quoted => quote_free text | _ => balanced (styled s text) end.

(** The fields of a formatter with their texts. *)
Fixpoint item_fields {A} (print : A → string) (l : list (item A)) : list (string * string) :=
  match l with
  | [] => []
  | Field label s a :: l => (label, styled s (print a)) :: item_fields print l
  | Note _ :: l => item_fields print l
  end.

Fixpoint labels {A} (l : list (item A)) : list string :=
  match l with
  | [] => []
  | Field label _ _ :: l => label :: labels l
  | Note _ :: l => labels l
  end.

(** A label, or a text that is no field. *)
Definition label_ok (s : string) : bool :=
  all_chars (λ c, negb (bool_decide (c = c_close) || bool_decide (c = c_comma)
    || bool_decide (c = c_blank) || bool_decide (c = c_equal))) s.

(** ** Facts *)

Lemma snoc_app s c t : snoc s c +:+ t = s +:+ String c t.
Proof. unfold snoc. by rewrite str_app_assoc. Qed.

(** *** Scanning *)

Lemma scan_app depth quoted s t :
  scan depth quoted (s +:+ t) = '(depth, quoted) ← scan depth quoted s; scan depth quoted t.
Proof.
  revert depth quoted. induction s as [|c s IH]; intros depth quoted; [done|]. simpl.
  destruct (value_step depth quoted c) as [[]|]; [apply IH|done].
Qed.

(** Inside braces a text is scanned the same way. *)
Lemma value_step_deeper k depth quoted c r :
  value_step depth quoted c = Some r → value_step (k + depth) quoted c = Some ((k + r.1)%nat, r.2).
Proof.
  unfold value_step. case_bool_decide; [by intros [= <-]|]. destruct quoted; [by intros [= <-]|].
  destruct (opening c) eqn:Ho; [intros [= <-]; simpl; by rewrite Nat.add_succ_r|].
  destruct depth as [|depth].
  - destruct (closing c); [done|]. case_bool_decide; [done|]. intros [= <-]. simpl.
    rewrite Nat.add_0_r. by destruct k.
  - rewrite Nat.add_succ_r. destruct (closing c); intros [= <-]; simpl; by rewrite ?Nat.add_succ_r.
Qed.

Lemma scan_deeper k depth quoted s r :
  scan depth quoted s = Some r → scan (k + depth) quoted s = Some ((k + r.1)%nat, r.2).
Proof.
  revert depth quoted. induction s as [|c s IH]; intros depth quoted; simpl; [by intros [= <-]|].
  destruct (value_step depth quoted c) as [[d q]|] eqn:Hs; [|done].
  rewrite (value_step_deeper _ _ _ _ _ Hs). simpl. apply IH.
Qed.

Lemma balanced_scan s k t : balanced s = true → scan k false (s +:+ t) = scan k false t.
Proof.
  intros H%bool_decide_eq_true. rewrite scan_app.
  pose proof (scan_deeper k 0 false s _ H) as Hk. rewrite Nat.add_0_r in Hk. by rewrite Hk; simpl; rewrite Nat.add_0_r.
Qed.

Lemma balanced_nil : balanced "" = true.
Proof. done. Qed.

Lemma balanced_app s t : balanced s = true → balanced t = true → balanced (s +:+ t) = true.
Proof. intros Hs Ht. unfold balanced. rewrite balanced_scan by done. done. Qed.

(** Between braces or brackets commas are allowed. *)
Lemma scan_quote_free depth s : quote_free s = true → scan depth true s = Some (depth, true).
Proof.
  revert depth. induction s as [|c s IH]; intros depth; [done|]. simpl. intros [Hc Hs]%andb_true_iff.
  unfold value_step. destruct (bool_decide (c = quote_char)); [done|]. simpl. auto.
Qed.

Lemma balanced_quoted s : quote_free s = true → balanced (quote +:+ s +:+ quote) = true.
Proof.
  intros Hs. apply bool_decide_eq_true. change (scan 0 true (s +:+ quote) = Some (0%nat, false)).
  by rewrite scan_app, scan_quote_free.
Qed.

Lemma balanced_bracketed s :
  scan 1 false s = Some (1%nat, false) → balanced ("[" +:+ s +:+ "]") = true.
Proof. intros Hs. apply bool_decide_eq_true. change (scan 1 false (s +:+ "]") = Some (0%nat, false)).
  by rewrite scan_app, Hs. Qed.

Lemma styled_balanced s text : text_ok s text = true → balanced (styled s text) = true.
Proof. destruct s; simpl; auto using balanced_quoted. Qed.

(** *** Reading *)

Lemma read_value label value depth quoted s t d q :
  scan depth quoted s = Some (d, q) →
  read_items (InValue label value depth quoted) (s +:+ t) = read_items (InValue label (value +:+ s) d q) t.
Proof.
  revert value depth quoted. induction s as [|c s IH]; intros value depth quoted; simpl.
  { intros [= <- <-]. by rewrite string_app_nil_r. }
  destruct (value_step depth quoted c) as [[d' q']|]; [|done]. intros Hs. simpl in Hs.
  rewrite (IH _ _ _ Hs), snoc_app. done.
Qed.

Lemma read_label label s t :
  label_ok s = true → read_items (InLabel label) (s +:+ t) = read_items (InLabel (label +:+ s)) t.
Proof.
  revert label. induction s as [|c s IH]; intros label; simpl; [by rewrite string_app_nil_r|].
  intros [Hc Hs]%andb_true_iff. apply negb_true_iff in Hc. rewrite !orb_false_iff in Hc.
  destruct Hc as [[[-> ->] ->] ->]. rewrite IH, snoc_app by done. done.
Qed.

(** A field, and what comes after it. *)
Lemma read_field label s text t :
  label_ok label = true → balanced (styled s text) = true →
  read_items (InLabel "") ((label +:+ "=" +:+ styled s text) +:+ t) = read_items (InValue label (styled s text) 0 false) t.
Proof.
  intros Hl Ht%bool_decide_eq_true. rewrite !str_app_assoc, read_label by done.
  change (read_items (InValue label "" 0 false) (styled s text +:+ t)
    = read_items (InValue label (styled s text) 0 false) t).
  by rewrite (read_value _ _ _ _ _ _ _ _ Ht).
Qed.

(** *** Printing *)

Section printing.
Context {A : Type} (print : A → string).
Implicit Types (l : list (item A)) (f : formatter A).

(** The items of a well formed formatter, with arguments that print texts the
    reader takes as one value. *)
Definition item_ok (i : item A) : bool :=
  match i with Field label _ _ => label_ok label | Note text => label_ok text end.

Definition argument_ok (i : item A) : Prop :=
  match i with Field _ s a => text_ok s (print a) = true | Note _ => True end.

(** Well formed: plain labels, fields separated by a comma and blanks, and a
    closing brace at the end. *)
Definition formatter_ok (f : formatter A) : bool :=
  forallb item_ok (items f) && (bool_decide (trailer f = "}") || bool_decide (trailer f = " }")) &&
  forallb (λ n, bool_decide (separator f n = ", ") || bool_decide (separator f n = ","))
    (seq 0 (length (items f))).

Definition separators_ok (separator : nat → string) (n : nat) (k : nat) : Prop :=
  ∀ i, (n ≤ i < n + k)%nat → separator i = ", " ∨ separator i = ",".

Lemma formatter_ok_inv f :
  formatter_ok f = true →
  Forall (λ i, item_ok i = true) (items f) ∧ (trailer f = "}" ∨ trailer f = " }")
  ∧ separators_ok (separator f) 0 (length (items f)).
Proof.
  unfold formatter_ok. rewrite !andb_true_iff, !forallb_forall, orb_true_iff, !bool_decide_eq_true.
  intros [[Hi Ht] Hs]. split; [|split; [done|]].
  - apply Forall_forall. intros i Hin. apply Hi. by apply list_elem_of_In.
  - intros i Hi'. specialize (Hs i). rewrite in_seq in Hs. specialize (Hs ltac:(lia)).
    rewrite orb_true_iff, !bool_decide_eq_true in Hs. done.
Qed.

(** A separator ends a value or a text, and starts the next label. *)
Lemma read_separator_value label value sep t :
  sep = ", " ∨ sep = "," →
  read_items (InValue label value 0 false) (sep +:+ t) =
  (fs ← read_items (InLabel "") t; Some ((label, value) :: fs)).
Proof. by intros [->| ->]. Qed.

Lemma read_separator_label label sep t :
  sep = ", " ∨ sep = "," → read_items (InLabel label) (sep +:+ t) = read_items (InLabel "") t.
Proof. by intros [->| ->]. Qed.

(** An item that another one follows. *)
Lemma read_item i sep t :
  item_ok i = true → argument_ok i → sep = ", " ∨ sep = "," →
  read_items (InLabel "") (print_item print i +:+ sep +:+ t) =
  (fs ← read_items (InLabel "") t; Some (item_fields print [i] ++ fs)).
Proof.
  intros Hi Ha Hs. destruct i as [label s a|text]; simpl in *.
  - rewrite read_field by (done || by apply styled_balanced). by rewrite read_separator_value.
  - rewrite read_label, read_separator_label by done. by destruct (read_items _ t).
Qed.

Lemma read_items_print separator n l :
  Forall (λ i, item_ok i = true) l → Forall argument_ok l → separators_ok separator n (length l) →
  read_items (InLabel "") (print_items print separator n l +:+ "}") = Some (item_fields print l).
Proof.
  intros Hok. revert n. induction Hok as [|i l Hi Hl IH]; intros n Harg Hsep; [done|].
  apply Forall_cons in Harg as [Ha Harg].
  destruct l as [|i' l].
  { destruct i as [label s a|text]; simpl in *.
    - rewrite read_field by (done || by apply styled_balanced). done.
    - by rewrite read_label. }
  change (print_items print separator n (i :: i' :: l)) with
    (print_item print i +:+ separator n +:+ print_items print separator (S n) (i' :: l)).
  rewrite !str_app_assoc, read_item by (done || apply Hsep; simpl; lia).
  rewrite IH by (done || (intros k Hk; apply Hsep; simpl in *; lia)). by destruct i.
Qed.

Lemma read_print_formatter f :
  formatter_ok f = true → trailer f = "}" → Forall argument_ok (items f) →
  read_fields (print_formatter print f) = Some (item_fields print (items f)).
Proof.
  intros (Hi & _ & Hs)%formatter_ok_inv Ht Harg. unfold print_formatter. rewrite Ht.
  by apply read_items_print.
Qed.

(** Inside another value the text of a formatter is one piece. *)
Definition embeddable (f : formatter A) : bool :=
  forallb (λ i, match i with Field label _ _ => balanced label | Note text => balanced text end) (items f).

Lemma scan_print_items separator n l :
  forallb (λ i, match i with Field label _ _ => balanced label | Note text => balanced text end) l = true →
  Forall argument_ok l → separators_ok separator n (length l) →
  scan 1 false (print_items print separator n l) = Some (1%nat, false).
Proof.
  revert n. induction l as [|i l IH]; intros n; [done|]. cbn [forallb]. intros [Hi Hl]%andb_true_iff.
  intros [Ha Harg]%Forall_cons Hsep.
  assert (∀ t, scan 1 false (print_item print i +:+ t) = scan 1 false t) as Hstep.
  { intros t. destruct i as [label s a|text]; simpl in *; [|by apply balanced_scan].
    rewrite !str_app_assoc, balanced_scan by done. change (scan 1 false (styled s (print a) +:+ t) = scan 1 false t).
    apply balanced_scan. by apply styled_balanced. }
  destruct l as [|i' l].
  { rewrite <- (string_app_nil_r (print_items _ _ _ _)). exact (Hstep ""). }
  change (print_items print separator n (i :: i' :: l)) with
    (print_item print i +:+ separator n +:+ print_items print separator (S n) (i' :: l)).
  rewrite Hstep. assert (∀ t, scan 1 false (separator n +:+ t) = scan 1 false t) as ->.
  { intros t. destruct (Hsep n) as [-> | ->]; [simpl; lia|done..]. }
  apply IH; [done..|]. intros k Hk. apply Hsep. simpl in *. lia.
Qed.

Lemma print_items_snoc separator n l i :
  l ≠ [] → print_items print separator n (l ++ [i])
  = print_items print separator n l +:+ separator (n + length l - 1)%nat +:+ print_item print i.
Proof.
  revert n. induction l as [|j l IH]; intros n Hl; [done|]. destruct l as [|j' l].
  { simpl. by replace (n + 1 - 1)%nat with n by lia. }
  change (print_item print j +:+ separator n +:+ print_items print separator (S n) ((j' :: l) ++ [i]) =
    (print_item print j +:+ separator n +:+ print_items print separator (S n) (j' :: l))
      +:+ separator (n + length (j :: j' :: l) - 1)%nat +:+ print_item print i).
  rewrite IH, !str_app_assoc by done. simpl length.
  by replace (S n + S (length l) - 1)%nat with (n + S (S (length l)) - 1)%nat by lia.
Qed.

Lemma balanced_print_formatter f :
  formatter_ok f = true → embeddable f = true → Forall argument_ok (items f) →
  balanced (print_formatter print f) = true.
Proof.
  intros (Hi & Ht & Hs)%formatter_ok_inv He Harg. apply bool_decide_eq_true.
  change (scan 1 false (print_items print (separator f) 0 (items f) +:+ trailer f) = Some (0%nat, false)).
  rewrite scan_app, scan_print_items by done. by destruct Ht as [-> | ->].
Qed.
End printing.

Lemma scan_join l :
  Forall (λ s, balanced s = true) l → scan 1 false (join l) = Some (1%nat, false).
Proof.
  induction 1 as [|s l Hs Hl IH]; [done|]. destruct l as [|s' l].
  { simpl. rewrite <- (string_app_nil_r s). by rewrite balanced_scan. }
  change (join (s :: s' :: l)) with (s +:+ ", " +:+ join (s' :: l)). rewrite balanced_scan by done. exact IH.
Qed.

(** *** Plain texts *)

(** A character that ends nothing. *)
Definition plain_char (c : Ascii.ascii) : bool :=
  negb (bool_decide (c = quote_char) || opening c || closing c || bool_decide (c = c_comma)).

Definition plain (s : string) : Prop := all_chars plain_char s.

Lemma plain_quote_free s : plain s → quote_free s = true.
Proof.
  intros Hs. apply Is_true_true. eapply all_chars_impl; [|exact Hs]. intros c Hc. apply Is_true_true in Hc.
  unfold plain_char in Hc. apply negb_true_iff in Hc. rewrite !orb_false_iff in Hc.
  destruct Hc as [[[-> _] _] _]. done.
Qed.

Lemma plain_balanced s : plain s → balanced s = true.
Proof.
  intros Hs. apply bool_decide_eq_true. induction s as [|c s IH]; [done|].
  apply andb_prop_elim in Hs as [Hc Hs]. apply Is_true_true in Hc. simpl.
  unfold plain_char in Hc. apply negb_true_iff in Hc. rewrite !orb_false_iff in Hc.
  destruct Hc as [[[Hq Ho] Hcl] Hcm]. unfold value_step. rewrite Hq, Ho, Hcl, Hcm. simpl. auto.
Qed.

Lemma bracketed_balanced s : balanced s = true → balanced ("[" +:+ s +:+ "]") = true.
Proof.
  intros Hs. apply balanced_bracketed. rewrite <- (string_app_nil_r s). by rewrite balanced_scan.
Qed.

(** A text that can stand in any style. *)
Definition any_style (s : string) : Prop := balanced s = true ∧ quote_free s = true.

Lemma any_style_ok s text : any_style text → text_ok s text = true.
Proof. intros [Hb Hq]. destruct s; simpl; auto using bracketed_balanced. Qed.

Lemma plain_any_style s : plain s → any_style s.
Proof. split; auto using plain_balanced, plain_quote_free. Qed.

Lemma fmt_Z_plain z : plain (fmt_Z z).
Proof.
  apply all_chars_impl with is_number_char; [|apply fmt_Z_number].
  intros c Hc%bool_decide_unpack.
  repeat (apply elem_of_cons in Hc as [-> |Hc]; [done|]). by apply elem_of_nil in Hc.
Qed.

Lemma quote_free_app s t : quote_free (s +:+ t) = quote_free s && quote_free t.
Proof. apply all_chars_app. Qed.

(** The library prints a [double] with digits, signs, a point, or letters. *)
Class FmtDoublePlain `{FmtDouble} := fmt_double_plain d : plain (fmt_double d).

Section plain_objects.
Context `{FmtDoublePlain}.

(** The texts of the library, and the character arrays, have no delimiters. *)
Definition plain_printable (p : printable) : Prop :=
  match p with
  | Library text => plain text
  | MaturityMonthYear year month day week => plain year ∧ plain month ∧ plain day ∧ plain week
  | Decimal _ | Choice _ => True
  end.

Definition plain_fields (v : fmt_fields) : Prop :=
  ∀ x, plain_printable (printed v x) ∧ plain (get_string_view (field_chars v x)) ∧ plain (field_hex v x).

Definition plain_object (v : fmt_object) : Prop :=
  plain_fields (fmt_body v) ∧ ∀ x, Forall plain_fields (fmt_group v x).

Lemma print_maturity_month_year_any year month day week :
  plain year → plain month → plain day → plain week →
  any_style (print_maturity_month_year year month day week).
Proof.
  intros Hy Hm Hd Hw. unfold print_maturity_month_year. split.
  - apply bool_decide_eq_true.
    change (scan 1 false (year +:+ ", month=" +:+ month +:+ ", day=" +:+ day +:+ ", week=" +:+ week +:+ "})")
      = Some (0%nat, false)).
    rewrite balanced_scan by (by apply plain_balanced).
    change (scan 1 false (month +:+ ", day=" +:+ day +:+ ", week=" +:+ week +:+ "})") = Some (0%nat, false)).
    rewrite balanced_scan by (by apply plain_balanced).
    change (scan 1 false (day +:+ ", week=" +:+ week +:+ "})") = Some (0%nat, false)).
    rewrite balanced_scan by (by apply plain_balanced).
    change (scan 1 false (week +:+ "})") = Some (0%nat, false)).
    rewrite balanced_scan by (by apply plain_balanced). done.
  - rewrite !quote_free_app, (plain_quote_free year), (plain_quote_free month), (plain_quote_free day),
      (plain_quote_free week) by done. done.
Qed.

Lemma print_printable_any p : plain_printable p → any_style (print_printable p).
Proof.
  destruct p; simpl.
  - apply plain_any_style.
  - intros _. apply plain_any_style, fmt_double_plain.
  - intros _. apply plain_any_style, fmt_Z_plain.
  - intros (?&?&?&?). by apply print_maturity_month_year_any.
Qed.

(** The literals of a formatter. *)
Definition literal_ok (a : argument) : bool :=
  match a with Literal text => all_chars plain_char text | _ => true end.

Lemma print_argument_any v a : plain_fields v → literal_ok a = true → any_style (print_argument v a).
Proof.
  intros Hv Ha. destruct a as [x|x|x|x|x|text]; simpl.
  - by apply print_printable_any, Hv.
  - apply plain_any_style, fmt_Z_plain.
  - apply plain_any_style, fmt_double_plain.
  - by apply plain_any_style, Hv.
  - by apply plain_any_style, Hv.
  - apply plain_any_style. by apply Is_true_true.
Qed.

(** *** Well formed formatters *)

Definition literals_ok (f : entry_formatter) : bool :=
  forallb (λ i, match i with Field _ _ a => literal_ok a | Note _ => true end) (items f).

Definition entry_ok (f : entry_formatter) : bool := formatter_ok f && embeddable f && literals_ok f.

Definition message_ok (f : message_formatter) : bool :=
  formatter_ok f && forallb (λ i,
    match i with
    | Field _ _ (Scalar a) => literal_ok a
    | Field _ Listed (Group _ entry) => entry_ok entry
    | Field _ _ (Group _ _) => false
    | Note _ => true
    end) (items f).

Lemma entry_arguments_ok f v :
  literals_ok f = true → plain_fields v → Forall (argument_ok (print_argument v)) (items f).
Proof.
  unfold literals_ok. rewrite forallb_forall. intros Hf Hv. apply Forall_forall. intros i Hi.
  specialize (Hf i (proj1 (list_elem_of_In _ _) Hi)). destruct i as [label s a|]; [|done].
  by apply any_style_ok, print_argument_any.
Qed.

(** The text of an entry or of a message is one piece, and reads back. *)
Lemma print_entry_balanced f v : entry_ok f = true → plain_fields v → balanced (print_entry f v) = true.
Proof.
  unfold entry_ok. rewrite !andb_true_iff. intros [[Hf He] Hl] Hv.
  apply balanced_print_formatter; [done..|]. by apply entry_arguments_ok.
Qed.

Lemma message_arguments_ok f v :
  message_ok f = true → plain_object v → Forall (argument_ok (print_message_argument v)) (items f).
Proof.
  unfold message_ok. rewrite andb_true_iff, forallb_forall. intros [Hf Hi] [Hb Hg].
  apply Forall_forall. intros i Hin.
  specialize (Hi i (proj1 (list_elem_of_In _ _) Hin)). destruct i as [label s [a|x entry]|]; [..|done].
  - apply any_style_ok, print_argument_any; [done|]. by destruct s.
  - destruct s; [done..|]. simpl. apply balanced_bracketed, scan_join.
    apply Forall_map, (Forall_impl _ _ _ (Hg x)). intros w Hw. by apply print_entry_balanced.
Qed.

Lemma read_print_message f v :
  message_ok f = true → trailer f = "}" → plain_object v →
  read_fields (print_message f v) = Some (item_fields (print_message_argument v) (items f)).
Proof.
  intros Hf Ht Hv. apply read_print_formatter; [|done|by apply message_arguments_ok].
  by apply andb_true_iff in Hf as [? _].
Qed.

Lemma print_message_balanced f v :
  message_ok f = true → embeddable f = true → plain_object v → balanced (print_message f v) = true.
Proof.
  intros Hf He Hv. apply balanced_print_formatter; [|done|by apply message_arguments_ok].
  by apply andb_true_iff in Hf as [? _].
Qed.
End plain_objects.

(** *** Labels *)

(** The fields of a formatter, found by label. *)
Lemma item_fields_labels {A} (print : A → string) l : (item_fields print l).*1 = labels l.
Proof. induction l as [|[label s a|text] l IH]; [done| |done]. exact (f_equal (cons label) IH). Qed.

Lemma elem_of_item_fields {A} (print : A → string) l label s a :
  Field label s a ∈ l → (label, styled s (print a)) ∈ item_fields print l.
Proof.
  induction l as [|i l IH]; [by intros ?%elem_of_nil|].
  intros [<-|Hin]%elem_of_cons; [by apply elem_of_cons; left|].
  destruct i; [apply elem_of_cons; right|]; by apply IH.
Qed.

Lemma lookup_item_fields {A} (print : A → string) l label s a :
  NoDup (labels l) → Field label s a ∈ l →
  (list_to_map (item_fields print l) : gmap string string) !! label = Some (styled s (print a)).
Proof.
  intros Hl Hin. apply elem_of_list_to_map_1; [by rewrite item_fields_labels|]. by apply elem_of_item_fields.
Qed.

(** Names without regard to case and underscores. *)
Definition lower (c : Ascii.ascii) : Ascii.ascii :=
  let n := Ascii.nat_of_ascii c in
  if (65 <=? n)%nat && (n <=? 90)%nat then Ascii.ascii_of_nat (n + 32) else c.

Fixpoint squash (s : string) : string :=
  match s with
  | EmptyString => EmptyString
  | String c s => if bool_decide (c = "_"%char) then squash s else String (lower c) (squash s)
  end.

Definition accessor (a : argument) : option string :=
  match a with
  | Get x | GetInt x | GetDouble x | GetString x | GetHex x => Some x
  | Literal _ => None
  end.

Definition message_accessor (a : message_argument) : option string :=
  match a with Scalar a => accessor a | Group x _ => Some x end.

(** The label of a field is the name of its accessor, or a listed one. *)
Definition named {A} (accessor : A → option string) (aliases : list (string * string)) (i : item A) : bool :=
  match i with
  | Field label _ a =>
    match accessor a with
    | Some x => bool_decide (squash label = squash x) || bool_decide ((label, x) ∈ aliases)
    | None => true
    end
  | Note _ => true
  end.
