(* ===== verification/MdpFormat.v ===== *)
(** The text of the market data messages
    (the formatters of src/roq/cme/protocol/mdp/frame.hpp, utils.hpp, admin.hpp,
    security_status.hpp, quote_request.hpp, md_instrument_definition.hpp,
    snapshot_full_refresh.hpp and md_incremental_refresh.hpp, and the names of the
    messages there).

    Each definition lists the format string and the arguments of one [format],
    in order: label, quotes or brackets, and the accessor. *)

From S2P Require Import Prelude Double Api MdpMap Messages Formatter.

(** The lists below are elaborated from their expected type, which tells the
    arguments of an entry from those of a message. *)
#[local] Arguments cons {A} & _ _.

(** ** Formatters *)

(** *** Frame (frame.hpp) *)

Definition fmt_Frame : message_formatter := braces "Frame" [
  Field "sequence_number" Plain (Get "sequence_number");
  Field "sending_time" Plain (Get "sending_time")].

(** *** Header (utils.hpp) *)

Definition fmt_MessageHeader : message_formatter := braces "MessageHeader" [
  Field "blockLength" Plain (Get "blockLength");
  Field "templateId" Plain (Get "templateId");
  Field "schemaId" Plain (Get "schemaId");
  Field "version" Plain (Get "version")].

(** *** Administration (admin.hpp) *)

Definition fmt_ChannelReset4_NoMDEntries : entry_formatter := braces "ChannelReset4::NoMDEntries" [
  Field "md_update_action" Plain (Get "mDUpdateAction");
  Field "md_entry_type" Plain (Get "mDEntryType");
  Field "appl_id" Plain (Get "applID")].

Definition fmt_ChannelReset4 : message_formatter := braces "ChannelReset4" [
  Field "transact_time" Plain (Get "transactTime");
  Field "match_event_indicator" Plain (Get "matchEventIndicator");
  Field "no_md_entries" Listed (Group "noMDEntries" fmt_ChannelReset4_NoMDEntries)].

Definition fmt_AdminHeartbeat12 : message_formatter := braces "AdminHeartbeat12" [].

(** *** Security status (security_status.hpp) *)

Definition fmt_SecurityStatus30 : message_formatter := {|
  class_name := "SecurityStatus30";
  items := [
    Field "version" Plain (Get "actingVersion");
    Field "transact_time" Plain (Get "transactTime");
    Field "security_group" Quoted (GetString "securityGroup");
    Field "asset" Quoted (GetString "asset");
    Field "security_id" Plain (Get "securityID");
    Field "trade_date" Plain (Get "tradeDate");
    Field "match_event_indicator" Plain (Get "matchEventIndicator");
    Field "security_trading_status" Plain (Get "securityTradingStatus");
    Field "halt_reason" Plain (Get "haltReason");
    Field "security_trading_event" Plain (Get "securityTradingEvent")];
  separator _ := ", ";
  trailer := " }" |}.

(** *** Quote requests (quote_request.hpp) *)

Definition fmt_QuoteRequest39_NoRelatedSym : entry_formatter := braces "QuoteRequest39::NoRelatedSym" [
  Field "symbol" Plain (Get "symbol");
  Field "security_id" Plain (Get "securityID");
  Field "order_qty" Plain (Get "orderQty");
  Field "order_type" Plain (Get "quoteType");
  Field "side" Plain (Get "side")].

Definition fmt_QuoteRequest39 : message_formatter := braces "QuoteRequest39" [
  Field "version" Plain (Get "actingVersion");
  Field "transact_time" Plain (Get "transactTime");
  Field "quote_req_id" Plain (Get "quoteReqID");
  Field "match_event_indicator" Plain (Get "matchEventIndicator");
  Field "no_related_sym" Listed (Group "noRelatedSym" fmt_QuoteRequest39_NoRelatedSym)].

(** *** Instrument definitions (md_instrument_definition.hpp) *)

Definition fmt_MDInstrumentDefinitionFuture54_NoEvents : entry_formatter := braces "MDInstrumentDefinitionFuture54::NoEvents" [
  Field "event_type" Plain (Get "eventType");
  Field "event_time" Plain (Get "eventTime")].

Definition fmt_MDInstrumentDefinitionFuture54_NoMDFeedTypes : entry_formatter := braces "MDInstrumentDefinitionFuture54::NoMDFeedTypes" [
  Field "md_feed_type" Plain (Get "mDFeedType");
  Field "market_depth" Plain (Get "marketDepth")].

Definition fmt_MDInstrumentDefinitionFuture54_NoInstAttrib : entry_formatter := braces "MDInstrumentDefinitionFuture54::NoInstAttrib" [
  Field "inst_attrib_type" Plain (Get "instAttribType");
  Field "inst_attrib_value" Plain (Literal "???")].

Definition fmt_MDInstrumentDefinitionFuture54_NoLotTypeRules : entry_formatter := braces "MDInstrumentDefinitionFuture54::NoLotTypeRules" [
  Field "lot_type" Plain (Get "lotType");
  Field "min_lot_size" Plain (Literal "???")].

Definition fmt_MDInstrumentDefinitionFuture54 : message_formatter := braces "MDInstrumentDefinitionFuture54" [
  Field "version" Plain (Get "actingVersion");
  Field "match_event_indicator" Plain (Get "matchEventIndicator");
  Field "tot_num_reports" Plain (Get "totNumReports");
  Field "security_update_action" Plain (Get "securityUpdateAction");
  Field "last_update_time" Plain (Get "lastUpdateTime");
  Field "md_security_trading_status" Plain (Get "mDSecurityTradingStatus");
  Field "appl_id" Plain (Get "applID");
  Field "market_segment_id" Plain (Get "marketSegmentID");
  Field "underlying_product" Plain (Get "underlyingProduct");
  Field "security_exchange" Quoted (GetString "securityExchange");
  Field "security_group" Quoted (GetString "securityGroup");
  Field "asset" Quoted (GetString "asset");
  Field "symbol" Quoted (GetString "symbol");
  Field "security_id" Plain (Get "securityID");
  Field "security_id_source" Plain (Get "securityIDSource");
  Field "security_Type" Quoted (GetString "securityType");
  Field "cfi_code" Quoted (GetString "cFICode");
  Field "maturity_month_year" Plain (Get "maturityMonthYear");
  Field "currency" Quoted (GetString "currency");
  Field "settl_currency" Quoted (GetString "settlCurrency");
  Field "match_algorithm" Plain (Get "matchAlgorithm");
  Field "min_trade_vol" Plain (Get "minTradeVol");
  Field "max_trade_vol" Plain (Get "maxTradeVol");
  Field "min_price_increment" Plain (Get "minPriceIncrement");
  Field "display_factor" Plain (Get "displayFactor");
  Field "main_fraction" Plain (Get "mainFraction");
  Field "sub_fraction" Plain (Get "subFraction");
  Field "price_display_format" Plain (Get "priceDisplayFormat");
  Field "unit_of_measure" Quoted (GetString "unitOfMeasure");
  Field "unit_of_measure_qty" Plain (Get "unitOfMeasureQty");
  Field "trading_reference_price" Plain (Get "tradingReferencePrice");
  Field "settl_price_type" Plain (Get "settlPriceType");
  Field "open_interest_qty" Plain (Get "openInterestQty");
  Field "cleared_volume" Plain (Get "clearedVolume");
  Field "high_limit_price" Plain (Get "highLimitPrice");
  Field "low_limit_price" Plain (Get "lowLimitPrice");
  Field "max_price_variation" Plain (Get "maxPriceVariation");
  Field "decay_quantity" Plain (Get "decayQuantity");
  Field "decay_start_date" Plain (Get "decayStartDate");
  Field "original_contract_size" Plain (Get "originalContractSize");
  Field "contract_multiplier" Plain (Get "contractMultiplier");
  Field "contract_multiplier_unit" Plain (Get "contractMultiplierUnit");
  Field "flow_schedule_type" Plain (Get "flowScheduleType");
  Field "min_price_increment_amount" Plain (Get "minPriceIncrementAmount");
  Field "user_defined_instrument" Plain (Get "userDefinedInstrument");
  Field "trading_reference_date" Plain (Get "tradingReferenceDate");
  Field "instrument_guid" Plain (Get "instrumentGUID");
  Note "..."].

Definition fmt_MDInstrumentDefinitionOption55 : message_formatter := braces "MDInstrumentDefinitionOption55" [
  Field "version" Plain (Get "actingVersion");
  Field "match_event_indicator" Plain (Get "matchEventIndicator");
  Field "tot_num_reports" Plain (Get "totNumReports");
  Field "security_update_action" Plain (Get "securityUpdateAction");
  Field "last_update_time" Plain (Get "lastUpdateTime");
  Field "md_security_trading_status" Plain (Get "mDSecurityTradingStatus");
  Field "appl_id" Plain (Get "applID");
  Field "market_segment_id" Plain (Get "marketSegmentID");
  Field "underlying_product" Plain (Get "underlyingProduct");
  Field "security_exchange" Quoted (GetString "securityExchange");
  Field "security_group" Quoted (GetString "securityGroup");
  Field "asset" Quoted (GetString "asset");
  Field "symbol" Quoted (GetString "symbol");
  Field "security_id" Plain (Get "securityID");
  Field "security_id_source" Plain (Get "securityIDSource");
  Field "security_Type" Quoted (GetString "securityType");
  Field "cfi_code" Quoted (GetString "cFICode");
  Field "put_or_call" Plain (Get "putOrCall");
  Field "maturity_month_year" Plain (Get "maturityMonthYear");
  Field "currency" Quoted (GetString "currency");
  Field "strike_price" Plain (Get "strikePrice");
  Field "strike_currency" Quoted (GetString "strikeCurrency");
  Field "settl_currency" Quoted (GetString "settlCurrency");
  Field "min_cab_price" Plain (Get "minCabPrice");
  Field "match_algorithm" Plain (Get "matchAlgorithm");
  Field "min_trade_vol" Plain (Get "minTradeVol");
  Field "max_trade_vol" Plain (Get "maxTradeVol");
  Field "min_price_increment" Plain (Get "minPriceIncrement");
  Field "min_price_increment_amount" Plain (Get "minPriceIncrementAmount");
  Field "display_factor" Plain (Get "displayFactor");
  Field "tick_rule" Plain (Get "tickRule");
  Field "main_fraction" Plain (Get "mainFraction");
  Field "sub_fraction" Plain (Get "subFraction");
  Field "price_display_format" Plain (Get "priceDisplayFormat");
  Field "unit_of_measure" Quoted (GetString "unitOfMeasure");
  Field "unit_of_measure_qty" Plain (Get "unitOfMeasureQty");
  Field "trading_reference_price" Plain (Get "tradingReferencePrice");
  Field "settl_price_type" Plain (Get "settlPriceType");
  Field "cleared_volume" Plain (Get "clearedVolume");
  Field "open_interest_qty" Plain (Get "openInterestQty");
  Field "low_limit_price" Plain (Get "lowLimitPrice");
  Field "high_limit_price" Plain (Get "highLimitPrice");
  Field "user_defined_instrument" Plain (Get "userDefinedInstrument");
  Field "trading_reference_date" Plain (Get "tradingReferenceDate");
  Field "instrument_guid" Plain (Get "instrumentGUID");
  Note "..."].

Definition fmt_MDInstrumentDefinitionSpread56 : message_formatter := braces "MDInstrumentDefinitionSpread56" [
  Field "version" Plain (Get "actingVersion");
  Field "match_event_indicator" Plain (Get "matchEventIndicator");
  Field "tot_num_reports" Plain (Get "totNumReports");
  Field "security_update_action" Plain (Get "securityUpdateAction");
  Field "last_update_time" Plain (Get "lastUpdateTime");
  Field "md_security_trading_status" Plain (Get "mDSecurityTradingStatus");
  Field "appl_id" Plain (Get "applID");
  Field "market_segment_id" Plain (Get "marketSegmentID");
  Field "underlying_product" Plain (Get "underlyingProduct");
  Field "security_exchange" Quoted (GetString "securityExchange");
  Field "security_group" Quoted (GetString "securityGroup");
  Field "asset" Quoted (GetString "asset");
  Field "symbol" Quoted (GetString "symbol");
  Field "security_id" Plain (Get "securityID");
  Field "security_id_source" Plain (Get "securityIDSource");
  Field "security_Type" Quoted (GetString "securityType");
  Field "cfi_code" Quoted (GetString "cFICode");
  Field "maturity_month_year" Plain (Get "maturityMonthYear");
  Field "currency" Quoted (GetString "currency");
  Field "security_sub_type" Quoted (GetString "securitySubType");
  Field "user_defined_instrument" Plain (Get "userDefinedInstrument");
  Field "match_algorithm" Plain (Get "matchAlgorithm");
  Field "min_trade_vol" Plain (Get "minTradeVol");
  Field "max_trade_vol" Plain (Get "maxTradeVol");
  Field "min_price_increment" Plain (Get "minPriceIncrement");
  Field "display_factor" Plain (Get "displayFactor");
  Field "price_display_format" Plain (Get "priceDisplayFormat");
  Field "price_ratio" Plain (Get "priceRatio");
  Field "tick_rule" Plain (Get "tickRule");
  Field "unit_of_measure" Quoted (GetString "unitOfMeasure");
  Field "trading_reference_price" Plain (Get "tradingReferencePrice");
  Field "settle_price_type" Plain (Get "settlPriceType");
  Field "open_interest_qty" Plain (Get "openInterestQty");
  Field "cleared_volume" Plain (Get "clearedVolume");
  Field "high_limit_price" Plain (Get "highLimitPrice");
  Field "low_limit_price" Plain (Get "lowLimitPrice");
  Field "max_price_variation" Plain (Get "maxPriceVariation");
  Field "main_fraction" Plain (Get "mainFraction");
  Field "sub_fraction" Plain (Get "subFraction");
  Field "trading_reference_date" Plain (Get "tradingReferenceDate");
  Field "price_quote_method" Quoted (GetString "priceQuoteMethod");
  Field "risk_set" Quoted (GetString "riskSet");
  Field "market_set" Quoted (GetString "marketSet");
  Field "instrument_guid" Plain (Get "instrumentGUID");
  Field "financial_instrument_full_name" Quoted (GetString "financialInstrumentFullName");
  Note "..."].

Definition fmt_MDInstrumentDefinitionFixedIncome57 : message_formatter := braces "MDInstrumentDefinitionFixedIncome57" [
  Field "version" Plain (Get "actingVersion");
  Field "match_event_indicator" Plain (Get "matchEventIndicator");
  Field "tot_num_reports" Plain (Get "totNumReports");
  Field "security_update_action" Plain (Get "securityUpdateAction");
  Field "last_update_time" Plain (Get "lastUpdateTime");
  Field "md_security_trading_status" Plain (Get "mDSecurityTradingStatus");
  Field "appl_id" Plain (Get "applID");
  Field "market_segment_id" Plain (Get "marketSegmentID");
  Field "underlying_product" Plain (Get "underlyingProduct");
  Field "security_exchange" Quoted (GetString "securityExchange");
  Field "security_group" Quoted (GetString "securityGroup");
  Field "asset" Quoted (GetString "asset");
  Field "symbol" Quoted (GetString "symbol");
  Field "security_id" Plain (Get "securityID");
  Field "security_id_source" Plain (Get "securityIDSource");
  Field "security_Type" Quoted (GetString "securityType");
  Field "cfi_code" Quoted (GetString "cFICode");
  Field "currency" Quoted (GetString "currency");
  Field "settl_currency" Quoted (GetString "settlCurrency");
  Field "match_algorithm" Plain (Get "matchAlgorithm");
  Field "min_trade_vol" Plain (Get "minTradeVol");
  Field "max_trade_vol" Plain (Get "maxTradeVol");
  Field "min_price_increment" Plain (Get "minPriceIncrement");
  Field "display_factor" Plain (Get "displayFactor");
  Field "main_fraction" Plain (Get "mainFraction");
  Field "sub_fraction" Plain (Get "subFraction");
  Field "price_display_format" Plain (Get "priceDisplayFormat");
  Field "unit_of_measure" Quoted (GetString "unitOfMeasure");
  Field "unit_of_measure_qty" Plain (Get "unitOfMeasureQty");
  Field "trading_reference_price" Plain (Get "tradingReferencePrice");
  Field "trading_reference_date" Plain (Get "tradingReferenceDate");
  Field "high_limit_price" Plain (Get "highLimitPrice");
  Field "low_limit_price" Plain (Get "lowLimitPrice");
  Field "max_price_variation" Plain (Get "maxPriceVariation");
  Field "min_price_increment_amount" Plain (Get "minPriceIncrementAmount");
  Field "issue_date" Plain (Get "issueDate");
  Field "dated_date" Plain (Get "datedDate");
  Field "maturity_date" Plain (Get "maturityDate");
  Field "coupon_rate" Plain (Get "couponRate");
  Field "par_value" Plain (Get "parValue");
  Field "coupon_frequency_unit" Quoted (GetString "couponFrequencyUnit");
  Field "coupon_frequency_period" Plain (Get "couponFrequencyPeriod");
  Field "coupon_day_count" Quoted (GetString "couponDayCount");
  Field "country_of_issue" Quoted (GetString "countryOfIssue");
  Field "issuer" Quoted (GetString "issuer");
  Field "financial_instrument_full_name" Quoted (GetString "financialInstrumentFullName");
  Field "security_alt_id" Quoted (GetString "securityAltID");
  Field "security_alt_id_source" Plain (Get "securityAltIDSource");
  Field "price_quote_method" Quoted (GetString "priceQuoteMethod");
  Field "party_role_clearing_org" Quoted (GetString "partyRoleClearingOrg");
  Field "user_defined_instrument" Plain (Get "userDefinedInstrument");
  Field "risk_set" Quoted (GetString "riskSet");
  Field "market_set" Quoted (GetString "marketSet");
  Field "instrument_guid" Plain (Get "instrumentGUID");
  Note "..."].

Definition fmt_MDInstrumentDefinitionRepo58 : message_formatter := braces "MDInstrumentDefinitionRepo58" [
  Field "version" Plain (Get "actingVersion");
  Field "match_event_indicator" Plain (Get "matchEventIndicator");
  Field "tot_num_reports" Plain (Get "totNumReports");
  Field "security_update_action" Plain (Get "securityUpdateAction");
  Field "last_update_time" Plain (Get "lastUpdateTime");
  Field "md_security_trading_status" Plain (Get "mDSecurityTradingStatus");
  Field "appl_id" Plain (Get "applID");
  Field "market_segment_id" Plain (Get "marketSegmentID");
  Field "underlying_product" Plain (Get "underlyingProduct");
  Field "security_exchange" Quoted (GetString "securityExchange");
  Field "security_group" Quoted (GetString "securityGroup");
  Field "asset" Quoted (GetString "asset");
  Field "symbol" Quoted (GetString "symbol");
  Field "security_id" Plain (Get "securityID");
  Field "security_id_source" Plain (Get "securityIDSource");
  Field "security_type" Quoted (GetString "securityType");
  Field "cfi_code" Quoted (GetString "cFICode");
  Field "currency" Quoted (GetString "currency");
  Field "settl_currency" Quoted (GetString "settlCurrency");
  Field "match_algorithm" Plain (Get "matchAlgorithm");
  Field "min_trade_vol" Plain (Get "minTradeVol");
  Field "max_trade_vol" Plain (Get "maxTradeVol");
  Field "min_price_increment" Plain (Get "minPriceIncrement");
  Field "display_factor" Plain (Get "displayFactor");
  Field "unit_of_measure" Quoted (GetString "unitOfMeasure");
  Field "unit_of_measure_qty" Plain (Get "unitOfMeasureQty");
  Field "trading_reference_price" Plain (Get "tradingReferencePrice");
  Field "trading_reference_date" Plain (Get "tradingReferenceDate");
  Field "high_limit_price" Plain (Get "highLimitPrice");
  Field "low_limit_price" Plain (Get "lowLimitPrice");
  Field "max_price_variation" Plain (Get "maxPriceVariation");
  Field "financial_instrument_full_name" Quoted (GetString "financialInstrumentFullName");
  Field "party_role_clearing_org" Quoted (GetString "partyRoleClearingOrg");
  Field "start_date" Plain (Get "startDate");
  Field "end_date" Plain (Get "endDate");
  Field "termination_type" Quoted (GetString "terminationType");
  Field "security_sub_type" Plain (Get "securitySubType");
  Field "money_or_par" Plain (Get "moneyOrPar");
  Field "max_no_of_substitutions" Plain (Get "maxNoOfSubstitutions");
  Field "price_quote_method" Quoted (GetString "priceQuoteMethod");
  Field "user_defined_instrument" Plain (Get "userDefinedInstrument");
  Field "risk_set" Quoted (GetString "riskSet");
  Field "market_set" Quoted (GetString "marketSet");
  Field "instrument_guid" Plain (Get "instrumentGUID");
  Field "term_code" Quoted (GetString "termCode");
  Note "..."].

Definition fmt_MDInstrumentDefinitionFX63 : message_formatter := braces "MDInstrumentDefinitionFX63" [
  Field "version" Plain (Get "actingVersion");
  Field "match_event_indicator" Plain (Get "matchEventIndicator");
  Field "tot_num_reports" Plain (Get "totNumReports");
  Field "security_update_action" Plain (Get "securityUpdateAction");
  Field "last_update_time" Plain (Get "lastUpdateTime");
  Field "md_security_trading_status" Plain (Get "mDSecurityTradingStatus");
  Field "appl_id" Plain (Get "applID");
  Field "market_segment_id" Plain (Get "marketSegmentID");
  Field "underlying_product" Plain (Get "underlyingProduct");
  Field "security_exchange" Quoted (GetString "securityExchange");
  Field "security_group" Quoted (GetString "securityGroup");
  Field "asset" Quoted (GetString "asset");
  Field "symbol" Quoted (GetString "symbol");
  Field "security_id" Plain (Get "securityID");
  Field "security_id_source" Plain (Get "securityIDSource");
  Field "security_Type" Quoted (GetString "securityType");
  Field "cfi_code" Quoted (GetString "cFICode");
  Field "currency" Quoted (GetString "currency");
  Field "settl_currency" Quoted (GetString "settlCurrency");
  Field "price_quote_currency" Quoted (GetString "priceQuoteCurrency");
  Field "match_algorithm" Plain (Get "matchAlgorithm");
  Field "min_trade_vol" Plain (Get "minTradeVol");
  Field "max_trade_vol" Plain (Get "maxTradeVol");
  Field "min_price_increment" Plain (Get "minPriceIncrement");
  Field "display_factor" Plain (Get "displayFactor");
  Field "price_precision" Plain (Get "pricePrecision");
  Field "unit_of_measure" Quoted (GetString "unitOfMeasure");
  Field "unit_of_measure_qty" Plain (Get "unitOfMeasureQty");
  Field "high_limit_price" Plain (Get "highLimitPrice");
  Field "low_limit_price" Plain (Get "lowLimitPrice");
  Field "max_price_variation" Plain (Get "maxPriceVariation");
  Field "user_defined_instrument" Plain (Get "userDefinedInstrument");
  Field "financial_instrument_full_name" Quoted (GetString "financialInstrumentFullName");
  Field "fx_currency_symbol" Quoted (GetString "fXCurrencySymbol");
  Field "settl_type" Quoted (GetString "settlType");
  Field "intervening_days" Plain (Get "interveningDays");
  Field "fx_benchmark_rate_fix" Quoted (GetString "fXBenchmarkRateFix");
  Field "rate_source" Quoted (GetString "rateSource");
  Field "fix_rate_local_time" Quoted (GetString "fixRateLocalTime");
  Field "fix_rate_local_time_zone" Quoted (GetString "fixRateLocalTimeZone");
  Field "min_quote_life" Plain (Get "minQuoteLife");
  Field "max_price_discretion_offset" Plain (Get "maxPriceDiscretionOffset");
  Field "instrument_guid" Plain (Get "instrumentGUID");
  Field "maturity_month_year" Plain (Get "maturityMonthYear");
  Field "settlement_locale" Quoted (GetString "settlementLocale");
  Note (quote +:+ "...")].

(** *** Snapshots (snapshot_full_refresh.hpp) *)

Definition fmt_SnapshotFullRefresh52_NoMDEntries : entry_formatter := braces "SnapshotFullRefresh52::NoMDEntries" [
  Field "md_entry_px" Plain (GetDouble "mDEntryPx");
  Field "md_entry_size" Plain (GetInt "mDEntrySize");
  Field "number_of_orders" Plain (GetInt "numberOfOrders");
  Field "md_price_level" Plain (GetInt "mDPriceLevel");
  Field "trading_reference_date" Plain (Get "tradingReferenceDate");
  Field "open_close_settl_flag" Plain (Get "openCloseSettlFlag");
  Field "settl_price_type" Plain (Get "settlPriceType");
  Field "md_entry_type" Plain (Get "mDEntryType")].

Definition fmt_SnapshotFullRefresh52 : message_formatter := braces "SnapshotFullRefresh52" [
  Field "version" Plain (Get "actingVersion");
  Field "last_msg_seq_num_processed" Plain (Get "lastMsgSeqNumProcessed");
  Field "tot_num_reports" Plain (Get "totNumReports");
  Field "security_id" Plain (Get "securityID");
  Field "rpt_seq" Plain (Get "rptSeq");
  Field "transact_time" Plain (Get "transactTime");
  Field "last_update_time" Plain (Get "lastUpdateTime");
  Field "trade_date" Plain (Get "tradeDate");
  Field "md_security_trading_status" Plain (Get "mDSecurityTradingStatus");
  Field "high_limit_price" Plain (GetDouble "highLimitPrice");
  Field "low_limit_price" Plain (GetDouble "lowLimitPrice");
  Field "max_price_variation" Plain (GetDouble "maxPriceVariation");
  Field "no_md_entries" Listed (Group "noMDEntries" fmt_SnapshotFullRefresh52_NoMDEntries)].

Definition fmt_SnapshotFullRefreshOrderBook53_NoMDEntries : entry_formatter := braces "SnapshotFullRefreshOrderBook53::NoMDEntries" [
  Field "order_id" Plain (Get "orderID");
  Field "md_order_priority" Plain (GetInt "mDOrderPriority");
  Field "md_entry_px" Plain (Get "mDEntryPx");
  Field "md_display_qty" Plain (Get "mDDisplayQty");
  Field "md_entry_type" Plain (Get "mDEntryType")].

Definition fmt_SnapshotFullRefreshOrderBook53 : message_formatter := braces "SnapshotFullRefreshOrderBook53" [
  Field "version" Plain (Get "actingVersion");
  Field "last_msg_seq_num_processed" Plain (Get "lastMsgSeqNumProcessed");
  Field "tot_num_reports" Plain (Get "totNumReports");
  Field "security_id" Plain (Get "securityID");
  Field "no_chunks" Plain (Get "noChunks");
  Field "current_chunk" Plain (Get "currentChunk");
  Field "transact_time" Plain (Get "transactTime");
  Field "no_md_entries" Listed (Group "noMDEntries" fmt_SnapshotFullRefreshOrderBook53_NoMDEntries)].

Definition fmt_SnapshotFullRefreshLongQty69_NoMDEntries : entry_formatter := braces "SnapshotFullRefreshLongQty69::NoMDEntries" [
  Field "md_entry_px" Plain (Get "mDEntryPx");
  Field "md_entry_size" Plain (GetInt "mDEntrySize");
  Field "number_of_orderes" Plain (GetInt "numberOfOrders");
  Field "md_price_level" Plain (GetInt "mDPriceLevel");
  Field "open_close_settl_flag" Plain (Get "openCloseSettlFlag");
  Field "md_entry_type" Plain (Get "mDEntryType")].

Definition fmt_SnapshotFullRefreshLongQty69 : message_formatter := braces "SnapshotFullRefreshLongQty69" [
  Field "version" Plain (Get "actingVersion");
  Field "last_msg_seq_num_processed" Plain (Get "lastMsgSeqNumProcessed");
  Field "tot_num_reports" Plain (Get "totNumReports");
  Field "security_id" Plain (Get "securityID");
  Field "rpt_seq" Plain (Get "rptSeq");
  Field "transact_time" Plain (Get "transactTime");
  Field "last_update_time" Plain (Get "lastUpdateTime");
  Field "trade_date" Plain (Get "tradeDate");
  Field "md_security_trading_status" Plain (Get "mDSecurityTradingStatus");
  Field "high_limit_price" Plain (Get "highLimitPrice");
  Field "low_limit_price" Plain (Get "lowLimitPrice");
  Field "max_price_variation" Plain (Get "maxPriceVariation");
  Field "no_md_entries" Listed (Group "noMDEntries" fmt_SnapshotFullRefreshLongQty69_NoMDEntries)].

(** *** Incremental refreshes (md_incremental_refresh.hpp) *)

Definition fmt_MDIncrementalRefreshVolume37_NoMDEntries : entry_formatter := braces "MDIncrementalRefreshVolume37::NoMDEntries" [
  Field "md_entry_size" Plain (Get "mDEntrySize");
  Field "security_id" Plain (Get "securityID");
  Field "rpt_seq" Plain (Get "rptSeq");
  Field "md_update_action" Plain (Get "mDUpdateAction");
  Field "md_entry_type" Plain (Get "mDEntryType")].

Definition fmt_MDIncrementalRefreshVolume37 : message_formatter := braces "MDIncrementalRefreshVolume37" [
  Field "version" Plain (Get "actingVersion");
  Field "transact_time" Plain (Get "transactTime");
  Field "match_event_indicator" Plain (Get "matchEventIndicator");
  Field "no_md_entries" Listed (Group "noMDEntries" fmt_MDIncrementalRefreshVolume37_NoMDEntries)].

Definition fmt_MDIncrementalRefreshBook46_NoMDEntries : entry_formatter := braces "MDIncrementalRefreshBook46::NoMDEntries" [
  Field "md_entry_px" Plain (Get "mDEntryPx");
  Field "md_entry_size" Plain (GetInt "mDEntrySize");
  Field "security_id" Plain (Get "securityID");
  Field "rpt_seq" Plain (Get "rptSeq");
  Field "number_of_orders" Plain (GetInt "numberOfOrders");
  Field "md_price_level" Plain (Get "mDPriceLevel");
  Field "md_update_action" Plain (Get "mDUpdateAction");
  Field "md_entry_type" Plain (Get "mDEntryType");
  Field "tradeable_size" Plain (GetInt "tradeableSize")].

Definition fmt_MDIncrementalRefreshBook46_NoOrderIDEntries : entry_formatter := braces "MDIncrementalRefreshBook46::NoOrderIDEntries" [
  Field "order_id" Plain (Get "orderID");
  Field "md_order_priority" Plain (GetInt "mDOrderPriority");
  Field "md_display_qty" Plain (GetInt "mDDisplayQty");
  Field "reference_id" Plain (GetInt "referenceID");
  Field "order_update_action" Plain (Get "orderUpdateAction")].

Definition fmt_MDIncrementalRefreshBook46 : message_formatter := braces "MDIncrementalRefreshBook46" [
  Field "version" Plain (Get "actingVersion");
  Field "transact_time" Plain (Get "transactTime");
  Field "match_event_indicator" Plain (Get "matchEventIndicator");
  Field "no_md_entries" Listed (Group "noMDEntries" fmt_MDIncrementalRefreshBook46_NoMDEntries);
  Field "no_order_id_entries" Listed (Group "noOrderIDEntries" fmt_MDIncrementalRefreshBook46_NoOrderIDEntries)].

Definition fmt_MDIncrementalRefreshOrderBook47_NoMDEntries : entry_formatter := braces "MDIncrementalRefreshOrderBook47::NoMDEntries" [
  Field "order_id" Plain (GetInt "orderID");
  Field "md_order_priority" Plain (GetInt "mDOrderPriority");
  Field "md_entry_px" Plain (Get "mDEntryPx");
  Field "md_display_qty" Plain (GetInt "mDDisplayQty");
  Field "security_id" Plain (Get "securityID");
  Field "md_update_action" Plain (Get "mDUpdateAction");
  Field "md_entry_type" Plain (Get "mDEntryType")].

Definition fmt_MDIncrementalRefreshOrderBook47 : message_formatter := braces "MDIncrementalRefreshOrderBook47" [
  Field "version" Plain (Get "actingVersion");
  Field "transact_time" Plain (Get "transactTime");
  Field "match_event_indicator" Plain (Get "matchEventIndicator");
  Field "no_md_entries" Listed (Group "noMDEntries" fmt_MDIncrementalRefreshOrderBook47_NoMDEntries)].

Definition fmt_MDIncrementalRefreshTradeSummary48_NoMDEntries : entry_formatter := braces "MDIncrementalRefreshTradeSummary48::NoMDEntries" [
  Field "md_entry_px" Plain (Get "mDEntryPx");
  Field "md_entry_size" Plain (Get "mDEntrySize");
  Field "security_id" Plain (Get "securityID");
  Field "rpt_seq" Plain (Get "rptSeq");
  Field "number_of_orders" Plain (Get "numberOfOrders");
  Field "aggressor_side" Plain (Get "aggressorSide");
  Field "md_update_action" Plain (Get "mDUpdateAction");
  Field "md_entry_type" Plain (Get "mDEntryType");
  Field "md_trade_entry_id" Plain (GetInt "mDTradeEntryID")].

Definition fmt_MDIncrementalRefreshTradeSummary48_NoOrderIDEntries : entry_formatter := braces "MDIncrementalRefreshTradeSummary48::NoOrderIDEntries" [
  Field "order_id" Plain (Get "orderID");
  Field "last_qty" Plain (Get "lastQty")].

Definition fmt_MDIncrementalRefreshTradeSummary48 : message_formatter := braces "MDIncrementalRefreshTradeSummary48" [
  Field "version" Plain (Get "actingVersion");
  Field "transact_time" Plain (Get "transactTime");
  Field "match_event_indicator" Plain (Get "matchEventIndicator");
  Field "no_md_entries" Listed (Group "noMDEntries" fmt_MDIncrementalRefreshTradeSummary48_NoMDEntries);
  Field "no_order_id_entries" Listed (Group "noOrderIDEntries" fmt_MDIncrementalRefreshTradeSummary48_NoOrderIDEntries)].

Definition fmt_MDIncrementalRefreshDailyStatistics49_NoMDEntries : entry_formatter := braces "MDIncrementalRefreshDailyStatistics49::NoMDEntries" [
  Field "md_entry_px" Plain (Get "mDEntryPx");
  Field "md_entry_size" Plain (GetInt "mDEntrySize");
  Field "security_id" Plain (Get "securityID");
  Field "rpt_seq" Plain (Get "rptSeq");
  Field "trading_reference_date" Plain (Get "tradingReferenceDate");
  Field "settl_price_type" Plain (Get "settlPriceType");
  Field "md_update_action" Plain (Get "mDUpdateAction");
  Field "md_entry_type" Plain (Get "mDEntryType")].

Definition fmt_MDIncrementalRefreshDailyStatistics49 : message_formatter := braces "MDIncrementalRefreshDailyStatistics49" [
  Field "version" Plain (Get "actingVersion");
  Field "transact_time" Plain (Get "transactTime");
  Field "match_event_indicator" Plain (Get "matchEventIndicator");
  Field "no_md_entries" Listed (Group "noMDEntries" fmt_MDIncrementalRefreshDailyStatistics49_NoMDEntries)].

Definition fmt_MDIncrementalRefreshLimitsBanding50_NoMDEntries : entry_formatter := braces "MDIncrementalRefreshLimitsBanding50::NoMDEntries" [
  Field "high_limit_price" Plain (Get "highLimitPrice");
  Field "low_limit_price" Plain (Get "lowLimitPrice");
  Field "max_price_variation" Plain (Get "maxPriceVariation");
  Field "security_id" Plain (Get "securityID");
  Field "rpt_seq" Plain (Get "rptSeq");
  Field "md_update_action" Plain (Get "mDUpdateAction");
  Field "md_entry_type" Plain (Get "mDEntryType")].

Definition fmt_MDIncrementalRefreshLimitsBanding50 : message_formatter := braces "MDIncrementalRefreshLimitsBanding50" [
  Field "version" Plain (Get "actingVersion");
  Field "transact_time" Plain (Get "transactTime");
  Field "match_event_indicator" Plain (Get "matchEventIndicator");
  Field "no_md_entries" Listed (Group "noMDEntries" fmt_MDIncrementalRefreshLimitsBanding50_NoMDEntries)].

Definition fmt_MDIncrementalRefreshSessionStatistics51_NoMDEntries : entry_formatter := {|
  class_name := "MDIncrementalRefreshSessionStatistics51::NoMDEntries";
  items := [
    Field "md_entry_px" Plain (Get "mDEntryPx");
    Field "security_id" Plain (Get "securityID");
    Field "rpt_seq" Plain (Get "rptSeq");
    Field "open_close_settl_flag" Plain (Get "openCloseSettlFlag");
    Field "md_update_action" Plain (Get "mDUpdateAction");
    Field "md_entry_type" Plain (Get "mDEntryType");
    Field "md_entry_size" Plain (GetInt "mDEntrySize")];
  separator n := if (n =? 5)%nat then "," else ", ";
  trailer := "}" |}.

Definition fmt_MDIncrementalRefreshSessionStatistics51 : message_formatter := braces "MDIncrementalRefreshSessionStatistics51" [
  Field "version" Plain (Get "actingVersion");
  Field "transact_time" Plain (Get "transactTime");
  Field "match_event_indicator" Plain (Get "matchEventIndicator");
  Field "no_md_entries" Listed (Group "noMDEntries" fmt_MDIncrementalRefreshSessionStatistics51_NoMDEntries)].

Definition fmt_MDIncrementalRefreshBookLongQty64_NoMDEntries : entry_formatter := braces "MDIncrementalRefreshBookLongQty64::NoMDEntries" [
  Field "md_entry_px" Plain (Get "mDEntryPx");
  Field "md_entry_size" Plain (GetInt "mDEntrySize");
  Field "security_id" Plain (Get "securityID");
  Field "rpt_seq" Plain (Get "rptSeq");
  Field "number_of_orders" Plain (GetInt "numberOfOrders");
  Field "md_price_level" Plain (Get "mDPriceLevel");
  Field "md_update_action" Plain (Get "mDUpdateAction");
  Field "md_entry_type" Plain (Get "mDEntryType")].

Definition fmt_MDIncrementalRefreshBookLongQty64_NoOrderIDEntries : entry_formatter := braces "MDIncrementalRefreshBookLongQty64::NoOrderIDEntries" [
  Field "order_id" Plain (Get "orderID");
  Field "md_order_priority" Plain (GetInt "mDOrderPriority");
  Field "md_display_qty" Plain (GetInt "mDDisplayQty");
  Field "reference_id" Plain (GetInt "referenceID");
  Field "order_update_action" Plain (Get "orderUpdateAction")].

Definition fmt_MDIncrementalRefreshBookLongQty64 : message_formatter := braces "MDIncrementalRefreshBookLongQty64" [
  Field "version" Plain (Get "actingVersion");
  Field "transact_time" Plain (Get "transactTime");
  Field "match_event_indicator" Plain (Get "matchEventIndicator");
  Field "no_md_entries" Listed (Group "noMDEntries" fmt_MDIncrementalRefreshBookLongQty64_NoMDEntries);
  Field "no_order_id_entries" Listed (Group "noOrderIDEntries" fmt_MDIncrementalRefreshBookLongQty64_NoOrderIDEntries)].

Definition fmt_MDIncrementalRefreshTradeSummaryLongQty65_NoMDEntries : entry_formatter := braces "MDIncrementalRefreshTradeSummaryLongQty65::NoMDEntries" [
  Field "md_entry_px" Plain (Get "mDEntryPx");
  Field "md_entry_size" Plain (Get "mDEntrySize");
  Field "security_id" Plain (Get "securityID");
  Field "rpt_seq" Plain (Get "rptSeq");
  Field "number_of_orders" Plain (Get "numberOfOrders");
  Field "md_trade_entry_id" Plain (Get "mDTradeEntryID");
  Field "aggressor_side" Plain (Get "aggressorSide");
  Field "md_update_action" Plain (Get "mDUpdateAction");
  Field "md_entry_type" Plain (Get "mDEntryType")].

Definition fmt_MDIncrementalRefreshTradeSummaryLongQty65_NoOrderIDEntries : entry_formatter := braces "MDIncrementalRefreshTradeSummaryLongQty65::NoOrderIDEntries" [
  Field "order_id" Plain (Get "orderID");
  Field "last_qty" Plain (Get "lastQty")].

Definition fmt_MDIncrementalRefreshTradeSummaryLongQty65 : message_formatter := braces "MDIncrementalRefreshTradeSummaryLongQty65" [
  Field "version" Plain (Get "actingVersion");
  Field "transact_time" Plain (Get "transactTime");
  Field "match_event_indicator" Plain (Get "matchEventIndicator");
  Field "no_md_entries" Listed (Group "noMDEntries" fmt_MDIncrementalRefreshTradeSummaryLongQty65_NoMDEntries);
  Field "no_order_id_entries" Listed (Group "noOrderIDEntries" fmt_MDIncrementalRefreshTradeSummaryLongQty65_NoOrderIDEntries)].

Definition fmt_MDIncrementalRefreshVolumeLongQty66_NoMDEntries : entry_formatter := braces "MDIncrementalRefreshVolumeLongQty66::NoMDEntries" [
  Field "md_entry_size" Plain (Get "mDEntrySize");
  Field "security_id" Plain (Get "securityID");
  Field "rpt_seq" Plain (Get "rptSeq");
  Field "md_update_action" Plain (Get "mDUpdateAction");
  Field "md_entry_type" Plain (Get "mDEntryType")].

Definition fmt_MDIncrementalRefreshVolumeLongQty66 : message_formatter := braces "MDIncrementalRefreshVolumeLongQty66" [
  Field "version" Plain (Get "actingVersion");
  Field "transact_time" Plain (Get "transactTime");
  Field "match_event_indicator" Plain (Get "matchEventIndicator");
  Field "no_md_entries" Listed (Group "noMDEntries" fmt_MDIncrementalRefreshVolumeLongQty66_NoMDEntries)].

Definition fmt_MDIncrementalRefreshSessionStatisticsLongQty67_NoMDEntries : entry_formatter := braces "MDIncrementalRefreshSessionStatisticsLongQty67::NoMDEntries" [
  Field "md_entry_px" Plain (Get "mDEntryPx");
  Field "md_entry_size" Plain (GetInt "mDEntrySize");
  Field "security_id" Plain (Get "securityID");
  Field "rpt_seq" Plain (Get "rptSeq");
  Field "open_close_settl_flag" Plain (Get "openCloseSettlFlag");
  Field "md_update_action" Plain (Get "mDUpdateAction");
  Field "md_entry_type" Plain (Get "mDEntryType")].

Definition fmt_MDIncrementalRefreshSessionStatisticsLongQty67 : message_formatter := braces "MDIncrementalRefreshSessionStatisticsLongQty67" [
  Field "version" Plain (Get "actingVersion");
  Field "transact_time" Plain (Get "transactTime");
  Field "match_event_indicator" Plain (Get "matchEventIndicator");
  Field "no_md_entries" Listed (Group "noMDEntries" fmt_MDIncrementalRefreshSessionStatisticsLongQty67_NoMDEntries)].

(** All of them. *)
Definition mdp_entry_formatters : list entry_formatter := [
  fmt_ChannelReset4_NoMDEntries; fmt_QuoteRequest39_NoRelatedSym;
  fmt_MDInstrumentDefinitionFuture54_NoEvents; fmt_MDInstrumentDefinitionFuture54_NoMDFeedTypes;
  fmt_MDInstrumentDefinitionFuture54_NoInstAttrib; fmt_MDInstrumentDefinitionFuture54_NoLotTypeRules;
  fmt_SnapshotFullRefresh52_NoMDEntries; fmt_SnapshotFullRefreshOrderBook53_NoMDEntries;
  fmt_SnapshotFullRefreshLongQty69_NoMDEntries; fmt_MDIncrementalRefreshVolume37_NoMDEntries;
  fmt_MDIncrementalRefreshBook46_NoMDEntries; fmt_MDIncrementalRefreshBook46_NoOrderIDEntries;
  fmt_MDIncrementalRefreshOrderBook47_NoMDEntries; fmt_MDIncrementalRefreshTradeSummary48_NoMDEntries;
  fmt_MDIncrementalRefreshTradeSummary48_NoOrderIDEntries;
  fmt_MDIncrementalRefreshDailyStatistics49_NoMDEntries;
  fmt_MDIncrementalRefreshLimitsBanding50_NoMDEntries;
  fmt_MDIncrementalRefreshSessionStatistics51_NoMDEntries;
  fmt_MDIncrementalRefreshBookLongQty64_NoMDEntries; fmt_MDIncrementalRefreshBookLongQty64_NoOrderIDEntries;
  fmt_MDIncrementalRefreshTradeSummaryLongQty65_NoMDEntries;
  fmt_MDIncrementalRefreshTradeSummaryLongQty65_NoOrderIDEntries;
  fmt_MDIncrementalRefreshVolumeLongQty66_NoMDEntries;
  fmt_MDIncrementalRefreshSessionStatisticsLongQty67_NoMDEntries].

Definition mdp_message_formatters : list message_formatter := [
  fmt_Frame; fmt_MessageHeader; fmt_ChannelReset4; fmt_AdminHeartbeat12; fmt_SecurityStatus30;
  fmt_QuoteRequest39; fmt_MDInstrumentDefinitionFuture54; fmt_MDInstrumentDefinitionOption55;
  fmt_MDInstrumentDefinitionSpread56; fmt_MDInstrumentDefinitionFixedIncome57;
  fmt_MDInstrumentDefinitionRepo58; fmt_MDInstrumentDefinitionFX63; fmt_SnapshotFullRefresh52;
  fmt_SnapshotFullRefreshOrderBook53; fmt_SnapshotFullRefreshLongQty69; fmt_MDIncrementalRefreshVolume37;
  fmt_MDIncrementalRefreshBook46; fmt_MDIncrementalRefreshOrderBook47;
  fmt_MDIncrementalRefreshTradeSummary48; fmt_MDIncrementalRefreshDailyStatistics49;
  fmt_MDIncrementalRefreshLimitsBanding50; fmt_MDIncrementalRefreshSessionStatistics51;
  fmt_MDIncrementalRefreshBookLongQty64; fmt_MDIncrementalRefreshTradeSummaryLongQty65;
  fmt_MDIncrementalRefreshVolumeLongQty66; fmt_MDIncrementalRefreshSessionStatisticsLongQty67].

(** ** Names

    [get_name<T>()], by file. *)

Definition get_name_admin (t : template) : option string :=
  match t with
  | T_ChannelReset4 => Some "channel_reset_4"
  | T_AdminHeartbeat12 => Some "admin_heartbeat_12"
  | _ => None
  end.

Definition get_name_security_status (t : template) : option string :=
  match t with T_SecurityStatus30 => Some "security_status_30" | _ => None end.

Definition get_name_quote_request (t : template) : option string :=
  match t with T_QuoteRequest39 => Some "quote_request_39" | _ => None end.

Definition get_name_instrument_definition (t : template) : option string :=
  match t with
  | T_MDInstrumentDefinitionFuture54 => Some "md_instrument_definition_future_54"
  | T_MDInstrumentDefinitionOption55 => Some "md_instrument_definition_option_55"
  | T_MDInstrumentDefinitionSpread56 => Some "md_instrument_definition_spread_56"
  | T_MDInstrumentDefinitionFixedIncome57 => Some "md_instrument_definition_fixed_income_57"
  | T_MDInstrumentDefinitionRepo58 => Some "md_instrument_definition_repo_58"
  | T_MDInstrumentDefinitionFX63 => Some "md_instrument_definition_fx_63"
  | _ => None
  end.

Definition get_name_snapshot (t : template) : option string :=
  match t with
  | T_SnapshotFullRefresh52 => Some "snapshot_full_refresh_52"
  | T_SnapshotFullRefreshOrderBook53 => Some "snapshot_full_refresh_order_book_53"
  | T_SnapshotFullRefreshTCP61 => Some "snapshot_full_refresh_tcp_61"
  | T_SnapshotFullRefreshTCPLongQty68 => Some "snapshot_full_refresh_tcp_long_qty_68"
  | T_SnapshotFullRefreshLongQty69 => Some "snapshot_full_refresh_long_qty_69"
  | _ => None
  end.

Definition get_name_incremental_refresh (t : template) : option string :=
  match t with
  | T_MDIncrementalRefreshVolume37 => Some "md_incremental_refresh_volume_37"
  | T_MDIncrementalRefreshBook46 => Some "md_incremental_refresh_book_46"
  | T_MDIncrementalRefreshOrderBook47 => Some "md_incremental_refresh_order_book_47"
  | T_MDIncrementalRefreshTradeSummary48 => Some "md_incremental_refresh_trade_summary_48"
  | T_MDIncrementalRefreshDailyStatistics49 => Some "md_incremental_refresh_daily_statistics_49"
  | T_MDIncrementalRefreshLimitsBanding50 => Some "md_incremental_refresh_limits_banding_50"
  | T_MDIncrementalRefreshSessionStatistics51 => Some "md_incremental_refresh_session_statistics_51"
  | T_MDIncrementalRefreshBookLongQty64 => Some "md_incremental_refresh_book_long_qty_64"
  | T_MDIncrementalRefreshTradeSummaryLongQty65 => Some "md_incremental_refresh_trade_summary_long_qty_65"
  | T_MDIncrementalRefreshVolumeLongQty66 => Some "md_incremental_refresh_volume_long_qty_66"
  | T_MDIncrementalRefreshSessionStatisticsLongQty67 => Some "md_incremental_refresh_session_statistics_long_qty_67"
  | _ => None
  end.

(** The specialisations together: a template without one has no name. *)
Definition get_name (t : template) : option string :=
  head (omap (λ f, f t) [get_name_admin; get_name_security_status; get_name_quote_request;
    get_name_instrument_definition; get_name_snapshot; get_name_incremental_refresh]).

(** The formatter that is chosen for a class that the parser hands out. *)
Definition formatter_of (t : template) : option message_formatter :=
  match t with
  | T_AdminHeartbeat12 => Some fmt_AdminHeartbeat12
  | T_ChannelReset4 => Some fmt_ChannelReset4
  | T_SecurityStatus30 => Some fmt_SecurityStatus30
  | T_MDInstrumentDefinitionFuture54 => Some fmt_MDInstrumentDefinitionFuture54
  | T_MDInstrumentDefinitionOption55 => Some fmt_MDInstrumentDefinitionOption55
  | T_MDInstrumentDefinitionSpread56 => Some fmt_MDInstrumentDefinitionSpread56
  | T_MDInstrumentDefinitionFixedIncome57 => Some fmt_MDInstrumentDefinitionFixedIncome57
  | T_MDInstrumentDefinitionRepo58 => Some fmt_MDInstrumentDefinitionRepo58
  | T_MDInstrumentDefinitionFX63 => Some fmt_MDInstrumentDefinitionFX63
  | T_SnapshotFullRefresh52 => Some fmt_SnapshotFullRefresh52
  | T_SnapshotFullRefreshLongQty69 => Some fmt_SnapshotFullRefreshLongQty69
  | T_MDIncrementalRefreshBook46 => Some fmt_MDIncrementalRefreshBook46
  | T_MDIncrementalRefreshBookLongQty64 => Some fmt_MDIncrementalRefreshBookLongQty64
  | T_SnapshotFullRefreshOrderBook53 => Some fmt_SnapshotFullRefreshOrderBook53
  | T_MDIncrementalRefreshOrderBook47 => Some fmt_MDIncrementalRefreshOrderBook47
  | T_MDIncrementalRefreshTradeSummary48 => Some fmt_MDIncrementalRefreshTradeSummary48
  | T_MDIncrementalRefreshTradeSummaryLongQty65 => Some fmt_MDIncrementalRefreshTradeSummaryLongQty65
  | T_MDIncrementalRefreshDailyStatistics49 => Some fmt_MDIncrementalRefreshDailyStatistics49
  | T_MDIncrementalRefreshSessionStatistics51 => Some fmt_MDIncrementalRefreshSessionStatistics51
  | T_MDIncrementalRefreshSessionStatisticsLongQty67 => Some fmt_MDIncrementalRefreshSessionStatisticsLongQty67
  | T_MDIncrementalRefreshVolume37 => Some fmt_MDIncrementalRefreshVolume37
  | T_MDIncrementalRefreshVolumeLongQty66 => Some fmt_MDIncrementalRefreshVolumeLongQty66
  | T_MDIncrementalRefreshLimitsBanding50 => Some fmt_MDIncrementalRefreshLimitsBanding50
  | T_QuoteRequest39 => Some fmt_QuoteRequest39
  | _ => None
  end.
