(* ===== verification/IlinkFormat.v ===== *)
(** The text of the iLink messages
    (the formatters of src/roq/cme/protocol/ilink: requests, session and
    business messages, execution reports).

    Each definition lists the format string and the arguments of one [format],
    in order: label, quotes or brackets, and the accessor or member. *)

From S2P Require Import Prelude Double Api MdpMap Messages Formatter MdpFormat.

(** The lists below are elaborated from their expected type, which tells the
    arguments of an entry from those of a message. *)
#[local] Arguments cons {A} & _ _.

(** ** Formatters *)

(** *** Negotiate (negotiate.hpp) *)

Definition fmt_Negotiate : message_formatter := braces "Negotiate" [
  Field "hmac_signature" Listed (GetHex "hmac_signature");
  Field "access_key_id" Quoted (Get "access_key_id");
  Field "uuid" Plain (Get "uuid");
  Field "request_timestamp" Plain (Get "request_timestamp");
  Field "session" Quoted (Get "session");
  Field "firm" Quoted (Get "firm")].

(** *** Establish (establish.hpp) *)

Definition fmt_Establish : message_formatter := braces "Establish" [
  Field "hmac_signature" Listed (GetHex "hmac_signature");
  Field "access_key_id" Quoted (Get "access_key_id");
  Field "trading_system_name" Quoted (Get "trading_system_name");
  Field "trading_system_version" Quoted (Get "trading_system_version");
  Field "trading_system_vendor" Quoted (Get "trading_system_vendor");
  Field "uuid" Plain (Get "uuid");
  Field "request_timestamp" Plain (Get "request_timestamp");
  Field "next_seq_no" Plain (Get "next_seq_no");
  Field "session" Quoted (Get "session");
  Field "firm" Quoted (Get "firm");
  Field "keep_alive_interval" Quoted (Get "keep_alive_interval");
  Note ""].

(** *** Sequence (sequence.hpp) *)

Definition fmt_Sequence : message_formatter := braces "Sequence" [
  Field "uuid" Plain (Get "uuid");
  Field "next_seq_no" Plain (Get "next_seq_no");
  Field "fault_tolerance_indicator" Plain (Get "fault_tolerance_indicator");
  Field "keep_alive_interval_lapsed" Quoted (Get "keep_alive_interval_lapsed")].

(** *** Terminate (terminate.hpp) *)

Definition fmt_Terminate : message_formatter := braces "Terminate" [
  Field "reason" Quoted (Get "reason");
  Field "uuid" Plain (Get "uuid");
  Field "request_timestamp" Plain (Get "request_timestamp");
  Field "error_codes" Plain (Get "error_codes");
  Field "split_msg" Quoted (Get "split_msg")].

(** *** New order single (new_order_single.hpp) *)

Definition fmt_NewOrderSingle : message_formatter := braces "NewOrderSingle" [
  Field "price" Plain (Get "price");
  Field "order_qty" Plain (Get "order_qty");
  Field "security_id" Plain (Get "security_id");
  Field "side" Plain (Get "side");
  Field "seq_num" Plain (Get "seq_num");
  Field "sender_id" Quoted (Get "sender_id");
  Field "cl_ord_id" Quoted (Get "cl_ord_id");
  Field "party_details_list_req_id" Plain (Get "party_details_list_req_id");
  Field "order_request_id" Plain (Get "order_request_id");
  Field "sending_time_epoch" Plain (Get "sending_time_epoch");
  Field "stop_px" Plain (Get "stop_px");
  Field "location" Quoted (Get "location");
  Field "min_qty" Plain (Get "min_qty");
  Field "display_qty" Plain (Get "display_qty");
  Field "expire_date" Plain (Get "expire_date");
  Field "ord_type" Plain (Get "ord_type");
  Field "time_in_force" Plain (Get "time_in_force");
  Field "manual_order_indicator" Plain (Get "manual_order_indicator");
  Field "exec_inst" Plain (Get "exec_inst");
  Field "execution_mode" Plain (Get "execution_mode");
  Field "liquidity_flag" Plain (Get "liquidity_flag");
  Field "managed_order" Plain (Get "managed_order");
  Field "short_sale_type" Plain (Get "short_sale_type");
  Field "discretion_price" Plain (Get "discretion_price");
  Field "reservation_price" Quoted (Get "reservation_price")].

(** *** Order cancel replace request (order_cancel_replace_request.hpp) *)

Definition fmt_OrderCancelReplaceRequest : message_formatter := braces "OrderCancelReplaceRequest" [
  Field "price" Plain (Get "price");
  Field "order_qty" Plain (Get "order_qty");
  Field "security_id" Plain (Get "security_id");
  Field "side" Plain (Get "side");
  Field "seq_num" Plain (Get "seq_num");
  Field "sender_id" Quoted (Get "sender_id");
  Field "cl_ord_id" Quoted (Get "cl_ord_id");
  Field "party_details_list_req_id" Plain (Get "party_details_list_req_id");
  Field "order_id" Plain (Get "order_id");
  Field "stop_px" Plain (Get "stop_px");
  Field "order_request_id" Plain (Get "order_request_id");
  Field "sending_time_epoch" Plain (Get "sending_time_epoch");
  Field "location" Quoted (Get "location");
  Field "min_qty" Plain (Get "min_qty");
  Field "display_qty" Plain (Get "display_qty");
  Field "expire_date" Plain (Get "expire_date");
  Field "ord_type" Plain (Get "ord_type");
  Field "time_in_force" Plain (Get "time_in_force");
  Field "manual_order_indicator" Plain (Get "manual_order_indicator");
  Field "ofm_override" Plain (Get "ofm_override");
  Field "exec_inst" Plain (Get "exec_inst");
  Field "execution_mode" Plain (Get "execution_mode");
  Field "liquidity_flag" Plain (Get "liquidity_flag");
  Field "managed_order" Plain (Get "managed_order");
  Field "short_sale_type" Plain (Get "short_sale_type");
  Field "discretion_price" Plain (Get "discretion_price")].

(** *** Order cancel request (order_cancel_request.hpp) *)

Definition fmt_OrderCancelRequest : message_formatter := braces "OrderCancelRequest" [
  Field "order_id" Plain (Get "order_id");
  Field "party_details_list_req_id" Plain (Get "party_details_list_req_id");
  Field "manual_order_indicator" Plain (Get "manual_order_indicator");
  Field "seq_num" Plain (Get "seq_num");
  Field "sender_id" Quoted (Get "sender_id");
  Field "cl_ord_id" Quoted (Get "cl_ord_id");
  Field "order_request_id" Plain (Get "order_request_id");
  Field "sending_time_epoch" Plain (Get "sending_time_epoch");
  Field "location" Plain (Get "location");
  Field "security_id" Plain (Get "security_id");
  Field "side" Plain (Get "side");
  Field "liquidity_flag" Plain (Get "liquidity_flag");
  Field "orig_order_user" Quoted (Get "orig_order_user")].

(** *** Order mass action request (order_mass_action_request.hpp) *)

Definition fmt_OrderMassActionRequest : message_formatter := braces "OrderMassActionRequest" [
  Field "party_details_list_req_id" Plain (Get "party_details_list_req_id");
  Field "order_request_id" Plain (Get "order_request_id");
  Field "manual_order_indicator" Plain (Get "manual_order_indicator");
  Field "seq_num" Plain (Get "seq_num");
  Field "sender_id" Plain (Get "sender_id");
  Field "time_epoch" Plain (Get "sending_time_epoch");
  Field "security_group" Quoted (Get "security_group");
  Field "location" Quoted (Get "location");
  Field "security_id" Plain (Get "security_id");
  Field "mass_action_scope" Plain (Get "mass_action_scope");
  Field "market_segment_id" Plain (Get "market_segment_id");
  Field "mass_cancel_request_type" Plain (Get "mass_cancel_request_type");
  Field "side" Plain (Get "side");
  Field "ord_type" Plain (Get "ord_type");
  Field "time_in_force" Plain (Get "time_in_force");
  Field "liquidity_flag" Plain (Get "liquidity_flag");
  Field "orig_order_user" Quoted (Get "orig_order_user")].

(** *** Order mass status request (order_mass_status_request.hpp) *)

Definition fmt_OrderMassStatusRequest : message_formatter := braces "OrderMassStatusRequest" [
  Field "party_details_list_req_id" Plain (Get "party_details_list_req_id");
  Field "mass_status_req_id" Plain (Get "mass_status_req_id");
  Field "manual_order_indicator" Plain (Get "manual_order_indicator");
  Field "seq_num" Plain (Get "seq_num");
  Field "sender_id" Plain (Get "sender_id");
  Field "time_epoch" Plain (Get "sending_time_epoch");
  Field "security_group" Quoted (Get "security_group");
  Field "location" Quoted (Get "location");
  Field "security_id" Plain (Get "security_id");
  Field "mass_status_req_type" Plain (Get "mass_status_req_type");
  Field "ord_status_req_type" Plain (Get "ord_status_req_type");
  Field "time_in_force" Plain (Get "time_in_force");
  Field "market_segment_id" Quoted (Get "market_segment_id")].

(** *** Party details list request (party_details_list_request.hpp) *)

Definition fmt_PartyDetailsListRequest : message_formatter := braces "PartyDetailsListRequest" [
  Field "party_details_list_req_id" Plain (Get "party_details_list_req_id");
  Field "sending_time_epoch" Plain (Get "sending_time_epoch");
  Field "seq_num" Plain (Get "seq_num")].

(** *** Party details definition request (party_details_definition_request.hpp) *)

Definition fmt_PartyDetailsDefinitionRequest : message_formatter := braces "PartyDetailsDefinitionRequest" [
  Field "party_details_list_req_id" Plain (Get "party_details_list_req_id");
  Field "sending_time_epoch" Plain (Get "sending_time_epoch");
  Field "list_update_action" Plain (Get "list_update_action");
  Field "seq_num" Plain (Get "seq_num");
  Field "memo" Quoted (Get "memo");
  Field "avg_px_group_id" Quoted (Get "avg_px_group_id");
  Field "self_match_prevention_id" Plain (Get "self_match_prevention_id");
  Field "cmta_giveup_cd" Plain (Get "cmta_giveup_cd");
  Field "cust_order_capacity" Plain (Get "cust_order_capacity");
  Field "clearing_account_type" Plain (Get "clearing_account_type");
  Field "self_match_prevention_instruction" Plain (Get "self_match_prevention_instruction");
  Field "avg_px_indicator" Plain (Get "avg_px_indicator");
  Field "clearing_trade_price_type" Plain (Get "clearing_trade_price_type");
  Field "cust_order_handling_inst" Plain (Get "cust_order_handling_inst");
  Field "executor" Plain (Get "executor");
  Field "idm_short_code" Plain (Get "idm_short_code")].

(** *** Security definition request (security_definition_request.hpp) *)

Definition fmt_SecurityDefinitionRequest : message_formatter := braces "SecurityDefinitionRequest" [
  Field "party_details_list_req_id" Plain (Get "party_details_list_req_id");
  Field "security_req_id" Plain (Get "security_req_id");
  Field "manual_order_indicator" Plain (Get "manual_order_indicator");
  Field "seq_num" Plain (Get "seq_num");
  Field "sender_id" Quoted (Get "sender_id");
  Field "time_epoch" Plain (Get "sending_time_epoch");
  Field "security_sub_type" Quoted (Get "security_sub_type");
  Field "location" Quoted (Get "location");
  Field "start_date" Plain (Get "start_date");
  Field "end_date" Plain (Get "end_date");
  Field "max_no_of_substitutions" Plain (Get "max_no_of_substitutions");
  Field "source_repo_id" Plain (Get "source_repo_id");
  Field "broken_date_term_type" Plain (Get "broken_date_term_type")].

(** *** Mass quote (mass_quote.hpp) *)

Definition fmt_MassQuote_QuoteEntry : entry_formatter := braces "MassQuote::QuoteEntry" [
  Field "bid_px" Plain (Get "bid_px");
  Field "offer_px" Plain (Get "offer_px");
  Field "quote_entry_id" Plain (Get "quote_entry_id");
  Field "security_id" Plain (Get "security_id");
  Field "bid_size" Plain (Get "bid_size");
  Field "offer_size" Plain (Get "offer_size");
  Field "underyling_security_id" Plain (Get "underlying_security_id");
  Field "quote_set_id" Plain (Get "quote_set_id")].

Definition fmt_MassQuote : message_formatter := braces "MassQuote" [
  Field "party_details_list_req_id" Plain (Get "party_details_list_req_id");
  Field "sending_time_epoch" Plain (Get "sending_time_epoch");
  Field "manual_order_indicator" Plain (Get "manual_order_indicator");
  Field "seq_num" Plain (Get "seq_num");
  Field "sender_id" Plain (Get "sender_id");
  Field "location" Quoted (Get "location");
  Field "quote_id" Plain (Get "quote_id");
  Field "tot_no_quote_entries" Plain (Get "tot_no_quote_entries");
  Field "mmp_protection_reset" Plain (Get "mmp_protection_reset");
  Field "liquidity_flag" Plain (Get "liquidity_flag");
  Field "short_sale_type" Plain (Get "short_sale_type");
  Field "reserved" Quoted (Get "reserved");
  Field "reserved_1" Quoted (Get "reserved_1");
  Field "quote_entry_open" Plain (Get "quote_entry_open");
  Field "no_quote_entries" Listed (Group "no_quote_entries" fmt_MassQuote_QuoteEntry)].

(** *** Quote cancel (quote_cancel.hpp) *)

Definition fmt_QuoteCancel_QuoteEntry : entry_formatter := braces "QuoteCancel::QuoteEntry" [
  Field "security_group" Quoted (Get "security_group");
  Field "security_id" Plain (Get "security_id")].

Definition fmt_QuoteCancel_QuoteSet : entry_formatter := braces "QuoteCancel::QuoteSet" [
  Field "bid_size" Plain (Get "bid_size");
  Field "offer_size" Plain (Get "offer_size");
  Field "quote_set_id" Plain (Get "quote_set_id")].

Definition fmt_QuoteCancel : message_formatter := braces "QuoteCancel" [
  Field "party_details_list_req_id" Plain (Get "party_details_list_req_id");
  Field "sending_time_epoch" Plain (Get "sending_time_epoch");
  Field "manual_order_indicator" Plain (Get "manual_order_indicator");
  Field "seq_num" Plain (Get "seq_num");
  Field "sender_id" Plain (Get "sender_id");
  Field "location" Quoted (Get "location");
  Field "quote_id" Plain (Get "quote_id");
  Field "quote_cancel_type" Plain (Get "quote_cancel_type");
  Field "liquidity_flag" Plain (Get "liquidity_flag");
  Field "orig_order_user" Quoted (Get "orig_order_user");
  Field "quote_entry_open" Plain (Get "quote_entry_open");
  Field "no_quote_entries" Listed (Group "no_quote_entries" fmt_QuoteCancel_QuoteEntry);
  Field "no_quote_sets" Listed (Group "no_quote_sets" fmt_QuoteCancel_QuoteSet)].

(** *** Session (session.hpp) *)

Definition fmt_NegotiationResponse501 : message_formatter := braces "NegotiationResponse501" [
  Field "server_flow" Plain (Get "serverFlow");
  Field "uuid" Plain (Get "uUID");
  Field "request_timestamp" Plain (Get "requestTimestamp");
  Field "secret_key_secure_id_expiration" Plain (Get "secretKeySecureIDExpiration");
  Field "fault_tolerance_indicator" Plain (Get "faultToleranceIndicator");
  Field "split_msg" Plain (Get "splitMsg");
  Field "previous_seq_no" Plain (Get "previousSeqNo");
  Field "previous_uuid" Plain (Get "previousUUID");
  Field "credentials" Plain (Get "credentials")].

Definition fmt_NegotiationReject502 : message_formatter := braces "NegotiationReject502" [
  Field "reason" Plain (Get "reason");
  Field "uuid" Plain (Get "uUID");
  Field "request_timestamp" Plain (Get "requestTimestamp");
  Field "error_codes" Plain (Get "errorCodes");
  Field "fault_tolerance_indicator" Plain (Get "faultToleranceIndicator");
  Field "split_msg" Plain (Get "splitMsg")].

Definition fmt_EstablishmentAck504 : message_formatter := braces "EstablishmentAck504" [
  Field "uuid" Plain (Get "uUID");
  Field "request_timestamp" Plain (Get "requestTimestamp");
  Field "next_seq_no" Plain (Get "nextSeqNo");
  Field "previous_seq_no" Plain (Get "previousSeqNo");
  Field "previous_uuid" Plain (Get "previousUUID");
  Field "keep_alive_interval" Plain (Get "keepAliveInterval");
  Field "secret_key_secure_id_expiration" Plain (Get "secretKeySecureIDExpiration");
  Field "fault_tolerance_indicator" Plain (Get "faultToleranceIndicator");
  Field "split_msg" Plain (Get "splitMsg")].

Definition fmt_EstablishmentReject505 : message_formatter := braces "EstablishmentReject505" [
  Field "reason" Plain (Get "reason");
  Field "uuid" Plain (Get "uUID");
  Field "request_timestamp" Plain (Get "requestTimestamp");
  Field "next_seq_no" Plain (Get "nextSeqNo");
  Field "error_codes" Plain (Get "errorCodes");
  Field "fault_tolerance_indicator" Plain (Get "faultToleranceIndicator");
  Field "split_msg" Plain (Get "splitMsg")].

Definition fmt_Sequence506 : message_formatter := braces "Sequence506" [
  Field "uuid" Plain (Get "uUID");
  Field "next_seq_no" Plain (Get "nextSeqNo");
  Field "fault_tolerance_indicator" Plain (Get "faultToleranceIndicator");
  Field "keep_alive_interval_elapsed" Plain (Get "keepAliveIntervalLapsed")].

Definition fmt_Terminate507 : message_formatter := braces "Terminate507" [
  Field "reason" Quoted (Get "reason");
  Field "uuid" Plain (Get "uUID");
  Field "request_timestamp" Plain (Get "requestTimestamp");
  Field "error_codes" Plain (Get "errorCodes");
  Field "split_msg" Plain (Get "splitMsg")].

Definition fmt_Retransmission509 : message_formatter := braces "Retransmission509" [
  Field "uuid" Plain (Get "uUID");
  Field "last_uuid" Plain (Get "lastUUID");
  Field "request_timestamp" Plain (Get "requestTimestamp");
  Field "from_seq_no" Plain (Get "fromSeqNo");
  Field "msg_count" Plain (Get "msgCount");
  Field "split_msg" Plain (Get "splitMsg")].

Definition fmt_RetransmitReject510 : message_formatter := braces "RetransmitReject510" [
  Field "reason" Plain (Get "reason");
  Field "uuid" Plain (Get "uUID");
  Field "last_uuid" Plain (Get "lastUUID");
  Field "request_timestamp" Plain (Get "requestTimestamp");
  Field "error_codes" Plain (Get "errorCodes");
  Field "split_msg" Plain (Get "splitMsg")].

Definition fmt_NotApplied513 : message_formatter := braces "NotApplied513" [
  Field "uuid" Plain (Get "uUID");
  Field "from_seq_no" Plain (Get "fromSeqNo");
  Field "msg_count" Plain (Get "msgCount");
  Field "split_msg" Plain (Get "splitMsg")].

(** *** Business (business.hpp) *)

Definition fmt_PartyDetailsDefinitionRequestAck519_NoPartyDetails : entry_formatter := braces "PartyDetailsDefinitionRequestAck519::NoPartyDetails" [].

Definition fmt_PartyDetailsDefinitionRequestAck519_NoTrdRegPublications : entry_formatter := braces "PartyDetailsDefinitionRequestAck519::NoTrdRegPublications" [].

Definition fmt_PartyDetailsDefinitionRequestAck519 : message_formatter := braces "PartyDetailsDefinitionRequestAck519" [
  Field "seq_num" Plain (Get "seqNum");
  Field "uuid" Plain (Get "uUID");
  Field "memo" Quoted (Get "memo");
  Field "avg_px_group_id" Quoted (Get "avgPxGroupID");
  Field "party_details_list_req_id" Plain (Get "partyDetailsListReqID");
  Field "sending_time_epoch" Plain (Get "sendingTimeEpoch");
  Field "self_match_prevention_id" Plain (Get "selfMatchPreventionID");
  Field "party_details_request_status" Plain (Get "partyDetailRequestStatus");
  Field "cust_order_capacity" Plain (Get "custOrderCapacity");
  Field "clearing_account_type" Plain (Get "clearingAccountType");
  Field "self_match_prevention_instruction" Plain (Get "selfMatchPreventionInstruction");
  Field "avg_px_indicator" Plain (Get "avgPxIndicator");
  Field "clearing_trade_price_type" Plain (Get "clearingTradePriceType");
  Field "cmta_giveup_cd" Plain (Get "cmtaGiveupCD");
  Field "cust_order_handling_inst" Plain (Get "custOrderHandlingInst");
  Field "no_party_updates" Plain (Get "noPartyUpdates");
  Field "list_update_action" Plain (Get "listUpdateAction");
  Field "party_detail_definition_status" Plain (Get "partyDetailDefinitionStatus");
  Field "executor" Plain (Get "executor");
  Field "idm_short_code" Plain (Get "iDMShortCode");
  Field "poss_retrans_flag" Plain (Get "possRetransFlag");
  Field "split_msg" Plain (Get "splitMsg");
  Note ""].

Definition fmt_BusinessReject521 : message_formatter := braces "BusinessReject521" [
  Field "seq_num" Plain (Get "seqNum");
  Field "uuid" Plain (Get "uUID");
  Field "text" Quoted (Get "text");
  Field "sender_id" Plain (Get "senderID");
  Field "party_details_list_req_id" Plain (Get "partyDetailsListReqID");
  Field "sending_time_epoch" Plain (Get "sendingTimeEpoch");
  Field "business_reject_ref_id" Plain (Get "businessRejectRefID");
  Field "location" Plain (Get "location");
  Field "ref_seq_num" Plain (Get "refSeqNum");
  Field "ref_tag_id" Plain (Get "refTagID");
  Field "business_reject_reason" Plain (Get "businessRejectReason");
  Field "ref_msg_type" Plain (Get "refMsgType");
  Field "poss_retrans_flag" Plain (Get "possRetransFlag");
  Field "manual_order_indicator" Plain (Get "manualOrderIndicator");
  Field "split_msg" Plain (Get "splitMsg")].

(** *** Order (order.hpp) *)

Definition fmt_OrderCancelReject535 : message_formatter := braces "OrderCancelReject535" [
  Field "seq_num" Plain (Get "seqNum");
  Field "uuid" Plain (Get "uUID");
  Field "text" Quoted (Get "text");
  Field "exec_id" Plain (Get "execID");
  Field "sender_id" Plain (Get "senderID");
  Field "cl_ord_id" Plain (Get "clOrdID");
  Field "party_details_list_req_id" Plain (Get "partyDetailsListReqID");
  Field "ord_status" Plain (Get "ordStatus");
  Field "cxl_rej_response_to" Plain (Get "cxlRejResponseTo");
  Field "order_id" Plain (Get "orderID");
  Field "transact_time" Plain (Get "transactTime");
  Field "sending_time_epoch" Plain (Get "sendingTimeEpoch");
  Field "order_request_id" Plain (Get "orderRequestID");
  Field "location" Plain (Get "location");
  Field "cxl_rej_reason" Plain (Get "cxlRejReason");
  Field "delay_duration" Plain (Get "delayDuration");
  Field "manual_order_indicator" Plain (Get "manualOrderIndicator");
  Field "poss_retrans_flag" Plain (Get "possRetransFlag");
  Field "split_msg" Plain (Get "splitMsg");
  Field "liquidity_flag" Plain (Get "liquidityFlag");
  Field "delay_to_time" Plain (Get "delayToTime")].

Definition fmt_OrderCancelReplaceReject536 : message_formatter := braces "OrderCancelReplaceReject536" [
  Field "seq_num" Plain (Get "seqNum");
  Field "uuid" Plain (Get "uUID");
  Field "text" Quoted (Get "text");
  Field "exec_id" Plain (Get "execID");
  Field "sender_id" Plain (Get "senderID");
  Field "cl_ord_id" Plain (Get "clOrdID");
  Field "party_details_list_req_id" Plain (Get "partyDetailsListReqID");
  Field "ord_status" Plain (Get "ordStatus");
  Field "cxl_rej_response_to" Plain (Get "cxlRejResponseTo");
  Field "order_id" Plain (Get "orderID");
  Field "transact_time" Plain (Get "transactTime");
  Field "sending_time_epoch" Plain (Get "sendingTimeEpoch");
  Field "order_request_id" Plain (Get "orderRequestID");
  Field "location" Plain (Get "location");
  Field "cxl_rej_reason" Plain (Get "cxlRejReason");
  Field "delay_duration" Plain (Get "delayDuration");
  Field "manual_order_indicator" Plain (Get "manualOrderIndicator");
  Field "poss_retrans_flag" Plain (Get "possRetransFlag");
  Field "split_msg" Plain (Get "splitMsg");
  Field "liquidity_flag" Plain (Get "liquidityFlag");
  Field "delay_to_time" Plain (Get "delayToTime")].

(** *** Order mass action (order_mass_action.hpp) *)

Definition fmt_OrderMassActionReport562 : message_formatter := braces "OrderMassActionReport562" [
  Field "seq_num" Plain (Get "seqNum");
  Field "uuid" Plain (Get "uUID");
  Field "sender_id" Quoted (Get "senderID");
  Field "party_details_list_req_id" Plain (Get "partyDetailsListReqID");
  Field "transact_time" Plain (Get "transactTime");
  Field "sending_time_epoch" Plain (Get "sendingTimeEpoch");
  Field "order_request_id" Plain (Get "orderRequestID");
  Field "mass_action_report_id" Plain (Get "massActionReportID");
  Field "mass_action_type" Plain (Get "massActionType");
  Field "security_group" Quoted (Get "securityGroup");
  Field "location" Quoted (Get "location");
  Field "security_id" Plain (Get "securityID");
  Field "delay_duration" Plain (Get "delayDuration");
  Field "mass_action_response" Plain (Get "massActionResponse");
  Field "manual_order_indicator" Plain (Get "manualOrderIndicator");
  Field "mass_action_scope" Plain (Get "massActionScope");
  Field "total_affected_orders" Plain (Get "totalAffectedOrders");
  Field "last_fragment" Plain (Get "lastFragment");
  Field "mass_action_reject_reason" Plain (Get "massActionRejectReason");
  Field "market_segment_id" Plain (Get "marketSegmentID");
  Field "mass_cancel_request_type" Plain (Get "massCancelRequestType");
  Field "side" Plain (Get "side");
  Field "ord_type" Plain (Get "ordType");
  Field "time_in_force" Plain (Get "timeInForce");
  Field "split_msg" Plain (Get "splitMsg");
  Field "liquidity_flag" Plain (Get "liquidityFlag");
  Field "poss_retrans_flag" Plain (Get "possRetransFlag");
  Field "delay_to_time" Plain (Get "delayToTime");
  Field "orig_order_user" Quoted (Get "origOrderUser");
  Field "cancel_text" Quoted (Get "cancelText");
  Note ""].

(** *** Security definition (security_definition.hpp) *)

Definition fmt_SecurityDefinitionResponse561 : message_formatter := braces "SecurityDefinitionResponse561" [
  Field "seq_num" Plain (Get "seqNum");
  Field "uuid" Plain (Get "uUID");
  Field "text" Quoted (Get "text");
  Field "financial_instrument_full_name" Plain (Get "financialInstrumentFullName");
  Field "sender_id" Plain (Get "senderID");
  Field "symbol" Plain (Get "symbol");
  Field "party_details_list_req_id" Plain (Get "partyDetailsListReqID");
  Field "security_req_id" Plain (Get "securityReqID");
  Field "security_response_id" Plain (Get "securityResponseID");
  Field "sending_time_epoch" Plain (Get "sendingTimeEpoch");
  Field "security_group" Plain (Get "securityGroup");
  Field "security_type" Plain (Get "securityType");
  Field "location" Plain (Get "location");
  Field "security_id" Plain (Get "securityID");
  Field "currency" Plain (Get "currency");
  Field "security_id_source" Plain (Get "securityIDSource");
  Field "maturity_month_year" Plain (Get "maturityMonthYear");
  Field "delay_duration" Plain (Get "delayDuration");
  Field "start_date" Plain (Get "startDate");
  Field "end_date" Plain (Get "endDate");
  Field "max_no_of_substitutions" Plain (Get "maxNoOfSubstitutions");
  Field "source_repo_id" Plain (Get "sourceRepoID");
  Field "termination_type" Plain (Get "terminationType");
  Field "security_response_type" Plain (Get "securityResponseType");
  Field "user_defined_instrument" Plain (Get "userDefinedInstrument");
  Field "expiration_cycle" Plain (Get "expirationCycle");
  Field "manual_order_indicator" Plain (Get "manualOrderIndicator");
  Field "split_msg" Plain (Get "splitMsg");
  Field "auto_quote_request" Plain (Get "autoQuoteRequest");
  Field "poss_retrans_flag" Plain (Get "possRetransFlag");
  Field "no_legs" Listed (Literal "...")].

(** *** Execution report (execution_report.hpp) *)

Definition fmt_ExecutionReportNew522 : message_formatter := braces "ExecutionReportNew522" [
  Field "seq_num" Plain (Get "seqNum");
  Field "uuid" Plain (Get "uUID");
  Field "exec_id" Quoted (Get "execID");
  Field "sender_id" Quoted (Get "senderID");
  Field "cl_ord_id" Quoted (Get "clOrdID");
  Field "party_details_list_req_id" Plain (Get "partyDetailsListReqID");
  Field "order_id" Plain (Get "orderID");
  Field "price" Plain (Get "price");
  Field "stop_px" Plain (Get "stopPx");
  Field "transact_time" Plain (Get "transactTime");
  Field "sending_time_epoch" Plain (Get "sendingTimeEpoch");
  Field "order_request_id" Plain (Get "orderRequestID");
  Field "cross_id" Plain (Get "crossID");
  Field "host_cross_id" Plain (Get "hostCrossID");
  Field "location" Quoted (Get "location");
  Field "security_id" Plain (Get "securityID");
  Field "order_qty" Plain (Get "orderQty");
  Field "min_qty" Plain (Get "minQty");
  Field "display_qty" Plain (Get "displayQty");
  Field "expire_date" Plain (Get "expireDate");
  Field "delay_duration" Plain (Get "delayDuration");
  Field "ord_status" Plain (Get "ordStatus");
  Field "exec_type" Plain (Get "execType");
  Field "ord_type" Plain (Get "ordType");
  Field "side" Plain (Get "side");
  Field "time_in_force" Plain (Get "timeInForce");
  Field "manual_order_indicator" Plain (Get "manualOrderIndicator");
  Field "poss_retrans_flag" Plain (Get "possRetransFlag");
  Field "split_msg" Plain (Get "splitMsg");
  Field "cross_type" Plain (Get "crossType");
  Field "exec_inst" Plain (Get "execInst");
  Field "execution_mode" Plain (Get "executionMode");
  Field "liquidity_flag" Plain (Get "liquidityFlag");
  Field "managed_order" Plain (Get "managedOrder");
  Field "short_sale_type" Plain (Get "shortSaleType");
  Field "delay_to_time" Plain (Get "delayToTime");
  Field "discretion_price" Plain (Get "discretionPrice")].

Definition fmt_ExecutionReportReject523 : message_formatter := braces "ExecutionReportReject523" [
  Field "seq_num" Plain (Get "seqNum");
  Field "uuid" Plain (Get "uUID");
  Field "text" Quoted (Get "text");
  Field "exec_id" Quoted (Get "execID");
  Field "sender_id" Quoted (Get "senderID");
  Field "cl_ord_id" Quoted (Get "clOrdID");
  Field "party_details_list_req_id" Plain (Get "partyDetailsListReqID");
  Field "order_id" Plain (Get "orderID");
  Field "price" Plain (Get "price");
  Field "stop_px" Plain (Get "stopPx");
  Field "transact_time" Plain (Get "transactTime");
  Field "sending_time_epoch" Plain (Get "sendingTimeEpoch");
  Field "order_request_id" Plain (Get "orderRequestID");
  Field "cross_id" Plain (Get "crossID");
  Field "host_cross_id" Plain (Get "hostCrossID");
  Field "location" Quoted (Get "location");
  Field "security_id" Plain (Get "securityID");
  Field "order_qty" Plain (Get "orderQty");
  Field "min_qty" Plain (Get "minQty");
  Field "display_qty" Plain (Get "displayQty");
  Field "ord_rej_reason" Plain (Get "ordRejReason");
  Field "expire_date" Plain (Get "expireDate");
  Field "delay_duration" Plain (Get "delayDuration");
  Field "ord_status" Plain (Get "ordStatus");
  Field "exec_type" Plain (Get "execType");
  Field "ord_type" Plain (Get "ordType");
  Field "side" Plain (Get "side");
  Field "time_in_force" Plain (Get "timeInForce");
  Field "manual_order_indicator" Plain (Get "manualOrderIndicator");
  Field "poss_retrans_flag" Plain (Get "possRetransFlag");
  Field "split_msg" Plain (Get "splitMsg");
  Field "cross_type" Plain (Get "crossType");
  Field "exec_inst" Plain (Get "execInst");
  Field "execution_mode" Plain (Get "executionMode");
  Field "liquidity_flag" Plain (Get "liquidityFlag");
  Field "managed_order" Plain (Get "managedOrder");
  Field "short_sale_type" Plain (Get "shortSaleType");
  Field "delay_to_time" Plain (Get "delayToTime");
  Field "discretion_price" Plain (Get "discretionPrice")].

Definition fmt_ExecutionReportModify531 : message_formatter := braces "ExecutionReportModify531" [
  Field "seq_num" Plain (Get "seqNum");
  Field "uuid" Plain (Get "uUID");
  Field "exec_id" Quoted (Get "execID");
  Field "sender_id" Quoted (Get "senderID");
  Field "cl_ord_id" Quoted (Get "clOrdID");
  Field "party_details_list_req_id" Plain (Get "partyDetailsListReqID");
  Field "order_id" Plain (Get "orderID");
  Field "price" Plain (Get "price");
  Field "stop_px" Plain (Get "stopPx");
  Field "transact_time" Plain (Get "transactTime");
  Field "sending_time_epoch" Plain (Get "sendingTimeEpoch");
  Field "order_request_id" Plain (Get "orderRequestID");
  Field "cross_id" Plain (Get "crossID");
  Field "host_cross_id" Plain (Get "hostCrossID");
  Field "location" Quoted (Get "location");
  Field "security_id" Plain (Get "securityID");
  Field "order_qty" Plain (Get "orderQty");
  Field "cum_qty" Plain (Get "cumQty");
  Field "leaves_qty" Plain (Get "leavesQty");
  Field "min_qty" Plain (Get "minQty");
  Field "display_qty" Plain (Get "displayQty");
  Field "expire_date" Plain (Get "expireDate");
  Field "delay_duration" Plain (Get "delayDuration");
  Field "ord_status" Plain (Get "ordStatus");
  Field "exec_type" Plain (Get "execType");
  Field "ord_type" Plain (Get "ordType");
  Field "side" Plain (Get "side");
  Field "time_in_force" Plain (Get "timeInForce");
  Field "manual_order_indicator" Plain (Get "manualOrderIndicator");
  Field "poss_retrans_flag" Plain (Get "possRetransFlag");
  Field "split_msg" Plain (Get "splitMsg");
  Field "cross_type" Plain (Get "crossType");
  Field "exec_inst" Plain (Get "execInst");
  Field "execution_mode" Plain (Get "executionMode");
  Field "liquidity_flag" Plain (Get "liquidityFlag");
  Field "managed_order" Plain (Get "managedOrder");
  Field "short_sale_type" Plain (Get "shortSaleType");
  Field "delay_to_time" Plain (Get "delayToTime");
  Field "discretion_price" Plain (Get "discretionPrice")].

Definition fmt_ExecutionReportStatus532 : message_formatter := braces "ExecutionReportStatus532" [
  Field "seq_num" Plain (Get "seqNum");
  Field "uuid" Plain (Get "uUID");
  Field "text" Quoted (Get "text");
  Field "exec_id" Quoted (Get "execID");
  Field "sender_id" Quoted (Get "senderID");
  Field "cl_ord_id" Quoted (Get "clOrdID");
  Field "party_details_list_req_id" Plain (Get "partyDetailsListReqID");
  Field "order_id" Plain (Get "orderID");
  Field "price" Plain (Get "price");
  Field "stop_px" Plain (Get "stopPx");
  Field "transact_time" Plain (Get "transactTime");
  Field "sending_time_epoch" Plain (Get "sendingTimeEpoch");
  Field "order_request_id" Plain (Get "orderRequestID");
  Field "ord_status_req_id" Plain (Get "ordStatusReqID");
  Field "mass_status_req_id" Plain (Get "massStatusReqID");
  Field "cross_id" Plain (Get "crossID");
  Field "host_cross_id" Plain (Get "hostCrossID");
  Field "location" Quoted (Get "location");
  Field "security_id" Plain (Get "securityID");
  Field "order_qty" Plain (Get "orderQty");
  Field "min_qty" Plain (Get "minQty");
  Field "display_qty" Plain (Get "displayQty");
  Field "expire_date" Plain (Get "expireDate");
  Field "ord_status" Plain (Get "ordStatus");
  Field "exec_type" Plain (Get "execType");
  Field "ord_type" Plain (Get "ordType");
  Field "side" Plain (Get "side");
  Field "time_in_force" Plain (Get "timeInForce");
  Field "manual_order_indicator" Plain (Get "manualOrderIndicator");
  Field "poss_retrans_flag" Plain (Get "possRetransFlag");
  Field "last_rpt_requested" Plain (Get "lastRptRequested");
  Field "cross_type" Plain (Get "crossType");
  Field "exec_inst" Plain (Get "execInst");
  Field "execution_mode" Plain (Get "executionMode");
  Field "liquidity_flag" Plain (Get "liquidityFlag");
  Field "managed_order" Plain (Get "managedOrder");
  Field "short_sale_type" Plain (Get "shortSaleType");
  Field "discretion_price" Plain (Get "discretionPrice")].

Definition fmt_ExecutionReportCancel534 : message_formatter := braces "ExecutionReportCancel534" [
  Field "seq_num" Plain (Get "seqNum");
  Field "uuid" Plain (Get "uUID");
  Field "exec_id" Quoted (Get "execID");
  Field "sender_id" Quoted (Get "senderID");
  Field "cl_ord_id" Quoted (Get "clOrdID");
  Field "party_details_list_req_id" Plain (Get "partyDetailsListReqID");
  Field "order_id" Plain (Get "orderID");
  Field "price" Plain (Get "price");
  Field "stop_px" Plain (Get "stopPx");
  Field "transact_time" Plain (Get "transactTime");
  Field "sending_time_epoch" Plain (Get "sendingTimeEpoch");
  Field "order_request_id" Plain (Get "orderRequestID");
  Field "cross_id" Plain (Get "crossID");
  Field "host_cross_id" Plain (Get "hostCrossID");
  Field "location" Quoted (Get "location");
  Field "security_id" Plain (Get "securityID");
  Field "order_qty" Plain (Get "orderQty");
  Field "cum_qty" Plain (Get "cumQty");
  Field "min_qty" Plain (Get "minQty");
  Field "display_qty" Plain (Get "displayQty");
  Field "expire_date" Plain (Get "expireDate");
  Field "delay_duration" Plain (Get "delayDuration");
  Field "ord_status" Plain (Get "ordStatus");
  Field "exec_type" Plain (Get "execType");
  Field "ord_type" Plain (Get "ordType");
  Field "side" Plain (Get "side");
  Field "time_in_force" Plain (Get "timeInForce");
  Field "manual_order_indicator" Plain (Get "manualOrderIndicator");
  Field "poss_retrans_flag" Plain (Get "possRetransFlag");
  Field "split_msg" Plain (Get "splitMsg");
  Field "exec_restatement_reason" Plain (Get "execRestatementReason");
  Field "cross_type" Plain (Get "crossType");
  Field "exec_inst" Plain (Get "execInst");
  Field "execution_mode" Plain (Get "executionMode");
  Field "liquidity_flag" Plain (Get "liquidityFlag");
  Field "managed_order" Plain (Get "managedOrder");
  Field "short_sale_type" Plain (Get "shortSaleType");
  Field "delay_to_time" Plain (Get "delayToTime");
  Field "discretion_price" Plain (Get "discretionPrice")].

Definition fmt_ExecutionReportPendingCancel564 : message_formatter := braces "ExecutionReportPendingCancel564" [
  Field "seq_num" Plain (Get "seqNum");
  Field "uuid" Plain (Get "uUID");
  Field "exec_id" Quoted (Get "execID");
  Field "sender_id" Quoted (Get "senderID");
  Field "cl_ord_id" Quoted (Get "clOrdID");
  Field "party_details_list_req_id" Plain (Get "partyDetailsListReqID");
  Field "order_id" Plain (Get "orderID");
  Field "price" Plain (Get "price");
  Field "transact_time" Plain (Get "transactTime");
  Field "sending_time_epoch" Plain (Get "sendingTimeEpoch");
  Field "order_request_id" Plain (Get "orderRequestID");
  Field "location" Quoted (Get "location");
  Field "security_id" Plain (Get "securityID");
  Field "order_qty" Plain (Get "orderQty");
  Field "cum_qty" Plain (Get "cumQty");
  Field "leaves_qty" Plain (Get "leavesQty");
  Field "min_qty" Plain (Get "minQty");
  Field "display_qty" Plain (Get "displayQty");
  Field "expire_date" Plain (Get "expireDate");
  Field "ord_status" Plain (Get "ordStatus");
  Field "exec_type" Plain (Get "execType");
  Field "ord_type" Plain (Get "ordType");
  Field "side" Plain (Get "side");
  Field "time_in_force" Plain (Get "timeInForce");
  Field "manual_order_indicator" Plain (Get "manualOrderIndicator");
  Field "poss_retrans_flag" Plain (Get "possRetransFlag");
  Field "split_msg" Plain (Get "splitMsg");
  Field "liquidity_flag" Plain (Get "liquidityFlag");
  Field "delay_to_time" Plain (Get "delayToTime");
  Field "discretion_price" Plain (Get "discretionPrice")].

Definition fmt_ExecutionReportPendingReplace565 : message_formatter := braces "ExecutionReportPendingReplace565" [
  Field "seq_num" Plain (Get "seqNum");
  Field "uuid" Plain (Get "uUID");
  Field "exec_id" Quoted (Get "execID");
  Field "sender_id" Quoted (Get "senderID");
  Field "cl_ord_id" Quoted (Get "clOrdID");
  Field "party_details_list_req_id" Plain (Get "partyDetailsListReqID");
  Field "order_id" Plain (Get "orderID");
  Field "price" Plain (Get "price");
  Field "transact_time" Plain (Get "transactTime");
  Field "sending_time_epoch" Plain (Get "sendingTimeEpoch");
  Field "order_request_id" Plain (Get "orderRequestID");
  Field "location" Quoted (Get "location");
  Field "security_id" Plain (Get "securityID");
  Field "order_qty" Plain (Get "orderQty");
  Field "cum_qty" Plain (Get "cumQty");
  Field "leaves_qty" Plain (Get "leavesQty");
  Field "min_qty" Plain (Get "minQty");
  Field "display_qty" Plain (Get "displayQty");
  Field "expire_date" Plain (Get "expireDate");
  Field "ord_status" Plain (Get "ordStatus");
  Field "exec_type" Plain (Get "execType");
  Field "ord_type" Plain (Get "ordType");
  Field "side" Plain (Get "side");
  Field "time_in_force" Plain (Get "timeInForce");
  Field "manual_order_indicator" Plain (Get "manualOrderIndicator");
  Field "poss_retrans_flag" Plain (Get "possRetransFlag");
  Field "split_msg" Plain (Get "splitMsg");
  Field "liquidity_flag" Plain (Get "liquidityFlag");
  Field "short_sale_type" Plain (Get "shortSaleType");
  Field "delay_to_time" Plain (Get "delayToTime");
  Field "discretion_price" Plain (Get "discretionPrice")].

Definition fmt_ExecutionReportTradeOutright525 : message_formatter := braces "ExecutionReportTradeOutright525" [
  Field "seq_num" Plain (Get "seqNum");
  Field "uuid" Plain (Get "uUID");
  Field "exec_id" Quoted (Get "execID");
  Field "sender_id" Quoted (Get "senderID");
  Field "cl_ord_id" Quoted (Get "clOrdID");
  Field "party_details_list_req_id" Plain (Get "partyDetailsListReqID");
  Field "last_px" Plain (Get "lastPx");
  Field "order_id" Plain (Get "orderID");
  Field "price" Plain (Get "price");
  Field "stop_px" Plain (Get "stopPx");
  Field "transact_time" Plain (Get "transactTime");
  Field "sending_time_epoch" Plain (Get "sendingTimeEpoch");
  Field "order_request_id" Plain (Get "orderRequestID");
  Field "sec_exec_id" Plain (Get "secExecID");
  Field "cross_id" Plain (Get "crossID");
  Field "host_cross_id" Plain (Get "hostCrossID");
  Field "location" Quoted (Get "location");
  Field "security_id" Plain (Get "securityID");
  Field "order_qty" Plain (Get "orderQty");
  Field "last_qty" Plain (Get "lastQty");
  Field "cum_qty" Plain (Get "cumQty");
  Field "md_trade_entry_id" Plain (Get "mDTradeEntryID");
  Field "side_trade_id" Plain (Get "sideTradeID");
  Field "trade_link_id" Plain (Get "tradeLinkID");
  Field "leaves_qty" Plain (Get "leavesQty");
  Field "trade_date" Plain (Get "tradeDate");
  Field "expire_date" Plain (Get "expireDate");
  Field "ord_status" Plain (Get "ordStatus");
  Field "exec_type" Plain (Get "execType");
  Field "ord_type" Plain (Get "ordType");
  Field "side" Plain (Get "side");
  Field "time_in_force" Plain (Get "timeInForce");
  Field "manual_order_indicator" Plain (Get "manualOrderIndicator");
  Field "poss_retrans_flag" Plain (Get "possRetransFlag");
  Field "aggressor_indicator" Plain (Get "aggressorIndicator");
  Field "cross_type" Plain (Get "crossType");
  Field "exec_inst" Plain (Get "execInst");
  Field "execution_mode" Plain (Get "executionMode");
  Field "liquidity_flag" Plain (Get "liquidityFlag");
  Field "managed_order" Plain (Get "managedOrder");
  Field "short_sale_type" Plain (Get "shortSaleType");
  Field "ownership" Plain (Get "ownership");
  Field "discretion_price" Plain (Get "discretionPrice");
  Field "trd_type" Plain (Get "trdType");
  Field "exec_restatement_reason" Plain (Get "execRestatementReason");
  Field "settl_date" Plain (Get "settlDate");
  Field "maturity_date" Plain (Get "maturityDate");
  Field "calculated_ccy_last_qty" Plain (Get "calculatedCcyLastQty");
  Field "gross_trade_amt" Plain (Get "grossTradeAmt");
  Field "benchmark_price" Plain (Get "benchmarkPrice");
  Field "no_fills" Listed (Literal "...");
  Field "no_order_events" Listed (Literal "...")].

Definition fmt_ExecutionReportTradeSpread526 : message_formatter := braces "ExecutionReportTradeSpread526" [
  Field "seq_num" Plain (Get "seqNum");
  Field "uuid" Plain (Get "uUID");
  Field "exec_id" Quoted (Get "execID");
  Field "sender_id" Quoted (Get "senderID");
  Field "cl_ord_id" Quoted (Get "clOrdID");
  Field "party_details_list_req_id" Plain (Get "partyDetailsListReqID");
  Field "last_px" Plain (Get "lastPx");
  Field "order_id" Plain (Get "orderID");
  Field "price" Plain (Get "price");
  Field "stop_px" Plain (Get "stopPx");
  Field "transact_time" Plain (Get "transactTime");
  Field "sending_time_epoch" Plain (Get "sendingTimeEpoch");
  Field "order_request_id" Plain (Get "orderRequestID");
  Field "sec_exec_id" Plain (Get "secExecID");
  Field "cross_id" Plain (Get "crossID");
  Field "host_cross_id" Plain (Get "hostCrossID");
  Field "location" Quoted (Get "location");
  Field "security_id" Plain (Get "securityID");
  Field "order_qty" Plain (Get "orderQty");
  Field "last_qty" Plain (Get "lastQty");
  Field "cum_qty" Plain (Get "cumQty");
  Field "md_trade_entry_id" Plain (Get "mDTradeEntryID");
  Field "side_trade_id" Plain (Get "sideTradeID");
  Field "leaves_qty" Plain (Get "leavesQty");
  Field "trade_date" Plain (Get "tradeDate");
  Field "expire_date" Plain (Get "expireDate");
  Field "ord_status" Plain (Get "ordStatus");
  Field "exec_type" Plain (Get "execType");
  Field "ord_type" Plain (Get "ordType");
  Field "side" Plain (Get "side");
  Field "time_in_force" Plain (Get "timeInForce");
  Field "manual_order_indicator" Plain (Get "manualOrderIndicator");
  Field "poss_retrans_flag" Plain (Get "possRetransFlag");
  Field "aggressor_indicator" Plain (Get "aggressorIndicator");
  Field "cross_type" Plain (Get "crossType");
  Field "total_num_securities" Plain (Get "totalNumSecurities");
  Field "exec_inst" Plain (Get "execInst");
  Field "execution_mode" Plain (Get "executionMode");
  Field "liquidity_flag" Plain (Get "liquidityFlag");
  Field "short_sale_type" Plain (Get "shortSaleType");
  Field "no_fills" Listed (Literal "...");
  Field "no_legs" Listed (Literal "...");
  Field "no_order_events" Listed (Literal "...")].

Definition fmt_ExecutionReportTradeSpreadLeg527 : message_formatter := braces "ExecutionReportTradeSpreadLeg527" [
  Field "seq_num" Plain (Get "seqNum");
  Field "uuid" Plain (Get "uUID");
  Field "exec_id" Quoted (Get "execID");
  Field "sender_id" Quoted (Get "senderID");
  Field "cl_ord_id" Quoted (Get "clOrdID");
  Field "volatility" Quoted (Get "volatility");
  Field "party_details_list_req_id" Plain (Get "partyDetailsListReqID");
  Field "last_px" Plain (Get "lastPx");
  Field "order_id" Plain (Get "orderID");
  Field "underlying_px" Plain (Get "underlyingPx");
  Field "transact_time" Plain (Get "transactTime");
  Field "sending_time_epoch" Plain (Get "sendingTimeEpoch");
  Field "sec_exec_id" Plain (Get "secExecID");
  Field "location" Quoted (Get "location");
  Field "option_delta" Quoted (Get "optionDelta");
  Field "time_to_expiration" Quoted (Get "timeToExpiration");
  Field "risk_free_rate" Quoted (Get "riskFreeRate");
  Field "security_id" Plain (Get "securityID");
  Field "last_qty" Plain (Get "lastQty");
  Field "cum_qty" Plain (Get "cumQty");
  Field "side_trade_id" Plain (Get "sideTradeID");
  Field "trade_date" Plain (Get "tradeDate");
  Field "ord_status" Plain (Get "ordStatus");
  Field "exec_type" Plain (Get "execType");
  Field "ord_type" Plain (Get "ordType");
  Field "side" Plain (Get "side");
  Field "poss_retrans_flag" Plain (Get "possRetransFlag");
  Field "settl_date" Plain (Get "settlDate");
  Field "calculated_ccy_last_qty" Plain (Get "calculatedCcyLastQty");
  Field "gross_trade_amt" Plain (Get "grossTradeAmt");
  Field "no_fills" Listed (Literal "...");
  Field "no_order_events" Listed (Literal "...")].

(** All of them. *)
Definition ilink_entry_formatters : list entry_formatter := [
  fmt_MassQuote_QuoteEntry; fmt_QuoteCancel_QuoteEntry; fmt_QuoteCancel_QuoteSet;
  fmt_PartyDetailsDefinitionRequestAck519_NoPartyDetails;
  fmt_PartyDetailsDefinitionRequestAck519_NoTrdRegPublications].

Definition ilink_message_formatters : list message_formatter := [
  fmt_Negotiate; fmt_Establish; fmt_Sequence; fmt_Terminate; fmt_NewOrderSingle;
  fmt_OrderCancelReplaceRequest; fmt_OrderCancelRequest; fmt_OrderMassActionRequest;
  fmt_OrderMassStatusRequest; fmt_PartyDetailsListRequest; fmt_PartyDetailsDefinitionRequest;
  fmt_SecurityDefinitionRequest; fmt_MassQuote; fmt_QuoteCancel; fmt_NegotiationResponse501;
  fmt_NegotiationReject502; fmt_EstablishmentAck504; fmt_EstablishmentReject505; fmt_Sequence506;
  fmt_Terminate507; fmt_Retransmission509; fmt_RetransmitReject510; fmt_NotApplied513;
  fmt_PartyDetailsDefinitionRequestAck519; fmt_BusinessReject521; fmt_OrderCancelReject535;
  fmt_OrderCancelReplaceReject536; fmt_OrderMassActionReport562; fmt_SecurityDefinitionResponse561;
  fmt_ExecutionReportNew522; fmt_ExecutionReportReject523; fmt_ExecutionReportModify531;
  fmt_ExecutionReportStatus532; fmt_ExecutionReportCancel534; fmt_ExecutionReportPendingCancel564;
  fmt_ExecutionReportPendingReplace565; fmt_ExecutionReportTradeOutright525;
  fmt_ExecutionReportTradeSpread526; fmt_ExecutionReportTradeSpreadLeg527].

(** ** Properties of all the formatters *)

Definition message_formatters : list message_formatter := mdp_message_formatters ++ ilink_message_formatters.
Definition entry_formatters : list entry_formatter := mdp_entry_formatters ++ ilink_entry_formatters.

(** The labels that are not the name of their accessor. *)
Definition aliases : list (string * string) := [
  ("version", "actingVersion"); ("order_type", "quoteType"); ("number_of_orderes", "numberOfOrders");
  ("settle_price_type", "settlPriceType"); ("time_epoch", "sending_time_epoch");
  ("party_details_request_status", "partyDetailRequestStatus");
  ("keep_alive_interval_elapsed", "keepAliveIntervalLapsed");
  ("underyling_security_id", "underlying_security_id")].

Lemma message_formatters_ok :
  forallb (λ f, message_ok f && bool_decide (NoDup (labels (items f)))) message_formatters = true.
Proof. vm_compute. reflexivity. Qed.

Lemma message_formatter_ok f :
  f ∈ message_formatters → message_ok f = true ∧ NoDup (labels (items f)).
Proof.
  intros Hf. pose proof message_formatters_ok as Hall. rewrite forallb_forall in Hall.
  specialize (Hall f (proj1 (list_elem_of_In _ _) Hf)). by rewrite andb_true_iff, bool_decide_eq_true in Hall.
Qed.

(** All but one end with the brace. *)
Lemma message_formatters_trailer f :
  f ∈ message_formatters → class_name f ≠ "SecurityStatus30" → trailer f = "}".
Proof.
  intros Hf Hn. assert (forallb (λ f, bool_decide (class_name f = "SecurityStatus30") || bool_decide (trailer f = "}"))
    message_formatters = true) as Hall by (vm_compute; reflexivity).
  rewrite forallb_forall in Hall. specialize (Hall f (proj1 (list_elem_of_In _ _) Hf)).
  apply orb_true_iff in Hall. rewrite !bool_decide_eq_true in Hall. naive_solver.
Qed.

(** *** What a text says *)

Section says.
Context `{FmtDoublePlain}.

(** The value of a decimal: the mantissa times its power of ten, if it has one. *)
Definition decimal_value (d : any_decimal) : double :=
  match d with
  | Dec9 d => dmul (double_of_Z (mantissa d)) (pow10 (exponent d))
  | Dec9NULL d =>
    if raw (dn_mantissa d) =? null_value (dn_mantissa d) then NaN
    else dmul (double_of_Z (raw (dn_mantissa d))) (pow10 (dn_exponent d))
  end.

(** What the value of an accessor is written as. *)
Definition scalar_text (v : fmt_fields) (a : argument) : string :=
  match a with
  | Get x =>
    match printed v x with
    | Library text => text
    | Decimal d => fmt_double (decimal_value d)
    | Choice bits => fmt_Z bits
    | MaturityMonthYear year month day week =>
      "{year=" +:+ year +:+ ", month=" +:+ month +:+ ", day=" +:+ day +:+ ", week=" +:+ week +:+ "})"
    end
  | GetInt x => fmt_Z (if raw (field_int v x) =? null_value (field_int v x) then 0 else raw (field_int v x))
  | GetDouble x => fmt_double (decimal_value (field_decimal v x))
  | GetString x => get_string_view (field_chars v x)
  | GetHex x => field_hex v x
  | Literal text => text
  end.

Definition message_text (v : fmt_object) (a : message_argument) : string :=
  match a with
  | Scalar a => scalar_text (fmt_body v) a
  | Group x entry => join (map (print_entry entry) (fmt_group v x))
  end.

(** A text says the values of [l]: a reader that knows neither the class nor the
    labels gets the labels in order, each is the name of the accessor that
    fills it, and under it stands what the accessor's value is written as. *)
Definition says {A} (accessor : A → option string) (value_text : A → string) (l : list (item A)) (text : string) : Prop :=
  ∃ fields, read_fields text = Some fields
    ∧ fields.*1 = labels l
    ∧ ∀ label s a, Field label s a ∈ l →
        (∀ x, accessor a = Some x → squash label = squash x ∨ (label, x) ∈ aliases)
        ∧ (list_to_map fields : gmap string string) !! label = Some (styled s (value_text a)).

Lemma decimal_value_eq d : get_double_any d = decimal_value d.
Proof.
  destruct d as [d|d]; [done|]. simpl. unfold get_double_null, map_decimal_null.
  by destruct (raw (dn_mantissa d) =? null_value (dn_mantissa d)).
Qed.

Lemma print_argument_text v a : print_argument v a = scalar_text v a.
Proof.
  destruct a as [x|x|x|x|x|text]; cbn [print_argument scalar_text]; rewrite <- ?decimal_value_eq; try done.
  destruct (printed v x) as [|d| |]; cbn [print_printable]; by rewrite <- ?decimal_value_eq.
Qed.

Lemma print_message_argument_text v a : print_message_argument v a = message_text v a.
Proof. destruct a; [apply print_argument_text|done]. Qed.

(** A formatter says what it is given, when its arguments print texts that the
    reader takes as one value. *)
Lemma formatter_says {A} accessor (print text : A → string) f :
  formatter_ok f = true → trailer f = "}" → NoDup (labels (items f)) →
  forallb (named accessor aliases) (items f) = true → Forall (argument_ok print) (items f) →
  (∀ a, print a = text a) → says accessor text (items f) (print_formatter print f).
Proof.
  intros Hok Ht Hl Hn Harg Htext. exists (item_fields print (items f)). split; [by apply read_print_formatter|].
  split; [apply item_fields_labels|]. intros label s a Hi. split.
  - intros x Hx. rewrite forallb_forall in Hn. specialize (Hn _ (proj1 (list_elem_of_In _ _) Hi)).
    unfold named in Hn. rewrite Hx in Hn. by rewrite orb_true_iff, !bool_decide_eq_true in Hn.
  - rewrite <- Htext. by apply lookup_item_fields.
Qed.
End says.

(** The entries of the groups. *)
Definition group_ok (f : entry_formatter) : bool :=
  entry_ok f && bool_decide (trailer f = "}") && bool_decide (NoDup (labels (items f)))
  && forallb (named accessor aliases) (items f).

Lemma group_formatters_ok f label s x entry :
  f ∈ message_formatters → Field label s (Group x entry) ∈ items f → group_ok entry = true.
Proof.
  intros Hf Hi. assert (forallb (λ f, forallb (λ i, match i with Field _ _ (Group _ entry) => group_ok entry | _ => true end)
    (items f)) message_formatters = true) as Hall by (vm_compute; reflexivity).
  rewrite forallb_forall in Hall. specialize (Hall f (proj1 (list_elem_of_In _ _) Hf)).
  rewrite forallb_forall in Hall. exact (Hall _ (proj1 (list_elem_of_In _ _) Hi)).
Qed.

Lemma message_formatters_named f :
  f ∈ message_formatters → forallb (named message_accessor aliases) (items f) = true.
Proof.
  intros Hf. assert (forallb (λ f, forallb (named message_accessor aliases) (items f)) message_formatters = true) as Hall
    by (vm_compute; reflexivity).
  rewrite forallb_forall in Hall. exact (Hall f (proj1 (list_elem_of_In _ _) Hf)).
Qed.

(** C39: The text of a message tells its values.  Take a message of either
    protocol (but SecurityStatus30, whose text has a blank before the closing
    brace) in which what the library prints has no quotes, braces,
    brackets or commas.  A reader that knows neither the class nor its labels
    gets back the labels of the class; each label is the name of the accessor that
    fills it, up to case and underscores and eight listed aliases; and under it
    stands the value of that accessor: a decimal as its mantissa times its power
    of ten, an integer that is null as zero, a set as its bits, characters up to
    the NUL.  The same holds for the text of each entry of each group. *)
Theorem formatters_read_back `{FmtDoublePlain} f v :
  f ∈ message_formatters → class_name f ≠ "SecurityStatus30" → plain_object v →
  says message_accessor (message_text v) (items f) (print_message f v)
  ∧ ∀ label s x entry e, Field label s (Group x entry) ∈ items f → e ∈ fmt_group v x →
      says accessor (scalar_text e) (items entry) (print_entry entry e).
Proof.
  intros Hf Hn Hv. split.
  - destruct (message_formatter_ok f Hf) as [Hok Hl].
    apply formatter_says; [|by apply message_formatters_trailer|done|by apply message_formatters_named
      |by apply message_arguments_ok|apply print_message_argument_text]. by apply andb_true_iff in Hok as [? _].
  - intros label s x entry e Hi He. pose proof (group_formatters_ok _ _ _ _ _ Hf Hi) as Hg.
    unfold group_ok, entry_ok in Hg. rewrite !andb_true_iff, !bool_decide_eq_true in Hg.
    destruct Hg as [[[[[Hok _] Hlit] Ht] Hl] Hnm].
    apply formatter_says; [done..| |apply print_argument_text]. apply entry_arguments_ok; [done|].
    destruct Hv as [_ Hgr]. specialize (Hgr x). rewrite Forall_forall in Hgr. by apply Hgr.
Qed.

(** Every value is printed under its own name: for each field of each formatter
    of the two protocols, the label and the accessor that fills it are the same
    word up to case and underscores, except for eight labels. *)
Theorem labels_name_accessors :
  (∀ f label s a x, f ∈ message_formatters → Field label s a ∈ items f → message_accessor a = Some x →
     squash label = squash x ∨ (label, x) ∈ aliases) ∧
  (∀ f label s a x, f ∈ entry_formatters → Field label s a ∈ items f → accessor a = Some x →
     squash label = squash x ∨ (label, x) ∈ aliases).
Proof.
  assert (forallb (λ f, forallb (named message_accessor aliases) (items f)) message_formatters = true) as Hm
    by (vm_compute; reflexivity).
  assert (forallb (λ f, forallb (named accessor aliases) (items f)) entry_formatters = true) as He
    by (vm_compute; reflexivity).
  assert (∀ A (acc : A → option string) fs (f : formatter A) label s a x,
    forallb (λ f, forallb (named acc aliases) (items f)) fs = true →
    f ∈ fs → Field label s a ∈ items f → acc a = Some x → squash label = squash x ∨ (label, x) ∈ aliases) as Hall.
  { intros A acc fs f label s a x Hfs Hf Hi Ha. rewrite forallb_forall in Hfs.
    specialize (Hfs f (proj1 (list_elem_of_In _ _) Hf)). rewrite forallb_forall in Hfs.
    specialize (Hfs _ (proj1 (list_elem_of_In _ _) Hi)). unfold named in Hfs. rewrite Ha in Hfs.
    by rewrite orb_true_iff, !bool_decide_eq_true in Hfs. }
  split; intros f label s a x Hf Hi Ha.
  - exact (Hall _ message_accessor _ f label s a x Hm Hf Hi Ha).
  - exact (Hall _ accessor _ f label s a x He Hf Hi Ha).
Qed.

(** ** Witnesses *)

#[local] Instance example_fmt_double : FmtDouble := λ _, "1.5".
#[local] Instance example_fmt_double_plain : FmtDoublePlain.
Proof. by intros d. Qed.

Definition example_fields : fmt_fields := {|
  printed x := if bool_decide (x = "matchEventIndicator") then Choice 132 else Library "7";
  field_int _ := {| raw := 12; null_value := 0 |};
  field_decimal _ := Dec9 {| mantissa := 15; exponent := -1 |};
  field_chars _ := "ESZ6";
  field_hex _ := "0a0b" |}.

Definition example_object : fmt_object := {|
  fmt_body := example_fields;
  fmt_group x := if bool_decide (x = "noMDEntries") then [example_fields; example_fields] else [] |}.

Lemma example_object_plain : plain_object example_object.
Proof.
  assert (plain_fields example_fields) as Hf.
  { intros x. split; [|by split]. simpl. by case_bool_decide. }
  split; [done|]. intros x. unfold example_object, fmt_group. destruct (bool_decide _); [|by constructor].
  by apply Forall_cons_2; [|apply Forall_cons_2].
Qed.

(** The indicator of a message, and the price of its first entry. *)
Lemma formatters_read_back_witness :
  ∃ fields entry_fields,
    read_fields (print_message fmt_MDIncrementalRefreshOrderBook47 example_object) = Some fields
    ∧ (list_to_map fields : gmap string string) !! "match_event_indicator" = Some "132"
    ∧ read_fields (print_entry fmt_MDIncrementalRefreshOrderBook47_NoMDEntries example_fields) = Some entry_fields
    ∧ (list_to_map entry_fields : gmap string string) !! "security_id" = Some "7".
Proof.
  destruct (formatters_read_back fmt_MDIncrementalRefreshOrderBook47 example_object)
    as [(fields & Hr & _ & Hf) Hg].
  - by apply (list_elem_of_lookup_2 _ 17).
  - done.
  - apply example_object_plain.
  - destruct (Hg "no_md_entries" Listed "noMDEntries" fmt_MDIncrementalRefreshOrderBook47_NoMDEntries example_fields)
      as (entry_fields & Hre & _ & Hfe); [by apply (list_elem_of_lookup_2 _ 3)|by left|].
    exists fields, entry_fields. split; [exact Hr|]. split.
    + exact (proj2 (Hf "match_event_indicator" Plain (Get "matchEventIndicator") ltac:(by apply (list_elem_of_lookup_2 _ 2)))).
    + split; [exact Hre|].
      refine (proj2 (Hfe "security_id" Plain (Get "securityID") _)).
      apply list_elem_of_In. vm_compute. tauto.
Defined.

Lemma labels_name_accessors_witness :
  squash "md_price_level" = squash "mDPriceLevel" ∨ ("md_price_level", "mDPriceLevel") ∈ aliases.
Proof.
  apply (proj2 labels_name_accessors fmt_MDIncrementalRefreshBook46_NoMDEntries _ Plain (Get "mDPriceLevel")); [..|done].
  - by apply (list_elem_of_lookup_2 _ 10).
  - by apply (list_elem_of_lookup_2 _ 5).
Defined.
