(* ===== verification/Dump.v ===== *)
(** The dump tool
    (src/roq/cme/dump/controller.cpp).

    For each packet of a capture the tool prints one line: when the packet was
    taken and where it was sent to, and then each message that the parser hands
    out, with the frame it came in, its name and its text.  The messages are
    objects of the generated classes; the parser is the one of the streams. *)

From S2P Require Import Prelude Double Api MdpMap Messages MdpParser Formatter MdpFormat IlinkFormat.

(** What the pcap reader of the library hands to the bridge, without the
    source, which is not used. *)
Record captured := {
  cp_timestamp : Z;
  cp_destination_address : string;
  cp_destination_port : Z;
  cp_payload : bytes;
}.

(** A message: its class, and the object. *)
Abbreviation message_object := (template * fmt_object)%type.

(** The settings, and the printers of the library. *)
Class DumpEnv := {
  dump_double :: FmtDouble;
  dump_sbe :: MdpSbe message_object;
  print_payload : bool;
  fmt_payload : bytes → string;            (** [utils::debug::hex::Message] *)
  fmt_nanoseconds : Z → string;            (** [std::chrono::nanoseconds] *)
}.

Section dump.
Context `{DumpEnv}.

(** [print(event, frame)].  The classes of the overloads all have a name and a
    formatter, or the code would not compile; for another class nothing is
    printed. *)
Definition print_event (frame : Frame) (value : message_object) (out : string) : string :=
  match get_name value.1, formatter_of value.1 with
  | Some name, Some formatter =>
    out +:+ ", sequence_number=" +:+ fmt_Z (sequence_number frame) +:+ ", sending_time="
      +:+ fmt_nanoseconds (sending_time frame) +:+ ", " +:+ name +:+ "=" +:+ print_message formatter value.2
  | _, _ => out
  end.

(** The bridge as the handler of the parser: the frame is ignored. *)
Definition dump_handler : parser_handler message_object string := {|
  on_frame _ out := Ok out;
  on_message frame value out := Ok (print_event frame value out);
|}.

(** The bridge as the handler of the reader.  What the parser returns is not
    looked at. *)
Definition on_captured (p : captured) (out : string) : res string :=
  let out := if print_payload then out +:+ "payload=" +:+ fmt_payload (cp_payload p) +:+ newline else out in
  let out := out +:+ "message={timestamp=" +:+ fmt_nanoseconds (cp_timestamp p)
    +:+ ", address=" +:+ cp_destination_address p +:+ ", port=" +:+ fmt_Z (cp_destination_port p) in
  '(_, out) ← parser_dispatch dump_handler (cp_payload p) out;
  Ok (out +:+ "}" +:+ newline).

(** [Controller::dispatch]: the reader stops when the bridge returns [true],
    which it never does. *)
Definition dump (packets : list captured) : res string := foldM (λ out p, on_captured p out) "" packets.

(** ** Facts *)

(** A packet: where it was captured, its frame, the messages on the wire and
    what they decode to. *)
Record dumped := {
  dp_timestamp : Z;
  dp_address : string;
  dp_port : Z;
  dp_frame : Frame;
  dp_raw : list raw_message;
  dp_messages : list message_object;
}.

Definition capture_of (d : dumped) : captured := {|
  cp_timestamp := dp_timestamp d; cp_destination_address := dp_address d; cp_destination_port := dp_port d;
  cp_payload := encode_packet (dp_frame d) (dp_raw d) |}.

(** The fields of a line. *)
Definition event_fields (frame : Frame) (value : message_object) : list (string * string) :=
  match get_name value.1, formatter_of value.1 with
  | Some name, Some formatter =>
    [("sequence_number", fmt_Z (sequence_number frame)); ("sending_time", fmt_nanoseconds (sending_time frame));
     (name, print_message formatter value.2)]
  | _, _ => []
  end.

Definition line_fields (d : dumped) : list (string * string) :=
  ("timestamp", fmt_nanoseconds (dp_timestamp d)) :: ("address", dp_address d) :: ("port", fmt_Z (dp_port d)) ::
  concat (map (event_fields (dp_frame d)) (dp_messages d)).

Definition print_field (f : string * string) : string := f.1 +:+ "=" +:+ f.2.

(** The line, as the fields in braces. *)
Definition line_text (d : dumped) : string := "{" +:+ join (map print_field (line_fields d)) +:+ "}".

Definition dumped_text (d : dumped) : string :=
  (if print_payload then "payload=" +:+ fmt_payload (encode_packet (dp_frame d) (dp_raw d)) +:+ newline else "")
  +:+ "message=" +:+ line_text d +:+ newline.

Record dumped_wf (d : dumped) : Prop := {
  dp_frame_wf : frame_wf (dp_frame d);
  dp_raw_wf : Forall raw_wf (dp_raw d);
  dp_decodes : Forall2 decodes_to (dp_raw d) (dp_messages d);
}.

Definition after_fields (fs : list (string * string)) : string :=
  foldr (λ f rest, ", " +:+ print_field f +:+ rest) "" fs.

Lemma join_fields f fs : join (map print_field (f :: fs)) = print_field f +:+ after_fields fs.
Proof.
  unfold after_fields. revert f. induction fs as [|g fs IH]; intros f; [by rewrite string_app_nil_r|].
  change (join (map print_field (f :: g :: fs))) with (print_field f +:+ ", " +:+ join (map print_field (g :: fs))).
  by rewrite IH.
Qed.

Lemma after_fields_app fs gs : after_fields (fs ++ gs) = after_fields fs +:+ after_fields gs.
Proof.
  unfold after_fields. induction fs as [|f fs IH]; [done|]. cbn [app foldr]. by rewrite IH, !str_app_assoc.
Qed.

Lemma print_event_fields frame value out :
  print_event frame value out = out +:+ after_fields (event_fields frame value).
Proof.
  unfold print_event, event_fields. destruct (get_name value.1), (formatter_of value.1); simpl;
    rewrite ?string_app_nil_r; [|done..]. unfold print_field. simpl. by rewrite ?str_app_assoc, ?string_app_nil_r.
Qed.

Lemma print_events frame values out :
  foldM (λ out value, on_message dump_handler frame value out) out values =
  Ok (out +:+ after_fields (concat (map (event_fields frame) values))).
Proof.
  revert out. induction values as [|value values IH]; intros out; [by rewrite string_app_nil_r|].
  cbn [foldM dump_handler on_message mbind res_bind map concat]. rewrite IH, print_event_fields.
  by rewrite after_fields_app, str_app_assoc.
Qed.

Lemma on_captured_text d out : dumped_wf d → on_captured (capture_of d) out = Ok (out +:+ dumped_text d).
Proof.
  intros [Hf Hr Hd]. unfold on_captured. cbn [capture_of cp_payload cp_timestamp cp_destination_address cp_destination_port].
  rewrite (dispatch_encode _ _ _ (dp_messages d)) by done. cbn [dump_handler on_frame mbind res_bind].
  rewrite print_events. cbn [mbind res_bind]. f_equal. unfold dumped_text, line_text, line_fields.
  rewrite join_fields. cbn [after_fields foldr]. fold (after_fields (concat (map (event_fields (dp_frame d)) (dp_messages d)))).
  unfold print_field. cbn [fst snd]. destruct print_payload; rewrite !str_app_assoc; reflexivity.
Qed.

Lemma dump_text ds out :
  Forall dumped_wf ds →
  foldM (λ out p, on_captured p out) out (map capture_of ds) = Ok (out +:+ foldr String.append "" (map dumped_text ds)).
Proof.
  intros Hds. revert out. induction Hds as [|d ds Hd _ IH]; intros out; [by rewrite string_app_nil_r|].
  cbn [map foldM]. rewrite on_captured_text by done. cbn [mbind res_bind]. rewrite IH.
  by rewrite str_app_assoc.
Qed.

(** *** Reading a line *)

(** The fields of a line as a formatter. *)
Definition field_item (f : string * string) : item string := Field f.1 Plain f.2.
Definition line_formatter (fs : list (string * string)) : formatter string := braces "" (map field_item fs).

Lemma print_line_formatter fs :
  print_formatter (λ text, text) (line_formatter fs) = "{" +:+ join (map print_field fs) +:+ "}".
Proof.
  unfold print_formatter. f_equal. cbn [line_formatter braces items separator trailer].
  assert (∀ n, print_items (λ text : string, text) (λ _, ", ") n (map field_item fs) = join (map print_field fs)) as ->; [|done].
  induction fs as [|f fs IH]; intros n; [done|]. destruct fs as [|g fs]; [done|].
  change (print_field f +:+ ", " +:+ print_items (λ text : string, text) (λ _, ", ") (S n) (map field_item (g :: fs))
    = print_field f +:+ ", " +:+ join (map print_field (g :: fs))). by rewrite IH.
Qed.

Lemma item_fields_line fs : item_fields (λ text : string, text) (map field_item fs) = fs.
Proof. induction fs as [|[label text] fs IH]; [done|]. exact (f_equal (cons (label, text)) IH). Qed.

Definition field_ok (f : string * string) : Prop := label_ok f.1 = true ∧ balanced f.2 = true.

Lemma read_line fs :
  Forall field_ok fs → read_fields ("{" +:+ join (map print_field fs) +:+ "}") = Some fs.
Proof.
  intros Hfs. rewrite <- print_line_formatter, read_print_formatter;
    [exact (f_equal Some (item_fields_line fs))| |done|].
  - unfold formatter_ok. rewrite !andb_true_iff, !forallb_forall. split_and!; [|done|done].
    intros i (f & <- & Hf)%in_map_iff. rewrite Forall_forall in Hfs. apply Hfs. by apply list_elem_of_In.
  - apply Forall_map. eapply Forall_impl; [exact Hfs|]. by intros f [_ Hf].
Qed.
End dump.

(** The class whose text has a quote too many. *)
Definition unread : template := T_MDInstrumentDefinitionFX63.

Lemma formatter_of_ok t f : formatter_of t = Some f → message_ok f = true ∧ (t ≠ unread → embeddable f = true).
Proof.
  intros Hf. assert (message_ok f && (bool_decide (t = unread) || embeddable f) = true) as Hall.
  { destruct t; injection Hf as <- || discriminate Hf; vm_compute; reflexivity. }
  apply andb_true_iff in Hall as [? Hall]. split; [done|]. intros Ht. by rewrite bool_decide_eq_false_2 in Hall.
Qed.

Lemma get_name_label t name : get_name t = Some name → label_ok name = true.
Proof. by destruct t; intros [= <-]. Qed.

Section dump_properties.
Context `{DumpEnv} `{!FmtDoublePlain} (fmt_nanoseconds_plain : ∀ t, plain (fmt_nanoseconds t)).

Lemma event_fields_ok frame value :
  value.1 ≠ unread → plain_object value.2 → Forall field_ok (event_fields frame value).
Proof.
  intros Ht Hv. unfold event_fields. destruct (get_name value.1) as [name|] eqn:Hn; [|by constructor].
  destruct (formatter_of value.1) as [f|] eqn:Hf; [|by constructor].
  apply formatter_of_ok in Hf as [Hok He]. apply get_name_label in Hn.
  repeat apply Forall_cons_2; [..|by constructor]; (split; [done|]).
  - apply plain_balanced, fmt_Z_plain.
  - apply plain_balanced, fmt_nanoseconds_plain.
  - apply print_message_balanced; auto.
Qed.

Lemma line_fields_ok d :
  plain (dp_address d) → Forall (λ value, value.1 ≠ unread ∧ plain_object value.2) (dp_messages d) →
  Forall field_ok (line_fields d).
Proof.
  intros Ha Hv. repeat apply Forall_cons_2.
  - split; [done|]. apply plain_balanced, fmt_nanoseconds_plain.
  - split; [done|]. by apply plain_balanced.
  - split; [done|]. apply plain_balanced, fmt_Z_plain.
  - induction Hv as [|value values [Ht Hv] _ IH]; [by constructor|]. cbn [map concat].
    apply Forall_app_2; [by apply event_fields_ok|done].
Qed.

(** C40: The dump tells everything, once and in order: for packets whose messages
    the parser knows, and whose address and library texts have no quotes, braces,
    brackets or commas, the tool prints one line for each, and a reader of lines
    gets back the time and the address of the packet and then, for every message
    of the packet in the order of the wire, the sequence number and sending time
    of the frame and the text of the message under its name.  The exception is
    MDInstrumentDefinitionFX63, whose text has an unmatched quote. *)
Theorem dump_lines_read_back ds :
  Forall dumped_wf ds →
  Forall (λ d, plain (dp_address d) ∧ Forall (λ value, value.1 ≠ unread ∧ plain_object value.2) (dp_messages d)) ds →
  dump (map capture_of ds) = Ok (foldr String.append "" (map dumped_text ds))
  ∧ Forall (λ d, read_fields (line_text d) = Some (line_fields d)) ds.
Proof.
  intros Hwf Hds. split; [exact (dump_text ds "" Hwf)|]. eapply Forall_impl; [exact Hds|].
  intros d [Ha Hv]. by apply read_line, line_fields_ok.
Qed.

(** *** The stray quote *)

(** After the text of MDInstrumentDefinitionFX63 the reader is inside a quote. *)
Lemma scan_unread v :
  plain_object v → scan 0 false (print_message fmt_MDInstrumentDefinitionFX63 v) = Some (1%nat, true).
Proof.
  intros Hv. set (f := fmt_MDInstrumentDefinitionFX63). set (front := removelast (items f)).
  assert (items f = front ++ [Note (quote +:+ "...")]) as Hitems by (vm_compute; reflexivity).
  assert (message_ok f = true) as Hok by (vm_compute; reflexivity).
  pose proof (message_arguments_ok f v Hok Hv) as Harg. rewrite Hitems in Harg.
  apply Forall_app in Harg as [Harg _].
  change (scan 1 false (print_items (print_message_argument v) (separator f) 0 (items f) +:+ trailer f) = Some (1%nat, true)).
  rewrite Hitems, print_items_snoc, !str_app_assoc, scan_app, scan_print_items; [done| |exact Harg| |].
  - vm_compute. reflexivity.
  - by left.
  - vm_compute. discriminate.
Qed.

(** A line that ends with an MDInstrumentDefinitionFX63 can not be read: the
    quote is still open at the closing brace. *)
Theorem dump_line_unread d value :
  plain (dp_address d) → dp_messages d = [value] → value.1 = unread → plain_object value.2 →
  read_fields (line_text d) = None.
Proof.
  intros Ha Hm Ht Hv.
  set (f1 := ("timestamp", fmt_nanoseconds (dp_timestamp d))). set (f2 := ("address", dp_address d)).
  set (f3 := ("port", fmt_Z (dp_port d))). set (f4 := ("sequence_number", fmt_Z (sequence_number (dp_frame d)))).
  set (f5 := ("sending_time", fmt_nanoseconds (sending_time (dp_frame d)))).
  set (f6 := ("md_instrument_definition_fx_63", print_message fmt_MDInstrumentDefinitionFX63 value.2)).
  assert (line_fields d = [f1; f2; f3; f4; f5; f6]) as Hline.
  { unfold line_fields, event_fields. rewrite Hm. cbn [map concat]. by rewrite Ht. }
  assert (∀ f g fs t, field_ok f → read_items (InLabel "") (join (map print_field (f :: g :: fs)) +:+ t) =
    (rest ← read_items (InLabel "") (join (map print_field (g :: fs)) +:+ t); Some (f :: rest))) as Hstep.
  { intros [label text] g fs t [Hl Hb].
    change (join (map print_field ((label, text) :: g :: fs))) with
      (print_field (label, text) +:+ ", " +:+ join (map print_field (g :: fs))). rewrite !str_app_assoc.
    apply (read_item (λ text, text) (Field label Plain text) ", "); [done|done|by left]. }
  unfold line_text. rewrite Hline. change (read_items (InLabel "") (join (map print_field [f1; f2; f3; f4; f5; f6]) +:+ "}") = None).
  assert (field_ok f1 ∧ field_ok f2 ∧ field_ok f3 ∧ field_ok f4 ∧ field_ok f5) as (H1 & H2 & H3 & H4 & H5).
  { split_and!; (split; [done|]); simpl; auto using plain_balanced, fmt_Z_plain. }
  rewrite !Hstep by done.
  change (join (map print_field [f6])) with (f6.1 +:+ "=" +:+ f6.2).
  rewrite !str_app_assoc, read_label by done.
  change (read_items (InLabel ("" +:+ f6.1)) ("=" +:+ f6.2 +:+ "}")) with
    (read_items (InValue f6.1 "" 0 false) (f6.2 +:+ "}")).
  by rewrite (read_value _ _ _ _ _ _ _ _ (scan_unread _ Hv)).
Qed.
End dump_properties.

(** ** Witnesses *)

Definition example_object_sbe : MdpSbe message_object := {|
  SBE_TEMPLATE_ID := example_template_id;
  SBE_TEMPLATE_ID_inj := _;
  encodedLength := 8;
  decode_header := example_decode_header;
  decode_header_app := example_decode_header_app;
  decode_message t _ _ _ := Ok (t, example_object);
|}.

Definition example_dump : DumpEnv := {|
  dump_double := λ _, "1.5"; dump_sbe := example_object_sbe; print_payload := false;
  fmt_payload _ := ""; fmt_nanoseconds t := fmt_Z t +:+ "ns" |}.

Lemma example_nanoseconds_plain t : plain (@fmt_nanoseconds example_dump t).
Proof. simpl. unfold plain. rewrite all_chars_app. apply andb_prop_intro. split; [apply fmt_Z_plain|done]. Qed.

Lemma example_dump_plain : @FmtDoublePlain (@dump_double example_dump).
Proof. by intros d. Qed.

Definition example_dumped (ids : list (Z * template)) : dumped := {|
  dp_timestamp := 1000; dp_address := "224.0.31.1"; dp_port := 14310; dp_frame := example_frame;
  dp_raw := map (λ x, example_message x.1 []) ids; dp_messages := map (λ x, (x.2, example_object)) ids |}.

Lemma example_dumped_wf :
  @dumped_wf example_dump (example_dumped [(12, T_AdminHeartbeat12); (39, T_QuoteRequest39)]).
Proof.
  split.
  - split; vm_compute; split; congruence.
  - repeat constructor; vm_compute; congruence.
  - constructor; [|constructor; [|constructor]]; eexists.
    + exists T_AdminHeartbeat12. repeat split. set_solver.
    + exists T_QuoteRequest39. repeat split. set_solver.
Qed.

Lemma dump_lines_read_back_witness :
  let d := example_dumped [(12, T_AdminHeartbeat12); (39, T_QuoteRequest39)] in
  @dump example_dump [capture_of d] =
    Ok (("message={timestamp=1000ns, address=224.0.31.1, port=14310"
      +:+ ", sequence_number=7, sending_time=1000ns, admin_heartbeat_12={}"
      +:+ ", sequence_number=7, sending_time=1000ns, quote_request_39={version=7, transact_time=7"
      +:+ ", quote_req_id=7, match_event_indicator=132, no_related_sym=[]}}") +:+ newline)
  ∧ read_fields (@line_text example_dump d) = Some (@line_fields example_dump d).
Proof.
  destruct (@dump_lines_read_back example_dump example_dump_plain example_nanoseconds_plain
    [example_dumped [(12, T_AdminHeartbeat12); (39, T_QuoteRequest39)]]) as [Ht Hr].
  - by apply Forall_cons_2; [apply example_dumped_wf|].
  - apply Forall_cons_2; [|done]. split; [done|]. do 2 (apply Forall_cons_2; [split; [done|apply example_object_plain]|]).
    by apply Forall_nil.
  - split; [exact Ht|]. by apply Forall_cons in Hr as [Hr _].
Defined.

Lemma dump_line_unread_witness :
  read_fields (@line_text example_dump (example_dumped [(63, T_MDInstrumentDefinitionFX63)])) = None.
Proof.
  apply (@dump_line_unread example_dump example_dump_plain example_nanoseconds_plain _
    (T_MDInstrumentDefinitionFX63, example_object)); [done..|]. apply example_object_plain.
Defined.
