(* ===== verification/Tools.v ===== *)
(** The tools
    (src/roq/cme/channel_tester/controller.cpp, src/roq/cme/filter/controller.cpp).

    The tester of a multicast channel reports the gaps of the sequence numbers of
    its packets; the filter prints the expression of the addresses of some
    channels. *)

From S2P Require Import Prelude Double Api Messages MdpParser SecdefReader MdpConfig.

(** ** Channel tester *)

Module ChannelTester.
(** What is logged. *)
Inductive line :=
  | Initialize (sequence_number : Z)
  | Gap (timestamp last_timestamp gap sequence_number last_sequence_number delta : Z)
  | Unexpected.

Record Controller := {
  last_sequence_number_ : Z;
  last_update_ : Z;
  lines : list line;
}.

Definition create : Controller := {| last_sequence_number_ := 0; last_update_ := 0; lines := [] |}.

Section tester.
Context (filter_snapshot_from_incremental : Z).

(** The callback of [Frame::parse], at a time. *)
Definition on_frame (now : Z) (frame : Frame) (c : Controller) : Controller :=
  let sequence_number := sequence_number frame in
  if sequence_number <? filter_snapshot_from_incremental then c
  else
    let delta := sequence_number - last_sequence_number_ c in
    let logged :=
      if negb (last_sequence_number_ c =? 0) then
        if negb (delta =? 1) then
          [Gap now (last_update_ c) (now - last_update_ c) sequence_number (last_sequence_number_ c) delta]
        else []
      else [Initialize sequence_number] in
    {| last_sequence_number_ := sequence_number; last_update_ := now; lines := lines c ++ logged |}.

Definition on_datagram (now : Z) (message : bytes) (c : Controller) : Controller :=
  let '(result, frame) := parse_helper message in
  if result : bool then on_frame now frame c
  else {| last_sequence_number_ := last_sequence_number_ c; last_update_ := last_update_ c;
          lines := lines c ++ [Unexpected] |}.

(** [operator()(Trace<Read>)]: what [recv] returns and when, until it returns
    nothing. *)
Fixpoint on_read (datagrams : list (Z * bytes)) (c : Controller) : Controller :=
  match datagrams with
  | [] => c
  | (now, message) :: datagrams =>
    if bool_decide (message = []) then c else on_read datagrams (on_datagram now message c)
  end.
End tester.

(** ** Facts *)

(** The gaps between one packet and the next. *)
Fixpoint gaps (previous : Z * Frame) (frames : list (Z * Frame)) : list line :=
  match frames with
  | [] => []
  | f :: frames =>
    let delta := sequence_number f.2 - sequence_number previous.2 in
    (if delta =? 1 then []
     else [Gap f.1 previous.1 (f.1 - previous.1) (sequence_number f.2) (sequence_number previous.2) delta]) ++
    gaps f frames
  end.

(** A packet with a frame, and whatever follows it. *)
Definition packet_of (x : (Z * Frame) * bytes) : Z * bytes := (x.1.1, encode_frame x.1.2 ++ x.2).

Lemma encode_frame_not_nil f rest : encode_frame f ++ rest ≠ [].
Proof.
  intros H%(f_equal length). rewrite length_app, length_encode_frame in H. unfold frame_size in H. simpl in H. lia.
Qed.

Lemma on_read_frame filter x xs c :
  frame_wf x.1.2 → on_read filter (packet_of x :: xs) c = on_read filter xs (on_frame filter x.1.1 x.1.2 c).
Proof.
  intros Hx. cbn [on_read packet_of]. rewrite bool_decide_eq_false_2 by apply encode_frame_not_nil.
  unfold on_datagram. by rewrite parse_helper_encode.
Qed.

(** ** Properties *)

(** Gaps.  Of the packets of a channel, with sequence numbers that are not zero
    and not filtered, the tester reports the first one and then exactly the
    pairs of consecutive packets whose sequence numbers do not differ by one,
    with the signed difference and the times of both. *)
Theorem tester_reports_gaps filter first rest :
  Forall (λ x : (Z * Frame) * bytes, frame_wf x.1.2 ∧ filter ≤ sequence_number x.1.2 ∧ sequence_number x.1.2 ≠ 0)
    (first :: rest) →
  lines (on_read filter (map packet_of (first :: rest)) create) =
  Initialize (sequence_number first.1.2) :: gaps first.1 (map fst rest).
Proof.
  intros [(Hwf & Hf & Hz) Hrest]%Forall_cons. cbn [map]. rewrite on_read_frame by done.
  unfold on_frame at 1. rewrite (proj2 (Z.ltb_ge _ _) Hf). cbn [create last_sequence_number_ lines app].
  change (negb (0 =? 0)) with false. cbv iota zeta.
  assert (∀ l (prev : Z * Frame) rest, sequence_number prev.2 ≠ 0 →
    Forall (λ x : (Z * Frame) * bytes, frame_wf x.1.2 ∧ filter ≤ sequence_number x.1.2 ∧ sequence_number x.1.2 ≠ 0) rest →
    lines (on_read filter (map packet_of rest)
      {| last_sequence_number_ := sequence_number prev.2; last_update_ := prev.1; lines := l |})
    = l ++ gaps prev (map fst rest)) as Hgen; [|by apply (Hgen [_])].
  clear. intros l prev rest Hp Hrest. revert l prev Hp.
  induction Hrest as [|x rest (Hwf & Hf & Hz) _ IH]; intros l prev Hp; [by rewrite app_nil_r|].
  cbn [map]. rewrite on_read_frame by done. unfold on_frame. rewrite (proj2 (Z.ltb_ge _ _) Hf).
  cbn [last_sequence_number_ last_update_ lines]. rewrite (proj2 (Z.eqb_neq _ _) Hp). cbn [negb]. cbv zeta.
  rewrite (IH _ x.1 Hz). cbn [gaps]. rewrite app_assoc. by destruct (_ =? 1).
Qed.
End ChannelTester.

(** ** Filter *)

Module Filter.
(** The lines of a channel, in the order of the code. *)
Definition channel_lines : list (ConnectionType.t * Priority.t) :=
  [(ConnectionType.INSTRUMENT_DEFINITION, Priority.PRIMARY); (ConnectionType.INSTRUMENT_DEFINITION, Priority.SECONDARY);
   (ConnectionType.INCREMENTAL, Priority.PRIMARY); (ConnectionType.INCREMENTAL, Priority.SECONDARY);
   (ConnectionType.MBP_MARKET_RECOVERY, Priority.PRIMARY); (ConnectionType.MBP_MARKET_RECOVERY, Priority.SECONDARY);
   (ConnectionType.MBOFD_MARKET_RECOVERY, Priority.PRIMARY); (ConnectionType.MBOFD_MARKET_RECOVERY, Priority.SECONDARY)].

Definition find (config : Config.t) (channel_id : Z) (type : ConnectionType.t) (priority : Priority.t)
    (result : list (string * Z)) : res (list (string * Z)) :=
  match Config.find config channel_id type priority with
  | Some connection => Ok (result ++ [(Config.multicast_address connection, Config.port connection)])
  | None => Err Fatal
  end.

Definition addresses (config : Config.t) (channel_ids : list Z) : res (list (string * Z)) :=
  foldM (λ result channel_id,
    foldM (λ result '(type, priority), find config channel_id type priority result) result channel_lines)
    [] channel_ids.

(** The loop that prints: [or] after each but the last. *)
Fixpoint expression (filter : list (string * Z)) : string :=
  match filter with
  | [] => ""
  | (host, port) :: filter =>
    "(host " +:+ host +:+ " and port " +:+ fmt_Z port +:+ ")" +:+
    (if bool_decide (filter = []) then "" else " or ") +:+ expression filter
  end.

Definition dispatch (type : string) (config : Config.t) (channel_ids : list Z) : res string :=
  if bool_decide (type = "tcpdump"%string) then expression <$> addresses config channel_ids else Err Fatal.

Lemma mapM_app {A B} (f : A → option B) l1 l2 :
  mapM f (l1 ++ l2) = (k1 ← mapM f l1; k2 ← mapM f l2; Some (k1 ++ k2)).
Proof.
  induction l1 as [|x l1 IH]; cbn [app mapM]; [simpl; by destruct (mapM f l2)|].
  destruct (f x) as [y|]; [|done]. simpl. rewrite IH. destruct (mapM f l1); [|done]. simpl. by destruct (mapM f l2).
Qed.

(** ** Properties *)

(** Addresses.  When every line of the channels is configured, the filter prints
    one term for each line of each channel, in order, with the address and port
    that the configuration gives it; when one is not, nothing is printed. *)
Theorem filter_lists_lines config channel_ids :
  let keys := concat (map (λ id, map (pair id) channel_lines) channel_ids) in
  let found key := Config.find config key.1 key.2.1 key.2.2 in
  match mapM found keys with
  | Some connections => dispatch "tcpdump" config channel_ids =
      Ok (expression (map (λ c, (Config.multicast_address c, Config.port c)) connections))
  | None => dispatch "tcpdump" config channel_ids = Err Fatal
  end.
Proof.
  intros keys found.
  set (address c := (Config.multicast_address c, Config.port c)).
  assert (∀ id ls acc, foldM (λ result '(type, priority), find config id type priority result) acc ls =
    match mapM found (map (pair id) ls) with Some cs => Ok (acc ++ map address cs) | None => Err Fatal end) as Hls.
  { intros id. induction ls as [|[ty p] ls IH]; intros acc; [simpl; by rewrite app_nil_r|]. cbn [foldM map mapM].
    assert (find config id ty p acc = match found (id, (ty, p)) with
      | Some c => Ok (acc ++ [address c]) | None => Err Fatal end) as -> by done.
    destruct (found (id, (ty, p))) as [c|]; [|done]. cbn [mbind res_bind option_bind]. rewrite IH.
    destruct (mapM found (map (pair id) ls)) as [cs|]; [|done]. simpl. by rewrite <- app_assoc. }
  assert (∀ ids acc, foldM (λ result channel_id,
      foldM (λ result '(type, priority), find config channel_id type priority result) result channel_lines) acc ids =
    match mapM found (concat (map (λ id, map (pair id) channel_lines) ids)) with
    | Some cs => Ok (acc ++ map address cs) | None => Err Fatal end) as Hids.
  { induction ids as [|id ids IH]; intros acc; [simpl; by rewrite app_nil_r|]. cbn [foldM map concat].
    rewrite Hls, mapM_app. destruct (mapM found (map (pair id) channel_lines)) as [cs|]; [|done].
    cbn [mbind res_bind option_bind]. rewrite IH.
    destruct (mapM found (concat _)) as [cs'|]; [|done]. simpl. by rewrite map_app, <- app_assoc. }
  unfold dispatch, addresses. rewrite bool_decide_eq_true_2 by done. rewrite Hids.
  fold keys. by destruct (mapM found keys).
Qed.
End Filter.

(** ** Witnesses *)

Section tools_witnesses.
Import ChannelTester.

Definition example_datagram (now n : Z) : (Z * Frame) * bytes :=
  ((now, {| sequence_number := n; sending_time := 5 |}), [1; 2; 3]).

Lemma tester_reports_gaps_witness :
  lines (on_read 2 (map packet_of [example_datagram 10 2; example_datagram 20 3; example_datagram 35 7;
    example_datagram 40 6]) create) = [Initialize 2; Gap 35 20 15 7 3 4; Gap 40 35 5 6 7 (-1)].
Proof.
  refine (tester_reports_gaps 2 (example_datagram 10 2)
    [example_datagram 20 3; example_datagram 35 7; example_datagram 40 6] _).
  repeat apply Forall_cons_2; [..|done]; (split; [split; unfold in_width; simpl; lia|simpl; lia]).
Defined.
End tools_witnesses.
