(* ===== verification/IlinkConfig.v ===== *)
(** The configuration of the market segments
    (src/roq/cme/protocol/ilink/config_reader.cpp, and [read_ilink_config] of
    src/roq/cme/gateway/shared.cpp): the file of the exchange as a sequence of
    XML events, and the table of the market segments. *)

From S2P Require Import Prelude Double Api SecdefReader MdpConfig.

(** [from_chars<uint8_t>]. *)
Class FromCharsUint8 := { from_chars_uint8 : string → res Z }.

Module IlinkReader.
Record MarketSegment := {
  label : string;
  protocol : string;
  primary_host_ip : string;
  backup_host_ip : string;
  dr_primary_host_ip : string;
  dr_backup_host_ip : string;
  to_cme_schema_version : string;
  from_cme_schema_version : string;
}.

Inductive MarketSegmentField :=
  | UNDEFINED | PROTOCOL | PRIMARY_HOST_IP | BACKUP_HOST_IP | DR_PRIMARY_HOST_IP | DR_BACKUP_HOST_IP
  | TO_CME_SCHEMA_VERSION | FROM_CME_SCHEMA_VERSION.

Definition empty_segment : MarketSegment := Build_MarketSegment "" "" "" "" "" "" "" "".

Definition set_label (v : string) (m : MarketSegment) : MarketSegment :=
  Build_MarketSegment v (protocol m) (primary_host_ip m) (backup_host_ip m) (dr_primary_host_ip m)
    (dr_backup_host_ip m) (to_cme_schema_version m) (from_cme_schema_version m).

(** The switches over the field: [trim] and [append] of the member it stands for. *)
Definition update_field (f : MarketSegmentField) (g : string → string) (m : MarketSegment) : MarketSegment :=
  let '(Build_MarketSegment l p h b dh db t fr) := m in
  match f with
  | UNDEFINED => m
  | PROTOCOL => Build_MarketSegment l (g p) h b dh db t fr
  | PRIMARY_HOST_IP => Build_MarketSegment l p (g h) b dh db t fr
  | BACKUP_HOST_IP => Build_MarketSegment l p h (g b) dh db t fr
  | DR_PRIMARY_HOST_IP => Build_MarketSegment l p h b (g dh) db t fr
  | DR_BACKUP_HOST_IP => Build_MarketSegment l p h b dh (g db) t fr
  | TO_CME_SCHEMA_VERSION => Build_MarketSegment l p h b dh db (g t) fr
  | FROM_CME_SCHEMA_VERSION => Build_MarketSegment l p h b dh db t (g fr)
  end.

(** The field of a child of [marketsegment]; another child is only logged. *)
Definition field_of (name : string) : option MarketSegmentField :=
  if bool_decide (name = "protocol"%string) then Some PROTOCOL
  else if bool_decide (name = "primary-host-ip"%string) then Some PRIMARY_HOST_IP
  else if bool_decide (name = "backup-host-ip"%string) then Some BACKUP_HOST_IP
  else if bool_decide (name = "dr-primary-host-ip"%string) then Some DR_PRIMARY_HOST_IP
  else if bool_decide (name = "dr-backup-host-ip"%string) then Some DR_BACKUP_HOST_IP
  else if bool_decide (name = "ToCMESchemaVersion"%string) then Some TO_CME_SCHEMA_VERSION
  else if bool_decide (name = "FromCMESchemaVersion"%string) then Some FROM_CME_SCHEMA_VERSION
  else None.

(** [MyHandler], and the state [S] of the handler it calls. *)
Record state (S : Type) := {
  market_segment_id_ : string;
  market_segment_ : MarketSegment;
  market_segment_field_ : MarketSegmentField;
  handler_ : S;
}.
Arguments Build_state {S}.
Arguments market_segment_id_ {S}.
Arguments market_segment_ {S}.
Arguments market_segment_field_ {S}.
Arguments handler_ {S}.

Section reader.
Context `{StripWhitespace} `{FromCharsUint8} {S : Type} (handler : Z → MarketSegment → S → res S).
Implicit Types (s : state S).

Definition start_segment (attributes : list (string * string)) s : state S :=
  foldl (λ s '(key, value),
    if bool_decide (key = "id"%string) then
      Build_state (market_segment_id_ s +:+ value) (market_segment_ s) (market_segment_field_ s) (handler_ s)
    else if bool_decide (key = "label"%string) then
      Build_state (market_segment_id_ s) (set_label value (market_segment_ s)) (market_segment_field_ s) (handler_ s)
    else s) s attributes.

Definition start_element (name : string) (attributes : list (string * string)) s : state S :=
  if bool_decide (name = "marketsegment"%string) then start_segment attributes s
  else if negb (bool_decide (market_segment_id_ s = "")) then
    match field_of name with
    | Some f => Build_state (market_segment_id_ s) (market_segment_ s) f (handler_ s)
    | None => s
    end
  else s.

Definition end_element (name : string) s : res (state S) :=
  if bool_decide (name = "marketsegment"%string) then
    market_segment_id ← from_chars_uint8 (market_segment_id_ s);
    h ← handler market_segment_id (market_segment_ s) (handler_ s);
    Ok (Build_state "" empty_segment (market_segment_field_ s) h)
  else
    Ok (Build_state (market_segment_id_ s)
          (update_field (market_segment_field_ s) ConfigReader.trim (market_segment_ s)) UNDEFINED (handler_ s)).

Definition character_data (data : string) s : state S :=
  Build_state (market_segment_id_ s)
    (update_field (market_segment_field_ s) (λ v, v +:+ data) (market_segment_ s)) (market_segment_field_ s) (handler_ s).

Definition step s (e : xml_event) : res (state S) :=
  match e with
  | StartElement name attributes => Ok (start_element name attributes s)
  | EndElement name => end_element name s
  | CharacterData data => Ok (character_data data s)
  end.

(** [ConfigReader::dispatch], over the events of the file. *)
Definition dispatch (events : list xml_event) (h : S) : res S :=
  s ← foldM step (Build_state "" empty_segment UNDEFINED h) events;
  Ok (handler_ s).
End reader.
End IlinkReader.

(** [read_ilink_config]: no file, no market segments; the first of an id stays. *)
Definition read_ilink_config `{StripWhitespace} `{FromCharsUint8} (file : option (list xml_event))
    : res (gmap Z IlinkReader.MarketSegment) :=
  match file with
  | Some events => IlinkReader.dispatch (λ id m result, Ok (try_emplace id m result)) events ∅
  | None => Ok ∅
  end.

(** ** Documents

    The children of a market segment, in any order, known or not; the text of a
    child may come in pieces, and there is white space between elements. *)

Record xml_segment := {
  xs_id : string;
  xs_label : string;
  xs_children : list (string * list string);
}.

Section segments.
Context `{StripWhitespace} `{FromCharsUint8} (indent : string).
Import IlinkReader.

Definition render_child (c : string * list string) : list xml_event := render_element indent c.1 [] c.2.

Definition render_segment (x : xml_segment) : list xml_event :=
  CharacterData indent ::
  StartElement "marketsegment" [("id", xs_id x); ("label", xs_label x)]%string ::
  concat (map render_child (xs_children x)) ++
  [CharacterData indent; EndElement "marketsegment"].

Definition render_segments (xs : list xml_segment) : list xml_event :=
  StartElement "configuration" [] :: concat (map render_segment xs) ++
  [CharacterData indent; EndElement "configuration"].

(** What the reader makes of a child: its text is added to the field, and
    trimmed. *)
Definition add_child (m : MarketSegment) (c : string * list string) : MarketSegment :=
  match field_of c.1 with
  | Some f => update_field f (λ v, ConfigReader.trim (v +:+ text c.2)) m
  | None => m
  end.

Definition segment_of (x : xml_segment) : MarketSegment :=
  foldl add_child (set_label (xs_label x) empty_segment) (xs_children x).

(** A market segment with an id, whose children are not market segments. *)
Definition segment_wf (x : xml_segment) : Prop :=
  xs_id x ≠ "" ∧ Forall (λ c : string * list string, c.1 ≠ "marketsegment"%string) (xs_children x).

(** ** Facts *)

Context {S : Type} (handler : Z → MarketSegment → S → res S).

Definition read_segment (h : S) (x : xml_segment) : res S :=
  id ← from_chars_uint8 (xs_id x); handler id (segment_of x) h.

Lemma update_field_comp f g1 g2 m : update_field f g1 (update_field f g2 m) = update_field f (λ v, g1 (g2 v)) m.
Proof. destruct m. by destruct f. Qed.

Lemma update_field_ext f g1 g2 m : (∀ v, g1 v = g2 v) → update_field f g1 m = update_field f g2 m.
Proof. intros Hg. destruct m. destruct f; simpl; by rewrite ?Hg. Qed.

Lemma foldl_append v pieces : foldl String.append v pieces = v +:+ text pieces.
Proof.
  unfold text. revert v. induction pieces as [|p pieces IH]; intros v; [symmetry; apply string_app_nil_r|].
  change (foldl String.append (v +:+ p) pieces = v +:+ foldl String.append p pieces).
  by rewrite IH, (IH p), str_app_assoc.
Qed.

Lemma read_pieces id m f h pieces events :
  foldM (step handler) (Build_state id m f h) (map CharacterData pieces ++ events) =
  foldM (step handler) (Build_state id (update_field f (λ v, v +:+ text pieces) m) f h) events.
Proof.
  revert m. induction pieces as [|p pieces IH]; intros m; cbn [map app].
  - rewrite (update_field_ext _ _ (λ v, v)) by apply string_app_nil_r. by destruct m, f.
  - cbn [foldM step mbind res_bind]. unfold character_data. cbn. rewrite IH, update_field_comp.
    do 2 f_equal. apply update_field_ext. intros v. cbn. rewrite foldl_append.
    by rewrite str_app_assoc.
Qed.

Lemma read_space id m h events :
  foldM (step handler) (Build_state id m UNDEFINED h) (CharacterData indent :: events) =
  foldM (step handler) (Build_state id m UNDEFINED h) events.
Proof. by destruct m. Qed.

Lemma read_child id m h c events :
  id ≠ "" → c.1 ≠ "marketsegment"%string →
  foldM (step handler) (Build_state id m UNDEFINED h) (render_child c ++ events) =
  foldM (step handler) (Build_state id (add_child m c) UNDEFINED h) events.
Proof.
  intros Hid Hc. unfold render_child, render_element. cbn [app].
  rewrite read_space.
  cbn [foldM step mbind res_bind]. unfold start_element. rewrite bool_decide_eq_false_2 by done.
  cbn [market_segment_id_]. rewrite bool_decide_eq_false_2 by done. cbn [negb].
  unfold add_child. destruct (field_of c.1) as [f|]; rewrite <- app_assoc, read_pieces;
    cbn [app foldM step mbind res_bind]; unfold end_element; rewrite bool_decide_eq_false_2 by done;
    cbn [mbind res_bind market_segment_field_ market_segment_id_ market_segment_ handler_].
  - by rewrite update_field_comp.
  - by destruct m.
Qed.

Lemma read_children id m h cs events :
  id ≠ "" → Forall (λ c : string * list string, c.1 ≠ "marketsegment"%string) cs →
  foldM (step handler) (Build_state id m UNDEFINED h) (concat (map render_child cs) ++ events) =
  foldM (step handler) (Build_state id (foldl add_child m cs) UNDEFINED h) events.
Proof.
  intros Hid Hcs. revert m. induction Hcs as [|c cs Hc _ IH]; intros m; [done|].
  cbn [map concat foldl]. by rewrite <- app_assoc, read_child, IH.
Qed.

Lemma read_one_segment h x events :
  segment_wf x →
  foldM (step handler) (Build_state "" empty_segment UNDEFINED h) (render_segment x ++ events) =
  (h ← read_segment h x; foldM (step handler) (Build_state "" empty_segment UNDEFINED h) events).
Proof.
  intros [Hid Hcs]. unfold render_segment. rewrite <- !app_comm_cons, <- !app_assoc.
  cbn [foldM step mbind res_bind].
  change (character_data indent (Build_state "" empty_segment UNDEFINED h))
    with (Build_state "" empty_segment UNDEFINED h).
  change (start_element "marketsegment" _ (Build_state "" empty_segment UNDEFINED h))
    with (Build_state (xs_id x) (set_label (xs_label x) empty_segment) UNDEFINED h).
  rewrite read_children by done. cbn [app foldM step mbind res_bind]. unfold end_element.
  rewrite bool_decide_eq_true_2 by done. cbn [character_data market_segment_id_ handler_ market_segment_ market_segment_field_].
  unfold read_segment. destruct (from_chars_uint8 (xs_id x)) as [id|e]; [|done]. cbn [mbind res_bind].
  replace (update_field UNDEFINED _ _) with (segment_of x) by (unfold segment_of; by destruct (foldl _ _ _)).
  by destruct (handler id (segment_of x) h).
Qed.

Lemma dispatch_segments xs h :
  Forall segment_wf xs → dispatch handler (render_segments xs) h = foldM read_segment h xs.
Proof.
  intros Hxs. unfold dispatch, render_segments. cbn [foldM step mbind res_bind].
  change (start_element "configuration" _ _) with (Build_state "" empty_segment UNDEFINED h).
  revert h. induction Hxs as [|x xs Hx _ IH]; intros h.
  - cbn. done.
  - cbn [map concat foldM]. rewrite <- app_assoc, read_one_segment by done.
    destruct (read_segment h x) as [h'|e]; [|done]. apply IH.
Qed.
End segments.

(** ** Properties *)

Section segment_properties.
Context `{StripWhitespace} `{FromCharsUint8} (indent : string).
Import IlinkReader.

(** The first market segment of a document with an id. *)
Definition first_segment (xs : list xml_segment) (id : Z) : option xml_segment :=
  List.find (λ x, match from_chars_uint8 (xs_id x) with Ok n => n =? id | Err _ => false end) xs.

Lemma read_segments_lookup xs m id :
  Forall (λ x, is_ok (from_chars_uint8 (xs_id x))) xs →
  ∃ m', foldM (read_segment (λ id x result, Ok (try_emplace id x result))) m xs = Ok m'
    ∧ m' !! id = match m !! id with Some x => Some x | None => segment_of <$> first_segment xs id end.
Proof.
  intros Hxs. revert m. induction Hxs as [|x xs Hx _ IH]; intros m.
  { exists m. split; [done|]. by destruct (m !! id). }
  apply Is_true_true_1, is_ok_value in Hx as [n Hn]. cbn [foldM].
  assert (read_segment (λ id x result, Ok (try_emplace id x result)) m x = Ok (try_emplace n (segment_of x) m)) as ->
    by (unfold read_segment; by rewrite Hn).
  cbn [mbind res_bind]. destruct (IH (try_emplace n (segment_of x) m)) as (m' & Hm' & Hid).
  exists m'. split; [exact Hm'|]. rewrite Hid, lookup_try_emplace. unfold first_segment. cbn [List.find]. rewrite Hn.
  destruct (decide (n = id)) as [->|Hne].
  - rewrite Z.eqb_refl. by destruct (m !! id).
  - by rewrite (proj2 (Z.eqb_neq _ _) Hne).
Qed.

(** Market segments.  The table of the market segments that is read from a
    document has exactly the ids of the document, each with the label and the
    fields of the first market segment with that id: the text of each field,
    however the XML parser splits it, trimmed, whatever the order of the fields,
    and whatever other fields there are. *)
Theorem read_ilink_config_render xs :
  Forall segment_wf xs → Forall (λ x, is_ok (from_chars_uint8 (xs_id x))) xs →
  ∃ m, read_ilink_config (Some (render_segments indent xs)) = Ok m
    ∧ ∀ id, m !! id = segment_of <$> first_segment xs id.
Proof.
  intros Hxs Hids. unfold read_ilink_config. rewrite dispatch_segments by done.
  destruct (read_segments_lookup xs ∅ 0 Hids) as (m & Hm & _). exists m. split; [exact Hm|]. intros id.
  destruct (read_segments_lookup xs ∅ id Hids) as (m' & Hm' & Hid). rewrite lookup_empty in Hid. congruence.
Qed.
End segment_properties.

(** ** Witnesses *)

Section segment_witnesses.
#[local] Instance example_strip8 : StripWhitespace := {| strip_leading s := s; strip_trailing s := s |}.
#[local] Instance example_uint8 : FromCharsUint8 := {| from_chars_uint8 := digits 0 |}.

Definition example_segments : list xml_segment := [
  {| xs_id := "64"; xs_label := "CME";
     xs_children := [("primary-host-ip", ["69.50."; "112.45"]); ("market", ["x"]); ("protocol", ["iLink3"])]%string |};
  {| xs_id := "64"; xs_label := "again"; xs_children := [] |};
  {| xs_id := "68"; xs_label := "NYMEX"; xs_children := [("primary-host-ip", ["69.50.112.72"])]%string |}].

Lemma read_ilink_config_render_witness :
  ∃ m, read_ilink_config (Some (render_segments "  " example_segments)) = Ok m
    ∧ m !! 64 = Some (IlinkReader.Build_MarketSegment "CME" "iLink3" "69.50.112.45" "" "" "" "" "")
    ∧ m !! 60 = None.
Proof.
  destruct (read_ilink_config_render "  " example_segments) as (m & Hm & Hid).
  - repeat constructor; discriminate.
  - repeat constructor.
  - exists m. split; [exact Hm|]. rewrite !Hid. split; reflexivity.
Defined.
End segment_witnesses.
