(* ===== verification/Crypto.v ===== *)
(** Signatures of a session
    (src/roq/cme/tools/canonical_message.hpp, crypto.hpp and crypto.cpp).

    The text that is signed, and its message authentication code.  The code
    itself (HMAC-SHA256), base 64 and the writer of the buffer are library
    code. *)

From S2P Require Import Prelude Double Api MdpParser SecdefReader.

(** Times: [request_timestamp] in nanoseconds, [keep_alive_interval] in
    milliseconds. *)
Record CanonicalMessage := {
  cm_request_timestamp : Z;
  cm_uuid : Z;
  cm_session : string;
  cm_firm_id : string;
  cm_trading_system_name : string;
  cm_trading_system_version : string;
  cm_trading_system_vendor : string;
  cm_next_seq_no : Z;
  cm_keep_alive_interval : Z;
}.

(** [utils::text::Writer] over a buffer of a size: the text that was written,
    if it fits; and [utils::mac::HMAC] with the decoded secret as its key. *)
Class Mac := {
  writer_text : nat → string → res string;
  writer_text_fits : ∀ n s, (String.length s ≤ n)%nat → writer_text n s = Ok s;
  hmac : string → string → bytes;
}.


(** The fields that are written: a request that names the trading system has
    five more. *)
Definition signature_fields (message : CanonicalMessage) : list string :=
  [fmt_Z (cm_request_timestamp message); fmt_Z (cm_uuid message); cm_session message; cm_firm_id message] ++
  (if bool_decide (cm_trading_system_name message = "") then []
   else [cm_trading_system_name message; cm_trading_system_version message;
         cm_trading_system_vendor message; fmt_Z (cm_next_seq_no message);
         fmt_Z (cm_keep_alive_interval message)]).

(** The writes, with a newline between each two fields. *)
Fixpoint join_lines (fields : list string) : string :=
  match fields with
  | [] => EmptyString
  | [f] => f
  | f :: fields => f +:+ newline +:+ join_lines fields
  end.

(** [Crypto::create_signature]. *)
Definition create_signature `{Mac} (secret : string) (buffer_size : nat) (message : CanonicalMessage)
    : res bytes :=
  tmp ← writer_text buffer_size (join_lines (signature_fields message));
  Ok (hmac secret tmp).

(** ** Facts *)

Definition is_LF (c : Ascii.ascii) : bool := bool_decide (c = LF).

(** No newline in the text. *)
Definition one_line (s : string) : Prop := all_chars (λ c, negb (is_LF c)) s.

Lemma fmt_Z_one_line z : one_line (fmt_Z z).
Proof.
  apply all_chars_impl with is_number_char; [|apply fmt_Z_number].
  intros c Hc%bool_decide_unpack. unfold is_LF.
  repeat (apply elem_of_cons in Hc as [-> |Hc]; [done|]). by apply elem_of_nil in Hc.
Qed.

Lemma one_line_app_LF f rest : ¬ one_line (f +:+ newline +:+ rest).
Proof.
  unfold one_line. rewrite all_chars_app. by intros [_ [H _]%andb_prop_elim]%andb_prop_elim.
Qed.

(** Lines are told apart by the newlines between them. *)
Lemma join_lines_inj l1 l2 :
  l1 ≠ [] → l2 ≠ [] → Forall one_line l1 → Forall one_line l2 → join_lines l1 = join_lines l2 → l1 = l2.
Proof.
  revert l2. induction l1 as [|f1 l1 IH]; intros [|f2 l2] Hn1 Hn2 H1 H2 Hj; [done..|].
  apply Forall_cons in H1 as [Hf1 H1]. apply Forall_cons in H2 as [Hf2 H2].
  destruct l1 as [|g1 l1], l2 as [|g2 l2].
  - simpl in Hj. by subst.
  - cbn [join_lines] in Hj. rewrite Hj in Hf1. by apply one_line_app_LF in Hf1.
  - cbn [join_lines] in Hj. rewrite <- Hj in Hf2. by apply one_line_app_LF in Hf2.
  - change (f1 +:+ newline +:+ join_lines (g1 :: l1) = f2 +:+ newline +:+ join_lines (g2 :: l2)) in Hj.
    assert (f1 = f2) as <-.
    { rewrite <- (take_until_app is_LF f1 LF (join_lines (g1 :: l1))) by done.
      rewrite <- (take_until_app is_LF f2 LF (join_lines (g2 :: l2))) by done.
      exact (f_equal (take_until is_LF) Hj). }
    f_equal. apply IH; try done. apply str_app_inv_l in Hj. by injection Hj.
Qed.

(** ** Properties *)

Definition canonical_wf (m : CanonicalMessage) : Prop :=
  one_line (cm_session m) ∧ one_line (cm_firm_id m) ∧ one_line (cm_trading_system_name m)
  ∧ one_line (cm_trading_system_version m) ∧ one_line (cm_trading_system_vendor m).

(** C38: What is signed.  The text that is signed determines every member of the
    request: the time, the session, the firm and, for a request that names the
    trading system, also the system, the next sequence number and the keep alive
    interval; a request that names the system is never taken for one that does
    not. *)
Theorem signature_text_binds m1 m2 :
  canonical_wf m1 → canonical_wf m2 →
  join_lines (signature_fields m1) = join_lines (signature_fields m2) →
  (cm_request_timestamp m1 = cm_request_timestamp m2 ∧ cm_uuid m1 = cm_uuid m2
   ∧ cm_session m1 = cm_session m2 ∧ cm_firm_id m1 = cm_firm_id m2)
  ∧ (cm_trading_system_name m1 = "" ↔ cm_trading_system_name m2 = "")
  ∧ (cm_trading_system_name m1 ≠ "" → m1 = m2).
Proof.
  intros (Hs1 & Hf1 & Hn1 & Hv1 & Hd1) (Hs2 & Hf2 & Hn2 & Hv2 & Hd2) Hj.
  apply join_lines_inj in Hj; [|done|done|..].
  2,3: unfold signature_fields; case_bool_decide; repeat constructor; auto using fmt_Z_one_line.
  unfold signature_fields in Hj. destruct m1, m2; simpl in *.
  do 2 case_bool_decide; injection Hj; intros;
    repeat match goal with H : fmt_Z _ = fmt_Z _ |- _ => apply (inj fmt_Z) in H end; subst; naive_solver.
Qed.

Definition example_message : CanonicalMessage := {|
  cm_request_timestamp := 1700000000000000000; cm_uuid := 1700000000000000; cm_session := "ABC";
  cm_firm_id := "007"; cm_trading_system_name := "roq-cme"; cm_trading_system_version := "1.0";
  cm_trading_system_vendor := "ROQ GMBH"; cm_next_seq_no := 1; cm_keep_alive_interval := 30000 |}.

Lemma signature_text_binds_witness :
  canonical_wf example_message ∧ cm_uuid example_message = 1700000000000000
  ∧ (cm_trading_system_name example_message ≠ "" → example_message = example_message).
Proof.
  assert (canonical_wf example_message) as Hwf by (by vm_compute).
  split; [done|]. split; [done|]. apply (signature_text_binds example_message example_message Hwf Hwf). done.
Defined.
