(* ===== verification/OrderTypes.v ===== *)
(** Orders: the types and helpers of order entry
    (src/roq/cme/gateway/order_entry.cpp: the helpers before [OrderEntry];
    src/roq/cme/protocol/ilink/utils.hpp; the prices of
    src/roq/cme/protocol/ilink/new_order_single.cpp and
    order_cancel_replace_request.cpp).

    The identifiers of requests, the maps between the enumerations of the roq
    API and those of iLink, the conversions of quantities and prices, and the
    records that order entry exchanges with the order management system. *)

From S2P Require Import Prelude Double Api MdpMap Messages Security.

(** ** Enumerations of the roq API *)

(** [RequestType] is a byte on the wire.  The values of [CREATE_ORDER] and
    [CANCEL_ORDER] are fixed by the static asserts of order_entry.cpp, the one
    of [MODIFY_ORDER] is not in the sources. *)
Class RequestTypes := {
  MODIFY_ORDER : Z;
  MODIFY_ORDER_width : in_width 8 MODIFY_ORDER;
}.
Definition CREATE_ORDER : Z := 1.
Definition CANCEL_ORDER : Z := 3.

(** The largest values of [user_id] and [order_id] (static asserts). *)
Definition SOURCE_SELF : Z := 255.
Definition ORDER_ID_MAX : Z := 2 ^ 48 - 1.

Module OrderType.
Inductive t := UNDEFINED | MARKET | LIMIT.
End OrderType.

Module TimeInForce.
Inductive t := UNDEFINED | GFD | GTC | OPG | IOC | FOK | GTX | GTD | AT_THE_CLOSE
  | GOOD_THROUGH_CROSSING | AT_CROSSING | GOOD_FOR_TIME | GFA | GFM.
End TimeInForce.

Module ExecutionInstruction.
Inductive t := UNDEFINED | PARTICIPATE_DO_NOT_INITIATE | CANCEL_IF_NOT_BEST | DO_NOT_INCREASE
  | DO_NOT_REDUCE.
End ExecutionInstruction.

Module OrderStatus.
Inductive t := UNDEFINED | ACCEPTED | WORKING | COMPLETED | EXPIRED | CANCELED | REJECTED.
End OrderStatus.

Module Liquidity.
Inductive t := UNDEFINED | MAKER | TAKER.
End Liquidity.

Module RequestStatus.
Inductive t := FORWARDED | ACCEPTED | REJECTED.
#[global] Instance eq_dec : EqDecision t.
Proof. solve_decision. Defined.
End RequestStatus.

(** ** Enumerations of iLink (generated code): the enumerators of the switches *)

Module SideReq.
Inductive Value := Buy | Sell | Undisclosed | NULL_VALUE.
End SideReq.

Module OrderTypeReq.
Inductive Value := MarketwithProtection | Limit | NULL_VALUE.
End OrderTypeReq.

Module IlinkOrderType.
Inductive Value := MarketWithProtection | Limit | StopLimit | MarketWithLeftoverAsLimit | NULL_VALUE.
End IlinkOrderType.

Module IlinkTimeInForce.
Inductive Value := Day | GoodTillCancel | FillAndKill | FillOrKill | GoodTillDate | GoodForSession
  | NULL_VALUE.
End IlinkTimeInForce.

Module IlinkOrderStatus.
Inductive Value := New | PartiallyFilled | Filled | Cancelled | Replaced | PendingCancel | Rejected
  | Expired | PendingReplace | Undefined | NULL_VALUE.
End IlinkOrderStatus.

Module OrdStatusTrd.
Inductive Value := PartiallyFilled | Filled | NULL_VALUE.
End OrdStatusTrd.

Module BooleanFlag.
Inductive Value := False | True | NULL_VALUE.
End BooleanFlag.

Module BooleanNULL.
Inductive Value := False | True | NULL_VALUE.
#[global] Instance eq_dec : EqDecision Value.
Proof. solve_decision. Defined.
End BooleanNULL.

Module MassActionResponse.
Inductive Value := Rejected | Accepted | NULL_VALUE.
End MassActionResponse.

(** ** [order_request_id] *)

Definition encode_order_request_id (type user_id order_id : Z) : Z :=
  Z.lor (Z.lor (u64 (Z.shiftl type 56)) (u64 (Z.shiftl user_id 48))) order_id.

Definition decode_order_request_id (value : Z) : Z * Z * Z :=
  let mask n := Z.shiftl 1 n - 1 in
  (u8 (Z.land (Z.shiftr value 56) (mask 8)),
   u8 (Z.land (Z.shiftr value 48) (mask 8)),
   Z.land value (mask 48)).

(** The static asserts of the source. *)
Example encode_create : encode_order_request_id CREATE_ORDER 1 1 = 0x0101000000000001.
Proof. reflexivity. Qed.
Example encode_cancel : encode_order_request_id CANCEL_ORDER SOURCE_SELF ORDER_ID_MAX = 0x03ffffffffffffff.
Proof. reflexivity. Qed.
Example decode_create : decode_order_request_id 0x0101000000000001 = (CREATE_ORDER, 1, 1).
Proof. reflexivity. Qed.
Example decode_cancel : decode_order_request_id 0x03ffffffffffffff = (CANCEL_ORDER, SOURCE_SELF, ORDER_ID_MAX).
Proof. reflexivity. Qed.

(** ** Maps *)

Definition map_side_req (side : Side.t) : SideReq.Value :=
  match side with
  | Side.UNDEFINED => SideReq.NULL_VALUE
  | Side.BUY => SideReq.Buy
  | Side.SELL => SideReq.Sell
  end.

Definition map_side (value : SideReq.Value) : Side.t :=
  match value with
  | SideReq.Buy => Side.BUY
  | SideReq.Sell => Side.SELL
  | SideReq.Undisclosed | SideReq.NULL_VALUE => Side.UNDEFINED
  end.

Definition map_order_type_req (order_type : OrderType.t) : OrderTypeReq.Value :=
  match order_type with
  | OrderType.UNDEFINED => OrderTypeReq.NULL_VALUE
  | OrderType.MARKET => OrderTypeReq.MarketwithProtection
  | OrderType.LIMIT => OrderTypeReq.Limit
  end.

Definition map_order_type (value : IlinkOrderType.Value) : OrderType.t :=
  match value with
  | IlinkOrderType.MarketWithProtection => OrderType.MARKET
  | IlinkOrderType.Limit => OrderType.LIMIT
  | IlinkOrderType.StopLimit => OrderType.LIMIT
  | IlinkOrderType.MarketWithLeftoverAsLimit => OrderType.MARKET
  | IlinkOrderType.NULL_VALUE => OrderType.UNDEFINED
  end.

Definition map_time_in_force_req (time_in_force : TimeInForce.t) : IlinkTimeInForce.Value :=
  match time_in_force with
  | TimeInForce.GFD => IlinkTimeInForce.Day
  | TimeInForce.GTC => IlinkTimeInForce.GoodTillCancel
  | TimeInForce.IOC => IlinkTimeInForce.FillAndKill
  | TimeInForce.FOK => IlinkTimeInForce.FillOrKill
  | TimeInForce.GTD => IlinkTimeInForce.GoodTillDate
  | TimeInForce.UNDEFINED | TimeInForce.OPG | TimeInForce.GTX | TimeInForce.AT_THE_CLOSE
  | TimeInForce.GOOD_THROUGH_CROSSING | TimeInForce.AT_CROSSING | TimeInForce.GOOD_FOR_TIME
  | TimeInForce.GFA | TimeInForce.GFM => IlinkTimeInForce.NULL_VALUE
  end.

Definition map_time_in_force (value : IlinkTimeInForce.Value) : TimeInForce.t :=
  match value with
  | IlinkTimeInForce.Day => TimeInForce.GFD
  | IlinkTimeInForce.GoodTillCancel => TimeInForce.GTC
  | IlinkTimeInForce.FillAndKill => TimeInForce.IOC
  | IlinkTimeInForce.FillOrKill => TimeInForce.FOK
  | IlinkTimeInForce.GoodTillDate => TimeInForce.GTD
  | IlinkTimeInForce.GoodForSession | IlinkTimeInForce.NULL_VALUE => TimeInForce.UNDEFINED
  end.

(** The set of execution instructions, in the order of its iterator. *)
Definition map_execution_instructions (execution_instructions : list ExecutionInstruction.t) : res Z :=
  let error := foldl (λ error item,
    match item with
    | ExecutionInstruction.UNDEFINED => error
    | ExecutionInstruction.PARTICIPATE_DO_NOT_INITIATE => true
    | ExecutionInstruction.CANCEL_IF_NOT_BEST => true
    | ExecutionInstruction.DO_NOT_INCREASE | ExecutionInstruction.DO_NOT_REDUCE => true
    end) false execution_instructions in
  if error then Err (Rejected "unsupported") else Ok 0.

Definition map_order_status (value : IlinkOrderStatus.Value) : OrderStatus.t :=
  match value with
  | IlinkOrderStatus.New => OrderStatus.WORKING
  | IlinkOrderStatus.PartiallyFilled => OrderStatus.WORKING
  | IlinkOrderStatus.Filled => OrderStatus.COMPLETED
  | IlinkOrderStatus.Cancelled => OrderStatus.CANCELED
  | IlinkOrderStatus.Replaced => OrderStatus.WORKING
  | IlinkOrderStatus.PendingCancel => OrderStatus.WORKING
  | IlinkOrderStatus.Rejected => OrderStatus.REJECTED
  | IlinkOrderStatus.Expired => OrderStatus.EXPIRED
  | IlinkOrderStatus.PendingReplace => OrderStatus.ACCEPTED
  | IlinkOrderStatus.Undefined | IlinkOrderStatus.NULL_VALUE => OrderStatus.UNDEFINED
  end.

Definition map_ord_status_trd (value : OrdStatusTrd.Value) : OrderStatus.t :=
  match value with
  | OrdStatusTrd.PartiallyFilled => OrderStatus.WORKING
  | OrdStatusTrd.Filled => OrderStatus.COMPLETED
  | OrdStatusTrd.NULL_VALUE => OrderStatus.UNDEFINED
  end.

(** ** Numbers *)

Definition int64_of_double : double → res Z := cast_double (- 2 ^ 63) (2 ^ 63 - 1).
Definition uint32_of_double : double → res Z := cast_double 0 (2 ^ 32 - 1).

Definition get_quantity `{SafeCast} (value : double) : res Z :=
  result ← safe_cast_to_int32 value;
  if 0 <=? result then uint32_of_double value else Err RuntimeError.

(** The generated constants of the price type: [mantissaNullValue()] and
    [exponent()] of PRICENULL9. *)
Class PriceNull9 := { mantissaNullValue : Z; price_exponent : Z }.

(** [set_price] of the encoders: the mantissa. *)
Definition set_price `{PriceNull9} (value : double) : res Z :=
  if isnan value then Ok mantissaNullValue
  else
    int64_of_double (dadd (dmul value (pow10 (- price_exponent))) (ddiv (double_of_Z 1) (double_of_Z 2))).

(** ** Execution reports

    The accessors that order entry calls on ExecutionReport{New522, Modify531,
    Status532, Cancel534, TradeOutright525}.  A [None] is an accessor that the
    template does not have (the [requires] expressions of the getters). *)

Inductive ord_status :=
  | StatusChar (c : Z)                          (** [char const *]: its first character *)
  | StatusTrd (v : OrdStatusTrd.Value)
  | Status (v : IlinkOrderStatus.Value).

Inductive qty := Qty (n : Z) | QtyNull (n : sbe_int).

Record fill_entry := { fl_fillExecID : string; fl_fillPx : any_decimal; fl_fillQty : Z }.

Record execution_report := {
  er_orderID : sbe_int;
  er_securityID : sbe_int;
  er_transactTime : sbe_int;
  er_orderRequestID : Z;
  er_senderID : string;
  er_side : SideReq.Value;
  er_ordType : IlinkOrderType.Value;
  er_timeInForce : IlinkTimeInForce.Value;
  er_clOrdID : string;
  er_ordStatus : ord_status;
  er_orderQty : Z;
  er_price : any_decimal;
  er_stopPx : any_decimal;
  er_leavesQty : option sbe_int;
  er_cumQty : option sbe_int;
  er_lastQty : option qty;
  er_lastPx : option any_decimal;
  er_aggressorIndicator : option BooleanFlag.Value;
  er_execID : string;
  er_noFills : list fill_entry;
  er_lastRptRequested : BooleanNULL.Value;
}.

(** The characters of [OrderStatus::Value] (generated code); [None] is a
    character that is no enumerator, for which no case of the switch applies. *)
Class OrderStatusChar := { order_status_of_char : Z → option IlinkOrderStatus.Value }.

(** [ilink::get_double]: the formula is the one of the market data decimals. *)
Definition ilink_get_double (d : any_decimal) : double :=
  match d with
  | Dec9 d => dmul (double_of_Z (mantissa d)) (pow10 (exponent d))
  | Dec9NULL d =>
    if raw (dn_mantissa d) =? null_value (dn_mantissa d) then NaN
    else dmul (double_of_Z (raw (dn_mantissa d))) (pow10 (dn_exponent d))
  end.

Section getters.
Context `{OrderStatusChar}.
Implicit Types (value : execution_report).

Definition get_order_id value : Z := get_int (er_orderID value).
Definition get_security_id value : Z := get_int (er_securityID value).
Definition get_transact_time (transact_time : sbe_int) : Z := get_int transact_time.

Definition get_ord_status value : OrderStatus.t :=
  match er_ordStatus value with
  | StatusChar c => default OrderStatus.UNDEFINED (map_order_status <$> order_status_of_char c)
  | StatusTrd v => map_ord_status_trd v
  | Status v => map_order_status v
  end.

Definition get_nullable (n : option sbe_int) : double :=
  match n with
  | Some n => if raw n =? null_value n then NaN else double_of_Z (raw n)
  | None => NaN
  end.
Definition get_leaves_qty value : double := get_nullable (er_leavesQty value).
Definition get_cum_qty value : double := get_nullable (er_cumQty value).

Definition get_last_qty value : double :=
  match er_lastQty value with
  | Some (Qty n) => double_of_Z n
  | Some (QtyNull n) => get_nullable (Some n)
  | None => NaN
  end.

Definition get_last_px value : double :=
  match er_lastPx value with Some d => ilink_get_double d | None => NaN end.

Definition get_aggressor_indicator value : Liquidity.t :=
  match er_aggressorIndicator value with
  | Some BooleanFlag.False => Liquidity.MAKER
  | Some BooleanFlag.True => Liquidity.TAKER
  | Some BooleanFlag.NULL_VALUE | None => Liquidity.UNDEFINED
  end.
End getters.

(** ** What order entry exchanges with the order management system

    As in [Api]: the members that are the same in every record are left out. *)

Record OrderUpdate := {
  ou_account : string;
  ou_exchange : string;
  ou_symbol : string;
  ou_side : Side.t;
  ou_order_type : OrderType.t;
  ou_time_in_force : TimeInForce.t;
  ou_create_time_utc : Z;
  ou_update_time_utc : Z;
  ou_external_order_id : string;
  ou_client_order_id : string;
  ou_order_status : OrderStatus.t;
  ou_quantity : double;
  ou_price : double;
  ou_stop_price : double;
  ou_remaining_quantity : double;
  ou_traded_quantity : double;
  ou_last_traded_quantity : double;
  ou_last_traded_price : double;
  ou_last_liquidity : Liquidity.t;
  ou_update_type : UpdateType.t;
}.

(** [update_type] is [SNAPSHOT] for ExecutionReportStatus532 only. *)
Definition order_update_from_execution_report `{OrderStatusChar} `{Sequencer mbp_update} `{Sequencer mbo_update}
    (update_type : UpdateType.t) (value : execution_report) (security : Security)
    (external_order_id : string) : OrderUpdate := {|
  ou_account := er_senderID value;
  ou_exchange := exchange security;
  ou_symbol := symbol security;
  ou_side := map_side (er_side value);
  ou_order_type := map_order_type (er_ordType value);
  ou_time_in_force := map_time_in_force (er_timeInForce value);
  ou_create_time_utc := get_transact_time (er_transactTime value);
  ou_update_time_utc := get_transact_time (er_transactTime value);
  ou_external_order_id := external_order_id;
  ou_client_order_id := er_clOrdID value;
  ou_order_status := get_ord_status value;
  ou_quantity := double_of_Z (er_orderQty value);
  ou_price := ilink_get_double (er_price value);
  ou_stop_price := ilink_get_double (er_stopPx value);
  ou_remaining_quantity := get_leaves_qty value;
  ou_traded_quantity := get_cum_qty value;
  ou_last_traded_quantity := get_last_qty value;
  ou_last_traded_price := get_last_px value;
  ou_last_liquidity := get_aggressor_indicator value;
  ou_update_type := update_type |}.

(** [server::oms::Response]. *)
Record Response := {
  rs_request_type : Z;
  rs_request_status : RequestStatus.t;
  rs_text : string;
  rs_external_order_id : string;
  rs_client_order_id : string;
  rs_quantity : double;
  rs_price : double;
}.

Record Fill := {
  fi_external_trade_id : string;
  fi_quantity : double;
  fi_price : double;
  fi_liquidity : Liquidity.t;
}.

Record TradeUpdate := {
  tu_order_id : Z;
  tu_exchange : string;
  tu_symbol : string;
  tu_side : Side.t;
  tu_create_time_utc : Z;
  tu_update_time_utc : Z;
  tu_external_order_id : string;
  tu_client_order_id : string;
  tu_fills : list Fill;
  tu_strategy_id : Z;
}.

(** [origin]: the gateway or the exchange. *)
Record CancelAllOrdersAck := {
  ca_order_id : Z;
  ca_exchange : string;
  ca_symbol : string;
  ca_side : Side.t;
  ca_origin_exchange : bool;
  ca_request_status : RequestStatus.t;
  ca_error_unknown : bool;
  ca_text : string;
  ca_request_id : string;
  ca_strategy_id : Z;
}.

(** The requests of the order management system, and the order they are for. *)
Record CreateOrder := {
  co_account : string;
  co_exchange : string;
  co_side : Side.t;
  co_quantity : double;
  co_order_type : OrderType.t;
  co_time_in_force : TimeInForce.t;
  co_execution_instructions : list ExecutionInstruction.t;
  co_price : double;
  co_stop_price : double;
}.
Record ModifyOrder := { mo_account : string; mo_quantity : double; mo_price : double }.
Record CancelOrder := { cn_account : string }.
Record CancelAllOrders := {
  cl_account : string;
  cl_order_id : Z;
  cl_exchange : string;
  cl_symbol : string;
  cl_side : Side.t;
  cl_strategy_id : Z;
}.
Record Order := {
  or_user_id : Z;
  or_order_id : Z;
  or_symbol : string;
  or_side : Side.t;
  or_order_type : OrderType.t;
  or_time_in_force : TimeInForce.t;
  or_client_order_id : string;
  or_strategy_id : Z;
}.

(** ** Facts *)

Lemma mask_ones n : 0 ≤ n → Z.shiftl 1 n - 1 = Z.ones n.
Proof. intros. rewrite Z.ones_equiv, Z.shiftl_1_l. lia. Qed.

(** A field of a number in two parts. *)
Lemma land_shiftr_lor v a k n :
  0 ≤ k → 0 ≤ n →
  Z.land (Z.shiftr (Z.lor v a) k) (Z.ones n) =
  Z.lor (Z.land (Z.shiftr v k) (Z.ones n)) (Z.land (Z.shiftr a k) (Z.ones n)).
Proof. intros. by rewrite Z.shiftr_lor, Z.land_lor_distr_l. Qed.

(** The field of [n] bits at [k] of a number of [n] bits that was shifted to [j]. *)
Lemma field_of_shiftl v j k n :
  0 ≤ v < 2 ^ n → 0 ≤ n → 0 ≤ k → 0 ≤ j →
  Z.land (Z.shiftr (Z.shiftl v j) k) (Z.ones n) =
    if decide (j = k) then v
    else if decide (n ≤ Z.abs (j - k)) then 0
    else Z.land (Z.shiftl v (j - k)) (Z.ones n).
Proof.
  intros Hv Hn Hk Hj. rewrite Z.shiftr_shiftl_l by done. repeat case_decide; subst; [|destruct (decide (j < k))|].
  - rewrite Z.sub_diag, Z.shiftl_0_r, Z.land_ones by done. by apply Z.mod_small.
  - rewrite <- Z.shiftr_opp_r, Z.shiftr_div_pow2 by lia.
    rewrite (Z.div_small v); [by rewrite Z.land_0_l|].
    assert (2 ^ n ≤ 2 ^ (- (j - k))) by (apply Z.pow_le_mono_r; lia). lia.
  - rewrite Z.land_ones, Z.shiftl_mul_pow2 by lia. replace (j - k) with (n + (j - k - n)) by lia.
    rewrite Z.pow_add_r by lia. apply Z.mod_divide; [apply Z.pow_nonzero; lia|].
    exists (v * 2 ^ (j - k - n)). lia.
  - done.
Qed.

Lemma land_ones_small v n : 0 ≤ n → 0 ≤ v < 2 ^ n → Z.land v (Z.ones n) = v.
Proof. intros. rewrite Z.land_ones by done. by apply Z.mod_small. Qed.

Lemma decode_encode type user_id order_id :
  in_width 8 type → in_width 8 user_id → in_width 64 order_id →
  decode_order_request_id (encode_order_request_id type user_id order_id) =
  (Z.lor type (Z.shiftr order_id 56),
   Z.lor user_id (Z.shiftr order_id 48 mod 2 ^ 8),
   order_id mod 2 ^ 48).
Proof.
  intros Ht Hu Ho. unfold in_width, encode_order_request_id, decode_order_request_id in *.
  rewrite !(wrap_small 64) by (unfold in_width; rewrite Z.shiftl_mul_pow2 by lia; lia).
  rewrite !mask_ones, !land_shiftr_lor, !field_of_shiftl by lia. simpl.
  rewrite !Z.land_lor_distr_l, !Z.lor_0_l, Z.lor_0_r.
  rewrite (Z.land_ones (Z.shiftl type 56)), (Z.land_ones (Z.shiftl user_id 48)), (Z.land_ones order_id) by lia.
  rewrite !Z.shiftl_mul_pow2 by lia.
  replace (type * 2 ^ 56) with (type * 2 ^ 8 * 2 ^ 48) by lia. rewrite !Z.mod_mul, !Z.lor_0_l by lia.
  assert (0 ≤ Z.shiftr order_id 56 < 2 ^ 8).
  { rewrite Z.shiftr_div_pow2 by lia. split; [apply Z.div_pos; lia|apply Z.div_lt_upper_bound; lia]. }
  rewrite (land_ones_small (Z.shiftr order_id 56)), Z.land_ones by lia.
  assert (Hlor : ∀ x y, 0 ≤ x < 2 ^ 8 → 0 ≤ y < 2 ^ 8 → u8 (Z.lor x y) = Z.lor x y).
  { intros x y Hx Hy. apply wrap_small. split; [apply Z.lor_nonneg; lia|].
    rewrite <- (land_ones_small x 8), <- (land_ones_small y 8), <- Z.land_lor_distr_l, Z.land_ones by lia.
    apply Z.mod_pos_bound; lia. }
  rewrite !Hlor; [done|lia|apply Z.mod_pos_bound; lia|lia|lia].
Qed.

(** An identifier that fits comes back. *)
Lemma decode_encode_fits type user_id order_id :
  in_width 8 type → in_width 8 user_id → 0 ≤ order_id ≤ ORDER_ID_MAX →
  decode_order_request_id (encode_order_request_id type user_id order_id) = (type, user_id, order_id).
Proof.
  unfold ORDER_ID_MAX, in_width. intros Ht Hu Ho. rewrite decode_encode by (unfold in_width; lia).
  rewrite !Z.shiftr_div_pow2, (Z.div_small order_id (2 ^ 56)), (Z.div_small order_id (2 ^ 48)) by lia.
  rewrite Z.mod_0_l, !Z.lor_0_r, (Z.mod_small order_id) by lia. done.
Qed.

Lemma get_quantity_negative `{SafeCast} value n :
  safe_cast_to_int32 value = Ok n → n < 0 → get_quantity value = Err RuntimeError.
Proof. intros Hn Hneg. unfold get_quantity. rewrite Hn. simpl. by rewrite (proj2 (Z.leb_gt 0 n)). Qed.

Lemma get_quantity_no_integer `{SafeCast} value e :
  safe_cast_to_int32 value = Err e → get_quantity value = Err e.
Proof. intros He. unfold get_quantity. by rewrite He. Qed.

Lemma execution_instruction_unsupported i l :
  i ∈ l → i ≠ ExecutionInstruction.UNDEFINED → map_execution_instructions l = Err (Rejected "unsupported").
Proof.
  intros Hi Hne. unfold map_execution_instructions. set (f := λ (error : bool) item, _).
  assert (foldl f false l = true) as ->; [|done].
  assert (∀ l, foldl f true l = true) as Htrue by (clear; induction l as [|[] l IH]; auto).
  induction l as [|j l IH]; [by apply elem_of_nil in Hi|]. apply elem_of_cons in Hi as [<-|Hi]; simpl.
  - by destruct i.
  - by destruct j; simpl; rewrite ?Htrue; auto.
Qed.

(** ** Properties *)

(** C29: Identifiers of requests.  The identifier that goes with a request comes
    back from the exchange as the type, user and order it was made of, as long
    as the order fits in 48 bits; the high bits of a larger order are not cut
    off: they are mixed into the user and the type. *)
Theorem order_request_id_roundtrip type user_id order_id :
  in_width 8 type → in_width 8 user_id → in_width 64 order_id →
  (order_id ≤ ORDER_ID_MAX →
   decode_order_request_id (encode_order_request_id type user_id order_id) = (type, user_id, order_id)) ∧
  decode_order_request_id (encode_order_request_id type user_id order_id) =
  (Z.lor type (Z.shiftr order_id 56),
   Z.lor user_id (Z.shiftr order_id 48 mod 2 ^ 8),
   order_id mod 2 ^ 48).
Proof.
  intros Ht Hu Ho. split; [intros|by apply decode_encode].
  apply decode_encode_fits; unfold in_width in *; lia.
Qed.

Lemma order_request_id_roundtrip_witness :
  decode_order_request_id (encode_order_request_id CREATE_ORDER 7 12345) = (CREATE_ORDER, 7, 12345)
  ∧ decode_order_request_id (encode_order_request_id CREATE_ORDER 7 (2 ^ 57 + 1)) = (CANCEL_ORDER, 7, 1).
Proof.
  split.
  - refine (proj1 (order_request_id_roundtrip CREATE_ORDER 7 12345 _ _ _) _);
      unfold in_width, CREATE_ORDER, ORDER_ID_MAX; lia.
  - refine (eq_trans (proj2 (order_request_id_roundtrip CREATE_ORDER 7 (2 ^ 57 + 1) _ _ _)) eq_refl);
      unfold in_width, CREATE_ORDER; lia.
Defined.

(** ** Prices *)

(** The price of [k] quarters of a point. *)
Definition quarters (k : Z) : double := ddiv (double_of_Z k) (double_of_Z 4).

(** The mantissa that is asked for, of the price of [k] quarters. *)
Definition quarters_mantissa (k : Z) : Z := if k <? 0 then k * 250000000 + 1 else k * 250000000.

Lemma forallb_range (f : Z → bool) n :
  forallb (λ i, f (Z.of_nat i - n)) (seq 0 (Z.to_nat (2 * n + 1))) = true → ∀ k, - n ≤ k ≤ n → f k = true.
Proof.
  intros Hf k Hk. rewrite forallb_forall in Hf. specialize (Hf (Z.to_nat (k + n))).
  rewrite Z2Nat.id, Z.add_simpl_r in Hf by lia. apply Hf. apply in_seq. lia.
Qed.

(** C30: Prices of orders.  A price of whole quarters of a point within a hundred
    points of zero is sent exactly when it is not negative; a negative one is
    sent too high by one unit of the ninth decimal, because the conversion to an
    integer rounds the sum with one half towards zero: no negative price of a
    tick is sent as a price of a tick. *)
Theorem set_price_quarters `{PriceNull9} k :
  price_exponent = -9 → -400 ≤ k ≤ 400 → set_price (quarters k) = Ok (quarters_mantissa k).
Proof.
  intros Hexp Hk. set (f k := match set_price (quarters k) with Ok z => z =? quarters_mantissa k | Err _ => false end).
  assert (f k = true) as Hf.
  { apply (forallb_range f 400); [|lia]. unfold f, set_price. rewrite Hexp. vm_compute. reflexivity. }
  unfold f in Hf. destruct (set_price (quarters k)) as [z|]; [|done]. bool_to_prop. by subst.
Qed.

Lemma set_price_quarters_witness :
  let I := {| mantissaNullValue := 2 ^ 63 - 1; price_exponent := -9 |} in
  set_price (quarters (-3)) = Ok (-749999999) ∧ set_price (quarters 5) = Ok 1250000000.
Proof.
  intros I. split.
  - refine (eq_trans (set_price_quarters (-3) eq_refl _) eq_refl). lia.
  - refine (eq_trans (set_price_quarters 5 eq_refl _) eq_refl). lia.
Defined.
