(* ===== verification/ILink.v ===== *)
(** iLink: messages, frames and the parser
    (src/roq/cme/protocol/ilink/parser.cpp, the request types of
    src/roq/cme/protocol/ilink/ and their [encode]).

    A frame is a two byte length, the two bytes of the encoding and one message:
    an SBE header and a body.  The SBE encoders and decoders are generated
    code: the class [IlinkSbe]. *)

From S2P Require Import Prelude Double Api MdpMap Messages MdpParser Security OrderTypes.

(** ** Messages of the exchange *)

Record business_reject := {
  br_refMsgType : string;
  br_businessRejectRefID : sbe_int;
  br_text : string;
}.

(** ExecutionReportReject523, OrderCancelReject535, OrderCancelReplaceReject536. *)
Record order_reject := {
  rj_clOrdID : string;
  rj_text : string;
  rj_orderRequestID : Z;
}.

Record affected_order := { af_origCIOrdID : string; af_affectedOrderID : Z }.

Record order_mass_action_report := {
  ma_massActionResponse : MassActionResponse.Value;
  ma_senderID : string;
  ma_transactTime : sbe_int;
  ma_noAffectedOrders : list affected_order;
}.

(** The templates of the switch. *)
Inductive ilink_template :=
  | T_NegotiationResponse501 | T_NegotiationReject502 | T_EstablishmentAck504
  | T_EstablishmentReject505 | T_Sequence506 | T_Terminate507 | T_Retransmission509
  | T_RetransmitReject510 | T_NotApplied513
  | T_PartyDetailsDefinitionRequestAck519 | T_BusinessReject521
  | T_ExecutionReportNew522 | T_ExecutionReportReject523 | T_ExecutionReportTradeOutright525
  | T_ExecutionReportTradeSpread526 | T_ExecutionReportTradeSpreadLeg527
  | T_ExecutionReportModify531 | T_ExecutionReportStatus532 | T_ExecutionReportCancel534
  | T_ExecutionReportPendingCancel564 | T_ExecutionReportPendingReplace565
  | T_OrderCancelReject535 | T_OrderCancelReplaceReject536
  | T_OrderMassActionReport562 | T_SecurityDefinitionResponse561.

(** The decoded messages.  Of the messages that are only logged nothing is
    read. *)
Inductive ilink_message :=
  | NegotiationResponse501
  | NegotiationReject502
  | EstablishmentAck504
  | EstablishmentReject505
  | Sequence506
  | Terminate507
  | Retransmission509
  | RetransmitReject510
  | NotApplied513
  | PartyDetailsDefinitionRequestAck519
  | BusinessReject521 (value : business_reject)
  | ExecutionReportNew522 (value : execution_report)
  | ExecutionReportReject523 (value : order_reject)
  | ExecutionReportTradeOutright525 (value : execution_report)
  | ExecutionReportTradeSpread526
  | ExecutionReportTradeSpreadLeg527
  | ExecutionReportModify531 (value : execution_report)
  | ExecutionReportStatus532 (value : execution_report)
  | ExecutionReportCancel534 (value : execution_report)
  | ExecutionReportPendingCancel564
  | ExecutionReportPendingReplace565
  | OrderCancelReject535 (value : order_reject)
  | OrderCancelReplaceReject536 (value : order_reject)
  | OrderMassActionReport562 (value : order_mass_action_report)
  | SecurityDefinitionResponse561.

(** ** Requests

    The members that depend on the session, the order or the time.  A member
    that order entry always gives the same value (the manual order indicator,
    the execution mode, the null values, the empty texts) is left out: it is a
    constant of the encoder.  A request over [P] has its prices in [P]: [double]
    when it is built, mantissas when it is encoded. *)

Record negotiate := {
  ng_hmac_signature : bytes;
  ng_access_key_id : string;
  ng_uuid : Z;
  ng_request_timestamp : Z;
  ng_session : string;
  ng_firm : string;
}.

Record establish := {
  es_hmac_signature : bytes;
  es_access_key_id : string;
  es_trading_system_name : string;
  es_trading_system_version : string;
  es_trading_system_vendor : string;
  es_uuid : Z;
  es_request_timestamp : Z;
  es_next_seq_no : Z;
  es_session : string;
  es_firm : string;
  es_keep_alive_interval : Z;
}.

Record sequence := { sq_uuid : Z; sq_next_seq_no : Z }.

(** The three parties, with the executing firm first. *)
Record party_details_definition := {
  pd_sending_time_epoch : Z;
  pd_seq_num : Z;
  pd_no_party_details : list string;
}.

Record order_mass_status := {
  ms_party_details_list_req_id : Z;
  ms_mass_status_req_id : Z;
  ms_seq_num : Z;
  ms_sender_id : string;
  ms_sending_time_epoch : Z;
  ms_location : string;
  ms_market_segment_id : Z;
}.

Record new_order_single (P : Type) := {
  no_price : P;
  no_order_qty : Z;
  no_security_id : Z;
  no_side : SideReq.Value;
  no_seq_num : Z;
  no_sender_id : string;
  no_cl_ord_id : string;
  no_party_details_list_req_id : Z;
  no_order_request_id : Z;
  no_sending_time_epoch : Z;
  no_stop_px : P;
  no_location : string;
  no_ord_type : OrderTypeReq.Value;
  no_time_in_force : IlinkTimeInForce.Value;
  no_exec_inst : Z;
}.
Arguments no_price {P}.
Arguments no_order_qty {P}.
Arguments no_security_id {P}.
Arguments no_side {P}.
Arguments no_seq_num {P}.
Arguments no_sender_id {P}.
Arguments no_cl_ord_id {P}.
Arguments no_party_details_list_req_id {P}.
Arguments no_order_request_id {P}.
Arguments no_sending_time_epoch {P}.
Arguments no_stop_px {P}.
Arguments no_location {P}.
Arguments no_ord_type {P}.
Arguments no_time_in_force {P}.
Arguments no_exec_inst {P}.

Record order_cancel_replace (P : Type) := {
  cr_price : P;
  cr_order_qty : Z;
  cr_security_id : Z;
  cr_side : SideReq.Value;
  cr_seq_num : Z;
  cr_sender_id : string;
  cr_cl_ord_id : string;
  cr_party_details_list_req_id : Z;
  cr_stop_px : P;
  cr_order_request_id : Z;
  cr_sending_time_epoch : Z;
  cr_location : string;
  cr_ord_type : OrderTypeReq.Value;
  cr_time_in_force : IlinkTimeInForce.Value;
}.
Arguments cr_price {P}.
Arguments cr_order_qty {P}.
Arguments cr_security_id {P}.
Arguments cr_side {P}.
Arguments cr_seq_num {P}.
Arguments cr_sender_id {P}.
Arguments cr_cl_ord_id {P}.
Arguments cr_party_details_list_req_id {P}.
Arguments cr_stop_px {P}.
Arguments cr_order_request_id {P}.
Arguments cr_sending_time_epoch {P}.
Arguments cr_location {P}.
Arguments cr_ord_type {P}.
Arguments cr_time_in_force {P}.

Record order_cancel := {
  oc_party_details_list_req_id : Z;
  oc_seq_num : Z;
  oc_sender_id : string;
  oc_cl_ord_id : string;
  oc_order_request_id : Z;
  oc_sending_time_epoch : Z;
  oc_location : string;
  oc_security_id : Z;
  oc_side : SideReq.Value;
}.

Record order_mass_action := {
  om_party_details_list_req_id : Z;
  om_order_request_id : Z;
  om_seq_num : Z;
  om_sender_id : string;
  om_sending_time_epoch : Z;
  om_location : string;
  om_market_segment_id : Z;
}.

Record party_details_list := {
  pl_party_details_list_req_id : Z;
  pl_sending_time_epoch : Z;
  pl_seq_num : Z;
}.

Record security_definition_req := {
  sr_party_details_list_req_id : Z;
  sr_seq_num : Z;
  sr_sender_id : string;
  sr_sending_time_epoch : Z;
  sr_location : string;
}.

(** A [Terminate] has no member that is given a value. *)
Inductive request (P : Type) :=
  | Negotiate (value : negotiate)
  | Establish (value : establish)
  | Sequence (value : sequence)
  | PartyDetailsDefinitionRequest (value : party_details_definition)
  | OrderMassStatusRequest (value : order_mass_status)
  | NewOrderSingle (value : new_order_single P)
  | OrderCancelReplaceRequest (value : order_cancel_replace P)
  | OrderCancelRequest (value : order_cancel)
  | OrderMassActionRequest (value : order_mass_action)
  | Terminate
  | PartyDetailsListRequest (value : party_details_list)
  | SecurityDefinitionRequest (value : security_definition_req).
Arguments Negotiate {P}.
Arguments Establish {P}.
Arguments Sequence {P}.
Arguments PartyDetailsDefinitionRequest {P}.
Arguments OrderMassStatusRequest {P}.
Arguments NewOrderSingle {P}.
Arguments OrderCancelReplaceRequest {P}.
Arguments OrderCancelRequest {P}.
Arguments OrderMassActionRequest {P}.
Arguments Terminate {P}.
Arguments PartyDetailsListRequest {P}.
Arguments SecurityDefinitionRequest {P}.

(** ** Encoding and decoding *)

Class IlinkSbe := {
  ilink_template_id : ilink_template → Z;
  ilink_template_id_inj : Inj (=) (=) ilink_template_id;
  ilink_encodedLength : nat;
  ilink_decode_header : bytes → res sbe_header;
  ilink_decode_header_app : ∀ h rest,
    length h = ilink_encodedLength → ilink_decode_header (h ++ rest) = ilink_decode_header h;
  ilink_decode_message : ilink_template → bytes → Z → Z → res ilink_message;
  (* requests: the null value of the market segment, and the message that the
     generated setters write *)
  marketSegmentIDNullValue : Z;
  sbe_encode : request Z → res bytes;
}.
#[global] Existing Instance ilink_template_id_inj.

(** The [encode] of each request: what it passes to the setters. *)
Definition encode_new_order_single `{PriceNull9} (value : new_order_single double)
    : res (new_order_single Z) :=
  price ← set_price (no_price value);
  stop_px ← set_price (no_stop_px value);
  Ok {| no_price := price; no_order_qty := no_order_qty value; no_security_id := no_security_id value;
        no_side := no_side value; no_seq_num := no_seq_num value; no_sender_id := no_sender_id value;
        no_cl_ord_id := no_cl_ord_id value;
        no_party_details_list_req_id := no_party_details_list_req_id value;
        no_order_request_id := no_order_request_id value;
        no_sending_time_epoch := no_sending_time_epoch value; no_stop_px := stop_px;
        no_location := no_location value; no_ord_type := no_ord_type value;
        no_time_in_force := no_time_in_force value; no_exec_inst := no_exec_inst value |}.

Definition encode_order_cancel_replace `{PriceNull9} (value : order_cancel_replace double)
    : res (order_cancel_replace Z) :=
  price ← set_price (cr_price value);
  stop_px ← set_price (cr_stop_px value);
  Ok {| cr_price := price; cr_order_qty := cr_order_qty value; cr_security_id := cr_security_id value;
        cr_side := cr_side value; cr_seq_num := cr_seq_num value; cr_sender_id := cr_sender_id value;
        cr_cl_ord_id := cr_cl_ord_id value;
        cr_party_details_list_req_id := cr_party_details_list_req_id value; cr_stop_px := stop_px;
        cr_order_request_id := cr_order_request_id value;
        cr_sending_time_epoch := cr_sending_time_epoch value; cr_location := cr_location value;
        cr_ord_type := cr_ord_type value; cr_time_in_force := cr_time_in_force value |}.

(** The market segment of a mass status request is null when it is zero, the
    one of a mass action request is not. *)
Definition encode_order_mass_status `{IlinkSbe} (value : order_mass_status) : order_mass_status :=
  {| ms_party_details_list_req_id := ms_party_details_list_req_id value;
     ms_mass_status_req_id := ms_mass_status_req_id value; ms_seq_num := ms_seq_num value;
     ms_sender_id := ms_sender_id value; ms_sending_time_epoch := ms_sending_time_epoch value;
     ms_location := ms_location value;
     ms_market_segment_id :=
       if negb (ms_market_segment_id value =? 0) then ms_market_segment_id value
       else marketSegmentIDNullValue |}.

Definition encode `{PriceNull9} `{IlinkSbe} (value : request double) : res bytes :=
  value ← match value with
    | Negotiate v => Ok (Negotiate v)
    | Establish v => Ok (Establish v)
    | Sequence v => Ok (Sequence v)
    | PartyDetailsDefinitionRequest v => Ok (PartyDetailsDefinitionRequest v)
    | OrderMassStatusRequest v => Ok (OrderMassStatusRequest (encode_order_mass_status v))
    | NewOrderSingle v => NewOrderSingle <$> encode_new_order_single v
    | OrderCancelReplaceRequest v => OrderCancelReplaceRequest <$> encode_order_cancel_replace v
    | OrderCancelRequest v => Ok (OrderCancelRequest v)
    | OrderMassActionRequest v => Ok (OrderMassActionRequest v)
    | Terminate => Ok Terminate
    | PartyDetailsListRequest v => Ok (PartyDetailsListRequest v)
    | SecurityDefinitionRequest v => Ok (SecurityDefinitionRequest v)
    end;
  sbe_encode value.

(** The sequence number of a request of the business layer. *)
Definition seq_num {P} (r : request P) : option Z :=
  match r with
  | Negotiate _ | Establish _ | Sequence _ | Terminate => None
  | PartyDetailsDefinitionRequest v => Some (pd_seq_num v)
  | OrderMassStatusRequest v => Some (ms_seq_num v)
  | NewOrderSingle v => Some (no_seq_num v)
  | OrderCancelReplaceRequest v => Some (cr_seq_num v)
  | OrderCancelRequest v => Some (oc_seq_num v)
  | OrderMassActionRequest v => Some (om_seq_num v)
  | PartyDetailsListRequest v => Some (pl_seq_num v)
  | SecurityDefinitionRequest v => Some (sr_seq_num v)
  end.

(** ** Parser *)

(** The labels of the switch, in its order. *)
Definition ilink_templates : list ilink_template :=
  [T_NegotiationResponse501; T_NegotiationReject502; T_EstablishmentAck504; T_EstablishmentReject505;
   T_Sequence506; T_Terminate507; T_Retransmission509; T_RetransmitReject510; T_NotApplied513;
   T_PartyDetailsDefinitionRequestAck519; T_BusinessReject521;
   T_ExecutionReportNew522; T_ExecutionReportReject523; T_ExecutionReportTradeOutright525;
   T_ExecutionReportTradeSpread526; T_ExecutionReportTradeSpreadLeg527; T_ExecutionReportModify531;
   T_ExecutionReportStatus532; T_ExecutionReportCancel534; T_ExecutionReportPendingCancel564;
   T_ExecutionReportPendingReplace565; T_OrderCancelReject535; T_OrderCancelReplaceReject536;
   T_OrderMassActionReport562; T_SecurityDefinitionResponse561].

Definition sofh_size : nat := 4.

(** [subspan(offset, count)] of a span; a [count] of all ones is
    [std::dynamic_extent], the rest of the span. *)
Definition subspan (offset : nat) (count : Z) (buffer : bytes) : res bytes :=
  if count =? 2 ^ 64 - 1 then
    if (length buffer <? offset)%nat then Err AccessOutOfBounds else Ok (drop offset buffer)
  else if Z.of_nat (length buffer) <? Z.of_nat offset + count then Err AccessOutOfBounds
  else Ok (take (Z.to_nat count) (drop offset buffer)).

Section ilink_parser.
Context `{IlinkSbe} {W : Type}.

(** [parse_helper]: the number of bytes of the frame, or zero when it is not
    complete. *)
Definition ilink_parse_helper (buffer : bytes) (callback : bytes → M W unit) : M W Z :=
  if (length buffer <? sofh_size)%nat then mret 0
  else
    let encoding := le_combine (take 2 (drop 2 buffer)) in
    if negb (encoding =? 0xCAFE) then throw Fatal
    else
      let length := le_combine (take 2 buffer) in
      if Z.of_nat (List.length buffer) <? length then mret 0
      else
        message ← lift (subspan sofh_size (u64 (length - 4)) buffer);
        callback message ≫= λ _,
        mret length.

Context (handler : ilink_message → M W unit).

(** The body of the [while]: whether the loop goes on, and the rest.  A frame
    has one message: it takes all that is left. *)
Definition ilink_step (message : bytes) : M W (bool * bytes) :=
  header ← lift (ilink_decode_header message);
  message ← lift (snd <$> subspan_first (Z.of_nat ilink_encodedLength) message);
  match List.find (λ t, ilink_template_id t =? templateId header) ilink_templates with
  | Some t =>
    value ← lift (ilink_decode_message t message (blockLength header) (version header));
    handler value ≫= λ _,
    mret (true, drop (length message) message)
  | None => mret (false, message)
  end.

(** The [while]; [None] when the fuel ran out. *)
Fixpoint ilink_loop (fuel : nat) (message : bytes) : M W (option unit) :=
  match message, fuel with
  | [], _ => mret (Some tt)
  | _, O => mret None
  | _, Datatypes.S fuel =>
    '(go_on, message) ← ilink_step message;
    if go_on : bool then ilink_loop fuel message else mret (Some tt)
  end.

(** [Parser::dispatch].  The fuel is the number of bytes of the message. *)
Definition ilink_dispatch (buffer : bytes) : M W Z :=
  ilink_parse_helper buffer (λ message,
    result ← ilink_loop (length message) message;
    match result with Some _ => mret tt | None => throw RuntimeError end).
End ilink_parser.

(** ** Encoded frames, for the statements *)

(** What [OrderEntry::send] writes: the length, the encoding, the message. *)
Definition encode_ilink_frame (message : bytes) : bytes :=
  le_split 2 (Z.of_nat (length message) + 4) ++ [0xFE; 0xCA] ++ message.

Definition ilink_frame_wf (message : bytes) : Prop := in_width 16 (Z.of_nat (length message) + 4).

(** A message decodes to [v] as the template of its header, or its template is
    none of the switch. *)
Inductive ilink_decodes `{IlinkSbe} : bytes → option ilink_message → Prop :=
  | ilink_decodes_known h body hd t v :
      length h = ilink_encodedLength → ilink_decode_header h = Ok hd →
      ilink_template_id t = templateId hd →
      ilink_decode_message t body (blockLength hd) (version hd) = Ok v →
      h ++ body ≠ [] → ilink_decodes (h ++ body) (Some v)
  | ilink_decodes_unknown h body hd :
      length h = ilink_encodedLength → ilink_decode_header h = Ok hd →
      (∀ t, ilink_template_id t ≠ templateId hd) → ilink_decodes (h ++ body) None
  | ilink_decodes_empty : ilink_decodes [] None.

(** What the handler does for a message. *)
Definition on_ilink {W} (handler : ilink_message → M W unit) (v : option ilink_message) : M W unit :=
  match v with Some v => handler v | None => mret tt end.

(** ** Facts *)

Section ilink_facts.
Context `{IlinkSbe} {W : Type} (handler : ilink_message → M W unit).

Lemma ilink_loop_nil fuel s : ilink_loop handler fuel [] s = (s, Ok (Some tt)).
Proof. by destruct fuel. Qed.

(** One turn of the loop takes the whole message, so that the fuel is never
    used up. *)
Lemma ilink_loop_ends fuel message s :
  (0 < fuel)%nat → (ilink_loop handler fuel message s).2 ≠ Ok None.
Proof.
  intros Hfuel. destruct message as [|b m]; [by rewrite ilink_loop_nil|]. destruct fuel as [|fuel]; [lia|].
  simpl. unfold mbind, M_bind. destruct (ilink_step handler (b :: m) s) as [s' [[[] rest]|e]] eqn:E; [|done|done].
  assert (rest = []) as ->; [|by rewrite ilink_loop_nil].
  revert E. unfold ilink_step, mbind, M_bind, lift.
  destruct (ilink_decode_header (b :: m)) as [hd|]; [|done].
  destruct (snd <$> _) as [message|]; [|done]. destruct (List.find _ _) as [t|]; [|done].
  destruct (ilink_decode_message _ _ _ _); [|done]. destruct (handler _ _) as [? [[]|]]; [|done].
  intros [= <- <-]. apply drop_all.
Qed.

Lemma keeps_ilink_dispatch (I : W → Prop) buffer :
  (∀ v, keeps I (handler v)) → keeps I (ilink_dispatch handler buffer).
Proof.
  intros Hv. assert (∀ fuel m, keeps I (ilink_loop handler fuel m)) as Hloop.
  { induction fuel as [|fuel IH]; intros [|b m]; simpl; try apply keeps_ret.
    apply keeps_bind; [|intros [[] rest]; [apply IH|apply keeps_ret]].
    unfold ilink_step. apply keeps_bind; [apply keeps_lift|]. intros hd.
    apply keeps_bind; [apply keeps_lift|]. intros message.
    destruct (List.find _ _) as [t|]; [|apply keeps_ret].
    apply keeps_bind; [apply keeps_lift|]. intros v. apply keeps_bind; [done|]. intros. apply keeps_ret. }
  unfold ilink_dispatch, ilink_parse_helper. destruct (_ <? _)%nat; [apply keeps_ret|]. cbv zeta.
  destruct (negb _); [apply keeps_throw|]. destruct (_ <? _); [apply keeps_ret|].
  apply keeps_bind; [apply keeps_lift|]. intros m. apply keeps_bind; [|intros; apply keeps_ret].
  apply keeps_bind; [apply Hloop|]. intros [[]|]; [apply keeps_ret|apply keeps_throw].
Qed.

Lemma ilink_template_listed t : t ∈ ilink_templates.
Proof. unfold ilink_templates. destruct t; set_solver. Qed.

Lemma find_ilink_template t :
  List.find (λ x, ilink_template_id x =? ilink_template_id t) ilink_templates = Some t.
Proof.
  pose proof (ilink_template_listed t) as Ht. revert Ht. generalize ilink_templates as l.
  induction l as [|x l IH]; [set_solver|]. simpl. destruct (_ =? _) eqn:E.
  - apply Z.eqb_eq, (inj ilink_template_id) in E. by subst.
  - intros [->|?]%elem_of_cons; [by rewrite Z.eqb_refl in E|auto].
Qed.

Lemma find_ilink_template_unknown id :
  (∀ t, ilink_template_id t ≠ id) → List.find (λ x, ilink_template_id x =? id) ilink_templates = None.
Proof.
  intros Hid. generalize ilink_templates as l. induction l as [|x l IH]; [done|]. simpl.
  by rewrite (proj2 (Z.eqb_neq _ _) (Hid x)).
Qed.

Lemma ilink_loop_decodes m v s :
  ilink_decodes m v →
  ilink_loop handler (length m) m s = (on_ilink handler v ≫= λ _, mret (Some tt)) s.
Proof.
  intros Hm. destruct (decide (m = [])) as [Em|Hne].
  { destruct Hm; [done|by rewrite Em, ilink_loop_nil|done]. }
  destruct m as [|b m']; [done|]. change (length (b :: m')) with (Datatypes.S (length m')).
  unfold ilink_loop at 1; fold (ilink_loop handler). remember (b :: m') as m eqn:Em. clear Em.
  destruct Hm as [h body hd t v Hh Hhd Ht Hv _|h body hd Hh Hhd Ht|]; [| |done].
  all: unfold ilink_step, mbind, M_bind, lift; rewrite ilink_decode_header_app, Hhd by done;
    rewrite <- Hh, subspan_first_app; cbn [fmap res_fmap snd].
  - rewrite <- Ht, find_ilink_template, Hv. simpl.
    destruct (handler v s) as [s' [[]|e]]; [|done]. rewrite drop_all. cbn [mret M_ret]. by rewrite ilink_loop_nil.
  - by rewrite find_ilink_template_unknown.
Qed.

Lemma length_encode_ilink_frame message :
  length (encode_ilink_frame message) = (sofh_size + length message)%nat.
Proof. done. Qed.

(** A frame is parsed to its message, and the rest of the buffer is left. *)
Lemma ilink_parse_helper_encode message rest callback (s : W) :
  ilink_frame_wf message →
  ilink_parse_helper (encode_ilink_frame message ++ rest) callback s =
  (callback message ≫= λ _, mret (Z.of_nat (length (encode_ilink_frame message)))) s.
Proof.
  intros Hwf. unfold ilink_parse_helper.
  rewrite (proj2 (Nat.ltb_ge _ _)) by (rewrite length_app, length_encode_ilink_frame; lia).
  assert (le_combine (take 2 (encode_ilink_frame message ++ rest)) = Z.of_nat (length message) + 4) as ->.
  { unfold encode_ilink_frame. rewrite <- !app_assoc, take_app_length' by (by rewrite length_le_split).
    by apply le_combine_split_small. }
  change (le_combine (take 2 (drop 2 _))) with 0xCAFE. rewrite Z.eqb_refl. cbv beta iota zeta delta [negb].
  rewrite (proj2 (Z.ltb_ge _ _)) by (rewrite length_app, length_encode_ilink_frame; unfold sofh_size; lia).
  unfold subspan. rewrite Z.add_simpl_r, wrap_small.
  2:{ unfold ilink_frame_wf, in_width in *. lia. }
  rewrite (proj2 (Z.eqb_neq _ _)) by (unfold ilink_frame_wf, in_width in *; lia).
  rewrite (proj2 (Z.ltb_ge _ _)) by (rewrite length_app, length_encode_ilink_frame; unfold sofh_size; lia).
  rewrite Nat2Z.id. unfold encode_ilink_frame. cbn [le_split app]. unfold sofh_size. cbn [drop].
  rewrite drop_0, take_app_length. unfold lift, mbind, M_bind. cbn [length].
  destruct (callback message s) as [s' [[]|]]; [|done]. cbn [mret M_ret]. do 2 f_equal. lia.
Qed.
End ilink_facts.
