(* ===== verification/OrderEntry.v ===== *)
(** Order entry: an iLink session
    (src/roq/cme/gateway/order_entry.cpp, order_entry.hpp).

    The state of a session, the requests it sends, and the handlers of what it
    gets: the actions of the order management system, the callbacks of the
    connection, and the messages of the exchange.

    The operations are computations that can throw ([M]); the state holds the
    log of what left the session.  The connection manager and the download state
    machine are library code: a call of the first is an entry of the log (its
    callbacks are inputs of their own), a call of the second is a finite
    resumption. *)

From S2P Require Import Prelude Double Api MdpMap Messages MdpParser Security SecdefReader SecurityDefinitions Channel MarketData Crypto OrderTypes ILink.

(** ** What leaves a session *)

Inductive oe_event :=
  | OeConnection (call : string)                       (** start, stop or close *)
  | OeDrain (bytes : Z)
  | OeSend (r : request double)                        (** [send(r)] *)
  | OeBytes (data : bytes)                             (** what was written to the connection *)
  | OeStreamStatus (status : ConnectionStatus.t)
  | OeResponse (r : Response) (target : option (Z * Z)) (u : option OrderUpdate)
  | OeOrderUpdate (u : OrderUpdate)
  | OeTradeUpdate (u : TradeUpdate) (user_id : Z)
  | OeCancelAllOrdersAck (a : CancelAllOrdersAck).

(** ** Parameters *)

Module State.
Inductive t := UNDEFINED | ORDERS | DONE.
End State.

(** A call of [core::Download2]: it returns, or calls the session back with a
    state and goes on with the number that is returned. *)
Inductive dprog (D : Type) :=
  | DRet (d : D)
  | DCall (s : State.t) (k : Z → dprog D).
Arguments DRet {D} _.
Arguments DCall {D} _ _.

Class Download2 := {
  download : Type;
  download_init : download;
  download_reset : download → download;
  download_begin : download → dprog download;
  download_check_relaxed : State.t → download → dprog download;
}.

(** The code outside the repository.  The clocks and the connection are
    functions of the number of times that they were used: nothing is assumed of
    them.  [connection_buffer] is the size of the buffer that the connection
    hands to the callback of [send]; [None] when there is no callback. *)
Class OrderEnv := {
  oe_env :: Env;
  oe_types :: RequestTypes;
  oe_price :: PriceNull9;
  oe_char :: OrderStatusChar;
  oe_sbe :: IlinkSbe;
  oe_mac :: Mac;
  oe_download :: Download2;
  clock_realtime : nat → Z;
  clock_system : nat → Z;
  connection_buffer : nat → option nat;
  safe_cast_to_uint16 : Z → res Z;
  safe_cast_to_uint16_fits : ∀ z, in_width 16 z → safe_cast_to_uint16 z = Ok z;
  (* the order that the dispatcher finds for an update *)
  find_order : list oe_event → OrderUpdate → option Order;
  SOURCE_NONE : Z;
  ORDER_ID_NONE : Z;
  STRATEGY_ID_NONE : Z;
  ROQ_PACKAGE_NAME : string;
  ROQ_BUILD_VERSION : string;
}.

Record Account := {
  account_name : string;
  account_login : string;
  account_password : string;
  account_secret : string;
}.

(** The const members, and the settings that are read. *)
Record OrderConfig := {
  cf_stream_id : Z;
  cf_account : Account;
  cf_market_segment_id : Z;
  cf_firm_id : string;
  cf_location : string;
}.

Definition SUPPORTS_ORDERS : list SupportType.t :=
  [SupportType.CREATE_ORDER; SupportType.MODIFY_ORDER; SupportType.CANCEL_ORDER;
   SupportType.ORDER_ACK; SupportType.ORDER; SupportType.TRADE].

Definition TRADING_SYSTEM_VENDOR : string := "ROQ GMBH".
(** Nanoseconds and milliseconds. *)
Definition KEEP_ALIVE_INTERVAL : Z := 30 * 10 ^ 9.
Definition KEEP_ALIVE_INTERVAL_ms : Z := 30000.
Definition MAX_SEQ_NUM : Z := 1000000000.
Definition ENCODE_BUFFER_LENGTH : nat := 512.
Definition party_details_list_req_id : Z := 0.

(** ** State *)

Record OrderEntry `{OrderEnv} := {
  oe_connection_status : ConnectionStatus.t;
  oe_outbound : Z;
  oe_inbound : Z;
  oe_next_heartbeat : Z;
  oe_uuid : Z;
  oe_request_id : Z;
  oe_download_ : download;
  (* the environment: how often it was used, and what it got *)
  oe_ticks : nat;
  oe_events : list oe_event;
}.

Section order_entry.
Context `{OrderEnv}.
Context (cfg : OrderConfig).

Definition create_order_entry : OrderEntry :=
  Build_OrderEntry _ ConnectionStatus.UNDEFINED 0 0 0 0 0 download_init 0 [].

Abbreviation Oe := (M OrderEntry).

Definition set_connection_status v s : OrderEntry :=
  Build_OrderEntry _ v (oe_outbound s) (oe_inbound s) (oe_next_heartbeat s) (oe_uuid s)
    (oe_request_id s) (oe_download_ s) (oe_ticks s) (oe_events s).
Definition set_outbound v s : OrderEntry :=
  Build_OrderEntry _ (oe_connection_status s) v (oe_inbound s) (oe_next_heartbeat s) (oe_uuid s)
    (oe_request_id s) (oe_download_ s) (oe_ticks s) (oe_events s).
Definition set_inbound v s : OrderEntry :=
  Build_OrderEntry _ (oe_connection_status s) (oe_outbound s) v (oe_next_heartbeat s) (oe_uuid s)
    (oe_request_id s) (oe_download_ s) (oe_ticks s) (oe_events s).
Definition set_next_heartbeat v s : OrderEntry :=
  Build_OrderEntry _ (oe_connection_status s) (oe_outbound s) (oe_inbound s) v (oe_uuid s)
    (oe_request_id s) (oe_download_ s) (oe_ticks s) (oe_events s).
Definition set_uuid v s : OrderEntry :=
  Build_OrderEntry _ (oe_connection_status s) (oe_outbound s) (oe_inbound s) (oe_next_heartbeat s) v
    (oe_request_id s) (oe_download_ s) (oe_ticks s) (oe_events s).
Definition set_request_id v s : OrderEntry :=
  Build_OrderEntry _ (oe_connection_status s) (oe_outbound s) (oe_inbound s) (oe_next_heartbeat s)
    (oe_uuid s) v (oe_download_ s) (oe_ticks s) (oe_events s).
Definition set_download v s : OrderEntry :=
  Build_OrderEntry _ (oe_connection_status s) (oe_outbound s) (oe_inbound s) (oe_next_heartbeat s)
    (oe_uuid s) (oe_request_id s) v (oe_ticks s) (oe_events s).
Definition tick s : OrderEntry :=
  Build_OrderEntry _ (oe_connection_status s) (oe_outbound s) (oe_inbound s) (oe_next_heartbeat s)
    (oe_uuid s) (oe_request_id s) (oe_download_ s) (Datatypes.S (oe_ticks s)) (oe_events s).
Definition push (e : oe_event) s : OrderEntry :=
  Build_OrderEntry _ (oe_connection_status s) (oe_outbound s) (oe_inbound s) (oe_next_heartbeat s)
    (oe_uuid s) (oe_request_id s) (oe_download_ s) (oe_ticks s) (oe_events s ++ [e]).

Definition event (e : oe_event) : Oe unit := modify (push e).

Definition read_env {A} (f : nat → A) : Oe A :=
  n ← gets oe_ticks; modify tick ≫= λ _, mret (f n).
Definition get_realtime : Oe Z := read_env clock_realtime.
Definition get_system : Oe Z := read_env clock_system.

Definition ready s : bool := bool_decide (oe_connection_status s = ConnectionStatus.READY).

(** ** Sending *)

Definition peek_next_seq_num s : Z := u32 (u32 (oe_outbound s + 1) mod MAX_SEQ_NUM).

Definition fetch_next_seq_num : Oe Z :=
  result ← gets peek_next_seq_num;
  modify (set_outbound result) ≫= λ _, mret result.

Definition fetch_next_request_id : Oe Z :=
  result ← gets (λ s, u64 (oe_request_id s + 1));
  modify (set_request_id result) ≫= λ _, mret result.

(** [send]: the frame is written to the buffer of the connection. *)
Definition send (value : request double) : Oe unit :=
  event (OeSend value) ≫= λ _,
  message ← lift (encode value);
  length ← lift (safe_cast_to_uint16 (Z.of_nat (length message) + 4));
  buffer ← read_env connection_buffer;
  match buffer with
  | Some size =>
    let data := le_split 2 length ++ [0xFE; 0xCA] ++ message in
    if (size <? List.length data)%nat then throw Fatal else event (OeBytes data)
  | None => mret tt
  end ≫= λ _,
  now ← get_system;
  modify (set_next_heartbeat (now + KEEP_ALIVE_INTERVAL)).

Definition sign (message : CanonicalMessage) : Oe bytes :=
  lift (create_signature (account_secret (cf_account cfg)) ENCODE_BUFFER_LENGTH message).

Definition send_negotiate : Oe unit :=
  now ← get_realtime;
  let uuid := u64 (Z.quot now 1000) in
  modify (set_uuid uuid) ≫= λ _,
  let canonical_message := {|
    cm_request_timestamp := now; cm_uuid := uuid; cm_session := account_login (cf_account cfg);
    cm_firm_id := cf_firm_id cfg; cm_trading_system_name := ""; cm_trading_system_version := "";
    cm_trading_system_vendor := ""; cm_next_seq_no := 0; cm_keep_alive_interval := 0 |} in
  hmac_signature ← sign canonical_message;
  send (Negotiate {|
    ng_hmac_signature := hmac_signature; ng_access_key_id := account_password (cf_account cfg);
    ng_uuid := cm_uuid canonical_message; ng_request_timestamp := cm_request_timestamp canonical_message;
    ng_session := cm_session canonical_message; ng_firm := cm_firm_id canonical_message |}).

Definition send_establish : Oe unit :=
  now ← get_realtime;
  uuid ← gets oe_uuid;
  next_seq_no ← gets peek_next_seq_num;
  let canonical_message := {|
    cm_request_timestamp := now; cm_uuid := uuid; cm_session := account_login (cf_account cfg);
    cm_firm_id := cf_firm_id cfg; cm_trading_system_name := ROQ_PACKAGE_NAME;
    cm_trading_system_version := ROQ_BUILD_VERSION; cm_trading_system_vendor := TRADING_SYSTEM_VENDOR;
    cm_next_seq_no := next_seq_no; cm_keep_alive_interval := KEEP_ALIVE_INTERVAL_ms |} in
  hmac_signature ← sign canonical_message;
  send (Establish {|
    es_hmac_signature := hmac_signature; es_access_key_id := account_password (cf_account cfg);
    es_trading_system_name := cm_trading_system_name canonical_message;
    es_trading_system_version := cm_trading_system_version canonical_message;
    es_trading_system_vendor := cm_trading_system_vendor canonical_message;
    es_uuid := cm_uuid canonical_message; es_request_timestamp := cm_request_timestamp canonical_message;
    es_next_seq_no := cm_next_seq_no canonical_message; es_session := cm_session canonical_message;
    es_firm := cm_firm_id canonical_message;
    es_keep_alive_interval := cm_keep_alive_interval canonical_message |}).

Definition send_sequence : Oe unit :=
  uuid ← gets oe_uuid;
  next_seq_no ← gets peek_next_seq_num;
  send (Sequence {| sq_uuid := uuid; sq_next_seq_no := next_seq_no |}).

Definition send_party_details_definition_request : Oe unit :=
  now ← get_realtime;
  seq_num ← fetch_next_seq_num;
  send (PartyDetailsDefinitionRequest {|
    pd_sending_time_epoch := now; pd_seq_num := seq_num;
    pd_no_party_details := [cf_firm_id cfg; account_name (cf_account cfg); account_name (cf_account cfg)] |}).

(** [if (!party_details_list_req_id_)]: before each request of the business layer. *)
Definition send_party_details : Oe unit :=
  when (party_details_list_req_id =? 0) send_party_details_definition_request.

(** Three requests that nothing in the gateway sends. *)
Definition send_terminate : Oe unit := send Terminate.

Definition send_party_details_list_request : Oe unit :=
  now ← get_realtime;
  seq_num ← fetch_next_seq_num;
  send (PartyDetailsListRequest {|
    pl_party_details_list_req_id := 1; pl_sending_time_epoch := now; pl_seq_num := seq_num |}).

Definition send_security_definition_request : Oe unit :=
  now ← get_realtime;
  seq_num ← fetch_next_seq_num;
  send (SecurityDefinitionRequest {|
    sr_party_details_list_req_id := party_details_list_req_id; sr_seq_num := seq_num;
    sr_sender_id := account_name (cf_account cfg); sr_sending_time_epoch := now;
    sr_location := cf_location cfg |}).

Definition send_order_mass_status_request : Oe unit :=
  now ← get_realtime;
  mass_status_req_id ← fetch_next_request_id;
  seq_num ← fetch_next_seq_num;
  send (OrderMassStatusRequest {|
    ms_party_details_list_req_id := party_details_list_req_id;
    ms_mass_status_req_id := mass_status_req_id; ms_seq_num := seq_num;
    ms_sender_id := account_name (cf_account cfg); ms_sending_time_epoch := now;
    ms_location := cf_location cfg; ms_market_segment_id := cf_market_segment_id cfg |}).


(** [throw server::oms::Rejected]. *)
Definition no_mapping (order : Order) : error :=
  Rejected ("No mapping for market_segment_id=" +:+ fmt_Z (cf_market_segment_id cfg) +:+ " and symbol=" +:+
    quote +:+ or_symbol order +:+ quote).

Context (sd : SecurityDefinitions).

Definition send_new_order_single (create_order : CreateOrder) (order : Order) (request_id : string)
    : Oe unit :=
  match find_security_id (cf_market_segment_id cfg) (or_symbol order) sd with
  | Some security_id =>
    match get_security security_id sd with
    | Some security =>
      if negb (bool_decide (co_exchange create_order = exchange security)) then
        throw (Rejected ("Expected: " +:+ exchange security))
      else
        order_qty ← lift (get_quantity (co_quantity create_order));
        let side := map_side_req (co_side create_order) in
        let order_request_id :=
          encode_order_request_id CREATE_ORDER (or_user_id order) (or_order_id order) in
        let ord_type := map_order_type_req (co_order_type create_order) in
        let time_in_force := map_time_in_force_req (co_time_in_force create_order) in
        exec_inst ← lift (map_execution_instructions (co_execution_instructions create_order));
        send_party_details ≫= λ _,
        now ← get_realtime;
        seq_num ← fetch_next_seq_num;
        send (NewOrderSingle {|
          no_price := co_price create_order; no_order_qty := order_qty; no_security_id := security_id;
          no_side := side; no_seq_num := seq_num; no_sender_id := account_name (cf_account cfg);
          no_cl_ord_id := request_id; no_party_details_list_req_id := party_details_list_req_id;
          no_order_request_id := order_request_id; no_sending_time_epoch := now;
          no_stop_px := co_stop_price create_order; no_location := cf_location cfg;
          no_ord_type := ord_type; no_time_in_force := time_in_force; no_exec_inst := exec_inst |})
    | None => throw Fatal
    end
  | None => throw (no_mapping order)
  end.

Definition send_order_cancel_replace_request (modify_order : ModifyOrder) (order : Order) : Oe unit :=
  match find_security_id (cf_market_segment_id cfg) (or_symbol order) sd with
  | Some security_id =>
    order_qty ← lift (get_quantity (mo_quantity modify_order));
    let side := map_side_req (or_side order) in
    let order_request_id :=
      encode_order_request_id MODIFY_ORDER (or_user_id order) (or_order_id order) in
    let ord_type := map_order_type_req (or_order_type order) in
    let time_in_force := map_time_in_force_req (or_time_in_force order) in
    send_party_details ≫= λ _,
    now ← get_realtime;
    seq_num ← fetch_next_seq_num;
    send (OrderCancelReplaceRequest {|
      cr_price := mo_price modify_order; cr_order_qty := order_qty; cr_security_id := security_id;
      cr_side := side; cr_seq_num := seq_num; cr_sender_id := account_name (cf_account cfg);
      cr_cl_ord_id := or_client_order_id order;
      cr_party_details_list_req_id := party_details_list_req_id; cr_stop_px := NaN;
      cr_order_request_id := order_request_id; cr_sending_time_epoch := now;
      cr_location := cf_location cfg; cr_ord_type := ord_type; cr_time_in_force := time_in_force |})
  | None => throw (no_mapping order)
  end.

Definition send_order_cancel_request (order : Order) : Oe unit :=
  match find_security_id (cf_market_segment_id cfg) (or_symbol order) sd with
  | Some security_id =>
    let order_request_id :=
      encode_order_request_id CANCEL_ORDER (or_user_id order) (or_order_id order) in
    let side := map_side_req (or_side order) in
    send_party_details ≫= λ _,
    now ← get_realtime;
    seq_num ← fetch_next_seq_num;
    send (OrderCancelRequest {|
      oc_party_details_list_req_id := party_details_list_req_id; oc_seq_num := seq_num;
      oc_sender_id := account_name (cf_account cfg); oc_cl_ord_id := or_client_order_id order;
      oc_order_request_id := order_request_id; oc_sending_time_epoch := now;
      oc_location := cf_location cfg; oc_security_id := security_id; oc_side := side |})
  | None => throw (no_mapping order)
  end.

Definition send_order_mass_action_request : Oe unit :=
  send_party_details ≫= λ _,
  now ← get_realtime;
  order_request_id ← fetch_next_request_id;
  seq_num ← fetch_next_seq_num;
  send (OrderMassActionRequest {|
    om_party_details_list_req_id := party_details_list_req_id; om_order_request_id := order_request_id;
    om_seq_num := seq_num; om_sender_id := account_name (cf_account cfg);
    om_sending_time_epoch := now; om_location := cf_location cfg;
    om_market_segment_id := cf_market_segment_id cfg |}).

(** ** Status and download *)

(** [operator()(Trace<ConnectionStatus> const &)]. *)
Definition on_connection_status (status : ConnectionStatus.t) : Oe unit :=
  modify (set_connection_status status) ≫= λ _,
  event (OeStreamStatus status).

(** [download]: what the state machine calls back. *)
Definition on_download (state : State.t) : Oe Z :=
  match state with
  | State.UNDEFINED => mret 0
  | State.ORDERS =>
    send_party_details ≫= λ _,
    send_order_mass_status_request ≫= λ _,
    mret 1
  | State.DONE =>
    on_connection_status ConnectionStatus.READY ≫= λ _,
    mret 0
  end.

(** A call of the state machine.  The state it had is kept when a callback
    throws. *)
Fixpoint run_download (p : dprog download) : Oe unit :=
  match p with
  | DRet d => modify (set_download d)
  | DCall state k => on_download state ≫= λ n, run_download (k n)
  end.

Definition download_call (f : download → dprog download) : Oe unit :=
  d ← gets oe_download_; run_download (f d).

(** ** Actions of the order management system *)

Definition when_ready (m : Oe unit) : Oe Z :=
  is_ready ← gets ready;
  if negb is_ready then throw NotReady else m ≫= λ _, mret (cf_stream_id cfg).

Definition on_create_order (create_order : CreateOrder) (order : Order) (request_id : string) : Oe Z :=
  when_ready (send_new_order_single create_order order request_id).

Definition on_modify_order (modify_order : ModifyOrder) (order : Order) : Oe Z :=
  when_ready (send_order_cancel_replace_request modify_order order).

Definition on_cancel_order (order : Order) : Oe Z :=
  when_ready (send_order_cancel_request order).

Definition on_cancel_all_orders (cancel_all_orders : CancelAllOrders) (request_id : string) : Oe Z :=
  when_ready (
    send_order_mass_action_request ≫= λ _,
    event (OeCancelAllOrdersAck {|
      ca_order_id := cl_order_id cancel_all_orders; ca_exchange := cl_exchange cancel_all_orders;
      ca_symbol := cl_symbol cancel_all_orders; ca_side := cl_side cancel_all_orders;
      ca_origin_exchange := false; ca_request_status := RequestStatus.FORWARDED;
      ca_error_unknown := false; ca_text := ""; ca_request_id := request_id;
      ca_strategy_id := cl_strategy_id cancel_all_orders |})).

(** ** Start, stop, timer *)

Definition on_start : Oe unit := event (OeConnection "start").
Definition on_stop : Oe unit := event (OeConnection "stop").

(** [refreshed] is what the connection manager returned. *)
Definition on_oe_timer (refreshed : bool) (origin_create_time : Z) : Oe unit :=
  when refreshed (
    is_ready ← gets ready;
    next_heartbeat ← gets oe_next_heartbeat;
    when (is_ready && (origin_create_time <? next_heartbeat)) send_sequence).

(** ** Messages of the exchange *)

(** A response without an order update, to a request. *)
Definition rejection (type : Z) (text cl_ord_id : string) : Response := {|
  rs_request_type := type; rs_request_status := RequestStatus.REJECTED; rs_text := text;
  rs_external_order_id := ""; rs_client_order_id := cl_ord_id; rs_quantity := NaN; rs_price := NaN |}.

Definition acceptance (type : Z) (u : OrderUpdate) : Response := {|
  rs_request_type := type; rs_request_status := RequestStatus.ACCEPTED; rs_text := "";
  rs_external_order_id := ou_external_order_id u; rs_client_order_id := ou_client_order_id u;
  rs_quantity := ou_quantity u; rs_price := ou_price u |}.

Definition on_business_reject (value : business_reject) : Oe unit :=
  let ref_msg_type := br_refMsgType value in
  when (bool_decide (ref_msg_type = "D") || bool_decide (ref_msg_type = "G") || bool_decide (ref_msg_type = "F"))
    (let '(type, user_id, order_id) := decode_order_request_id (get_int (br_businessRejectRefID value)) in
     event (OeResponse (rejection type (br_text value) "") (Some (user_id, order_id)) None)).

(** The reports with an order id, on an instrument that is known and not
    filtered. *)
Definition with_order (value : execution_report) (f : string → Security → Oe unit) : Oe unit :=
  let order_id := get_order_id value in
  if negb (order_id =? 0) then
    let external_order_id := fmt_Z order_id in
    match get_security (get_security_id value) sd with
    | Some security => f external_order_id security
    | None => mret tt
    end
  else mret tt.

Definition order_update_of (type : UpdateType.t) (value : execution_report) (external_order_id : string)
    (security : Security) : OrderUpdate :=
  order_update_from_execution_report type value security external_order_id.

Definition on_execution_report_new (value : execution_report) : Oe unit :=
  with_order value (λ external_order_id security,
    let '(type, user_id, order_id) := decode_order_request_id (er_orderRequestID value) in
    let order_update := order_update_of UpdateType.INCREMENTAL value external_order_id security in
    event (OeResponse (acceptance type order_update) (Some (user_id, order_id)) None)).

Definition on_execution_report_reject (value : order_reject) : Oe unit :=
  let '(type, user_id, order_id) := decode_order_request_id (rj_orderRequestID value) in
  event (OeResponse (rejection type (rj_text value) (rj_clOrdID value)) (Some (user_id, order_id)) None).

(** [noFills]: one fill for each entry. *)
Definition fill_of (value : execution_report) (item : fill_entry) : Fill := {|
  fi_external_trade_id := er_execID value +:+ fl_fillExecID item;
  fi_quantity := double_of_Z (fl_fillQty item);
  fi_price := ilink_get_double (fl_fillPx item);
  fi_liquidity := get_aggressor_indicator value |}.

Definition on_execution_report_trade_outright (value : execution_report) : Oe unit :=
  with_order value (λ external_order_id security,
    let order_update := order_update_of UpdateType.INCREMENTAL value external_order_id security in
    order ← gets (λ s, find_order (oe_events s) order_update);
    let '(user_id, order_id, strategy_id) :=
      match order with
      | Some order => (or_user_id order, or_order_id order, or_strategy_id order)
      | None => (SOURCE_NONE, ORDER_ID_NONE, STRATEGY_ID_NONE)
      end in
    event (OeOrderUpdate order_update) ≫= λ _,
    let fills := map (fill_of value) (er_noFills value) in
    match fills with
    | [] => mret tt
    | _ =>
      event (OeTradeUpdate {|
        tu_order_id := order_id; tu_exchange := exchange security; tu_symbol := symbol security;
        tu_side := map_side (er_side value);
        tu_create_time_utc := get_transact_time (er_transactTime value);
        tu_update_time_utc := get_transact_time (er_transactTime value);
        tu_external_order_id := external_order_id;
        tu_client_order_id := ou_client_order_id order_update; tu_fills := fills;
        tu_strategy_id := strategy_id |} user_id)
    end).

Definition on_execution_report_modify (value : execution_report) : Oe unit :=
  with_order value (λ external_order_id security,
    let '(type, _, _) := decode_order_request_id (er_orderRequestID value) in
    let order_update := order_update_of UpdateType.INCREMENTAL value external_order_id security in
    event (OeResponse (acceptance type order_update) None (Some order_update))).

Definition on_execution_report_status (value : execution_report) : Oe unit :=
  with_order value (λ external_order_id security,
    event (OeOrderUpdate (order_update_of UpdateType.SNAPSHOT value external_order_id security))) ≫= λ _,
  when (bool_decide (er_lastRptRequested value = BooleanNULL.True))
    (download_call (download_check_relaxed State.ORDERS)).

Definition on_execution_report_cancel (value : execution_report) : Oe unit :=
  with_order value (λ external_order_id security,
    let order_update := order_update_of UpdateType.INCREMENTAL value external_order_id security in
    event (OeResponse (acceptance CANCEL_ORDER order_update) None (Some order_update))).

(** OrderCancelReject535 and OrderCancelReplaceReject536. *)
Definition on_order_cancel_reject (value : order_reject) : Oe unit :=
  let '(type, _, _) := decode_order_request_id (rj_orderRequestID value) in
  event (OeResponse (rejection type (rj_text value) (rj_clOrdID value)) None None).

Definition affected_update (value : order_mass_action_report) (item : affected_order) : OrderUpdate := {|
  ou_account := ma_senderID value; ou_exchange := ""; ou_symbol := ""; ou_side := Side.UNDEFINED;
  ou_order_type := OrderType.UNDEFINED; ou_time_in_force := TimeInForce.UNDEFINED;
  ou_create_time_utc := 0; ou_update_time_utc := get_transact_time (ma_transactTime value);
  ou_external_order_id := fmt_Z (af_affectedOrderID item);
  ou_client_order_id := af_origCIOrdID item; ou_order_status := OrderStatus.CANCELED;
  ou_quantity := zero_d; ou_price := NaN; ou_stop_price := NaN; ou_remaining_quantity := NaN;
  ou_traded_quantity := NaN; ou_last_traded_quantity := NaN; ou_last_traded_price := NaN;
  ou_last_liquidity := Liquidity.UNDEFINED; ou_update_type := UpdateType.INCREMENTAL |}.

Definition mass_action_ack (status : RequestStatus.t) (error_unknown : bool) (text : string)
    : CancelAllOrdersAck := {|
  ca_order_id := 0; ca_exchange := ""; ca_symbol := ""; ca_side := Side.UNDEFINED;
  ca_origin_exchange := true; ca_request_status := status; ca_error_unknown := error_unknown;
  ca_text := text; ca_request_id := ""; ca_strategy_id := 0 |}.

Definition on_order_mass_action_report (value : order_mass_action_report) : Oe unit :=
  match ma_massActionResponse value with
  | MassActionResponse.Rejected =>
    event (OeCancelAllOrdersAck (mass_action_ack RequestStatus.REJECTED true "unknown"))
  | MassActionResponse.Accepted =>
    for_each (ma_noAffectedOrders value) (λ item, event (OeOrderUpdate (affected_update value item))) ≫= λ _,
    event (OeCancelAllOrdersAck (mass_action_ack RequestStatus.ACCEPTED false ""))
  | MassActionResponse.NULL_VALUE => mret tt
  end.

Definition on_ilink_message (value : ilink_message) : Oe unit :=
  match value with
  | NegotiationResponse501 => send_establish
  | NegotiationReject502 => event (OeConnection "close")
  | EstablishmentAck504 =>
    on_connection_status ConnectionStatus.DOWNLOADING ≫= λ _,
    download_call download_begin
  | EstablishmentReject505 => event (OeConnection "close")
  | Sequence506 => mret tt
  | Terminate507 => event (OeConnection "close")
  | Retransmission509 | RetransmitReject510 | NotApplied513 => mret tt
  | PartyDetailsDefinitionRequestAck519 => mret tt
  | BusinessReject521 value => on_business_reject value
  | ExecutionReportNew522 value => on_execution_report_new value
  | ExecutionReportReject523 value => on_execution_report_reject value
  | ExecutionReportTradeOutright525 value => on_execution_report_trade_outright value
  | ExecutionReportTradeSpread526 | ExecutionReportTradeSpreadLeg527 => mret tt
  | ExecutionReportModify531 value => on_execution_report_modify value
  | ExecutionReportStatus532 value => on_execution_report_status value
  | ExecutionReportCancel534 value => on_execution_report_cancel value
  | ExecutionReportPendingCancel564 | ExecutionReportPendingReplace565 => mret tt
  | OrderCancelReject535 value => on_order_cancel_reject value
  | OrderCancelReplaceReject536 value => on_order_cancel_reject value
  | OrderMassActionReport562 value => on_order_mass_action_report value
  | SecurityDefinitionResponse561 => mret tt
  end.

(** ** Callbacks of the connection *)

Definition on_connected : Oe unit :=
  send_negotiate ≫= λ _,
  on_connection_status ConnectionStatus.LOGIN_SENT.

Definition on_disconnected : Oe unit :=
  modify (set_outbound 0) ≫= λ _,
  modify (set_inbound 0) ≫= λ _,
  modify (λ s, set_download (download_reset (oe_download_ s)) s) ≫= λ _,
  modify (set_next_heartbeat 0) ≫= λ _,
  on_connection_status ConnectionStatus.DISCONNECTED.

(** The [while] of [Read] over the buffer of the connection: the bytes of the
    frames that were complete; [None] when the fuel ran out. *)
Fixpoint read_loop (fuel : nat) (buffer : bytes) (total_bytes : Z) : Oe (option Z) :=
  match buffer, fuel with
  | [], _ => mret (Some total_bytes)
  | _, O => mret None
  | _, Datatypes.S fuel =>
    bytes ← ilink_dispatch on_ilink_message buffer;
    if bytes =? 0 then mret (Some total_bytes)
    else read_loop fuel (drop (Z.to_nat bytes) buffer) (total_bytes + bytes)
  end.

(** The fuel is the number of bytes: each turn takes one or more. *)
Definition on_read (buffer : bytes) : Oe unit :=
  total_bytes ← read_loop (length buffer) buffer 0;
  match total_bytes with
  | Some total_bytes => event (OeDrain total_bytes)
  | None => throw RuntimeError
  end.
End order_entry.

(** ** Runs

    What happens to a session, each with the security definitions of that time.
    An exception leaves the session in the state it had reached. *)

Inductive oe_input :=
  | InStart
  | InStop
  | InTimer (refreshed : bool) (origin_create_time : Z)
  | InConnected
  | InDisconnected
  | InRead (buffer : bytes)
  | InCreateOrder (create_order : CreateOrder) (order : Order) (request_id : string)
  | InModifyOrder (modify_order : ModifyOrder) (order : Order)
  | InCancelOrder (order : Order)
  | InCancelAllOrders (cancel_all_orders : CancelAllOrders) (request_id : string).

Section order_entry_runs.
Context `{OrderEnv} (cfg : OrderConfig).

Definition on_input (sd : SecurityDefinitions) (i : oe_input) : M OrderEntry unit :=
  match i with
  | InStart => on_start
  | InStop => on_stop
  | InTimer refreshed origin_create_time => on_oe_timer refreshed origin_create_time
  | InConnected => on_connected cfg
  | InDisconnected => on_disconnected
  | InRead buffer => on_read cfg sd buffer
  | InCreateOrder create_order order request_id =>
    on_create_order cfg sd create_order order request_id ≫= λ _, mret tt
  | InModifyOrder modify_order order => on_modify_order cfg sd modify_order order ≫= λ _, mret tt
  | InCancelOrder order => on_cancel_order cfg sd order ≫= λ _, mret tt
  | InCancelAllOrders cancel_all_orders request_id =>
    on_cancel_all_orders cfg cancel_all_orders request_id ≫= λ _, mret tt
  end.

Definition oe_step (s : OrderEntry) (i : SecurityDefinitions * oe_input) : OrderEntry :=
  (on_input i.1 i.2 s).1.

Definition oe_run (s : OrderEntry) (inputs : list (SecurityDefinitions * oe_input)) : OrderEntry :=
  foldl oe_step s inputs.
End order_entry_runs.

(** ** A concrete environment, for the witnesses *)

Definition example_ilink_template_id (t : ilink_template) : Z :=
  match t with
  | T_NegotiationResponse501 => 501 | T_NegotiationReject502 => 502 | T_EstablishmentAck504 => 504
  | T_EstablishmentReject505 => 505 | T_Sequence506 => 506 | T_Terminate507 => 507
  | T_Retransmission509 => 509 | T_RetransmitReject510 => 510 | T_NotApplied513 => 513
  | T_PartyDetailsDefinitionRequestAck519 => 519 | T_BusinessReject521 => 521
  | T_ExecutionReportNew522 => 522 | T_ExecutionReportReject523 => 523
  | T_ExecutionReportTradeOutright525 => 525 | T_ExecutionReportTradeSpread526 => 526
  | T_ExecutionReportTradeSpreadLeg527 => 527 | T_ExecutionReportModify531 => 531
  | T_ExecutionReportStatus532 => 532 | T_ExecutionReportCancel534 => 534
  | T_ExecutionReportPendingCancel564 => 564 | T_ExecutionReportPendingReplace565 => 565
  | T_OrderCancelReject535 => 535 | T_OrderCancelReplaceReject536 => 536
  | T_OrderMassActionReport562 => 562 | T_SecurityDefinitionResponse561 => 561
  end.

#[global] Instance example_ilink_template_id_inj : Inj (=) (=) example_ilink_template_id.
Proof. intros [] [] He; (reflexivity || discriminate He). Qed.

Definition example_int (n : Z) : sbe_int := {| raw := n; null_value := 2 ^ 64 - 1 |}.

Definition example_report (order_id security_id order_request_id : Z) (fills : list fill_entry)
    (last : BooleanNULL.Value) : execution_report := {|
  er_orderID := example_int order_id; er_securityID := example_int security_id;
  er_transactTime := example_int 1000; er_orderRequestID := order_request_id; er_senderID := "A1";
  er_side := SideReq.Buy; er_ordType := IlinkOrderType.Limit; er_timeInForce := IlinkTimeInForce.Day;
  er_clOrdID := "abc"; er_ordStatus := StatusChar 48; er_orderQty := 10;
  er_price := Dec9 {| mantissa := 1500000000; exponent := -9 |};
  er_stopPx := Dec9NULL {| dn_mantissa := {| raw := 0; null_value := 0 |}; dn_exponent := -9 |};
  er_leavesQty := None; er_cumQty := Some (example_int 3); er_lastQty := Some (Qty 3);
  er_lastPx := Some (Dec9 {| mantissa := 1500000000; exponent := -9 |});
  er_aggressorIndicator := Some BooleanFlag.True; er_execID := "E1"; er_noFills := fills;
  er_lastRptRequested := last |}.

Definition example_fills : list fill_entry :=
  [{| fl_fillExecID := "1"; fl_fillPx := Dec9 {| mantissa := 1500000000; exponent := -9 |}; fl_fillQty := 1 |};
   {| fl_fillExecID := "2"; fl_fillPx := Dec9 {| mantissa := 1500000000; exponent := -9 |}; fl_fillQty := 2 |}].

(** The report on an order of user 7 with number 12345, of the instrument 118. *)
Definition example_trade : execution_report :=
  example_report 9 118 (encode_order_request_id CREATE_ORDER 7 12345) example_fills BooleanNULL.False.

(** Messages without a body, a trade, and a status report that is the last one. *)
Definition example_ilink_decode (t : ilink_template) (_ : bytes) (_ _ : Z) : res ilink_message :=
  match t with
  | T_NegotiationResponse501 => Ok NegotiationResponse501
  | T_EstablishmentAck504 => Ok EstablishmentAck504
  | T_Sequence506 => Ok Sequence506
  | T_Terminate507 => Ok Terminate507
  | T_ExecutionReportTradeOutright525 => Ok (ExecutionReportTradeOutright525 example_trade)
  | T_ExecutionReportStatus532 => Ok (ExecutionReportStatus532 (example_report 0 0 0 [] BooleanNULL.True))
  | _ => Err RuntimeError
  end.

Definition example_ilink_sbe : IlinkSbe := {|
  ilink_template_id := example_ilink_template_id;
  ilink_template_id_inj := _;
  ilink_encodedLength := 8;
  ilink_decode_header := example_decode_header;
  ilink_decode_header_app := example_decode_header_app;
  ilink_decode_message := example_ilink_decode;
  marketSegmentIDNullValue := 255;
  sbe_encode r := Ok (match seq_num r with Some n => le_split 4 n | None => [] end);
|}.

(** One answer is awaited. *)
Definition example_download : Download2 := {|
  download := bool;
  download_init := false;
  download_reset _ := false;
  download_begin _ := DCall State.ORDERS (λ n, DRet (bool_decide (n = 1)));
  download_check_relaxed _ waiting :=
    if waiting : bool then DCall State.DONE (λ _, DRet false) else DRet waiting;
|}.

#[refine] Definition example_types : RequestTypes := {| MODIFY_ORDER := 2 |}.
Proof. split; lia. Defined.

#[refine] Definition example_mac : Mac := {| writer_text _ s := Ok s; hmac _ s := [Z.of_nat (String.length s)] |}.
Proof. done. Defined.

#[refine] Definition example_order_env : OrderEnv := {|
  oe_env := the_env;
  oe_types := example_types;
  oe_price := {| mantissaNullValue := 2 ^ 63 - 1; price_exponent := -9 |};
  oe_char := {| order_status_of_char c := if c =? 48 then Some IlinkOrderStatus.New else None |};
  oe_sbe := example_ilink_sbe;
  oe_mac := example_mac;
  oe_download := example_download;
  clock_realtime n := 1700000000000000000 + Z.of_nat n;
  clock_system n := 5000000000 + Z.of_nat n;
  connection_buffer _ := Some (Z.to_nat 65536);
  safe_cast_to_uint16 z := if decide (in_width 16 z) then Ok z else Err OutOfRange;
  find_order _ _ := Some {|
    or_user_id := 7; or_order_id := 12345; or_symbol := "ESZ4"; or_side := Side.BUY;
    or_order_type := OrderType.LIMIT; or_time_in_force := TimeInForce.GFD; or_client_order_id := "abc";
    or_strategy_id := 0 |};
  SOURCE_NONE := 0; ORDER_ID_NONE := 0; STRATEGY_ID_NONE := 0;
  ROQ_PACKAGE_NAME := "roq-cme"; ROQ_BUILD_VERSION := "1.0";
|}.
Proof. intros z Hz. by rewrite decide_True. Defined.

Definition example_account : Account := {|
  account_name := "A1"; account_login := "ABC"; account_password := "key"; account_secret := "secret" |}.

Definition example_config : OrderConfig := {|
  cf_stream_id := 9; cf_account := example_account; cf_market_segment_id := 64; cf_firm_id := "007";
  cf_location := "UK" |}.
