(* ===== verification/OrderEntryRuns.v ===== *)
(** Order entry: what holds for any run of a session
    (the definitions of [OrderEntry]).

    The log of a session is compared with an abstract specification: a monitor
    that reads the log event by event and knows nothing but the status, the last
    sequence number and whether the parties were just defined. *)

From S2P Require Import Prelude Double Api MdpMap Messages MdpParser Security SecdefReader SecurityDefinitions Channel MarketData Crypto OrderTypes ILink OrderEntry.

(** ** The specification of a session *)

Record session_view := {
  sv_status : ConnectionStatus.t;
  sv_number : Z;          (** the last sequence number *)
  sv_parties : bool;      (** the last request defined the parties *)
}.

Definition initial_view : session_view :=
  {| sv_status := ConnectionStatus.UNDEFINED; sv_number := 0; sv_parties := false |}.

Definition next_number (n : Z) : Z := (n + 1) mod MAX_SEQ_NUM.

(** Requests that act on orders. *)
Definition acts_on_orders {P} (r : request P) : bool :=
  match r with
  | NewOrderSingle _ | OrderCancelReplaceRequest _ | OrderCancelRequest _ | OrderMassActionRequest _ => true
  | _ => false
  end.

Definition defines_parties {P} (r : request P) : bool :=
  match r with PartyDetailsDefinitionRequest _ => true | _ => false end.

(** Requests that the gateway knows and never sends. *)
Definition never_sent {P} (r : request P) : bool :=
  match r with Terminate | PartyDetailsListRequest _ | SecurityDefinitionRequest _ => true | _ => false end.

(** A request that the specification allows, and the view after it. *)
Definition allowed (v : session_view) (r : request double) : option session_view :=
  match r with
  | Negotiate _ => Some v
  | Establish e => if es_next_seq_no e =? next_number (sv_number v) then Some v else None
  | Sequence q =>
    if bool_decide (sv_status v = ConnectionStatus.READY) && (sq_next_seq_no q =? next_number (sv_number v))
    then Some v else None
  | _ =>
    if negb (never_sent r) && bool_decide (seq_num r = Some (next_number (sv_number v)))
       && (defines_parties r || sv_parties v)
       && (negb (acts_on_orders r) || bool_decide (sv_status v = ConnectionStatus.READY))
    then Some {| sv_status := sv_status v; sv_number := next_number (sv_number v);
                 sv_parties := defines_parties r |}
    else None
  end.

Definition monitor (v : session_view) (e : oe_event) : option session_view :=
  match e with
  | OeSend r => allowed v r
  | OeStreamStatus status =>
    Some {| sv_status := status;
            sv_number := if bool_decide (status = ConnectionStatus.DISCONNECTED) then 0 else sv_number v;
            sv_parties := sv_parties v |}
  | _ => Some v
  end.

Fixpoint monitor_log (v : session_view) (es : list oe_event) : option session_view :=
  match es with
  | [] => Some v
  | e :: es => monitor v e ≫= λ v, monitor_log v es
  end.

Lemma monitor_log_app v es1 es2 :
  monitor_log v (es1 ++ es2) = (monitor_log v es1 ≫= λ v, monitor_log v es2).
Proof. revert v. induction es1 as [|e es1 IH]; intros v; [done|]. simpl. by destruct (monitor v e); simpl. Qed.

(** ** The invariant *)

Section session_facts.
Context `{OrderEnv} (cfg : OrderConfig) (sd : SecurityDefinitions).

(** The log is allowed, and its view is the status [status], the number of the
    session, and [parties]. *)
Definition session_with (parties : bool) (status : ConnectionStatus.t) (s : OrderEntry) : Prop :=
  0 ≤ oe_outbound s < MAX_SEQ_NUM ∧ oe_connection_status s = status ∧
  monitor_log initial_view (oe_events s) =
  Some {| sv_status := status; sv_number := oe_outbound s; sv_parties := parties |}.

Definition session_ok (s : OrderEntry) : Prop := ∃ parties, session_with parties (oe_connection_status s) s.

Lemma session_with_ok parties status s : session_with parties status s → session_ok s.
Proof. intros (Hn & Hst & Hs). exists parties. unfold session_with. by rewrite Hst. Qed.

Lemma session_with_push parties status e s parties' :
  session_with parties status s →
  monitor {| sv_status := status; sv_number := oe_outbound s; sv_parties := parties |} e =
    Some {| sv_status := status; sv_number := oe_outbound s; sv_parties := parties' |} →
  session_with parties' status (push e s).
Proof.
  intros (Hn & Hst & Hs) He. split; [done|]. split; [done|]. simpl. rewrite monitor_log_app, Hs. simpl. by rewrite He.
Qed.

(** Events that the specification does not look at. *)
Definition unseen (e : oe_event) : Prop := ∀ v, monitor v e = Some v.

(** A change of the state that neither the log nor the view shows. *)
Lemma keeps_silent parties status f :
  (∀ s, oe_events (f s) = oe_events s ∧ oe_connection_status (f s) = oe_connection_status s
        ∧ oe_outbound (f s) = oe_outbound s) →
  keeps (session_with parties status) (modify f).
Proof.
  intros Hf. apply keeps_modify. intros s Hs. destruct (Hf s) as (He & Hc & Ho).
  unfold session_with in *. by rewrite He, Hc, Ho.
Qed.

Lemma keeps_unseen parties status e : unseen e → keeps (session_with parties status) (event e).
Proof. intros He s Hs. by eapply session_with_push. Qed.

Lemma keeps_read_env parties status {A} (f : nat → A) : keeps (session_with parties status) (read_env f).
Proof.
  apply keeps_bind; [apply keeps_gets|]. intros n.
  apply keeps_bind; [by apply keeps_silent|]. intros. apply keeps_ret.
Qed.

(** Once the request is in the log, sending it changes nothing that is seen. *)
Lemma triple_send parties status r P :
  (∀ s, P s → session_with parties status (push (OeSend r) s)) →
  triple (session_with parties status) P (send r) (λ _, session_with parties status).
Proof.
  intros HP. apply (triple_bind _ _ _ _ (λ _, session_with parties status)); [by apply triple_modify|].
  intros []. apply keeps_bind; [apply keeps_lift|]. intros message.
  apply keeps_bind; [apply keeps_lift|]. intros length.
  apply keeps_bind; [apply keeps_read_env|]. intros [size|].
  all: apply keeps_bind; [|intros; apply keeps_bind; [apply keeps_read_env|intros; by apply keeps_silent]].
  - cbv zeta. destruct (_ <? _)%nat; [apply keeps_throw|by apply keeps_unseen].
  - apply keeps_ret.
Qed.

Lemma peek_next s : 0 ≤ oe_outbound s < MAX_SEQ_NUM → peek_next_seq_num s = next_number (oe_outbound s).
Proof.
  intros Hs. unfold peek_next_seq_num, next_number, MAX_SEQ_NUM in *.
  rewrite (wrap_small 32 (_ + 1)) by (unfold in_width; lia).
  apply wrap_small. unfold in_width. pose proof (Z.mod_pos_bound (oe_outbound s + 1) 1000000000). lia.
Qed.

Lemma next_number_range n : 0 ≤ next_number n < MAX_SEQ_NUM.
Proof. apply Z.mod_pos_bound. done. Qed.

(** A request of the business layer, with the number that is fetched for it. *)
Lemma triple_numbered parties status f :
  (∀ n, seq_num (f n) = Some n) →
  (∀ n, defines_parties (f n) || parties = true) →
  (∀ n, acts_on_orders (f n) = true → status = ConnectionStatus.READY) →
  (∀ n, never_sent (f n) = false) →
  (∀ n m, defines_parties (f n) = defines_parties (f m)) →
  triple session_ok (session_with parties status) (n ← fetch_next_seq_num; send (f n))
    (λ _, session_with (defines_parties (f 0)) status).
Proof.
  intros Hseq Hparties Hacts Hcalled Hsame.
  apply (triple_bind _ _ _ _ (λ n s, 0 ≤ n < MAX_SEQ_NUM ∧ n = oe_outbound s ∧ oe_connection_status s = status ∧
    ∃ m, n = next_number m ∧ monitor_log initial_view (oe_events s) =
      Some {| sv_status := status; sv_number := m; sv_parties := parties |})).
  - intros s (Hn & Hst & Hs). simpl. rewrite peek_next by done.
    split; [apply next_number_range|]. eauto 10.
  - intros n. eapply triple_exn; [apply session_with_ok|]. apply triple_send.
    intros s (Hn & Hout & Hst & m & Hm & Hs). split; [simpl; lia|]. split; [done|]. simpl.
    rewrite monitor_log_app, Hs. simpl.
    specialize (Hseq n). specialize (Hparties n). specialize (Hacts n). specialize (Hcalled n). rewrite (Hsame 0 n).
    assert (allowed {| sv_status := status; sv_number := m; sv_parties := parties |} (f n) =
      Some {| sv_status := status; sv_number := n; sv_parties := defines_parties (f n) |}) as ->; [|by rewrite Hout].
    assert (bool_decide (seq_num (f n) = Some (next_number m)) = true) as Hb
      by (rewrite Hseq, Hm; by apply bool_decide_true).
    assert (negb (acts_on_orders (f n)) || bool_decide (status = ConnectionStatus.READY) = true) as Ha.
    { destruct (acts_on_orders (f n)); [|done]. rewrite Hacts by done. done. }
    unfold allowed. cbn [sv_status sv_number sv_parties].
    destruct (f n) eqn:Ef; try discriminate; rewrite <- Ef in *; by rewrite Hcalled, Hb, Hparties, Ha, Hm.
Qed.

(** ** The requests *)

Lemma keeps_session {A} (m : M OrderEntry A) :
  (∀ parties status, triple session_ok (session_with parties status) m (λ _, session_ok)) →
  keeps session_ok m.
Proof. intros Hm s [parties Hs]. by apply (Hm parties (oe_connection_status s)). Qed.

Lemma session_of_keeps {A} parties status (m : M OrderEntry A) :
  keeps (session_with parties status) m →
  triple session_ok (session_with parties status) m (λ _, session_with parties status).
Proof. apply triple_exn, session_with_ok. Qed.

Lemma keeps_of_session {A} (m : M OrderEntry A) :
  (∀ parties status, keeps (session_with parties status) m) → keeps session_ok m.
Proof.
  intros Hm. apply keeps_session. intros parties status.
  eapply triple_weaken; [by apply session_of_keeps|done|]. intros ? s. apply session_with_ok.
Qed.

Lemma keeps_ok_unseen e : unseen e → keeps session_ok (event e).
Proof. intros He. apply keeps_of_session. intros. by apply keeps_unseen. Qed.

Lemma keeps_ok_read_env {A} (f : nat → A) : keeps session_ok (read_env f).
Proof. apply keeps_of_session. intros. apply keeps_read_env. Qed.

(** A step of a bind that nothing of the specification sees. *)
Ltac unseen_step :=
  eapply triple_bind;
  [apply session_of_keeps; first [apply keeps_read_env | apply keeps_gets | apply keeps_lift]
  |intros ?; cbv beta].

Lemma keeps_ok_send parties status r P :
  (∀ s, P s → session_with parties status (push (OeSend r) s)) →
  triple session_ok P (send r) (λ _, session_ok).
Proof.
  intros HP. eapply triple_exn; [apply session_with_ok|].
  eapply triple_weaken; [by apply triple_send|by eauto|]. intros ? s. apply session_with_ok.
Qed.

Lemma keeps_send_negotiate : keeps session_ok (send_negotiate cfg).
Proof.
  apply keeps_session. intros parties status. unfold send_negotiate.
  unseen_step. eapply triple_bind; [by apply session_of_keeps, keeps_silent|]. intros ?.
  unseen_step. apply (keeps_ok_send parties status). intros s Hs. by eapply session_with_push.
Qed.

(** The next sequence number, as the session announces it. *)
Lemma triple_peek parties status :
  triple session_ok (session_with parties status) (gets peek_next_seq_num)
    (λ n s, n = next_number (oe_outbound s) ∧ session_with parties status s).
Proof. apply triple_gets. intros s Hs. split; [apply peek_next, Hs|done]. Qed.

Lemma keeps_send_establish : keeps session_ok (send_establish cfg).
Proof.
  apply keeps_session. intros parties status. unfold send_establish.
  unseen_step. unseen_step. eapply triple_bind; [apply triple_peek|]. intros n.
  eapply triple_bind.
  { apply triple_lift; [intros s [_ Hs]; by eapply session_with_ok|]. intros b s _. exact id. }
  intros b. apply (keeps_ok_send parties status). intros s [-> Hs].
  eapply session_with_push; [done|]. simpl. by rewrite Z.eqb_refl.
Qed.

Lemma triple_send_sequence parties :
  triple session_ok (session_with parties ConnectionStatus.READY) send_sequence (λ _, session_ok).
Proof.
  unfold send_sequence. unseen_step. eapply triple_bind; [apply triple_peek|]. intros n.
  apply (keeps_ok_send parties ConnectionStatus.READY). intros s [-> Hs].
  eapply session_with_push; [done|]. simpl. by rewrite Z.eqb_refl.
Qed.

Lemma triple_party_details parties status :
  triple session_ok (session_with parties status) (send_party_details cfg) (λ _, session_with true status).
Proof.
  unfold send_party_details. change (party_details_list_req_id =? 0) with true.
  unfold when, send_party_details_definition_request. unseen_step. by apply triple_numbered.
Qed.

(** The requests that follow the definition of the parties. *)
Lemma triple_numbered_ok status f :
  (∀ n, seq_num (f n) = Some n) →
  (∀ n, acts_on_orders (f n) = true → status = ConnectionStatus.READY) →
  (∀ n, never_sent (f n) = false) →
  (∀ n m, defines_parties (f n) = defines_parties (f m)) →
  triple session_ok (session_with true status) (n ← fetch_next_seq_num; send (f n)) (λ _, session_ok).
Proof.
  intros Hseq Hacts Hcalled Hsame. eapply triple_weaken.
  - apply (triple_numbered true status); [done| |done|done|done]. intros n. apply orb_true_r.
  - done.
  - intros ? s. apply session_with_ok.
Qed.

Lemma silent_request_id parties status :
  triple session_ok (session_with parties status) fetch_next_request_id (λ _, session_with parties status).
Proof.
  apply session_of_keeps. apply keeps_bind; [apply keeps_gets|]. intros n.
  apply keeps_bind; [by apply keeps_silent|]. intros. apply keeps_ret.
Qed.

Lemma triple_mass_status status :
  triple session_ok (session_with true status) (send_order_mass_status_request cfg) (λ _, session_ok).
Proof.
  unfold send_order_mass_status_request. unseen_step.
  eapply triple_bind; [apply silent_request_id|]. intros ?. by apply triple_numbered_ok.
Qed.

Lemma triple_new_order parties create_order order request_id :
  triple session_ok (session_with parties ConnectionStatus.READY)
    (send_new_order_single cfg sd create_order order request_id) (λ _, session_ok).
Proof.
  unfold send_new_order_single. destruct (find_security_id _ _ _) as [security_id|].
  2:{ apply triple_throw. intros s. apply session_with_ok. }
  destruct (get_security _ _) as [security|].
  2:{ apply triple_throw. intros s. apply session_with_ok. }
  destruct (negb _); [apply triple_throw; intros s; apply session_with_ok|].
  unseen_step. cbv zeta. unseen_step.
  eapply triple_bind; [apply triple_party_details|]. intros ?. unseen_step. by apply triple_numbered_ok.
Qed.

Lemma triple_cancel_replace parties modify_order order :
  triple session_ok (session_with parties ConnectionStatus.READY)
    (send_order_cancel_replace_request cfg sd modify_order order) (λ _, session_ok).
Proof.
  unfold send_order_cancel_replace_request. destruct (find_security_id _ _ _) as [security_id|].
  2:{ apply triple_throw. intros s. apply session_with_ok. }
  unseen_step. cbv zeta.
  eapply triple_bind; [apply triple_party_details|]. intros ?. unseen_step. by apply triple_numbered_ok.
Qed.

Lemma triple_cancel parties order :
  triple session_ok (session_with parties ConnectionStatus.READY)
    (send_order_cancel_request cfg sd order) (λ _, session_ok).
Proof.
  unfold send_order_cancel_request. destruct (find_security_id _ _ _) as [security_id|].
  2:{ apply triple_throw. intros s. apply session_with_ok. }
  cbv zeta. eapply triple_bind; [apply triple_party_details|]. intros ?. unseen_step.
  by apply triple_numbered_ok.
Qed.

Lemma triple_mass_action parties :
  triple session_ok (session_with parties ConnectionStatus.READY)
    (send_order_mass_action_request cfg) (λ _, session_ok).
Proof.
  unfold send_order_mass_action_request.
  eapply triple_bind; [apply triple_party_details|]. intros ?. unseen_step.
  eapply triple_bind; [apply silent_request_id|]. intros ?. by apply triple_numbered_ok.
Qed.

(** ** The handlers *)

Lemma keeps_connection_status status' :
  status' ≠ ConnectionStatus.DISCONNECTED → keeps session_ok (on_connection_status status').
Proof.
  intros Hne s [parties (Hn & _ & Hs)]. simpl. exists parties. split; [done|]. split; [done|]. simpl.
  rewrite monitor_log_app, Hs. simpl. by rewrite bool_decide_false.
Qed.

Lemma keeps_disconnected : keeps session_ok on_disconnected.
Proof.
  intros s [parties (Hn & _ & Hs)]. simpl. exists parties. split; [done|]. split; [done|]. simpl.
  rewrite monitor_log_app, Hs. done.
Qed.

Lemma keeps_download_orders :
  keeps session_ok (send_party_details cfg ≫= λ _, send_order_mass_status_request cfg).
Proof.
  apply keeps_session. intros parties status.
  eapply triple_bind; [apply triple_party_details|]. intros ?. apply triple_mass_status.
Qed.

Lemma keeps_on_download state : keeps session_ok (on_download cfg state).
Proof.
  destruct state; simpl.
  - apply keeps_ret.
  - intros s Hs. specialize (keeps_download_orders s Hs). unfold mbind, M_bind.
    destruct (send_party_details cfg s) as [s1 [[]|e]]; [|done].
    by destruct (send_order_mass_status_request cfg s1) as [s2 [[]|e]].
  - apply keeps_bind; [by apply keeps_connection_status|]. intros. apply keeps_ret.
Qed.

Lemma keeps_silent_ok f :
  (∀ s, oe_events (f s) = oe_events s ∧ oe_connection_status (f s) = oe_connection_status s
        ∧ oe_outbound (f s) = oe_outbound s) →
  keeps session_ok (modify f).
Proof. intros Hf. apply keeps_of_session. intros. by apply keeps_silent. Qed.

Lemma keeps_run_download p : keeps session_ok (run_download cfg p).
Proof.
  induction p as [d|state k IH]; simpl; [by apply keeps_silent_ok|].
  apply keeps_bind; [apply keeps_on_download|done].
Qed.

Lemma keeps_download_call f : keeps session_ok (download_call cfg f).
Proof. apply keeps_bind; [apply keeps_gets|]. intros d. apply keeps_run_download. Qed.

Lemma keeps_when_ready m :
  (∀ parties, triple session_ok (session_with parties ConnectionStatus.READY) m (λ _, session_ok)) →
  keeps session_ok (when_ready cfg m).
Proof.
  intros Hm s [parties Hs]. unfold when_ready, mbind, M_bind, gets, ready. cbn beta iota.
  case_bool_decide as Hr; simpl; [|by exists parties].
  rewrite Hr in Hs. specialize (Hm parties s Hs). by destruct (m s) as [s' [[]|e]].
Qed.

Lemma keeps_timer refreshed origin_create_time : keeps session_ok (on_oe_timer refreshed origin_create_time).
Proof.
  apply keeps_when. intros s [parties Hs]. unfold mbind, M_bind, gets, ready. cbn beta iota.
  case_bool_decide as Hr; simpl; [|by exists parties]. rewrite Hr in Hs.
  destruct (_ <? _); [apply (triple_send_sequence parties s Hs)|by exists parties; rewrite Hr].
Qed.

Lemma keeps_with_order value f :
  (∀ external_order_id security, keeps session_ok (f external_order_id security)) →
  keeps session_ok (with_order sd value f).
Proof.
  intros Hf. unfold with_order. destruct (negb _); [|apply keeps_ret].
  destruct (get_security _ _); [apply Hf|apply keeps_ret].
Qed.

Lemma keeps_ilink_message value : keeps session_ok (on_ilink_message cfg sd value).
Proof.
  destruct value as [| | | | | | | | | |value|value|value|value| | |value|value|value| | |value|value|value|];
    simpl; try by (apply keeps_ret || apply keeps_ok_unseen).
  - apply keeps_send_establish.
  - apply keeps_bind; [by apply keeps_connection_status|]. intros. apply keeps_download_call.
  - by apply keeps_when, keeps_ok_unseen.
  - apply keeps_with_order. intros. by apply keeps_ok_unseen.
  - apply keeps_with_order. intros. cbv beta zeta. apply keeps_bind; [apply keeps_gets|]. intros [order|]; cbn beta iota.
    all: apply keeps_bind; [by apply keeps_ok_unseen|]; intros; destruct (map _ _);
      [apply keeps_ret|by apply keeps_ok_unseen].
  - apply keeps_with_order. intros. by apply keeps_ok_unseen.
  - apply keeps_bind; [apply keeps_with_order; intros; by apply keeps_ok_unseen|]. intros.
    apply keeps_when, keeps_download_call.
  - apply keeps_with_order. intros. by apply keeps_ok_unseen.
  - unfold on_order_mass_action_report. destruct (ma_massActionResponse value);
      [by apply keeps_ok_unseen| |apply keeps_ret].
    apply keeps_bind; [|intros; by apply keeps_ok_unseen].
    apply keeps_for_each. intros. by apply keeps_ok_unseen.
Qed.

Lemma keeps_read_loop fuel buffer total : keeps session_ok (read_loop cfg sd fuel buffer total).
Proof.
  revert buffer total. induction fuel as [|fuel IH]; intros [|b buffer] total; simpl; try apply keeps_ret.
  apply keeps_bind.
  - apply keeps_ilink_dispatch, keeps_ilink_message.
  - intros n. destruct (n =? 0); [apply keeps_ret|apply IH].
Qed.

Lemma keeps_input i : keeps session_ok (on_input cfg sd i).
Proof.
  destruct i; simpl.
  1,2: by apply keeps_ok_unseen.
  - apply keeps_timer.
  - apply keeps_bind; [apply keeps_send_negotiate|]. intros. by apply keeps_connection_status.
  - apply keeps_disconnected.
  - apply keeps_bind; [apply keeps_read_loop|]. intros [total|]; [by apply keeps_ok_unseen|apply keeps_throw].
  - apply keeps_bind; [|intros; apply keeps_ret]. apply keeps_when_ready. intros. apply triple_new_order.
  - apply keeps_bind; [|intros; apply keeps_ret]. apply keeps_when_ready. intros. apply triple_cancel_replace.
  - apply keeps_bind; [|intros; apply keeps_ret]. apply keeps_when_ready. intros. apply triple_cancel.
  - apply keeps_bind; [|intros; apply keeps_ret]. apply keeps_when_ready. intros.
    eapply triple_bind; [apply triple_mass_action|]. intros. by apply keeps_ok_unseen.
Qed.
End session_facts.

(** ** Properties of runs *)

Section session_properties.
Context `{OrderEnv} (cfg : OrderConfig).

Lemma oe_run_ok inputs s : session_ok s → session_ok (oe_run cfg s inputs).
Proof.
  intros Hs. unfold oe_run. apply foldl_inv; [done|]. intros s' [sd i] Hs' _.
  apply (keeps_outcome _ (on_input cfg sd i)); [apply keeps_input|done].
Qed.

(** C4: Sessions.  Whatever happens to a session -- whatever is received, requested
    or thrown, and whatever the clocks, the connection and the download state
    machine do -- its log is one that the specification allows: the sequence
    numbers of the requests of the business layer count up by one from one
    (modulo a billion) between two disconnects, and [Establish] and [Sequence]
    announce the next of them; requests for orders are only sent while the
    session is ready, heartbeats too; and each request of the business layer
    comes right after a definition of the parties. *)
Theorem session_refines_specification inputs :
  let s := oe_run cfg create_order_entry inputs in
  ∃ parties, monitor_log initial_view (oe_events s) =
    Some {| sv_status := oe_connection_status s; sv_number := oe_outbound s; sv_parties := parties |}.
Proof.
  destruct (oe_run_ok inputs create_order_entry) as [parties (_ & _ & Hs)]; [|by exists parties].
  exists false. by split_and!.
Qed.
End session_properties.
