(* ===== verification/OrderEntryActions.v ===== *)
(** Order entry: actions
    (the definitions of [OrderEntry]): what each action of the order management
    system sends, and why it is refused. *)

From S2P Require Import Prelude Double Api MdpMap Messages MdpParser Security SecdefReader SecurityDefinitions Channel MarketData Crypto OrderTypes ILink OrderEntry.

(** ** Sending *)

Section send_facts.
Context `{OrderEnv} (cfg : OrderConfig) (sd : SecurityDefinitions).

(** A connection that is up, with a buffer for a frame of any size, and
    setters that have room. *)
Record reliable : Prop := {
  reliable_encode : ∀ r, ∃ m, sbe_encode r = Ok m ∧ ilink_frame_wf m;
  reliable_buffer : ∀ n, ∃ size, connection_buffer n = Some size ∧ 2 ^ 16 ≤ Z.of_nat size;
}.

(** The state after a request was sent as [m]. *)
Definition after_send (r : request double) (m : bytes) (s : OrderEntry) : OrderEntry :=
  set_next_heartbeat (clock_system (Datatypes.S (oe_ticks s)) + KEEP_ALIVE_INTERVAL)
    (tick (push (OeBytes (encode_ilink_frame m)) (tick (push (OeSend r) s)))).

(** The prices of a request have mantissas. *)
Definition has_mantissas (r : request double) : Prop :=
  match r with
  | NewOrderSingle v => is_ok (set_price (no_price v)) ∧ is_ok (set_price (no_stop_px v))
  | OrderCancelReplaceRequest v => is_ok (set_price (cr_price v)) ∧ is_ok (set_price (cr_stop_px v))
  | _ => True
  end.

Lemma encode_reliable r : reliable → has_mantissas r → ∃ m, encode r = Ok m ∧ ilink_frame_wf m.
Proof.
  intros Hr Hm. unfold encode.
  destruct r as [v|v|v|v|v|v|v|v|v| |v|v]; simpl; try apply (reliable_encode Hr).
  - destruct Hm as [[a Ha]%Is_true_true_1%is_ok_value [b Hb]%Is_true_true_1%is_ok_value].
    unfold encode_new_order_single. rewrite Ha, Hb. apply (reliable_encode Hr).
  - destruct Hm as [[a Ha]%Is_true_true_1%is_ok_value [b Hb]%Is_true_true_1%is_ok_value].
    unfold encode_order_cancel_replace. rewrite Ha, Hb. apply (reliable_encode Hr).
Qed.

Lemma send_reliable r s :
  reliable → has_mantissas r → ∃ m, encode r = Ok m ∧ ilink_frame_wf m ∧ send r s = (after_send r m s, Ok tt).
Proof.
  intros Hr Hprices. destruct (encode_reliable r Hr Hprices) as (m & Hm & Hwf).
  destruct (reliable_buffer Hr (oe_ticks s)) as (size & Hsize & Hle).
  exists m. split; [done|]. split; [done|]. unfold send, mbind, M_bind, event, modify, lift, read_env, gets.
  cbn beta iota. rewrite Hm, safe_cast_to_uint16_fits by done. simpl. rewrite Hsize. simpl.
  rewrite (proj2 (Nat.ltb_ge _ _)); [done|]. unfold ilink_frame_wf, in_width in Hwf.
  assert (2 ^ 16 = 65536) by done. lia.
Qed.

(** The definition of the parties that is sent from [s]. *)
Definition parties_of (s : OrderEntry) : request double :=
  PartyDetailsDefinitionRequest {|
    pd_sending_time_epoch := clock_realtime (oe_ticks s); pd_seq_num := peek_next_seq_num s;
    pd_no_party_details :=
      [cf_firm_id cfg; account_name (cf_account cfg); account_name (cf_account cfg)] |}.

(** The sequence number after the one of the parties. *)
Definition second_seq_num (s : OrderEntry) : Z := u32 (u32 (peek_next_seq_num s + 1) mod MAX_SEQ_NUM).

(** From [s] to [s'], the parties and then [r] were sent, and nothing else
    happened but that time went by. *)
Definition sent_with_parties (r : request double) (s s' : OrderEntry) : Prop :=
  (∃ m1 m2, encode (parties_of s) = Ok m1 ∧ encode r = Ok m2 ∧
     oe_events s' = oe_events s ++
       [OeSend (parties_of s); OeBytes (encode_ilink_frame m1); OeSend r; OeBytes (encode_ilink_frame m2)])
  ∧ oe_outbound s' = second_seq_num s ∧ oe_connection_status s' = oe_connection_status s
  ∧ oe_uuid s' = oe_uuid s ∧ oe_download_ s' = oe_download_ s.

Lemma numbered_sent f s :
  reliable → has_mantissas (f (peek_next_seq_num s)) →
  ∃ m, encode (f (peek_next_seq_num s)) = Ok m ∧
    (n ← fetch_next_seq_num; send (f n)) s =
    (after_send (f (peek_next_seq_num s)) m (set_outbound (peek_next_seq_num s) s), Ok tt).
Proof.
  intros Hr Hf. destruct (send_reliable (f (peek_next_seq_num s)) (set_outbound (peek_next_seq_num s) s) Hr Hf)
    as (m & Hm & _ & Hsend).
  exists m. split; [done|]. exact Hsend.
Qed.

Lemma parties_sent s :
  reliable →
  ∃ m, encode (parties_of s) = Ok m ∧
    send_party_details cfg s =
    (after_send (parties_of s) m (set_outbound (peek_next_seq_num s) (tick s)), Ok tt).
Proof.
  intros Hr. destruct (send_reliable (parties_of s) (set_outbound (peek_next_seq_num s) (tick s)) Hr Logic.I)
    as (m & Hm & _ & Hsend).
  exists m. split; [done|]. exact Hsend.
Qed.

(** The request of [f], made with the time and the number that it finds, after
    a step that is not seen. *)
Lemma business_request {A} (pre : M OrderEntry A) (g : OrderEntry → OrderEntry) (a : OrderEntry → A)
    (f : Z → A → Z → request double) s :
  reliable → (∀ now x n, has_mantissas (f now x n)) →
  (∀ s, pre s = (g s, Ok (a s)) ∧ oe_events (g s) = oe_events s ∧ oe_outbound (g s) = oe_outbound s
        ∧ oe_connection_status (g s) = oe_connection_status s ∧ oe_uuid (g s) = oe_uuid s
        ∧ oe_download_ (g s) = oe_download_ s) →
  ∃ s' r x, (send_party_details cfg ≫= λ _,
      now ← get_realtime; x ← pre; n ← fetch_next_seq_num; send (f now x n)) s = (s', Ok tt)
    ∧ r = f (clock_realtime (oe_ticks s + 3)%nat) x (second_seq_num s) ∧ sent_with_parties r s s'.
Proof.
  intros Hr Hf Hpre. destruct (parties_sent s Hr) as (m1 & Hm1 & Hs1).
  set (s1 := after_send _ _ _) in Hs1. destruct (Hpre (tick s1)) as (Hg & He & Ho & Hc & Hu & Hd).
  set (f' := f (clock_realtime (oe_ticks s + 3)%nat) (a (tick s1))).
  destruct (numbered_sent f' (g (tick s1)) Hr (Hf _ _ _)) as (m2 & Hm2 & Hs2).
  assert (peek_next_seq_num (g (tick s1)) = second_seq_num s) as Hpeek
    by (unfold peek_next_seq_num; rewrite Ho; reflexivity).
  rewrite Hpeek in Hm2, Hs2. eexists _, _, (a (tick s1)). split; [|split; [reflexivity|]].
  - rewrite (M_bind_Ok _ _ _ _ _ Hs1).
    rewrite (M_bind_Ok get_realtime _ _ (tick s1) (clock_realtime (oe_ticks s + 3)%nat)).
    2:{ unfold get_realtime, read_env, mbind, M_bind, gets, modify, mret, M_ret. cbn beta iota.
        do 3 f_equal. simpl. lia. }
    rewrite (M_bind_Ok _ _ _ _ _ Hg). exact Hs2.
  - unfold sent_with_parties. simpl. rewrite He, Hc, Hu, Hd. split_and!; try done. exists m1, m2.
    split; [done|]. split; [done|]. simpl. by rewrite <- !app_assoc.
Qed.

(** An action that sends such a request. *)
Lemma when_ready_sent {m : M OrderEntry unit} {s s' : OrderEntry} :
  ready s = true → m s = (s', Ok tt) → when_ready cfg m s = (s', Ok (cf_stream_id cfg)).
Proof.
  intros Hr Hm. unfold when_ready, mbind, M_bind, gets. cbn beta iota. rewrite Hr. simpl. by rewrite Hm.
Qed.

(** ** Orders *)

Definition new_order_of (create_order : CreateOrder) (order : Order) (request_id : string)
    (security_id order_qty now seq_num : Z) : request double :=
  NewOrderSingle {|
    no_price := co_price create_order; no_order_qty := order_qty; no_security_id := security_id;
    no_side := map_side_req (co_side create_order); no_seq_num := seq_num;
    no_sender_id := account_name (cf_account cfg); no_cl_ord_id := request_id;
    no_party_details_list_req_id := 0;
    no_order_request_id := encode_order_request_id CREATE_ORDER (or_user_id order) (or_order_id order);
    no_sending_time_epoch := now; no_stop_px := co_stop_price create_order;
    no_location := cf_location cfg; no_ord_type := map_order_type_req (co_order_type create_order);
    no_time_in_force := map_time_in_force_req (co_time_in_force create_order); no_exec_inst := 0 |}.

Definition cancel_replace_of (modify_order : ModifyOrder) (order : Order)
    (security_id order_qty now seq_num : Z) : request double :=
  OrderCancelReplaceRequest {|
    cr_price := mo_price modify_order; cr_order_qty := order_qty; cr_security_id := security_id;
    cr_side := map_side_req (or_side order); cr_seq_num := seq_num;
    cr_sender_id := account_name (cf_account cfg); cr_cl_ord_id := or_client_order_id order;
    cr_party_details_list_req_id := 0; cr_stop_px := NaN;
    cr_order_request_id := encode_order_request_id MODIFY_ORDER (or_user_id order) (or_order_id order);
    cr_sending_time_epoch := now; cr_location := cf_location cfg;
    cr_ord_type := map_order_type_req (or_order_type order);
    cr_time_in_force := map_time_in_force_req (or_time_in_force order) |}.

Definition cancel_of (order : Order) (security_id now seq_num : Z) : request double :=
  OrderCancelRequest {|
    oc_party_details_list_req_id := 0; oc_seq_num := seq_num;
    oc_sender_id := account_name (cf_account cfg); oc_cl_ord_id := or_client_order_id order;
    oc_order_request_id := encode_order_request_id CANCEL_ORDER (or_user_id order) (or_order_id order);
    oc_sending_time_epoch := now; oc_location := cf_location cfg; oc_security_id := security_id;
    oc_side := map_side_req (or_side order) |}.

Definition mass_action_of (order_request_id now seq_num : Z) : request double :=
  OrderMassActionRequest {|
    om_party_details_list_req_id := 0; om_order_request_id := order_request_id; om_seq_num := seq_num;
    om_sender_id := account_name (cf_account cfg); om_sending_time_epoch := now;
    om_location := cf_location cfg; om_market_segment_id := cf_market_segment_id cfg |}.

(** ** Properties of the actions *)



(** C23: Changes and cancels.  While the session is ready, a change with a quantity
    that fits and a cancel of an order of a known symbol send the definition of
    the parties and then the request, for the client order id that the order has
    and with the identifier that encodes the kind of the request and the order. *)
Theorem changes_send modify_order order security_id order_qty s :
  reliable → ready s = true →
  find_security_id (cf_market_segment_id cfg) (or_symbol order) sd = Some security_id →
  is_ok (set_price (mo_price modify_order)) → get_quantity (mo_quantity modify_order) = Ok order_qty →
  let now := clock_realtime (oe_ticks s + 3)%nat in
  (∃ s', on_modify_order cfg sd modify_order order s = (s', Ok (cf_stream_id cfg))
     ∧ sent_with_parties (cancel_replace_of modify_order order security_id order_qty now (second_seq_num s)) s s')
  ∧ ∃ s', on_cancel_order cfg sd order s = (s', Ok (cf_stream_id cfg))
     ∧ sent_with_parties (cancel_of order security_id now (second_seq_num s)) s s'.
Proof.
  intros Hrel Hr Hid Hp Hqty now. split.
  - destruct (business_request (mret tt) id (λ _, tt)
      (λ now _ n, cancel_replace_of modify_order order security_id order_qty now n) s Hrel)
      as (s' & r & x & Hs' & -> & Hsent); [done|done|].
    exists s'. split; [|done]. apply when_ready_sent; [done|].
    unfold send_order_cancel_replace_request. rewrite Hid, Hqty. exact Hs'.
  - destruct (business_request (mret tt) id (λ _, tt)
      (λ now _ n, cancel_of order security_id now n) s Hrel)
      as (s' & r & x & Hs' & -> & Hsent); [done|done|].
    exists s'. split; [|done]. apply when_ready_sent; [done|].
    unfold send_order_cancel_request. rewrite Hid. exact Hs'.
Qed.

(** Cancel all.  While the session is ready, the request to cancel all orders
    sends the definition of the parties and then one request for the whole
    market segment, and is then acknowledged as forwarded with the members of
    the request. *)
Theorem cancel_all_sends cancel_all_orders request_id s :
  reliable → ready s = true →
  ∃ s1 id a, on_cancel_all_orders cfg cancel_all_orders request_id s
      = (push (OeCancelAllOrdersAck a) s1, Ok (cf_stream_id cfg))
    ∧ sent_with_parties (mass_action_of id (clock_realtime (oe_ticks s + 3)%nat) (second_seq_num s)) s s1
    ∧ ca_request_status a = RequestStatus.FORWARDED ∧ ca_request_id a = request_id
    ∧ ca_order_id a = cl_order_id cancel_all_orders ∧ ca_exchange a = cl_exchange cancel_all_orders
    ∧ ca_symbol a = cl_symbol cancel_all_orders ∧ ca_side a = cl_side cancel_all_orders
    ∧ ca_strategy_id a = cl_strategy_id cancel_all_orders ∧ ca_origin_exchange a = false.
Proof.
  intros Hrel Hr.
  destruct (business_request fetch_next_request_id (λ s, set_request_id (u64 (oe_request_id s + 1)) s)
    (λ s, u64 (oe_request_id s + 1)) (λ now id n, mass_action_of id now n) s Hrel)
    as (s1 & r & id & Hs1 & -> & Hsent); [done|done|].
  eexists s1, id, _. split.
  - apply when_ready_sent; [done|]. unfold send_order_mass_action_request.
    exact (M_bind_Ok _ (λ _, event _) s s1 tt Hs1).
  - split; [exact Hsent|]. by split_and!.
Qed.

(** C24: Refused actions.  An action is refused without any effect -- nothing is
    sent, no sequence number is used up -- when the session is not ready, when
    the symbol has no instrument in the market segment, when a new order names
    another exchange than the instrument, when the quantity of a new or a changed
    order is negative or does not convert to 32 bits, and when a new order has any
    execution instruction. *)
Theorem actions_refused create_order modify_order cancel_all_orders order request_id s :
  (ready s = false →
     on_create_order cfg sd create_order order request_id s = (s, Err NotReady)
     ∧ on_modify_order cfg sd modify_order order s = (s, Err NotReady)
     ∧ on_cancel_order cfg sd order s = (s, Err NotReady)
     ∧ on_cancel_all_orders cfg cancel_all_orders request_id s = (s, Err NotReady)) ∧
  (ready s = true →
     (find_security_id (cf_market_segment_id cfg) (or_symbol order) sd = None →
        on_create_order cfg sd create_order order request_id s = (s, Err (no_mapping cfg order))
        ∧ on_modify_order cfg sd modify_order order s = (s, Err (no_mapping cfg order))
        ∧ on_cancel_order cfg sd order s = (s, Err (no_mapping cfg order))) ∧
     (∀ security_id security,
        find_security_id (cf_market_segment_id cfg) (or_symbol order) sd = Some security_id →
        get_security security_id sd = Some security →
        (co_exchange create_order ≠ exchange security →
           on_create_order cfg sd create_order order request_id s
           = (s, Err (Rejected ("Expected: " +:+ exchange security)))) ∧
        (∀ n, co_exchange create_order = exchange security →
           safe_cast_to_int32 (co_quantity create_order) = Ok n → n < 0 →
           on_create_order cfg sd create_order order request_id s = (s, Err RuntimeError)) ∧
        (∀ e, co_exchange create_order = exchange security →
           safe_cast_to_int32 (co_quantity create_order) = Err e →
           on_create_order cfg sd create_order order request_id s = (s, Err e)) ∧
        (∀ instruction, co_exchange create_order = exchange security →
           instruction ∈ co_execution_instructions create_order → instruction ≠ ExecutionInstruction.UNDEFINED →
           ∃ e, on_create_order cfg sd create_order order request_id s = (s, Err e)
             ∧ (is_ok (get_quantity (co_quantity create_order)) = true → e = Rejected "unsupported")) ∧
        (∀ n, safe_cast_to_int32 (mo_quantity modify_order) = Ok n → n < 0 →
           on_modify_order cfg sd modify_order order s = (s, Err RuntimeError)) ∧
        (∀ e, safe_cast_to_int32 (mo_quantity modify_order) = Err e →
           on_modify_order cfg sd modify_order order s = (s, Err e)))).
Proof.
  unfold on_create_order, on_modify_order, on_cancel_order, on_cancel_all_orders.
  unfold when_ready, mbind, M_bind, gets. cbn beta iota.
  split; intros ->; [by split_and!|]. cbn [negb].
  unfold send_new_order_single, send_order_cancel_replace_request, send_order_cancel_request.
  split; [by intros ->|]. intros security_id security -> ->. split_and!.
  - intros Hne. by rewrite bool_decide_false.
  - intros n Hex Hq Hn. by rewrite bool_decide_true, (get_quantity_negative _ n Hq Hn) by done.
  - intros e Hex Hq. by rewrite bool_decide_true, (get_quantity_no_integer _ e Hq) by done.
  - intros i Hex Hi Hne. rewrite bool_decide_true by done. cbn [negb].
    destruct (get_quantity _) as [qty|e]; [|exists e; by split].
    exists (Rejected "unsupported"). by rewrite (execution_instruction_unsupported _ _ Hi Hne).
  - intros n Hq Hn. by rewrite (get_quantity_negative _ n Hq Hn).
  - intros e Hq. by rewrite (get_quantity_no_integer _ e Hq).
Qed.
End send_facts.

(** ** Witnesses *)

Section actions_witnesses.
#[local] Existing Instance example_order_env.

Lemma example_reliable : reliable.
Proof.
  split.
  - intros r. eexists. split; [reflexivity|]. unfold ilink_frame_wf, in_width.
    destruct (seq_num r); simpl; lia.
  - intros n. exists (Z.to_nat 65536). split; [reflexivity|]. rewrite Z2Nat.id; lia.
Qed.

Definition example_sd : @SecurityDefinitions (@env_mbp (@oe_env example_order_env)) (@env_mbo (@oe_env example_order_env)) :=
  example_definitions.
Definition no_sd : @SecurityDefinitions (@env_mbp (@oe_env example_order_env)) (@env_mbo (@oe_env example_order_env)) :=
  empty_definitions.

Definition example_order : Order := {|
  or_user_id := 7; or_order_id := 12345; or_symbol := "ESU4"; or_side := Side.BUY;
  or_order_type := OrderType.LIMIT; or_time_in_force := TimeInForce.GFD; or_client_order_id := "abc";
  or_strategy_id := 0 |}.

Definition example_create : CreateOrder := {|
  co_account := "A1"; co_exchange := "XCME"; co_side := Side.BUY; co_quantity := double_of_Z 2;
  co_order_type := OrderType.LIMIT; co_time_in_force := TimeInForce.GFD;
  co_execution_instructions := []; co_price := double_of_Z 5000; co_stop_price := NaN |}.

Definition example_modify : ModifyOrder := {|
  mo_account := "A1"; mo_quantity := double_of_Z 3; mo_price := double_of_Z 5001 |}.

Definition example_cancel_all : CancelAllOrders := {|
  cl_account := "A1"; cl_order_id := 0; cl_exchange := "XCME"; cl_symbol := "ESU4"; cl_side := Side.UNDEFINED;
  cl_strategy_id := 0 |}.

Definition ready_entry : OrderEntry := set_connection_status ConnectionStatus.READY create_order_entry.


Lemma changes_send_witness :
  (∃ s', on_modify_order example_config example_sd example_modify example_order ready_entry = (s', Ok 9)
     ∧ sent_with_parties example_config
         (cancel_replace_of example_config example_modify example_order 118 3 (clock_realtime 3) 2) ready_entry s')
  ∧ ∃ s', on_cancel_order example_config example_sd example_order ready_entry = (s', Ok 9)
     ∧ sent_with_parties example_config (cancel_of example_config example_order 118 (clock_realtime 3) 2)
         ready_entry s'.
Proof.
  apply (changes_send example_config example_sd example_modify example_order 118 3 ready_entry);
    [exact example_reliable|..]; vm_compute; (reflexivity || exact Logic.I).
Defined.

Lemma cancel_all_sends_witness :
  ∃ s1 a, on_cancel_all_orders example_config example_cancel_all "id2" ready_entry
      = (push (OeCancelAllOrdersAck a) s1, Ok 9)
    ∧ ca_request_status a = RequestStatus.FORWARDED ∧ ca_request_id a = "id2"%string.
Proof.
  destruct (cancel_all_sends example_config example_cancel_all "id2" ready_entry example_reliable eq_refl)
    as (s1 & id & a & Hs & _ & Hf & Hi & _).
  exists s1, a. split; [exact Hs|]. split; [exact Hf|exact Hi].
Defined.

(** A sale of minus two, and an order with an instruction. *)
Definition example_negative : CreateOrder := {|
  co_account := "A1"; co_exchange := "XCME"; co_side := Side.SELL; co_quantity := double_of_Z (-2);
  co_order_type := OrderType.LIMIT; co_time_in_force := TimeInForce.GFD;
  co_execution_instructions := []; co_price := double_of_Z 5000; co_stop_price := NaN |}.

Definition example_instruction : CreateOrder := {|
  co_account := "A1"; co_exchange := "XCME"; co_side := Side.BUY; co_quantity := double_of_Z 2;
  co_order_type := OrderType.LIMIT; co_time_in_force := TimeInForce.GFD;
  co_execution_instructions := [ExecutionInstruction.UNDEFINED; ExecutionInstruction.DO_NOT_REDUCE];
  co_price := double_of_Z 5000; co_stop_price := NaN |}.

Lemma actions_refused_witness :
  on_create_order example_config example_sd example_create example_order "id1" create_order_entry
    = (create_order_entry, Err NotReady)
  ∧ on_cancel_order example_config no_sd example_order ready_entry
    = (ready_entry, Err (Rejected ("No mapping for market_segment_id=64 and symbol=" +:+ quote +:+ "ESU4" +:+ quote)))
  ∧ on_create_order example_config example_sd example_negative example_order "id1" ready_entry
    = (ready_entry, Err RuntimeError)
  ∧ on_create_order example_config example_sd example_instruction example_order "id1" ready_entry
    = (ready_entry, Err (Rejected "unsupported")).
Proof.
  split_and!.
  - exact (proj1 (proj1 (actions_refused example_config example_sd example_create example_modify
      example_cancel_all example_order "id1" create_order_entry) eq_refl)).
  - exact (proj2 (proj2 (proj1 (proj2 (actions_refused example_config no_sd example_create
      example_modify example_cancel_all example_order "id1" ready_entry) eq_refl) eq_refl))).
  - destruct (proj2 (proj2 (actions_refused example_config example_sd example_negative
      example_modify example_cancel_all example_order "id1" ready_entry) eq_refl) 118
      (new_security "XCME" "ESU4" NaN false)) as (_ & Hneg & _); [vm_compute; reflexivity..|].
    apply (Hneg (-2)); [reflexivity|vm_compute; reflexivity|lia].
  - destruct (proj2 (proj2 (actions_refused example_config example_sd example_instruction
      example_modify example_cancel_all example_order "id1" ready_entry) eq_refl) 118
      (new_security "XCME" "ESU4" NaN false)) as (_ & _ & _ & Hinst & _); [vm_compute; reflexivity..|].
    destruct (Hinst ExecutionInstruction.DO_NOT_REDUCE) as (e & He & Hu); [reflexivity|right; left|discriminate|].
    rewrite Hu in He; [exact He|vm_compute; reflexivity].
Defined.
End actions_witnesses.
