(* ===== verification/OrderEntryReports.v ===== *)
(** Order entry: reports
    (the definitions of [OrderEntry]): what each report of the exchange gives
    back to the order management system, and how a session becomes ready. *)

From S2P Require Import Prelude Double Api MdpMap Messages MdpParser Security SecdefReader SecurityDefinitions Channel MarketData Crypto OrderTypes ILink OrderEntry OrderEntryActions.

(** ** Reports on orders *)

Section report_facts.
Context `{OrderEnv} (cfg : OrderConfig) (sd : SecurityDefinitions).
Implicit Types (s : OrderEntry).

(** A report on an order of a security that is known. *)
Definition reports_on (value : execution_report) (security : Security) : Prop :=
  get_order_id value ≠ 0 ∧ get_security (get_security_id value) sd = Some security.

(** The update that a report is turned into. *)
Definition update_of (type : UpdateType.t) (value : execution_report) (security : Security) : OrderUpdate :=
  order_update_of type value (fmt_Z (get_order_id value)) security.

Lemma with_order_known value security f :
  reports_on value security → with_order sd value f = f (fmt_Z (get_order_id value)) security.
Proof.
  intros [Hid Hs]. unfold with_order. rewrite (proj2 (Z.eqb_neq _ _)) by done. simpl. by rewrite Hs.
Qed.

Lemma with_order_unknown value f :
  get_order_id value = 0 ∨ get_security (get_security_id value) sd = None → with_order sd value f = mret tt.
Proof.
  intros Hu. unfold with_order. destruct (get_order_id value =? 0) eqn:E; [done|]. simpl.
  bool_to_prop. destruct Hu as [?|Hs]; [done|]. by rewrite Hs.
Qed.

(** An identifier that was sent, whatever the kind of the request. *)
Definition identifies (id type user_id order_id : Z) : Prop :=
  in_width 8 type ∧ in_width 8 user_id ∧ 0 ≤ order_id ≤ ORDER_ID_MAX
  ∧ id = encode_order_request_id type user_id order_id.

Lemma decode_identifies id type user_id order_id :
  identifies id type user_id order_id → decode_order_request_id id = (type, user_id, order_id).
Proof. intros (? & ? & ? & ->). by apply decode_encode_fits. Qed.

(** C7: Responses.  When the exchange echoes the identifier of a request, the
    response that follows is the one to that request: its type, and -- for a
    request that may have no order at the exchange yet, a new order or a
    business reject -- its user and its order; an acceptance has the limits of
    the report, a rejection its text.  Each report gives one response and has no
    other effect.  The cancel of an order answers a cancel, whoever canceled. *)
Theorem responses_routed type user_id order_id security value reject business s :
  reports_on value security →
  identifies (er_orderRequestID value) type user_id order_id →
  identifies (rj_orderRequestID reject) type user_id order_id →
  identifies (get_int (br_businessRejectRefID business)) type user_id order_id →
  br_refMsgType business ∈ ["D"; "G"; "F"]%string →
  let u := update_of UpdateType.INCREMENTAL value security in
  let respond m r := on_ilink_message cfg sd m s = (push r s, Ok tt) in
  respond (ExecutionReportNew522 value) (OeResponse (acceptance type u) (Some (user_id, order_id)) None)
  ∧ respond (ExecutionReportReject523 reject)
      (OeResponse (rejection type (rj_text reject) (rj_clOrdID reject)) (Some (user_id, order_id)) None)
  ∧ respond (BusinessReject521 business)
      (OeResponse (rejection type (br_text business) "") (Some (user_id, order_id)) None)
  ∧ respond (ExecutionReportModify531 value) (OeResponse (acceptance type u) None (Some u))
  ∧ respond (ExecutionReportCancel534 value) (OeResponse (acceptance CANCEL_ORDER u) None (Some u))
  ∧ respond (OrderCancelReject535 reject)
      (OeResponse (rejection type (rj_text reject) (rj_clOrdID reject)) None None)
  ∧ respond (OrderCancelReplaceReject536 reject)
      (OeResponse (rejection type (rj_text reject) (rj_clOrdID reject)) None None).
Proof.
  intros Hon He Hr Hb Hmsg u respond. unfold respond. cbn [on_ilink_message].
  unfold on_execution_report_new, on_execution_report_reject, on_business_reject, on_execution_report_modify,
    on_execution_report_cancel, on_order_cancel_reject.
  rewrite !(with_order_known _ _ _ Hon).
  apply decode_identifies in He, Hr, Hb. cbv zeta. rewrite He, Hr, Hb.
  assert (bool_decide (br_refMsgType business = "D"%string) || bool_decide (br_refMsgType business = "G"%string)
    || bool_decide (br_refMsgType business = "F"%string) = true) as ->; [|by split_and!].
  apply elem_of_cons in Hmsg as [->|Hmsg]; [done|].
  apply elem_of_cons in Hmsg as [->|Hmsg]; [done|]. by apply list_elem_of_singleton in Hmsg as ->.
Qed.

(** Reports that are ignored.  A report without an order id, on an instrument
    that is not known or is filtered, has no effect but that the last status
    report still ends the download; a business reject of another message than an
    order, its change or its cancel has none. *)
Theorem reports_ignored value business s :
  get_order_id value = 0 ∨ get_security (get_security_id value) sd = None →
  br_refMsgType business ∉ ["D"; "G"; "F"]%string →
  (∀ m, m ∈ [ExecutionReportNew522 value; ExecutionReportModify531 value; ExecutionReportCancel534 value;
             ExecutionReportTradeOutright525 value; BusinessReject521 business] →
     on_ilink_message cfg sd m s = (s, Ok tt))
  ∧ on_ilink_message cfg sd (ExecutionReportStatus532 value) s
    = when (bool_decide (er_lastRptRequested value = BooleanNULL.True))
        (download_call cfg (download_check_relaxed State.ORDERS)) s.
Proof.
  intros Hu Hb. split.
  - intros m Hm. rewrite !elem_of_cons, elem_of_nil in Hm.
    destruct Hm as [->|[->|[->|[->|[->|[]]]]]]; cbn [on_ilink_message].
    all: unfold on_execution_report_new, on_execution_report_modify, on_execution_report_cancel,
      on_execution_report_trade_outright; rewrite ?with_order_unknown by done; try done.
    unfold on_business_reject. cbv zeta. rewrite !not_elem_of_cons in Hb. by rewrite !bool_decide_false by naive_solver.
  - cbn [on_ilink_message]. unfold on_execution_report_status. by rewrite with_order_unknown by done.
Qed.

(** Reports of a mass action.  An accepted mass action cancels each of the
    orders that the report lists, in order, and is then acknowledged as
    accepted; a rejected one is acknowledged as rejected. *)
Theorem mass_action_report value s :
  let '(s', result) := on_ilink_message cfg sd (OrderMassActionReport562 value) s in
  result = Ok tt ∧
  oe_events s' = oe_events s ++
    match ma_massActionResponse value with
    | MassActionResponse.Accepted =>
      map (λ item, OeOrderUpdate (affected_update value item)) (ma_noAffectedOrders value) ++
      [OeCancelAllOrdersAck (mass_action_ack RequestStatus.ACCEPTED false "")]
    | MassActionResponse.Rejected =>
      [OeCancelAllOrdersAck (mass_action_ack RequestStatus.REJECTED true "unknown")]
    | MassActionResponse.NULL_VALUE => []
    end.
Proof.
  cbn [on_ilink_message]. unfold on_order_mass_action_report.
  destruct (ma_massActionResponse value); [done| |by rewrite app_nil_r].
  assert (∀ l s, for_each l (λ item, event (OeOrderUpdate (affected_update value item))) s
    = (foldl (λ s item, push (OeOrderUpdate (affected_update value item)) s) s l, Ok tt)) as Hl.
  { induction l as [|x l IH]; intros s1; [done|]. cbn [for_each].
    by rewrite (M_bind_Ok _ _ s1 (push (OeOrderUpdate (affected_update value x)) s1) tt) by done. }
  unfold mbind, M_bind. rewrite Hl. simpl. split; [done|].
  rewrite app_assoc. f_equal. clear Hl. generalize (ma_noAffectedOrders value). intros l. revert s.
  induction l as [|x l IH]; intros s; simpl; [by rewrite app_nil_r|]. rewrite IH. simpl. by rewrite <- app_assoc.
Qed.
End report_facts.

(** ** Login *)

Section login_facts.
Context `{OrderEnv} (cfg : OrderConfig) (sd : SecurityDefinitions).
Implicit Types (s : OrderEntry).

(** The messages that are signed at login. *)
Definition negotiate_message (now : Z) : CanonicalMessage := {|
  cm_request_timestamp := now; cm_uuid := u64 (Z.quot now 1000); cm_session := account_login (cf_account cfg);
  cm_firm_id := cf_firm_id cfg; cm_trading_system_name := ""; cm_trading_system_version := "";
  cm_trading_system_vendor := ""; cm_next_seq_no := 0; cm_keep_alive_interval := 0 |}.

Definition establish_message (now uuid next_seq_no : Z) : CanonicalMessage := {|
  cm_request_timestamp := now; cm_uuid := uuid; cm_session := account_login (cf_account cfg);
  cm_firm_id := cf_firm_id cfg; cm_trading_system_name := ROQ_PACKAGE_NAME;
  cm_trading_system_version := ROQ_BUILD_VERSION; cm_trading_system_vendor := TRADING_SYSTEM_VENDOR;
  cm_next_seq_no := next_seq_no; cm_keep_alive_interval := KEEP_ALIVE_INTERVAL_ms |}.

(** The text of a message fits in the buffer that it is written to. *)
Definition fits (m : CanonicalMessage) : Prop :=
  (String.length (join_lines (signature_fields m)) ≤ ENCODE_BUFFER_LENGTH)%nat.

Definition signature_of (m : CanonicalMessage) : bytes :=
  hmac (account_secret (cf_account cfg)) (join_lines (signature_fields m)).

Lemma sign_fits m s : fits m → sign cfg m s = (s, Ok (signature_of m)).
Proof. intros Hm. unfold sign, create_signature, lift. by rewrite writer_text_fits. Qed.

Definition negotiate_of (now : Z) : request double :=
  let m := negotiate_message now in
  Negotiate {|
    ng_hmac_signature := signature_of m; ng_access_key_id := account_password (cf_account cfg);
    ng_uuid := cm_uuid m; ng_request_timestamp := now; ng_session := cm_session m; ng_firm := cm_firm_id m |}.

Definition establish_of (now uuid next_seq_no : Z) : request double :=
  let m := establish_message now uuid next_seq_no in
  Establish {|
    es_hmac_signature := signature_of m; es_access_key_id := account_password (cf_account cfg);
    es_trading_system_name := ROQ_PACKAGE_NAME; es_trading_system_version := ROQ_BUILD_VERSION;
    es_trading_system_vendor := TRADING_SYSTEM_VENDOR; es_uuid := uuid; es_request_timestamp := now;
    es_next_seq_no := next_seq_no; es_session := cm_session m; es_firm := cm_firm_id m;
    es_keep_alive_interval := KEEP_ALIVE_INTERVAL_ms |}.

(** Nothing of the session but what a request that is sent changes. *)
Definition sent (r : request double) (status : ConnectionStatus.t) (s s' : OrderEntry) : Prop :=
  (∃ m, encode r = Ok m ∧ ∃ rest, oe_events s' = oe_events s ++ [OeSend r; OeBytes (encode_ilink_frame m)] ++ rest
     ∧ rest = if decide (status = oe_connection_status s) then [] else [OeStreamStatus status])
  ∧ oe_connection_status s' = status ∧ oe_outbound s' = oe_outbound s ∧ oe_download_ s' = oe_download_ s.

Lemma connected_sends s :
  reliable → fits (negotiate_message (clock_realtime (oe_ticks s))) →
  oe_connection_status s ≠ ConnectionStatus.LOGIN_SENT →
  ∃ s', on_connected cfg s = (s', Ok tt)
    ∧ sent (negotiate_of (clock_realtime (oe_ticks s))) ConnectionStatus.LOGIN_SENT s s'
    ∧ oe_uuid s' = u64 (Z.quot (clock_realtime (oe_ticks s)) 1000) ∧ oe_ticks s' = (oe_ticks s + 3)%nat.
Proof.
  intros Hrel Hf Hne. set (now := clock_realtime (oe_ticks s)) in *.
  destruct (send_reliable (negotiate_of now) (set_uuid (u64 (Z.quot now 1000)) (tick s)) Hrel Logic.I)
    as (m & Hm & _ & Hsend).
  assert (send_negotiate cfg s =
    (after_send (negotiate_of now) m (set_uuid (u64 (Z.quot now 1000)) (tick s)), Ok tt)) as Hneg.
  { unfold send_negotiate. rewrite (M_bind_Ok get_realtime _ s (tick s) now) by done. cbv zeta.
    rewrite (M_bind_Ok _ _ _ (set_uuid (u64 (Z.quot now 1000)) (tick s)) tt) by done.
    fold (negotiate_message now). rewrite (M_bind_Ok _ _ _ _ _ (sign_fits _ _ Hf)). exact Hsend. }
  eexists. split; [|split].
  - unfold on_connected. rewrite (M_bind_Ok _ _ _ _ _ Hneg). reflexivity.
  - split_and!; try done. exists m. split; [done|]. eexists. split; [|reflexivity].
    rewrite decide_False by done. simpl. by rewrite <- !app_assoc.
  - split; [done|]. simpl. lia.
Qed.

Lemma negotiated_sends s :
  reliable → fits (establish_message (clock_realtime (oe_ticks s)) (oe_uuid s) (peek_next_seq_num s)) →
  ∃ s', on_ilink_message cfg sd NegotiationResponse501 s = (s', Ok tt)
    ∧ sent (establish_of (clock_realtime (oe_ticks s)) (oe_uuid s) (peek_next_seq_num s))
        (oe_connection_status s) s s'.
Proof.
  intros Hrel Hf. set (now := clock_realtime (oe_ticks s)) in *.
  destruct (send_reliable (establish_of now (oe_uuid s) (peek_next_seq_num s)) (tick s) Hrel Logic.I)
    as (m & Hm & _ & Hsend).
  eexists. split.
  - cbn [on_ilink_message]. unfold send_establish.
    rewrite (M_bind_Ok get_realtime _ s (tick s) now) by done.
    rewrite (M_bind_Ok (gets oe_uuid) _ (tick s) (tick s) (oe_uuid s)) by done.
    rewrite (M_bind_Ok (gets peek_next_seq_num) _ (tick s) (tick s) (peek_next_seq_num s)) by done. cbv zeta.
    fold (establish_message now (oe_uuid s) (peek_next_seq_num s)).
    rewrite (M_bind_Ok _ _ _ _ _ (sign_fits _ _ Hf)). exact Hsend.
  - split_and!; try done. exists m. split; [done|]. eexists. split; [|reflexivity].
    rewrite decide_True by done. simpl. by rewrite <- !app_assoc.
Qed.

(** A download state machine that asks for the orders, waits for the last of
    them and is then done. *)
Definition loads_orders (d d1 d2 : download) : Prop :=
  (∃ k, download_begin d = DCall State.ORDERS k ∧ k 1 = DRet d1)
  ∧ ∃ k, download_check_relaxed State.ORDERS d1 = DCall State.DONE k ∧ k 0 = DRet d2.

Definition mass_status_of (now mass_status_req_id seq_num : Z) : request double :=
  OrderMassStatusRequest {|
    ms_party_details_list_req_id := 0; ms_mass_status_req_id := mass_status_req_id; ms_seq_num := seq_num;
    ms_sender_id := account_name (cf_account cfg); ms_sending_time_epoch := now;
    ms_location := cf_location cfg; ms_market_segment_id := cf_market_segment_id cfg |}.

(** The status [DOWNLOADING], as it is published. *)
Definition downloading s : OrderEntry :=
  push (OeStreamStatus ConnectionStatus.DOWNLOADING) (set_connection_status ConnectionStatus.DOWNLOADING s).

Lemma established_sends s d1 d2 :
  reliable → loads_orders (oe_download_ s) d1 d2 →
  ∃ s' id, on_ilink_message cfg sd EstablishmentAck504 s = (set_download d1 s', Ok tt)
    ∧ sent_with_parties cfg (mass_status_of (clock_realtime (oe_ticks s + 3)%nat) id (second_seq_num s))
        (downloading s) s'.
Proof.
  intros Hrel [(k & Hk & Hk1) _].
  destruct (business_request cfg fetch_next_request_id (λ s, set_request_id (u64 (oe_request_id s + 1)) s)
    (λ s, u64 (oe_request_id s + 1)) (λ now id n, mass_status_of now id n) (downloading s) Hrel)
    as (s1 & r & id & Hs1 & -> & Hsent); [done|done|].
  exists s1, id. split; [|exact Hsent]. cbn [on_ilink_message].
  rewrite (M_bind_Ok _ _ s (downloading s) tt) by done. unfold download_call.
  rewrite (M_bind_Ok (gets oe_download_) _ (downloading s) (downloading s) (oe_download_ s)) by done.
  rewrite Hk. cbn [run_download].
  assert (on_download cfg State.ORDERS (downloading s) = (s1, Ok 1)) as Hd.
  { cbn [on_download]. revert Hs1. unfold mbind at 1, M_bind at 1.
    destruct (send_party_details cfg (downloading s)) as [s2 [[]|e]] eqn:E; [|done].
    intros Hs1. rewrite (M_bind_Ok _ _ _ _ _ E).
    rewrite (M_bind_Ok (send_order_mass_status_request cfg) _ s2 s1 tt); [done|exact Hs1]. }
  rewrite (M_bind_Ok _ _ _ _ _ Hd), Hk1. done.
Qed.

(** The update of a status report. *)
Definition status_update (value : execution_report) : list oe_event :=
  if get_order_id value =? 0 then []
  else match get_security (get_security_id value) sd with
  | Some security => [OeOrderUpdate (update_of UpdateType.SNAPSHOT value security)]
  | None => []
  end.

Lemma last_status_sends value s d d2 :
  loads_orders d (oe_download_ s) d2 → er_lastRptRequested value = BooleanNULL.True →
  ∃ s', on_ilink_message cfg sd (ExecutionReportStatus532 value) s = (s', Ok tt)
    ∧ oe_events s' = oe_events s ++ status_update value ++ [OeStreamStatus ConnectionStatus.READY]
    ∧ oe_connection_status s' = ConnectionStatus.READY ∧ oe_outbound s' = oe_outbound s.
Proof.
  intros [_ (k & Hk & Hk0)] Hlast. cbn [on_ilink_message]. unfold on_execution_report_status.
  assert (∃ s1, with_order sd value (λ external_order_id security,
      event (OeOrderUpdate (order_update_of UpdateType.SNAPSHOT value external_order_id security))) s = (s1, Ok tt)
    ∧ oe_events s1 = oe_events s ++ status_update value ∧ oe_outbound s1 = oe_outbound s
    ∧ oe_download_ s1 = oe_download_ s) as (s1 & Hs1 & He & Ho & Hd).
  { unfold with_order, status_update. destruct (get_order_id value =? 0); simpl.
    2: destruct (get_security _ _).
    all: eexists; split; [reflexivity|]; rewrite ?app_nil_r; by split_and!. }
  rewrite (M_bind_Ok _ _ _ _ _ Hs1), bool_decide_true by done. cbn [when]. unfold download_call.
  rewrite (M_bind_Ok (gets oe_download_) _ s1 s1 (oe_download_ s)) by (by rewrite <- Hd).
  rewrite Hk. cbn [run_download on_download].
  eexists. split; [unfold mbind, M_bind, on_connection_status, event, modify; cbn beta iota;
    unfold mbind, M_bind, mret, M_ret; cbn beta iota; rewrite Hk0; reflexivity|].
  simpl. rewrite He, Ho. by rewrite <- app_assoc.
Qed.

(** C26: Login.  From the connection to the first orders: with a connection that is
    up and a download that asks for the orders and waits for the last of them,
    the session sends [Negotiate], then [Establish] when that is answered, then
    -- with the first two sequence numbers -- the definition of the parties and
    the request of the status of all orders, and is ready when the last status
    report is in, and not before; each status is published when it is reached. *)
Theorem login_completes s value d1 d2 :
  reliable → loads_orders (oe_download_ s) d1 d2 → er_lastRptRequested value = BooleanNULL.True →
  oe_connection_status s = ConnectionStatus.UNDEFINED ∨ oe_connection_status s = ConnectionStatus.DISCONNECTED →
  let now0 := clock_realtime (oe_ticks s) in
  let now1 := clock_realtime (oe_ticks s + 3)%nat in
  let uuid := u64 (Z.quot now0 1000) in
  fits (negotiate_message now0) → fits (establish_message now1 uuid (peek_next_seq_num s)) →
  ∃ s1 s2 s3 s4 b1 b2 b3 b4 now2 id,
    on_connected cfg s = (s1, Ok tt) ∧ on_ilink_message cfg sd NegotiationResponse501 s1 = (s2, Ok tt)
    ∧ on_ilink_message cfg sd EstablishmentAck504 s2 = (s3, Ok tt)
    ∧ on_ilink_message cfg sd (ExecutionReportStatus532 value) s3 = (s4, Ok tt)
    ∧ oe_events s4 = oe_events s ++
      [OeSend (negotiate_of now0); OeBytes (encode_ilink_frame b1);
       OeStreamStatus ConnectionStatus.LOGIN_SENT;
       OeSend (establish_of now1 uuid (peek_next_seq_num s)); OeBytes (encode_ilink_frame b2);
       OeStreamStatus ConnectionStatus.DOWNLOADING;
       OeSend (parties_of cfg (downloading s2)); OeBytes (encode_ilink_frame b3);
       OeSend (mass_status_of now2 id (second_seq_num s)); OeBytes (encode_ilink_frame b4)] ++
      status_update value ++ [OeStreamStatus ConnectionStatus.READY]
    ∧ (encode (negotiate_of now0) = Ok b1
       ∧ encode (establish_of now1 uuid (peek_next_seq_num s)) = Ok b2
       ∧ encode (parties_of cfg (downloading s2)) = Ok b3
       ∧ encode (mass_status_of now2 id (second_seq_num s)) = Ok b4)
    ∧ seq_num (parties_of cfg (downloading s2)) = Some (peek_next_seq_num s)
    ∧ ready s1 = false ∧ ready s2 = false ∧ ready s3 = false ∧ ready s4 = true
    ∧ oe_outbound s4 = second_seq_num s.
Proof.
  intros Hrel Hload Hlast Hst now0 now1 uuid Hf0 Hf1.
  destruct (connected_sends s Hrel Hf0) as (s1 & Hs1 & Hsent1 & Hu1 & Ht1); [by destruct Hst as [-> | ->]|].
  destruct Hsent1 as ((b1 & Hb1 & r1 & He1 & ->) & Hst1 & Ho1 & Hd1).
  assert (∀ s s', oe_outbound s' = oe_outbound s →
    peek_next_seq_num s' = peek_next_seq_num s ∧ second_seq_num s' = second_seq_num s) as Hpeek.
  { intros x y Hxy. unfold second_seq_num, peek_next_seq_num. by rewrite Hxy. }
  destruct (negotiated_sends s1 Hrel) as (s2 & Hs2 & (b2 & Hb2 & r2 & He2 & ->) & Hst2 & Ho2 & Hd2).
  { rewrite Ht1, Hu1, (proj1 (Hpeek _ _ Ho1)). exact Hf1. }
  rewrite Ht1, Hu1, (proj1 (Hpeek _ _ Ho1)) in He2, Hb2. fold now0 now1 uuid in He1, He2, Hb1, Hb2.
  destruct (established_sends s2 d1 d2 Hrel) as (s3 & id & Hs3 & (b3 & b4 & Hb3 & Hb4 & He3) & Ho3 & Hst3 & _ & _);
    [by rewrite Hd2, Hd1|].
  destruct (last_status_sends value (set_download d1 s3) (oe_download_ s) d2 Hload Hlast)
    as (s4 & Hs4 & He4 & Hst4 & Ho4).
  exists s1, s2, (set_download d1 s3), s4, b1, b2, b3, b4.
  exists (clock_realtime (oe_ticks (downloading s2) + 3)%nat), id.
  do 4 (split; [done|]).
  change (second_seq_num (downloading s2)) with (second_seq_num s2) in *.
  rewrite (proj2 (Hpeek _ _ Ho2)), (proj2 (Hpeek _ _ Ho1)) in He3, Ho3, Hb4.
  split; [|split; [by split_and!|split_and!]].
  - rewrite He4. cbn [oe_events set_download] in *. rewrite He3. simpl oe_events. rewrite He2, He1, Hst1.
    rewrite decide_False by (by destruct Hst as [-> | ->]). rewrite decide_True by done.
    change (clock_realtime (oe_ticks (downloading s2) + 3)%nat) with (clock_realtime (oe_ticks s2 + 3)%nat) in *.
    rewrite <- !app_assoc. reflexivity.
  - cbn. by rewrite <- (proj1 (Hpeek _ _ Ho1)), <- (proj1 (Hpeek _ _ Ho2)).
  - unfold ready. by rewrite Hst1.
  - unfold ready. by rewrite Hst2, Hst1.
  - unfold ready. simpl. rewrite Hst3. done.
  - unfold ready. by rewrite Hst4.
  - by rewrite Ho4, <- Ho3.
Qed.
End login_facts.

(** ** Witnesses *)

Section reports_witnesses.
#[local] Existing Instance example_order_env.

Definition example_reject : order_reject := {|
  rj_clOrdID := "abc"; rj_text := "no"; rj_orderRequestID := encode_order_request_id CREATE_ORDER 7 12345 |}.

Definition example_business : business_reject := {|
  br_refMsgType := "D";
  br_businessRejectRefID := example_int (encode_order_request_id CREATE_ORDER 7 12345); br_text := "no" |}.

Definition example_listed : Security := new_security "XCME" "ESU4" NaN false.

Lemma responses_routed_witness :
  on_ilink_message example_config example_sd (ExecutionReportNew522 example_trade) ready_entry
  = (push (OeResponse (acceptance CREATE_ORDER (update_of UpdateType.INCREMENTAL example_trade example_listed))
      (Some (7, 12345)) None) ready_entry, Ok tt).
Proof.
  refine (proj1 (responses_routed example_config example_sd CREATE_ORDER 7 12345 example_listed example_trade
    example_reject example_business ready_entry _ _ _ _ _)).
  1: by (split; vm_compute).
  1-3: unfold identifies, in_width, CREATE_ORDER, ORDER_ID_MAX; split_and!; try lia; vm_compute; reflexivity.
  by left.
Defined.

Lemma reports_ignored_witness :
  on_ilink_message example_config no_sd (ExecutionReportNew522 example_trade) ready_entry = (ready_entry, Ok tt).
Proof.
  refine (proj1 (reports_ignored example_config no_sd example_trade
    {| br_refMsgType := "q"; br_businessRejectRefID := example_int 0; br_text := "" |} ready_entry _ _) _ _).
  - right. vm_compute. reflexivity.
  - cbn [br_refMsgType]. rewrite !not_elem_of_cons, elem_of_nil. naive_solver.
  - by left.
Defined.

Lemma login_completes_witness :
  ∃ s1 s2 s3 s4,
    on_connected example_config create_order_entry = (s1, Ok tt)
    ∧ on_ilink_message example_config example_sd NegotiationResponse501 s1 = (s2, Ok tt)
    ∧ on_ilink_message example_config example_sd EstablishmentAck504 s2 = (s3, Ok tt)
    ∧ on_ilink_message example_config example_sd
        (ExecutionReportStatus532 (example_report 0 0 0 [] BooleanNULL.True)) s3 = (s4, Ok tt)
    ∧ ready s3 = false ∧ ready s4 = true ∧ oe_outbound s4 = 2.
Proof.
  destruct (login_completes example_config example_sd create_order_entry (example_report 0 0 0 [] BooleanNULL.True)
    true false) as (s1 & s2 & s3 & s4 & b1 & b2 & b3 & b4 & now2 & id & H1 & H2 & H3 & H4 & _ & _ & _ & _ & _
      & Hr3 & Hr4 & Ho).
  - exact example_reliable.
  - split; eexists; (split; [reflexivity|done]).
  - done.
  - by left.
  - apply leb_complete. vm_compute. reflexivity.
  - apply leb_complete. vm_compute. reflexivity.
  - by exists s1, s2, s3, s4.
Defined.
End reports_witnesses.
