(* ===== verification/OrderEntryReads.v ===== *)
(** Order entry: reads and heartbeats
    (the definitions of [OrderEntry]): how the bytes of a connection are taken
    apart, and when a session sends a heartbeat. *)

From S2P Require Import Prelude Double Api MdpMap Messages MdpParser Security SecdefReader SecurityDefinitions Channel MarketData Crypto OrderTypes ILink OrderEntry OrderEntryActions.

(** ** Reads *)

Section read_facts.
Context `{OrderEnv} (cfg : OrderConfig) (sd : SecurityDefinitions).
Implicit Types (s : OrderEntry).

(** Bytes that do not hold a whole frame: fewer than the header of a frame, or
    fewer than the length that the header says. *)
Definition incomplete (rest : bytes) : Prop :=
  (length rest < sofh_size)%nat ∨
  (le_combine (take 2 (drop 2 rest)) = 0xCAFE ∧ Z.of_nat (length rest) < le_combine (take 2 rest)).

Lemma parse_incomplete {W} rest callback (s : W) :
  incomplete rest → ilink_parse_helper rest callback s = (s, Ok 0).
Proof.
  intros Hr. unfold ilink_parse_helper. destruct (length rest <? sofh_size)%nat eqn:E; [done|].
  apply Nat.ltb_ge in E. destruct Hr as [?|[-> Hlt]]; [lia|]. rewrite Z.eqb_refl. cbn [negb].
  by rewrite (proj2 (Z.ltb_lt _ _) Hlt).
Qed.

Lemma dispatch_frame m v rest s :
  ilink_frame_wf m → ilink_decodes m v →
  ilink_dispatch (on_ilink_message cfg sd) (encode_ilink_frame m ++ rest) s =
  (on_ilink (on_ilink_message cfg sd) v ≫= λ _, mret (Z.of_nat (length (encode_ilink_frame m)))) s.
Proof.
  intros Hwf Hm. unfold ilink_dispatch. rewrite ilink_parse_helper_encode by done.
  unfold mbind at 1, M_bind at 1. unfold mbind at 1, M_bind at 1. rewrite (ilink_loop_decodes _ m v s Hm).
  unfold mbind, M_bind. by destruct (on_ilink _ v s) as [s' [[]|e]].
Qed.

Lemma read_loop_incomplete fuel rest total s :
  (length rest ≤ fuel)%nat → incomplete rest → read_loop cfg sd fuel rest total s = (s, Ok (Some total)).
Proof.
  intros Hf Hr. destruct rest as [|b rest]; [by destruct fuel|]. destruct fuel as [|fuel]; [simpl in Hf; lia|].
  cbn [read_loop]. by rewrite (M_bind_Ok (ilink_dispatch _ _) _ _ _ _ (parse_incomplete _ _ s Hr)).
Qed.

(** The frames of a buffer, and what is left of it. *)
Lemma read_loop_frames ms vs rest fuel total s :
  Forall ilink_frame_wf ms → Forall2 ilink_decodes ms vs → incomplete rest →
  (length (concat (map encode_ilink_frame ms) ++ rest) ≤ fuel)%nat →
  read_loop cfg sd fuel (concat (map encode_ilink_frame ms) ++ rest) total s =
  (for_each vs (on_ilink (on_ilink_message cfg sd)) ≫= λ _,
   mret (Some (total + Z.of_nat (length (concat (map encode_ilink_frame ms)))))) s.
Proof.
  intros Hwf Hm Hr. revert fuel total s. induction Hm as [|m v ms vs Hm Hms IH]; intros fuel total s Hf.
  { cbn [map concat app for_each length]. rewrite Z.add_0_r. by apply read_loop_incomplete. }
  apply Forall_cons in Hwf as [Hwf Hwfs]. cbn [map concat for_each] in *. rewrite <- app_assoc in *.
  set (tail := concat (map encode_ilink_frame ms) ++ rest) in *.
  rewrite length_app, length_encode_ilink_frame in Hf. destruct fuel as [|fuel]; [unfold sofh_size in Hf; lia|].
  assert (read_loop cfg sd (Datatypes.S fuel) (encode_ilink_frame m ++ tail) total s =
    (on_ilink (on_ilink_message cfg sd) v ≫= λ _,
     read_loop cfg sd fuel tail (total + Z.of_nat (length (encode_ilink_frame m)))) s) as ->.
  { change (encode_ilink_frame m ++ tail) with
      (hd 0 (encode_ilink_frame m) :: List.tl (encode_ilink_frame m) ++ tail) at 1.
    cbn [read_loop]. change (hd 0 (encode_ilink_frame m) :: List.tl (encode_ilink_frame m) ++ tail)
      with (encode_ilink_frame m ++ tail).
    unfold mbind at 1, M_bind at 1. rewrite (dispatch_frame m v tail s Hwf Hm). unfold mbind, M_bind.
    destruct (on_ilink _ v s) as [s' [[]|e]]; [|done]. cbn [mret M_ret].
    rewrite (proj2 (Z.eqb_neq _ _)) by (rewrite length_encode_ilink_frame; unfold sofh_size; lia).
    by rewrite Nat2Z.id, drop_app_length. }
  rewrite M_bind_assoc. unfold mbind, M_bind. destruct (on_ilink _ v s) as [s' [[]|e]]; [|done].
  unfold mbind, M_bind in IH. unfold tail in *. rewrite IH by (done || (unfold sofh_size in Hf; lia)).
  destruct (for_each _ _ s') as [s2 [[]|e]]; [|done]. cbn [mret M_ret].
  by rewrite length_app, Nat2Z.inj_add, Z.add_assoc.
Qed.

(** Framing.  A buffer of whole frames and a rest that is none: the messages are
    handled one after the other, in order, each with its own frame only, and
    then exactly the bytes of the whole frames are drained; the rest waits for
    more bytes.  Whatever the handlers do: one that throws ends the read where
    it is. *)
Theorem on_read_frames ms vs rest s :
  Forall ilink_frame_wf ms → Forall2 ilink_decodes ms vs → incomplete rest →
  on_read cfg sd (concat (map encode_ilink_frame ms) ++ rest) s =
  (for_each vs (on_ilink (on_ilink_message cfg sd)) ≫= λ _,
   event (OeDrain (Z.of_nat (length (concat (map encode_ilink_frame ms)))))) s.
Proof.
  intros Hwf Hm Hr. unfold on_read, mbind at 1, M_bind at 1. rewrite (read_loop_frames ms vs) by done.
  unfold mbind, M_bind. by destruct (for_each _ _ s) as [s' [[]|e]].
Qed.

(** Any bytes of a stream of frames are whole frames and a rest. *)
Lemma incomplete_prefix m k :
  ilink_frame_wf m → (k < length (encode_ilink_frame m))%nat → incomplete (take k (encode_ilink_frame m)).
Proof.
  intros Hwf Hk. unfold incomplete. rewrite length_take_le by lia.
  destruct (decide (k < sofh_size)%nat) as [?|Hge]; [by left|right].
  rewrite length_encode_ilink_frame in Hk. unfold sofh_size in *.
  destruct k as [|[|[|[|k]]]]; [lia..|]. split; [reflexivity|].
  change (take 2 (take _ _)) with (le_split 2 (Z.of_nat (length m) + 4)).
  rewrite le_combine_split_small by exact Hwf. lia.
Qed.

(** Of the first [k] bytes of the stream, [n] is the number of frames that are
    complete: these fit and one more does not. *)
Definition complete_frames (k : nat) (ms : list bytes) (n : nat) : Prop :=
  (n ≤ length ms)%nat
  ∧ (length (concat (map encode_ilink_frame (take n ms))) ≤ k)%nat
  ∧ ((n < length ms)%nat → (k < length (concat (map encode_ilink_frame (take (Datatypes.S n) ms))))%nat).

Lemma take_frames ms k :
  Forall ilink_frame_wf ms →
  ∃ n rest, complete_frames k ms n
    ∧ take k (concat (map encode_ilink_frame ms)) = concat (map encode_ilink_frame (take n ms)) ++ rest
    ∧ incomplete rest.
Proof.
  intros Hwf. revert k. unfold complete_frames. induction Hwf as [|m ms Hm _ IH]; intros k.
  { exists 0%nat, []. split; [split_and!; simpl; try lia; by intros|].
    split; [by destruct k|left; simpl; unfold sofh_size; lia]. }
  cbn [map concat]. destruct (decide (k < length (encode_ilink_frame m))%nat) as [Hlt|Hge].
  - exists 0%nat, (take k (encode_ilink_frame m)). rewrite take_app_le by lia.
    split; [|split; [done|by apply incomplete_prefix]]. split_and!; simpl; [lia..|].
    intros _. rewrite ?take_0. simpl. rewrite app_nil_r. exact Hlt.
  - destruct (IH (k - length (encode_ilink_frame m))%nat) as (n & rest & (Hn1 & Hn2 & Hn3) & Hn & Hr).
    exists (Datatypes.S n), rest. split.
    { set (rest' := take (Datatypes.S n) ms) in *. change (take (Datatypes.S (Datatypes.S n)) (m :: ms)) with (m :: rest').
      cbn [take map concat length]. rewrite !length_app. split_and!; [lia..|]. intros Hlt. specialize (Hn3 ltac:(lia)). lia. }
    split; [|done]. rewrite take_app_ge by lia. rewrite Hn.
    cbn [take map concat]. by rewrite app_assoc.
Qed.

(** C14: The stream.  However the stream of frames is cut into two reads -- in the
    middle of a length, of a message, or between two frames -- the first read
    handles all the messages whose frames are complete in its [k] bytes, no
    more and no fewer, and drains exactly these frames; the read of what is
    left, with the bytes that arrived since, handles the others: each message
    is handled once, in order, by the read that completes its frame, and
    nothing is left at the end. *)
Theorem on_read_split ms vs k :
  Forall ilink_frame_wf ms → Forall2 ilink_decodes ms vs →
  let stream := concat (map encode_ilink_frame ms) in
  ∃ n, complete_frames k ms n ∧
    let drained := length (concat (map encode_ilink_frame (take n ms))) in
    ∀ s s',
      on_read cfg sd (take k stream) s =
        (for_each (take n vs) (on_ilink (on_ilink_message cfg sd)) ≫= λ _, event (OeDrain (Z.of_nat drained))) s
      ∧ on_read cfg sd (drop drained stream) s' =
        (for_each (drop n vs) (on_ilink (on_ilink_message cfg sd)) ≫= λ _,
         event (OeDrain (Z.of_nat (length stream) - Z.of_nat drained))) s'.
Proof.
  intros Hwf Hm stream. destruct (take_frames ms k Hwf) as (n & rest & Hn & Htake & Hr).
  assert (stream = concat (map encode_ilink_frame (take n ms)) ++ concat (map encode_ilink_frame (drop n ms)))
    as Hstream by (unfold stream; by rewrite <- concat_app, <- map_app, take_drop).
  exists n. split; [done|]. intros drained s s'. split.
  - unfold stream. rewrite Htake. apply on_read_frames; [by apply Forall_take|by apply Forall2_take|done].
  - rewrite Hstream. unfold drained. rewrite drop_app_length, <- (app_nil_r (concat (map _ (drop n ms)))) at 1.
    rewrite (on_read_frames (drop n ms) (drop n vs));
      [|by apply Forall_drop|by apply Forall2_drop|left; simpl; unfold sofh_size; lia].
    assert (Z.of_nat (length (concat (map encode_ilink_frame (take n ms)) ++ concat (map encode_ilink_frame (drop n ms))))
      - Z.of_nat (length (concat (map encode_ilink_frame (take n ms))))
      = Z.of_nat (length (concat (map encode_ilink_frame (drop n ms))))) as ->; [|done].
    rewrite length_app. lia.
Qed.

(** The number of bytes of a frame that was handled is not negative. *)
Lemma dispatch_bytes buffer s s' n :
  Forall is_byte buffer → ilink_dispatch (on_ilink_message cfg sd) buffer s = (s', Ok n) → 0 ≤ n.
Proof.
  intros Hb. unfold ilink_dispatch, ilink_parse_helper.
  assert (0 ≤ le_combine (take 2 buffer)) by (apply le_combine_range; by apply Forall_take).
  destruct (length buffer <? sofh_size)%nat; [by intros [= <- <-]|]. destruct (negb _); [done|]. cbv zeta.
  destruct (_ <? _); [by intros [= <- <-]|]. unfold lift, mbind, M_bind.
  destruct (subspan _ _ _) as [m|]; [|done].
  destruct (ilink_loop _ _ _ _) as [s1 [[[]|]|]]; cbn; [|done..]. by intros [= <- <-].
Qed.

Lemma read_loop_fuel fuel buffer total s :
  (length buffer ≤ fuel)%nat → Forall is_byte buffer → (read_loop cfg sd fuel buffer total s).2 ≠ Ok None.
Proof.
  revert buffer total s. induction fuel as [|fuel IH]; intros [|b buffer] total s Hf Hb; try done.
  { simpl in Hf. lia. }
  cbn [read_loop]. unfold mbind, M_bind.
  destruct (ilink_dispatch _ _ _) as [s' [n|e]] eqn:E; [|done].
  apply dispatch_bytes in E; [|done]. destruct (n =? 0) eqn:En; [done|]. bool_to_prop.
  apply IH; [|by apply Forall_drop]. rewrite length_drop. simpl in *. lia.
Qed.

(** C28: Reads end.  Each turn of the loop over the buffer takes one byte or more, and
    the loop over the messages of a frame one turn: the number of bytes is enough
    for both, whatever the bytes and the handlers. *)
Theorem read_loop_terminates buffer total s :
  Forall is_byte buffer →
  (read_loop cfg sd (length buffer) buffer total s).2 ≠ Ok None
  ∧ ∀ m, (ilink_loop (on_ilink_message cfg sd) (length m) m s).2 ≠ Ok None.
Proof.
  intros Hb. split; [by apply read_loop_fuel|]. intros [|b m]; [done|]. apply ilink_loop_ends. simpl. lia.
Qed.

(** ** Heartbeats *)

(** C37: The heartbeat is inverted.  A timer sends one [Sequence] when the session is
    ready and the heartbeat is {e not} due yet -- so every timer sends one -- and
    moves the time of the next heartbeat ahead; once that time has come, no timer
    ever sends again, however many there are: the session is then silent. *)
Theorem heartbeat_inverted s :
  (∀ t, reliable → ready s = true → t < oe_next_heartbeat s →
     ∃ s' m, on_oe_timer true t s = (s', Ok tt)
       ∧ oe_events s' = oe_events s ++
           [OeSend (Sequence {| sq_uuid := oe_uuid s; sq_next_seq_no := peek_next_seq_num s |});
            OeBytes (encode_ilink_frame m)]
       ∧ oe_next_heartbeat s' = clock_system (oe_ticks s + 1)%nat + KEEP_ALIVE_INTERVAL)
  ∧ ∀ timers, Forall (λ t, oe_next_heartbeat s ≤ t.2) timers →
      oe_run cfg s (map (λ t, (sd, InTimer t.1 t.2)) timers) = s.
Proof.
  split.
  - intros t Hrel Hr Ht.
    destruct (send_reliable (Sequence {| sq_uuid := oe_uuid s; sq_next_seq_no := peek_next_seq_num s |}) s
      Hrel Logic.I) as (m & _ & _ & Hsend).
    eexists _, m. split; [|split].
    + unfold on_oe_timer, mbind, M_bind, gets. cbn [when]. cbn beta iota.
      rewrite Hr, (proj2 (Z.ltb_lt _ _) Ht). exact Hsend.
    + simpl. by rewrite <- app_assoc.
    + simpl. by rewrite Nat.add_1_r.
  - intros timers Ht. induction Ht as [|t timers Ht _ IH]; [done|]. cbn [map oe_run foldl].
    assert (oe_step cfg s (sd, InTimer t.1 t.2) = s) as ->; [|exact IH].
    unfold oe_step. cbn. unfold on_oe_timer, mbind, M_bind, gets. destruct t.1; [|done]. cbn [when]. cbn beta iota.
    by rewrite (proj2 (Z.ltb_ge _ _) Ht), andb_false_r.
Qed.
End read_facts.

(** ** Witnesses *)

Section reads_witnesses.
#[local] Existing Instance example_order_env.

(** The bytes of a message without a body, with the template [id]. *)
Definition example_message_bytes (id : Z) : bytes := le_split 2 0 ++ le_split 2 id ++ le_split 2 0 ++ le_split 2 0.

Lemma example_decodes_506 : ilink_decodes (example_message_bytes 506) (Some Sequence506).
Proof.
  change (example_message_bytes 506) with (example_message_bytes 506 ++ []).
  apply (ilink_decodes_known _ [] {| blockLength := 0; templateId := 506; version := 0 |} T_Sequence506);
    done.
Qed.

Lemma example_decodes_507 : ilink_decodes (example_message_bytes 507) (Some Terminate507).
Proof.
  change (example_message_bytes 507) with (example_message_bytes 507 ++ []).
  apply (ilink_decodes_known _ [] {| blockLength := 0; templateId := 507; version := 0 |} T_Terminate507);
    done.
Qed.

Lemma example_frames :
  Forall ilink_frame_wf [example_message_bytes 506; example_message_bytes 507]
  ∧ Forall2 ilink_decodes [example_message_bytes 506; example_message_bytes 507]
      [Some Sequence506; Some Terminate507].
Proof.
  split.
  - repeat apply Forall_cons_2; [..|done]; unfold ilink_frame_wf, in_width; simpl; lia.
  - repeat apply Forall2_cons_2; [apply example_decodes_506|apply example_decodes_507|done].
Qed.

Lemma on_read_frames_witness :
  on_read example_config example_sd
    (concat (map encode_ilink_frame [example_message_bytes 506; example_message_bytes 507]) ++ [12; 0]) ready_entry
  = (push (OeDrain 24) (push (OeConnection "close") ready_entry), Ok tt).
Proof.
  destruct example_frames as [Hwf Hm].
  rewrite (on_read_frames example_config example_sd _ _ [12; 0] ready_entry Hwf Hm); [reflexivity|].
  left. simpl. unfold sofh_size. lia.
Defined.

(** Two frames of 12 bytes, cut in the second one. *)
Lemma on_read_split_witness :
  let stream := concat (map encode_ilink_frame [example_message_bytes 506; example_message_bytes 507]) in
  on_read example_config example_sd (take 17 stream) ready_entry
    = (on_ilink (on_ilink_message example_config example_sd) (Some Sequence506) ≫= λ _,
       event (OeDrain 12)) ready_entry
  ∧ on_read example_config example_sd (drop 12 stream) ready_entry
    = (on_ilink (on_ilink_message example_config example_sd) (Some Terminate507) ≫= λ _,
       event (OeDrain 12)) ready_entry.
Proof.
  intros stream. destruct example_frames as [Hwf Hm].
  destruct (on_read_split example_config example_sd _ _ 17 Hwf Hm) as (n & (Hn1 & Hn2 & Hn3) & Hr).
  assert (n = 1)%nat as ->.
  { destruct n as [|[|n]]; [|done|].
    - exfalso. specialize (Hn3 ltac:(simpl; lia)). vm_compute in Hn3. lia.
    - destruct n as [|n]; [|simpl in Hn1; lia]. exfalso. vm_compute in Hn2. lia. }
  destruct (Hr ready_entry ready_entry) as [H1 H2]. split; [exact H1|exact H2].
Defined.

Lemma read_loop_terminates_witness :
  (read_loop example_config example_sd 4 [3; 0; 0xFE; 0xCA] 0 ready_entry).2 ≠ Ok None.
Proof.
  refine (proj1 (read_loop_terminates example_config example_sd [3; 0; 0xFE; 0xCA] 0 ready_entry _)).
  repeat constructor; unfold is_byte, in_width; lia.
Defined.

Lemma heartbeat_inverted_witness :
  (∃ s' m, on_oe_timer true 4 (set_next_heartbeat 5 ready_entry) = (s', Ok tt)
     ∧ oe_events s' = [OeSend (Sequence {| sq_uuid := 0; sq_next_seq_no := 1 |}); OeBytes (encode_ilink_frame m)])
  ∧ oe_run example_config ready_entry [(example_sd, InTimer true 0); (example_sd, InTimer true 100)] = ready_entry.
Proof.
  split.
  - destruct (proj1 (heartbeat_inverted example_config example_sd (set_next_heartbeat 5 ready_entry)) 4
      example_reliable eq_refl ltac:(simpl; lia)) as (s' & m & Hs & He & _).
    exists s', m. split; [exact Hs|exact He].
  - apply (proj2 (heartbeat_inverted example_config example_sd ready_entry) [(true, 0); (true, 100)]).
    repeat constructor; simpl; lia.
Defined.
End reads_witnesses.
