(* ===== verification/OrderEntryTrades.v ===== *)
(** Order entry: trades
    (the definitions of [OrderEntry]): which trades a session publishes, over
    reads and over whole runs, and to which orders they belong. *)

From S2P Require Import Prelude Double Api MdpMap Messages MdpParser Security SecdefReader SecurityDefinitions Channel MarketData Crypto OrderTypes ILink OrderEntry OrderEntryActions OrderEntryReports OrderEntryReads.

(** ** What is published *)

(** A trade, whoever it belongs to. *)
Record published_trade := {
  pt_exchange : string;
  pt_symbol : string;
  pt_side : Side.t;
  pt_create_time_utc : Z;
  pt_update_time_utc : Z;
  pt_external_order_id : string;
  pt_client_order_id : string;
  pt_fills : list Fill;
}.

Definition trade_of_event (e : oe_event) : option published_trade :=
  match e with
  | OeTradeUpdate u _ => Some {|
      pt_exchange := tu_exchange u; pt_symbol := tu_symbol u; pt_side := tu_side u;
      pt_create_time_utc := tu_create_time_utc u; pt_update_time_utc := tu_update_time_utc u;
      pt_external_order_id := tu_external_order_id u; pt_client_order_id := tu_client_order_id u;
      pt_fills := tu_fills u |}
  | _ => None
  end.

Section trades.
Context `{OrderEnv}.
Implicit Types (s : OrderEntry).

Definition trades_of s : list published_trade := omap trade_of_event (oe_events s).

(** The trade that a message reports: one fill for each entry, with the quantity
    and the price of the entry; the aggressor takes and the other side makes. *)
Definition reported_trade (sd : SecurityDefinitions) (m : ilink_message) : option published_trade :=
  match m with
  | ExecutionReportTradeOutright525 value =>
    if decide (get_order_id value = 0 ∨ er_noFills value = []) then None
    else
      security ← get_security (get_security_id value) sd;
      Some {|
        pt_exchange := exchange security; pt_symbol := symbol security;
        pt_side :=
          match er_side value with SideReq.Buy => Side.BUY | SideReq.Sell => Side.SELL | _ => Side.UNDEFINED end;
        pt_create_time_utc := get_int (er_transactTime value);
        pt_update_time_utc := get_int (er_transactTime value);
        pt_external_order_id := fmt_Z (get_order_id value);
        pt_client_order_id := er_clOrdID value;
        pt_fills := map (λ item, {|
          fi_external_trade_id := er_execID value +:+ fl_fillExecID item;
          fi_quantity := double_of_Z (fl_fillQty item);
          fi_price := ilink_get_double (fl_fillPx item);
          fi_liquidity :=
            match er_aggressorIndicator value with
            | Some BooleanFlag.True => Liquidity.TAKER
            | Some BooleanFlag.False => Liquidity.MAKER
            | _ => Liquidity.UNDEFINED
            end |}) (er_noFills value) |}
  | _ => None
  end.

(** The user, the order and the strategy of an order that was found, or of none. *)
Definition owner (order : option Order) : Z * Z * Z :=
  match order with
  | Some order => (or_user_id order, or_order_id order, or_strategy_id order)
  | None => (SOURCE_NONE, ORDER_ID_NONE, STRATEGY_ID_NONE)
  end.

(** A trade [u] right after [before]: the event before it is the update of the
    same order, and it belongs to the order that the order management system
    found for that update. *)
Definition follows_update (before : list oe_event) (u : TradeUpdate) (user_id : Z) : Prop :=
  ∃ earlier o, before = earlier ++ [OeOrderUpdate o]
    ∧ owner (find_order earlier o) = (user_id, tu_order_id u, tu_strategy_id u)
    ∧ (ou_exchange o, ou_symbol o, ou_side o) = (tu_exchange u, tu_symbol u, tu_side u)
    ∧ (ou_external_order_id o, ou_client_order_id o) = (tu_external_order_id u, tu_client_order_id u)
    ∧ Forall (λ f, fi_liquidity f = ou_last_liquidity o) (tu_fills u) ∧ tu_fills u ≠ [].

Definition attributed s : Prop :=
  ∀ before u user_id after, oe_events s = before ++ OeTradeUpdate u user_id :: after → follows_update before u user_id.

(** ** What a session keeps *)

(** [ts] was published; and the attribution is right, if it was at first. *)
Definition told (first : Prop) (ts : list published_trade) s : Prop := trades_of s = ts ∧ (first → attributed s).

Section quiet.
Context (first : Prop).
Abbreviation told := (told first).

Lemma told_push ts e s : trade_of_event e = None → told ts s → told ts (push e s).
Proof.
  intros He [Ht Ha]. split.
  - unfold trades_of. cbn. rewrite omap_app. simpl. rewrite He, app_nil_r. exact Ht.
  - intros Hfirst before u user_id after. cbn [oe_events push]. intros Hl. destruct after as [|x after _] using rev_ind.
    + apply app_inj_tail in Hl as [_ ->]. done.
    + change (OeTradeUpdate u user_id :: after ++ [x]) with ((OeTradeUpdate u user_id :: after) ++ [x]) in Hl.
      rewrite app_assoc in Hl. apply app_inj_tail in Hl as [Hl _]. by eapply (Ha Hfirst).
Qed.

Lemma told_events ts s s' : oe_events s' = oe_events s → told ts s → told ts s'.
Proof. intros He [Ht Ha]. unfold told, trades_of, attributed in *. by rewrite He. Qed.

Lemma told_trade ts u user_id s :
  told ts s → follows_update (oe_events s) u user_id →
  told (ts ++ option_list (trade_of_event (OeTradeUpdate u user_id))) (push (OeTradeUpdate u user_id) s).
Proof.
  intros [Ht Ha] Hu. split.
  - unfold trades_of. cbn. rewrite omap_app. unfold trades_of in Ht. by rewrite Ht.
  - intros Hfirst before u' user' after. cbn [oe_events push]. intros Hl. destruct after as [|x after _] using rev_ind.
    + by apply app_inj_tail in Hl as [<- [= <- <-]].
    + change (OeTradeUpdate u' user' :: after ++ [x]) with ((OeTradeUpdate u' user' :: after) ++ [x]) in Hl.
      rewrite app_assoc in Hl. apply app_inj_tail in Hl as [Hl _]. by eapply (Ha Hfirst).
Qed.

(** Everything but a report of a trade pushes other events, or changes what is no
    event. *)
Lemma quiet_event ts e : trade_of_event e = None → keeps (told ts) (event e).
Proof. intros He. apply keeps_modify. intros s. by apply told_push. Qed.

Lemma quiet_modify ts f : (∀ s, oe_events (f s) = oe_events s) → keeps (told ts) (modify f).
Proof. intros Hf. apply keeps_modify. intros s. by apply told_events. Qed.

Lemma quiet_read_env ts {A} (f : nat → A) : keeps (told ts) (read_env f).
Proof.
  apply keeps_bind; [apply keeps_gets|]. intros n. apply keeps_bind; [by apply quiet_modify|]. intros. apply keeps_ret.
Qed.

Lemma quiet_send ts r : keeps (told ts) (send r).
Proof.
  apply keeps_bind; [by apply quiet_event|]. intros [].
  apply keeps_bind; [apply keeps_lift|]. intros message.
  apply keeps_bind; [apply keeps_lift|]. intros length.
  apply keeps_bind; [apply quiet_read_env|]. intros [size|].
  all: apply keeps_bind; [|intros; apply keeps_bind; [apply quiet_read_env|intros; by apply quiet_modify]].
  - cbv zeta. destruct (_ <? _)%nat; [apply keeps_throw|by apply quiet_event].
  - apply keeps_ret.
Qed.

Lemma quiet_numbered ts f : keeps (told ts) (n ← fetch_next_seq_num; send (f n)).
Proof.
  apply keeps_bind; [|intros; apply quiet_send].
  apply keeps_bind; [apply keeps_gets|]. intros n. apply keeps_bind; [by apply quiet_modify|]. intros. apply keeps_ret.
Qed.

Lemma quiet_request_id ts : keeps (told ts) fetch_next_request_id.
Proof.
  apply keeps_bind; [apply keeps_gets|]. intros n. apply keeps_bind; [by apply quiet_modify|]. intros. apply keeps_ret.
Qed.

Context (cfg : OrderConfig).

Lemma quiet_parties ts : keeps (told ts) (send_party_details cfg).
Proof. apply keeps_when. apply keeps_bind; [apply quiet_read_env|]. intros now. apply quiet_numbered. Qed.

Lemma quiet_status ts status : keeps (told ts) (on_connection_status status).
Proof. apply keeps_bind; [by apply quiet_modify|]. intros []. by apply quiet_event. Qed.

Lemma quiet_download ts f : keeps (told ts) (download_call cfg f).
Proof.
  apply keeps_bind; [apply keeps_gets|]. intros d. generalize (f d). clear. intros p.
  induction p as [d|state k IH]; simpl; [by apply quiet_modify|].
  apply keeps_bind; [|done]. destruct state; simpl; [apply keeps_ret| |].
  - apply keeps_bind; [apply quiet_parties|]. intros []. apply keeps_bind; [|intros; apply keeps_ret].
    apply keeps_bind; [apply quiet_read_env|]. intros now.
    apply keeps_bind; [apply quiet_request_id|]. intros id. apply quiet_numbered.
  - apply keeps_bind; [apply quiet_status|]. intros []. apply keeps_ret.
Qed.

(** Steps of a bind that tell nothing. *)
Ltac quiet_step :=
  first [apply keeps_bind; [first [apply quiet_read_env | apply quiet_parties | apply quiet_request_id
           | apply keeps_gets | apply keeps_lift | by apply quiet_modify]|intros ?; cbv beta]
        |apply quiet_numbered | apply quiet_send].

Context (sd : SecurityDefinitions).

Lemma quiet_order ts value f :
  (∀ id security, keeps (told ts) (f id security)) → keeps (told ts) (with_order sd value f).
Proof.
  intros Hf. unfold with_order. destruct (negb _); [|apply keeps_ret].
  destruct (get_security _ _); [apply Hf|apply keeps_ret].
Qed.

Lemma quiet_message ts m :
  match m with ExecutionReportTradeOutright525 _ => False | _ => True end → keeps (told ts) (on_ilink_message cfg sd m).
Proof.
  destruct m as [| | | | | | | | | |value|value|value|value| | |value|value|value| | |value|value|value|];
    simpl; intros Hm; try (exfalso; exact Hm); try by (apply keeps_ret || apply quiet_event).
  - unfold send_establish. repeat quiet_step.
  - apply keeps_bind; [by apply quiet_status|]. intros. apply quiet_download.
  - by apply keeps_when, quiet_event.
  - apply quiet_order. intros. by apply quiet_event.
  - apply quiet_order. intros. by apply quiet_event.
  - apply keeps_bind; [apply quiet_order; intros; by apply quiet_event|]. intros.
    apply keeps_when, quiet_download.
  - apply quiet_order. intros. by apply quiet_event.
  - unfold on_order_mass_action_report. destruct (ma_massActionResponse value);
      [by apply quiet_event| |apply keeps_ret].
    apply keeps_bind; [|intros; by apply quiet_event]. apply keeps_for_each. intros. by apply quiet_event.
Qed.

(** A report of a trade tells what it reports. *)
Lemma told_report ts value s :
  told ts s → ∃ s', on_ilink_message cfg sd (ExecutionReportTradeOutright525 value) s = (s', Ok tt)
    ∧ told (ts ++ option_list (reported_trade sd (ExecutionReportTradeOutright525 value))) s'.
Proof.
  intros Hs. cbn [on_ilink_message reported_trade]. unfold on_execution_report_trade_outright, with_order.
  destruct (get_order_id value =? 0) eqn:E0; bool_to_prop.
  { exists s. split; [done|]. rewrite decide_True by auto. by rewrite app_nil_r. }
  cbn [negb]. destruct (get_security (get_security_id value) sd) as [security|].
  2:{ exists s. split; [done|]. case_decide; by rewrite app_nil_r. }
  unfold mbind at 1, M_bind, gets. cbn beta iota zeta. set (o := order_update_of _ _ _ _).
  assert (∃ user_id order_id strategy_id, owner (find_order (oe_events s) o) = (user_id, order_id, strategy_id)
    ∧ (match find_order (oe_events s) o with
       | Some order => (or_user_id order, or_order_id order, or_strategy_id order)
       | None => (SOURCE_NONE, ORDER_ID_NONE, STRATEGY_ID_NONE) end) = (user_id, order_id, strategy_id))
    as (user_id & order_id & strategy_id & Ho & ->) by (destruct (find_order _ o); by do 3 eexists).
  unfold mbind, M_bind, event at 1, modify at 1. cbn beta iota zeta.
  assert (told ts (push (OeOrderUpdate o) s)) as Hs1 by by apply told_push.
  destruct (er_noFills value) as [|x fills] eqn:Ef.
  { eexists. split; [reflexivity|]. rewrite decide_True by auto. by rewrite app_nil_r. }
  rewrite decide_False by (intros [?|?]; [done|congruence]). cbn [map]. unfold event, modify. cbn beta iota.
  eexists. split; [reflexivity|]. apply (told_trade _ {| tu_order_id := order_id |} user_id); [done|].
  eexists _, o. split; [reflexivity|]. split; [exact Ho|]. split; [done|]. split; [done|]. split; [|done].
  change (Forall (λ f, fi_liquidity f = ou_last_liquidity o) (map (fill_of value) (x :: fills))).
  by apply Forall_map, Forall_forall.
Qed.

Lemma told_message ts m s s' :
  told ts s → on_ilink_message cfg sd m s = (s', Ok tt) → told (ts ++ option_list (reported_trade sd m)) s'.
Proof.
  intros Hs Hm. assert (match m with ExecutionReportTradeOutright525 _ => False | _ => True end →
    told (ts ++ option_list (reported_trade sd m)) s') as Hquiet.
  { intros Hq. pose proof (quiet_message ts m Hq s Hs) as Hk. rewrite Hm in Hk.
    destruct m; simpl in *; try done; by rewrite app_nil_r. }
  destruct m; try by apply Hquiet. destruct (told_report ts value s Hs) as (s1 & H1 & Ht).
  rewrite Hm in H1. by injection H1 as ->.
Qed.

Lemma told_messages ts vs s s' :
  told ts s → for_each vs (on_ilink (on_ilink_message cfg sd)) s = (s', Ok tt) →
  told (ts ++ omap (λ v, v ≫= reported_trade sd) vs) s'.
Proof.
  revert ts s. induction vs as [|v vs IH]; intros ts s Hs; [intros [= <-]; by rewrite app_nil_r|].
  cbn [for_each]. unfold mbind at 1, M_bind. destruct (on_ilink _ v s) as [s1 [[]|e]] eqn:Hv; [|done].
  intros Hrest. destruct v as [m|]; cbn [on_ilink] in Hv.
  - pose proof (IH _ _ (told_message ts m s s1 Hs Hv) Hrest) as Ht. rewrite <- app_assoc in Ht.
    simpl. by destruct (reported_trade sd m).
  - injection Hv as <-. by apply (IH ts s).
Qed.

Lemma quiet_when_ready ts p : keeps (told ts) p → keeps (told ts) (when_ready cfg p ≫= λ _, mret tt).
Proof.
  intros Hp. apply keeps_bind; [|intros; apply keeps_ret]. apply keeps_bind; [apply keeps_gets|].
  intros b. destruct (negb b); [apply keeps_throw|]. apply keeps_bind; [done|]. intros. apply keeps_ret.
Qed.

Lemma quiet_input ts i :
  match i with InRead _ => False | _ => True end → keeps (told ts) (on_input cfg sd i).
Proof.
  destruct i; simpl; intros Hi; try (exfalso; exact Hi).
  1,2: by apply quiet_event.
  - apply keeps_when. unfold send_sequence. do 2 quiet_step. apply keeps_when. repeat quiet_step.
  - apply keeps_bind; [unfold send_negotiate; cbv zeta; repeat quiet_step|]. intros. apply quiet_status.
  - unfold on_disconnected. do 4 quiet_step. apply quiet_status.
  - apply quiet_when_ready. unfold send_new_order_single. destruct (find_security_id _ _ _); [|apply keeps_throw].
    destruct (get_security _ _); [|apply keeps_throw]. destruct (negb _); [apply keeps_throw|].
    quiet_step. cbv zeta. repeat quiet_step.
  - apply quiet_when_ready. unfold send_order_cancel_replace_request. destruct (find_security_id _ _ _); [|apply keeps_throw].
    quiet_step. cbv zeta. repeat quiet_step.
  - apply quiet_when_ready. unfold send_order_cancel_request. destruct (find_security_id _ _ _); [|apply keeps_throw].
    cbv zeta. repeat quiet_step.
  - apply quiet_when_ready. apply keeps_bind; [|intros; by apply quiet_event]. unfold send_order_mass_action_request.
    repeat quiet_step.
Qed.
End quiet.

(** Every input keeps the attribution. *)
Lemma attributed_of_told {A} (p : M OrderEntry A) : (∀ ts, keeps (told True ts) p) → keeps attributed p.
Proof.
  intros Hp s Hs. pose proof (Hp (trades_of s) s (conj eq_refl (λ _, Hs))) as Hk.
  destruct (p s) as [s1 [a|e]]; by apply Hk.
Qed.

Lemma keeps_attributed_message cfg sd m : keeps attributed (on_ilink_message cfg sd m).
Proof.
  destruct (decide (match m with ExecutionReportTradeOutright525 _ => true | _ => false end = true)) as [E|E].
  - destruct m; try discriminate E. intros s Hs.
    destruct (told_report True cfg sd (trades_of s) value s (conj eq_refl (λ _, Hs))) as (s1 & -> & [_ Ha]). by apply Ha.
  - apply attributed_of_told. intros ts. apply quiet_message. by destruct m.
Qed.

Lemma keeps_attributed cfg sd i : keeps attributed (on_input cfg sd i).
Proof.
  destruct i; try (apply attributed_of_told; intros ts; by apply quiet_input).
  cbn [on_input]. apply keeps_bind.
  - generalize (length buffer), 0. intros fuel. revert buffer. induction fuel as [|fuel IH]; intros [|b buffer] total; simpl;
      try apply keeps_ret. apply keeps_bind; [apply keeps_ilink_dispatch, keeps_attributed_message|].
    intros n. destruct (n =? 0); [apply keeps_ret|apply IH].
  - intros [total|]; [|apply keeps_throw]. apply attributed_of_told. intros. by apply quiet_event.
Qed.
End trades.

(** ** Properties *)

Section trades_properties.
Context `{OrderEnv} (cfg : OrderConfig).

(** C25: Trades.  A read of whole frames that ends well publishes exactly the
    trades that its messages report, once each and in order: for each report of
    a trade on a known instrument that has fills, one trade with a fill for each
    entry, and nothing for any other message.  And over any run of a session,
    whatever is received, requested or thrown, each trade follows the update of
    its own order at once, agrees with it in side, identifiers and liquidity,
    and belongs to the user and order that the order management system finds
    for that update -- to none when it finds none. *)
Theorem trades_published :
  (∀ sd ms vs s s',
     Forall ilink_frame_wf ms → Forall2 ilink_decodes ms vs →
     on_read cfg sd (concat (map encode_ilink_frame ms)) s = (s', Ok tt) →
     trades_of s' = trades_of s ++ omap (λ v, v ≫= reported_trade sd) vs)
  ∧ ∀ inputs before u user_id after,
      oe_events (oe_run cfg create_order_entry inputs) = before ++ OeTradeUpdate u user_id :: after →
      follows_update before u user_id.
Proof.
  split.
  - intros sd ms vs s s' Hwf Hm. rewrite <- (app_nil_r (concat _)).
    rewrite (on_read_frames cfg sd ms vs) by (done || (left; simpl; unfold sofh_size; lia)).
    unfold mbind, M_bind. destruct (for_each _ _ s) as [s1 [[]|e]] eqn:Hv; [|done]. intros [= <-].
    unfold trades_of. cbn. rewrite omap_app. simpl. rewrite app_nil_r.
    by destruct (told_messages False cfg sd (trades_of s) vs s s1).
  - intros inputs. fold (attributed (oe_run cfg create_order_entry inputs)). unfold oe_run.
    apply foldl_inv; [by intros [|] * ?|]. intros s [sd i] Hs _.
    apply (keeps_outcome _ (on_input cfg sd i)); [apply keeps_attributed|done].
Qed.
End trades_properties.

(** ** Witnesses *)

Section trades_witnesses.
#[local] Existing Instance example_order_env.

Lemma example_decodes_525 :
  ilink_decodes (example_message_bytes 525) (Some (ExecutionReportTradeOutright525 example_trade)).
Proof.
  change (example_message_bytes 525) with (example_message_bytes 525 ++ []).
  apply (ilink_decodes_known _ [] {| blockLength := 0; templateId := 525; version := 0 |}
    T_ExecutionReportTradeOutright525); done.
Qed.

(** A read of one report: a trade with two fills. *)
Lemma trades_published_witness :
  ∃ s' t,
    on_read example_config example_sd (encode_ilink_frame (example_message_bytes 525)) ready_entry = (s', Ok tt)
    ∧ trades_of s' = [t] ∧ map fi_quantity (pt_fills t) = [double_of_Z 1; double_of_Z 2]
    ∧ map fi_liquidity (pt_fills t) = [Liquidity.TAKER; Liquidity.TAKER].
Proof.
  set (read := on_read example_config example_sd (encode_ilink_frame (example_message_bytes 525)) ready_entry).
  assert (read = (read.1, Ok tt)) as Hread.
  { assert (read.2 = Ok tt) as E by (vm_compute; reflexivity). rewrite <- E. by destruct read. }
  assert (trades_of read.1 = trades_of ready_entry ++ omap (λ v, v ≫= reported_trade example_sd)
    [Some (ExecutionReportTradeOutright525 example_trade)]) as Ht.
  { refine (proj1 (trades_published example_config) example_sd [example_message_bytes 525] _ ready_entry read.1 _ _ _).
    - repeat apply Forall_cons_2; [|done]. unfold ilink_frame_wf, in_width. simpl. lia.
    - repeat apply Forall2_cons_2; [apply example_decodes_525|done].
    - exact Hread. }
  exists read.1. eexists. split; [exact Hread|]. split; [exact Ht|]. split; reflexivity.
Defined.
End trades_witnesses.
