(* ===== verification/Gateway.v ===== *)
(** The gateway
    (src/roq/cme/gateway: config.cpp, account.cpp, shared.cpp, mdp_receiver.cpp,
    controller.cpp, and [get_channel_name] of channel.cpp).

    The accounts of the configuration, what the controller makes when it is
    constructed -- the market data manager, the receivers of the multicast
    channels and the order entry sessions -- and how it hands what arrives to
    them. *)

From S2P Require Import Prelude Double Api MdpMap Messages MdpParser Security SecdefReader SecurityDefinitions Channel MarketData InstrumentDefinition Recovery MbpRecovery MbofdRecovery IncrementalBase IncrementalBook IncrementalTrades Incremental MdpConfig Manager IlinkConfig Crypto OrderTypes ILink OrderEntry OrderEntryRuns OrderEntryActions.

(** ** Configuration: [gateway::Config] *)

Module GatewayConfig.
(** The members of [server::config::Account] that the gateway reads. *)
Record account := {
  ac_name : string;
  ac_login : string;
  ac_password : string;
  ac_secret : string;
  ac_master : bool;
}.

Record t := {
  users : list string;
  accounts : gmap string account;
  master_account_ : string;
  rate_limits : gmap string Z;
}.

Definition empty : t := Build_t [] ∅ "" ∅.

(** The callbacks of the reader of the file; a user and a rate limit are known
    by their names.  [RequestTemplate] stops the process, another key is only
    logged. *)
Inductive item :=
  | Account (a : account)
  | User (name : string)
  | RateLimit (name : string) (limit : Z)
  | RequestTemplate (label : string)
  | Other (key : string).

Definition on_account (a : account) (c : t) : t :=
  Build_t (users c) (try_emplace (ac_name a) a (accounts c))
    (if ac_master a then ac_name a else master_account_ c) (rate_limits c).

Definition on_item (c : t) (i : item) : res t :=
  match i with
  | Account a => Ok (on_account a c)
  | User name => Ok (Build_t (users c ++ [name]) (accounts c) (master_account_ c) (rate_limits c))
  | RateLimit name limit =>
    Ok (Build_t (users c) (accounts c) (master_account_ c) (try_emplace name limit (rate_limits c)))
  | RequestTemplate _ => Err Fatal
  | Other _ => Ok c
  end.

(** The constructor, over the items of the file. *)
Definition create (items : list item) : res t := foldM on_item empty items.

Definition get_account (c : t) (name : string) : res account :=
  match accounts c !! name with Some a => Ok a | None => Err Fatal end.
Definition get_login (c : t) (name : string) : res string := ac_login <$> get_account c name.
Definition get_password (c : t) (name : string) : res string := ac_password <$> get_account c name.
Definition get_secret (c : t) (name : string) : res string := ac_secret <$> get_account c name.
End GatewayConfig.

(** [Account::Account]. *)
Definition create_account (config : GatewayConfig.t) (name : string) : res Account :=
  login ← GatewayConfig.get_login config name;
  password ← GatewayConfig.get_password config name;
  secret ← GatewayConfig.get_secret config name;
  Ok {| account_name := name; account_login := login; account_password := password; account_secret := secret |}.

Section gateway.
Context `{OrderEnv} `{MapOrder} `{FromCharsUint16}.

(** [create_accounts]. *)
Definition create_accounts (config : GatewayConfig.t) : res (gmap string Account) :=
  foldM (λ result '(_, account),
    let name := GatewayConfig.ac_name account in
    a ← create_account config name; Ok (try_emplace name a result))
    ∅ (map_order (GatewayConfig.accounts config)).

(** ** [gateway::Shared] *)

Record GatewayShared := {
  mdp_config : Config.t;
  ilink_config_ : gmap Z IlinkReader.MarketSegment;
}.

(** [get_market_segment]: the parameter is a [uint8_t]. *)
Definition get_market_segment (market_segment_id : Z) (sh : GatewayShared) : option IlinkReader.MarketSegment :=
  ilink_config_ sh !! u8 market_segment_id.

Definition get_multicast_config (channel_id : Z) (type : ConnectionType.t) (priority : Priority.t)
    (sh : GatewayShared) : res (string * Z) :=
  match Config.find (mdp_config sh) channel_id type priority with
  | Some connection => Ok (Config.multicast_address connection, Config.port connection)
  | None => Err RuntimeError
  end.

(** ** [MDPReceiver] *)

Record MDPReceiver := {
  rc_channel_id : Z;
  rc_connection_type : ConnectionType.t;
  rc_priority : Priority.t;
  rc_name : string;
  rc_address : string * Z;
}.

(** The constructor: the name, then the receiver, which joins the group. *)
Definition create_receiver (sh : GatewayShared) (m : Manager) (channel_id : Z) (type : ConnectionType.t)
    (priority : Priority.t) : res MDPReceiver :=
  name ← manager_get_name channel_id type priority m;
  address ← get_multicast_config channel_id type priority sh;
  Ok {| rc_channel_id := channel_id; rc_connection_type := type; rc_priority := priority;
        rc_name := name; rc_address := address |}.

(** [operator()(Trace<Read>)]: what [recv] returns, until it returns nothing. *)
Fixpoint on_receive (r : MDPReceiver) (trace_info : TraceInfo) (datagrams : list bytes) (m : Manager) : res Manager :=
  match datagrams with
  | [] => Ok m
  | payload :: datagrams =>
    if bool_decide (payload = []) then Ok m
    else
      m ← manager_dispatch (rc_channel_id r) (rc_connection_type r) (rc_priority r) payload trace_info m;
      on_receive r trace_info datagrams m
  end.

(** [Channel::get_channel_name]. *)
Definition get_channel_name (channel_id prefix : string) (priority : Priority.t) : string :=
  prefix +:+ channel_id +:+
  match priority with Priority.UNDEFINED => "" | Priority.PRIMARY => "A" | Priority.SECONDARY => "B" end.

(** ** Construction of the controller *)

(** The settings that are read. *)
Record GatewaySettings := {
  channel_ids : list Z;
  secdef_config_file : option string;
  market_segment_ids : list string;
  firm_id : string;
  location : string;
}.

(** The lines of a channel, in the order in which they are made. *)
Definition channel_lines (settings : GatewaySettings) : list (ConnectionType.t * Priority.t) :=
  match secdef_config_file settings with
  | Some _ => []
  | None => [(ConnectionType.INSTRUMENT_DEFINITION, Priority.PRIMARY)]
  end ++
  [(ConnectionType.MBP_MARKET_RECOVERY, Priority.PRIMARY);
   (ConnectionType.MBOFD_MARKET_RECOVERY, Priority.PRIMARY);
   (ConnectionType.INCREMENTAL, Priority.PRIMARY); (ConnectionType.INCREMENTAL, Priority.SECONDARY)].

Definition create_mdp_receivers (settings : GatewaySettings) (sh : GatewayShared) (m : Manager) : res (list MDPReceiver) :=
  foldM (λ result channel_id,
    foldM (λ result '(type, priority),
      r ← create_receiver sh m channel_id type priority; Ok (result ++ [r]))
      result (channel_lines settings))
    [] (channel_ids settings).

(** An order entry session of the table: its const members, the host of its
    connection, its state. *)
Record session := {
  se_config : OrderConfig;
  se_host : string;
  se_state : OrderEntry;
}.

Definition create_session (settings : GatewaySettings) (stream_id : Z) (account : Account)
    (market_segment_id : Z) (market_segment : IlinkReader.MarketSegment) : session := {|
  se_config := {|
    cf_stream_id := stream_id; cf_account := account; cf_market_segment_id := u8 market_segment_id;
    cf_firm_id := firm_id settings; cf_location := location settings |};
  se_host := IlinkReader.primary_host_ip market_segment;
  se_state := create_order_entry |}.

(** The loop over the accounts: each gets a session, and the table keeps the
    first of each name. *)
Definition create_sessions (settings : GatewaySettings) (accounts : gmap string Account)
    (market_segment_id : Z) (market_segment : IlinkReader.MarketSegment)
    (w : gmap string session * Z) : gmap string session * Z :=
  foldl (λ '(result, stream_id) '(name, account),
    let stream_id := u16 (stream_id + 1) in
    (try_emplace name (create_session settings stream_id account market_segment_id market_segment) result, stream_id))
    w (map_order accounts).

(** [create_order_entry] of the controller. *)
Definition create_order_entries (settings : GatewaySettings) (accounts : gmap string Account)
    (sh : GatewayShared) (stream_id : Z) : res (gmap string session * Z) :=
  match market_segment_ids settings with
  | [] => Ok (∅, stream_id)
  | items =>
    if bool_decide (firm_id settings = "") then Err Fatal
    else
      foldM (λ w item,
        market_segment_id ← from_chars_uint16 item;
        match get_market_segment market_segment_id sh with
        | Some market_segment => Ok (create_sessions settings accounts market_segment_id market_segment w)
        | None => Err Fatal
        end) (∅, stream_id) items
  end.

Record Controller := {
  market_data_ : Manager;
  mdp_receivers_ : list MDPReceiver;
  order_entry_ : gmap string session;
  ct_states : list bool;             (** the states that the dispatcher was given: enabled or not *)
}.

(** The constructor, with the definitions that were read from the file. *)
Definition create_controller (settings : GatewaySettings) (config : GatewayConfig.t) (sh : GatewayShared)
    : res Controller :=
  accounts ← create_accounts config;
  sd ← create_definitions (secdef_config_file settings);
  '(market_data, stream_id) ←
    create_manager sd (channel_ids settings) (mdp_config sh) (secdef_config_file settings) 0;
  mdp_receivers ← create_mdp_receivers settings sh market_data;
  '(order_entry, _) ← create_order_entries settings accounts sh stream_id;
  Ok {| market_data_ := market_data; mdp_receivers_ := mdp_receivers; order_entry_ := order_entry; ct_states := [] |}.

(** ** Operations *)

Definition set_market_data v c := Build_Controller v (mdp_receivers_ c) (order_entry_ c) (ct_states c).
Definition set_order_entry v c := Build_Controller (market_data_ c) (mdp_receivers_ c) v (ct_states c).
Definition set_states v c := Build_Controller (market_data_ c) (mdp_receivers_ c) (order_entry_ c) v.

(** The security definitions, which the sessions share with the market data. *)
Definition security_definitions c : SecurityDefinitions := definitions (shared_ (market_data_ c)).

(** [get_order_entry], and a call of the session. *)
Definition with_order_entry {A} (account : string) (f : OrderConfig → SecurityDefinitions → M OrderEntry A)
    : M Controller A := λ c,
  match order_entry_ c !! account with
  | Some se =>
    let '(s', r) := f (se_config se) (security_definitions c) (se_state se) in
    (set_order_entry (<[account := {| se_config := se_config se; se_host := se_host se; se_state := s' |}]>
       (order_entry_ c)) c, r)
  | None => (c, Err RuntimeError)
  end.

(** The actions of the order management system. *)
Definition ct_create_order (create_order : CreateOrder) (order : Order) (request_id : string) : M Controller Z :=
  with_order_entry (co_account create_order) (λ cfg sd, on_create_order cfg sd create_order order request_id).

Definition ct_modify_order (modify_order : ModifyOrder) (order : Order) : M Controller Z :=
  with_order_entry (mo_account modify_order) (λ cfg sd, on_modify_order cfg sd modify_order order).

Definition ct_cancel_order (cancel_order : CancelOrder) (order : Order) : M Controller Z :=
  with_order_entry (cn_account cancel_order) (λ cfg sd, on_cancel_order cfg sd order).

Definition ct_cancel_all_orders (cancel_all_orders : CancelAllOrders) (request_id : string) : M Controller Z :=
  with_order_entry (cl_account cancel_all_orders) (λ cfg _, on_cancel_all_orders cfg cancel_all_orders request_id).

(** MassQuote and CancelQuotes. *)
Definition ct_quotes : M Controller Z := throw NotSupported.

Inductive control_action := ENABLE | DISABLE | NO_ACTION.

Definition ct_control (action : control_action) (c : Controller) : Controller :=
  match action with
  | ENABLE => set_states (ct_states c ++ [true]) c
  | DISABLE => set_states (ct_states c ++ [false]) c
  | NO_ACTION => c
  end.

(** [dispatch_helper]: the sessions, one after the other. *)
Definition dispatch_order_entry (f : string → OrderConfig → SecurityDefinitions → M OrderEntry unit) : M Controller unit :=
  names ← gets (λ c, map fst (map_order (order_entry_ c)));
  for_each names (λ name, with_order_entry name (f name)).
End gateway.

(** ** Runs *)

Section gateway_runs.
Context `{OrderEnv} `{MapOrder} `{FromCharsUint16}.

(** What happens to the controller.  The callbacks of the connection of a
    session are inputs of that session; [receiver] is the index of a receiver. *)
Inductive ct_event :=
  | CtStart
  | CtStop
  | CtTimer (now : Z) (refreshed : string → bool) (origin_create_time : Z)
  | CtReceive (receiver : nat) (trace_info : TraceInfo) (datagrams : list bytes)
  | CtControl (action : control_action)
  | CtCreateOrder (create_order : CreateOrder) (order : Order) (request_id : string)
  | CtModifyOrder (modify_order : ModifyOrder) (order : Order)
  | CtCancelOrder (cancel_order : CancelOrder) (order : Order)
  | CtCancelAllOrders (cancel_all_orders : CancelAllOrders) (request_id : string)
  | CtQuotes
  | CtConnected (name : string)
  | CtDisconnected (name : string)
  | CtRead (name : string) (buffer : bytes).

(** One event.  An error of the market data side ends the run; one of a session
    is caught, and leaves what was reached. *)
Definition ct_step (c : Controller) (e : ct_event) : res Controller :=
  match e with
  | CtStart =>
    m ← manager_start (market_data_ c);
    Ok (dispatch_order_entry (λ _ _ _, on_start) (set_market_data m c)).1
  | CtStop => Ok (dispatch_order_entry (λ _ _ _, on_stop) c).1
  | CtTimer now refreshed origin_create_time =>
    Ok (dispatch_order_entry (λ name _ _, on_oe_timer (refreshed name) origin_create_time)
          (set_market_data (dispatch_timer now (market_data_ c)) c)).1
  | CtReceive receiver trace_info datagrams =>
    match mdp_receivers_ c !! receiver with
    | Some r => m ← on_receive r trace_info datagrams (market_data_ c); Ok (set_market_data m c)
    | None => Ok c
    end
  | CtControl action => Ok (ct_control action c)
  | CtCreateOrder create_order order request_id => Ok (ct_create_order create_order order request_id c).1
  | CtModifyOrder modify_order order => Ok (ct_modify_order modify_order order c).1
  | CtCancelOrder cancel_order order => Ok (ct_cancel_order cancel_order order c).1
  | CtCancelAllOrders cancel_all_orders request_id => Ok (ct_cancel_all_orders cancel_all_orders request_id c).1
  | CtQuotes => Ok (ct_quotes c).1
  | CtConnected name => Ok (with_order_entry name (λ cfg _, on_connected cfg) c).1
  | CtDisconnected name => Ok (with_order_entry name (λ _ _, on_disconnected) c).1
  | CtRead name buffer => Ok (with_order_entry name (λ cfg sd, on_read cfg sd buffer) c).1
  end.

(** ** Facts *)

(** A computation of a session that is one of its inputs. *)
Definition is_input {A} (f : OrderConfig → SecurityDefinitions → M OrderEntry A) : Prop :=
  ∀ cfg sd, ∃ i, ∀ s, (f cfg sd s).1 = oe_step cfg s (sd, i).

(** Every session was run through some inputs, and kept its members. *)
Definition sessions_run (c c' : Controller) : Prop :=
  ∀ name, match order_entry_ c !! name with
  | Some se => ∃ inputs, order_entry_ c' !! name =
      Some {| se_config := se_config se; se_host := se_host se;
              se_state := oe_run (se_config se) (se_state se) inputs |}
  | None => order_entry_ c' !! name = None
  end.

#[global] Instance sessions_run_preorder : PreOrder sessions_run.
Proof.
  split.
  - intros c name. destruct (order_entry_ c !! name) as [[cfg host s]|]; [|done]. by exists [].
  - intros c1 c2 c3 H12 H23 name. specialize (H12 name). specialize (H23 name).
    destruct (order_entry_ c1 !! name) as [se|].
    + destruct H12 as [i1 Hi1]. rewrite Hi1 in H23. destruct H23 as [i2 Hi2]. exists (i1 ++ i2).
      rewrite Hi2. simpl. unfold oe_run. by rewrite foldl_app.
    + by rewrite H12 in H23.
Qed.

Lemma with_order_entry_run {A} name (f : OrderConfig → SecurityDefinitions → M OrderEntry A) c :
  is_input f → sessions_run c (with_order_entry name f c).1.
Proof.
  intros Hf name'. unfold with_order_entry. destruct (order_entry_ c !! name) as [se|] eqn:E.
  - destruct (Hf (se_config se) (security_definitions c)) as [i Hi].
    specialize (Hi (se_state se)). destruct (f _ _ _) as [s' r]. simpl in *.
    destruct (decide (name = name')) as [<-|Hne].
    + rewrite E, lookup_insert_eq. exists [(security_definitions c, i)]. simpl. by rewrite Hi.
    + rewrite lookup_insert_ne by done. destruct (order_entry_ c !! name') as [[cfg host s]|]; [|done]. by exists [].
  - simpl. destruct (order_entry_ c !! name') as [[cfg host s]|]; [|done]. by exists [].
Qed.

Lemma with_order_entry_rest {A} name (f : OrderConfig → SecurityDefinitions → M OrderEntry A) c :
  let c' := (with_order_entry name f c).1 in
  market_data_ c' = market_data_ c ∧ mdp_receivers_ c' = mdp_receivers_ c ∧ ct_states c' = ct_states c.
Proof.
  unfold with_order_entry. destruct (order_entry_ c !! name) as [se|]; [|done]. by destruct (f _ _ _).
Qed.

(** What happened between two states of the controller. *)
Record ct_kept (c c' : Controller) : Prop := {
  ck_manager : manager_inv (market_data_ c) →
    manager_inv (market_data_ c') ∧ manager_kept (market_data_ c) (market_data_ c');
  ck_sessions : sessions_run c c';
  ck_receivers : mdp_receivers_ c' = mdp_receivers_ c;
}.

#[global] Instance ct_kept_preorder : PreOrder ct_kept.
Proof.
  split; [by intros c; split; [split; [done|reflexivity]|reflexivity|]|].
  intros c1 c2 c3 [M1 S1 R1] [M2 S2 R2]. split; [|by etrans|congruence].
  intros [Hm2 Hk2]%M1. destruct (M2 Hm2) as [? ?]. split; [done|by etrans].
Qed.

Lemma with_order_entry_kept {A} name (f : OrderConfig → SecurityDefinitions → M OrderEntry A) c :
  is_input f → ct_kept c (with_order_entry name f c).1.
Proof.
  intros Hf. destruct (with_order_entry_rest name f c) as (Hm & Hr & _).
  split; [rewrite Hm; by split|by apply with_order_entry_run|done].
Qed.

Lemma for_each_kept {A} (l : list A) (f : A → M Controller unit) c :
  (∀ x c, ct_kept c (f x c).1) → ct_kept c (for_each l f c).1.
Proof.
  intros Hf. revert c. induction l as [|x l IH]; intros c; [reflexivity|]. cbn [for_each].
  specialize (Hf x c). unfold mbind, M_bind. destruct (f x c) as [c' [[]|e]]; [|done].
  etrans; [exact Hf|apply IH].
Qed.

Lemma dispatch_order_entry_kept f c : (∀ name, is_input (f name)) → ct_kept c (dispatch_order_entry f c).1.
Proof. intros Hf. apply (for_each_kept _ (λ name, with_order_entry name (f name))). intros. by apply with_order_entry_kept. Qed.

Lemma set_market_data_kept m c :
  (manager_inv (market_data_ c) → manager_inv m ∧ manager_kept (market_data_ c) m) → ct_kept c (set_market_data m c).
Proof.
  intros Hm. split; [done| |done]. intros name. simpl.
  destruct (order_entry_ c !! name) as [[cfg host s]|]; [|done]. by exists [].
Qed.

(** An action of the order management system is an input. *)
Lemma is_action (f : OrderConfig → SecurityDefinitions → M OrderEntry Z) i :
  (∀ cfg sd, on_input cfg sd i = (f cfg sd ≫= λ _, mret tt)) → is_input f.
Proof.
  intros Hi cfg sd. exists i. intros s. unfold oe_step. cbn [fst snd]. rewrite Hi. unfold mbind, M_bind.
  by destruct (f cfg sd s) as [s' [z|e]].
Qed.

Lemma on_receive_kept r ti ds m m' :
  manager_inv m → on_receive r ti ds m = Ok m' → manager_inv m' ∧ manager_kept m m'.
Proof.
  revert m. induction ds as [|d ds IH]; intros m Hm; simpl; [by intros [= <-]|].
  case_bool_decide; [by intros [= <-]|]. intros (m1 & Hd & Hds)%res_bind_Ok.
  destruct (manager_step_kept m (OnPacket (rc_channel_id r) (rc_connection_type r) (rc_priority r) d ti) m1 Hm Hd)
    as [Hm1 Hk1].
  destruct (IH m1 Hm1 Hds) as [? ?]. split; [done|by etrans].
Qed.

Lemma ct_step_kept c e c' : ct_step c e = Ok c' → ct_kept c c'.
Proof.
  destruct e as [| |now refreshed t|i ti ds|a|co o id|mo o|co o|ca id| |name|name|name buffer]; simpl.
  - intros (m & Hm & [= <-])%res_bind_Ok. etrans; [|apply dispatch_order_entry_kept; intros name cfg sd; by exists InStart].
    apply set_market_data_kept. intros Hinv. by apply (manager_step_kept _ OnStart).
  - intros [= <-]. apply dispatch_order_entry_kept. intros name cfg sd. by exists InStop.
  - intros [= <-]. etrans; [|apply dispatch_order_entry_kept; intros name cfg sd; by exists (InTimer (refreshed name) t)].
    apply set_market_data_kept. intros Hinv. by apply (manager_step_kept _ (OnTimer now)).
  - destruct (mdp_receivers_ c !! i) as [r|]; [|by intros [= <-]].
    intros (m & Hm & [= <-])%res_bind_Ok. apply set_market_data_kept. intros. by eapply on_receive_kept.
  - intros [= <-]. destruct a; (split; [by split| |done]); intros name; simpl;
      (destruct (order_entry_ c !! name) as [[cfg host s]|]; [by exists []|done]).
  - intros [= <-]. apply with_order_entry_kept. by apply (is_action _ (InCreateOrder co o id)).
  - intros [= <-]. apply with_order_entry_kept. by apply (is_action _ (InModifyOrder mo o)).
  - intros [= <-]. apply with_order_entry_kept. by apply (is_action _ (InCancelOrder o)).
  - intros [= <-]. apply with_order_entry_kept. by apply (is_action _ (InCancelAllOrders ca id)).
  - by intros [= <-].
  - intros [= <-]. apply with_order_entry_kept. intros cfg sd. by exists InConnected.
  - intros [= <-]. apply with_order_entry_kept. intros cfg sd. by exists InDisconnected.
  - intros [= <-]. apply with_order_entry_kept. intros cfg sd. by exists (InRead buffer).
Qed.

Lemma ct_run_kept c events c' : foldM ct_step c events = Ok c' → ct_kept c c'.
Proof.
  revert c. induction events as [|e events IH]; intros c; [by intros [= <-]|].
  intros (c1 & He & Hes)%res_bind_Ok. etrans; [by eapply ct_step_kept|by apply IH].
Qed.
End gateway_runs.

(** ** Facts: construction *)

Section gateway_construction.
Context `{OrderEnv} `{MapOrder} `{FromCharsUint16}.

(** The accounts of a configuration are known by their own names. *)
Lemma config_names items c c' :
  foldM GatewayConfig.on_item c items = Ok c' →
  (∀ n a, GatewayConfig.accounts c !! n = Some a → GatewayConfig.ac_name a = n) →
  ∀ n a, GatewayConfig.accounts c' !! n = Some a → GatewayConfig.ac_name a = n.
Proof.
  revert c. induction items as [|i items IH]; intros c; [by intros [= <-]|].
  intros (c1 & Hi & Hrun)%res_bind_Ok Hc. apply (IH c1 Hrun).
  destruct i as [a|u|l z|l|k]; simplify_eq/=; try done.
  intros n x. rewrite lookup_try_emplace. case_decide as Hn; [|apply Hc].
  destruct (GatewayConfig.accounts c !! n) eqn:E; intros [= <-]; [by apply Hc|done].
Qed.

(** The credentials of an account. *)
Definition credentials (a : GatewayConfig.account) : Account := {|
  account_name := GatewayConfig.ac_name a; account_login := GatewayConfig.ac_login a;
  account_password := GatewayConfig.ac_password a; account_secret := GatewayConfig.ac_secret a |}.

Lemma create_accounts_spec config :
  (∀ n a, GatewayConfig.accounts config !! n = Some a → GatewayConfig.ac_name a = n) →
  create_accounts config = Ok (credentials <$> GatewayConfig.accounts config).
Proof.
  intros Hnames. unfold create_accounts.
  assert (∀ l (m : gmap string GatewayConfig.account),
    (∀ n a, (n, a) ∈ l → GatewayConfig.accounts config !! n = Some a) → NoDup l.*1 →
    (∀ n, n ∈ l.*1 → m !! n = None) →
    foldM (λ result '(_, account),
      a ← create_account config (GatewayConfig.ac_name account);
      Ok (try_emplace (GatewayConfig.ac_name account) a result)) (credentials <$> m) l
    = Ok (credentials <$> (list_to_map l ∪ m))) as Hfold.
  { induction l as [|[n a] l IH]; intros m Hl Hnd Hm.
    { cbn. by rewrite (left_id_L ∅ (∪)). }
    pose proof (Hl n a ltac:(left)) as Ha. pose proof (Hnames n a Ha) as <-. cbn [foldM].
    unfold create_account, GatewayConfig.get_login, GatewayConfig.get_password, GatewayConfig.get_secret,
      GatewayConfig.get_account.
    rewrite Ha. cbn [mbind res_bind fmap res_fmap].
    fold (credentials a). apply NoDup_cons in Hnd as [Hni Hnd].
    assert (m !! GatewayConfig.ac_name a = None) as Hma by (apply Hm; left).
    assert (try_emplace (GatewayConfig.ac_name a) (credentials a) (credentials <$> m)
      = credentials <$> <[GatewayConfig.ac_name a := a]> m) as ->.
    { unfold try_emplace. by rewrite lookup_fmap, Hma, fmap_insert. }
    rewrite IH; [|intros; apply Hl; by right|done|].
    - f_equal. f_equal. cbn [list_to_map foldr fst snd uncurry]. apply map_eq. intros k.
      rewrite !lookup_union. cbn. rewrite !lookup_insert.
      case_decide as Hk; [|done]. subst k. rewrite not_elem_of_list_to_map_1 by done. rewrite Hma. done.
    - intros k Hk. rewrite lookup_insert_ne; [apply Hm; by right|]. intros <-. done. }
  specialize (Hfold (map_order (GatewayConfig.accounts config)) ∅). rewrite fmap_empty in Hfold. rewrite Hfold.
  - rewrite (right_id_L ∅ (∪)). do 2 f_equal.
    rewrite <- (list_to_map_to_list (GatewayConfig.accounts config)) at 2.
    apply list_to_map_proper; [|apply map_order_perm]. rewrite map_order_perm. apply NoDup_fst_map_to_list.
  - intros n a Hin. by apply elem_of_map_order.
  - rewrite map_order_perm. apply NoDup_fst_map_to_list.
  - done.
Qed.

(** The sessions that are made for one market segment, after [n]. *)
Lemma create_sessions_spec settings msid ms (l : list (string * Account)) (t : gmap string session) n :
  NoDup l.*1 → 0 ≤ n → n + Z.of_nat (length l) < 2 ^ 16 →
  let '(t', n') := foldl (λ '(result, stream_id) '(name, account),
    let stream_id := u16 (stream_id + 1) in
    (try_emplace name (create_session settings stream_id account msid ms) result, stream_id)) (t, n) l in
  n' = n + Z.of_nat (length l)
  ∧ (∀ name x, t !! name = Some x → t' !! name = Some x)
  ∧ (∀ name, name ∉ l.*1 → t' !! name = t !! name)
  ∧ ∀ i name a, l !! i = Some (name, a) → t !! name = None →
      t' !! name = Some (create_session settings (n + 1 + Z.of_nat i) a msid ms).
Proof.
  intros Hnd Hn Hlt. revert t n Hn Hlt. induction l as [|[k b] l IH]; intros t n Hn Hlt.
  { simpl. split; [lia|]. by split_and!. }
  cbn [foldl]. cbn [length] in Hlt. rewrite wrap_small by (unfold in_width; lia).
  apply NoDup_cons in Hnd as [Hk Hnd].
  specialize (IH Hnd (try_emplace k (create_session settings (n + 1) b msid ms) t) (n + 1) ltac:(lia) ltac:(lia)).
  destruct (foldl _ _ l) as [t' n']. destruct IH as (-> & Hkeep & Hout & Hnew). split_and!.
  - cbn [length]. lia.
  - intros name x Hx. apply Hkeep. rewrite lookup_try_emplace, Hx. by case_decide.
  - intros name Hname. apply not_elem_of_cons in Hname as [Hne Hname].
    rewrite Hout, lookup_try_emplace by done. by rewrite decide_False.
  - intros [|i] name a Hi Ht.
    + simplify_eq/=. apply Hkeep. rewrite lookup_try_emplace, decide_True, Ht by done. simpl. do 2 f_equal. lia.
    + simpl in Hi. rewrite (Hnew i name a Hi).
      * do 2 f_equal. lia.
      * rewrite lookup_try_emplace, decide_False; [done|]. intros <-. apply Hk.
        apply list_elem_of_fmap. exists (k, a). split; [done|by eapply list_elem_of_lookup_2].
Qed.

(** More market segments change nothing in a table that has all accounts. *)
Lemma more_segments settings accounts sh items t n t' n' :
  (∀ name a, accounts !! name = Some a → is_Some (t !! name)) →
  foldM (λ w item,
    market_segment_id ← from_chars_uint16 item;
    match get_market_segment market_segment_id sh with
    | Some market_segment => Ok (create_sessions settings accounts market_segment_id market_segment w)
    | None => Err Fatal
    end) (t, n) items = Ok (t', n') → t' = t.
Proof.
  revert n. induction items as [|item items IH]; intros n Hall; [by intros [= <- <-]|].
  intros ([t1 n1] & Hi & Hrun)%res_bind_Ok. apply res_bind_Ok in Hi as (msid & _ & Hi).
  destruct (get_market_segment msid sh) as [ms|]; [|done]. injection Hi as Hi.
  assert (t1 = t) as ->; [|by apply (IH n1)].
  assert (∀ l n, (∀ name a, (name, a) ∈ l → is_Some (t !! name)) →
    (foldl (λ '(result, stream_id) '(name, account),
      let stream_id := u16 (stream_id + 1) in
      (try_emplace name (create_session settings stream_id account msid ms) result, stream_id)) (t, n) l).1 = t) as Hl.
  { induction l as [|[k b] l IHl]; intros n2 Hin; [done|]. cbn [foldl].
    destruct (Hin k b ltac:(left)) as [x Hx].
    assert (try_emplace k (create_session settings (u16 (n2 + 1)) b msid ms) t = t) as ->
      by (unfold try_emplace; by rewrite Hx).
    apply IHl. intros. eapply Hin. by right. }
  assert ((create_sessions settings accounts msid ms (t, n)).1 = t) as Ht; [|by rewrite Hi in Ht].
  apply Hl. intros name a Hin. eapply Hall. by apply elem_of_map_order.
Qed.

(** What a receiver has. *)
Definition receiver_ok (sh : GatewayShared) (m : Manager) (r : MDPReceiver) : Prop :=
  manager_get_name (rc_channel_id r) (rc_connection_type r) (rc_priority r) m = Ok (rc_name r)
  ∧ get_multicast_config (rc_channel_id r) (rc_connection_type r) (rc_priority r) sh = Ok (rc_address r).

Definition receiver_key (r : MDPReceiver) : Z * (ConnectionType.t * Priority.t) :=
  (rc_channel_id r, (rc_connection_type r, rc_priority r)).

Lemma create_lines_spec sh m id lines rs rs' :
  foldM (λ result '(type, priority), r ← create_receiver sh m id type priority; Ok (result ++ [r])) rs lines = Ok rs' →
  ∃ new, rs' = rs ++ new ∧ map receiver_key new = map (pair id) lines ∧ Forall (receiver_ok sh m) new.
Proof.
  revert rs. induction lines as [|[ty p] lines IH]; intros rs.
  { intros [= <-]. exists []. by rewrite app_nil_r. }
  intros (rs1 & Hr & Hrun)%res_bind_Ok. apply res_bind_Ok in Hr as (r & Hr & [= <-]).
  unfold create_receiver in Hr. apply res_bind_Ok in Hr as (nm & Hn & Hr).
  apply res_bind_Ok in Hr as (ad & Ha & [= <-]).
  destruct (IH _ Hrun) as (new & -> & Hk & Hok). eexists (_ :: new). rewrite <- app_assoc. split; [done|].
  split; [cbn; by rewrite Hk|]. by constructor.
Qed.
End gateway_construction.

(** ** Properties *)

Section gateway_properties.
Context `{OrderEnv} `{MapOrder} `{FromCharsUint16}.

(** The first account of a file with a name. *)
Definition first_account (items : list GatewayConfig.item) (name : string) : option GatewayConfig.account :=
  foldr (λ i rest, match i with
    | GatewayConfig.Account a => if bool_decide (GatewayConfig.ac_name a = name) then Some a else rest
    | _ => rest end) None items.

Lemma config_accounts items c c' name :
  foldM GatewayConfig.on_item c items = Ok c' →
  GatewayConfig.accounts c' !! name =
  match GatewayConfig.accounts c !! name with Some a => Some a | None => first_account items name end.
Proof.
  revert c. induction items as [|i items IH]; intros c; [intros [= <-]; by destruct (_ !! name)|].
  intros (c1 & Hi & Hrun)%res_bind_Ok. rewrite (IH c1 Hrun).
  destruct i as [a|u|l z|l|k]; simplify_eq/=; try done.
  rewrite lookup_try_emplace. destruct (decide (GatewayConfig.ac_name a = name)) as [->|Hne].
  - rewrite bool_decide_eq_true_2 by done. by destruct (GatewayConfig.accounts c !! name).
  - by rewrite bool_decide_eq_false_2.
Qed.

(** Accounts.  The accounts of the gateway are those of the file, each with the
    login, password and secret of the first account of the file with that name,
    whatever the order of the table: making them never fails. *)
Theorem accounts_created items config :
  GatewayConfig.create items = Ok config →
  ∃ accounts, create_accounts config = Ok accounts
    ∧ ∀ name, accounts !! name = credentials <$> first_account items name.
Proof.
  intros Hc. exists (credentials <$> GatewayConfig.accounts config). split.
  - apply create_accounts_spec. eapply config_names; [exact Hc|]. intros n a Hn. cbn in Hn. by rewrite lookup_empty in Hn.
  - intros name. rewrite lookup_fmap, (config_accounts items _ _ name Hc). cbn. by rewrite lookup_empty.
Qed.

(** C34: Sessions.  With market segments to trade, each account has exactly one order
    entry session, and it is one of the {e first} market segment of the settings,
    by the low eight bits of its number: the sessions of the other market
    segments are made, use up a stream id each, and are dropped, because the
    table has one session per account.  The stream ids follow those of the
    market data and differ between accounts. *)
Theorem sessions_first_segment settings accounts sh n item items t n' :
  market_segment_ids settings = item :: items → 0 ≤ n → n + Z.of_nat (size accounts) < 2 ^ 16 →
  create_order_entries settings accounts sh n = Ok (t, n') →
  ∃ msid ms, from_chars_uint16 item = Ok msid ∧ ilink_config_ sh !! u8 msid = Some ms
    ∧ (∀ name, t !! name = None ↔ accounts !! name = None)
    ∧ ∀ name a, accounts !! name = Some a →
        ∃ i, map_order accounts !! i = Some (name, a)
          ∧ t !! name = Some (create_session settings (n + 1 + Z.of_nat i) a msid ms).
Proof.
  intros Hitems Hn Hlt. unfold create_order_entries. rewrite Hitems. case_bool_decide; [done|]. cbn [foldM].
  intros ([t1 n1] & Hone & Hrest)%res_bind_Ok. apply res_bind_Ok in Hone as (msid & Hmsid & Hone).
  unfold get_market_segment in Hone at 1. destruct (ilink_config_ sh !! u8 msid) as [ms|] eqn:Hms; [|done].
  injection Hone as Hone.
  assert (length (map_order accounts) = size accounts) as Hlen by (by rewrite map_order_perm, length_map_to_list).
  pose proof (create_sessions_spec settings msid ms (map_order accounts) ∅ n) as Hspec.
  change (foldl _ _ _) with (create_sessions settings accounts msid ms (∅, n)) in Hspec.
  rewrite Hone in Hspec. destruct Hspec as (-> & _ & Hout & Hnew);
    [rewrite map_order_perm; apply NoDup_fst_map_to_list|done|by rewrite Hlen|].
  assert (∀ name a, accounts !! name = Some a → ∃ i, map_order accounts !! i = Some (name, a)
    ∧ t1 !! name = Some (create_session settings (n + 1 + Z.of_nat i) a msid ms)) as Hall.
  { intros name a Ha. apply elem_of_map_order, list_elem_of_lookup in Ha as [i Hi]. exists i. split; [done|].
    by apply Hnew. }
  assert (t = t1) as ->.
  { eapply (more_segments settings accounts sh items); [|exact Hrest].
    intros name a Ha. destruct (Hall name a Ha) as (i & _ & ->). eauto. }
  exists msid, ms. split_and!; try done. intros name. destruct (accounts !! name) as [a|] eqn:Ha.
  - destruct (Hall name a Ha) as (i & _ & ->). done.
  - rewrite Hout; [done|]. intros ([k b] & Hk & Hin)%list_elem_of_fmap. simpl in Hk. subst.
    apply elem_of_map_order in Hin. congruence.
Qed.

(** Receivers.  The receivers of the multicast channels are, for each channel of
    the settings in order, those of its lines: the instrument definitions unless
    there is a definitions file, both recovery feeds on the first line only, and
    the incremental feed on both lines; each has the name that the market data
    side gives the stream that it feeds, and the address and port of the
    configuration. *)
Theorem receivers_listed settings sh m rs :
  create_mdp_receivers settings sh m = Ok rs →
  map receiver_key rs = concat (map (λ id, map (pair id) (channel_lines settings)) (channel_ids settings))
  ∧ Forall (receiver_ok sh m) rs.
Proof.
  unfold create_mdp_receivers. generalize (channel_ids settings). intros ids.
  assert (∀ ids rs0 rs, foldM (λ result channel_id,
      foldM (λ result '(type, priority),
        r ← create_receiver sh m channel_id type priority; Ok (result ++ [r])) result (channel_lines settings))
    rs0 ids = Ok rs →
    ∃ new, rs = rs0 ++ new ∧ map receiver_key new = concat (map (λ id, map (pair id) (channel_lines settings)) ids)
      ∧ Forall (receiver_ok sh m) new) as Hgen.
  { clear ids rs. induction ids as [|id ids IH]; intros rs0 rs.
    { intros [= <-]. exists []. by rewrite app_nil_r. }
    intros (rs1 & Hl & Hrun)%res_bind_Ok. apply create_lines_spec in Hl as (new1 & -> & Hk1 & Hok1).
    destruct (IH _ _ Hrun) as (new2 & -> & Hk2 & Hok2). exists (new1 ++ new2).
    rewrite <- app_assoc, map_app, Hk1, Hk2. split; [done|]. split; [done|]. by apply Forall_app. }
  intros Hrun. destruct (Hgen ids [] rs Hrun) as (new & -> & Hk & Hok). done.
Qed.

(** Routing of actions.  An action for an account without a session is refused
    as an unknown account, without any effect; an action for an account with one
    has the result and the effect it has on that session, for the definitions
    that the market data side has now, and leaves all other sessions and the
    market data side alone.  Quotes are not supported. *)
Theorem actions_routed create_order modify_order cancel_order cancel_all_orders order request_id c :
  let acts {A} (name : string) (m : M Controller A) (f : OrderConfig → SecurityDefinitions → M OrderEntry A) :=
    match order_entry_ c !! name with
    | None => m c = (c, Err RuntimeError)
    | Some se => ∃ c', m c = (c', (f (se_config se) (security_definitions c) (se_state se)).2)
        ∧ market_data_ c' = market_data_ c
        ∧ (∀ name', name' ≠ name → order_entry_ c' !! name' = order_entry_ c !! name')
        ∧ order_entry_ c' !! name = Some {| se_config := se_config se; se_host := se_host se;
            se_state := (f (se_config se) (security_definitions c) (se_state se)).1 |}
    end in
  acts (co_account create_order) (ct_create_order create_order order request_id)
    (λ cfg sd, on_create_order cfg sd create_order order request_id)
  ∧ acts (mo_account modify_order) (ct_modify_order modify_order order)
      (λ cfg sd, on_modify_order cfg sd modify_order order)
  ∧ acts (cn_account cancel_order) (ct_cancel_order cancel_order order)
      (λ cfg sd, on_cancel_order cfg sd order)
  ∧ acts (cl_account cancel_all_orders) (ct_cancel_all_orders cancel_all_orders request_id)
      (λ cfg _, on_cancel_all_orders cfg cancel_all_orders request_id)
  ∧ ct_quotes c = (c, Err NotSupported).
Proof.
  intros acts.
  assert (∀ A name (f : OrderConfig → SecurityDefinitions → M OrderEntry A), acts A name (with_order_entry name f) f)
    as Hacts.
  { intros A name f. unfold acts, with_order_entry. destruct (order_entry_ c !! name) as [se|]; [|done].
    destruct (f _ _ _) as [s' r]. eexists. split; [done|]. cbn. split; [done|].
    split; [intros; by rewrite lookup_insert_ne|by rewrite lookup_insert_eq]. }
  by repeat (split; [apply Hacts|]).
Qed.

(** All sessions start new. *)
Lemma order_entries_initial settings accounts sh n t n' :
  create_order_entries settings accounts sh n = Ok (t, n') →
  ∀ name se, t !! name = Some se → se_state se = create_order_entry.
Proof.
  set (new := λ w : gmap string session * Z, ∀ name se, w.1 !! name = Some se → se_state se = create_order_entry).
  change (create_order_entries settings accounts sh n = Ok (t, n') → new (t, n')).
  assert (∀ w msid ms, new w → new (create_sessions settings accounts msid ms w)) as Hone.
  { intros w msid ms Hw. unfold create_sessions. apply (foldl_inv new); [done|]. intros [m k] [name a] Hm _ name' se. simpl.
    rewrite lookup_try_emplace. case_decide; [|apply Hm]. intros [= <-].
    destruct (m !! name') as [se|] eqn:E; [by apply (Hm name')|done]. }
  unfold create_order_entries. destruct (market_segment_ids settings) as [|item items]; [by intros [= <- <-]|].
  case_bool_decide; [done|]. generalize (item :: items). intros l.
  assert (new (∅, n)) as Hw by done. revert Hw. generalize (∅ : gmap string session, n). intros w.
  revert w. induction l as [|x l IH]; intros w Hw; [by intros [= ->]|].
  intros (w1 & Hx & Hl)%res_bind_Ok. apply res_bind_Ok in Hx as (msid & _ & Hx).
  destruct (get_market_segment msid sh) as [ms|]; [|done]. injection Hx as <-. eapply IH, Hl. by apply Hone.
Qed.

(** C5: The gateway.  From its construction on, whatever packets, actions, timers
    and callbacks there are, as long as the market data side does not stop the
    process: the market data side keeps its invariant and loses nothing; every session that was made is
    there, has no other member, and is where a run of some inputs of its own has
    brought it -- nothing that happens to another session, or to the market data
    side, can be told from it but the definitions -- so that its log is one that
    the specification of a session allows. *)
Theorem controller_safe settings config sh c events c' :
  8 * Z.of_nat (length (channel_ids settings)) < 2 ^ 16 →
  create_controller settings config sh = Ok c → foldM ct_step c events = Ok c' →
  manager_inv (market_data_ c') ∧ manager_kept (market_data_ c) (market_data_ c')
  ∧ mdp_receivers_ c' = mdp_receivers_ c
  ∧ (∀ name, is_Some (order_entry_ c' !! name) ↔ is_Some (order_entry_ c !! name))
  ∧ ∀ name se, order_entry_ c !! name = Some se → ∃ inputs,
      let s := oe_run (se_config se) (se_state se) inputs in
      order_entry_ c' !! name =
        Some {| se_config := se_config se; se_host := se_host se; se_state := s |}
      ∧ ∃ parties, monitor_log initial_view (oe_events s) =
          Some {| sv_status := oe_connection_status s; sv_number := oe_outbound s; sv_parties := parties |}.
Proof.
  intros Hlt Hc Hrun. destruct (ct_run_kept c events c' Hrun) as [Hm Hs Hr].
  assert (manager_inv (market_data_ c)
    ∧ ∀ name se, order_entry_ c !! name = Some se → se_state se = create_order_entry) as [Hinv Hnew].
  { unfold create_controller in Hc. apply res_bind_Ok in Hc as (accounts & _ & Hc).
    apply res_bind_Ok in Hc as (sd & Hsd & Hc). apply res_bind_Ok in Hc as ([m n] & Hmd & Hc).
    apply res_bind_Ok in Hc as (rs & _ & Hc). apply res_bind_Ok in Hc as ([t n1] & Ht & [= <-]). cbn.
    split; [|by eapply order_entries_initial].
    unfold create_manager in Hmd. apply res_bind_Ok in Hmd as ([channels n2] & Hch & [= <- <-]).
    apply (create_channels_Ok (mdp_config sh) 0) in Hch as [[_ _ _ Hw _] _]; [|lia|lia|split; [lia|..]; done].
    split; [by eapply create_definitions_sd_wf|done|done]. }
  destruct (Hm Hinv) as [Hinv' Hk]. split_and!; try done.
  - intros name. specialize (Hs name). destruct (order_entry_ c !! name) as [se|].
    + destruct Hs as [inputs ->]. split; eauto.
    + by rewrite Hs.
  - intros name se Hse. specialize (Hs name). rewrite Hse in Hs. destruct Hs as [inputs Hi].
    exists inputs. split; [exact Hi|]. rewrite (Hnew name se Hse).
    destruct (oe_run_ok (se_config se) inputs create_order_entry) as [parties (_ & _ & Hp)]; [|by exists parties].
    exists false. by split_and!.
Qed.
End gateway_properties.

(** ** Witnesses *)

Section gateway_witnesses.
#[local] Existing Instance example_order_env.
#[local] Existing Instance listed_map_order.
#[local] Instance example_chars16 : FromCharsUint16 := {| from_chars_uint16 := digits 0 |}.

Definition example_account_item (name login : string) (master : bool) : GatewayConfig.item :=
  GatewayConfig.Account {| GatewayConfig.ac_name := name; GatewayConfig.ac_login := login;
    GatewayConfig.ac_password := "key"; GatewayConfig.ac_secret := "secret"; GatewayConfig.ac_master := master |}.

Definition example_items : list GatewayConfig.item :=
  [example_account_item "A1" "ABC" true; GatewayConfig.User "trader"; example_account_item "A2" "DEF" false;
   example_account_item "A1" "XYZ" false].

Definition example_gateway_config : GatewayConfig.t :=
  match GatewayConfig.create example_items with Ok c => c | Err _ => GatewayConfig.empty end.

Definition example_settings : GatewaySettings := {|
  channel_ids := [310]; secdef_config_file := None; market_segment_ids := ["64"; "68"]%string;
  firm_id := "007"; location := "UK" |}.

Definition example_connection (name : string) (port : Z) : Config.Connection := {|
  Config.multicast_address := "224.0.31.1"; Config.port := port; Config.name := name |}.

Definition example_connections : gmap ConnectionType.t (gmap Priority.t Config.Connection) :=
  let lines s n : gmap Priority.t Config.Connection :=
    {[Priority.PRIMARY := example_connection (s +:+ "A") n; Priority.SECONDARY := example_connection (s +:+ "B") (n + 1)]} in
  {[ConnectionType.INSTRUMENT_DEFINITION := lines "310N"%string 14000;
    ConnectionType.MBP_MARKET_RECOVERY := lines "310S"%string 14002;
    ConnectionType.MBOFD_MARKET_RECOVERY := lines "310SMBO"%string 14004;
    ConnectionType.INCREMENTAL := lines "310I"%string 14006]}.

Definition example_segment (host : string) : IlinkReader.MarketSegment :=
  IlinkReader.Build_MarketSegment "CME" "iLink3" host "" "" "" "" "".

Definition example_gateway_shared : GatewayShared := {|
  mdp_config := {|
    Config.connections_ := {[310 := example_connections]}; Config.connection_types_ := ∅;
    Config.names_ := {[310 := example_names "310"]} |};
  ilink_config_ := {[64 := example_segment "69.50.112.45"; 68 := example_segment "69.50.112.72"]} |}.

Lemma accounts_created_witness :
  ∃ accounts, create_accounts example_gateway_config = Ok accounts
    ∧ accounts !! "A1"%string = Some {| account_name := "A1"; account_login := "ABC"; account_password := "key";
        account_secret := "secret" |}
    ∧ accounts !! "A3"%string = None.
Proof.
  destruct (accounts_created example_items example_gateway_config) as (accounts & Ha & Hl).
  - vm_compute. reflexivity.
  - exists accounts. split; [exact Ha|]. rewrite !Hl. split; reflexivity.
Defined.

Definition example_accounts : gmap string Account :=
  match create_accounts example_gateway_config with Ok a => a | Err _ => ∅ end.

Lemma sessions_first_segment_witness :
  ∃ t n' i, create_order_entries example_settings example_accounts example_gateway_shared 8 = Ok (t, n')
    ∧ t !! "A2"%string = Some (create_session example_settings (8 + 1 + Z.of_nat i)
        {| account_name := "A2"; account_login := "DEF"; account_password := "key"; account_secret := "secret" |}
        64 (example_segment "69.50.112.45")).
Proof.
  destruct (is_ok_value (create_order_entries example_settings example_accounts example_gateway_shared 8))
    as [[t n'] Ht]; [vm_compute; reflexivity|].
  destruct (sessions_first_segment example_settings example_accounts example_gateway_shared 8 "64" ["68"]%string t n')
    as (msid & ms & Hid & Hms & _ & Hall); [reflexivity|lia|vm_compute; reflexivity|exact Ht|].
  destruct (Hall "A2"%string {| account_name := "A2"; account_login := "DEF"; account_password := "key";
    account_secret := "secret" |}) as (i & _ & Hi); [vm_compute; reflexivity|].
  exists t, n', i. split; [exact Ht|]. rewrite Hi. vm_compute in Hid. injection Hid as <-.
  vm_compute in Hms. injection Hms as <-. reflexivity.
Defined.

Definition example_controller : res Controller :=
  create_controller example_settings example_gateway_config example_gateway_shared.

Lemma receivers_listed_witness :
  ∃ m n rs, create_manager no_sd [310] (mdp_config example_gateway_shared) None 0 = Ok (m, n)
    ∧ create_mdp_receivers example_settings example_gateway_shared m = Ok rs
    ∧ map receiver_key rs =
        [(310, (ConnectionType.INSTRUMENT_DEFINITION, Priority.PRIMARY));
         (310, (ConnectionType.MBP_MARKET_RECOVERY, Priority.PRIMARY));
         (310, (ConnectionType.MBOFD_MARKET_RECOVERY, Priority.PRIMARY));
         (310, (ConnectionType.INCREMENTAL, Priority.PRIMARY)); (310, (ConnectionType.INCREMENTAL, Priority.SECONDARY))].
Proof.
  destruct (is_ok_value (create_manager no_sd [310] (mdp_config example_gateway_shared) None 0)) as [[m n] Hm];
    [vm_compute; reflexivity|].
  assert (is_ok (create_mdp_receivers example_settings example_gateway_shared m) = true) as Hok.
  { enough (is_ok ('(m, _) ← create_manager no_sd [310] (mdp_config example_gateway_shared) None 0;
      create_mdp_receivers example_settings example_gateway_shared m) = true) as Hx
      by (rewrite Hm in Hx; exact Hx). vm_compute. reflexivity. }
  destruct (is_ok_value _ Hok) as [rs Hrs]. exists m, n, rs. split; [exact Hm|]. split; [exact Hrs|].
  exact (proj1 (receivers_listed example_settings example_gateway_shared m rs Hrs)).
Defined.

Definition example_ct_events : list ct_event :=
  [CtStart; CtConnected "A1"; CtCancelAllOrders example_cancel_all "id";
   CtReceive 3 example_trace [heartbeat_packet 1; heartbeat_packet 2; []; heartbeat_packet 3];
   CtTimer 100 (λ _, true) 100; CtControl ENABLE; CtQuotes; CtDisconnected "A1"; CtStop].

Lemma controller_safe_witness :
  ∃ c c', example_controller = Ok c ∧ foldM ct_step c example_ct_events = Ok c'
    ∧ manager_inv (market_data_ c') ∧ mdp_receivers_ c' = mdp_receivers_ c.
Proof.
  destruct (is_ok_value example_controller) as [c Hc]; [vm_compute; reflexivity|].
  assert (is_ok (foldM ct_step c example_ct_events) = true) as Hok.
  { enough (is_ok (c ← example_controller; foldM ct_step c example_ct_events) = true) as Hx
      by (rewrite Hc in Hx; exact Hx). vm_compute. reflexivity. }
  destruct (is_ok_value _ Hok) as [c' Hc']. exists c, c'. split; [exact Hc|]. split; [exact Hc'|].
  destruct (controller_safe example_settings example_gateway_config example_gateway_shared c example_ct_events c')
    as (Hm & _ & Hr & _); [reflexivity|exact Hc|exact Hc'|]. split; [exact Hm|exact Hr].
Defined.
End gateway_witnesses.
